(* ===== verification/_CoqProject ===== *)
-Q . S2P
Prelude.v
Base64.v
Md5.v
Des.v
CString.v
CgiUtil.v
Text.v
Double.v
CJson.v
CJsonHeap.v
CJsonParse.v
CJsonTyped.v
CJsonPrint.v
CJsonMinify.v
CJsonCopy.v
CJsonCompare.v
CJsonRoundtrip.v
Compact.v
CJsonMisc.v
ParseError.v
World.v
MysqlOp.v
RedisOp.v
Sql.v
Kv.v
CgiCommon.v
Logic.v
MakeLog.v
Catalogue.v
Login.v
Register.v
FastUpload.v
Interleave.v
FilesOp.v
Race.v
Upload.v
Files.v
ShareOps.v
Ranking.v
Requests.v
Process.v
Session.v
System.v
Public.v
Lists.v
UploadMain.v
Site.v
Server.v
Witnesses.v
PublicWitnesses.v
