(* ===== verification/Prelude.v ===== *)
(** * CloudDisk: the CGI programs of a file hosting service

    CloudDisk is a set of FastCGI programs in C behind a web server. A client
    registers, logs in and receives a token; with it the client uploads files,
    lists them, shares and withdraws them, copies the shared files of others and
    deletes them. File contents live in a FastDFS cluster, one row per content in
    MySQL with the number of entries that refer to it; tokens and the ranking of
    shared files live in Redis. The programs of src/src/cgi share the helpers of
    src/src/common: the database and Redis wrappers, the JSON library, the codecs
    of the token, string utilities, configuration and logging.

    ** Files

    - [Prelude]: undefined behaviour as a value ([outcome]), lists, bytes, words,
      and the tactics and hints the other files use.
    - [Base64], [Md5], [Des]: src/src/common/base64.c, md5.c and des.c on lists of
      bytes and on 32-bit words. Des is parametric in the size of [long].
    - [CString], [CgiUtil]: C strings in buffers, and the string utilities of
      cgi_util.c ([trim_space], [memstr], [query_parse_key_value],
      [get_file_suffix], [str_replace]).
    - [Text], [Double]: what the C library prints and reads: decimal numbers, and
      IEEE binary64 with [strtod] and [%1.15g] / [%1.17g].
    - [CJson], [CJsonParse], [CJsonPrint]: cJSON.c as the programs use it: trees,
      the parser on a bounded buffer, the formatted and the unformatted printer
      into a growing buffer (with and without a realloc hook) or into a buffer of
      the caller. [CJsonTyped] says which trees the parser returns,
      [CJsonRoundtrip] joins parser and printer, [Compact] printer and
      minification. [CJsonMisc]: parsing with options, values read and set in
      place, hooks and version. [ParseError]: where a failed parse stops, and the
      error pointer.
    - [CJsonHeap], [CJsonCopy], [CJsonCompare], [CJsonMinify]: the rest of cJSON.c:
      the lists of children as nodes with pointers in a heap (access, append,
      detach, insert, replace, delete), constructors and duplication with an
      allocator that may fail at any call (class [Allocator]), type tests and
      comparison, minification in place.
    - [World]: the state the programs act on (database server, Redis server,
      storage cluster, files, clock, output, open connections), the monad of
      their code, and the class [Services] of all the software they only call.
    - [MysqlOp], [RedisOp]: mysql_op.c with cfg.c, and redis_op.c.
    - [Sql], [Kv]: the statements and Redis commands the programs send, what each
      does on tables and on the key space, and the classes [SqlServer] and
      [RedisServer]: the promise that a server executes the text it is sent.
      [SqlPaging] and [RedisRanking] add what the lists of the shares rely on: a
      page of some order of the rows, and the members of a set by falling score.
    - [CgiCommon]: what the programs repeat: reading a request, status replies,
      [verify_token], the steps that record an entry.
    - [Logic]: the predicate transformer [run] with a rule per primitive step.
    - [MakeLog]: make_log.c on a file system.
    - [Catalogue]: the invariant [consistent] of the tables and the abstract
      operations on them.
    - [Login], [Register], [FastUpload], [FilesOp], [Upload], [Files], [ShareOps]:
      cgi_login.c, cgi_register.c, cgi_md5.c, cgi_filesop.c, cgi_upload.c,
      cgi_files.c, and cgi_sharefiles.c with cgi_sharefilesop.c: each function of
      the program and one turn of its request loop ([..._main]).
    - [Ranking]: what cgi_sharefiles.c shows: the number of shares, a page of them
      and the ranking by downloads, with the relation [mirrored] between the
      ranking in Redis and the table. [Public]: sharing, withdrawing, counting
      downloads and listing as one transition system that keeps it.
    - [Interleave]: any number of runs of cgi_md5.c interleaved statement by
      statement: [deal_md5] as a tree of statements (shown to be the program of
      [FastUpload]), a step relation on several trees and one database.
    - [Race]: an upload by digest with a second upload or a deletion in between.
    - [Requests]: which requests may change the tables, and the buffers that
      outlive a request.
    - [Process]: [main] of every program: its start, its arrays, its loop.
    - [Session]: what a client sends and reads, a working installation
      ([working]), and single requests on it from body to answer.
    - [System]: all operations as one transition system.
    - [UploadMain]: a multipart upload from the body of its request to the record
      of the stored file; what the storage tools print is a hypothesis
      ([tools_ok]).
    - [Lists]: the requests that list files, and a download, from body to answer.
    - [Site]: the processes serving requests in any order, as one transition
      system, against an abstract site of tables, keys and answers.
    - [Server]: concrete servers that parse the text of a statement or command and
      execute it; they are instances of the contracts.
    - [Witnesses], [PublicWitnesses]: the theorems about the programs applied on
      those servers.

    ** How the code is modelled

    A C function is a total function into [outcome]: [Undef] is the first
    operation the language leaves undefined (an access outside an object, a null
    pointer, a read of an uninitialised object, a signed overflow). Bytes, words
    and [int] are integers with their wrap-around or overflow check written out.
    Fixed [char] arrays keep their size: a [sprintf] or [strcpy] that does not fit
    is undefined. The code of the CGI programs is in the state monad [M] over
    [world]; each external call is a field of [Services], so that nothing is
    assumed of it unless a theorem asks for [SqlServer] or [RedisServer].
    Those contracts speak of servers that accept a connection and execute every
    statement ([run true], [db_up true]); theorems that hold whatever the servers
    answer use [run false] or have no contract at all.

    Loops of the C code with no structural bound take fuel and give
    [Undef NoReturn] without it: the parser gets twice the length of the text and
    two (each call consumes a byte or is followed by one that does), loops over a
    list of children get the number of nodes of the heap, [trim_space], [memstr]
    and [str_replace] the length of their buffer, digits of a decimal exponent
    400. That the fuel suffices is part of the theorems: [parse_text_total],
    [str_replace_correct], the list theorems of [CJsonHeap].

    ** What is proved

    - The catalogue. [consistent]: entries, contents and counters have unique
      keys, a content's counter is the number of entries that refer to it, a
      user's counter the number of the user's entries, the counter of shares the
      number of shares. Every operation refines its abstract counterpart and keeps
      the invariant ([deal_md5_refines], [store_fileinfo_refines],
      [del_file_refines], [share_file_refines], [cancel_share_refines],
      [save_file_refines]); sharing and withdrawing is the identity
      ([share_cancel_roundtrip]); every history of operations is a history of the
      abstract catalogue and no operation gets stuck ([history_refines],
      [history_progress]); the list a user is shown parses back to the user's
      files ([user_filelist_correct]).
    - The public files. A page of the shares and the ranking parse back to the
      shares of the table ([share_filelist_correct], [ranking_correct]); a ranking
      of another size than the table is rebuilt from it; every history of shares,
      withdrawals, downloads and rankings keeps the set in Redis a mirror of the
      table ([public_history]). A download is counted in both
      ([share_pv_correct]), and reported as a failure.
    - The site. The processes of the eight programs, serving admissible requests
      of twelve kinds in any order, refine the abstract site ([site_refines]): this
      joins the printer and parser of JSON, the request loop, tokens, the server
      wrappers, the catalogue and the ranking. [session_correct] is the shortest
      case in full: login, then an upload with the token of the answer or another
      one. [upload_main_correct] says of the multipart upload what is recorded.
    - Concurrency. Of any number of interleaved uploads by digest none blocks or
      is undefined, no entry is without content, and counters stay within bounds
      ([uploads_interleave]); at the end the answers are right and counters are
      consistent when contents and users differ ([uploads_interleave_end]).
    - Access. A login needs the registered password ([check_user_pwd_sound]), the
      token it stores is the only one accepted ([token_roundtrip]), and requests
      without it change nothing ([md5_main_authorised],
      [filesop_main_authorised]). Registration keeps names unique
      ([user_register_correct]).
    - Formats. JSON: what is printed is read back ([json_roundtrip]), the printer
      writes exactly the text and stays in its buffer ([print_correct],
      [print_safe], [print_preallocated_correct], [print_buffered_correct]), the
      parser terminates inside its buffer ([parse_text_total]), returns well typed
      trees ([parse_text_typed]), reports the end of what it read
      ([parse_end_exact]) and, when it fails, a position inside the text
      ([parse_error_inside], [parse_error_exact]). The lists in memory behave as lists, and a deletion frees each node below it
      once ([array_insert], [array_delete], [array_replace],
      [object_add_lookup], [object_delete]); a copy or a new value is complete or
      leaves nothing behind, whichever allocation fails ([duplicate_correct],
      [add_string_to_object_correct], [create_int_array_correct]), and equal
      trees compare equal ([compare_equal]). Minification in place is a one-pass
      function of the text ([minify_correct]) and turns formatted text into
      unformatted text ([minify_print]). A multipart body is taken apart into
      its parts ([parse_body_roundtrip]). Base64 and DES are inverted by their
      decoders, MD5 is the digest of the padded message.
    - Utilities and logging: [query_parse_correct], [memstr_correct],
      [str_replace_correct], [dumpmsg_appends].
    - Where the code departs from its purpose: the counters after deleting an
      entry of someone else, a refused query reported as success, content stored
      twice, the interleavings that lose a reference ([fast_upload_race]) or the
      content of an entry ([upload_delete_loses]), the request that repeats its
      predecessor, the share anyone can withdraw ([cancel_without_token]), the
      ranking that is trusted for its size ([ranking_stale]), the
      copy from an empty buffer ([print_buffered_empty]), the upload that replaces
      the configuration ([upload_replaces_configuration]), the parser's read
      behind a buffer without terminator, the literal that minification changes
      ([minify_corrupts]), the object with a name twice
      ([compare_duplicate_names]), the DES tables and key copy.

    ** Bounds of the model

    Log calls in the CGI programs are left out (logging itself is [MakeLog]). The
    allocations of the parser succeed; those of the printer may fail at any size.
    The repository has no schema: the
    tables have the columns the statements name and no keys. Statements of
    different processes interleave in [Interleave] (uploads by digest, each at
    most eight steps) and in [Race]; in [System] and [Site] an operation or a
    request runs alone, and requests of different processes alternate. Requests
    of [Site] fit their arrays and the statements ([admissible]), and an upload, a
    deletion, a withdrawal, a download or a ranking finds what the program
    assumes. The programs ask for a member of the public set by [ZLEXCOUNT], which
    Redis specifies for members of one score: shares and downloads are covered for
    such sets, withdrawals and lists for all. Texts of a node in the
    heap are values of the node: their allocation may fail, but they have no
    address of their own. [cJSON_Duplicate] and [cJSON_Compare] take the depth
    of their recursion as fuel, and their theorems say how much a tree needs
    ([weight]).

    ** Not modelled

    The vendored libraries of src/lib, the web client of src/src/web, the build
    and deployment files; the mutex of make_log.c, which only serialises writers;
    the child's side of [fork] in cgi_upload.c, whose output is a parameter.
    [share_file] and [pv_file] of cgi_filesop.c are modelled, but no request of
    [Site] reaches them: [main] has their calls commented out. *)

From Stdlib Require Import ZArith Lia Bool Btauto.
From stdpp Require Import base tactics numbers list.

Declare Scope cd_scope.
Delimit Scope cd_scope with cd.
Open Scope Z_scope.

(** ** Undefined behaviour as a value

    A C function is modelled by a total function into [outcome]: [Ok] carries
    what the function computes, [Undef] records the first operation whose
    behaviour the C language leaves undefined. *)

Inductive ub :=
  | OutOfBounds      (* a read or write outside the object *)
  | NullDeref        (* a dereference of the null pointer *)
  | Uninit           (* a read of an object that was never written *)
  | IntOverflow      (* a signed result outside the range of its type *)
  | NoReturn.        (* the iteration bound of the model was reached *)

#[export] Instance ub_eq_dec : EqDecision ub.
Proof. solve_decision. Defined.

Inductive outcome (A : Type) :=
  | Ok (a : A)
  | Undef (u : ub).
Arguments Ok {A} a.
Arguments Undef {A} u.

#[export] Instance outcome_eq_dec `{EqDecision A} : EqDecision (outcome A).
Proof. solve_decision. Defined.

Definition obind {A B} (m : outcome A) (k : A -> outcome B) : outcome B :=
  match m with Ok a => k a | Undef u => Undef u end.

Definition ofmap {A B} (f : A -> B) (m : outcome A) : outcome B :=
  obind m (fun a => Ok (f a)).

Notation "'let*' x ':=' m 'in' k" := (obind m (fun x => k))
  (at level 200, x name, right associativity,
   format "'[v' 'let*'  x  ':='  m  'in' '/' k ']'") : cd_scope.
Notation "'let*' ' p ':=' m 'in' k" := (obind m (fun z => match z with p => k end))
  (at level 200, p pattern, right associativity) : cd_scope.
Open Scope cd_scope.

Lemma obind_ok {A B} (m : outcome A) (k : A -> outcome B) b :
  obind m k = Ok b -> exists a, m = Ok a /\ k a = Ok b.
Proof. destruct m; simpl; [eauto | discriminate]. Qed.

(** [obind_inv H] opens a hypothesis [obind m k = Ok b]. *)
Ltac obind_inv H :=
  let a := fresh "a" in
  let E := fresh "E" in
  apply obind_ok in H; destruct H as (a & E & H).

(** [by_decide] proves a closed decidable proposition by evaluating its
    decision procedure. *)
Ltac by_decide :=
  match goal with
  | |- ?P => exact (bool_decide_unpack P ltac:(vm_compute; exact I))
  end.

(** ** Machine integers *)

Definition u8 (x : Z) : Z := x mod 2 ^ 8.
Definition u32 (x : Z) : Z := x mod 2 ^ 32.
Definition INT_MAX : Z := 2 ^ 31 - 1.

Definition is_byte (x : Z) : Prop := 0 <= x < 256.
Definition is_word (x : Z) : Prop := 0 <= x < 2 ^ 32.

#[export] Instance is_byte_dec x : Decision (is_byte x).
Proof. unfold is_byte. apply _. Defined.
#[export] Instance is_word_dec x : Decision (is_word x).
Proof. unfold is_word. apply _. Defined.

Create HintDb cd discriminated.

Lemma u32_range x : is_word (u32 x).
Proof. unfold is_word, u32. apply Z.mod_pos_bound. lia. Qed.
Lemma u8_range x : is_byte (u8 x).
Proof. unfold is_byte, u8. change 256 with (2 ^ 8). apply Z.mod_pos_bound. lia. Qed.
#[export] Hint Resolve u32_range u8_range : cd.

Lemma u32_small x : is_word x -> u32 x = x.
Proof. intros H. apply Z.mod_small, H. Qed.

Lemma testbit_high x n i : 0 <= x < 2 ^ n -> n <= i -> Z.testbit x i = false.
Proof.
  intros Hx Hi. destruct (decide (n < 0)) as [Hn|Hn].
  { rewrite Z.pow_neg_r in Hx by lia. lia. }
  rewrite <- (Z.mod_small x (2 ^ n)) by done. apply Z.mod_pow2_bits_high; lia.
Qed.

Lemma testbit_byte x i : is_byte x -> 8 <= i -> Z.testbit x i = false.
Proof. intros. by apply (testbit_high x 8). Qed.

Lemma testbit_word x i : is_word x -> 32 <= i -> Z.testbit x i = false.
Proof. intros. by apply (testbit_high x 32). Qed.

Lemma testbit_mod2 x n i : 0 <= n ->
  Z.testbit (x mod 2 ^ n) i = (i <? n) && Z.testbit x i.
Proof.
  intros Hn. destruct (Z.ltb_spec i n).
  - destruct (decide (0 <= i)).
    + by rewrite Z.mod_pow2_bits_low by lia.
    + by rewrite !Z.testbit_neg_r by lia.
  - rewrite Z.mod_pow2_bits_high by lia. done.
Qed.

(** Two non-negative numbers below [2^n] are equal when their first [n] bits
    are. *)
Lemma bits_eq n x y : 0 <= n ->
  0 <= x < 2 ^ n -> 0 <= y < 2 ^ n ->
  (forall i, 0 <= i < n -> Z.testbit x i = Z.testbit y i) -> x = y.
Proof.
  intros Hn Hx Hy H. apply Z.bits_inj'. intros i Hi.
  destruct (decide (i < n)); [apply H; lia|].
  rewrite !(testbit_high _ n) by lia. done.
Qed.

Lemma bound_of_bits n x : 0 <= n -> 0 <= x ->
  (forall i, n <= i -> Z.testbit x i = false) -> x < 2 ^ n.
Proof.
  intros Hn Hx H. assert (x = x mod 2 ^ n) as ->.
  - apply Z.bits_inj'. intros i Hi. rewrite testbit_mod2 by done.
    destruct (Z.ltb_spec i n); [done | rewrite H by lia; done].
  - apply Z.mod_pos_bound. lia.
Qed.

Lemma land_bound n x y : 0 <= n -> 0 <= x < 2 ^ n -> 0 <= y -> 0 <= Z.land x y < 2 ^ n.
Proof.
  intros Hn Hx Hy. assert (0 <= Z.land x y) by (apply Z.land_nonneg; lia). split; [done|].
  apply bound_of_bits; [done..|]. intros i Hi.
  rewrite Z.land_spec, (testbit_high x n) by lia. done.
Qed.

Lemma lor_bound n x y : 0 <= n -> 0 <= x < 2 ^ n -> 0 <= y < 2 ^ n -> 0 <= Z.lor x y < 2 ^ n.
Proof.
  intros Hn Hx Hy. assert (0 <= Z.lor x y) by (apply Z.lor_nonneg; lia). split; [done|].
  apply bound_of_bits; [done..|]. intros i Hi.
  rewrite Z.lor_spec, !(testbit_high _ n) by lia. done.
Qed.

Lemma lxor_bound n x y : 0 <= n -> 0 <= x < 2 ^ n -> 0 <= y < 2 ^ n -> 0 <= Z.lxor x y < 2 ^ n.
Proof.
  intros Hn Hx Hy. assert (0 <= Z.lxor x y) by (apply Z.lxor_nonneg; lia). split; [done|].
  apply bound_of_bits; [done..|]. intros i Hi.
  rewrite Z.lxor_spec, !(testbit_high _ n) by lia. done.
Qed.

Lemma testbit_shiftl x n i : 0 <= n -> Z.testbit (Z.shiftl x n) i = Z.testbit x (i - n).
Proof.
  intros Hn. destruct (decide (0 <= i)); [by apply Z.shiftl_spec|].
  by rewrite !Z.testbit_neg_r by lia.
Qed.

Lemma testbit_shiftr x n i : 0 <= n ->
  Z.testbit (Z.shiftr x n) i = (0 <=? i) && Z.testbit x (i + n).
Proof.
  intros Hn. destruct (Z.leb_spec 0 i); [by apply Z.shiftr_spec|].
  by rewrite Z.testbit_neg_r by lia.
Qed.

(** [testbits] pushes [Z.testbit] through the bit operations. *)
Ltac testbits :=
  repeat first
    [ rewrite Z.land_spec | rewrite Z.lor_spec | rewrite Z.lxor_spec
    | rewrite testbit_shiftl by lia | rewrite testbit_shiftr by lia
    | rewrite testbit_mod2 by lia ].

(** [enum_bit i H] splits a goal about a bit index [H : 0 <= i < n] into one goal per
    index and evaluates the positions. *)
Ltac enum_bit i H :=
  match type of H with
  | ?k <= i < ?n =>
      let b := eval vm_compute in (k <? n) in
      lazymatch b with
      | false => exfalso; lia
      | true =>
          let C := fresh "C" in
          destruct (Z.eq_dec i k) as [C|C];
          [ clear H; subst i
          | let H' := fresh "H" in
            let k' := eval vm_compute in (k + 1) in
            assert (k' <= i < n) as H' by lia; clear H C; enum_bit i H' ]
      end
  end.

(** [eval_bits] evaluates the closed positions, comparisons and bits. *)
Ltac eval_bits :=
  repeat match goal with
  | |- context [Z.testbit ?x ?k] =>
      lazymatch k with
      | Z0 => fail | Zpos _ => fail | Zneg _ => fail
      | _ => let v := eval vm_compute in k in change (Z.testbit x k) with (Z.testbit x v)
      end
  end;
  repeat match goal with
  | |- context [Z.testbit ?x (Zneg ?p)] => rewrite (Z.testbit_neg_r x (Zneg p)) by reflexivity
  | |- context [Z.testbit (Zpos ?p) ?k] =>
      let v := eval vm_compute in (Z.testbit (Zpos p) k) in
      change (Z.testbit (Zpos p) k) with v
  | |- context [?a <? ?b] =>
      let v := eval vm_compute in (a <? b) in change (a <? b) with v
  | |- context [?a <=? ?b] =>
      let v := eval vm_compute in (a <=? b) in change (a <=? b) with v
  end.

(** [byte_bits] proves an equation between byte-sized bit expressions by
    comparing their eight bits. *)
Ltac byte_bits :=
  unfold u8; apply (bits_eq 8);
  [ lia
  | repeat first [ apply (lor_bound 8); [lia|..] | apply (land_bound 8); [lia|..] ];
    try first [ apply u8_range | lia ]
  | try first [ assumption | lia ]
  | let i := fresh "i" in let Hi := fresh "Hi" in
    intros i Hi; enum_bit i Hi; testbits; eval_bits; btauto ].

(** A statement about all integers of a range, checked by evaluation. *)
Lemma seqZ_forallb (P : Z -> bool) m n :
  forallb P (seqZ m n) = true -> forall v, m <= v < m + n -> P v = true.
Proof.
  intros H v Hv. rewrite forallb_forall in H. apply H.
  apply list_elem_of_In, elem_of_seqZ. lia.
Qed.

(** ** Lists in groups of three, and in blocks *)

Lemma list_ind3 {A} (P : list A -> Prop) :
  P [] -> (forall a, P [a]) -> (forall a b, P [a; b]) ->
  (forall a b c l, P l -> P (a :: b :: c :: l)) -> forall l, P l.
Proof.
  intros H0 H1 H2 H3. fix IH 1.
  intros [|a [|b [|c l]]]; [done | apply H1 | apply H2 | apply H3, IH].
Qed.

(** ** Copies into a buffer *)

(** [memcpy(&dst[off], src, n)] where [src] is the list of the [n] bytes read. *)
Definition memcpy (dst : list Z) (off : Z) (src : list Z) : outcome (list Z) :=
  if (0 <=? off) && (off + Z.of_nat (length src) <=? Z.of_nat (length dst)) then
    Ok (take (Z.to_nat off) dst ++ src ++ drop (Z.to_nat off + length src) dst)
  else Undef OutOfBounds.

Lemma memcpy_ok dst off src :
  0 <= off -> off + Z.of_nat (length src) <= Z.of_nat (length dst) ->
  memcpy dst off src =
  Ok (take (Z.to_nat off) dst ++ src ++ drop (Z.to_nat off + length src) dst).
Proof.
  intros H0 H1. unfold memcpy. apply Z.leb_le in H0, H1. by rewrite H0, H1.
Qed.

Lemma memcpy_oob dst off src :
  Z.of_nat (length dst) < off + Z.of_nat (length src) -> memcpy dst off src = Undef OutOfBounds.
Proof.
  intros H. unfold memcpy.
  destruct (Z.leb_spec (off + Z.of_nat (length src)) (Z.of_nat (length dst))); [lia|].
  by rewrite andb_false_r.
Qed.

(** A copy to the start of a buffer. *)
Lemma memcpy_0 dst src : (length src <= length dst)%nat ->
  memcpy dst 0 src = Ok (src ++ drop (length src) dst).
Proof. intros H. rewrite memcpy_ok by lia. by rewrite take_0. Qed.
