(* ===== verification/Base64.v ===== *)
(** Base64 (src/src/common/base64.c): the encoder and decoder of the login
    token. Bytes and characters are the integers 0..255. *)

From Stdlib Require Import ZArith Lia Bool Btauto.
From stdpp Require Import base tactics numbers list.
From S2P Require Import Prelude.

(** The alphabet, as character codes: A-Z, a-z, 0-9, '+', '/'. *)
Definition base64char : list Z :=
  seqZ 65 26 ++ seqZ 97 26 ++ seqZ 48 10 ++ [43; 47].

Definition pad_char : Z := 61.  (* '=' *)

(** [base64char[(int)current]] *)
Definition b64 (current : Z) : Z := nth (Z.to_nat current) base64char 0.

(** One iteration of the [for] loop consumes up to three bytes of [bindata];
    the list is the part of the array from [i] to [binlength]. *)
Fixpoint base64_loop (bindata : list Z) : list Z :=
  match bindata with
  | [] => []
  | b0 :: rest =>
      let current := Z.land (u8 (Z.shiftr b0 2)) 0x3F in
      let o0 := b64 current in
      let current := Z.land (u8 (Z.shiftl b0 4)) 0x30 in
      match rest with
      | [] => [o0; b64 current; pad_char; pad_char]
      | b1 :: rest =>
          let current := Z.lor current (Z.land (u8 (Z.shiftr b1 4)) 0x0F) in
          let o1 := b64 current in
          let current := Z.land (u8 (Z.shiftl b1 2)) 0x3C in
          match rest with
          | [] => [o0; o1; b64 current; pad_char]
          | b2 :: rest =>
              let current := Z.lor current (Z.land (u8 (Z.shiftr b2 6)) 0x03) in
              let o2 := b64 current in
              let current := Z.land (u8 b2) 0x3F in
              let o3 := b64 current in
              o0 :: o1 :: o2 :: o3 :: base64_loop rest
          end
      end
  end.

(** The encoder writes the characters and a terminating NUL. *)
Definition base64_encode (bindata : list Z) : list Z := base64_loop bindata ++ [0].

(** [for (k = 0; k < 64; k++) if (base64char[k] == c) temp = k], from the
    initial value 0xFF that [memset] stored. *)
Definition b64_index (c : Z) : Z :=
  fold_left (fun temp k => if nth (Z.to_nat k) base64char 0 =? c then k else temp)
            (seqZ 0 64) 0xFF.

(** The decoder reads the buffer that holds the text; every read beyond the end
    of the buffer is undefined. The result is the bytes written to [bindata];
    the C function returns their number. *)
Fixpoint base64_decode (base64 : list Z) : outcome (list Z) :=
  match base64 with
  | [] => Undef OutOfBounds
  | c0 :: rest =>
      if c0 =? 0 then Ok [] else
      match rest with
      | c1 :: c2 :: c3 :: rest =>
          let temp0 := b64_index c0 in
          let temp1 := b64_index c1 in
          let temp2 := b64_index c2 in
          let temp3 := b64_index c3 in
          let o0 := Z.lor (Z.land (u8 (Z.shiftl temp0 2)) 0xFC)
                          (Z.land (u8 (Z.shiftr temp1 4)) 0x03) in
          if c2 =? pad_char then Ok [o0] else
          let o1 := Z.lor (Z.land (u8 (Z.shiftl temp1 4)) 0xF0)
                          (Z.land (u8 (Z.shiftr temp2 2)) 0x0F) in
          if c3 =? pad_char then Ok [o0; o1] else
          let o2 := Z.lor (Z.land (u8 (Z.shiftl temp2 6)) 0xF0) (Z.land temp3 0x3F) in
          let* out := base64_decode rest in
          Ok (o0 :: o1 :: o2 :: out)
      | _ => Undef OutOfBounds
      end
  end.

(** ** Lemmas *)

Lemma b64_range_ok v : 0 <= v < 64 ->
  b64_index (b64 v) = v /\ b64 v <> pad_char /\ 0 < b64 v < 128.
Proof.
  intros Hv.
  assert ((b64_index (b64 v) =? v) && negb (b64 v =? pad_char)
          && (0 <? b64 v) && (b64 v <? 128) = true) as H.
  { revert v Hv. apply (seqZ_forallb _ 0 64). vm_compute. reflexivity. }
  rewrite !andb_true_iff, negb_true_iff in H. lia.
Qed.

Lemma sextet_range x m : 0 <= m < 64 -> 0 <= Z.land (u8 x) m < 64.
Proof.
  intros Hm. rewrite Z.land_comm. change 64 with (2 ^ 6).
  apply land_bound; [lia | done | apply u8_range].
Qed.

Lemma sextet_lor x y : 0 <= x < 64 -> 0 <= y < 64 -> 0 <= Z.lor x y < 64.
Proof. apply (lor_bound 6). lia. Qed.
#[local] Hint Resolve sextet_range sextet_lor : cd.

(** The four sextets of a group, and the bytes the decoder rebuilds. A short
    last group is the group padded with zero bytes. *)
Definition sextet0 (b0 : Z) := Z.land (u8 (Z.shiftr b0 2)) 0x3F.
Definition sextet1 (b0 b1 : Z) :=
  Z.lor (Z.land (u8 (Z.shiftl b0 4)) 0x30) (Z.land (u8 (Z.shiftr b1 4)) 0x0F).
Definition sextet2 (b1 b2 : Z) :=
  Z.lor (Z.land (u8 (Z.shiftl b1 2)) 0x3C) (Z.land (u8 (Z.shiftr b2 6)) 0x03).
Definition sextet3 (b2 : Z) := Z.land (u8 b2) 0x3F.

Lemma sextet1_last b0 : Z.land (u8 (Z.shiftl b0 4)) 0x30 = sextet1 b0 0.
Proof. symmetry. apply Z.lor_0_r. Qed.
Lemma sextet2_last b1 : Z.land (u8 (Z.shiftl b1 2)) 0x3C = sextet2 b1 0.
Proof. symmetry. apply Z.lor_0_r. Qed.

Lemma sextet0_ok b0 : 0 <= sextet0 b0 < 64.
Proof. apply sextet_range. lia. Qed.
Lemma sextet1_ok b0 b1 : 0 <= sextet1 b0 b1 < 64.
Proof. apply sextet_lor; apply sextet_range; lia. Qed.
Lemma sextet2_ok b1 b2 : 0 <= sextet2 b1 b2 < 64.
Proof. apply sextet_lor; apply sextet_range; lia. Qed.
Lemma sextet3_ok b2 : 0 <= sextet3 b2 < 64.
Proof. apply sextet_range. lia. Qed.
#[local] Hint Resolve sextet0_ok sextet1_ok sextet2_ok sextet3_ok : cd.

Lemma rebuild0 b0 b1 : is_byte b0 ->
  Z.lor (Z.land (u8 (Z.shiftl (sextet0 b0) 2)) 0xFC)
        (Z.land (u8 (Z.shiftr (sextet1 b0 b1) 4)) 0x03) = b0.
Proof. intros H0. unfold sextet0, sextet1. byte_bits. Qed.

Lemma rebuild1 b0 b1 b2 : is_byte b1 ->
  Z.lor (Z.land (u8 (Z.shiftl (sextet1 b0 b1) 4)) 0xF0)
        (Z.land (u8 (Z.shiftr (sextet2 b1 b2) 2)) 0x0F) = b1.
Proof. intros H1. unfold sextet1, sextet2. byte_bits. Qed.

Lemma rebuild2 b1 b2 : is_byte b2 ->
  Z.lor (Z.land (u8 (Z.shiftl (sextet2 b1 b2) 6)) 0xF0)
        (Z.land (sextet3 b2) 0x3F) = b2.
Proof.
  intros H2. unfold sextet2, sextet3. byte_bits.
Qed.

Lemma b64_not_pad v : 0 <= v < 64 -> (b64 v =? pad_char) = false.
Proof. intros Hv. apply Z.eqb_neq. by apply b64_range_ok. Qed.
Lemma b64_not_nul v : 0 <= v < 64 -> (b64 v =? 0) = false.
Proof. intros Hv. destruct (b64_range_ok v Hv) as (_ & _ & ?). lia. Qed.
Lemma b64_index_b64 v : 0 <= v < 64 -> b64_index (b64 v) = v.
Proof. intros Hv. by apply b64_range_ok. Qed.

Lemma base64_loop_group b0 b1 b2 rest :
  base64_loop (b0 :: b1 :: b2 :: rest) =
  b64 (sextet0 b0) :: b64 (sextet1 b0 b1) :: b64 (sextet2 b1 b2) :: b64 (sextet3 b2)
    :: base64_loop rest.
Proof. reflexivity. Qed.

Lemma base64_decode_group b0 b1 b2 rest :
  is_byte b0 -> is_byte b1 -> is_byte b2 ->
  base64_decode (b64 (sextet0 b0) :: b64 (sextet1 b0 b1) :: b64 (sextet2 b1 b2)
                   :: b64 (sextet3 b2) :: rest)
  = ofmap (fun out => b0 :: b1 :: b2 :: out) (base64_decode rest).
Proof.
  intros H0 H1 H2. cbn [base64_decode].
  rewrite !b64_not_pad, b64_not_nul, !b64_index_b64, rebuild0, rebuild1, rebuild2
    by auto with cd.
  reflexivity.
Qed.

Lemma base64_decode_loop bytes :
  Forall is_byte bytes -> base64_decode (base64_loop bytes ++ [0]) = Ok bytes.
Proof.
  induction bytes as [|b0|b0 b1|b0 b1 b2 rest IH] using list_ind3; intros Hb;
    rewrite ?Forall_cons in Hb; destruct_and?.
  - reflexivity.
  - cbn -[b64 b64_index Z.land Z.lor Z.shiftl Z.shiftr Z.eqb].
    rewrite sextet1_last. fold (sextet0 b0).
    rewrite b64_not_nul, !b64_index_b64, rebuild0 by auto with cd. reflexivity.
  - cbn -[b64 b64_index Z.land Z.lor Z.shiftl Z.shiftr Z.eqb].
    rewrite sextet2_last. fold (sextet0 b0). fold (sextet1 b0 b1).
    rewrite b64_not_nul, b64_not_pad, !b64_index_b64, rebuild0, rebuild1 by auto with cd.
    reflexivity.
  - rewrite base64_loop_group. cbn [app].
    rewrite base64_decode_group, IH by done. reflexivity.
Qed.

Lemma base64_loop_length bytes :
  Z.of_nat (length (base64_loop bytes)) = 4 * ((Z.of_nat (length bytes) + 2) / 3).
Proof.
  induction bytes as [|b0|b0 b1|b0 b1 b2 rest IH] using list_ind3; [reflexivity..|].
  rewrite base64_loop_group. cbn [length]. rewrite !Nat2Z.inj_succ, IH.
  replace (Z.succ (Z.succ (Z.succ (Z.of_nat (length rest)))) + 2)
    with (Z.of_nat (length rest) + 2 + 1 * 3) by lia.
  rewrite Z.div_add by lia. lia.
Qed.

Lemma base64_loop_chars bytes :
  Forall (fun c => 0 < c < 128 /\ (c = pad_char \/ exists v, 0 <= v < 64 /\ c = b64 v))
         (base64_loop bytes).
Proof.
  assert (forall v, 0 <= v < 64 ->
    0 < b64 v < 128 /\ (b64 v = pad_char \/ exists w, 0 <= w < 64 /\ b64 v = b64 w)) as Hv.
  { intros v Hv. split; [by apply b64_range_ok | right; eauto]. }
  assert (0 < pad_char < 128) as Hp by (unfold pad_char; lia).
  induction bytes as [|b0|b0 b1|b0 b1 b2 rest IH] using list_ind3;
    [ constructor
    | cbn [base64_loop]; rewrite sextet1_last; fold (sextet0 b0)
    | cbn [base64_loop]; rewrite sextet2_last; fold (sextet0 b0); fold (sextet1 b0 b1)
    | rewrite base64_loop_group ];
    repeat (apply Forall_cons; split); auto with cd.
Qed.

(** ** Properties *)

(** C34: decoding the NUL-terminated text that [base64_encode] wrote gives back
    the encoded bytes, for every byte string; the decoder never leaves the
    buffer. *)
Theorem base64_roundtrip (bytes : list Z) (Hb : Forall is_byte bytes) :
  base64_decode (base64_encode bytes) = Ok bytes.
Proof. by apply base64_decode_loop. Qed.

Lemma base64_roundtrip_witness :
  base64_decode (base64_encode [77; 97; 110; 255; 0]) = Ok [77; 97; 110; 255; 0].
Proof.
  apply (base64_roundtrip [77; 97; 110; 255; 0]).
  repeat constructor; unfold is_byte; lia.
Defined.

(** the encoder writes exactly [4 * ceil(n / 3) + 1] bytes, the last of them
    the only NUL, and all others printable ASCII. *)
Theorem base64_encode_length (bytes : list Z) :
  Z.of_nat (length (base64_encode bytes)) = 4 * ((Z.of_nat (length bytes) + 2) / 3) + 1
  /\ Forall (fun c => 0 < c < 128) (take (length (base64_encode bytes) - 1) (base64_encode bytes))
  /\ last (base64_encode bytes) = Some 0.
Proof.
  unfold base64_encode. rewrite length_app. cbn [length].
  rewrite Nat.add_sub, take_app_length, last_snoc. split; [|split; [|done]].
  - rewrite Nat2Z.inj_add, base64_loop_length. lia.
  - eapply Forall_impl; [apply base64_loop_chars|]. by intros c [? _].
Qed.

Lemma list_ind4 {A} (P : list A -> Prop) :
  P [] -> (forall a, P [a]) -> (forall a b, P [a; b]) -> (forall a b c, P [a; b; c]) ->
  (forall a b c d l, P l -> P (a :: b :: c :: d :: l)) -> forall l, P l.
Proof.
  intros H0 H1 H2 H3 H4. fix IH 1.
  intros [|a [|b [|c [|d l]]]]; [done | apply H1 | apply H2 | apply H3 | apply H4, IH].
Qed.

(** a text without padding whose length is not a multiple of four makes
    the decoder read past the end of its buffer. *)
Theorem base64_decode_overrun (text : list Z)
    (Hc : Forall (fun c => c <> 0 /\ c <> pad_char) text)
    (Hl : (length text mod 4 <> 0)%nat) :
  base64_decode (text ++ [0]) = Undef OutOfBounds.
Proof.
  revert Hc Hl.
  induction text as [|a|a b|a b c|a b c d text IH] using list_ind4; intros Hc Hl;
    rewrite ?Forall_cons in Hc; destruct_and?; [done|..];
    cbn [app base64_decode];
    rewrite ?(proj2 (Z.eqb_neq _ 0)), ?(proj2 (Z.eqb_neq _ pad_char)) by done;
    [done.. |].
  rewrite IH; [done..|].
  contradict Hl. cbn [length].
  replace (S (S (S (S (length text))))) with (length text + 1 * 4)%nat by lia.
  by rewrite Nat.Div0.mod_add.
Qed.

Lemma base64_decode_overrun_witness : base64_decode ([81; 81] ++ [0]) = Undef OutOfBounds.
Proof.
  apply (base64_decode_overrun [81; 81]);
    [repeat constructor; unfold pad_char; lia | vm_compute; lia].
Defined.
