(* ===== verification/Md5.v ===== *)
(** MD5 (src/src/common/md5.c, src/include/common/md5.h): the digest of the
    login token. Words are the integers 0..2^32-1, bytes 0..255. *)

From Stdlib Require Import ZArith Lia Bool Btauto.
From stdpp Require Import base tactics numbers list.
From S2P Require Import Prelude.

(** ** The code *)

(** [unsigned int state[4]] *)
Record md5_state := MkState { st_a : Z; st_b : Z; st_c : Z; st_d : Z }.

Record MD5_CTX := MkCtx {
  count0 : Z;            (* count[0] *)
  count1 : Z;            (* count[1] *)
  state : md5_state;
  buffer : list Z        (* buffer[64] *)
}.

Definition not32 (x : Z) : Z := u32 (Z.lnot x).

Definition F (x y z : Z) : Z := Z.lor (Z.land x y) (Z.land (not32 x) z).
Definition G (x y z : Z) : Z := Z.lor (Z.land x z) (Z.land y (not32 z)).
Definition H (x y z : Z) : Z := Z.lxor (Z.lxor x y) z.
Definition I (x y z : Z) : Z := Z.lxor y (Z.lor x (not32 z)).
Definition ROTATE_LEFT (x n : Z) : Z := Z.lor (u32 (Z.shiftl x n)) (Z.shiftr x (32 - n)).

Definition FF (a b c d x s ac : Z) : Z :=
  let a := u32 (a + (F b c d + x + ac)) in
  let a := ROTATE_LEFT a s in
  u32 (a + b).
Definition GG (a b c d x s ac : Z) : Z :=
  let a := u32 (a + (G b c d + x + ac)) in
  let a := ROTATE_LEFT a s in
  u32 (a + b).
Definition HH (a b c d x s ac : Z) : Z :=
  let a := u32 (a + (H b c d + x + ac)) in
  let a := ROTATE_LEFT a s in
  u32 (a + b).
Definition II (a b c d x s ac : Z) : Z :=
  let a := u32 (a + (I b c d + x + ac)) in
  let a := ROTATE_LEFT a s in
  u32 (a + b).

Definition PADDING : list Z := 0x80 :: replicate 63 0.

(** One word of [MD5Encode], low byte first. *)
Definition encode_word (w : Z) : list Z :=
  [ Z.land w 0xFF; Z.land (Z.shiftr w 8) 0xFF;
    Z.land (Z.shiftr w 16) 0xFF; Z.land (Z.shiftr w 24) 0xFF ].

(** [MD5Encode(output, input, len)]: the words of [input], [len] bytes. *)
Fixpoint MD5Encode (input : list Z) : list Z :=
  match input with
  | [] => []
  | w :: input => encode_word w ++ MD5Encode input
  end.

(** [MD5Decode(output, input, len)]: four bytes a word, low byte first. *)
Fixpoint MD5Decode (input : list Z) : list Z :=
  match input with
  | b0 :: b1 :: b2 :: b3 :: input =>
      u32 (Z.lor (Z.lor (Z.lor b0 (Z.shiftl b1 8)) (Z.shiftl b2 16)) (Z.shiftl b3 24))
        :: MD5Decode input
  | _ => []
  end.

(** The 64 steps of [MD5Transform] on the registers a, b, c, d; [x] is the
    array of message words. *)
Definition md5_rounds (st : md5_state) (x : Z -> Z) : Z * Z * Z * Z :=
  let a := st_a st in
  let b := st_b st in
  let c := st_c st in
  let d := st_d st in
  let a := FF a b c d (x 0) 7 0xd76aa478 in
  let d := FF d a b c (x 1) 12 0xe8c7b756 in
  let c := FF c d a b (x 2) 17 0x242070db in
  let b := FF b c d a (x 3) 22 0xc1bdceee in
  let a := FF a b c d (x 4) 7 0xf57c0faf in
  let d := FF d a b c (x 5) 12 0x4787c62a in
  let c := FF c d a b (x 6) 17 0xa8304613 in
  let b := FF b c d a (x 7) 22 0xfd469501 in
  let a := FF a b c d (x 8) 7 0x698098d8 in
  let d := FF d a b c (x 9) 12 0x8b44f7af in
  let c := FF c d a b (x 10) 17 0xffff5bb1 in
  let b := FF b c d a (x 11) 22 0x895cd7be in
  let a := FF a b c d (x 12) 7 0x6b901122 in
  let d := FF d a b c (x 13) 12 0xfd987193 in
  let c := FF c d a b (x 14) 17 0xa679438e in
  let b := FF b c d a (x 15) 22 0x49b40821 in
  let a := GG a b c d (x 1) 5 0xf61e2562 in
  let d := GG d a b c (x 6) 9 0xc040b340 in
  let c := GG c d a b (x 11) 14 0x265e5a51 in
  let b := GG b c d a (x 0) 20 0xe9b6c7aa in
  let a := GG a b c d (x 5) 5 0xd62f105d in
  let d := GG d a b c (x 10) 9 0x2441453 in
  let c := GG c d a b (x 15) 14 0xd8a1e681 in
  let b := GG b c d a (x 4) 20 0xe7d3fbc8 in
  let a := GG a b c d (x 9) 5 0x21e1cde6 in
  let d := GG d a b c (x 14) 9 0xc33707d6 in
  let c := GG c d a b (x 3) 14 0xf4d50d87 in
  let b := GG b c d a (x 8) 20 0x455a14ed in
  let a := GG a b c d (x 13) 5 0xa9e3e905 in
  let d := GG d a b c (x 2) 9 0xfcefa3f8 in
  let c := GG c d a b (x 7) 14 0x676f02d9 in
  let b := GG b c d a (x 12) 20 0x8d2a4c8a in
  let a := HH a b c d (x 5) 4 0xfffa3942 in
  let d := HH d a b c (x 8) 11 0x8771f681 in
  let c := HH c d a b (x 11) 16 0x6d9d6122 in
  let b := HH b c d a (x 14) 23 0xfde5380c in
  let a := HH a b c d (x 1) 4 0xa4beea44 in
  let d := HH d a b c (x 4) 11 0x4bdecfa9 in
  let c := HH c d a b (x 7) 16 0xf6bb4b60 in
  let b := HH b c d a (x 10) 23 0xbebfbc70 in
  let a := HH a b c d (x 13) 4 0x289b7ec6 in
  let d := HH d a b c (x 0) 11 0xeaa127fa in
  let c := HH c d a b (x 3) 16 0xd4ef3085 in
  let b := HH b c d a (x 6) 23 0x4881d05 in
  let a := HH a b c d (x 9) 4 0xd9d4d039 in
  let d := HH d a b c (x 12) 11 0xe6db99e5 in
  let c := HH c d a b (x 15) 16 0x1fa27cf8 in
  let b := HH b c d a (x 2) 23 0xc4ac5665 in
  let a := II a b c d (x 0) 6 0xf4292244 in
  let d := II d a b c (x 7) 10 0x432aff97 in
  let c := II c d a b (x 14) 15 0xab9423a7 in
  let b := II b c d a (x 5) 21 0xfc93a039 in
  let a := II a b c d (x 12) 6 0x655b59c3 in
  let d := II d a b c (x 3) 10 0x8f0ccc92 in
  let c := II c d a b (x 10) 15 0xffeff47d in
  let b := II b c d a (x 1) 21 0x85845dd1 in
  let a := II a b c d (x 8) 6 0x6fa87e4f in
  let d := II d a b c (x 15) 10 0xfe2ce6e0 in
  let c := II c d a b (x 6) 15 0xa3014314 in
  let b := II b c d a (x 13) 21 0x4e0811a1 in
  let a := II a b c d (x 4) 6 0xf7537e82 in
  let d := II d a b c (x 11) 10 0xbd3af235 in
  let c := II c d a b (x 2) 15 0x2ad7d2bb in
  let b := II b c d a (x 9) 21 0xeb86d391 in
  (a, b, c, d).

Definition MD5Transform (st : md5_state) (block : list Z) : md5_state :=
  let words := MD5Decode block in
  let '(a, b, c, d) := md5_rounds st (fun i => nth (Z.to_nat i) words 0) in
  MkState (u32 (st_a st + a)) (u32 (st_b st + b)) (u32 (st_c st + c)) (u32 (st_d st + d)).

(** The chaining value [MD5Init] stores. *)
Definition md5_iv : md5_state := MkState 0x67452301 0xEFCDAB89 0x98BADCFE 0x10325476.

(** [MD5Init] leaves [buffer] as it finds it: [junk] is its content. *)
Definition MD5Init (junk : list Z) : MD5_CTX := MkCtx 0 0 md5_iv junk.

(** [for (i = partlen; i + 64 <= inputlen; i += 64)
       MD5Transform(context->state, &input[i]);]
    with [i + 64] computed modulo 2^32. *)
Fixpoint md5_blocks (fuel : nat) (st : md5_state) (input : list Z) (i inputlen : Z)
    : outcome (md5_state * Z) :=
  match fuel with
  | O => Undef NoReturn
  | S fuel =>
      if u32 (i + 64) <=? inputlen
      then md5_blocks fuel (MD5Transform st (take 64 (drop (Z.to_nat i) input)))
                      input (u32 (i + 64)) inputlen
      else Ok (st, i)
  end.

Definition buf_index (ctx : MD5_CTX) : Z := Z.land (Z.shiftr (count0 ctx) 3) 0x3F.

(** The two [count] words after [inputlen] more bytes. *)
Definition add_count (ctx : MD5_CTX) (inputlen : Z) : Z * Z :=
  let c0 := u32 (count0 ctx + u32 (Z.shiftl inputlen 3)) in
  let c1 := if c0 <? u32 (Z.shiftl inputlen 3) then u32 (count1 ctx + 1) else count1 ctx in
  (c0, u32 (c1 + Z.shiftr inputlen 29)).

Definition MD5Update (ctx : MD5_CTX) (input : list Z) : outcome MD5_CTX :=
  let inputlen := u32 (Z.of_nat (length input)) in
  let index := buf_index ctx in
  let partlen := 64 - index in
  let '(c0, c1) := add_count ctx inputlen in
  if partlen <=? inputlen then
    let* buf := memcpy (buffer ctx) index (take (Z.to_nat partlen) input) in
    let st := MD5Transform (state ctx) buf in
    let* '(st, i) := md5_blocks (S (length input)) st input partlen inputlen in
    let* buf := memcpy buf 0 (take (Z.to_nat (inputlen - i)) (drop (Z.to_nat i) input)) in
    Ok (MkCtx c0 c1 st buf)
  else
    let* buf := memcpy (buffer ctx) index (take (Z.to_nat inputlen) input) in
    Ok (MkCtx c0 c1 (state ctx) buf).

Definition state_words (st : md5_state) : list Z := [st_a st; st_b st; st_c st; st_d st].

Definition MD5Final (ctx : MD5_CTX) : outcome (list Z) :=
  let index := buf_index ctx in
  let padlen := if index <? 56 then 56 - index else 120 - index in
  let bits := MD5Encode [count0 ctx; count1 ctx] in
  let* ctx := MD5Update ctx (take (Z.to_nat padlen) PADDING) in
  let* ctx := MD5Update ctx bits in
  Ok (MD5Encode (state_words (state ctx))).

(** ** The reference: RFC 1321 on a whole message *)

(** The first [k] blocks of 64 bytes of a message. *)
Definition blocks64 (k : nat) (l : list Z) : list (list Z) :=
  (fun i => take 64 (drop (64 * i) l)) <$> seq 0 k.

(** Append 0x80, zeros up to 56 modulo 64, and the bit length modulo 2^64. *)
Definition md5_pad (msg : list Z) : list Z :=
  let len := Z.of_nat (length msg) in
  msg ++ 0x80 :: replicate (Z.to_nat ((55 - len) mod 64)) 0
      ++ MD5Encode [8 * len mod 2 ^ 32; 8 * len / 2 ^ 32 mod 2 ^ 32].

Definition md5_spec (msg : list Z) : list Z :=
  let p := md5_pad msg in
  MD5Encode (state_words (fold_left MD5Transform (blocks64 (length p / 64) p) md5_iv)).

(** The whole computation, as the callers use it. *)
Definition md5_run (junk : list Z) (chunks : list (list Z)) : outcome (list Z) :=
  let* ctx := fold_left (fun c d => let* ctx := c in MD5Update ctx d) chunks
                        (Ok (MD5Init junk)) in
  MD5Final ctx.

Example md5_abc : md5_run (replicate 64 7) [[97]; [98; 99]] =
  Ok [0x90; 0x01; 0x50; 0x98; 0x3c; 0xd2; 0x4f; 0xb0; 0xd6; 0x96; 0x3f; 0x7d; 0x28; 0xe1; 0x7f; 0x72].
Proof. vm_compute. reflexivity. Qed.
Example md5_abc_spec : md5_spec [97; 98; 99] =
  [0x90; 0x01; 0x50; 0x98; 0x3c; 0xd2; 0x4f; 0xb0; 0xd6; 0x96; 0x3f; 0x7d; 0x28; 0xe1; 0x7f; 0x72].
Proof. vm_compute. reflexivity. Qed.

(** ** Lemmas on blocks *)

Lemma blocks64_S k l : blocks64 (S k) l = blocks64 k l ++ [take 64 (drop (64 * k) l)].
Proof. unfold blocks64. by rewrite seq_S, fmap_app. Qed.

Lemma blocks64_app k l l' : (64 * k <= length l)%nat -> blocks64 k (l ++ l') = blocks64 k l.
Proof.
  induction k as [|k IH]; intros Hk; [done|].
  rewrite !blocks64_S, IH by lia. do 2 f_equal.
  rewrite drop_app_le by lia. rewrite take_app_le; [done|]. rewrite length_drop. lia.
Qed.

Definition absorb (k : nat) (l : list Z) : md5_state :=
  fold_left MD5Transform (blocks64 k l) md5_iv.

Lemma absorb_S k l : absorb (S k) l = MD5Transform (absorb k l) (take 64 (drop (64 * k) l)).
Proof. unfold absorb. by rewrite blocks64_S, fold_left_app. Qed.

Lemma absorb_app k l l' : (64 * k <= length l)%nat -> absorb k (l ++ l') = absorb k l.
Proof. intros. unfold absorb. by rewrite blocks64_app. Qed.

(** ** The abstraction: a context that has absorbed [msg] *)

Record md5_repr (ctx : MD5_CTX) (msg : list Z) : Prop := {
  repr_buf_len : length (buffer ctx) = 64%nat;
  repr_count0 : count0 ctx = 8 * Z.of_nat (length msg) mod 2 ^ 32;
  repr_count1 : count1 ctx = 8 * Z.of_nat (length msg) / 2 ^ 32 mod 2 ^ 32;
  repr_state : state ctx = absorb (length msg / 64) msg;
  repr_tail : take (length msg mod 64) (buffer ctx) = drop (64 * (length msg / 64)) msg
}.

Lemma mod_mul_mod a b c : 0 < b -> 0 < c -> (a mod (b * c)) mod b = a mod b.
Proof.
  intros Hb Hc. rewrite Z.rem_mul_r by lia.
  rewrite Z.mul_comm, Z.mod_add by lia. apply Z.mod_mod. lia.
Qed.

Lemma buf_index_repr ctx msg : md5_repr ctx msg ->
  buf_index ctx = Z.of_nat (length msg mod 64).
Proof.
  intros Hr. unfold buf_index. rewrite (repr_count0 _ _ Hr).
  change 0x3F with (Z.ones 6). rewrite Z.land_ones, Z.shiftr_div_pow2 by lia.
  rewrite Nat2Z.inj_mod. change (Z.of_nat 64) with 64.
  set (n := Z.of_nat (length msg)).
  change (2 ^ 32) with (8 * (64 * 2 ^ 23)). change (2 ^ 3) with 8. change (2 ^ 6) with 64.
  rewrite Z.mul_mod_distr_l, (Z.mul_comm 8), Z.div_mul by lia.
  apply mod_mul_mod; lia.
Qed.

(** The carry test of [MD5Update] is exact: the two words count bits modulo
    2^64. *)
Lemma add_count_spec ctx len n :
  0 <= n < 2 ^ 32 -> 0 <= len ->
  count0 ctx = 8 * len mod 2 ^ 32 -> count1 ctx = 8 * len / 2 ^ 32 mod 2 ^ 32 ->
  add_count ctx n = (8 * (len + n) mod 2 ^ 32, 8 * (len + n) / 2 ^ 32 mod 2 ^ 32).
Proof.
  intros Hn Hl H0 H1. unfold add_count, u32. rewrite H0, H1.
  rewrite Z.shiftl_mul_pow2, Z.shiftr_div_pow2 by lia. change (2 ^ 3) with 8.
  replace (n / 2 ^ 29) with (8 * n / 2 ^ 32)
    by (change (2 ^ 32) with (8 * 2 ^ 29); rewrite Z.div_mul_cancel_l by lia; done).
  rewrite (Z.mul_comm n 8), Z.mul_add_distr_l.
  set (x := 8 * len). set (y := 8 * n). set (B := 2 ^ 32).
  assert (0 < B) by (unfold B; lia).
  rewrite <- Z.add_mod by lia.
  pose proof (Z.div_mod x B ltac:(lia)) as Hx. pose proof (Z.div_mod y B ltac:(lia)) as Hy.
  pose proof (Z.mod_pos_bound x B ltac:(lia)). pose proof (Z.mod_pos_bound y B ltac:(lia)).
  pose proof (Z.div_mod (x + y) B ltac:(lia)) as Hxy.
  pose proof (Z.mod_pos_bound (x + y) B ltac:(lia)).
  f_equal.
  destruct (Z.ltb_spec ((x + y) mod B) (y mod B)) as [Hlt|Hge].
  - assert ((x + y) / B = x / B + y / B + 1) as -> by nia.
    rewrite Z.add_mod_idemp_l, <- Z.add_assoc, Z.add_mod_idemp_l by lia. f_equal. lia.
  - assert ((x + y) / B = x / B + y / B) as -> by nia.
    by rewrite Z.add_mod_idemp_l by lia.
Qed.

(** ** MD5Update refines appending to the message *)

Section Update.
Context (ctx : MD5_CTX) (msg data : list Z).
Hypothesis Hrepr : md5_repr ctx msg.
Hypothesis Hdata : Z.of_nat (length data) + 64 < 2 ^ 32.

Let r := (length msg mod 64)%nat.
Let q := (length msg / 64)%nat.
Let n := length data.

Lemma len_split : length msg = (64 * q + r)%nat /\ (r < 64)%nat.
Proof. unfold q, r. split; [apply Nat.div_mod_eq | apply Nat.mod_upper_bound; lia]. Qed.

Lemma tail_len : length (drop (64 * q) msg) = r.
Proof. destruct len_split. rewrite length_drop. lia. Qed.

Lemma data_u32 : u32 (Z.of_nat n) = Z.of_nat n.
Proof. apply u32_small. unfold is_word, n. lia. Qed.

(** The counters and the buffer part of the new context. *)
Lemma add_count_repr c0 c1 : add_count ctx (Z.of_nat n) = (c0, c1) ->
  c0 = 8 * Z.of_nat (length (msg ++ data)) mod 2 ^ 32 /\
  c1 = 8 * Z.of_nat (length (msg ++ data)) / 2 ^ 32 mod 2 ^ 32.
Proof.
  rewrite (add_count_spec ctx (Z.of_nat (length msg))); try apply Hrepr; [|unfold n; lia..].
  intros [= <- <-]. rewrite length_app, Nat2Z.inj_add. done.
Qed.

(** The data fit in the buffer: nothing is transformed. *)
Lemma update_short : (r + n < 64)%nat ->
  exists ctx', MD5Update ctx data = Ok ctx' /\ md5_repr ctx' (msg ++ data).
Proof.
  intros Hs. destruct len_split as [Hlen Hr]. pose proof (repr_buf_len _ _ Hrepr) as Hbuf.
  unfold MD5Update. fold n. rewrite data_u32, (buf_index_repr ctx msg) by done. fold r.
  destruct (add_count ctx (Z.of_nat n)) as [c0 c1] eqn:Hc.
  apply add_count_repr in Hc as [Hc0 Hc1].
  destruct (Z.leb_spec (64 - Z.of_nat r) (Z.of_nat n)); [lia|].
  rewrite Nat2Z.id, (firstn_all2 data) by (unfold n; lia). rewrite memcpy_ok by (unfold n in *; lia). simpl.
  eexists; split; [done|].
  assert ((length (msg ++ data) / 64 = q)%nat /\ (length (msg ++ data) mod 64 = r + n)%nat)
    as [Hq' Hr'].
  { rewrite length_app, Hlen. fold n.
    replace (64 * q + r + n)%nat with (r + n + q * 64)%nat by lia.
    rewrite Nat.div_add, Nat.Div0.mod_add, Nat.div_small, Nat.mod_small by lia. lia. }
  split; cbn [buffer count0 count1 state]; rewrite ?Hq', ?Hr'; [|done..| |].
  - rewrite !length_app, length_take, length_drop, Hbuf. unfold n in *. lia.
  - rewrite absorb_app by lia. apply Hrepr.
  - rewrite Nat2Z.id. rewrite app_assoc, take_app_le
      by (rewrite length_app, length_take, Hbuf; unfold n in *; lia).
    rewrite firstn_all2 by (rewrite length_app, length_take, Hbuf; unfold n in *; lia).
    rewrite drop_app_le by lia. f_equal. apply Hrepr.
Qed.

(** Blocks of the message that lie within [data]. *)
Lemma drop_msg_data k i : (64 * k = length msg + i)%nat ->
  drop (64 * k) (msg ++ data) = drop i data.
Proof. intros ->. apply drop_app_add. Qed.

Lemma md5_blocks_spec fuel k i :
  (64 * k = length msg + i)%nat -> (i <= n)%nat -> (n - i < 64 * fuel)%nat ->
  md5_blocks fuel (absorb k (msg ++ data)) data (Z.of_nat i) (Z.of_nat n) =
  Ok (absorb (length (msg ++ data) / 64) (msg ++ data),
      Z.of_nat (64 * (length (msg ++ data) / 64) - length msg)).
Proof.
  revert k i. induction fuel as [|fuel IH]; intros k i Hk Hi Hf; [lia|].
  cbn [md5_blocks]. rewrite u32_small by (unfold is_word, n in *; lia).
  destruct (Z.leb_spec (Z.of_nat i + 64) (Z.of_nat n)) as [Hle|Hgt].
  - rewrite Nat2Z.id, <- (drop_msg_data k i Hk), <- absorb_S.
    replace (Z.of_nat i + 64) with (Z.of_nat (i + 64)) by lia.
    apply IH; lia.
  - assert (length (msg ++ data) / 64 = k)%nat as ->.
    { rewrite length_app. fold n. symmetry.
      apply (Nat.div_unique _ _ _ (n - i)); lia. }
    do 3 f_equal. lia.
Qed.

(** The data reach the end of the buffer. *)
Lemma update_long : (64 <= r + n)%nat ->
  exists ctx', MD5Update ctx data = Ok ctx' /\ md5_repr ctx' (msg ++ data).
Proof.
  intros Hs. destruct len_split as [Hlen Hr]. pose proof (repr_buf_len _ _ Hrepr) as Hbuf.
  unfold MD5Update. fold n. rewrite data_u32, (buf_index_repr ctx msg) by done. fold r.
  destruct (add_count ctx (Z.of_nat n)) as [c0 c1] eqn:Hc.
  apply add_count_repr in Hc as [Hc0 Hc1].
  destruct (Z.leb_spec (64 - Z.of_nat r) (Z.of_nat n)); [|lia].
  replace (64 - Z.of_nat r) with (Z.of_nat (64 - r)) by lia. rewrite Nat2Z.id.
  assert (length (take (64 - r) data) = (64 - r)%nat) as Ht
    by (rewrite length_take; unfold n in *; lia).
  rewrite memcpy_ok by lia. rewrite Ht, Nat2Z.id.
  rewrite (drop_ge (buffer ctx)) by lia. rewrite app_nil_r. cbn [obind].
  pose proof (repr_tail _ _ Hrepr) as Htail. fold r q in Htail.
  rewrite (repr_state _ _ Hrepr), Htail. fold q.
  assert (drop (64 * q) msg ++ take (64 - r) data = take 64 (drop (64 * q) (msg ++ data))) as ->.
  { rewrite drop_app_le by lia. rewrite take_app, tail_len, (firstn_all2 (drop _ _)); [done|].
    rewrite tail_len. lia. }
  rewrite <- (absorb_app q msg data) by lia. rewrite <- absorb_S.
  rewrite md5_blocks_spec by (unfold n in *; lia). cbn [obind].
  set (K := (length (msg ++ data) / 64)%nat).
  assert (length (msg ++ data) = 64 * K + length (msg ++ data) mod 64
          /\ length (msg ++ data) mod 64 < 64)%nat as [HK HKr].
  { split; [apply Nat.div_mod_eq | apply Nat.mod_upper_bound; lia]. }
  pose proof (length_app msg data) as Happ. fold n in Happ.
  assert (q < K)%nat.
  { apply Nat.div_le_lower_bound; [lia|]. rewrite length_app. fold n. lia. }
  set (e := (64 * K - length msg)%nat).
  rewrite Nat2Z.id. rewrite (firstn_all2 (drop e data)) by (rewrite length_drop; fold n; lia).
  assert (length (drop e data) = length (msg ++ data) mod 64)%nat as He.
  { rewrite length_drop. unfold e. lia. }
  assert (length (take 64 (drop (64 * q) (msg ++ data))) = 64%nat) as Hb1
    by (rewrite length_take, length_drop; lia).
  rewrite memcpy_ok by (rewrite ?He, ?Hb1; lia).
  cbn [obind]. eexists; split; [done|].
  split; cbn [buffer count0 count1 state]; fold K; [|done..|].
  - change (Z.to_nat 0) with 0%nat. rewrite take_0. cbn [app Nat.add].
    rewrite length_app, (length_drop (take _ _)), Hb1, He. lia.
  - change (Z.to_nat 0) with 0%nat. rewrite take_0, <- He. cbn [app].
    rewrite take_app_length. symmetry. apply drop_msg_data. unfold e. lia.
Qed.
End Update.

Lemma MD5Update_repr ctx msg data :
  md5_repr ctx msg -> Z.of_nat (length data) + 64 < 2 ^ 32 ->
  exists ctx', MD5Update ctx data = Ok ctx' /\ md5_repr ctx' (msg ++ data).
Proof.
  intros Hr Hd. destruct (decide (length msg mod 64 + length data < 64)%nat).
  - by apply update_short.
  - apply update_long; [done..|lia].
Qed.

Lemma MD5Init_repr junk : length junk = 64%nat -> md5_repr (MD5Init junk) [].
Proof. intros Hj. by split. Qed.

(** ** MD5Final *)

Lemma take_PADDING p : 1 <= p <= 64 ->
  take (Z.to_nat p) PADDING = 0x80 :: replicate (Z.to_nat (p - 1)) 0.
Proof.
  intros Hp. unfold PADDING.
  replace (Z.to_nat p) with (S (Z.to_nat (p - 1))) by lia. cbn [take].
  rewrite take_replicate. repeat f_equal; lia.
Qed.

Lemma pad_length len r :
  len mod 64 = r ->
  (if r <? 56 then 56 - r else 120 - r) - 1 = (55 - len) mod 64.
Proof.
  intros Hr. pose proof (Z.mod_pos_bound len 64 ltac:(lia)).
  rewrite Zminus_mod, Hr. change (55 mod 64) with 55.
  destruct (Z.ltb_spec r 56).
  - rewrite Z.mod_small; lia.
  - rewrite <- (Z.mod_add (55 - r) 1) by lia. rewrite Z.mod_small; lia.
Qed.

Lemma encode_word_length w : length (encode_word w) = 4%nat.
Proof. reflexivity. Qed.

Lemma MD5Final_spec ctx msg : md5_repr ctx msg -> MD5Final ctx = Ok (md5_spec msg).
Proof.
  intros Hr. unfold MD5Final. rewrite (buf_index_repr ctx msg) by done.
  rewrite Nat2Z.inj_mod. change (Z.of_nat 64) with 64.
  set (len := Z.of_nat (length msg)).
  pose proof (pad_length len _ eq_refl) as Hpad.
  set (padlen := if len mod 64 <? 56 then 56 - len mod 64 else 120 - len mod 64) in *.
  pose proof (Z.mod_pos_bound (55 - len) 64 ltac:(lia)) as Hb.
  rewrite take_PADDING by lia. rewrite Hpad.
  set (padding := 0x80 :: replicate (Z.to_nat ((55 - len) mod 64)) 0).
  assert (Z.of_nat (length padding) <= 64) by (cbn [length padding]; rewrite length_replicate; lia).
  destruct (MD5Update_repr ctx msg padding) as (ctx1 & -> & Hr1); [done|lia|]. cbn [obind].
  destruct (MD5Update_repr ctx1 (msg ++ padding) (MD5Encode [count0 ctx; count1 ctx]))
    as (ctx2 & -> & Hr2); [done | cbn; lia |]. cbn [obind].
  rewrite (repr_state _ _ Hr2). unfold md5_spec, absorb, md5_pad.
  rewrite (repr_count0 _ _ Hr), (repr_count1 _ _ Hr). fold len padding.
  by rewrite <- app_assoc.
Qed.

Lemma encode_word_bytes w : 0 <= w -> Forall is_byte (encode_word w).
Proof.
  intros Hw. unfold encode_word.
  repeat (apply Forall_cons; split); try constructor;
    rewrite Z.land_comm; apply (land_bound 8); try lia; apply Z.shiftr_nonneg; done.
Qed.

Lemma MD5Transform_words st block :
  Forall is_word (state_words (MD5Transform st block)).
Proof.
  unfold MD5Transform. destruct (md5_rounds _ _) as [[[a b] c] d]. unfold state_words.
  repeat (apply Forall_cons; split); try constructor; apply u32_range.
Qed.

Lemma absorb_words k l : Forall is_word (state_words (absorb k l)).
Proof.
  destruct k as [|k].
  - repeat (apply Forall_cons; split); try constructor; unfold is_word; cbn; lia.
  - rewrite absorb_S. apply MD5Transform_words.
Qed.

Lemma MD5Encode_bytes ws : Forall is_word ws -> Forall is_byte (MD5Encode ws).
Proof.
  induction 1 as [|w ws [Hw _] _ IH]; [constructor|]. cbn [MD5Encode].
  apply Forall_app. split; [by apply encode_word_bytes | done].
Qed.

Lemma MD5Encode_length ws : length (MD5Encode ws) = (4 * length ws)%nat.
Proof.
  induction ws as [|w ws IH]; [done|]. cbn [MD5Encode].
  rewrite length_app, IH, encode_word_length. cbn [length]. lia.
Qed.

Lemma md5_spec_wf msg : length (md5_spec msg) = 16%nat /\ Forall is_byte (md5_spec msg).
Proof.
  split; [unfold md5_spec; apply MD5Encode_length|].
  apply MD5Encode_bytes. apply absorb_words.
Qed.

Lemma decode_encode_word w : is_word w ->
  u32 (Z.lor (Z.lor (Z.lor (Z.land w 0xFF) (Z.shiftl (Z.land (Z.shiftr w 8) 0xFF) 8))
                    (Z.shiftl (Z.land (Z.shiftr w 16) 0xFF) 16))
             (Z.shiftl (Z.land (Z.shiftr w 24) 0xFF) 24)) = w.
Proof.
  intros Hw. apply (bits_eq 32); [lia | apply u32_range | apply Hw |].
  intros i Hi. unfold u32. enum_bit i Hi; testbits; eval_bits; btauto.
Qed.

(** ** Properties *)

(** C36: feeding a message to [MD5Update] in chunks of any sizes and calling
    [MD5Final] yields the RFC 1321 digest of the whole message: padding, bit
    count and block boundaries are independent of the chunking, and no copy
    leaves the 64-byte buffer. *)
Theorem md5_run_spec (junk : list Z) (chunks : list (list Z))
    (Hj : length junk = 64%nat)
    (Hc : Forall (fun d => Z.of_nat (length d) + 64 < 2 ^ 32) chunks) :
  md5_run junk chunks = Ok (md5_spec (concat chunks)).
Proof.
  assert (forall ctx msg, md5_repr ctx msg ->
    exists ctx', fold_left (fun c d => let* ctx := c in MD5Update ctx d) chunks (Ok ctx) = Ok ctx'
                 /\ md5_repr ctx' (msg ++ concat chunks)) as Hfold.
  { induction Hc as [|d chunks Hd _ IH]; intros ctx msg Hr.
    - exists ctx. cbn. by rewrite app_nil_r.
    - destruct (MD5Update_repr ctx msg d) as (ctx1 & E & Hr1); [done..|].
      destruct (IH ctx1 (msg ++ d) Hr1) as (ctx2 & E2 & Hr2).
      exists ctx2. cbn [fold_left obind concat]. rewrite E. split; [done|].
      by rewrite app_assoc. }
  destruct (Hfold _ _ (MD5Init_repr junk Hj)) as (ctx & E & Hr).
  unfold md5_run. rewrite E. cbn [obind]. by apply MD5Final_spec.
Qed.

Lemma md5_run_spec_witness :
  md5_run (replicate 64 7) [[97]; [98; 99]] = Ok (md5_spec [97; 98; 99]).
Proof.
  apply (md5_run_spec (replicate 64 7) [[97]; [98; 99]]); [reflexivity|].
  repeat constructor; cbn; lia.
Defined.

(** [MD5Update] keeps the context an exact record of the bytes absorbed so
    far: chaining value, buffered tail and the 64-bit bit count with its carry. *)
Theorem md5_update_invariant (ctx : MD5_CTX) (msg data : list Z)
    (Hr : md5_repr ctx msg) (Hd : Z.of_nat (length data) + 64 < 2 ^ 32) :
  exists ctx', MD5Update ctx data = Ok ctx' /\ md5_repr ctx' (msg ++ data)
    /\ count1 ctx' * 2 ^ 32 + count0 ctx' = 8 * Z.of_nat (length (msg ++ data)) mod 2 ^ 64.
Proof.
  destruct (MD5Update_repr ctx msg data Hr Hd) as (ctx' & E & Hr').
  exists ctx'. split; [done|]. split; [done|].
  rewrite (repr_count0 _ _ Hr'), (repr_count1 _ _ Hr').
  change (2 ^ 64) with (2 ^ 32 * 2 ^ 32). rewrite Z.rem_mul_r by lia. lia.
Qed.

Lemma md5_update_invariant_witness : exists ctx',
  MD5Update (MD5Init (replicate 64 0)) [1; 2; 3] = Ok ctx' /\ md5_repr ctx' ([] ++ [1; 2; 3])
  /\ count1 ctx' * 2 ^ 32 + count0 ctx' = 8 * Z.of_nat (length ([] ++ [1; 2; 3])) mod 2 ^ 64.
Proof.
  apply (md5_update_invariant (MD5Init (replicate 64 0)) [] [1; 2; 3]);
    [by apply MD5Init_repr | cbn; lia].
Defined.

(** [MD5Decode] inverts [MD5Encode] on every list of 32-bit words. *)
Theorem md5_decode_encode (ws : list Z) (Hw : Forall is_word ws) :
  MD5Decode (MD5Encode ws) = ws.
Proof.
  induction Hw as [|w ws Hw _ IH]; [done|].
  cbn [MD5Encode encode_word app MD5Decode]. by rewrite IH, decode_encode_word.
Qed.

Lemma md5_decode_encode_witness : MD5Decode (MD5Encode [0; 0xdeadbeef]) = [0; 0xdeadbeef].
Proof.
  apply (md5_decode_encode [0; 0xdeadbeef]). repeat constructor; unfold is_word; lia.
Defined.
