(* ===== verification/Des.v ===== *)
(** DES (src/src/common/des.c): key schedule, block cipher, ECB loop, padding
    and the entry points [DesEnc]/[DesDec] of the login token.

    [unsigned long] has the width of the data model; [memcpy] between arrays of
    longs and of bytes is little-endian. Arrays the C code leaves uninitialised
    are arguments: [des_stack]. *)

From Stdlib Require Import ZArith Lia Bool Btauto.
From stdpp Require Import base tactics numbers list.
From S2P Require Import Prelude.

(** ** Tables *)

Definition pc1 : list Z := [
  56; 48; 40; 32; 24; 16; 8; 0; 57; 49; 41; 33; 25; 17;
  9; 1; 58; 50; 42; 34; 26; 18; 10; 2; 59; 51; 43; 35;
  62; 54; 46; 38; 30; 22; 14; 6; 61; 53; 45; 37; 29; 21;
  13; 5; 60; 52; 44; 36; 28; 20; 12; 4; 27; 19; 11; 3].
Definition pc2 : list Z := [
  13; 16; 10; 23; 0; 4; 2; 27; 14; 5; 20; 9;
  22; 18; 11; 3; 25; 7; 15; 6; 26; 19; 12; 1;
  40; 51; 30; 36; 46; 54; 29; 39; 50; 44; 32; 47;
  43; 48; 38; 55; 33; 52; 45; 41; 49; 35; 28; 31].
Definition bytebit : list Z := [
  128; 64; 32; 16; 8; 4; 2; 1].
Definition totrot : list Z := [
  1; 2; 4; 6; 8; 10; 12; 14; 15; 17; 19; 21; 23; 25; 27; 28].
Definition bigbyte : list Z := [
  0x800000; 0x400000; 0x200000; 0x100000; 0x80000; 0x40000; 0x20000; 0x10000;
  0x8000; 0x4000; 0x2000; 0x1000; 0x800; 0x400; 0x200; 0x100;
  0x80; 0x40; 0x20; 0x10; 0x8; 0x4; 0x2; 0x1].

Definition SP1 : list Z := [
  0x01010400; 0x00000000; 0x00010000; 0x01010404; 0x01010004; 0x00010404;
  0x00000004; 0x00010000; 0x00000400; 0x01010400; 0x01010404; 0x00000400;
  0x01000404; 0x01010004; 0x01000000; 0x00000004; 0x00000404; 0x01000400;
  0x01000400; 0x00010400; 0x00010400; 0x01010000; 0x01010000; 0x01000404;
  0x00010004; 0x01000004; 0x01000004; 0x00010004; 0x00000000; 0x00000404;
  0x00010404; 0x01000000; 0x00010000; 0x01010404; 0x00000004; 0x01010000;
  0x01010400; 0x01000000; 0x01000000; 0x00000400; 0x01010004; 0x00010000;
  0x00010400; 0x01000004; 0x00000400; 0x00000004; 0x01000404; 0x00010404;
  0x01010404; 0x00010004; 0x01010000; 0x01000404; 0x01000004; 0x00000404;
  0x00010404; 0x01010400; 0x00000404; 0x01000400; 0x01000400; 0x00000000;
  0x00010004; 0x00010400; 0x00000000; 0x01010004].

Definition SP2 : list Z := [
  0x80108020; 0x80008000; 0x00008000; 0x00108020; 0x00100000; 0x00000020;
  0x80100020; 0x80008020; 0x80000020; 0x80108020; 0x80108000; 0x80000000;
  0x80008000; 0x00100000; 0x00000020; 0x80100020; 0x00108000; 0x00100020;
  0x80008020; 0x00000000; 0x80000000; 0x00008000; 0x00108020; 0x80100000;
  0x00100020; 0x80000020; 0x00000000; 0x00108000; 0x00008020; 0x80108000;
  0x80100000; 0x00008020; 0x00000000; 0x00108020; 0x80100020; 0x00100000;
  0x80008020; 0x80100000; 0x80108000; 0x00008000; 0x80100000; 0x80008000;
  0x00000020; 0x80108020; 0x00108020; 0x00000020; 0x00008000; 0x80000000;
  0x00008020; 0x80108000; 0x00100000; 0x80000020; 0x00100020; 0x80008020;
  0x80000020; 0x00100020; 0x00108000; 0x00000000; 0x80008000; 0x00008020;
  0x80000000; 0x80100020; 0x80108020; 0x00108000].

Definition SP3 : list Z := [
  0x00000208; 0x08020200; 0x00000000; 0x08020008; 0x08000200; 0x00000000;
  0x00020208; 0x08000200; 0x00020008; 0x08000008; 0x08000008; 0x00020000;
  0x08020208; 0x00020008; 0x08020000; 0x00000208; 0x08000000; 0x00000008;
  0x08020200; 0x00000200; 0x00020200; 0x08020000; 0x08020008; 0x00020208;
  0x08000208; 0x00020200; 0x00020000; 0x08000208; 0x00000008; 0x08020208;
  0x00000200; 0x08000000; 0x08020200; 0x08000000; 0x00020008; 0x00000208;
  0x00020000; 0x08020200; 0x08000200; 0x00000000; 0x00000200; 0x00020008;
  0x08020208; 0x08000200; 0x08000008; 0x00000200; 0x00000000; 0x08020008;
  0x08000208; 0x00020000; 0x08000000; 0x08020208; 0x00000008; 0x00020208;
  0x00020200; 0x08000008; 0x08020000; 0x08000208; 0x00000208; 0x08020000;
  0x00020208; 0x00000008; 0x08020008; 0x00020200].

Definition SP4 : list Z := [
  0x00802001; 0x00002081; 0x00002081; 0x00000080; 0x00802080; 0x00800081;
  0x00800001; 0x00002001; 0x00000000; 0x00802000; 0x00802000; 0x00802081;
  0x00000081; 0x00000000; 0x00800080; 0x00800001; 0x00000001; 0x00002000;
  0x00800000; 0x00802001; 0x00000080; 0x00800000; 0x00002001; 0x00002080;
  0x00800081; 0x00000001; 0x00002080; 0x00800080; 0x00002000; 0x00802080;
  0x00802081; 0x00000081; 0x00800080; 0x00800001; 0x00802000; 0x00802081;
  0x00000081; 0x00000000; 0x00000000; 0x00802000; 0x00002080; 0x00800080;
  0x00800081; 0x00000001; 0x00802001; 0x00002081; 0x00002081; 0x00000080;
  0x00802081; 0x00000081; 0x00000001; 0x00002000; 0x00800001; 0x00002001;
  0x00802080; 0x00800081; 0x00002001; 0x00002080; 0x00800000; 0x00802001;
  0x00000080; 0x00800000; 0x00002000; 0x00802080].

Definition SP5 : list Z := [
  0x00000100; 0x02080100; 0x02080000; 0x42000100; 0x00080000; 0x00000100;
  0x40000000; 0x02080000; 0x40080100; 0x00080000; 0x02000100; 0x40080100;
  0x42000100; 0x42080000; 0x00080100; 0x40000000; 0x02000000; 0x40080000;
  0x40080000; 0x00000000; 0x40000100; 0x42080100; 0x42080100; 0x02000100;
  0x42080000; 0x40000100; 0x00000000; 0x42000000; 0x02080100; 0x02000000;
  0x42000000; 0x00080100; 0x00080000; 0x42000100; 0x00000100; 0x02000000;
  0x40000000; 0x02080000; 0x42000100; 0x40080100; 0x02000100; 0x40000000;
  0x42080000; 0x02080100; 0x40080100; 0x00000100; 0x20000000; 0x42080000;
  0x42080100; 0x00080100; 0x42000000; 0x42080100; 0x02080000; 0x02000100;
  0x40000100; 0x00080000; 0x00080100; 0x02000100; 0x40000100; 0x00080000;
  0x00000000; 0x40080000; 0x02080100; 0x40000100].

Definition SP6 : list Z := [
  0x20000010; 0x20400000; 0x00004000; 0x20404010; 0x20400000; 0x00000010;
  0x20404010; 0x00400000; 0x20004000; 0x00404010; 0x00400000; 0x20000010;
  0x00400010; 0x20004000; 0x20000000; 0x00004010; 0x00000000; 0x00400010;
  0x20004010; 0x00004000; 0x00404000; 0x20004010; 0x00000010; 0x20400010;
  0x20400010; 0x00000000; 0x00404010; 0x20404000; 0x00004010; 0x00404000;
  0x20404000; 0x20000000; 0x20004000; 0x00000010; 0x20400010; 0x00404000;
  0x20404010; 0x00400000; 0x00004010; 0x20000010; 0x00400000; 0x20004000;
  0x20000000; 0x00004010; 0x20000010; 0x20404010; 0x00404000; 0x20400000;
  0x00404010; 0x20404000; 0x00000000; 0x20400010; 0x00000010; 0x00004000;
  0x20400000; 0x00404010; 0x00004000; 0x00400010; 0x20004010; 0x00000000;
  0x20404000; 0x20000000; 0x00400010; 0x20004010].

Definition SP7 : list Z := [
  0x00200000; 0x04200002; 0x04000802; 0x00000000; 0x00000800; 0x04000802;
  0x00200802; 0x04200800; 0x04200802; 0x00200000; 0x00000000; 0x04000002;
  0x00000002; 0x04000000; 0x04200002; 0x00000802; 0x04000800; 0x00200802;
  0x00200002; 0x04000800; 0x04000002; 0x04200000; 0x04200800; 0x00200002;
  0x04200000; 0x00000800; 0x00000802; 0x04200802; 0x00200800; 0x00000002;
  0x04000000; 0x00200800; 0x04000000; 0x00200800; 0x00200000; 0x04000802;
  0x04000802; 0x04200002; 0x04200002; 0x00000002; 0x00200002; 0x04000000;
  0x04000800; 0x00200000; 0x04200800; 0x00000802; 0x00200802; 0x04200800;
  0x00000802; 0x04000002; 0x04200802; 0x04200000; 0x00200800; 0x00000000;
  0x00000002; 0x04200802; 0x00000000; 0x00200802; 0x04200000; 0x00000800;
  0x04000002; 0x04000800; 0x00000800; 0x00200002].

Definition SP8 : list Z := [
  0x10001040; 0x00001000; 0x00040000; 0x10041040; 0x10000000; 0x10001040;
  0x00000040; 0x10000000; 0x00040040; 0x10040000; 0x10041040; 0x00041000;
  0x10041000; 0x00041040; 0x00001000; 0x00000040; 0x10040000; 0x10000040;
  0x10001000; 0x00001040; 0x00041000; 0x00040040; 0x10040040; 0x10041000;
  0x00001040; 0x00000000; 0x00000000; 0x10040040; 0x10000040; 0x10001000;
  0x00041040; 0x00040000; 0x00041040; 0x00040000; 0x10041000; 0x00001000;
  0x00000040; 0x10040040; 0x00001000; 0x00041040; 0x10001000; 0x00000040;
  0x10000040; 0x10040000; 0x10040040; 0x10000000; 0x00040000; 0x10001040;
  0x00000000; 0x10041040; 0x00040040; 0x10000040; 0x10040000; 0x10001000;
  0x10001040; 0x00000000; 0x10041040; 0x00041000; 0x00041000; 0x00001040;
  0x00001040; 0x00040040; 0x10000000; 0x10041000].

Definition EN0 : Z := 0.
Definition DE1 : Z := 1.
Definition DES_KEYBYTES : Z := 128.
Definition DES_KEYLONGS : Z := 32.
Definition DES_BLOCKLEN : Z := 8.

Definition tab (t : list Z) (i : Z) : Z := nth (Z.to_nat i) t 0.

(** The width of [unsigned long], at least 32 bits. *)
Class DataModel := { sizeof_long : nat; sizeof_long_min : (4 <= sizeof_long)%nat }.
Definition ILP32 : DataModel := {| sizeof_long := 4; sizeof_long_min := le_n 4 |}.
Definition LP64 : DataModel := {| sizeof_long := 8; sizeof_long_min := le_S _ _ (le_S _ _ (le_S _ _ (le_S _ _ (le_n 4)))) |}.

Definition long_bits {dm : DataModel} : Z := 8 * Z.of_nat sizeof_long.
Definition ulong {dm : DataModel} (x : Z) : Z := x mod 2 ^ long_bits.

(** ** Key schedule *)

(** [pc1m]: the 56 selected key bits. *)
Definition key_bits (key : list Z) : list Z :=
  (fun l => let m := Z.land l 7 in
            if Z.land (tab key (Z.shiftr l 3)) (tab bytebit m) =? 0 then 0 else 1) <$> pc1.

(** [pcr]: both halves rotated by [totrot[i]]. *)
Definition rotated_bits (pc1m : list Z) (i : Z) : list Z :=
  ((fun j => let l := j + tab totrot i in
             if l <? 28 then tab pc1m l else tab pc1m (l - 28)) <$> seqZ 0 28) ++
  ((fun j => let l := j + tab totrot i in
             if l <? 56 then tab pc1m l else tab pc1m (l - 28)) <$> seqZ 28 28).

(** The 24 bits selected by [pc2[first ..]], as one long. *)
Definition select_bits (pcr : list Z) (first : Z) : Z :=
  fold_left (fun k j => if tab pcr (tab pc2 (j + first)) =? 0 then k
                        else Z.lor k (tab bigbyte j)) (seqZ 0 24) 0.

(** [deskey]: fills the 32 entries of [kn], in reverse order of the rounds for
    decryption. *)
Definition deskey (key : list Z) (edf : Z) (kn : list Z) : list Z :=
  let pc1m := key_bits key in
  fold_left
    (fun kn i =>
       let m := if edf =? DE1 then Z.shiftl (15 - i) 1 else Z.shiftl i 1 in
       let n := m + 1 in
       let pcr := rotated_bits pc1m i in
       <[Z.to_nat n := select_bits pcr 24]> (<[Z.to_nat m := select_bits pcr 0]> kn))
    (seqZ 0 16) kn.

(** [cookey]: the two longs of each round rearranged into six-bit fields. *)
Fixpoint cookey {dm : DataModel} (raw : list Z) : list Z :=
  match raw with
  | raw0 :: raw1 :: raw =>
      let cook0 := ulong (Z.shiftl (Z.land raw0 0x00fc0000) 6) in
      let cook0 := Z.lor cook0 (ulong (Z.shiftl (Z.land raw0 0x00000fc0) 10)) in
      let cook0 := Z.lor cook0 (Z.shiftr (Z.land raw1 0x00fc0000) 10) in
      let cook0 := Z.lor cook0 (Z.shiftr (Z.land raw1 0x00000fc0) 6) in
      let cook1 := ulong (Z.shiftl (Z.land raw0 0x0003f000) 12) in
      let cook1 := Z.lor cook1 (ulong (Z.shiftl (Z.land raw0 0x0000003f) 16)) in
      let cook1 := Z.lor cook1 (Z.shiftr (Z.land raw1 0x0003f000) 4) in
      let cook1 := Z.lor cook1 (Z.land raw1 0x0000003f) in
      cook0 :: cook1 :: cookey raw
  | _ => []
  end.

(** ** The block cipher *)

(** [scrunch]: eight bytes to two longs, high byte first. *)
Definition scrunch {dm : DataModel} (outof : list Z) : Z * Z :=
  let byte i := Z.land (tab outof i) 0xff in
  (Z.lor (Z.lor (Z.lor (ulong (Z.shiftl (byte 0) 24)) (ulong (Z.shiftl (byte 1) 16)))
                (ulong (Z.shiftl (byte 2) 8))) (byte 3),
   Z.lor (Z.lor (Z.lor (ulong (Z.shiftl (byte 4) 24)) (ulong (Z.shiftl (byte 5) 16)))
                (ulong (Z.shiftl (byte 6) 8))) (byte 7)).

(** [unscrun]: two longs to eight bytes. *)
Definition unscrun (outof : Z * Z) : list Z :=
  let '(o0, o1) := outof in
  [ u8 (Z.land (Z.shiftr o0 24) 0xff); u8 (Z.land (Z.shiftr o0 16) 0xff);
    u8 (Z.land (Z.shiftr o0 8) 0xff); u8 (Z.land o0 0xff);
    u8 (Z.land (Z.shiftr o1 24) 0xff); u8 (Z.land (Z.shiftr o1 16) 0xff);
    u8 (Z.land (Z.shiftr o1 8) 0xff); u8 (Z.land o1 0xff) ].

(** [work = ((hi >> n) ^ lo) & mask; lo ^= work; hi ^= (work << n);] *)
Definition swap_bits {dm : DataModel} (n mask hi lo : Z) : Z * Z :=
  let work := Z.land (Z.lxor (Z.shiftr hi n) lo) mask in
  (Z.lxor hi (ulong (Z.shiftl work n)), Z.lxor lo work).

(** [work = (leftt ^ rightt) & 0xaaaaaaaaL; leftt ^= work; rightt ^= work;] *)
Definition swap_odd (leftt rightt : Z) : Z * Z :=
  let work := Z.land (Z.lxor leftt rightt) 0xaaaaaaaa in
  (Z.lxor leftt work, Z.lxor rightt work).

(** [((x << 1) | ((x >> 31) & 1L)) & 0xffffffffL] *)
Definition rol1 {dm : DataModel} (x : Z) : Z :=
  Z.land (Z.lor (ulong (Z.shiftl x 1)) (Z.land (Z.shiftr x 31) 1)) 0xffffffff.

(** [(x << 31) | (x >> 1)] *)
Definition ror1 {dm : DataModel} (x : Z) : Z :=
  Z.lor (ulong (Z.shiftl x 31)) (Z.shiftr x 1).

(** [desfunc], before the rounds. *)
Definition des_ip {dm : DataModel} (block : Z * Z) : Z * Z :=
  let '(leftt, rightt) := block in
  let '(leftt, rightt) := swap_bits 4 0x0f0f0f0f leftt rightt in
  let '(leftt, rightt) := swap_bits 16 0x0000ffff leftt rightt in
  let '(rightt, leftt) := swap_bits 2 0x33333333 rightt leftt in
  let '(rightt, leftt) := swap_bits 8 0x00ff00ff rightt leftt in
  let rightt := rol1 rightt in
  let '(leftt, rightt) := swap_odd leftt rightt in
  let leftt := rol1 leftt in
  (leftt, rightt).

(** One half of the body of the round loop: the value xored into the other
    half. *)
Definition des_f {dm : DataModel} (rightt key0 key1 : Z) : Z :=
  let work := Z.lor (ulong (Z.shiftl rightt 28)) (Z.shiftr rightt 4) in
  let work := Z.lxor work key0 in
  let fval := tab SP7 (Z.land work 0x3f) in
  let fval := Z.lor fval (tab SP5 (Z.land (Z.shiftr work 8) 0x3f)) in
  let fval := Z.lor fval (tab SP3 (Z.land (Z.shiftr work 16) 0x3f)) in
  let fval := Z.lor fval (tab SP1 (Z.land (Z.shiftr work 24) 0x3f)) in
  let work := Z.lxor rightt key1 in
  let fval := Z.lor fval (tab SP8 (Z.land work 0x3f)) in
  let fval := Z.lor fval (tab SP6 (Z.land (Z.shiftr work 8) 0x3f)) in
  let fval := Z.lor fval (tab SP4 (Z.land (Z.shiftr work 16) 0x3f)) in
  let fval := Z.lor fval (tab SP2 (Z.land (Z.shiftr work 24) 0x3f)) in
  fval.

(** The round loop: each iteration advances [keys] by four longs; the 32 longs
    of a key schedule make eight iterations. *)
Fixpoint des_rounds {dm : DataModel} (keys : list Z) (leftt rightt : Z) : Z * Z :=
  match keys with
  | k0 :: k1 :: k2 :: k3 :: keys =>
      let leftt := Z.lxor leftt (des_f rightt k0 k1) in
      let rightt := Z.lxor rightt (des_f leftt k2 k3) in
      des_rounds keys leftt rightt
  | _ => (leftt, rightt)
  end.

(** [desfunc], after the rounds. *)
Definition des_fp {dm : DataModel} (leftt rightt : Z) : Z * Z :=
  let rightt := ror1 rightt in
  let '(leftt, rightt) := swap_odd leftt rightt in
  let leftt := ror1 leftt in
  let '(leftt, rightt) := swap_bits 8 0x00ff00ff leftt rightt in
  let '(leftt, rightt) := swap_bits 2 0x33333333 leftt rightt in
  let '(rightt, leftt) := swap_bits 16 0x0000ffff rightt leftt in
  let '(rightt, leftt) := swap_bits 4 0x0f0f0f0f rightt leftt in
  (rightt, leftt).

Definition desfunc {dm : DataModel} (block : Z * Z) (keys : list Z) : Z * Z :=
  let '(leftt, rightt) := des_ip block in
  let '(leftt, rightt) := des_rounds keys leftt rightt in
  des_fp leftt rightt.

(** ** Arrays of longs as bytes *)

Fixpoint le_bytes (n : nat) (w : Z) : list Z :=
  match n with
  | O => []
  | S n => Z.land w 0xff :: le_bytes n (Z.shiftr w 8)
  end.

Definition le_word (bs : list Z) : Z :=
  foldr (fun b acc => Z.lor b (Z.shiftl acc 8)) 0 bs.

Definition longs_to_bytes {dm : DataModel} (ws : list Z) : list Z :=
  concat (le_bytes sizeof_long <$> ws).

(** The first [k] longs of a byte array. *)
Fixpoint bytes_to_longs {dm : DataModel} (k : nat) (bs : list Z) : list Z :=
  match k with
  | O => []
  | S k => le_word (take sizeof_long bs) :: bytes_to_longs k (drop sizeof_long bs)
  end.

(** ** The OPENCOMM layer

    A function returns [inl code] when it returns a non-zero error code and
    [inr out] when it returns 0 having written [out]. *)

(** What the C code reads before writing it: [kn] in the two expand functions,
    and the 32-entry [ek]/[dk] of the raw function, once per block. *)
Record des_stack := MkStack { junk_kn : list Z; junk_key : nat -> list Z }.

Definition ERR_LEN : Z := 0xEE20.

Definition OPENCOMM_DesExpandEncKey {dm : DataModel} (kn : list Z)
    (pbDesKey : list Z) (ulDesKeyLen : Z) : Z + list Z :=
  if negb (ulDesKeyLen =? 8) then inl ERR_LEN else
  let kn := deskey pbDesKey EN0 kn in
  let dough := cookey kn in
  inr (take (Z.to_nat DES_KEYBYTES) (longs_to_bytes dough)).

Definition OPENCOMM_DesExpandDecKey {dm : DataModel} (kn : list Z)
    (pbDesKey : list Z) (ulDesKeyLen : Z) : Z + list Z :=
  if negb (ulDesKeyLen =? 8) then inl ERR_LEN else
  let kn := deskey pbDesKey DE1 kn in
  let dough := cookey kn in
  inr (take (Z.to_nat DES_KEYBYTES) (longs_to_bytes dough)).

(** [unsigned long ek[DES_KEYLONGS]; memcpy(ek, key, keylen);] over the
    previous content [junk] of the array. *)
Definition load_key {dm : DataModel} (junk : list Z) (key : list Z) : list Z :=
  bytes_to_longs (Z.to_nat DES_KEYLONGS)
    (key ++ drop (length key) (longs_to_bytes junk)).

Definition OPENCOMM_DesEncRaw {dm : DataModel} (ek : list Z)
    (pbDesEncKey : list Z) (ulDesEncKeyLen : Z)
    (pbInData : list Z) (ulInDataLen : Z) : Z + list Z :=
  if negb (ulInDataLen =? DES_BLOCKLEN) then inl ERR_LEN else
  if negb (ulDesEncKeyLen =? DES_KEYBYTES) then inl ERR_LEN else
  let work := scrunch pbInData in
  let ek := load_key ek pbDesEncKey in
  let work := desfunc work ek in
  inr (unscrun work).

Definition OPENCOMM_DesDecRaw {dm : DataModel} (dk : list Z)
    (pbDesDecKey : list Z) (ulDesDecKeyLen : Z)
    (pbInData : list Z) (ulInDataLen : Z) : Z + list Z :=
  if negb (ulInDataLen =? DES_BLOCKLEN) then inl ERR_LEN else
  if negb (ulDesDecKeyLen =? DES_KEYBYTES) then inl ERR_LEN else
  let work := scrunch pbInData in
  let dk := load_key dk pbDesDecKey in
  let work := desfunc work dk in
  inr (unscrun work).

(** [for (i = 0; i < loops; i++)] over blocks of eight bytes, stopping at the
    first error. *)
Fixpoint des_loop (raw : nat -> list Z -> Z + list Z) (i loops : nat) (data : list Z)
    : Z + list Z :=
  match loops with
  | O => inr []
  | S loops =>
      match raw i (take 8 data) with
      | inl retval => inl retval
      | inr out =>
          match des_loop raw (S i) loops (drop 8 data) with
          | inl retval => inl retval
          | inr rest => inr (out ++ rest)
          end
      end
  end.

(** The output length [*pOutDataLen] is the length of the result. *)
Definition myic_DESEncrypt {dm : DataModel} (stk : des_stack)
    (pDesKey : list Z) (nDesKeyLen : Z) (pInData : list Z) : Z + list Z :=
  let nInDataLen := Z.of_nat (length pInData) in
  if negb (Z.rem nInDataLen 8 =? 0) then inl ERR_LEN else
  if negb (nDesKeyLen =? 8) then inl ERR_LEN else
  match OPENCOMM_DesExpandEncKey (junk_kn stk) pDesKey nDesKeyLen with
  | inl retval => inl retval
  | inr DesEncKeyBuf =>
      let EncKeyLen := DES_KEYBYTES in
      let loops := Z.to_nat (Z.quot nInDataLen 8) in
      des_loop (fun i blk => OPENCOMM_DesEncRaw (junk_key stk i) DesEncKeyBuf EncKeyLen blk 8)
               0 loops pInData
  end.

Definition myic_DESDecrypt {dm : DataModel} (stk : des_stack)
    (pDesKey : list Z) (nDesKeyLen : Z) (pInData : list Z) : Z + list Z :=
  let nInDataLen := Z.of_nat (length pInData) in
  if negb (Z.rem nInDataLen 8 =? 0) then inl ERR_LEN else
  if negb (nDesKeyLen =? 8) then inl ERR_LEN else
  match OPENCOMM_DesExpandDecKey (junk_kn stk) pDesKey nDesKeyLen with
  | inl retval => inl retval
  | inr DesDecKeyBuf =>
      let DecKeyLen := DES_KEYBYTES in
      let loops := Z.to_nat (Z.quot nInDataLen 8) in
      des_loop (fun i blk => OPENCOMM_DesDecRaw (junk_key stk i) DesDecKeyBuf DecKeyLen blk 8)
               0 loops pInData
  end.

(** ** Padding and entry points *)

(** [CW_dataPadAdd]: [None] when [malloc] fails ([*padDate = NULL]). *)
Definition CW_dataPadAdd (malloc_ok : bool) (tag : Z) (date : list Z) : option (list Z) :=
  if negb malloc_ok then None else
  let dateLen := Z.of_nat (length date) in
  let padLen := if tag =? 0 then 8 - dateLen mod 8 else 16 - dateLen mod 16 in
  Some (date ++ replicate (Z.to_nat padLen) (u8 padLen)).

(** "abcd1234" *)
Definition USER_PASSWORD_KEY : list Z := [97; 98; 99; 100; 49; 50; 51; 52].
Definition KEY_LEN : Z := Z.of_nat (length USER_PASSWORD_KEY).

(** When [CW_dataPadAdd] fails, [padDateLen] stays 0 and nothing is read from
    the null pointer. *)
Definition DesEnc {dm : DataModel} (malloc_ok : bool) (stk : des_stack) (pInData : list Z)
    : Z + list Z :=
  let padDate := default [] (CW_dataPadAdd malloc_ok 0 pInData) in
  myic_DESEncrypt stk USER_PASSWORD_KEY KEY_LEN padDate.

Definition DesEnc_raw {dm : DataModel} (stk : des_stack) (pInData : list Z) : Z + list Z :=
  myic_DESEncrypt stk USER_PASSWORD_KEY KEY_LEN pInData.

Definition ERR_MALLOC : Z := 20.
Definition ERR_FILECONT : Z := 20.

(** A byte read as a (signed) [char]. *)
Definition schar (b : Z) : Z := if b <? 128 then b else b - 256.

Definition DesDec {dm : DataModel} (malloc_ok : bool) (stk : des_stack) (pInData : list Z)
    : outcome (Z + list Z) :=
  if negb malloc_ok then Ok (inl ERR_MALLOC) else
  match myic_DESDecrypt stk USER_PASSWORD_KEY KEY_LEN pInData with
  | inl rv => Ok (inl rv)
  | inr tmpPlain =>
      let outLen := Z.of_nat (length tmpPlain) in
      if outLen - 1 <? 0 then Undef OutOfBounds else
      let padChar := schar (tab tmpPlain (outLen - 1)) in
      if (padChar <=? 0) || (8 <? padChar) then Ok (inl ERR_FILECONT) else
      Ok (inr (take (Z.to_nat (outLen - padChar)) tmpPlain))
  end.

Definition DesDec_raw {dm : DataModel} (stk : des_stack) (pInData : list Z) : Z + list Z :=
  myic_DESDecrypt stk USER_PASSWORD_KEY KEY_LEN pInData.

Definition zero_stack : des_stack := MkStack (replicate 32 0) (fun _ => replicate 32 0).
Definition ones_stack : des_stack := MkStack (replicate 32 0) (fun _ => replicate 32 1).

(** ** Lemmas on the bit permutations *)

Section Words.
Context {dm : DataModel}.

Lemma long_bits_min : 32 <= long_bits.
Proof. unfold long_bits. pose proof sizeof_long_min. lia. Qed.

Lemma ulong_word x : is_word x -> ulong x = x.
Proof.
  intros Hx. apply Z.mod_small. unfold is_word in Hx. pose proof long_bits_min.
  assert (2 ^ 32 <= 2 ^ long_bits) by (apply Z.pow_le_mono_r; lia). lia.
Qed.

Lemma ulong_testbit x i : 0 <= i < 32 -> Z.testbit (ulong x) i = Z.testbit x i.
Proof.
  intros Hi. unfold ulong. pose proof long_bits_min. rewrite testbit_mod2 by lia.
  destruct (Z.ltb_spec i long_bits); [done|lia].
Qed.

Lemma ulong_nonneg x : 0 <= ulong x.
Proof. apply Z.mod_pos_bound. pose proof long_bits_min. apply Z.pow_pos_nonneg; lia. Qed.

Lemma u32_ulong x : u32 (ulong x) = u32 x.
Proof.
  apply (bits_eq 32); [lia | apply u32_range.. |]. intros i Hi. unfold u32.
  rewrite !testbit_mod2, ulong_testbit by lia. done.
Qed.

Lemma u32_testbit x i : 0 <= i < 32 -> Z.testbit (u32 x) i = Z.testbit x i.
Proof.
  intros Hi. unfold u32. rewrite testbit_mod2 by lia.
  destruct (Z.ltb_spec i 32); [done|lia].
Qed.

(** A mask whose shift stays within 32 bits. *)
Definition mask_ok (n mask : Z) : Prop :=
  0 <= n /\ 0 <= mask /\ Z.shiftl mask n < 2 ^ 32.

Lemma mask_bit n mask i : mask_ok n mask -> 32 - n <= i -> Z.testbit mask i = false.
Proof.
  intros (Hn & Hm & Hs) Hi. destruct (decide (0 <= i)); [|by apply Z.testbit_neg_r; lia].
  replace (Z.testbit mask i) with (Z.testbit (Z.shiftl mask n) (i + n))
    by (rewrite testbit_shiftl by lia; f_equal; lia).
  apply (testbit_high _ 32); [|lia]. split; [|done]. by apply Z.shiftl_nonneg.
Qed.

Lemma work_word n mask x : mask_ok n mask -> 0 <= x -> is_word (Z.shiftl (Z.land x mask) n).
Proof.
  intros Hm Hx. unfold is_word. destruct Hm as (Hn & H0 & Hs).
  assert (0 <= Z.shiftl (Z.land x mask) n)
    by (apply Z.shiftl_nonneg, Z.land_nonneg; lia).
  split; [done|]. apply bound_of_bits; [lia | done |]. intros i Hi.
  rewrite testbit_shiftl, Z.land_spec, (mask_bit n mask) by (done || lia).
  apply andb_false_r.
Qed.

Lemma land_mask_word n mask x : mask_ok n mask -> 0 <= x -> is_word (Z.land x mask).
Proof.
  intros Hm Hx. unfold is_word. assert (0 <= Z.land x mask) by (apply Z.land_nonneg; lia).
  split; [done|]. apply bound_of_bits; [lia | done |]. intros i Hi.
  rewrite Z.land_spec, (mask_bit n mask) by (done || (destruct Hm; lia)). apply andb_false_r.
Qed.

Section Swap.
Context (n mask : Z) (Hmask : mask_ok n mask).

Lemma swap_bits_nonneg hi lo : 0 <= hi -> 0 <= lo ->
  0 <= (swap_bits n mask hi lo).1 /\ 0 <= (swap_bits n mask hi lo).2.
Proof.
  intros Hh Hl. unfold swap_bits. cbn [fst snd].
  split; apply Z.lxor_nonneg; split; intros _; try done; try apply ulong_nonneg.
  apply Z.land_nonneg. right. apply Hmask.
Qed.

Lemma swap_bits_word hi lo : is_word hi -> is_word lo ->
  is_word (swap_bits n mask hi lo).1 /\ is_word (swap_bits n mask hi lo).2.
Proof.
  intros Hh Hl. unfold swap_bits. cbn [fst snd].
  assert (0 <= Z.lxor (Z.shiftr hi n) lo)
    by (apply Z.lxor_nonneg; rewrite Z.shiftr_nonneg; destruct Hh, Hl; lia).
  rewrite ulong_word by (by apply work_word).
  split; apply (lxor_bound 32); try done; try lia.
  - by apply work_word.
  - by eapply land_mask_word.
Qed.

(** Only the low 32 bits matter. *)
Lemma swap_bits_low hi lo : 0 <= hi -> 0 <= lo ->
  u32 (swap_bits n mask hi lo).1 = (swap_bits n mask (u32 hi) (u32 lo)).1 /\
  u32 (swap_bits n mask hi lo).2 = (swap_bits n mask (u32 hi) (u32 lo)).2.
Proof.
  intros Hh Hl. pose proof (swap_bits_word (u32 hi) (u32 lo) (u32_range _) (u32_range _)).
  destruct Hmask as (Hn & _ & _).
  split; apply (bits_eq 32); try lia; try apply u32_range; try apply H; intros i Hi;
    rewrite u32_testbit by lia; unfold swap_bits; cbn [fst snd]; testbits;
    rewrite ?ulong_testbit by lia; testbits; rewrite ?u32_testbit by lia; [f_equal|].
  - destruct (decide (0 <= i - n)) as [Hin|Hin].
    + rewrite !u32_testbit by lia. f_equal.
    + replace (0 <=? i - n) with false by lia.
      rewrite !(Z.testbit_neg_r _ (i - n)) by lia. done.
  - destruct (decide (i + n < 32)) as [Hin|Hin].
    + rewrite !u32_testbit by lia. done.
    + rewrite (mask_bit n mask) by (done || lia). by rewrite !andb_false_r.
Qed.

Lemma swap_bits_involutive hi lo : is_word hi -> is_word lo ->
  swap_bits n mask (swap_bits n mask hi lo).1 (swap_bits n mask hi lo).2 = (hi, lo).
Proof.
  intros Hh Hl. unfold swap_bits. cbn [fst snd].
  set (work := Z.land (Z.lxor (Z.shiftr hi n) lo) mask).
  assert (0 <= Z.lxor (Z.shiftr hi n) lo)
    by (apply Z.lxor_nonneg; rewrite Z.shiftr_nonneg; destruct Hh, Hl; lia).
  rewrite (ulong_word (Z.shiftl work n)) by (by apply work_word).
  assert (Z.land (Z.lxor (Z.shiftr (Z.lxor hi (Z.shiftl work n)) n) (Z.lxor lo work)) mask
          = work) as ->.
  { rewrite Z.shiftr_lxor, Z.shiftr_shiftl_l, Z.sub_diag, Z.shiftl_0_r by (destruct Hmask; lia).
    unfold work at 3. f_equal.
    rewrite (Z.lxor_comm lo), Z.lxor_assoc, <- (Z.lxor_assoc work), Z.lxor_nilpotent.
    by rewrite Z.lxor_0_l. }
  rewrite ulong_word by (by apply work_word).
  by rewrite !Z.lxor_assoc, !Z.lxor_nilpotent, !Z.lxor_0_r.
Qed.
End Swap.

Lemma swap_odd_inverse l r :
  swap_odd (swap_odd l r).2 (swap_odd l r).1 = (r, l).
Proof.
  unfold swap_odd. cbn [fst snd]. set (work := Z.land (Z.lxor l r) 0xaaaaaaaa).
  assert (Z.lxor (Z.lxor r work) (Z.lxor l work) = Z.lxor l r) as ->.
  { rewrite (Z.lxor_comm l work), Z.lxor_assoc, <- (Z.lxor_assoc work), Z.lxor_nilpotent.
    by rewrite Z.lxor_0_l, Z.lxor_comm. }
  fold work. by rewrite !Z.lxor_assoc, !Z.lxor_nilpotent, !Z.lxor_0_r.
Qed.

Lemma swap_odd_low l r : is_word l -> 0 <= r ->
  is_word (swap_odd l r).1 /\ 0 <= (swap_odd l r).2 /\
  (swap_odd l r).1 = (swap_odd l (u32 r)).1 /\
  u32 (swap_odd l r).2 = (swap_odd l (u32 r)).2.
Proof.
  intros Hl Hr. unfold swap_odd. cbn [fst snd].
  assert (0 <= Z.lxor l r) by (apply Z.lxor_nonneg; destruct Hl; lia).
  assert (Z.land (Z.lxor l r) 0xaaaaaaaa = Z.land (Z.lxor l (u32 r)) 0xaaaaaaaa) as Hw.
  { assert (0 <= Z.lxor l (u32 r)) by (apply Z.lxor_nonneg; pose proof (u32_range r);
      unfold is_word in *; lia).
    apply (bits_eq 32); try (rewrite Z.land_comm; apply land_bound); try lia.
    intros i Hi. rewrite !Z.land_spec, !Z.lxor_spec, u32_testbit by lia. done. }
  assert (is_word (Z.land (Z.lxor l (u32 r)) 0xaaaaaaaa)) as Hww.
  { rewrite Z.land_comm. apply land_bound; try lia.
    apply Z.lxor_nonneg; pose proof (u32_range r); unfold is_word in *; lia. }
  rewrite Hw. split; [|split; [|split]]; [apply (lxor_bound 32); done || lia | |done|].
  - apply Z.lxor_nonneg. unfold is_word in *. lia.
  - apply (bits_eq 32); [lia | apply u32_range | apply (lxor_bound 32); try lia; [apply u32_range | done] |].

    intros i Hi. rewrite u32_testbit, !Z.lxor_spec, u32_testbit by lia. done.
Qed.

Lemma ror1_nonneg x : 0 <= x -> 0 <= ror1 x.
Proof.
  intros Hx. apply Z.lor_nonneg. split; [apply ulong_nonneg | by apply Z.shiftr_nonneg].
Qed.

Lemma rol1_ror1 x : is_word x -> rol1 (u32 (ror1 x)) = x.
Proof.
  intros Hx. unfold rol1. apply (bits_eq 32); [lia | | apply Hx |].
  { rewrite Z.land_comm. apply land_bound; [lia..|]. apply Z.lor_nonneg. split.
    - apply ulong_nonneg.
    - apply Z.land_nonneg. lia. }
  intros i Hi. rewrite Z.land_spec, Z.lor_spec, ulong_testbit by lia. testbits.
  enum_bit i Hi; eval_bits; cbn [andb orb];
    rewrite ?andb_true_r, ?andb_false_r, ?orb_false_r, ?orb_false_l;
    rewrite ?u32_testbit by lia; unfold ror1; rewrite ?Z.lor_spec, ?ulong_testbit by lia;
    testbits; eval_bits; rewrite ?(testbit_word x 32) by (done || lia);
    rewrite ?andb_false_r, ?orb_false_r, ?orb_false_l; done.
Qed.

Lemma swap_masks :
  mask_ok 4 0x0f0f0f0f /\ mask_ok 16 0x0000ffff /\
  mask_ok 2 0x33333333 /\ mask_ok 8 0x00ff00ff.
Proof. vm_compute. intuition congruence. Qed.

(** The initial permutation undoes the final one, halves exchanged; the bits
    above 32 that a 64-bit [unsigned long] collects are ignored. *)
Lemma ip_fp l r : is_word l -> is_word r ->
  des_ip (u32 (des_fp l r).1, u32 (des_fp l r).2) = (r, l).
Proof.
  intros Hl Hr. destruct swap_masks as (M4 & M16 & M2 & M8).
  unfold des_fp. pose proof (ror1_nonneg r (proj1 Hr)) as Hr1.
  destruct (swap_odd_low l (ror1 r) Hl Hr1) as (Hl1 & Hr2 & El1 & Er2).
  pose proof (swap_odd_inverse l (u32 (ror1 r))) as Einv. rewrite <- El1, <- Er2 in Einv.
  destruct (swap_odd l (ror1 r)) as [l1 r2]. cbn [fst snd] in *. clear El1 Er2.
  pose proof (ror1_nonneg l1 (proj1 Hl1)) as Hl2.
  assert (forall n m a b, mask_ok n m -> 0 <= a -> 0 <= b -> exists a' b',
    swap_bits n m a b = (a', b') /\ 0 <= a' /\ 0 <= b' /\
    swap_bits n m (u32 a') (u32 b') = (u32 a, u32 b)) as Hswap.
  { intros n m a b Hm Ha Hb.
    destruct (swap_bits_nonneg n m Hm a b Ha Hb), (swap_bits_low n m Hm a b Ha Hb) as [E1 E2].
    pose proof (swap_bits_involutive n m Hm (u32 a) (u32 b) (u32_range _) (u32_range _)) as Ei.
    rewrite <- E1, <- E2 in Ei.
    destruct (swap_bits n m a b) as [a' b']. cbn [fst snd] in *. eauto 6. }
  destruct (Hswap 8 _ _ _ M8 Hl2 Hr2) as (l3 & r3 & -> & Hl3 & Hr3 & E3).
  destruct (Hswap 2 _ _ _ M2 Hl3 Hr3) as (l4 & r4 & -> & Hl4 & Hr4 & E4).
  destruct (Hswap 16 _ _ _ M16 Hr4 Hl4) as (r5 & l5 & -> & Hr5 & Hl5 & E5).
  destruct (Hswap 4 _ _ _ M4 Hr5 Hl5) as (r6 & l6 & -> & Hr6 & Hl6 & E6).
  cbn [fst snd]. unfold des_ip. rewrite E6, E5, E4, E3, rol1_ror1 by done.
  rewrite Einv. by rewrite rol1_ror1 by done.
Qed.
End Words.

(** ** The rounds *)

Section Rounds.
Context {dm : DataModel}.

Lemma rol1_word x : is_word (rol1 x).
Proof.
  unfold rol1. rewrite Z.land_comm. apply land_bound; [lia..|]. apply Z.lor_nonneg.
  split; [apply ulong_nonneg | apply Z.land_nonneg; lia].
Qed.

Lemma des_ip_word b : is_word b.1 -> is_word b.2 ->
  is_word (des_ip b).1 /\ is_word (des_ip b).2.
Proof.
  destruct b as [l r]. cbn [fst snd]. intros Hl Hr.
  destruct swap_masks as (M4 & M16 & M2 & M8).
  assert (forall n m a b, mask_ok n m -> is_word a -> is_word b -> exists a' b',
    swap_bits n m a b = (a', b') /\ is_word a' /\ is_word b') as Hswap.
  { intros n m a b Hm Ha Hb. destruct (swap_bits_word n m Hm a b Ha Hb).
    destruct (swap_bits n m a b). eauto. }
  unfold des_ip.
  destruct (Hswap 4 _ _ _ M4 Hl Hr) as (l1 & r1 & -> & Hl1 & Hr1).
  destruct (Hswap 16 _ _ _ M16 Hl1 Hr1) as (l2 & r2 & -> & Hl2 & Hr2).
  destruct (Hswap 2 _ _ _ M2 Hr2 Hl2) as (r3 & l3 & -> & Hr3 & Hl3).
  destruct (Hswap 8 _ _ _ M8 Hr3 Hl3) as (r4 & l4 & -> & Hr4 & Hl4).
  destruct (swap_odd_low l4 (rol1 r4) Hl4 (proj1 (rol1_word _))) as (Hl5 & Hr5 & _ & Er5).
  rewrite (u32_small (rol1 r4)) in Er5 by apply rol1_word.
  destruct (swap_odd l4 (rol1 r4)) as [l5 r5]. cbn [fst snd] in *.
  split; [apply rol1_word|]. rewrite <- Er5. apply u32_range.
Qed.

Definition sp_tables : list (list Z) := [SP1; SP2; SP3; SP4; SP5; SP6; SP7; SP8].

Lemma sp_tables_words t : t ∈ sp_tables -> Forall is_word t.
Proof.
  intros Ht. assert (Forall (Forall is_word) sp_tables) as H by by_decide.
  rewrite Forall_forall in H. by apply H.
Qed.

Lemma tab_word t i : Forall is_word t -> is_word (tab t i).
Proof.
  intros Ht. unfold tab. destruct (nth_in_or_default (Z.to_nat i) t 0) as [Hin| ->].
  - rewrite Forall_forall in Ht. by apply Ht, list_elem_of_In.
  - unfold is_word. lia.
Qed.

Lemma des_f_word r k0 k1 : is_word (des_f r k0 k1).
Proof.
  unfold des_f. repeat (apply (lor_bound 32); [lia|..]);
    apply tab_word, sp_tables_words; unfold sp_tables;
    repeat first [ by apply list_elem_of_here | apply list_elem_of_further ].
Qed.

(** A Feistel step on the two longs of one round key. *)
Definition step (s : Z * Z) (k : Z * Z) : Z * Z :=
  (s.2, Z.lxor s.1 (des_f s.2 k.1 k.2)).

Definition exchange (s : Z * Z) : Z * Z := (s.2, s.1).

Lemma step_inverse s k : step (exchange (step s k)) k = exchange s.
Proof.
  destruct s as [l r]. unfold step, exchange. cbn [fst snd].
  by rewrite Z.lxor_assoc, Z.lxor_nilpotent, Z.lxor_0_r.
Qed.

Lemma feistel_inverse ks s :
  fold_left step (rev ks) (exchange (fold_left step ks s)) = exchange s.
Proof.
  revert s. induction ks as [|k ks IH]; intros s; [done|].
  cbn [fold_left rev]. rewrite fold_left_app, IH. cbn [fold_left].
  apply step_inverse.
Qed.

Lemma feistel_word ks s : is_word s.1 -> is_word s.2 ->
  is_word (fold_left step ks s).1 /\ is_word (fold_left step ks s).2.
Proof.
  revert s. induction ks as [|k ks IH]; intros s H1 H2; [done|]. cbn [fold_left].
  apply IH; [done|]. apply (lxor_bound 32); [lia | done | apply des_f_word].
Qed.

(** The loop of [desfunc] on a key schedule written as pairs. *)
Definition flat (ks : list (Z * Z)) : list Z := concat ((fun k => [k.1; k.2]) <$> ks).

Lemma des_rounds_feistel ks l r : Nat.even (length ks) = true ->
  des_rounds (flat ks) l r = fold_left step ks (l, r).
Proof.
  revert l r. induction ks as [ks IH] using (induction_ltof1 _ length). unfold ltof in IH.
  intros l r He. destruct ks as [|k0 [|k1 ks]]; [done..|].
  cbn [fold_left flat fmap list_fmap concat app fst snd]. cbn [des_rounds].
  rewrite (IH ks); [done | cbn; lia | done].
Qed.

Lemma ror1_rol1 x : is_word x -> u32 (ror1 (rol1 x)) = x.
Proof.
  intros Hx. apply (bits_eq 32); [lia | apply u32_range | apply Hx |].
  intros i Hi. rewrite u32_testbit by lia. unfold ror1.
  rewrite Z.lor_spec, ulong_testbit by lia. unfold rol1. testbits.
  enum_bit i Hi; eval_bits; rewrite ?ulong_testbit by lia; testbits; eval_bits;
    rewrite ?(testbit_high x 32 32) by (done || lia); btauto.
Qed.

(** The final permutation undoes the initial one. *)
Lemma fp_ip b : is_word b.1 -> is_word b.2 ->
  u32 (des_fp (des_ip b).2 (des_ip b).1).1 = b.1 /\
  u32 (des_fp (des_ip b).2 (des_ip b).1).2 = b.2.
Proof.
  destruct b as [l r]. cbn [fst snd]. intros Hl Hr.
  destruct swap_masks as (M4 & M16 & M2 & M8).
  assert (forall n m a b, mask_ok n m -> is_word a -> is_word b -> exists a' b',
    swap_bits n m a b = (a', b') /\ is_word a' /\ is_word b' /\
    swap_bits n m a' b' = (a, b)) as Hswap.
  { intros n m a b Hm Ha Hb. destruct (swap_bits_word n m Hm a b Ha Hb).
    pose proof (swap_bits_involutive n m Hm a b Ha Hb).
    destruct (swap_bits n m a b). cbn [fst snd] in *. eauto 6. }
  unfold des_ip.
  destruct (Hswap 4 _ _ _ M4 Hl Hr) as (l1 & r1 & -> & Hl1 & Hr1 & E1).
  destruct (Hswap 16 _ _ _ M16 Hl1 Hr1) as (l2 & r2 & -> & Hl2 & Hr2 & E2).
  destruct (Hswap 2 _ _ _ M2 Hr2 Hl2) as (r3 & l3 & -> & Hr3 & Hl3 & E3).
  destruct (Hswap 8 _ _ _ M8 Hr3 Hl3) as (r4 & l4 & -> & Hr4 & Hl4 & E4).
  destruct (swap_odd_low l4 (rol1 r4) Hl4 (proj1 (rol1_word _))) as (Hl5 & Hr5 & _ & Er5).
  rewrite (u32_small (rol1 r4)) in Er5 by apply rol1_word.
  pose proof (swap_odd_inverse l4 (rol1 r4)) as Einv.
  destruct (swap_odd l4 (rol1 r4)) as [l5 r5]. cbn [fst snd] in *.
  assert (is_word r5) as Hr5w by (rewrite <- Er5; apply u32_range).
  (* now the final permutation, low 32 bits *)
  unfold des_fp.
  pose proof (ror1_nonneg _ (proj1 (rol1_word l5))) as Hp.
  destruct (swap_odd_low r5 _ Hr5w Hp) as (_ & Hn & F1 & F2).
  rewrite ror1_rol1, Einv in F1, F2 by done. cbn [fst snd] in F1, F2.
  destruct (swap_odd r5 (ror1 (rol1 l5))) as [l6 r6]. cbn [fst snd] in *. subst l6.
  assert (forall n m a b a' b', mask_ok n m -> 0 <= a -> 0 <= b ->
    swap_bits n m (u32 a) (u32 b) = (a', b') -> exists x y,
    swap_bits n m a b = (x, y) /\ 0 <= x /\ 0 <= y /\ u32 x = a' /\ u32 y = b') as Hlow.
  { intros n m a b a' b' Hm Ha Hb E.
    destruct (swap_bits_nonneg n m Hm a b Ha Hb), (swap_bits_low n m Hm a b Ha Hb) as [G1 G2].
    rewrite E in G1, G2. destruct (swap_bits n m a b). cbn [fst snd] in *. eauto 7. }
  pose proof (ror1_nonneg _ (proj1 (rol1_word r4))) as Hq.
  destruct (Hlow 8 _ (ror1 (rol1 r4)) r6 r3 l3 M8 Hq Hn) as (x1 & y1 & -> & ? & ? & <- & <-).
  { rewrite ror1_rol1, F2 by done. exact E4. }
  destruct (Hlow 2 _ x1 y1 r2 l2 M2) as (x2 & y2 & -> & ? & ? & <- & <-); [done..|exact E3|].
  destruct (Hlow 16 _ y2 x2 l1 r1 M16) as (y3 & x3 & -> & ? & ? & <- & <-); [done..|exact E2|].
  destruct (Hlow 4 _ y3 x3 l r M4) as (y4 & x4 & -> & ? & ? & <- & <-); [done..|exact E1|].
  done.
Qed.

(** [desfunc] with the reversed key schedule undoes [desfunc]. *)
Lemma desfunc_inverse ks b : Nat.even (length ks) = true ->
  is_word b.1 -> is_word b.2 ->
  let c := desfunc b (flat ks) in
  let d := desfunc (u32 c.1, u32 c.2) (flat (rev ks)) in
  (u32 d.1, u32 d.2) = b.
Proof.
  intros He H1 H2. cbn zeta. destruct (des_ip_word b H1 H2) as [Hl Hr].
  destruct (fp_ip b H1 H2) as [Hb1 Hb2].
  transitivity (b.1, b.2); [|by destruct b]. rewrite <- Hb1, <- Hb2. clear Hb1 Hb2 H1 H2.
  assert (exists l r, des_ip b = (l, r)) as (l & r & Eb) by (destruct (des_ip b); eauto).
  unfold desfunc. rewrite Eb in *. cbn [fst snd] in *.
  rewrite des_rounds_feistel by done.
  destruct (feistel_word ks (l, r) Hl Hr) as [Hl' Hr'].
  pose proof (feistel_inverse ks (l, r)) as Hinv.
  destruct (fold_left step ks (l, r)) as [l' r'] eqn:E. cbn [fst snd] in *.
  rewrite ip_fp by done. unfold exchange in Hinv. cbn [fst snd] in Hinv.
  rewrite des_rounds_feistel by (by rewrite length_rev). by rewrite Hinv.
Qed.
End Rounds.

(** ** The key schedule *)

Definition subkey (key : list Z) (i : Z) : Z * Z :=
  let pcr := rotated_bits (key_bits key) i in (select_bits pcr 0, select_bits pcr 24).

Definition subkeys (key : list Z) : list (Z * Z) := subkey key <$> seqZ 0 16.

Lemma fill_keys (f g : Z -> Z) (kn : list Z) : length kn = 32%nat ->
  fold_left (fun kn i => <[Z.to_nat (Z.shiftl i 1 + 1) := g i]>
                           (<[Z.to_nat (Z.shiftl i 1) := f i]> kn)) (seqZ 0 16) kn
  = flat ((fun i => (f i, g i)) <$> seqZ 0 16) /\
  fold_left (fun kn i => <[Z.to_nat (Z.shiftl (15 - i) 1 + 1) := g i]>
                           (<[Z.to_nat (Z.shiftl (15 - i) 1) := f i]> kn)) (seqZ 0 16) kn
  = flat (rev ((fun i => (f i, g i)) <$> seqZ 0 16)).
Proof.
  intros Hkn. do 32 (destruct kn as [|? kn]; [discriminate|]).
  destruct kn; [|discriminate]. clear Hkn. split; reflexivity.
Qed.

(** [deskey] overwrites all of [kn]; for decryption the rounds are reversed. *)
Lemma deskey_spec key kn : length kn = 32%nat ->
  deskey key EN0 kn = flat (subkeys key) /\ deskey key DE1 kn = flat (rev (subkeys key)).
Proof.
  exact (fill_keys (fun i => select_bits (rotated_bits (key_bits key) i) 0)
                   (fun i => select_bits (rotated_bits (key_bits key) i) 24) kn).
Qed.

Section Cook.
Context {dm : DataModel}.

Definition cook (k : Z * Z) : Z * Z :=
  (Z.lor (Z.lor (Z.lor (ulong (Z.shiftl (Z.land k.1 0x00fc0000) 6))
                       (ulong (Z.shiftl (Z.land k.1 0x00000fc0) 10)))
                (Z.shiftr (Z.land k.2 0x00fc0000) 10))
         (Z.shiftr (Z.land k.2 0x00000fc0) 6),
   Z.lor (Z.lor (Z.lor (ulong (Z.shiftl (Z.land k.1 0x0003f000) 12))
                       (ulong (Z.shiftl (Z.land k.1 0x0000003f) 16)))
                (Z.shiftr (Z.land k.2 0x0003f000) 4))
         (Z.land k.2 0x0000003f)).

Lemma cookey_flat ks : cookey (flat ks) = flat (cook <$> ks).
Proof. induction ks as [|k ks IH]; [done|]. cbn. f_equal. f_equal. exact IH. Qed.

Lemma shiftr_word x n : 0 <= n -> is_word x -> is_word (Z.shiftr x n).
Proof.
  intros Hn Hx. unfold is_word in *. rewrite Z.shiftr_div_pow2 by lia.
  assert (0 < 2 ^ n) by (apply Z.pow_pos_nonneg; lia).
  split; [apply Z.div_pos; lia | apply Z.div_lt_upper_bound; nia].
Qed.

Lemma land_word_r x m : 0 <= x -> is_word m -> is_word (Z.land x m).
Proof. intros Hx Hm. rewrite Z.land_comm. by apply (land_bound 32). Qed.

Lemma cook_word k : 0 <= k.1 -> 0 <= k.2 -> is_word (cook k).1 /\ is_word (cook k).2.
Proof.
  intros H1 H2. unfold cook. cbn [fst snd].
  assert (forall n m, mask_ok n m -> is_word (ulong (Z.shiftl (Z.land k.1 m) n))) as Hl.
  { intros n m Hm. rewrite ulong_word; by apply work_word. }
  assert (forall n m, 0 <= n -> is_word m -> is_word (Z.shiftr (Z.land k.2 m) n)) as Hr.
  { intros n m Hn Hm. apply shiftr_word; [done|]. by apply land_word_r. }
  split; repeat (apply (lor_bound 32); [lia|..]);
    solve [ apply Hl; vm_compute; intuition congruence
          | apply Hr; [lia | unfold is_word; lia]
          | apply land_word_r; [done | unfold is_word; lia] ].
Qed.

Lemma flat_words ks : Forall (fun k => is_word k.1 /\ is_word k.2) ks -> Forall is_word (flat ks).
Proof. induction 1 as [|k ks [H1 H2] _ IH]; cbn; eauto. Qed.

Lemma flat_length ks : length (flat ks) = (2 * length ks)%nat.
Proof. induction ks as [|k ks IH]; [done|]. cbn. fold (flat ks). rewrite IH. lia. Qed.
End Cook.

Lemma select_bits_nonneg pcr first : 0 <= select_bits pcr first.
Proof.
  unfold select_bits. assert (Forall (fun j => 0 <= tab bigbyte j) (seqZ 0 24)) as Hj.
  { by_decide. }
  assert (forall js k, Forall (fun j => 0 <= tab bigbyte j) js -> 0 <= k ->
    0 <= fold_left (fun k j => if tab pcr (tab pc2 (j + first)) =? 0 then k
                               else Z.lor k (tab bigbyte j)) js k) as Hgen.
  { intros js k Hjs. revert k. induction Hjs as [|j js Hj0 _ IH]; intros k Hk; [done|].
    cbn [fold_left]. apply IH. case_match; [done|]. apply Z.lor_nonneg. lia. }
  apply Hgen; [done | lia].
Qed.

(** ** Longs in memory *)

Lemma le_word_bytes n w : 0 <= w < 2 ^ (8 * Z.of_nat n) -> le_word (le_bytes n w) = w.
Proof.
  revert w. induction n as [|n IH]; intros w Hw; [cbn in *; lia|].
  cbn [le_bytes le_word foldr]. fold (le_word (le_bytes n (Z.shiftr w 8))).
  rewrite IH.
  - apply Z.bits_inj'. intros i Hi. testbits.
    change 0xff with (Z.ones 8). rewrite Z.testbit_ones by lia.
    destruct (decide (i < 8)) as [H|H].
    + replace (0 <=? i - 8) with false by lia. replace ((0 <=? i) && (i <? 8)) with true by lia.
      cbn. rewrite orb_false_r, andb_true_r. done.
    + replace (0 <=? i - 8) with true by lia. replace ((0 <=? i) && (i <? 8)) with false by lia.
      cbn. rewrite andb_false_r. cbn. f_equal. lia.
  - rewrite Z.shiftr_div_pow2 by lia.
    replace (8 * Z.of_nat (S n)) with (8 * Z.of_nat n + 8) in Hw by lia.
    rewrite Z.pow_add_r in Hw by lia.
    split; [apply Z.div_pos; lia | apply Z.div_lt_upper_bound; lia].
Qed.

Lemma le_bytes_length n w : length (le_bytes n w) = n.
Proof. revert w. induction n as [|n IH]; intros w; [done|]. cbn. by rewrite IH. Qed.

Definition is_ulong {dm : DataModel} (w : Z) : Prop := 0 <= w < 2 ^ long_bits.

Lemma word_ulong {dm : DataModel} w : is_word w -> is_ulong w.
Proof.
  intros Hw. unfold is_ulong, is_word in *. pose proof long_bits_min.
  assert (2 ^ 32 <= 2 ^ long_bits) by (apply Z.pow_le_mono_r; lia). lia.
Qed.

Lemma longs_to_bytes_app {dm : DataModel} ws ws' :
  longs_to_bytes (ws ++ ws') = longs_to_bytes ws ++ longs_to_bytes ws'.
Proof. unfold longs_to_bytes. by rewrite fmap_app, concat_app. Qed.

Lemma bytes_to_longs_app {dm : DataModel} ws rest : Forall is_ulong ws ->
  bytes_to_longs (length ws) (longs_to_bytes ws ++ rest) = ws.
Proof.
  induction 1 as [|w ws Hw _ IH]; [done|]. cbn [length bytes_to_longs].
  unfold longs_to_bytes. cbn [fmap list_fmap concat]. rewrite <- app_assoc.
  rewrite take_app_length', drop_app_length' by (by rewrite le_bytes_length).
  unfold longs_to_bytes in IH. rewrite IH. f_equal. by apply le_word_bytes.
Qed.

Lemma longs_to_bytes_length {dm : DataModel} ws :
  length (longs_to_bytes ws) = (sizeof_long * length ws)%nat.
Proof.
  unfold longs_to_bytes. induction ws as [|w ws IH]; cbn [fmap list_fmap concat length]; [lia|].
  rewrite length_app, le_bytes_length, IH. lia.
Qed.

(** ** One block *)

Section Block.
Context {dm : DataModel}.

Definition be_long (b0 b1 b2 b3 : Z) : Z :=
  Z.lor (Z.lor (Z.lor (ulong (Z.shiftl (Z.land b0 0xff) 24)) (ulong (Z.shiftl (Z.land b1 0xff) 16)))
               (ulong (Z.shiftl (Z.land b2 0xff) 8))) (Z.land b3 0xff).

Lemma be_long_word b0 b1 b2 b3 : is_word (be_long b0 b1 b2 b3).
Proof.
  unfold be_long.
  assert (forall b n, mask_ok n 0xff -> is_word (ulong (Z.shiftl (Z.land b 0xff) n))) as Hl.
  { intros b n Hm. destruct Hm as (Hn & _ & Hs).
    replace (Z.land b 0xff) with (Z.land (Z.land b 0xff) 0xff) by (by rewrite <- Z.land_assoc).
    assert (0 <= Z.land b 0xff) by (apply Z.land_nonneg; lia).
    rewrite ulong_word; by apply work_word. }
  repeat (apply (lor_bound 32); [lia|..]); try (apply Hl; vm_compute; intuition congruence).
  change 0xff with (Z.ones 8). rewrite Z.land_ones by lia.
  pose proof (Z.mod_pos_bound b3 (2 ^ 8)). lia.
Qed.

Lemma be_long_bytes x :
  be_long (u8 (Z.land (Z.shiftr x 24) 0xff)) (u8 (Z.land (Z.shiftr x 16) 0xff))
          (u8 (Z.land (Z.shiftr x 8) 0xff)) (u8 (Z.land x 0xff)) = u32 x.
Proof.
  apply (bits_eq 32); [lia | apply be_long_word | apply u32_range |]. intros i Hi.
  rewrite u32_testbit by lia. unfold be_long, u8.
  rewrite !Z.lor_spec, !ulong_testbit by lia. testbits.
  enum_bit i Hi; eval_bits; btauto.
Qed.

Lemma be_long_split b0 b1 b2 b3 x :
  is_byte b0 -> is_byte b1 -> is_byte b2 -> is_byte b3 -> x = be_long b0 b1 b2 b3 ->
  u8 (Z.land (Z.shiftr x 24) 0xff) = b0 /\ u8 (Z.land (Z.shiftr x 16) 0xff) = b1 /\
  u8 (Z.land (Z.shiftr x 8) 0xff) = b2 /\ u8 (Z.land x 0xff) = b3.
Proof.
  intros H0 H1 H2 H3 ->. unfold be_long, u8.
  assert (forall k b, 0 <= k <= 24 -> is_byte b ->
    (forall i, 0 <= i < 8 -> Z.testbit (be_long b0 b1 b2 b3) (i + k) = Z.testbit b i) ->
    Z.land (Z.shiftr (be_long b0 b1 b2 b3) k) 0xff mod 2 ^ 8 = b) as Hg.
  { intros k b Hk Hb H. apply (bits_eq 8); [lia | apply Z.mod_pos_bound; lia | apply Hb |].
    intros i Hi. testbits. rewrite <- H by done. replace (0 <=? i) with true by lia.
    replace (i <? 8) with true by lia. change 0xff with (Z.ones 8).
    rewrite Z.ones_spec_low by lia. btauto. }
  assert (forall k i, 0 <= k <= 24 -> 0 <= i < 8 ->
    Z.testbit (be_long b0 b1 b2 b3) (i + k) =
    Z.testbit b0 (i + k - 24) && Z.testbit 0xff (i + k - 24)
    || Z.testbit b1 (i + k - 16) && Z.testbit 0xff (i + k - 16)
    || Z.testbit b2 (i + k - 8) && Z.testbit 0xff (i + k - 8)
    || Z.testbit b3 (i + k) && Z.testbit 0xff (i + k)) as Hbit.
  { intros k i Hk Hi. unfold be_long. rewrite !Z.lor_spec, !ulong_testbit by lia. by testbits. }
  pose proof (fun i => testbit_byte b0 i H0). pose proof (fun i => testbit_byte b1 i H1).
  pose proof (fun i => testbit_byte b2 i H2). pose proof (fun i => testbit_byte b3 i H3).
  fold (be_long b0 b1 b2 b3).
  replace (Z.land (be_long b0 b1 b2 b3) 0xff)
    with (Z.land (Z.shiftr (be_long b0 b1 b2 b3) 0) 0xff) by (by rewrite Z.shiftr_0_r).
  repeat split; apply Hg; try done; intros i Hi; rewrite Hbit by lia;
    enum_bit i Hi; eval_bits; btauto.
Qed.

Lemma scrunch_unscrun x y : scrunch (unscrun (x, y)) = (u32 x, u32 y).
Proof.
  rewrite <- (be_long_bytes x), <- (be_long_bytes y). reflexivity.
Qed.

Lemma scrunch_words bs : is_word (scrunch bs).1 /\ is_word (scrunch bs).2.
Proof. split; apply be_long_word. Qed.

Lemma low_byte x k : 0 <= k <= 24 ->
  u8 (Z.land (Z.shiftr (u32 x) k) 0xff) = u8 (Z.land (Z.shiftr x k) 0xff).
Proof.
  intros Hk. apply (bits_eq 8); [lia | apply u8_range.. |]. intros i Hi. unfold u8. testbits.
  by rewrite u32_testbit by lia.
Qed.

Lemma unscrun_low w : unscrun (u32 w.1, u32 w.2) = unscrun w.
Proof.
  destruct w as [x y]. unfold unscrun. cbn [fst snd].
  pose proof (low_byte x 0) as Hx. pose proof (low_byte y 0) as Hy.
  rewrite !Z.shiftr_0_r in Hx, Hy. by rewrite !low_byte, Hx, Hy by lia.
Qed.

Lemma unscrun_scrunch bs : length bs = 8%nat -> Forall is_byte bs -> unscrun (scrunch bs) = bs.
Proof.
  intros Hl Hb. do 8 (destruct bs as [|? bs]; [discriminate|]). destruct bs; [|discriminate].
  rewrite !Forall_cons in Hb. destruct Hb as (H0 & H1 & H2 & H3 & H4 & H5 & H6 & H7 & _).
  destruct (be_long_split _ _ _ _ _ H0 H1 H2 H3 eq_refl) as (E0 & E1 & E2 & E3).
  destruct (be_long_split _ _ _ _ _ H4 H5 H6 H7 eq_refl) as (E4 & E5 & E6 & E7).
  unfold scrunch, unscrun. cbn [tab nth Z.to_nat Pos.to_nat Pos.iter_op Nat.add].
  unfold be_long in *. repeat f_equal; done.
Qed.

Lemma unscrun_bytes w : length (unscrun w) = 8%nat /\ Forall is_byte (unscrun w).
Proof.
  destruct w as [x y]. split; [done|]. unfold unscrun.
  repeat (apply Forall_cons; split); auto using u8_range.
Qed.

(** Decrypting a block with the reversed key schedule. *)
Lemma block_inverse ks bs : Nat.even (length ks) = true ->
  length bs = 8%nat -> Forall is_byte bs ->
  unscrun (desfunc (scrunch (unscrun (desfunc (scrunch bs) (flat ks)))) (flat (rev ks))) = bs.
Proof.
  intros He Hl Hb. destruct (scrunch_words bs) as [H1 H2].
  pose proof (desfunc_inverse ks (scrunch bs) He H1 H2) as Hinv. cbn zeta in Hinv.
  destruct (desfunc (scrunch bs) (flat ks)) as [x y]. cbn [fst snd] in Hinv.
  rewrite scrunch_unscrun.
  rewrite <- unscrun_low, Hinv. by apply unscrun_scrunch.
Qed.
End Block.

(** ** The ECB loop with a complete key schedule

    [DES_KEYBYTES] bytes hold the 32 longs of the schedule only when a long has
    four bytes. *)

Section Ecb.
Context {dm : DataModel} (H4 : sizeof_long = 4%nat).

Definition schedule (key : list Z) : list (Z * Z) := cook <$> subkeys key.

Lemma schedule_length key : length (schedule key) = 16%nat.
Proof. reflexivity. Qed.

Lemma schedule_words key : Forall (fun k => is_word k.1 /\ is_word k.2) (schedule key).
Proof.
  unfold schedule, subkeys. rewrite !Forall_fmap. apply Forall_forall. intros i _.
  apply cook_word; apply select_bits_nonneg.
Qed.

Lemma expand_enc kn key : length kn = 32%nat ->
  OPENCOMM_DesExpandEncKey kn key 8 = inr (longs_to_bytes (flat (schedule key))).
Proof.
  intros Hk. unfold OPENCOMM_DesExpandEncKey. cbn [Z.eqb negb Pos.eqb].
  rewrite (proj1 (deskey_spec key kn Hk)), cookey_flat. fold (schedule key). f_equal.
  apply firstn_all2. rewrite longs_to_bytes_length, flat_length, schedule_length, H4.
  vm_compute. lia.
Qed.

Lemma expand_dec kn key : length kn = 32%nat ->
  OPENCOMM_DesExpandDecKey kn key 8 = inr (longs_to_bytes (flat (rev (schedule key)))).
Proof.
  intros Hk. unfold OPENCOMM_DesExpandDecKey. cbn [Z.eqb negb Pos.eqb].
  rewrite (proj2 (deskey_spec key kn Hk)), cookey_flat.
  replace (cook <$> rev (subkeys key)) with (rev (schedule key)) by (symmetry; apply map_rev).
  f_equal. apply firstn_all2.
  rewrite longs_to_bytes_length, flat_length, length_rev, schedule_length, H4.
  vm_compute. lia.
Qed.

Lemma load_key_full junk ws : length ws = 32%nat -> Forall is_word ws ->
  load_key junk (longs_to_bytes ws) = ws.
Proof.
  intros Hl Hw. unfold load_key. change (Z.to_nat DES_KEYLONGS) with 32%nat.
  rewrite <- Hl. apply bytes_to_longs_app. eapply Forall_impl; [exact Hw|].
  apply word_ulong.
Qed.

Lemma schedule_load junk ks :
  length ks = 16%nat -> Forall (fun k => is_word k.1 /\ is_word k.2) ks ->
  load_key junk (longs_to_bytes (flat ks)) = flat ks.
Proof.
  intros Hl Hw. apply load_key_full; [by rewrite flat_length, Hl | by apply flat_words].
Qed.

Lemma enc_raw junk key blk :
  OPENCOMM_DesEncRaw junk (longs_to_bytes (flat (schedule key))) DES_KEYBYTES blk 8 =
  inr (unscrun (desfunc (scrunch blk) (flat (schedule key)))).
Proof.
  unfold OPENCOMM_DesEncRaw. cbn [Z.eqb negb Pos.eqb DES_BLOCKLEN DES_KEYBYTES].
  by rewrite schedule_load by auto using schedule_length, schedule_words.
Qed.

Lemma dec_raw junk key blk :
  OPENCOMM_DesDecRaw junk (longs_to_bytes (flat (rev (schedule key)))) DES_KEYBYTES blk 8 =
  inr (unscrun (desfunc (scrunch blk) (flat (rev (schedule key))))).
Proof.
  unfold OPENCOMM_DesDecRaw. cbn [Z.eqb negb Pos.eqb DES_BLOCKLEN DES_KEYBYTES].
  rewrite schedule_load; [done | by rewrite length_rev | by apply Forall_rev, schedule_words].
Qed.

(** Encrypting and then decrypting [n] blocks. *)
Lemma des_loop_inverse (enc dec : nat -> list Z -> Z + list Z) n i j data :
  (forall i j blk, length blk = 8%nat -> Forall is_byte blk ->
     exists c, enc i blk = inr c /\ length c = 8%nat /\ dec j c = inr blk) ->
  length data = (8 * n)%nat -> Forall is_byte data ->
  exists c, des_loop enc i n data = inr c /\ length c = (8 * n)%nat /\
            des_loop dec j n c = inr data.
Proof.
  intros Hblk. revert i j data.
  induction n as [|n IH]; intros i j data Hl Hb.
  - exists []. destruct data; [done|discriminate].
  - destruct (Hblk i j (take 8 data)) as (c & E1 & Lc & E2).
    { rewrite length_take. lia. }
    { by apply Forall_take. }
    destruct (IH (S i) (S j) (drop 8 data)) as (cs & E3 & Lcs & E4).
    { rewrite length_drop. lia. }
    { by apply Forall_drop. }
    exists (c ++ cs). cbn [des_loop]. rewrite E1, E3. split; [done|].
    split; [rewrite length_app; lia|].
    rewrite take_app_length', drop_app_length' by done. rewrite E2, E4.
    by rewrite take_drop.
Qed.

Lemma block_count n : Z.to_nat (Z.quot (Z.of_nat (8 * n)) 8) = n /\ Z.rem (Z.of_nat (8 * n)) 8 = 0.
Proof.
  rewrite Nat2Z.inj_mul. change (Z.of_nat 8) with 8. rewrite Z.mul_comm.
  rewrite Z.quot_mul, Z.rem_mul by lia. lia.
Qed.

Lemma ecb_inverse stk stk' key data n :
  length (junk_kn stk) = 32%nat -> length (junk_kn stk') = 32%nat ->
  length data = (8 * n)%nat -> Forall is_byte data ->
  exists c, myic_DESEncrypt stk key 8 data = inr c /\ length c = length data /\
            myic_DESDecrypt stk' key 8 c = inr data.
Proof.
  intros Hk Hk' Hl Hb. destruct (block_count n) as [Hq Hr].
  destruct (des_loop_inverse
    (fun i blk => OPENCOMM_DesEncRaw (junk_key stk i) (longs_to_bytes (flat (schedule key)))
                    DES_KEYBYTES blk 8)
    (fun i blk => OPENCOMM_DesDecRaw (junk_key stk' i)
                    (longs_to_bytes (flat (rev (schedule key)))) DES_KEYBYTES blk 8)
    n 0 0 data) as (c & E1 & Lc & E2); [|done..|].
  - intros i j blk Lb Hbb. eexists. rewrite enc_raw. split; [done|].
    split; [apply unscrun_bytes|]. rewrite dec_raw, block_inverse by done. done.
  - exists c. unfold myic_DESEncrypt, myic_DESDecrypt.
    rewrite Lc, Hl, Hq, Hr, expand_enc, expand_dec by done. cbn [Z.eqb negb Pos.eqb].
    by rewrite E1, E2.
Qed.
End Ecb.

(** ** The substitution tables against FIPS 46-3 *)

(** The eight S-boxes of the standard, row by row. *)
Definition fips_sboxes : list (list Z) := [
  [14; 4; 13; 1; 2; 15; 11; 8; 3; 10; 6; 12; 5; 9; 0; 7;
   0; 15; 7; 4; 14; 2; 13; 1; 10; 6; 12; 11; 9; 5; 3; 8;
   4; 1; 14; 8; 13; 6; 2; 11; 15; 12; 9; 7; 3; 10; 5; 0;
   15; 12; 8; 2; 4; 9; 1; 7; 5; 11; 3; 14; 10; 0; 6; 13];
  [15; 1; 8; 14; 6; 11; 3; 4; 9; 7; 2; 13; 12; 0; 5; 10;
   3; 13; 4; 7; 15; 2; 8; 14; 12; 0; 1; 10; 6; 9; 11; 5;
   0; 14; 7; 11; 10; 4; 13; 1; 5; 8; 12; 6; 9; 3; 2; 15;
   13; 8; 10; 1; 3; 15; 4; 2; 11; 6; 7; 12; 0; 5; 14; 9];
  [10; 0; 9; 14; 6; 3; 15; 5; 1; 13; 12; 7; 11; 4; 2; 8;
   13; 7; 0; 9; 3; 4; 6; 10; 2; 8; 5; 14; 12; 11; 15; 1;
   13; 6; 4; 9; 8; 15; 3; 0; 11; 1; 2; 12; 5; 10; 14; 7;
   1; 10; 13; 0; 6; 9; 8; 7; 4; 15; 14; 3; 11; 5; 2; 12];
  [7; 13; 14; 3; 0; 6; 9; 10; 1; 2; 8; 5; 11; 12; 4; 15;
   13; 8; 11; 5; 6; 15; 0; 3; 4; 7; 2; 12; 1; 10; 14; 9;
   10; 6; 9; 0; 12; 11; 7; 13; 15; 1; 3; 14; 5; 2; 8; 4;
   3; 15; 0; 6; 10; 1; 13; 8; 9; 4; 5; 11; 12; 7; 2; 14];
  [2; 12; 4; 1; 7; 10; 11; 6; 8; 5; 3; 15; 13; 0; 14; 9;
   14; 11; 2; 12; 4; 7; 13; 1; 5; 0; 15; 10; 3; 9; 8; 6;
   4; 2; 1; 11; 10; 13; 7; 8; 15; 9; 12; 5; 6; 3; 0; 14;
   11; 8; 12; 7; 1; 14; 2; 13; 6; 15; 0; 9; 10; 4; 5; 3];
  [12; 1; 10; 15; 9; 2; 6; 8; 0; 13; 3; 4; 14; 7; 5; 11;
   10; 15; 4; 2; 7; 12; 9; 5; 6; 1; 13; 14; 0; 11; 3; 8;
   9; 14; 15; 5; 2; 8; 12; 3; 7; 0; 4; 10; 1; 13; 11; 6;
   4; 3; 2; 12; 9; 5; 15; 10; 11; 14; 1; 7; 6; 0; 8; 13];
  [4; 11; 2; 14; 15; 0; 8; 13; 3; 12; 9; 7; 5; 10; 6; 1;
   13; 0; 11; 7; 4; 9; 1; 10; 14; 3; 5; 12; 2; 15; 8; 6;
   1; 4; 11; 13; 12; 3; 7; 14; 10; 15; 6; 8; 0; 5; 9; 2;
   6; 11; 13; 8; 1; 4; 10; 7; 9; 5; 0; 15; 14; 2; 3; 12];
  [13; 2; 8; 4; 6; 15; 11; 1; 10; 9; 3; 14; 5; 0; 12; 7;
   1; 15; 13; 8; 10; 3; 7; 4; 12; 5; 6; 11; 0; 14; 9; 2;
   7; 11; 4; 1; 9; 12; 14; 2; 0; 6; 10; 13; 15; 3; 5; 8;
   2; 1; 14; 7; 4; 10; 8; 13; 15; 12; 9; 0; 3; 5; 6; 11]].

(** The permutation P: output bit [i] (from the left, from 0) is input bit
    [fips_p !! i] (from the left, from 1). *)
Definition fips_p : list Z := [
  16; 7; 20; 21; 29; 12; 28; 17; 1; 15; 23; 26; 5; 18; 31; 10;
  2; 8; 24; 14; 32; 27; 3; 9; 19; 13; 30; 6; 22; 11; 4; 25].

(** S-box [b] (from 0) on the six-bit input [x]: outer bits select the row. *)
Definition fips_s (b : nat) (x : Z) : Z :=
  let row := Z.lor (Z.shiftl (Z.shiftr x 5) 1) (Z.land x 1) in
  let col := Z.land (Z.shiftr x 1) 15 in
  tab (nth b fips_sboxes []) (16 * row + col).

(** The S-box output in its nibble, permuted by P and rotated left by one, the
    representation of the halves between [des_ip] and [des_fp]. *)
Definition fips_sp (b : nat) (x : Z) : Z :=
  let inp := Z.shiftl (fips_s b x) (28 - 4 * Z.of_nat b) in
  fold_left (fun out i => if Z.testbit inp (32 - tab fips_p i)
                          then Z.setbit out ((32 - i) mod 32) else out) (seqZ 0 32) 0.

Definition sp_entry_ok (b : nat) (x : Z) : bool := tab (nth b sp_tables []) x =? fips_sp b x.

(** Four entries of SP5 differ. *)
Definition sp_deviates (b : nat) (x : Z) : bool :=
  (b =? 4)%nat && existsb (Z.eqb x) [46; 53; 54; 55].

(** ** Properties *)

Lemma pad_spec data : exists p, 1 <= p <= 8 /\
  CW_dataPadAdd true 0 data = Some (data ++ replicate (Z.to_nat p) p) /\
  exists n, (length data + Z.to_nat p = 8 * n)%nat.
Proof.
  set (len := Z.of_nat (length data)).
  pose proof (Z.mod_pos_bound len 8 ltac:(lia)) as Hm.
  pose proof (Z.div_mod len 8 ltac:(lia)) as Hd.
  exists (8 - len mod 8). split; [lia|]. split.
  - unfold CW_dataPadAdd. cbn [negb Z.eqb]. fold len. do 3 f_equal. unfold u8.
    rewrite (Z.mod_small (8 - _)) by lia. done.
  - exists (Z.to_nat (len / 8 + 1)). unfold len in *. lia.
Qed.

Lemma strip_padding data p : 1 <= p <= 8 ->
  let plain := data ++ replicate (Z.to_nat p) p in
  let outLen := Z.of_nat (length plain) in
  (outLen - 1 <? 0) = false /\ schar (tab plain (outLen - 1)) = p /\
  take (Z.to_nat (outLen - p)) plain = data.
Proof.
  intros Hp plain outLen.
  assert (outLen = Z.of_nat (length data) + p) as HL
    by (unfold outLen, plain; rewrite length_app, length_replicate; lia).
  split; [lia|]. split.
  - unfold tab. replace (Z.to_nat (outLen - 1)) with (length data + Z.to_nat (p - 1))%nat by lia.
    unfold plain. rewrite app_nth2 by lia. rewrite Nat.add_comm, Nat.add_sub.
    rewrite (nth_lookup_Some _ _ _ p) by (apply lookup_replicate_2; lia). unfold schar. destruct (Z.ltb_spec p 128); lia.
  - rewrite HL. replace (Z.to_nat _) with (length data) by lia. apply take_app_length.
Qed.

(** C35: with 32-bit longs, [DesDec] recovers exactly the bytes given to
    [DesEnc], whatever the uninitialised arrays hold, and the ciphertext is the
    data padded to the next multiple of eight bytes. *)
Theorem des_roundtrip (stk stk' : des_stack) (data : list Z)
    (Hs : length (junk_kn stk) = 32%nat) (Hs' : length (junk_kn stk') = 32%nat)
    (Hb : Forall is_byte data) :
  exists c, DesEnc (dm := ILP32) true stk data = inr c /\
    Z.of_nat (length c) = 8 * (Z.of_nat (length data) / 8 + 1) /\
    DesDec (dm := ILP32) true stk' c = Ok (inr data).
Proof.
  destruct (pad_spec data) as (p & Hp & Epad & n & Hn).
  destruct (ecb_inverse (dm := ILP32) eq_refl stk stk' USER_PASSWORD_KEY
              (data ++ replicate (Z.to_nat p) p) n Hs Hs') as (c & E1 & Lc & E2).
  { by rewrite length_app, length_replicate. }
  { apply Forall_app. split; [done|]. apply Forall_replicate. unfold is_byte. lia. }
  exists c. unfold DesEnc, DesDec. rewrite Epad. cbn [default negb].
  change KEY_LEN with 8. split; [exact E1|]. split.
  - rewrite Lc, length_app, length_replicate.
    pose proof (Z.div_mod (Z.of_nat (length data)) 8 ltac:(lia)).
    pose proof (Z.mod_pos_bound (Z.of_nat (length data)) 8 ltac:(lia)). lia.
  - rewrite E2. destruct (strip_padding data p Hp) as (G1 & G2 & G3). cbn zeta in *.
    rewrite G1, G2, G3. replace ((p <=? 0) || (8 <? p)) with false by lia. done.
Qed.

Lemma des_roundtrip_witness : exists c,
  DesEnc (dm := ILP32) true zero_stack [104; 105] = inr c /\
  Z.of_nat (length c) = 8 * (Z.of_nat (length [104; 105]) / 8 + 1) /\
  DesDec (dm := ILP32) true ones_stack c = Ok (inr [104; 105]).
Proof.
  apply (des_roundtrip zero_stack ones_stack [104; 105]); [reflexivity..|].
  repeat constructor; unfold is_byte; lia.
Defined.

Lemma split_longs {dm : DataModel} (k : nat) ws : (k <= length ws)%nat ->
  take (sizeof_long * k) (longs_to_bytes ws) = longs_to_bytes (take k ws) /\
  drop (sizeof_long * k) (longs_to_bytes ws) = longs_to_bytes (drop k ws).
Proof.
  intros Hk. rewrite <- (take_drop k ws) at 1 3. rewrite longs_to_bytes_app.
  assert (length (longs_to_bytes (take k ws)) = sizeof_long * k)%nat as L
    by (rewrite longs_to_bytes_length, length_take, Nat.min_l; done).
  by rewrite take_app_length', drop_app_length'.
Qed.

(** with 64-bit longs, [memcpy] of [DES_KEYBYTES] = 128 bytes carries only
    the first 16 of the 32 longs of the key schedule; the last eight rounds use
    whatever the stack array held before. *)
Theorem des_lp64_key_truncated (junk kn key : list Z)
    (Hj : length junk = 32%nat) (Hw : Forall (is_ulong (dm := LP64)) junk)
    (Hk : length kn = 32%nat) :
  exists buf, OPENCOMM_DesExpandEncKey (dm := LP64) kn key 8 = inr buf /\
    load_key (dm := LP64) junk buf =
    take 16 (flat (schedule (dm := LP64) key)) ++ drop 16 junk.
Proof.
  set (ws := flat (schedule (dm := LP64) key)).
  assert (length ws = 32%nat) as Lw by reflexivity.
  assert (Forall (is_ulong (dm := LP64)) ws) as Hws.
  { eapply Forall_impl; [apply flat_words, schedule_words | apply word_ulong]. }
  exists (longs_to_bytes (dm := LP64) (take 16 ws)). split.
  - unfold OPENCOMM_DesExpandEncKey. cbn [Z.eqb negb Pos.eqb].
    rewrite (proj1 (deskey_spec key kn Hk)), cookey_flat. fold (schedule (dm := LP64) key) ws.
    exact (f_equal inr (proj1 (split_longs (dm := LP64) 16 ws ltac:(rewrite Lw; lia)))).
  - unfold load_key. rewrite longs_to_bytes_length, length_take, Lw.
    change (16 `min` 32)%nat with 16%nat.
    rewrite (proj2 (split_longs (dm := LP64) 16 junk ltac:(lia))), <- longs_to_bytes_app.
    rewrite <- (app_nil_r (longs_to_bytes _)).
    replace (Z.to_nat DES_KEYLONGS) with (length (take 16 ws ++ drop 16 junk))
      by (rewrite length_app, length_take, length_drop, Lw, Hj; reflexivity).
    apply bytes_to_longs_app, Forall_app. split; [by apply Forall_take | by apply Forall_drop].
Qed.

Lemma des_lp64_key_truncated_witness : exists buf,
  OPENCOMM_DesExpandEncKey (dm := LP64) (replicate 32 0) USER_PASSWORD_KEY 8 = inr buf /\
  load_key (dm := LP64) (replicate 32 5) buf =
  take 16 (flat (schedule (dm := LP64) USER_PASSWORD_KEY)) ++ drop 16 (replicate 32 5).
Proof.
  apply (des_lp64_key_truncated (replicate 32 5) (replicate 32 0) USER_PASSWORD_KEY);
    [reflexivity | | reflexivity].
  apply Forall_replicate. unfold is_ulong, long_bits. cbn. lia.
Defined.

(** hence with 64-bit longs the ciphertext of the same data depends on
    stale stack contents, and decryption does not recover the data. *)
Theorem des_lp64_broken :
  DesEnc (dm := LP64) true zero_stack [104; 105] <> DesEnc (dm := LP64) true ones_stack [104; 105]
  /\ exists c, DesEnc (dm := LP64) true zero_stack [104; 105] = inr c
       /\ DesDec (dm := LP64) true zero_stack c <> Ok (inr [104; 105]).
Proof.
  split; [vm_compute; congruence|]. eexists. split; [vm_compute; reflexivity|].
  vm_compute. congruence.
Qed.

(** the combined S-box/permutation tables SP1..SP8 agree with FIPS 46-3 in
    every entry except SP5[46], SP5[53], SP5[54] and SP5[55]. *)
Theorem sp_tables_fips (b : nat) (x : Z) (Hb : (b < 8)%nat) (Hx : 0 <= x < 64) :
  tab (nth b sp_tables []) x = fips_sp b x <-> sp_deviates b x = false.
Proof.
  assert (forallb (fun b => forallb (fun x => Bool.eqb (sp_entry_ok b x) (negb (sp_deviates b x)))
                            (seqZ 0 64)) (seq 0 8) = true) as H by (vm_compute; reflexivity).
  rewrite forallb_forall in H. specialize (H b). rewrite in_seq in H.
  pose proof (seqZ_forallb _ _ _ (H ltac:(lia)) x ltac:(lia)) as E. apply eqb_prop in E.
  unfold sp_entry_ok in E. rewrite <- Z.eqb_eq, E. by rewrite negb_true_iff.
Qed.

Lemma sp_tables_fips_witness : tab (nth 4 sp_tables []) 46 = fips_sp 4 46 <-> sp_deviates 4 46 = false.
Proof. apply (sp_tables_fips 4 46); lia. Defined.

Lemma des_loop_total (raw : nat -> list Z -> Z + list Z) n i data :
  (forall i blk, exists out, raw i blk = inr out /\ length out = 8%nat) ->
  exists c, des_loop raw i n data = inr c /\ length c = (8 * n)%nat.
Proof.
  intros Hraw. revert i data. induction n as [|n IH]; intros i data; [by exists []|].
  cbn [des_loop]. destruct (Hraw i (take 8 data)) as (out & -> & Lo).
  destruct (IH (S i) (drop 8 data)) as (c & -> & Lc).
  eexists. split; [done|]. rewrite length_app. lia.
Qed.

(** Encryption of whole blocks: ciphertext of the same length. *)
Lemma myic_DESEncrypt_total {dm : DataModel} stk data : Z.of_nat (length data) mod 8 = 0 ->
  exists c, myic_DESEncrypt stk USER_PASSWORD_KEY KEY_LEN data = inr c /\ length c = length data.
Proof.
  intros H0. unfold myic_DESEncrypt. rewrite Z.rem_mod_nonneg, Z.quot_div_nonneg, H0 by lia.
  cbn [negb Z.eqb]. change KEY_LEN with 8. unfold OPENCOMM_DesExpandEncKey.
  cbn [Z.eqb negb Pos.eqb].
  edestruct des_loop_total as (c & Ec & Lc); [|exists c; split; [exact Ec|]].
  - intros i blk. eexists. unfold OPENCOMM_DesEncRaw.
    cbn [Z.eqb negb Pos.eqb DES_BLOCKLEN DES_KEYBYTES]. split; [done | apply unscrun_bytes].
  - rewrite Lc. pose proof (Z.div_mod (Z.of_nat (length data)) 8 ltac:(lia)). lia.
Qed.

(** Padding makes whole blocks, so [DesEnc] never returns an error code. *)
Lemma DesEnc_total {dm : DataModel} m stk data :
  exists c, DesEnc m stk data = inr c /\ (length c <= length data + 8)%nat.
Proof.
  unfold DesEnc, CW_dataPadAdd. destruct m; cbn [negb default Z.eqb].
  - pose proof (Z.mod_pos_bound (Z.of_nat (length data)) 8 ltac:(lia)) as Hb.
    set (n := Z.of_nat (length data)) in *.
    set (p := data ++ replicate (Z.to_nat (8 - n mod 8)) (u8 (8 - n mod 8))).
    assert (Z.of_nat (length p) = n + (8 - n mod 8)) as El
      by (subst p; rewrite length_app, length_replicate; lia).
    destruct (myic_DESEncrypt_total stk p) as (c & Ec & Lc).
    + rewrite El. rewrite (Z.div_mod n 8) at 1 by lia.
      replace (8 * (n / 8) + n mod 8 + (8 - n mod 8)) with ((n / 8 + 1) * 8) by lia.
      apply Z.mod_mul. lia.
    + exists c. split; [exact Ec|]. lia.
  - destruct (myic_DESEncrypt_total stk []) as (c & Ec & Lc); [done|].
    exists c. split; [exact Ec|]. cbn in Lc. lia.
Qed.

(** [DesEnc_raw] returns the error code 0xEE20 exactly when the length is
    not a multiple of the block size, and otherwise ciphertext of the same
    length; this holds for every width of [unsigned long]. *)
Theorem des_enc_raw_result {dm : DataModel} (stk : des_stack) (data : list Z) :
  if Z.of_nat (length data) mod 8 =? 0
  then exists c, DesEnc_raw stk data = inr c /\ length c = length data
  else DesEnc_raw stk data = inl 0xEE20.
Proof.
  destruct (Z.eqb_spec (Z.of_nat (length data) mod 8) 0) as [H0|H0];
    [by apply myic_DESEncrypt_total|].
  unfold DesEnc_raw, myic_DESEncrypt. rewrite Z.rem_mod_nonneg by lia.
  by rewrite (proj2 (Z.eqb_neq _ _) H0).
Qed.

(** [DesDec] of an empty input reads [tmpPlain[-1]]. *)
Theorem des_dec_empty {dm : DataModel} (stk : des_stack) :
  DesDec true stk [] = Undef OutOfBounds.
Proof. reflexivity. Qed.

(** when [malloc] fails in [CW_dataPadAdd], [DesEnc] still reports success,
    with an empty ciphertext. *)
Theorem des_enc_malloc_failure {dm : DataModel} (stk : des_stack) (data : list Z) :
  DesEnc false stk data = inr [].
Proof. reflexivity. Qed.
