(* ===== verification/CString.v ===== *)
(** C strings in buffers: the part of the C library the code uses.

    A buffer is a list of bytes with the size of the object; a C string in it
    is the text up to the first NUL. Pointers into a buffer are indices; an
    access outside the buffer is undefined. *)

From Stdlib Require Import ZArith Lia Bool.
From stdpp Require Import base tactics numbers list.
From S2P Require Import Prelude.

(** [buf[i]] *)
Definition rd (buf : list Z) (i : Z) : outcome Z :=
  if i <? 0 then Undef OutOfBounds else
  match buf !! Z.to_nat i with Some c => Ok c | None => Undef OutOfBounds end.

(** The text of a C string, and its length; undefined when the buffer holds no
    terminator. *)
Fixpoint text (buf : list Z) : outcome (list Z) :=
  match buf with
  | [] => Undef OutOfBounds
  | c :: buf => if c =? 0 then Ok [] else ofmap (cons c) (text buf)
  end.

Definition strlen (buf : list Z) : outcome Z :=
  ofmap (fun s => Z.of_nat (length s)) (text buf).

(** [isspace] in the C locale. *)
Definition isspace (c : Z) : bool := ((9 <=? c) && (c <=? 13)) || (c =? 32).

(** [memcmp(s, t, length t) == 0] on lists that hold at least that many bytes. *)
Definition starts_with (t s : list Z) : bool := bool_decide (take (length t) s = t).

(** The first position at which [t] occurs in [s] ([strstr] on texts). *)
Fixpoint strstr (s t : list Z) : option nat :=
  if starts_with t s then Some O else
  match s with
  | [] => None
  | _ :: s => S <$> strstr s t
  end.

(** The bytes [strncpy(dst, src, n)] stores: the text of [src] cut at [n],
    filled up with NULs. *)
Definition strncpy_bytes (src : list Z) (n : nat) : list Z :=
  take n src ++ replicate (n - length src) 0.

(** ** Lemmas *)

(** No NUL in a text. *)
Definition nonul (s : list Z) : Prop := Forall (fun c => c <> 0) s.

Lemma text_app s rest : nonul s -> text (s ++ 0 :: rest) = Ok s.
Proof.
  induction 1 as [|c s Hc _ IH]; [done|]. cbn [app text].
  rewrite (proj2 (Z.eqb_neq c 0) Hc), IH. done.
Qed.

Lemma text_inv buf s : text buf = Ok s -> nonul s /\ exists rest, buf = s ++ 0 :: rest.
Proof.
  revert s. induction buf as [|c buf IH]; intros s H; cbn [text] in H; [done|].
  destruct (Z.eqb_spec c 0) as [->|Hc].
  - injection H as <-. split; [constructor|]. by exists buf.
  - unfold ofmap in H. obind_inv H. injection H as <-.
    destruct (IH _ E) as (Hn & rest & ->). split; [by constructor|]. by exists rest.
Qed.

Lemma rd_lookup buf i c : buf !! i = Some c -> rd buf (Z.of_nat i) = Ok c.
Proof.
  intros H. unfold rd. destruct (Z.ltb_spec (Z.of_nat i) 0); [lia|]. by rewrite Nat2Z.id, H.
Qed.

Lemma rd_app_l s c rest : rd (s ++ c :: rest) (Z.of_nat (length s)) = Ok c.
Proof. apply rd_lookup. by rewrite list_lookup_middle. Qed.

Lemma rd_end buf : rd buf (Z.of_nat (length buf)) = Undef OutOfBounds.
Proof.
  unfold rd. destruct (Z.ltb_spec (Z.of_nat (length buf)) 0); [lia|].
  rewrite Nat2Z.id, lookup_ge_None_2; done.
Qed.

Lemma starts_with_spec t s : starts_with t s = true <-> exists r, s = t ++ r.
Proof.
  unfold starts_with. rewrite bool_decide_eq_true. split.
  - intros H. exists (drop (length t) s). rewrite <- H at 1. by rewrite take_drop.
  - intros [r ->]. apply take_app_length.
Qed.

(** [strstr] returns the leftmost occurrence. *)
Lemma strstr_spec s t k : strstr s t = Some k <->
  (exists r, drop k s = t ++ r) /\ (k <= length s)%nat /\
  forall j, (j < k)%nat -> starts_with t (drop j s) = false.
Proof.
  revert k. induction s as [|c s IH]; intros k; cbn [strstr].
  - destruct (starts_with t []) eqn:E.
    + split.
      * intros [= <-]. split; [|split; [done|lia]]. by apply starts_with_spec in E as [r ->]; eauto.
      * intros (_ & Hk & _). cbn in Hk. f_equal. lia.
    + split; [done|]. intros ([r Hr] & Hk & _). cbn in Hk. replace k with O in Hr by lia.
      cbn in Hr. assert (starts_with t [] = true) by (apply starts_with_spec; eauto). congruence.
  - destruct (starts_with t (c :: s)) eqn:E.
    + split.
      * intros [= <-]. split; [|split; [lia|lia]]. by apply starts_with_spec in E as [r ?]; eauto.
      * intros (_ & _ & Hmin). destruct k as [|k]; [done|].
        specialize (Hmin 0%nat ltac:(lia)). cbn in Hmin. congruence.
    + destruct k as [|k].
      * split; [destruct (strstr s t); discriminate|].
        intros ([r Hr] & _). assert (starts_with t (c :: s) = true); [|congruence].
        apply starts_with_spec. eauto.
      * transitivity (strstr s t = Some k); [destruct (strstr s t); cbn; split; congruence|].
        rewrite IH. cbn [drop length]. split; intros (H1 & H2 & H3); (split; [done|]); split; try lia.
        -- intros [|j] Hj; [done|]. cbn [drop]. apply H3. lia.
        -- intros j Hj. apply (H3 (S j)). lia.
Qed.

(** Storing a text and its terminator at the start of a buffer. *)
Lemma store_text {A} buf v (k : list Z -> outcome A) :
  (let* b := memcpy buf 0 v in let* b := memcpy b (Z.of_nat (length v)) [0] in k b) =
  if (length v <? length buf)%nat then k (v ++ 0 :: drop (S (length v)) buf)
  else Undef OutOfBounds.
Proof.
  destruct (Nat.ltb_spec (length v) (length buf)) as [H|H].
  - rewrite memcpy_0 by lia. cbn [obind].
    rewrite memcpy_ok by (rewrite ?length_app, ?length_drop; cbn [length]; lia). cbn [obind].
    rewrite Nat2Z.id, take_app_length, drop_app_add, drop_drop. cbn [length app].
    by rewrite Nat.add_1_r.
  - destruct (decide (length v = length buf)).
    + rewrite memcpy_0 by lia. cbn [obind]. rewrite memcpy_oob; [done|].
      rewrite length_app, length_drop. cbn [length]. lia.
    + rewrite memcpy_oob by lia. done.
Qed.
