(* ===== verification/CgiUtil.v ===== *)
(** String utilities of the CGI programs (src/src/common/cgi_util.c). *)

From Stdlib Require Import ZArith Lia Bool.
From stdpp Require Import base tactics numbers list.
From S2P Require Import Prelude CString.

(** ** The code *)

(** [while (isspace(str[i]) && str[i] != '\0') i++;] *)
Fixpoint skip_front (fuel : nat) (str : list Z) (i : Z) : outcome Z :=
  match fuel with
  | O => Undef NoReturn
  | S fuel =>
      let* c := rd str i in
      if isspace c && negb (c =? 0) then skip_front fuel str (i + 1) else Ok i
  end.

(** [while (isspace(str[j]) && j > i) j--;] *)
Fixpoint skip_back (fuel : nat) (str : list Z) (i j : Z) : outcome Z :=
  match fuel with
  | O => Undef NoReturn
  | S fuel =>
      let* c := rd str j in
      if isspace c && (i <? j) then skip_back fuel str i (j - 1) else Ok j
  end.

(** [trim_space]: [None] is the null pointer, which [strlen] dereferences before
    the check. The copy [strncpy(inbuf, str + i, count)] moves text towards the
    start of the same buffer; it is made in ascending order, so each byte is
    read before it is overwritten. Result: return value and buffer. *)
Definition trim_space (inbuf : option (list Z)) : outcome (Z * list Z) :=
  match inbuf with
  | None => Undef NullDeref
  | Some str =>
      let* len := strlen str in
      let j := len - 1 in
      let* i := skip_front (S (length str)) str 0 in
      let* j := skip_back (S (length str)) str i j in
      let count := j - i + 1 in
      let* src := text (drop (Z.to_nat i) str) in
      let* str := memcpy str 0 (strncpy_bytes src (Z.to_nat count)) in
      let* str := memcpy str count [0] in
      Ok (0, str)
  end.

(** [for (i = 0; i < last_possible; i++)] of [memstr]; [cur] is [full_data] from
    index [i]. [memcmp] accesses all [sublen] bytes. *)
Fixpoint memstr_loop (n : nat) (cur : list Z) (i : nat) (substr : list Z)
    : outcome (option nat) :=
  match n with
  | O => Ok None
  | S n =>
      match cur with
      | [] => Undef OutOfBounds
      | c :: cur' =>
          if c =? nth 0 substr 0 then
            if (length cur <? length substr)%nat then Undef OutOfBounds else
            if starts_with substr cur then Ok (Some i) else memstr_loop n cur' (S i) substr
          else memstr_loop n cur' (S i) substr
      end
  end.

(** [memstr]: a null argument is [None]; the result is the index of the match. *)
Definition memstr (full_data : option (list Z)) (full_data_len : Z) (substr : option (list Z))
    : outcome (option nat) :=
  match full_data, substr with
  | Some full_data, Some substr =>
      if full_data_len <=? 0 then Ok None else
      match substr with
      | [] => Ok None
      | _ =>
          let sublen := Z.of_nat (length substr) in
          let last_possible := full_data_len - sublen + 1 in
          memstr_loop (Z.to_nat last_possible) full_data 0 substr
      end
  | _, _ => Ok None
  end.

(** [while ('\0' != *end && '#' != *end && '&' != *end) end++;]: the text from
    [temp] to [end]. *)
Fixpoint query_value (temp : list Z) : outcome (list Z) :=
  match temp with
  | [] => Undef OutOfBounds
  | c :: temp =>
      if (c =? 0) || (c =? 35) || (c =? 38) then Ok [] else ofmap (cons c) (query_value temp)
  end.

(** [query_parse_key_value]: [query] is the buffer of the query string, [key]
    the text of the key; result: return value, value buffer, value length. *)
Definition query_parse_key_value (query key value : list Z) : outcome (Z * list Z * Z) :=
  let* q := text query in
  match strstr q key with
  | None => Ok (-1, value, 0)
  | Some temp =>
      let* v := query_value (drop (temp + length key + 1) query) in
      let value_len := Z.of_nat (length v) in
      let* value := memcpy value 0 v in
      let* value := memcpy value value_len [0] in
      Ok (0, value, value_len)
  end.

(** [while ( *k != '.' && k != p) k--;] *)
Fixpoint find_dot (file_name : list Z) (k : nat) : outcome nat :=
  let* c := rd file_name (Z.of_nat k) in
  if c =? 46 then Ok k else
  match k with O => Ok O | S k => find_dot file_name k end.

(** "null" *)
Definition null_text : list Z := [110; 117; 108; 108].

Definition get_file_suffix (file_name : option (list Z)) (suffix : list Z)
    : outcome (Z * list Z) :=
  match file_name with
  | None => Ok (-1, suffix)
  | Some p =>
      let* s := text p in
      let q := length s in
      let* k := find_dot p q in
      let* c := rd p (Z.of_nat k) in
      if c =? 46 then
        let k := S k in
        let len := (q - k)%nat in
        if (len =? 0)%nat then ofmap (pair 0) (memcpy suffix 0 (null_text ++ [0])) else
        let* suffix := memcpy suffix 0 (take len (drop k p)) in
        ofmap (pair 0) (memcpy suffix (Z.of_nat len) [0])
      else ofmap (pair 0) (memcpy suffix 0 (null_text ++ [0]))
  end.

(** [str_replace]: [strSrc] is the index [pos] into [buf]; [strFind] and
    [strReplace] are texts. *)
Fixpoint str_replace_loop (fuel : nat) (buf : list Z) (pos : nat) (strFind strReplace : list Z)
    : outcome (list Z) :=
  match fuel with
  | O => Undef NoReturn
  | S fuel =>
      let* c := rd buf (Z.of_nat pos) in
      if c =? 0 then Ok buf else
      let* src := text (drop pos buf) in
      if (c =? nth 0 strFind 0) && starts_with strFind src then
        let temp := drop (length strFind) src in
        let* buf := memcpy buf (Z.of_nat pos) strReplace in
        let pos := (pos + length strReplace)%nat in
        let* buf := memcpy buf (Z.of_nat pos) temp in
        let* buf := memcpy buf (Z.of_nat (pos + length temp)) [0] in
        str_replace_loop fuel buf pos strFind strReplace
      else str_replace_loop fuel buf (S pos) strFind strReplace
  end.

Definition str_replace (strSrc strFind strReplace : list Z) : outcome (list Z) :=
  str_replace_loop (S (length strSrc)) strSrc 0 strFind strReplace.

(** ** Reference definitions *)

Fixpoint drop_space (s : list Z) : list Z :=
  match s with
  | c :: s' => if isspace c then drop_space s' else s
  | [] => []
  end.

(** Both ends trimmed. *)
Definition trim (s : list Z) : list Z := rev (drop_space (rev (drop_space s))).

(** Replace the leftmost non-overlapping occurrences. *)
Fixpoint replace_all (fuel : nat) (s find repl : list Z) : list Z :=
  match fuel, s with
  | S fuel, c :: s' =>
      if negb (length find =? 0)%nat && starts_with find s
      then repl ++ replace_all fuel (drop (length find) s) find repl
      else c :: replace_all fuel s' find repl
  | _, _ => []
  end.

(** The text after the last '.', if there is one. *)
Fixpoint after_dot (s : list Z) : option (list Z) :=
  match s with
  | [] => None
  | c :: s' => match after_dot s' with
               | Some e => Some e
               | None => if c =? 46 then Some s' else None
               end
  end.

Definition suffix_of (s : list Z) : list Z :=
  match after_dot s with Some (c :: e) => c :: e | _ => null_text end.

(** ** trim_space *)

Lemma drop_space_split s : exists a, s = a ++ drop_space s /\ Forall (fun c => isspace c = true) a
  /\ (drop_space s = [] \/ exists c m, drop_space s = c :: m /\ isspace c = false).
Proof.
  induction s as [|c s (a & E & Ha & Hm)]; [exists []; eauto|]. cbn [drop_space].
  destruct (isspace c) eqn:Hc.
  - exists (c :: a). cbn. rewrite <- E. eauto.
  - exists []. split; [done|]. split; [constructor|]. right. eauto.
Qed.

Lemma skip_front_spec fuel pre a b rest :
  Forall (fun c => isspace c = true) a -> nonul a -> (length a < fuel)%nat -> isspace b = false ->
  skip_front fuel (pre ++ a ++ b :: rest) (Z.of_nat (length pre)) =
  Ok (Z.of_nat (length pre + length a)).
Proof.
  intros Ha. revert fuel pre. induction Ha as [|c a Hc _ IH]; intros [|fuel] pre Hn Hf Hb;
    cbn [length] in Hf; try lia; cbn [skip_front app].
  - rewrite rd_app_l. cbn [obind]. rewrite Hb. cbn. by rewrite Nat.add_0_r.
  - rewrite rd_app_l. cbn [obind]. apply Forall_cons in Hn as [Hc0 Hn].
    rewrite Hc, (proj2 (Z.eqb_neq c 0) Hc0). cbn [negb andb].
    specialize (IH fuel (pre ++ [c]) Hn ltac:(lia) Hb).
    rewrite <- app_assoc, length_app in IH. cbn [app length] in IH.
    replace (Z.of_nat (length pre) + 1) with (Z.of_nat (length pre + 1)) by lia.
    rewrite IH. cbn [length]. f_equal. lia.
Qed.

Lemma skip_back_spec fuel pre x w tail i :
  Forall (fun c => isspace c = true) w -> isspace x = false -> (length w < fuel)%nat ->
  i <= Z.of_nat (length pre) ->
  skip_back fuel (pre ++ x :: w ++ tail) i (Z.of_nat (length pre + length w)) =
  Ok (Z.of_nat (length pre)).
Proof.
  revert fuel tail. induction w as [|c w IH] using rev_ind; intros [|fuel] tail Hw Hx Hf Hi;
    rewrite ?length_app in Hf; cbn [length] in Hf; try lia; cbn [skip_back app].
  - rewrite Nat.add_0_r, rd_app_l. cbn [obind]. by rewrite Hx.
  - rewrite !length_app. cbn [length]. rewrite <- app_assoc. cbn [app].
    assert (rd (pre ++ x :: w ++ c :: tail) (Z.of_nat (length pre + (length w + 1))) = Ok c) as ->.
    { rewrite (app_comm_cons w), app_assoc.
      replace (length pre + (length w + 1))%nat with (length (pre ++ x :: w))
        by (rewrite length_app; cbn; lia).
      apply rd_app_l. }
    cbn [obind]. apply Forall_app in Hw as [Hw Hc]. apply Forall_cons in Hc as [Hc _].
    rewrite Hc.
    destruct (Z.ltb_spec i (Z.of_nat (length pre + (length w + 1)))); [|lia]. cbn [andb].
    replace (Z.of_nat (length pre + (length w + 1)) - 1)
      with (Z.of_nat (length pre + length w)) by lia.
    apply IH; auto. lia.
Qed.

Lemma isspace_0 : isspace 0 = false.
Proof. reflexivity. Qed.

(** A text splits into leading space, trimmed text and trailing space. *)
Lemma trim_split s : exists a t w, s = a ++ t ++ w /\ trim s = t
  /\ Forall (fun c => isspace c = true) a /\ Forall (fun c => isspace c = true) w
  /\ ((t = [] /\ w = []) \/
      exists x l y l', t = x :: l /\ t = l' ++ [y] /\ isspace x = false /\ isspace y = false).
Proof.
  destruct (drop_space_split s) as (a & E & Ha & Hm). unfold trim.
  set (m := drop_space s) in *.
  destruct (drop_space_split (rev m)) as (w & Ew & Hw & Ht).
  exists a, (rev (drop_space (rev m))), (rev w).
  assert (m = rev (drop_space (rev m)) ++ rev w) as Em.
  { rewrite <- rev_app_distr, <- Ew. by rewrite rev_involutive. }
  split; [congruence|]. split; [done|]. split; [done|]. split; [by apply Forall_rev|].
  destruct Ht as [Ht|(y & l' & Ht & Hy)].
  - left. rewrite Ht in Em |- *. split; [done|]. cbn in Em.
    destruct Hm as [Hm|(c & m' & Hm & Hc)].
    { rewrite Ht, app_nil_r in Ew. by rewrite <- Ew, Hm. }
    rewrite Hm in Em. assert (c ∈ rev w) as Hin by (rewrite <- Em; left).
    apply list_elem_of_In, in_rev, list_elem_of_In in Hin.
    rewrite Forall_forall in Hw. rewrite Hw in Hc; done.
  - right. rewrite Ht in *. cbn [rev] in *.
    destruct Hm as [Hm|(c & m' & Hm & Hc)].
    { rewrite Hm in Em. apply (f_equal length) in Em. rewrite !length_app in Em. cbn in Em. lia. }
    rewrite Hm in Em. destruct (rev l' ++ [y]) as [|x l] eqn:El.
    { apply (f_equal length) in El. rewrite length_app in El. cbn in El. lia. }
    injection Em as -> _. exists x, l, y, (rev l'). eauto.
Qed.

Lemma strncpy_bytes_prefix t w : strncpy_bytes (t ++ w) (length t) = t.
Proof.
  unfold strncpy_bytes. rewrite take_app_length, length_app.
  replace (length t - (length t + length w))%nat with 0%nat by lia. apply app_nil_r.
Qed.

(** The two scans of [trim_space] delimit the trimmed text. *)
Lemma trim_scan s rest : nonul s -> s <> [] -> exists i j,
  skip_front (S (length (s ++ 0 :: rest))) (s ++ 0 :: rest) 0 = Ok i /\
  skip_back (S (length (s ++ 0 :: rest))) (s ++ 0 :: rest) i (Z.of_nat (length s) - 1) = Ok j /\
  j - i + 1 = Z.of_nat (length (trim s)) /\
  exists w, text (drop (Z.to_nat i) (s ++ 0 :: rest)) = Ok (trim s ++ w).
Proof.
  intros Hn Hne. destruct (trim_split s) as (a & t & w & -> & -> & Ha & Hw & Ht).
  apply Forall_app in Hn as [Hna Hn]. apply Forall_app in Hn as [Hnt Hnw].
  destruct Ht as [[-> ->]|(x & l & y & l' & E1 & E2 & Hx & Hy)].
  - cbn [app]. rewrite app_nil_r in *.
    exists (Z.of_nat (length a)), (Z.of_nat (length a) - 1).
    split; [|split; [|split]].
    + apply (skip_front_spec _ [] a 0 rest); auto. rewrite length_app. lia.
    + destruct a as [|c a _] using rev_ind; [done|].
      replace ((a ++ [c]) ++ 0 :: rest) with (a ++ c :: 0 :: rest) by (by rewrite <- app_assoc).
      rewrite (length_app a [c]). cbn [length skip_back].
      replace (Z.of_nat (length a + 1) - 1) with (Z.of_nat (length a)) by lia.
      rewrite rd_app_l. cbn [obind].
      destruct (Z.ltb_spec (Z.of_nat (length a + 1)) (Z.of_nat (length a))); [lia|].
      by rewrite andb_false_r.
    + cbn. lia.
    + exists []. by rewrite Nat2Z.id, drop_app_length.
  - exists (Z.of_nat (length a)), (Z.of_nat (length (a ++ l'))).
    split; [|split; [|split]].
    + rewrite E1. rewrite <- !app_assoc. cbn [app].
      apply (skip_front_spec _ [] a x); auto. rewrite length_app. lia.
    + rewrite E2. replace ((a ++ (l' ++ [y]) ++ w) ++ 0 :: rest)
        with ((a ++ l') ++ y :: w ++ 0 :: rest) by (rewrite <- !app_assoc; done).
      replace (Z.of_nat (length (a ++ (l' ++ [y]) ++ w)) - 1)
        with (Z.of_nat (length (a ++ l') + length w))
        by (rewrite !length_app; cbn [length]; lia).
      apply skip_back_spec; auto; rewrite ?length_app; cbn [length]; rewrite ?length_app; lia.
    + rewrite E2, !length_app. cbn [length]. lia.
    + exists w. rewrite Nat2Z.id, <- !app_assoc, drop_app_length, app_assoc.
      apply text_app, Forall_app. done.
Qed.

(** on every non-empty C string [trim_space] returns 0 and leaves in the
    buffer the text without leading and trailing white space. *)
Theorem trim_space_correct (s rest : list Z) (Hn : nonul s) (Hne : s <> []) :
  trim_space (Some (s ++ 0 :: rest)) =
  Ok (0, trim s ++ 0 :: drop (S (length (trim s))) (s ++ 0 :: rest)).
Proof.
  unfold trim_space. unfold strlen at 1. rewrite text_app by done. cbn [ofmap obind].
  destruct (trim_scan s rest Hn Hne) as (i & j & -> & E & Hc & w & Ht). cbn [obind].
  rewrite E. cbn [obind]. rewrite Ht, Hc, Nat2Z.id. cbn [obind]. rewrite strncpy_bytes_prefix.
  rewrite (store_text _ (trim s) (fun b => Ok (0, b))).
  destruct (Nat.ltb_spec (length (trim s)) (length (s ++ 0 :: rest))) as [H|H]; [done|].
  exfalso. destruct (trim_split s) as (a & t & w' & Es & Et & _).
  rewrite Et, length_app in H. apply (f_equal length) in Es.
  rewrite !length_app in Es. cbn [length] in H. lia.
Qed.

Lemma trim_space_correct_witness :
  trim_space (Some ([32; 65; 32; 66; 10] ++ 0 :: [9])) =
  Ok (0, trim [32; 65; 32; 66; 10] ++
         0 :: drop (S (length (trim [32; 65; 32; 66; 10]))) ([32; 65; 32; 66; 10] ++ 0 :: [9])).
Proof.
  apply (trim_space_correct [32; 65; 32; 66; 10] [9]); [|done].
  repeat constructor; lia.
Defined.

(** on the empty string [trim_space] reads the byte before the buffer, and
    a null argument is dereferenced before it is checked. *)
Theorem trim_space_undefined (rest : list Z) :
  trim_space (Some (0 :: rest)) = Undef OutOfBounds /\ trim_space None = Undef NullDeref.
Proof. done. Qed.

(** ** memstr *)

Lemma starts_with_take t s n : (length t <= n)%nat -> starts_with t (take n s) = starts_with t s.
Proof. intros H. unfold starts_with. by rewrite take_take, Nat.min_l. Qed.

Lemma starts_with_short t s : (length s < length t)%nat -> starts_with t s = false.
Proof.
  intros H. apply not_true_is_false. intros [r E]%starts_with_spec.
  apply (f_equal length) in E. rewrite length_app in E. lia.
Qed.

Lemma strstr_short t s : (length s < length t)%nat -> strstr s t = None.
Proof.
  induction s as [|c s IH]; intros H; cbn [strstr]; rewrite starts_with_short by done; [done|].
  rewrite IH; [done|]. cbn [length] in H. lia.
Qed.

Lemma memstr_loop_spec n cur i sub : sub <> [] -> (n + length sub - 1 <= length cur)%nat ->
  memstr_loop n cur i sub =
  Ok ((fun k => i + k)%nat <$> strstr (take (n + length sub - 1) cur) sub).
Proof.
  intros Hne. destruct sub as [|s0 sub']; [done|]. clear Hne. set (sub := s0 :: sub').
  assert (0 < length sub)%nat as Hs by (cbn; lia).
  revert cur i. induction n as [|n IH]; intros cur i Hl.
  - cbn [memstr_loop]. rewrite strstr_short; [done|]. rewrite length_take. lia.
  - destruct cur as [|c cur]; [cbn [length] in Hl; lia|]. cbn [memstr_loop nth].
    replace (S n + length sub - 1)%nat with (S (n + length sub - 1)) by lia.
    cbn [take strstr].
    rewrite <- (firstn_cons (n + length sub - 1) c cur), starts_with_take by lia.
    cbn [length] in Hl. rewrite IH by lia.
    rewrite (proj2 (Nat.ltb_ge (length (c :: cur)) (length sub)))
      by (change (length (c :: cur)) with (S (length cur)); lia).
    change (nth 0 sub 0) with s0. destruct (Z.eqb_spec c s0) as [->|Hc].
    + destruct (starts_with sub (s0 :: cur)); [cbn; by rewrite Nat.add_0_r|].
      destruct (strstr _ sub); cbn; [do 2 f_equal; lia | done].
    + assert (starts_with sub (c :: cur) = false) as ->.
      { apply not_true_is_false. intros [r E]%starts_with_spec. injection E. congruence. }
      destruct (strstr _ sub); cbn; [do 2 f_equal; lia | done].
Qed.

(** A match is found even when the length given exceeds the buffer. *)
Lemma memstr_loop_found sub n cur i k : sub <> [] -> (k < n)%nat -> strstr cur sub = Some k ->
  memstr_loop n cur i sub = Ok (Some (i + k)%nat).
Proof.
  intros Hne. revert cur i k. induction n as [|n IH]; intros cur i k Hk E; [lia|].
  assert (length sub + k <= length cur)%nat as Hlen.
  { apply strstr_spec in E as ((r & Er) & Hle & _). apply (f_equal length) in Er.
    rewrite length_drop, length_app in Er. lia. }
  destruct cur as [|c cur]; [destruct sub; [done|cbn in Hlen; lia]|]. cbn [memstr_loop].
  assert ((length (c :: cur) <? length sub)%nat = false) as -> by (apply Nat.ltb_ge; lia).
  cbn [strstr] in E. destruct (starts_with sub (c :: cur)) eqn:Es.
  - injection E as <-. destruct (proj1 (starts_with_spec _ _) Es) as [r Er].
    destruct sub as [|s sub]; [done|]. injection Er as -> _. cbn [nth]. rewrite Z.eqb_refl.
    by rewrite Nat.add_0_r.
  - destruct (strstr cur sub) as [j|] eqn:Ej; [|discriminate E]. injection E as <-.
    rewrite (IH cur (S i) j) by (done || lia). replace (i + S j)%nat with (S i + j)%nat by lia.
    by destruct (c =? nth 0 sub 0).
Qed.

(** [memstr] returns the leftmost occurrence of [substr] within the first
    [full_data_len] bytes and [NULL] when there is none; it stays inside the
    buffer whenever [full_data_len] does not exceed its size. *)
Theorem memstr_correct (data sub : list Z) (n : nat)
    (Hn : (n <= length data)%nat) (Hs : sub <> []) :
  memstr (Some data) (Z.of_nat n) (Some sub) = Ok (strstr (take n data) sub).
Proof.
  unfold memstr. destruct (Z.leb_spec (Z.of_nat n) 0) as [H0|H0].
  - replace n with 0%nat by lia. rewrite take_0. cbn [strstr].
    rewrite starts_with_short; [done|]. destruct sub; [done | cbn; lia].
  - destruct sub as [|s0 sub'] eqn:Es; [done|]. rewrite <- Es.
    assert (0 < length sub)%nat by (subst; cbn; lia).
    destruct (decide (length sub <= n)%nat) as [Hle|Hgt].
    + rewrite memstr_loop_spec by (subst; done || (cbn [length] in *; lia)).
      replace (Z.to_nat (Z.of_nat n - Z.of_nat (length sub) + 1) + length sub - 1)%nat with n by lia.
      destruct (strstr (take n data) sub); done.
    + replace (Z.to_nat (Z.of_nat n - Z.of_nat (length sub) + 1)) with 0%nat by lia.
      cbn [memstr_loop]. rewrite strstr_short; [done|]. rewrite length_take. lia.
Qed.

Lemma memstr_correct_witness :
  memstr (Some [1; 2; 3; 2; 4]) (Z.of_nat 5) (Some [2; 4]) = Ok (strstr (take 5 [1; 2; 3; 2; 4]) [2; 4]).
Proof. apply (memstr_correct [1; 2; 3; 2; 4] [2; 4] 5); [cbn; lia | done]. Defined.

(** ** query_parse_key_value *)

(** '\0', '#' and '&' end a value. *)
Definition stops (c : Z) : bool := (c =? 0) || (c =? 35) || (c =? 38).

Lemma query_value_spec v c rest :
  Forall (fun c => stops c = false) v -> stops c = true -> query_value (v ++ c :: rest) = Ok v.
Proof.
  intros Hv Hc. induction Hv as [|x v Hx _ IH]; cbn [app query_value]; fold (stops c).
  - by rewrite Hc.
  - fold (stops x). by rewrite Hx, IH.
Qed.

(** when the leftmost occurrence of [key] is followed by a separator and a
    value, [query_parse_key_value] stores exactly the value, up to '&', '#' or
    the end; a value that does not fit the buffer with its terminator is
    written beyond it. *)
Theorem query_parse_correct (pre key v tail rest value : list Z) (sep : Z)
    (Hq : nonul (pre ++ key ++ sep :: v ++ tail))
    (Hf : strstr (pre ++ key ++ sep :: v ++ tail) key = Some (length pre))
    (Hv : Forall (fun c => stops c = false) v)
    (Ht : tail = [] \/ exists c t, tail = c :: t /\ stops c = true) :
  query_parse_key_value ((pre ++ key ++ sep :: v ++ tail) ++ 0 :: rest) key value =
  if (length v <? length value)%nat
  then Ok (0, v ++ 0 :: drop (S (length v)) value, Z.of_nat (length v))
  else Undef OutOfBounds.
Proof.
  unfold query_parse_key_value. rewrite text_app by done. cbn [obind]. rewrite Hf.
  assert (drop (length pre + length key + 1) ((pre ++ key ++ sep :: v ++ tail) ++ 0 :: rest)
          = v ++ tail ++ 0 :: rest) as ->.
  { rewrite <- !app_assoc, <- Nat.add_assoc, drop_app_add, drop_app_add. cbn.
    by rewrite drop_0, <- app_assoc. }
  assert (query_value (v ++ tail ++ 0 :: rest) = Ok v) as ->.
  { destruct Ht as [->|(c & t & -> & Hc)]; by apply query_value_spec. }
  cbn [obind].
  exact (store_text value v (fun b => Ok (0, b, Z.of_nat (length v)))).
Qed.

(** "a=1&cmd=pv" into a buffer of 20 bytes. *)
Lemma query_parse_correct_witness :
  query_parse_key_value (([97; 61; 49; 38] ++ [99; 109; 100] ++ 61 :: [112; 118] ++ []) ++ 0 :: [])
    [99; 109; 100] (replicate 20 0) =
  Ok (0, [112; 118] ++ 0 :: replicate 17 0, 2).
Proof.
  apply (query_parse_correct [97; 61; 49; 38] [99; 109; 100] [112; 118] [] []).
  - repeat constructor; lia.
  - reflexivity.
  - repeat constructor.
  - by left.
Defined.

(** ** get_file_suffix *)

Lemma after_dot_None s : after_dot s = None <-> Forall (fun c => c <> 46) s.
Proof.
  induction s as [|c s IH]; cbn [after_dot]; [split; [constructor|done]|].
  rewrite Forall_cons, <- IH. destruct (after_dot s).
  - split; [done|]. by intros [_ ?].
  - destruct (Z.eqb_spec c 46); split; try done; by intros [? _].
Qed.

Lemma after_dot_Some s e : after_dot s = Some e <->
  exists pre, s = pre ++ 46 :: e /\ Forall (fun c => c <> 46) e.
Proof.
  revert e. induction s as [|c s IH]; intros e; cbn [after_dot].
  - split; [done|]. intros ([] & ? & _); discriminate.
  - destruct (after_dot s) as [e'|] eqn:E.
    + split.
      * intros [= ->]. destruct (proj1 (IH e) eq_refl) as (pre & -> & He). by exists (c :: pre).
      * intros (pre & Hs & He). destruct pre as [|c' pre]; cbn in Hs; injection Hs as -> ->.
        { rewrite (proj2 (after_dot_None e) He) in E. discriminate. }
        apply IH. eauto.
    + apply after_dot_None in E. destruct (Z.eqb_spec c 46) as [->|Hc]; split.
      * intros [= <-]. by exists [].
      * intros ([|c' pre] & Hs & He); cbn in Hs; [by injection Hs as ->|].
        injection Hs as <- Hs. rewrite Hs in E. apply Forall_app in E as [_ E]. by apply Forall_cons in E as [? _].
      * done.
      * intros ([|c' pre] & Hs & He); cbn in Hs; [by injection Hs as Hs|].
        injection Hs as <- Hs. rewrite Hs in E. apply Forall_app in E as [_ E]. by apply Forall_cons in E as [? _].
Qed.

(** The backwards scan from the terminator stops at the last '.', or at the
    start of the buffer. *)
Lemma find_dot_found pre e rest : Forall (fun c => c <> 46) e ->
  forall m, (m <= length e)%nat ->
  find_dot (pre ++ 46 :: e ++ rest) (length pre + m) = Ok (length pre).
Proof.
  intros He. induction m as [|m IH]; intros Hm.
  - rewrite Nat.add_0_r. destruct (length pre) eqn:El; cbn [find_dot]; rewrite <- El, rd_app_l; done.
  - rewrite Nat.add_succ_r. cbn [find_dot].
    destruct (lookup_lt_is_Some_2 e m ltac:(lia)) as [c Hc].
    rewrite (rd_lookup _ _ c).
    + cbn [obind]. rewrite Forall_lookup in He. rewrite (proj2 (Z.eqb_neq c 46)) by (by eapply He).
      apply IH. lia.
    + rewrite lookup_app_r by lia.
      replace (S (length pre + m) - length pre)%nat with (S m) by lia.
      exact (lookup_app_l_Some e rest m c Hc).
Qed.

Lemma find_dot_none s rest : Forall (fun c => c <> 46) s ->
  forall m, (m < length s)%nat -> find_dot (s ++ rest) m = Ok 0%nat.
Proof.
  intros Hs. rewrite Forall_lookup in Hs. induction m as [|m IH]; intros Hm; cbn [find_dot];
    destruct (lookup_lt_is_Some_2 s _ Hm) as [c Hc];
    rewrite (rd_lookup _ _ c) by (by apply lookup_app_l_Some); cbn [obind];
    rewrite (proj2 (Z.eqb_neq c 46)) by (by eapply Hs); [done|]. apply IH. lia.
Qed.

Lemma store_null suffix :
  ofmap (pair 0) (memcpy suffix 0 (null_text ++ [0])) =
  if (length null_text <? length suffix)%nat
  then Ok (0, null_text ++ 0 :: drop (S (length null_text)) suffix) else Undef OutOfBounds.
Proof.
  destruct (Nat.ltb_spec (length null_text) (length suffix)) as [H|H]; cbn [null_text length] in H.
  - rewrite memcpy_0 by (cbn; lia). done.
  - rewrite memcpy_oob by (cbn; lia). done.
Qed.

(** What [get_file_suffix] does to a name without NULs. *)
Lemma get_file_suffix_eq (s rest suffix : list Z) : nonul s ->
  get_file_suffix (Some (s ++ 0 :: rest)) suffix =
  if (length (suffix_of s) <? length suffix)%nat
  then Ok (0, suffix_of s ++ 0 :: drop (S (length (suffix_of s))) suffix)
  else Undef OutOfBounds.
Proof.
  intros Hn. unfold get_file_suffix. rewrite text_app by done. cbn [obind]. unfold suffix_of.
  destruct (after_dot s) as [e|] eqn:E.
  - apply after_dot_Some in E as (pre & -> & He).
    rewrite <- app_assoc. cbn [app]. rewrite length_app. cbn [length].
    replace (length pre + S (length e))%nat with (length pre + (S (length e)))%nat by lia.
    assert (find_dot (pre ++ 46 :: e ++ 0 :: rest) (length pre + S (length e)) = Ok (length pre)) as ->.
    { replace (e ++ 0 :: rest) with ((e ++ [0]) ++ rest) by (by rewrite <- app_assoc).
      apply find_dot_found.
      - apply Forall_app. split; [done|]. by repeat constructor.
      - rewrite length_app. cbn. lia. }
    cbn [obind]. rewrite rd_app_l. cbn [obind Z.eqb Pos.eqb].
    replace (length pre + S (length e) - S (length pre))%nat with (length e) by lia.
    assert (take (length e) (drop (S (length pre)) (pre ++ 46 :: e ++ 0 :: rest)) = e) as ->.
    { rewrite <- Nat.add_1_r, drop_app_add. cbn. rewrite drop_0. apply take_app_length. }
    destruct e as [|c e]; [apply store_null|]. cbn [length Nat.eqb].
    exact (store_text suffix (c :: e) (fun b => Ok (0, b))).
  - apply after_dot_None in E.
    assert (Forall (fun c => c <> 46) (s ++ [0])) as Hs
      by (apply Forall_app; split; [done | by repeat constructor]).
    assert (find_dot (s ++ 0 :: rest) (length s) = Ok 0%nat) as ->.
    { replace (s ++ 0 :: rest) with ((s ++ [0]) ++ rest) by (by rewrite <- app_assoc).
      apply find_dot_none; [done|]. rewrite length_app. cbn. lia. }
    cbn [obind].
    destruct s as [|c s]; cbn [app].
    + apply store_null.
    + change (rd (c :: s ++ 0 :: rest) (Z.of_nat 0)) with (Ok c). cbn [obind].
      apply Forall_cons in E as [Hc _]. rewrite (proj2 (Z.eqb_neq c 46) Hc). apply store_null.
Qed.

(** [get_file_suffix] stores the text after the last '.' of the name, and
    "null" when there is no '.' or nothing after it; when the suffix and its
    terminator do not fit the buffer, they are written beyond it. *)
Theorem get_file_suffix_correct (s rest suffix : list Z) (Hn : nonul s) :
  get_file_suffix (Some (s ++ 0 :: rest)) suffix =
  if (length (suffix_of s) <? length suffix)%nat
  then Ok (0, suffix_of s ++ 0 :: drop (S (length (suffix_of s))) suffix)
  else Undef OutOfBounds.
Proof. by apply get_file_suffix_eq. Qed.

(** "a.png" *)
Definition png_name : list Z := [97; 46; 112; 110; 103].

Lemma get_file_suffix_correct_witness :
  get_file_suffix (Some (png_name ++ 0 :: [])) (replicate 8 0) =
  Ok (0, [112; 110; 103] ++ 0 :: replicate 4 0).
Proof. apply (get_file_suffix_correct png_name []). repeat constructor; lia. Defined.

(** ** str_replace *)

Lemma replace_all_match n t find repl : find <> [] ->
  replace_all (S n) (find ++ t) find repl = repl ++ replace_all n t find repl.
Proof.
  intros Hf. destruct (find ++ t) as [|c s'] eqn:E; [by destruct find|].
  cbn [replace_all]. rewrite <- E.
  rewrite (proj2 (starts_with_spec find (find ++ t))), drop_app_length by eauto.
  by destruct find.
Qed.

(** A replacement that is not shorter never shortens the text. *)
Lemma replace_all_grows find repl n s :
  (length find <= length repl)%nat -> (length s <= n)%nat ->
  (length s <= length (replace_all n s find repl))%nat.
Proof.
  intros Hr. revert s. induction n as [|n IH]; intros [|c s] Hs; cbn [length replace_all] in *; try lia.
  destruct find as [|f find]; [|destruct (starts_with (f :: find) (c :: s))];
    cbn [length Nat.eqb negb andb]; try (specialize (IH s ltac:(lia)); lia).
  rewrite length_app. cbn [drop]. cbn [length] in Hr.
  pose proof (length_drop s (length find)) as Hd.
  specialize (IH (drop (length find) s) ltac:(lia)). lia.
Qed.

(** The stores of one replacement: [w] and a terminator behind [pre]. *)
Lemma store_at {A} pre old v w (k : list Z -> outcome A) :
  (let* b := memcpy (pre ++ old) (Z.of_nat (length pre)) v in
   let* b := memcpy b (Z.of_nat (length pre + length v)) w in
   let* b := memcpy b (Z.of_nat (length pre + length v + length w)) [0] in k b) =
  if (length v + length w <? length old)%nat
  then k (pre ++ v ++ w ++ 0 :: drop (length v + length w + 1) old)
  else Undef OutOfBounds.
Proof.
  destruct (decide (length v <= length old)%nat) as [Hv|Hv].
  2:{ rewrite memcpy_oob by (rewrite length_app; lia).
      by destruct (Nat.ltb_spec (length v + length w) (length old)); [lia|]. }
  rewrite memcpy_ok by (rewrite ?length_app; lia). cbn [obind].
  rewrite Nat2Z.id, take_app_length, drop_app_add.
  destruct (decide (length v + length w <= length old)%nat) as [Hw|Hw].
  2:{ rewrite memcpy_oob by (rewrite !length_app, length_drop; lia).
      by destruct (Nat.ltb_spec (length v + length w) (length old)); [lia|]. }
  rewrite memcpy_ok by (rewrite ?length_app, ?length_drop; lia). cbn [obind].
  rewrite Nat2Z.id, (app_assoc pre), <- (length_app pre v), take_app_length, drop_app_add, drop_drop.
  destruct (Nat.ltb_spec (length v + length w) (length old)) as [H|H].
  - rewrite memcpy_ok by (rewrite ?length_app, ?length_drop; cbn [length]; lia). cbn [obind].
    rewrite Nat2Z.id, (app_assoc (pre ++ v)), <- (length_app (pre ++ v) w), take_app_length.
    rewrite drop_app_add, drop_drop. cbn [length]. by rewrite <- !app_assoc.
  - rewrite memcpy_oob by (rewrite ?length_app, ?length_drop; cbn [length]; lia). done.
Qed.

(** From a position behind [pre], the loop leaves [pre] and the replaced text,
    and it runs out of the buffer exactly when that text does not fit. *)
Lemma str_replace_loop_spec find repl : find <> [] ->
  forall fuel src pre rest, nonul src -> (length src < fuel)%nat ->
  let R := replace_all (pred fuel) src find repl in
  let old := src ++ 0 :: rest in
  if (length R <? length old)%nat
  then exists rest', length (R ++ 0 :: rest') = length old /\
       str_replace_loop fuel (pre ++ old) (length pre) find repl = Ok (pre ++ R ++ 0 :: rest')
  else str_replace_loop fuel (pre ++ old) (length pre) find repl = Undef OutOfBounds.
Proof.
  intros Hf. induction fuel as [|fuel IH]; intros src pre rest Hn Hl; [lia|]. cbn [pred].
  destruct src as [|c src].
  { cbn [str_replace_loop app]. rewrite rd_app_l. destruct fuel; cbn; eauto. }
  cbn [length] in Hl. destruct fuel as [|fuel]; [lia|]. cbn [pred] in IH.
  cbn zeta. remember (S fuel) as m eqn:Hm. cbn [str_replace_loop]. rewrite drop_app_length, text_app by done.
  assert (rd (pre ++ (c :: src) ++ 0 :: rest) (Z.of_nat (length pre)) = Ok c) as ->
    by apply rd_app_l. cbn [obind].
  apply Forall_cons in Hn as [Hc Hn]. rewrite (proj2 (Z.eqb_neq c 0) Hc).
  destruct (starts_with find (c :: src)) eqn:Es.
  - apply starts_with_spec in Es as [t Et].
    assert ((c =? nth 0 find 0) = true) as ->.
    { destruct find; [done|]. injection Et as -> _. apply Z.eqb_refl. }
    assert (nonul t) as Ht.
    { assert (nonul (c :: src)) as H by (by constructor). rewrite Et in H.
      by apply Forall_app in H as [_ H]. }
    assert (S (length src) = length find + length t)%nat as El
      by (rewrite <- length_app, <- Et; done).
    rewrite Et, Hm, drop_app_length, store_at, replace_all_match, <- Hm by done. cbn [andb].
    assert (0 < length find)%nat as Hf0 by (destruct find; [done | cbn; lia]).
    pose proof (replace_all_grows find repl fuel t) as Hg.
    set (L := (length find + length t + S (length rest))%nat).
    assert (length ((find ++ t) ++ 0 :: rest) = L) as HL by (rewrite !length_app; done).
    rewrite HL, !length_app.
    destruct (Nat.ltb_spec (length repl + length t) L) as [Hfit|Hfit].
    + set (tail := drop (length repl + length t + 1) _).
      assert (length tail = L - (length repl + length t + 1))%nat as Htl
        by (subst tail; by rewrite length_drop, HL).
      specialize (IH t (pre ++ repl) tail Ht ltac:(lia)). cbn zeta in IH.
      rewrite <- !app_assoc, !length_app in IH. cbn [length] in IH. rewrite Htl in IH.
      set (R := replace_all fuel t find repl) in *.
      destruct (Nat.ltb_spec (length R) (length t + S (L - (length repl + length t + 1)))),
               (Nat.ltb_spec (length repl + length R) L); try lia; [|done].
      destruct IH as (rest' & Hr & ->). exists rest'. rewrite <- !app_assoc. split; [|done].
      rewrite !length_app in *. cbn [length] in *. lia.
    + destruct (Nat.ltb_spec (length repl + length (replace_all fuel t find repl)) L); [|done].
      specialize (Hg ltac:(lia) ltac:(lia)). lia.
  - rewrite andb_false_r, Hm. cbn [replace_all]. rewrite <- Hm, Es, andb_false_r.
    specialize (IH src (pre ++ [c]) rest Hn ltac:(lia)). cbn zeta in IH.
    rewrite <- !app_assoc, !length_app in IH. cbn [app length] in *. rewrite Nat.add_1_r in IH.
    rewrite !length_app in *. cbn [length] in *.
    set (R := replace_all fuel src find repl) in *.
    destruct (Nat.ltb_spec (length R) (length src + S (length rest))),
             (Nat.ltb_spec (S (length R)) (S (length src + S (length rest)))); try lia; [|done].
    destruct IH as (rest' & Hr & ->). exists rest'. split; [|by rewrite <- app_assoc].
    rewrite !length_app in *. cbn [length] in *. lia.
Qed.

Lemma replace_all_nonul n s find repl : nonul s -> nonul repl -> nonul (replace_all n s find repl).
Proof.
  intros Hs Hr. revert s Hs. induction n as [|n IH]; intros [|c s] Hs; cbn [replace_all];
    try apply Forall_nil_2.
  destruct (_ && _).
  - apply Forall_app_2; [done|]. by apply IH, Forall_drop.
  - apply Forall_cons in Hs as [? ?]. apply Forall_cons_2; [done | by apply IH].
Qed.

(** C37: [str_replace] terminates and leaves in the buffer the text with every
    leftmost non-overlapping occurrence of [strFind] replaced; exactly when that
    text and its terminator do not fit the buffer, it writes beyond it. *)
Theorem str_replace_correct (s rest find repl : list Z)
    (Hn : nonul s) (Hr : nonul repl) (Hf : find <> []) :
  let buf := s ++ 0 :: rest in
  let R := replace_all (length buf) s find repl in
  if (length R <? length buf)%nat
  then exists buf', str_replace buf find repl = Ok buf' /\ text buf' = Ok R
                    /\ length buf' = length buf
  else str_replace buf find repl = Undef OutOfBounds.
Proof.
  cbn zeta. unfold str_replace.
  pose proof (str_replace_loop_spec find repl Hf (S (length (s ++ 0 :: rest))) s [] rest Hn
    ltac:(rewrite length_app; lia)) as H. cbn [pred app length] in H. cbn zeta in H.
  destruct (_ <? _)%nat; [|done]. destruct H as (rest' & Hl & ->).
  eexists. split; [done|]. split; [|done]. apply text_app. by apply replace_all_nonul.
Qed.

(** "a.b.c" with "." replaced by "::" in a buffer of 8 bytes. *)
Lemma str_replace_correct_witness :
  let buf := [97; 46; 98; 46; 99] ++ 0 :: [0; 0] in
  let R := replace_all (length buf) [97; 46; 98; 46; 99] [46] [58; 58] in
  if (length R <? length buf)%nat
  then exists buf', str_replace buf [46] [58; 58] = Ok buf' /\ text buf' = Ok R
                    /\ length buf' = length buf
  else str_replace buf [46] [58; 58] = Undef OutOfBounds.
Proof.
  apply (str_replace_correct [97; 46; 98; 46; 99] [0; 0] [46] [58; 58]);
    [repeat constructor; lia.. | done].
Defined.
