(* ===== verification/Text.v ===== *)
(** Texts and numbers as the C library prints and reads them. *)

From Stdlib Require Import ZArith Lia Bool Ascii String.
From stdpp Require Import base tactics numbers list strings.
From S2P Require Import Prelude.

(** ** Decimal numbers *)

Definition digit_char (d : Z) : ascii := ascii_of_N (Z.to_N (48 + d)).
Definition char_digit (c : ascii) : option Z :=
  let n := Z.of_N (N_of_ascii c) in
  if (48 <=? n) && (n <=? 57) then Some (n - 48) else None.

Fixpoint digits (fuel : nat) (n : Z) (acc : string) : string :=
  match fuel with
  | O => acc
  | S fuel => if n <? 10 then String (digit_char n) acc
              else digits fuel (n / 10) (String (digit_char (n mod 10)) acc)
  end.

(** The text [printf] writes for [%d], [%ld] and [%u]; 20 digits hold every
    64-bit number. *)
Definition dec (n : Z) : string :=
  if n <? 0 then String "-" (digits 20 (- n) "") else digits 20 n "".

(** The digits at the start of a text, as a number. *)
Fixpoint read_digits (acc : Z) (s : string) : Z :=
  match s with
  | EmptyString => acc
  | String c s => match char_digit c with
                  | Some d => read_digits (10 * acc + d) s
                  | None => acc
                  end
  end.

Definition space_char (c : ascii) : bool :=
  let n := N_of_ascii c in ((9 <=? n) && (n <=? 13) || (n =? 32))%N.

Fixpoint skip_spaces (s : string) : string :=
  match s with
  | String c s' => if space_char c then skip_spaces s' else s
  | EmptyString => EmptyString
  end.

(** [strtol(s, NULL, 10)]: a value outside the range of [long] is clamped. *)
Definition strtol (s : string) : Z :=
  let s := skip_spaces s in
  let v := match s with
           | String c s' => if Ascii.eqb c "-" then - read_digits 0 s' else
                            if Ascii.eqb c "+" then read_digits 0 s' else read_digits 0 s
           | EmptyString => 0
           end in
  Z.max (- 2 ^ 63) (Z.min (2 ^ 63 - 1) v).

Definition atol (s : string) : Z := strtol s.
(** [atoi] converts the [long] to [int]. *)
Definition wrap32 (x : Z) : Z := (x + 2 ^ 31) mod 2 ^ 32 - 2 ^ 31.
Definition atoi (s : string) : Z := wrap32 (strtol s).

Definition is_int (x : Z) : Prop := - 2 ^ 31 <= x < 2 ^ 31.

(** ** Bytes of a text *)

Definition bytes_of (s : string) : list Z := (fun c => Z.of_N (N_of_ascii c)) <$> list_ascii_of_string s.
Definition text_of (bs : list Z) : string :=
  string_of_list_ascii ((fun b => ascii_of_N (Z.to_N b)) <$> bs).

(** ** Lemmas *)

Lemma char_digit_char d : 0 <= d <= 9 -> char_digit (digit_char d) = Some d.
Proof.
  intros H. unfold char_digit, digit_char. rewrite N_ascii_embedding by lia.
  rewrite Z2N.id by lia.
  destruct (Z.leb_spec 48 (48 + d)), (Z.leb_spec (48 + d) 57); try lia. cbn. f_equal. lia.
Qed.

Lemma read_digits_digits fuel n acc : 0 <= n < 10 ^ Z.of_nat fuel ->
  read_digits 0 (digits fuel n acc) = read_digits n acc.
Proof.
  revert n acc. induction fuel as [|fuel IH]; intros n acc Hn.
  - change (10 ^ Z.of_nat 0) with 1 in Hn. cbn. f_equal. lia.
  - rewrite Nat2Z.inj_succ, Z.pow_succ_r in Hn by lia. cbn [digits].
    destruct (Z.ltb_spec n 10).
    + cbn [read_digits]. rewrite char_digit_char by lia. done.
    + pose proof (Z.mod_pos_bound n 10). rewrite IH.
      * cbn [read_digits]. rewrite char_digit_char by lia.
        by rewrite <- Z.div_mod by lia.
      * split; [apply Z.div_pos; lia | apply Z.div_lt_upper_bound; lia].
Qed.

Lemma wrap32_small x : is_int x -> wrap32 x = x.
Proof. intros H. unfold wrap32, is_int in *. rewrite Z.mod_small; lia. Qed.

Lemma digits_head fuel n acc : (0 < fuel)%nat -> 0 <= n -> exists d s,
  0 <= d <= 9 /\ digits fuel n acc = String (digit_char d) s.
Proof.
  revert n acc. induction fuel as [|fuel IH]; intros n acc Hf Hn; [lia|]. cbn [digits].
  destruct (Z.ltb_spec n 10); [exists n, acc; split; [lia|done]|].
  destruct fuel as [|fuel].
  - cbn. exists (n mod 10), acc. pose proof (Z.mod_pos_bound n 10). split; [lia|done].
  - apply IH; [lia|]. apply Z.div_pos; lia.
Qed.

(** A head digit is neither white space nor a sign. *)
Lemma digit_head_cases d : 0 <= d <= 9 ->
  space_char (digit_char d) = false /\ Ascii.eqb (digit_char d) "-" = false /\
  Ascii.eqb (digit_char d) "+" = false.
Proof.
  intros Hd. assert (d = 0 \/ d = 1 \/ d = 2 \/ d = 3 \/ d = 4 \/ d = 5 \/ d = 6 \/ d = 7 \/ d = 8 \/ d = 9)
    as Hc by lia.
  by destruct Hc as [-> | [-> | [-> | [-> | [-> | [-> | [-> | [-> | [-> | ->]]]]]]]]].
Qed.

Lemma read_dec n : 0 <= n < 2 ^ 63 -> read_digits 0 (digits 20 n "") = n.
Proof. intros Hn. rewrite read_digits_digits; [done|]. change (10 ^ Z.of_nat 20) with 100000000000000000000. lia. Qed.

(** [strtol] reads back what [%ld] prints, and [atoi] what [%d] prints. *)
Lemma strtol_dec n : - 2 ^ 63 < n < 2 ^ 63 -> strtol (dec n) = n.
Proof.
  intros Hn. unfold strtol, dec. destruct (Z.ltb_spec n 0).
  - change (skip_spaces (String "-" ?s)) with (String "-" s). cbn [Ascii.eqb Bool.eqb].
    rewrite read_dec by lia. lia.
  - destruct (digits_head 20 n "" ltac:(lia) ltac:(lia)) as (d & s & Hd & E).
    destruct (digit_head_cases d Hd) as (E1 & E2 & E3).
    rewrite E. cbn [skip_spaces]. rewrite E1, E2, E3, <- E, read_dec by lia. lia.
Qed.

Lemma atoi_dec n : is_int n -> atoi (dec n) = n.
Proof.
  intros Hn. unfold atoi. rewrite strtol_dec; [by apply wrap32_small|]. unfold is_int in Hn. lia.
Qed.
