(* ===== verification/Double.v ===== *)
(** The C type [double] (IEEE 754 binary64) and what the C library does with it:
    [strtod], the conversions [%1.15g] and [%1.17g], comparison, and conversion
    to [int]. A finite number is [(-1)^s * m * 2^e], rounded to nearest, ties to
    even. *)

From Stdlib Require Import ZArith Lia Bool.
From stdpp Require Import base tactics numbers list.
From S2P Require Import Prelude.

Inductive double :=
  | NaN
  | Inf (s : bool)
  | Fin (s : bool) (m e : Z).

#[export] Instance double_eq : EqDecision double.
Proof. solve_decision. Defined.

Definition dzero : double := Fin false 0 0.

(** [p / q] rounded to an integer, ties to even. *)
Definition round_int (p q : Z) : Z :=
  let d := p / q in
  match 2 * (p mod q) ?= q with
  | Lt => d
  | Gt => d + 1
  | Eq => if Z.even d then d else d + 1
  end.

(** [p * 2^k] over [q], and [p] over [q * 2^k]. *)
Definition up2 (x k : Z) : Z := x * 2 ^ Z.max 0 k.

(** [floor (log2 (p / q))] for positive [p] and [q]. *)
Definition log2_ratio (p q : Z) : Z :=
  let k := Z.log2 p - Z.log2 q in
  if up2 p (- k) <? up2 q k then k - 1 else k.

(** The double nearest to [(-1)^s * p / q]: 53 bits, exponents from -1074, and
    infinity beyond [2^1024]. *)
Definition round64 (s : bool) (p q : Z) : double :=
  if p =? 0 then Fin s 0 0 else
  let e := Z.max (log2_ratio p q - 52) (-1074) in
  let m := round_int (up2 p (- e)) (up2 q e) in
  let '(m, e) := if m =? 2 ^ 53 then (2 ^ 52, e + 1) else (m, e) in
  if 971 <? e then Inf s else if m =? 0 then Fin s 0 0 else Fin s m e.

(** The conversion of an integer. *)
Definition double_of_Z (n : Z) : double := round64 (n <? 0) (Z.abs n) 1.

(** A finite number as a fraction: numerator and denominator. *)
Definition frac_num (s : bool) (m e : Z) : Z := up2 (if s then - m else m) e.
Definition frac_den (e : Z) : Z := 2 ^ Z.max 0 (- e).

(** [d >= n] and [d <= n] for an integer [n]; false for a NaN. *)
Definition dge (d : double) (n : Z) : bool :=
  match d with
  | NaN => false
  | Inf s => negb s
  | Fin s m e => n * frac_den e <=? frac_num s m e
  end.
Definition dle (d : double) (n : Z) : bool :=
  match d with
  | NaN => false
  | Inf s => s
  | Fin s m e => frac_num s m e <=? n * frac_den e
  end.

(** [(int) d]: undefined outside the range of [int]; the callers test it first. *)
Definition trunc (d : double) : outcome Z :=
  match d with
  | Fin s m e =>
      let v := Z.quot (frac_num s m e) (frac_den e) in
      if (- 2 ^ 31 <=? v) && (v <=? INT_MAX) then Ok v else Undef IntOverflow
  | _ => Undef IntOverflow
  end.

(** [fabs(a - b) <= max(fabs(a), fabs(b)) * DBL_EPSILON], with both sides
    rounded. *)
Definition compare_double (a b : double) : bool :=
  match a, b with
  | NaN, _ | _, NaN => false
  | Inf s, Inf s' => negb (Bool.eqb s s')
  | Inf _, Fin _ _ _ | Fin _ _ _, Inf _ => true
  | Fin s m e, Fin s' m' e' =>
      let x := frac_num s m e * frac_den e' in
      let y := frac_num s' m' e' * frac_den e in
      let den := frac_den e * frac_den e' in
      match round64 false (Z.abs (x - y)) den,
            round64 false (Z.max (Z.abs x) (Z.abs y)) (den * 2 ^ 52) with
      | Fin _ m1 e1, Fin _ m2 e2 =>
          frac_num false m1 e1 * frac_den e2 <=? frac_num false m2 e2 * frac_den e1
      | Fin _ _ _, _ => true
      | Inf _, Inf _ => true
      | _, _ => false
      end
  end.

(** ** Reading *)

Definition is_digit (c : Z) : bool := (48 <=? c) && (c <=? 57).

Fixpoint span_digits (s : list Z) : list Z * list Z :=
  match s with
  | c :: s' => if is_digit c then let '(d, r) := span_digits s' in (c :: d, r) else ([], s)
  | [] => ([], [])
  end.
Definition num_of (ds : list Z) : Z := foldl (fun n c => 10 * n + (c - 48)) 0 ds.

Definition read_sign (s : list Z) : bool * list Z :=
  match s with
  | c :: r => if c =? 45 then (true, r) else if c =? 43 then (false, r) else (false, s)
  | [] => (false, [])
  end.

(** The fraction behind a '.'. *)
Definition read_frac (s : list Z) : list Z * list Z :=
  match s with c :: r => if c =? 46 then span_digits r else ([], s) | [] => ([], []) end.

(** The exponent behind an 'e' or 'E', if there is one. *)
Definition read_exp (s : list Z) : Z * list Z :=
  match s with
  | c :: r =>
      if (c =? 101) || (c =? 69) then
        let '(neg, r) := read_sign r in
        let '(ds, r) := span_digits r in
        match ds with [] => (0, s) | _ => (if neg then - num_of ds else num_of ds, r) end
      else (0, s)
  | [] => (0, [])
  end.

(** [(-1)^s * n * 10^k] for [n] of at most 63 digits: beyond [10^400] it is
    infinite, and below [10^-400] zero. *)
Definition scale (s : bool) (n k : Z) : double :=
  if n =? 0 then Fin s 0 0 else
  if 400 <? k then Inf s else if k <? -400 then Fin s 0 0 else
  round64 s (n * 10 ^ Z.max 0 k) (10 ^ Z.max 0 (- k)).

(** [strtod] on a text of at most 63 characters without spaces: the number and
    how many characters it has; 0 when there is none. *)
Definition strtod (s : list Z) : double * nat :=
  let '(neg, r) := read_sign s in
  let '(ip, r) := span_digits r in
  let '(fp, r) := read_frac r in
  match ip ++ fp with
  | [] => (Fin false 0 0, 0%nat)
  | ds =>
      let '(k, r) := read_exp r in
      (scale neg (num_of ds) (k - Z.of_nat (length fp)), (length s - length r)%nat)
  end.

(** ** Printing *)

(** [n] in [k] digits. *)
Fixpoint digits_of (k : nat) (n : Z) : list Z :=
  match k with O => [] | S k => digits_of k (n / 10) ++ [48 + n mod 10] end.

(** The number of decimal digits of [n]; 400 digits hold every double. *)
Fixpoint count_digits (fuel : nat) (n : Z) : Z :=
  match fuel with O => 0 | S fuel => if n <? 10 then 1 else 1 + count_digits fuel (n / 10) end.
(** The least [k] with [10^k * p >= q]. *)
Fixpoint count_tens (fuel : nat) (p q : Z) : Z :=
  match fuel with O => 0 | S fuel => if q <=? p then 0 else 1 + count_tens fuel (10 * p) q end.
Definition log10_ratio (p q : Z) : Z :=
  if q <=? p then count_digits 400 (p / q) - 1 else - count_tens 400 p q.

Fixpoint strip_zeros (ds : list Z) : list Z :=
  match ds with
  | [] => []
  | c :: ds => match strip_zeros ds with [] => if c =? 48 then [] else [c] | r => c :: r end
  end.
(** A fraction with its point, without trailing zeros. *)
Definition point (ds : list Z) : list Z :=
  match strip_zeros ds with [] => [] | r => 46 :: r end.

(** The exponent of [%e]: a sign and at least two digits. *)
Definition exp_text (x : Z) : list Z :=
  (if x <? 0 then 45 else 43) :: digits_of (if Z.abs x <? 100 then 2 else 3) (Z.abs x).

(** [P] significant digits of [p / q] and the decimal exponent of the first. *)
Definition sig_digits (P p q : Z) : Z * Z :=
  let x := log10_ratio p q in
  let n := round_int (p * 10 ^ Z.max 0 (P - 1 - x)) (q * 10 ^ Z.max 0 (x - P + 1)) in
  if n =? 10 ^ P then (10 ^ (P - 1), x + 1) else (n, x).

(** [%1.Pg] of a finite number. *)
Definition format_g (P : Z) (s : bool) (m e : Z) : list Z :=
  (if s then [45] else []) ++
  if m =? 0 then [48] else
  let '(n, x) := sig_digits P (frac_num false m e) (frac_den e) in
  let ds := digits_of (Z.to_nat P) n in
  if (x <? -4) || (P <=? x) then take 1 ds ++ point (drop 1 ds) ++ 101 :: exp_text x
  else if x <? 0 then 48 :: point (replicate (Z.to_nat (- x - 1)) 48 ++ ds)
  else take (Z.to_nat (x + 1)) ds ++ point (drop (Z.to_nat (x + 1)) ds).
