(* ===== verification/CJson.v ===== *)
(** Access to and construction of cJSON trees (src/src/common/cJSON.c). *)

From Stdlib Require Import ZArith Lia Bool Ascii String.
From stdpp Require Import base tactics numbers list strings.
From S2P Require Import Prelude Text Double.

(** An item: [type], [valuestring], [valueint], [valuedouble], [string] and the
    chain of children. *)
Inductive cJSON :=
  | Item (type : Z) (valuestring : option string) (valueint : Z) (valuedouble : double)
         (name : option string) (child : list cJSON).

Definition cJSON_False : Z := 1.
Definition cJSON_True : Z := 2.
Definition cJSON_NULL : Z := 4.
Definition cJSON_Number : Z := 8.
Definition cJSON_String : Z := 16.
Definition cJSON_Array : Z := 32.
Definition cJSON_Object : Z := 64.
Definition cJSON_Raw : Z := 128.

Definition item_type (i : cJSON) : Z := let '(Item t _ _ _ _ _) := i in t.
Definition item_valuestring (i : cJSON) : option string := let '(Item _ s _ _ _ _) := i in s.
Definition item_valueint (i : cJSON) : Z := let '(Item _ _ v _ _ _) := i in v.
Definition item_valuedouble (i : cJSON) : double := let '(Item _ _ _ d _ _) := i in d.
Definition item_string (i : cJSON) : option string := let '(Item _ _ _ _ n _) := i in n.
Definition item_child (i : cJSON) : list cJSON := let '(Item _ _ _ _ _ c) := i in c.

(** [tolower] in the C locale. *)
Definition tolower (c : ascii) : ascii :=
  let n := N_of_ascii c in
  if ((65 <=? n) && (n <=? 90))%N then ascii_of_N (n + 32) else c.

(** [case_insensitive_strcmp(a, b) == 0] on texts. *)
Fixpoint case_insensitive_eq (a b : string) : bool :=
  match a, b with
  | EmptyString, EmptyString => true
  | String x a, String y b => Ascii.eqb (tolower x) (tolower y) && case_insensitive_eq a b
  | _, _ => false
  end.

(** [get_object_item(object, name, false)]: the first child whose name matches;
    children without a name never match. *)
Fixpoint find_item (name : string) (child : list cJSON) : option cJSON :=
  match child with
  | [] => None
  | c :: child =>
      match item_string c with
      | Some n => if case_insensitive_eq name n then Some c else find_item name child
      | None => find_item name child
      end
  end.

Definition cJSON_GetObjectItem (object : cJSON) (name : string) : option cJSON :=
  find_item name (item_child object).

(** [valueint] of a number: saturated at the ends of [int], truncated between
    them. *)
Definition saturate (d : double) : outcome Z :=
  if dge d INT_MAX then Ok INT_MAX else
  if dle d (- 2 ^ 31) then Ok (- 2 ^ 31) else trunc d.

Definition cJSON_CreateObject : cJSON := Item cJSON_Object None 0 dzero None [].
Definition cJSON_CreateArray : cJSON := Item cJSON_Array None 0 dzero None [].
Definition cJSON_CreateString (s : string) : cJSON := Item cJSON_String (Some s) 0 dzero None [].

(** [cJSON_CreateNumber] of an integer converted to [double], which is no NaN. *)
Definition cJSON_CreateNumber (n : Z) : cJSON :=
  let d := double_of_Z n in
  Item cJSON_Number None (match saturate d with Ok v => v | Undef _ => 0 end) d None [].

Definition add_item_to_array (array item : cJSON) : cJSON :=
  let '(Item t s v n k c) := array in Item t s v n k (c ++ [item]).
Definition cJSON_AddItemToArray := add_item_to_array.

Definition add_item_to_object (object : cJSON) (name : string) (item : cJSON) : cJSON :=
  let '(Item t s v n _ c) := item in add_item_to_array object (Item t s v n (Some name) c).
Definition cJSON_AddItemToObject := add_item_to_object.

Definition cJSON_AddStringToObject (object : cJSON) (name s : string) : cJSON :=
  add_item_to_object object name (cJSON_CreateString s).
Definition cJSON_AddNumberToObject (object : cJSON) (name : string) (n : Z) : cJSON :=
  add_item_to_object object name (cJSON_CreateNumber n).
