(* ===== verification/CJsonHeap.v ===== *)
(** The linked lists behind the arrays and objects of cJSON
    (src/src/common/cJSON.c): nodes in a heap, with [next], [prev] and [child]
    pointers, and the functions that append, detach, insert, replace and delete.
    The children of a node form a list linked both ways whose first element
    points back at the last. *)

From Stdlib Require Import ZArith Lia Bool Ascii String.
From stdpp Require Import base tactics numbers list strings gmap.
From S2P Require Import Prelude Text Double CJson.

(** [struct cJSON], in the order of its fields; [NULL] is 0. The texts are values
    of the node, not addresses. *)
Record node := Node {
  n_next : Z; n_prev : Z; n_child : Z; n_type : Z;
  n_valuestring : option string; n_valueint : Z; n_valuedouble : double; n_string : option string }.
Notation heap := (gmap Z node).
Definition NULL : Z := 0.
Definition cJSON_IsReference : Z := 256.
Definition cJSON_StringIsConst : Z := 512.

Definition put_next (v : Z) (n : node) := Node v (n_prev n) (n_child n) (n_type n) (n_valuestring n) (n_valueint n) (n_valuedouble n) (n_string n).
Definition put_prev (v : Z) (n : node) := Node (n_next n) v (n_child n) (n_type n) (n_valuestring n) (n_valueint n) (n_valuedouble n) (n_string n).
Definition put_child (v : Z) (n : node) := Node (n_next n) (n_prev n) v (n_type n) (n_valuestring n) (n_valueint n) (n_valuedouble n) (n_string n).
Definition put_name (s : option string) (t : Z) (n : node) := Node (n_next n) (n_prev n) (n_child n) t (n_valuestring n) (n_valueint n) (n_valuedouble n) s.

(** [*a], and [a->field = v]. *)
Definition load (h : heap) (a : Z) : outcome node :=
  match h !! a with Some n => Ok n | None => Undef NullDeref end.
Definition store (f : node -> node) (a : Z) (h : heap) : outcome heap :=
  let* _ := load h a in Ok (alter f a h).
Definition set_next (a v : Z) : heap -> outcome heap := store (put_next v) a.
Definition set_prev (a v : Z) : heap -> outcome heap := store (put_prev v) a.
Definition set_child (a v : Z) : heap -> outcome heap := store (put_child v) a.

(** ** Access *)

Fixpoint count_children (fuel : nat) (h : heap) (child : Z) (n : Z) : outcome Z :=
  match fuel with
  | O => Undef NoReturn
  | S fuel => if child =? NULL then Ok n else
              let* c := load h child in count_children fuel h (n_next c) (n + 1)
  end.
Definition cJSON_GetArraySize (array : Z) (h : heap) : outcome Z :=
  if array =? NULL then Ok 0 else
  let* a := load h array in
  let* n := count_children (S (size h)) h (n_child a) 0 in
  Ok (wrap32 n).

Fixpoint nth_child (index : nat) (h : heap) (current_child : Z) : outcome Z :=
  match index with
  | O => Ok current_child
  | S index => if current_child =? NULL then Ok NULL else
               let* c := load h current_child in nth_child index h (n_next c)
  end.
Definition get_array_item (array : Z) (index : nat) (h : heap) : outcome Z :=
  if array =? NULL then Ok NULL else
  let* a := load h array in nth_child index h (n_child a).
Definition cJSON_GetArrayItem (array index : Z) (h : heap) : outcome Z :=
  if index <? 0 then Ok NULL else get_array_item array (Z.to_nat index) h.

(** [get_object_item]: with [case_sensitive] the search stops at a child without
    a name, otherwise it passes over it. *)
Definition name_differs (case_sensitive : bool) (name : string) (s : option string) : bool :=
  match s with
  | None => negb case_sensitive
  | Some n => negb (if case_sensitive then String.eqb name n else case_insensitive_eq name n)
  end.
Fixpoint find_child (fuel : nat) (case_sensitive : bool) (name : string) (h : heap) (current_element : Z)
    : outcome Z :=
  match fuel with
  | O => Undef NoReturn
  | S fuel =>
      if current_element =? NULL then Ok NULL else
      let* c := load h current_element in
      if name_differs case_sensitive name (n_string c)
      then find_child fuel case_sensitive name h (n_next c)
      else Ok (match n_string c with None => NULL | Some _ => current_element end)
  end.
Definition get_object_item (object : Z) (name : option string) (case_sensitive : bool) (h : heap) : outcome Z :=
  match name with
  | None => Ok NULL
  | Some name =>
      if object =? NULL then Ok NULL else
      let* o := load h object in find_child (S (size h)) case_sensitive name h (n_child o)
  end.

Definition cJSON_GetObjectItem (object : Z) (string : option string) := get_object_item object string false.
Definition cJSON_GetObjectItemCaseSensitive (object : Z) (string : option string) := get_object_item object string true.
Definition cJSON_HasObjectItem (object : Z) (string : option string) (h : heap) : outcome bool :=
  let* item := cJSON_GetObjectItem object string h in Ok (negb (item =? NULL)).

(** ** Append *)

Definition suffix_object (prev item : Z) (h : heap) : outcome heap :=
  let* h := set_next prev item h in set_prev item prev h.

Fixpoint last_child (fuel : nat) (h : heap) (child : Z) : outcome Z :=
  match fuel with
  | O => Undef NoReturn
  | S fuel => let* c := load h child in
              if n_next c =? NULL then Ok child else last_child fuel h (n_next c)
  end.

Definition add_item_to_array (array item : Z) (h : heap) : outcome (bool * heap) :=
  if (item =? NULL) || (array =? NULL) || (array =? item) then Ok (false, h) else
  let* a := load h array in
  let child := n_child a in
  if child =? NULL then
    let* h := set_child array item h in
    let* h := set_prev item item h in
    let* h := set_next item NULL h in
    Ok (true, h)
  else
    let* c := load h child in
    let* tail := if negb (n_prev c =? NULL) then Ok (n_prev c) else last_child (size h) h child in
    let* h := suffix_object tail item h in
    let* a := load h array in
    let* h := set_prev (n_child a) item h in
    Ok (true, h).

(** [add_item_to_object]; [copied] says whether [cJSON_strdup] of the name
    succeeds. *)
Definition add_item_to_object (copied : bool) (object : Z) (string : option string) (item : Z) (constant_key : bool)
    (h : heap) : outcome (bool * heap) :=
  match string with
  | None => Ok (false, h)
  | Some key =>
      if (object =? NULL) || (item =? NULL) || (object =? item) then Ok (false, h) else
      if negb constant_key && negb copied then Ok (false, h) else
      let* n := load h item in
      let new_type := if constant_key then Z.lor (n_type n) cJSON_StringIsConst
                      else Z.ldiff (n_type n) cJSON_StringIsConst in
      let* h := store (put_name (Some key) new_type) item h in
      add_item_to_array object item h
  end.

(** ** Detach, insert, replace *)

Definition cJSON_DetachItemViaPointer (parent item : Z) (h : heap) : outcome (Z * heap) :=
  if (parent =? NULL) || (item =? NULL) then Ok (NULL, h) else
  let* p := load h parent in
  let* i := load h item in
  let first := item =? n_child p in
  let* h := if negb first then set_next (n_prev i) (n_next i) h else Ok h in
  let* i := load h item in
  let* h := if negb (n_next i =? NULL) then set_prev (n_next i) (n_prev i) h else Ok h in
  let* i := load h item in
  let* h := if first then set_child parent (n_next i) h else
            if n_next i =? NULL then let* p := load h parent in set_prev (n_child p) (n_prev i) h
            else Ok h in
  let* h := set_prev item NULL h in
  let* h := set_next item NULL h in
  Ok (item, h).

Definition cJSON_DetachItemFromArray (array which : Z) (h : heap) : outcome (Z * heap) :=
  if which <? 0 then Ok (NULL, h) else
  let* item := get_array_item array (Z.to_nat which) h in
  cJSON_DetachItemViaPointer array item h.
Definition cJSON_DetachItemFromObject (object : Z) (string : option string) (h : heap) : outcome (Z * heap) :=
  let* to_detach := cJSON_GetObjectItem object string h in
  cJSON_DetachItemViaPointer object to_detach h.
Definition cJSON_DetachItemFromObjectCaseSensitive (object : Z) (string : option string) (h : heap)
    : outcome (Z * heap) :=
  let* to_detach := cJSON_GetObjectItemCaseSensitive object string h in
  cJSON_DetachItemViaPointer object to_detach h.

Definition cJSON_InsertItemInArray (array which newitem : Z) (h : heap) : outcome (bool * heap) :=
  if which <? 0 then Ok (false, h) else
  let* after_inserted := get_array_item array (Z.to_nat which) h in
  if after_inserted =? NULL then add_item_to_array array newitem h else
  let* h := set_next newitem after_inserted h in
  let* i := load h after_inserted in
  let* h := set_prev newitem (n_prev i) h in
  let* h := set_prev after_inserted newitem h in
  let* a := load h array in
  if after_inserted =? n_child a then
    let* h := set_child array newitem h in Ok (true, h)
  else
    let* n := load h newitem in
    let* h := set_next (n_prev n) newitem h in Ok (true, h).

(** [cJSON_Delete]: the item, its later siblings and, unless they are only
    referred to, their children. *)
Definition has_flag (t flag : Z) : bool := negb (Z.land t flag =? 0).
Fixpoint cJSON_Delete (fuel : nat) (item : Z) (h : heap) : outcome heap :=
  match fuel with
  | O => Undef NoReturn
  | S fuel =>
      if item =? NULL then Ok h else
      let* n := load h item in
      let* h := if negb (has_flag (n_type n) cJSON_IsReference) && negb (n_child n =? NULL)
                then cJSON_Delete fuel (n_child n) h else Ok h in
      let* _ := load h item in
      cJSON_Delete fuel (n_next n) (delete item h)
  end.

Definition cJSON_ReplaceItemViaPointer (parent item replacement : Z) (h : heap) : outcome (bool * heap) :=
  if (parent =? NULL) || (replacement =? NULL) || (item =? NULL) then Ok (false, h) else
  if replacement =? item then Ok (true, h) else
  let* i := load h item in
  let* h := set_next replacement (n_next i) h in
  let* i := load h item in
  let* h := set_prev replacement (n_prev i) h in
  let* r := load h replacement in
  let* h := if negb (n_next r =? NULL) then set_prev (n_next r) replacement h else Ok h in
  let* p := load h parent in
  let* h :=
    if n_child p =? item then
      let* c := load h (n_child p) in
      let* h := if n_prev c =? n_child p then set_prev replacement replacement h else Ok h in
      set_child parent replacement h
    else
      let* r := load h replacement in
      let* h := if negb (n_prev r =? NULL) then set_next (n_prev r) replacement h else Ok h in
      let* r := load h replacement in
      if n_next r =? NULL then let* p := load h parent in set_prev (n_child p) replacement h else Ok h in
  let* h := set_next item NULL h in
  let* h := set_prev item NULL h in
  let* h := cJSON_Delete (S (size h)) item h in
  Ok (true, h).

Definition cJSON_ReplaceItemInArray (array which newitem : Z) (h : heap) : outcome (bool * heap) :=
  if which <? 0 then Ok (false, h) else
  let* item := get_array_item array (Z.to_nat which) h in
  cJSON_ReplaceItemViaPointer array item newitem h.

Definition replace_item_in_object (copied : bool) (object : Z) (string : option string) (replacement : Z)
    (case_sensitive : bool) (h : heap) : outcome (bool * heap) :=
  match string with
  | None => Ok (false, h)
  | Some key =>
      if replacement =? NULL then Ok (false, h) else
      let* n := load h replacement in
      let* h := store (put_name (if copied then Some key else None) (Z.ldiff (n_type n) cJSON_StringIsConst)) replacement h in
      let* item := get_object_item object (Some key) case_sensitive h in
      cJSON_ReplaceItemViaPointer object item replacement h
  end.

Definition cJSON_ReplaceItemInObject (copied : bool) (object : Z) (string : option string) (newitem : Z) (h : heap)
    : outcome (bool * heap) :=
  replace_item_in_object copied object string newitem false h.
Definition cJSON_ReplaceItemInObjectCaseSensitive (copied : bool) (object : Z) (string : option string)
    (newitem : Z) (h : heap) : outcome (bool * heap) :=
  replace_item_in_object copied object string newitem true h.

Definition cJSON_DeleteItemFromArray (array which : Z) (h : heap) : outcome heap :=
  let* '(item, h) := cJSON_DetachItemFromArray array which h in cJSON_Delete (S (size h)) item h.
Definition cJSON_DeleteItemFromObject (object : Z) (string : option string) (h : heap) : outcome heap :=
  let* '(item, h) := cJSON_DetachItemFromObject object string h in cJSON_Delete (S (size h)) item h.
Definition cJSON_DeleteItemFromObjectCaseSensitive (object : Z) (string : option string) (h : heap) : outcome heap :=
  let* '(item, h) := cJSON_DetachItemFromObjectCaseSensitive object string h in cJSON_Delete (S (size h)) item h.

(** ** Lists in the heap *)

Definition nextf (h : heap) (a : Z) : option Z := n_next <$> h !! a.
Definition prevf (h : heap) (a : Z) : option Z := n_prev <$> h !! a.
Definition childf (h : heap) (a : Z) : option Z := n_child <$> h !! a.
(** What a node holds besides its links to siblings and children. *)
Definition contents (h : heap) (a : Z) : option (Z * option string * Z * double * option string) :=
  (fun n => (n_type n, n_valuestring n, n_valueint n, n_valuedouble n, n_string n)) <$> h !! a.

Fixpoint next_chain (h : heap) (l : list Z) (nx : Z) : Prop :=
  match l with [] => True | x :: l => nextf h x = Some (hd nx l) /\ next_chain h l nx end.
Fixpoint prev_chain (h : heap) (pv : Z) (l : list Z) : Prop :=
  match l with [] => True | x :: l => prevf h x = Some pv /\ prev_chain h x l end.

(** [l] are the children of [p], in order. *)
Record children (h : heap) (p : Z) (l : list Z) : Prop := {
  ch_null : h !! NULL = None;
  ch_nodup : NoDup (p :: l);
  ch_child : childf h p = Some (hd NULL l);
  ch_next : next_chain h l NULL;
  ch_prev : prev_chain h (List.last l NULL) l
}.

(** Nodes outside [l] are as before. *)
Definition untouched (l : list Z) (h h' : heap) : Prop := forall y, y ∉ l -> h' !! y = h !! y.

(** *** Stores *)

Lemma load_some h a n : h !! a = Some n -> load h a = Ok n.
Proof. intros E. unfold load. by rewrite E. Qed.
Lemma store_some f a h : is_Some (h !! a) -> store f a h = Ok (alter f a h).
Proof. intros [n E]. unfold store. by rewrite (load_some h a n). Qed.

Lemma lookup_alter_some (f : node -> node) a (h : heap) y : is_Some (alter f a h !! y) <-> is_Some (h !! y).
Proof.
  destruct (decide (a = y)) as [->|Hne]; [rewrite lookup_alter_eq, fmap_is_Some; done | by rewrite lookup_alter_ne].
Qed.
Lemma lookup_alter_null (f : node -> node) a (h : heap) : h !! NULL = None -> alter f a h !! NULL = None.
Proof.
  intros E. destruct (decide (a = NULL)) as [->|Hne]; [by rewrite lookup_alter_eq, E | by rewrite lookup_alter_ne].
Qed.

Lemma nextf_some h a v : nextf h a = Some v -> is_Some (h !! a).
Proof. unfold nextf. intros E. apply (fmap_is_Some n_next). by eexists. Qed.
Lemma prevf_some h a v : prevf h a = Some v -> is_Some (h !! a).
Proof. unfold prevf. intros E. apply (fmap_is_Some n_prev). by eexists. Qed.
Lemma childf_some h a v : childf h a = Some v -> is_Some (h !! a).
Proof. unfold childf. intros E. apply (fmap_is_Some n_child). by eexists. Qed.

(** A field of an updated node. *)
Section Field.
Context {A : Type} (field : node -> A).
Lemma field_same (f : node -> node) a (h : heap) y : (forall n, field (f n) = field n) ->
  field <$> alter f a h !! y = field <$> h !! y.
Proof.
  intros Hf. destruct (decide (a = y)) as [->|Hne]; [|by rewrite lookup_alter_ne].
  rewrite lookup_alter_eq. destruct (h !! y); cbn; [by rewrite Hf|done].
Qed.
Lemma field_set (f : node -> node) v a (h : heap) : (forall n, field (f n) = v) -> is_Some (h !! a) ->
  field <$> alter f a h !! a = Some v.
Proof. intros Hf [n E]. rewrite lookup_alter_eq, E. cbn. by rewrite Hf. Qed.
End Field.

Lemma nextf_put_next v a h : is_Some (h !! a) -> nextf (alter (put_next v) a h) a = Some v.
Proof. by apply field_set. Qed.
Lemma prevf_put_prev v a h : is_Some (h !! a) -> prevf (alter (put_prev v) a h) a = Some v.
Proof. by apply field_set. Qed.
Lemma childf_put_child v a h : is_Some (h !! a) -> childf (alter (put_child v) a h) a = Some v.
Proof. by apply field_set. Qed.
Lemma nextf_put_next_ne v a y h : y <> a -> nextf (alter (put_next v) a h) y = nextf h y.
Proof. intros. unfold nextf. by rewrite lookup_alter_ne. Qed.
Lemma prevf_put_prev_ne v a y h : y <> a -> prevf (alter (put_prev v) a h) y = prevf h y.
Proof. intros. unfold prevf. by rewrite lookup_alter_ne. Qed.
Lemma childf_put_child_ne v a y h : y <> a -> childf (alter (put_child v) a h) y = childf h y.
Proof. intros. unfold childf. by rewrite lookup_alter_ne. Qed.
Lemma nextf_put_prev v a y h : nextf (alter (put_prev v) a h) y = nextf h y.
Proof. by apply field_same. Qed.
Lemma nextf_put_child v a y h : nextf (alter (put_child v) a h) y = nextf h y.
Proof. by apply field_same. Qed.
Lemma prevf_put_next v a y h : prevf (alter (put_next v) a h) y = prevf h y.
Proof. by apply field_same. Qed.
Lemma prevf_put_child v a y h : prevf (alter (put_child v) a h) y = prevf h y.
Proof. by apply field_same. Qed.
Lemma childf_put_next v a y h : childf (alter (put_next v) a h) y = childf h y.
Proof. by apply field_same. Qed.
Lemma childf_put_prev v a y h : childf (alter (put_prev v) a h) y = childf h y.
Proof. by apply field_same. Qed.
Lemma contents_put_next v a y h : contents (alter (put_next v) a h) y = contents h y.
Proof. by apply field_same. Qed.
Lemma contents_put_prev v a y h : contents (alter (put_prev v) a h) y = contents h y.
Proof. by apply field_same. Qed.
Lemma contents_put_child v a y h : contents (alter (put_child v) a h) y = contents h y.
Proof. by apply field_same. Qed.

Create HintDb fields.
#[export] Hint Rewrite nextf_put_prev nextf_put_child prevf_put_next prevf_put_child childf_put_next
  childf_put_prev contents_put_next contents_put_prev contents_put_child : fields.

(** [fld] evaluates the fields of an updated heap. *)
Ltac fld :=
  repeat first
    [ progress autorewrite with fields
    | rewrite nextf_put_next by (rewrite ?lookup_alter_some; done)
    | rewrite prevf_put_prev by (rewrite ?lookup_alter_some; done)
    | rewrite childf_put_child by (rewrite ?lookup_alter_some; done)
    | rewrite nextf_put_next_ne by done
    | rewrite prevf_put_prev_ne by done
    | rewrite childf_put_child_ne by done ].

(** *** Chains *)

Lemma next_chain_app h l1 l2 nx : next_chain h (l1 ++ l2) nx <-> next_chain h l1 (hd nx l2) /\ next_chain h l2 nx.
Proof.
  induction l1 as [|x l1 IH]; cbn; [tauto|]. rewrite IH. destruct l1; cbn; tauto.
Qed.
Lemma prev_chain_app h pv l1 l2 : prev_chain h pv (l1 ++ l2) <-> prev_chain h pv l1 /\ prev_chain h (List.last l1 pv) l2.
Proof.
  revert pv. induction l1 as [|x l1 IH]; intros pv; cbn; [tauto|]. rewrite IH.
  replace (List.last l1 x) with (match l1 with [] => x | _ :: _ => List.last l1 pv end); [tauto|].
  destruct l1 as [|y l1]; [done|]. clear IH. revert y. induction l1 as [|z l1 IH]; intros y; [done|]. apply IH.
Qed.
Lemma next_chain_ext h h' l nx : (forall y, y ∈ l -> nextf h' y = nextf h y) -> next_chain h l nx -> next_chain h' l nx.
Proof.
  induction l as [|x l IH]; [done|]. intros He [Hx Hl]. split; [rewrite He; [done|left]|].
  apply IH; [|done]. intros y Hy. apply He. by right.
Qed.
Lemma prev_chain_ext h h' pv l : (forall y, y ∈ l -> prevf h' y = prevf h y) -> prev_chain h pv l -> prev_chain h' pv l.
Proof.
  revert pv. induction l as [|x l IH]; [done|]. intros pv He [Hx Hl]. split; [rewrite He; [done|left]|].
  apply IH; [|done]. intros y Hy. apply He. by right.
Qed.
Lemma next_chain_some h l nx y : next_chain h l nx -> y ∈ l -> is_Some (h !! y).
Proof.
  induction l as [|x l IH]; [by intros _ ?%not_elem_of_nil|]. intros [Hx Hl] [->|Hy]%elem_of_cons; [by eapply nextf_some|auto].
Qed.
Lemma last_snoc (l : list Z) x d : List.last (l ++ [x]) d = x.
Proof. apply last_last. Qed.
Lemma last_app_cons (l1 l2 : list Z) x d : List.last (l1 ++ x :: l2) d = List.last (x :: l2) d.
Proof. induction l1 as [|y l1 IH]; [done|]. cbn [app]. rewrite <- IH. by destruct l1. Qed.
Lemma last_default (l : list Z) d d' : l <> [] -> List.last l d = List.last l d'.
Proof. intros Hl. destruct (exists_last Hl) as (l' & x & ->). by rewrite !last_snoc. Qed.
Lemma last_in (l : list Z) d : l <> [] -> List.last l d ∈ l.
Proof.
  intros Hl. destruct (exists_last Hl) as (l' & x & ->). rewrite last_snoc. apply elem_of_app. right. left.
Qed.

Section Children.
Context (h : gmap Z node) (p : Z) (l : list Z) (Hl : children h p l).

Lemma child_some y : y ∈ p :: l -> is_Some (h !! y).
Proof.
  intros [->|Hy]%elem_of_cons; [exact (childf_some _ _ _ (ch_child _ _ _ Hl)) | exact (next_chain_some _ _ _ y (ch_next _ _ _ Hl) Hy)].
Qed.
Lemma some_not_null y : is_Some (h !! y) -> y <> NULL.
Proof. intros [n E] ->. by rewrite (ch_null _ _ _ Hl) in E. Qed.
Lemma child_not_null y : y ∈ p :: l -> (y =? NULL) = false.
Proof. intros Hy. by apply Z.eqb_neq, some_not_null, child_some. Qed.
Lemma child_not_parent y : y ∈ l -> y <> p.
Proof. pose proof (ch_nodup _ _ _ Hl) as [Hp _]%NoDup_cons. intros Hy ->. done. Qed.
End Children.

(** A node that is loaded. *)
Lemma load_node h a : is_Some (h !! a) -> exists n, load h a = Ok n /\ nextf h a = Some (n_next n)
  /\ prevf h a = Some (n_prev n) /\ childf h a = Some (n_child n).
Proof. intros [n E]. exists n. unfold nextf, prevf, childf. rewrite (load_some h a n E), E. done. Qed.

(** The data of the nodes, and the children of all but [p], are as before. *)
Definition same_data (p : Z) (h h' : gmap Z node) : Prop :=
  forall y, contents h' y = contents h y /\ (y <> p -> childf h' y = childf h y).

Ltac alters := rewrite ?lookup_alter_some; auto.
Ltac same := intros y; (split; [by fld|]); intros ?; by fld.
Ltac loaded h a n :=
  let En := fresh "En" in let Ep := fresh "Ep" in let Ec := fresh "Ec" in let E := fresh "E" in
  destruct (load_node h a) as (n & E & En & Ep & Ec); [alters|]; rewrite E; clear E; cbn [obind].

Lemma add_first h p x : children h p [] -> x <> p -> is_Some (h !! x) ->
  exists h', add_item_to_array p x h = Ok (true, h') /\ children h' p [x]
    /\ untouched [p; x] h h' /\ same_data p h h'.
Proof.
  intros Hl Hx Hs. pose proof (child_some h p [] Hl p ltac:(left)) as Hp.
  unfold add_item_to_array. rewrite (proj2 (Z.eqb_neq x NULL)), (child_not_null h p [] Hl p), (proj2 (Z.eqb_neq p x))
    by (done || left || by apply (some_not_null h p [])). cbn [orb].
  loaded h p a. rewrite (ch_child _ _ _ Hl) in Ec. injection Ec as <-. cbn [hd Z.eqb NULL].
  unfold set_child, set_prev, set_next. rewrite !store_some by alters. cbn [obind]. rewrite !store_some by alters. cbn [obind].
  rewrite !store_some by alters. cbn [obind].
  eexists. split; [done|]. split; [|split; [|same]].
  - split; [by repeat apply lookup_alter_null; apply (ch_null _ _ _ Hl) | |..].
    + apply NoDup_cons. split; [|apply NoDup_singleton]. by rewrite list_elem_of_singleton.
    + by fld.
    + split; [|done]. fld; alters.
    + split; [|done]. fld; alters.
  - intros y Hy. rewrite !elem_of_cons in Hy. rewrite !lookup_alter_ne by naive_solver. done.
Qed.

(** The first and the last child of a list that is not empty. *)
Lemma children_ends h p a l : children h p (a :: l) ->
  childf h p = Some a /\ prevf h a = Some (List.last (a :: l) NULL)
  /\ nextf h (List.last (a :: l) NULL) = Some NULL /\ prev_chain h a l /\ next_chain h (a :: l) NULL.
Proof.
  intros Hl. split; [exact (ch_child _ _ _ Hl)|]. pose proof (ch_prev _ _ _ Hl) as [Ha Hr]. split; [done|].
  pose proof (ch_next _ _ _ Hl) as Hn. split; [|done]. destruct (exists_last (l:=a :: l)) as (l0 & t & E); [done|].
  rewrite E in *. rewrite last_snoc. apply next_chain_app in Hn as [_ [Ht _]]. done.
Qed.

Lemma not_in_cons (x y : Z) l : x ∉ y :: l -> x <> y /\ x ∉ l.
Proof. rewrite not_elem_of_cons. done. Qed.

(** Chains whose end or start is redirected. *)
Lemma next_retarget h h' l v nx : NoDup l -> next_chain h l nx ->
  (forall y, y ∈ l -> y <> List.last l NULL -> nextf h' y = nextf h y) ->
  (l <> [] -> nextf h' (List.last l NULL) = Some v) -> next_chain h' l v.
Proof.
  intros Hnd Hn Hsame Hend. destruct l as [|a l]; [done|]. destruct (exists_last (l:=a :: l)) as (l0 & t & E); [done|].
  rewrite E in *. clear E. rewrite last_snoc in *. apply next_chain_app in Hn as [Hn _]. apply next_chain_app.
  apply NoDup_app in Hnd as (_ & Hd & _). split.
  - apply (next_chain_ext h); [|done]. intros y Hy. apply Hsame; [apply elem_of_app; by left|].
    intros ->. apply (Hd t Hy). left.
  - split; [|done]. apply Hend. by destruct l0.
Qed.
Lemma prev_retarget h h' l v pv : NoDup l -> prev_chain h pv l ->
  (forall y, y ∈ l -> y <> hd NULL l -> prevf h' y = prevf h y) ->
  (l <> [] -> prevf h' (hd NULL l) = Some v) -> prev_chain h' v l.
Proof.
  intros Hnd Hp Hsame Hend. destruct l as [|a l]; [done|]. apply NoDup_cons in Hnd as [Ha _]. destruct Hp as [_ Hp].
  split; [by apply Hend|]. apply (prev_chain_ext h); [|done]. intros y Hy.
  apply Hsame; [by right|]. by intros ->.
Qed.

(** A middle part [o] is replaced by [m]: it is enough that the ends of the outer
    parts are redirected and that [m] is linked. *)
Lemma relink h h' p l1 o m l2 : children h p (l1 ++ o ++ l2) ->
  let l' := l1 ++ m ++ l2 in
  h' !! NULL = None -> NoDup (p :: l') -> childf h' p = Some (hd NULL l') ->
  (forall y, y ∈ l1 -> y <> List.last l1 NULL -> nextf h' y = nextf h y) ->
  (l1 <> [] -> nextf h' (List.last l1 NULL) = Some (hd NULL (m ++ l2))) ->
  next_chain h' m (hd NULL l2) ->
  (forall y, y ∈ l2 -> nextf h' y = nextf h y) ->
  (forall y, y ∈ l1 -> y <> hd NULL l1 -> prevf h' y = prevf h y) ->
  (l1 <> [] -> prevf h' (hd NULL l1) = Some (List.last l' NULL)) ->
  prev_chain h' (List.last l1 (List.last l' NULL)) m ->
  (forall y, y ∈ l2 -> y <> hd NULL l2 -> prevf h' y = prevf h y) ->
  (l2 <> [] -> prevf h' (hd NULL l2) = Some (List.last (l1 ++ m) (List.last l' NULL))) ->
  children h' p l'.
Proof.
  intros Hl l' H0 Hnd Hc N1 N1' Nm N2 P1 P1' Pm P2 P2'.
  pose proof (ch_next _ _ _ Hl) as [Hn1 [_ Hn2]%next_chain_app]%next_chain_app.
  pose proof (ch_prev _ _ _ Hl) as [Hp1 [_ Hp2]%prev_chain_app]%prev_chain_app.
  pose proof Hnd as [_ Hnd']%NoDup_cons. apply NoDup_app in Hnd' as (D1 & _ & [_ [_ D2]]%NoDup_app).
  split; [done..| |].
  - apply next_chain_app. split; [by eapply next_retarget|]. apply next_chain_app. split; [done|by eapply next_chain_ext].
  - apply prev_chain_app. split; [by eapply prev_retarget|]. apply prev_chain_app. split; [done|].
    eapply prev_retarget; [done..|]. intros Hne. rewrite P2' by done. f_equal.
    destruct m as [|b m]; [by rewrite app_nil_r|]. rewrite last_app_cons. by apply last_default.
Qed.

Lemma add_next h p a l x : children h p (a :: l) -> x ∉ p :: a :: l -> nextf h x = Some NULL ->
  exists h', add_item_to_array p x h = Ok (true, h') /\ children h' p ((a :: l) ++ [x])
    /\ untouched (p :: (a :: l) ++ [x]) h h' /\ same_data p h h'.
Proof.
  intros Hl Hx Hnx. pose proof (nextf_some _ _ _ Hnx) as Hs. destruct (not_in_cons _ _ _ Hx) as [Hxp Hxl].
  pose proof (child_some _ _ _ Hl) as Hsome. destruct (children_ends h p a l Hl) as (Hc & Ha & _).
  set (t := List.last (a :: l) NULL) in *. assert (t ∈ a :: l) as Hti by (by apply last_in).
  assert (x <> t) by (intros ->; done). assert (x <> a) by (intros ->; apply Hxl; left).
  assert (is_Some (h !! p)) by (apply Hsome; left). assert (is_Some (h !! a)) by (apply Hsome; right; left).
  assert (is_Some (h !! t)) by (apply Hsome; by right).
  unfold add_item_to_array. rewrite (proj2 (Z.eqb_neq x NULL)), (child_not_null _ _ _ Hl p), (proj2 (Z.eqb_neq p x))
    by (done || left || by apply (some_not_null _ _ _ Hl)). cbn [orb].
  loaded h p n. rewrite Hc in Ec. injection Ec as <-. rewrite (child_not_null _ _ _ Hl a) by (right; left).
  loaded h a c. rewrite Ha in Ep0. injection Ep0 as <-. rewrite (child_not_null _ _ _ Hl t) by (by right). cbn [negb obind].
  unfold suffix_object, set_next, set_prev. rewrite (store_some _ t) by done. cbn [obind].
  rewrite (store_some _ x) by alters. cbn [obind]. loaded (alter (put_prev t) x (alter (put_next x) t h)) p n'.
  revert Ec0. fld. rewrite Hc. intros [= <-]. rewrite (store_some _ a) by alters. cbn [obind].
  eexists. split; [done|]. split; [|split; [|same]].
  - eapply (relink h _ p (a :: l) [] [x] []); [by rewrite app_nil_r|..]; cbn [app hd]; rewrite ?app_nil_r.
    + by repeat apply lookup_alter_null; apply (ch_null _ _ _ Hl).
    + change (NoDup ((p :: a :: l) ++ [x])). apply NoDup_app. split; [by eapply ch_nodup|].
      split; [|apply NoDup_singleton]. intros y Hy ->%list_elem_of_singleton. done.
    + by fld.
    + intros y Hy Hne. by fld.
    + intros _. by fld.
    + split; [|done]. cbn [hd]. by fld.
    + by intros y ?%not_elem_of_nil.
    + intros y Hy Hne. assert (y <> x) by (by intros ->). by fld.
    + intros _. change (a :: l ++ [x]) with ((a :: l) ++ [x]). rewrite last_snoc. fld; alters.
    + split; [|done]. rewrite (last_default _ _ NULL) by done. fold t. fld; alters.
    + by intros y ?%not_elem_of_nil.
    + done.
  - intros y Hy. apply not_in_cons in Hy as [Hyp Hy]. rewrite not_elem_of_app, list_elem_of_singleton in Hy. destruct Hy as [Hy1 Hy2].
    rewrite !lookup_alter_ne; [done|intros <-; done|intros <-; done|intros <-; apply Hy1; left].
Qed.

(** The links of a child. *)
Lemma member h p l1 x l2 : children h p (l1 ++ x :: l2) ->
  nextf h x = Some (hd NULL l2) /\ prevf h x = Some (List.last l1 (List.last (x :: l2) NULL))
  /\ childf h p = Some (hd x l1) /\ x <> p /\ x ∉ l1 /\ x ∉ l2 /\ p ∉ l1 /\ p ∉ l2 /\ NoDup (l1 ++ l2).
Proof.
  intros Hl. pose proof (ch_next _ _ _ Hl) as [_ [Hn _]]%next_chain_app.
  pose proof (ch_prev _ _ _ Hl) as [_ [Hp _]]%prev_chain_app. rewrite last_app_cons in Hp.
  pose proof (ch_child _ _ _ Hl) as Hc. pose proof (ch_nodup _ _ _ Hl) as [Hpn Hnd]%NoDup_cons.
  rewrite not_elem_of_app, not_elem_of_cons in Hpn. destruct Hpn as (? & ? & ?).
  split; [done|]. split; [done|]. split; [by destruct l1|]. split; [done|].
  rewrite <- Permutation_middle in Hnd. apply NoDup_cons in Hnd as [Hx Hnd]. rewrite not_elem_of_app in Hx. tauto.
Qed.

Lemma front_prev h p l m : children h p (l ++ m) -> l <> [] -> prevf h (hd NULL l) = Some (List.last (l ++ m) NULL).
Proof. intros Hl Hd. destruct l as [|a l]; [done|]. by destruct (ch_prev _ _ _ Hl). Qed.
Lemma hd_in (l : list Z) : l <> [] -> hd NULL l ∈ l.
Proof. destruct l; [done|]. intros _. left. Qed.

(** ** Access and append on lists *)

Lemma nth_child_spec h p l1 l2 i : children h p (l1 ++ l2) ->
  nth_child i h (hd NULL l2) = Ok (default NULL (l2 !! i)).
Proof.
  revert l1 l2. induction i as [|i IH]; intros l1 l2 Hl; [by destruct l2|]. cbn [nth_child].
  destruct l2 as [|x l2]; [done|]. cbn [hd lookup list_lookup].
  rewrite (child_not_null _ _ _ Hl x) by (right; apply elem_of_app; right; left).
  destruct (member _ _ _ _ _ Hl) as (Hn & _). pose proof (nextf_some _ _ _ Hn).
  loaded h x c. rewrite Hn in En. injection En as <-. apply (IH (l1 ++ [x])). by rewrite <- app_assoc.
Qed.
Lemma get_array_item_spec h p l i : children h p l -> get_array_item p i h = Ok (default NULL (l !! i)).
Proof.
  intros Hl. unfold get_array_item. rewrite (child_not_null _ _ _ Hl p) by left.
  pose proof (child_some _ _ _ Hl p ltac:(left)). loaded h p a. rewrite (ch_child _ _ _ Hl) in Ec. injection Ec as <-.
  by apply (nth_child_spec h p [] l).
Qed.

Lemma children_size h p l : children h p l -> (length l < size h)%nat.
Proof.
  intros Hl. pose proof (ch_nodup _ _ _ Hl) as Hnd.
  assert (list_to_set (p :: l) ⊆ dom h) as Hsub.
  { intros y Hy%elem_of_list_to_set. apply elem_of_dom. by apply (child_some _ _ _ Hl). }
  apply subseteq_size in Hsub. rewrite size_list_to_set, size_dom in Hsub by done. cbn in Hsub. lia.
Qed.
Lemma count_children_spec h p l1 l2 n fuel : children h p (l1 ++ l2) -> (length l2 < fuel)%nat ->
  count_children fuel h (hd NULL l2) n = Ok (n + Z.of_nat (length l2)).
Proof.
  revert l1 l2 n. induction fuel as [|fuel IH]; intros l1 l2 n Hl Hf; [lia|]. cbn [count_children].
  destruct l2 as [|x l2]; [cbn; f_equal; lia|]. cbn [hd].
  rewrite (child_not_null _ _ _ Hl x) by (right; apply elem_of_app; right; left).
  destruct (member _ _ _ _ _ Hl) as (Hn & _). pose proof (nextf_some _ _ _ Hn).
  loaded h x c. rewrite Hn in En. injection En as <-. cbn in Hf. rewrite (IH (l1 ++ [x]) l2);
    [cbn [length]; f_equal; lia | by rewrite <- app_assoc | lia].
Qed.

Lemma add_spec h p l x : children h p l -> x ∉ p :: l -> nextf h x = Some NULL ->
  exists h', add_item_to_array p x h = Ok (true, h') /\ children h' p (l ++ [x])
    /\ untouched (p :: l ++ [x]) h h' /\ same_data p h h'.
Proof.
  intros Hl Hx Hn. destruct l as [|a l]; [|by apply add_next].
  apply not_in_cons in Hx as [? _]. apply add_first; [done..|by eapply nextf_some].
Qed.

(** ** Detach *)

(** [present H] names the links of a node that is there, [eval_heap] evaluates the
    loads and stores of a function at such nodes. *)
Lemma fields_of h a : is_Some (h !! a) ->
  exists nx pv ch, nextf h a = Some nx /\ prevf h a = Some pv /\ childf h a = Some ch.
Proof. intros [n E]. exists (n_next n), (n_prev n), (n_child n). unfold nextf, prevf, childf. by rewrite E. Qed.
Lemma load_as h a nx pv ch : nextf h a = Some nx -> prevf h a = Some pv -> childf h a = Some ch ->
  exists t v i d s, load h a = Ok (Node nx pv ch t v i d s).
Proof.
  unfold nextf, prevf, childf, load. destruct (h !! a) as [[]|]; [|done]. cbn. intros [= ->] [= ->] [= ->]. by eexists _, _, _, _, _.
Qed.
Ltac known := repeat match goal with
  | E : nextf ?h ?a = Some _, E' : nextf ?h ?a = Some _ |- _ => rewrite E in E'; injection E' as E'; subst
  | E : prevf ?h ?a = Some _, E' : prevf ?h ?a = Some _ |- _ => rewrite E in E'; injection E' as E'; subst
  | E : childf ?h ?a = Some _, E' : childf ?h ?a = Some _ |- _ => rewrite E in E'; injection E' as E'; subst end.
Ltac present H :=
  let nx := fresh "nx" in let pv := fresh "pv" in let ch := fresh "ch" in
  destruct (fields_of _ _ H) as (nx & pv & ch & ? & ? & ?); known.
Ltac eval_load :=
  match goal with |- context[load ?h ?a] =>
    let E := fresh in edestruct (load_as h a) as (? & ? & ? & ? & ? & E);
      [fld; (eassumption || reflexivity) ..|];
      rewrite E; clear E; cbn [obind n_next n_prev n_child hd] end.
Ltac stored := match goal with |- context[store ?f ?a ?h] => rewrite (store_some f a h) by alters; cbn [obind] end.
Ltac tested := repeat match goal with
  | E : (?a =? NULL) = _ |- context[?a =? NULL] => rewrite E
  | |- context[NULL =? NULL] => change (NULL =? NULL) with true
  | |- context[?a =? ?a] => rewrite (Z.eqb_refl a)
  | H : ?a <> ?b |- context[?a =? ?b] => rewrite (proj2 (Z.eqb_neq a b) H)
  | H : ?b <> ?a |- context[?a =? ?b] => rewrite (proj2 (Z.eqb_neq a b) (not_eq_sym H)) end;
  cbn [negb orb andb obind].
Ltac eval_heap := unfold set_next, set_prev, set_child; repeat (tested; (stored || eval_load)); tested.

(** The effect of taking [x] out from between [l1] and [l2]. *)
Definition taken_out (h : gmap Z node) (p : Z) (l1 : list Z) (x : Z) (l2 : list Z) : gmap Z node :=
  let h := match l1 with [] => h | _ => alter (put_next (hd NULL l2)) (List.last l1 NULL) h end in
  let h := match l2 with [] => h | b :: _ => alter (put_prev (List.last l1 (List.last (x :: l2) NULL))) b h end in
  let h := match l1, l2 with [], _ => alter (put_child (hd NULL l2)) p h
           | a :: _, [] => alter (put_prev (List.last l1 NULL)) a h | _, _ => h end in
  alter (put_next NULL) x (alter (put_prev NULL) x h).

Lemma detach_run h p l1 x l2 : children h p (l1 ++ x :: l2) ->
  cJSON_DetachItemViaPointer p x h = Ok (x, taken_out h p l1 x l2).
Proof.
  intros Hl. pose proof (child_some _ _ _ Hl) as Hs. pose proof (child_not_null _ _ _ Hl) as H0.
  destruct (member _ _ _ _ _ Hl) as (Hn & Hp & Hc & Hxp & H1 & H2 & Hp1 & Hp2 & Hnd).
  assert (is_Some (h !! p)) as Sp by (apply Hs; left). present Sp. assert ((p =? NULL) = false) by (apply H0; left).
  assert (x ∈ p :: l1 ++ x :: l2) as Hx by (right; apply elem_of_app; right; left).
  pose proof (Hs x Hx) as Sx. present Sx. pose proof (H0 x Hx).
  unfold cJSON_DetachItemViaPointer, taken_out. destruct l1 as [|a l1], l2 as [|b l2]; cbn [hd] in *.
  - by eval_heap.
  - assert (b ∈ p :: [] ++ x :: b :: l2) as Hb by (right; right; left).
    pose proof (Hs b Hb) as Sb. present Sb. pose proof (H0 b Hb). assert (b <> x) by (intros ->; apply H2; left).
    by eval_heap.
  - rewrite (last_default _ _ NULL) in * by done. set (t := List.last (a :: l1) NULL) in *.
    assert (t ∈ a :: l1) as Ht by (by apply last_in). assert (is_Some (h !! t)) by (apply Hs; right; apply elem_of_app; by left).
    assert (is_Some (h !! a)) by (apply Hs; right; left).
    assert (x <> t) by (by intros ->). assert (p <> t) by (by intros ->).
    assert (x <> a) by (intros ->; apply H1; left). by eval_heap.
  - rewrite (last_default (a :: l1) (List.last (x :: b :: l2) NULL) NULL) in * by done. set (t := List.last (a :: l1) NULL) in *.
    assert (t ∈ a :: l1) as Ht by (by apply last_in). assert (is_Some (h !! t)) by (apply Hs; right; apply elem_of_app; by left).
    assert (b ∈ p :: (a :: l1) ++ x :: b :: l2) as Hb by (right; apply elem_of_app; right; right; left).
    pose proof (Hs b Hb). pose proof (H0 b Hb). assert (b <> x) by (intros ->; apply H2; left).
    assert (x <> t) by (by intros ->). assert (p <> t) by (by intros ->).
    assert (x <> a) by (intros ->; apply H1; left). by eval_heap.
Qed.

(** The links after it. *)
Section TakenOut.
Context (h : gmap Z node) (p : Z) (l1 : list Z) (x : Z) (l2 : list Z) (Hl : children h p (l1 ++ x :: l2)).

Lemma part_some y : y ∈ l1 \/ y = x \/ y ∈ l2 -> is_Some (h !! y).
Proof. intros Hy. apply (child_some _ _ _ Hl). right. rewrite elem_of_app, elem_of_cons. naive_solver. Qed.
Lemma front_some : l1 <> [] -> is_Some (h !! List.last l1 NULL).
Proof. intros. apply part_some. left. by apply last_in. Qed.

Lemma taken_next y : nextf (taken_out h p l1 x l2) y =
  if decide (y = x) then Some NULL else
  if decide (l1 <> [] /\ y = List.last l1 NULL) then Some (hd NULL l2) else nextf h y.
Proof.
  pose proof (part_some x ltac:(auto)) as Sx. pose proof front_some as St. unfold taken_out. case_decide as Hy; [subst y|].
  - rewrite nextf_put_next; [done|]. destruct l1, l2; by alters.
  - rewrite nextf_put_next_ne by done. case_decide as Ht; [destruct Ht as [Hne ->]|]; destruct l1 as [|a l1'], l2 as [|b l2'];
      autorewrite with fields; try done; try (rewrite nextf_put_next by auto; done); apply nextf_put_next_ne; intros ->; by apply Ht.
Qed.
Lemma taken_prev y : prevf (taken_out h p l1 x l2) y =
  if decide (y = x) then Some NULL else
  if decide (l2 <> [] /\ y = hd NULL l2) then Some (List.last l1 (List.last (x :: l2) NULL)) else
  if decide (l2 = [] /\ l1 <> [] /\ y = hd NULL l1) then Some (List.last l1 NULL) else prevf h y.
Proof.
  pose proof part_some as Sx. unfold taken_out. case_decide as Hy; [subst y|].
  - rewrite prevf_put_next, prevf_put_prev; [done|]. pose proof (Sx x ltac:(auto)). destruct l1, l2; by alters.
  - rewrite prevf_put_next, prevf_put_prev_ne by done. destruct l1 as [|a l1'], l2 as [|b l2']; repeat case_decide; destruct_and?; try done;
      autorewrite with fields; simplify_eq; try done.
    all: cbn [hd] in *; try (rewrite prevf_put_prev; [done|alters; apply Sx; set_solver]).
    all: rewrite prevf_put_prev_ne; [by autorewrite with fields|]; intros ->; naive_solver.
Qed.
Lemma taken_child y : childf (taken_out h p l1 x l2) y =
  if decide (l1 = [] /\ y = p) then Some (hd NULL l2) else childf h y.
Proof.
  pose proof (child_some _ _ _ Hl p ltac:(left)) as Sp. unfold taken_out. rewrite childf_put_next, childf_put_prev.
  case_decide as Hy; destruct l1 as [|a l1'], l2 as [|b l2']; destruct_and?; try done; simplify_eq; autorewrite with fields;
    try done; first [rewrite childf_put_child; [done|by alters] | rewrite childf_put_child_ne; [by autorewrite with fields|naive_solver]].
Qed.

Lemma taken_untouched : untouched (p :: l1 ++ x :: l2) h (taken_out h p l1 x l2).
Proof.
  intros y Hy. rewrite not_elem_of_cons, not_elem_of_app, not_elem_of_cons in Hy. destruct Hy as (Hyp & Hy1 & Hyx & Hy2).
  unfold taken_out. rewrite !(lookup_alter_ne _ _ x) by done.
  pose proof (last_in l1 NULL) as Ht. destruct l1 as [|a l1'], l2 as [|b l2']; rewrite !lookup_alter_ne; try done; intros <-.
  all: try (by apply Hy1, Ht). all: try (apply Hy1; left). all: apply Hy2; left.
Qed.
Lemma taken_null : taken_out h p l1 x l2 !! NULL = None.
Proof.
  pose proof (ch_null _ _ _ Hl). unfold taken_out. destruct l1, l2; by repeat apply lookup_alter_null.
Qed.
Lemma taken_contents y : contents (taken_out h p l1 x l2) y = contents h y.
Proof. unfold taken_out. destruct l1, l2; by autorewrite with fields. Qed.
End TakenOut.

Lemma taken_out_children h p l1 x l2 : children h p (l1 ++ x :: l2) -> children (taken_out h p l1 x l2) p (l1 ++ l2).
Proof.
  intros Hl. destruct (member _ _ _ _ _ Hl) as (Hn & Hp & Hc & Hxp & H1 & H2 & Hp1 & Hp2 & Hnd).
  pose proof Hnd as (D1 & D12 & D2)%NoDup_app.
  apply (relink h _ p l1 [x] [] l2); [done|by apply taken_null|..];
    try (intros y Hy); try (intros Hd); rewrite ?(taken_next _ _ _ _ _ Hl), ?(taken_prev _ _ _ _ _ Hl), ?(taken_child _ _ _ _ _ Hl); cbn [app].
  - apply NoDup_cons. split; [|done]. by rewrite not_elem_of_app.
  - case_decide as E; [destruct E as [-> _]; done|]. rewrite Hc. destruct l1; [naive_solver|done].
  - rewrite !decide_False; [done|naive_solver|by intros ->].
  - rewrite decide_False, decide_True; [done|done|]. intros E. apply H1. rewrite <- E. by apply last_in.
  - done.
  - rewrite !decide_False; [done| |by intros ->]. intros [Hne ->]. apply (D12 (List.last l1 NULL)); [by apply last_in|done].
  - rewrite !decide_False; [done|naive_solver| |by intros ->]. intros [Hne ->]. apply (D12 (hd NULL l2)); [done|by apply hd_in].
  - rewrite !(decide_False (P:=_ = x)) by (intros <-; by apply H1, hd_in).
    rewrite decide_False by (intros [Hne E]; apply (D12 (hd NULL l1)); [by apply hd_in|rewrite E; by apply hd_in]).
    case_decide as E; [destruct E as [-> _]; by rewrite app_nil_r|].
    destruct l2 as [|b l2]; [naive_solver|]. rewrite (front_prev _ _ _ _ Hl) by done. by rewrite !last_app_cons.
  - done.
  - rewrite !decide_False; [done|intros [-> _]; by apply not_elem_of_nil in Hy|naive_solver|by intros ->].
  - rewrite decide_False, decide_True; [|done|intros E; apply H2; rewrite <- E; by apply hd_in].
    rewrite app_nil_r. destruct l2 as [|b l2]; [done|]. by rewrite last_app_cons.
Qed.

Lemma taken_out_spec h p l1 x l2 : children h p (l1 ++ x :: l2) -> let h' := taken_out h p l1 x l2 in
  children h' p (l1 ++ l2) /\ nextf h' x = Some NULL /\ prevf h' x = Some NULL
  /\ untouched (p :: l1 ++ x :: l2) h h' /\ same_data p h h'.
Proof.
  intros Hl h'. split; [by apply taken_out_children|]. unfold h'. rewrite taken_next, taken_prev, !decide_True by done.
  repeat (split; [done|]). split; [by apply taken_untouched|]. intros y.
  split; [by apply taken_contents|]. intros Hy. rewrite taken_child, decide_False by naive_solver. done.
Qed.

(** ** Insert *)

Definition put_in (h : gmap Z node) (p : Z) (l1 : list Z) (x y : Z) (l2 : list Z) : gmap Z node :=
  let h := alter (put_prev x) y (alter (put_prev (List.last l1 (List.last (y :: l2) NULL))) x (alter (put_next y) x h)) in
  match l1 with [] => alter (put_child x) p h | _ => alter (put_next x) (List.last l1 NULL) h end.

Lemma insert_run h p l1 y l2 x : children h p (l1 ++ y :: l2) -> x ∉ p :: l1 ++ y :: l2 -> is_Some (h !! x) ->
  cJSON_InsertItemInArray p (Z.of_nat (length l1)) x h = Ok (true, put_in h p l1 x y l2).
Proof.
  intros Hl Hx Sx. destruct (member _ _ _ _ _ Hl) as (Hn & Hp & Hc & Hyp & H1 & H2 & Hp1 & Hp2 & Hnd).
  rewrite not_elem_of_cons, not_elem_of_app, not_elem_of_cons in Hx. destruct Hx as (Hxp & Hx1 & Hxy & Hx2).
  pose proof (child_some _ _ _ Hl p ltac:(left)) as Sp. present Sp. pose proof (nextf_some _ _ _ Hn) as Sy. present Sy. present Sx.
  assert ((y =? NULL) = false) by (by apply Z.eqb_neq, (some_not_null _ _ _ Hl)).
  unfold cJSON_InsertItemInArray, put_in. rewrite (proj2 (Z.ltb_ge _ 0)) by lia.
  rewrite Nat2Z.id, (get_array_item_spec _ _ _ _ Hl), list_lookup_middle by done. cbn [obind default id]. destruct l1 as [|a l1]; cbn [hd] in *.
  - by eval_heap.
  - rewrite (last_default (a :: l1) (List.last (y :: l2) NULL) NULL) in * by done. set (t := List.last (a :: l1) NULL) in *.
    assert (t ∈ a :: l1) as Ht by (by apply last_in). assert (y <> a) by (intros ->; apply H1; left).
    assert (is_Some (h !! t)) by (apply (child_some _ _ _ Hl); right; apply elem_of_app; by left).
    by eval_heap.
Qed.

Section PutIn.
Context (h : gmap Z node) (p : Z) (l1 : list Z) (x y : Z) (l2 : list Z).
Context (Hl : children h p (l1 ++ y :: l2)) (Hx : x ∉ p :: l1 ++ y :: l2) (Sx : is_Some (h !! x)).

Lemma put_next_at z : nextf (put_in h p l1 x y l2) z =
  if decide (l1 <> [] /\ z = List.last l1 NULL) then Some x else
  if decide (z = x) then Some y else nextf h z.
Proof.
  pose proof (front_some _ _ _ _ _ Hl) as St. unfold put_in. destruct l1 as [|a l1']; repeat case_decide; destruct_and?; try done; subst;
    autorewrite with fields; first [rewrite nextf_put_next; [done|by alters; apply St] | rewrite nextf_put_next_ne by naive_solver | idtac];
    autorewrite with fields; by fld.
Qed.
Lemma put_prev_at z : prevf (put_in h p l1 x y l2) z =
  if decide (z = y) then Some x else
  if decide (z = x) then Some (List.last l1 (List.last (y :: l2) NULL)) else prevf h z.
Proof.
  pose proof (part_some _ _ _ _ _ Hl y ltac:(auto)) as Sy. unfold put_in. destruct l1 as [|a l1']; repeat case_decide; subst; by fld; alters.
Qed.
Lemma put_child_at z : childf (put_in h p l1 x y l2) z = if decide (l1 = [] /\ z = p) then Some x else childf h z.
Proof.
  pose proof (child_some _ _ _ Hl p ltac:(left)) as Sp. unfold put_in. destruct l1 as [|a l1']; case_decide; destruct_and?; try done; subst;
    first [rewrite childf_put_child; [done|by alters] | rewrite childf_put_child_ne by naive_solver | idtac]; by autorewrite with fields.
Qed.
Lemma put_in_untouched : untouched (p :: l1 ++ x :: y :: l2) h (put_in h p l1 x y l2).
Proof.
  intros z Hz. rewrite not_elem_of_cons, not_elem_of_app, !not_elem_of_cons in Hz. destruct Hz as (Hzp & Hz1 & Hzx & Hzy & Hz2).
  unfold put_in. pose proof (last_in l1 NULL) as Ht. destruct l1 as [|a l1']; rewrite !lookup_alter_ne; try done; intros <-. by apply Hz1, Ht.
Qed.
Lemma put_in_contents z : contents (put_in h p l1 x y l2) z = contents h z.
Proof. unfold put_in. destruct l1; by autorewrite with fields. Qed.

Lemma put_in_children : children (put_in h p l1 x y l2) p (l1 ++ x :: y :: l2).
Proof.
  destruct (member _ _ _ _ _ Hl) as (Hn & Hp & Hc & Hyp & H1 & H2 & Hp1 & Hp2 & Hnd).
  pose proof Hnd as (D1 & D12 & D2)%NoDup_app. pose proof (ch_nodup _ _ _ Hl) as [Hpl Hnd']%NoDup_cons.
  pose proof Hx as [Hxp (Hx1 & [Hxy Hx2]%not_elem_of_cons)%not_elem_of_app]%not_elem_of_cons.
  apply (relink h _ p l1 [] [x] (y :: l2)); [done|..];
    try (intros z Hz); try (intros Hd); rewrite ?put_next_at, ?put_prev_at, ?put_child_at; cbn [app].
  - pose proof (ch_null _ _ _ Hl). unfold put_in. destruct l1; by repeat apply lookup_alter_null.
  - apply NoDup_cons. split; [set_solver|]. rewrite <- Permutation_middle. apply NoDup_cons. set_solver.
  - case_decide as E; [destruct E as [-> _]; done|]. rewrite Hc. destruct l1; [naive_solver|done].
  - rewrite !decide_False; [done|by intros ->|naive_solver].
  - by rewrite decide_True.
  - split; [|done]. rewrite put_next_at, decide_False, decide_True; [done|done|]. intros [? ->]. by apply Hx1, last_in.
  - rewrite !decide_False; [done|set_solver|]. intros [? ->]. apply elem_of_cons in Hz as [E|Hz].
    + apply H1. rewrite <- E. by apply last_in.
    + by apply (D12 (List.last l1 NULL)); [apply last_in|].
  - rewrite !decide_False; [done|by intros ->|by intros ->].
  - rewrite !decide_False; [|intros <-; by apply Hx1, hd_in|intros <-; by apply H1, hd_in].
    rewrite (front_prev _ _ _ _ Hl) by done. by rewrite !last_app_cons.
  - split; [|done]. rewrite put_prev_at, decide_False, decide_True by done. by rewrite last_app_cons.
  - cbn [hd] in Hd. rewrite !decide_False; [done|set_solver|done].
  - rewrite decide_True by done. by rewrite last_snoc.
Qed.
End PutIn.

(** ** Delete *)

(** The children a node owns, and the nodes [cJSON_Delete] is to free: those of a
    list of siblings with all they own. *)
Definition owned_child (n : node) : Z := if has_flag (n_type n) cJSON_IsReference then NULL else n_child n.
Inductive forest (h : gmap Z node) : Z -> list Z -> Prop :=
  | forest_nil : forest h NULL []
  | forest_node a n own rest : a <> NULL -> h !! a = Some n -> forest h (owned_child n) own ->
      forest h (n_next n) rest -> forest h a (a :: own ++ rest).
(** The nodes below [x]. *)
Definition below (h : gmap Z node) (x : Z) (own : list Z) : Prop :=
  exists n, h !! x = Some n /\ forest h (owned_child n) own.
(** The heap without the nodes of [l]. *)
Definition freed (l : list Z) (h : gmap Z node) : gmap Z node := foldr delete h l.

Lemma lookup_freed l h y : freed l h !! y = if decide (y ∈ l) then None else h !! y.
Proof.
  unfold freed. induction l as [|a l IH]; cbn [foldr]; [by rewrite decide_False by apply not_elem_of_nil|].
  rewrite lookup_delete. repeat case_decide; subst; try done; set_solver.
Qed.
Lemma freed_ne l h y : y ∉ l -> freed l h !! y = h !! y.
Proof. intros. by rewrite lookup_freed, decide_False. Qed.
Lemma freed_app l1 l2 h : freed l2 (freed l1 h) = freed (l1 ++ l2) h.
Proof. apply map_eq. intros y. rewrite !lookup_freed. repeat case_decide; try done; set_solver. Qed.
Lemma forest_ext h h' a l : forest h a l -> (forall y, y ∈ l -> h' !! y = h !! y) -> forest h' a l.
Proof.
  induction 1 as [|a n own rest H0 Ha _ IH1 _ IH2]; intros He; [constructor|]. apply (forest_node _ _ n); [done| |..].
  - rewrite He; [done|left].
  - apply IH1. intros y Hy. apply He. set_solver.
  - apply IH2. intros y Hy. apply He. set_solver.
Qed.
Lemma forest_some h a l y : forest h a l -> y ∈ l -> is_Some (h !! y).
Proof.
  induction 1 as [|a n own rest H0 Ha _ IH1 _ IH2]; [by intros ?%not_elem_of_nil|].
  rewrite elem_of_cons, elem_of_app. intros [->|[?|?]]; [by exists n|auto..].
Qed.
Lemma forest_size h a l : forest h a l -> NoDup l -> (length l <= size h)%nat.
Proof.
  intros Hf Hnd. assert (list_to_set l ⊆ dom h) as Hsub.
  { intros y Hy%elem_of_list_to_set. apply elem_of_dom. by apply (forest_some h a l). }
  apply subseteq_size in Hsub. by rewrite size_list_to_set, size_dom in Hsub.
Qed.

Lemma delete_forest fuel h a l : forest h a l -> NoDup l -> (length l < fuel)%nat ->
  cJSON_Delete fuel a h = Ok (freed l h).
Proof.
  revert h a l. induction fuel as [|fuel IH]; intros h a l Hf Hnd Hlt; [lia|]. cbn [cJSON_Delete].
  destruct Hf as [|a n own rest H0 Ha Hown Hrest]; [done|]. rewrite (proj2 (Z.eqb_neq a NULL) H0).
  rewrite (load_some _ _ _ Ha). cbn [obind]. cbn [length] in Hlt. rewrite length_app in Hlt.
  apply NoDup_cons in Hnd as [Hna (Hno & Hd & Hnr)%NoDup_app]. rewrite not_elem_of_app in Hna. destruct Hna as [Hao Har].
  replace (if negb _ && negb _ then _ else _) with (Ok (freed own h)).
  2: { rewrite <- (IH h (owned_child n) own) by (done || lia). unfold owned_child. destruct (has_flag _ _); [by destruct fuel; [lia|]|].
       cbn [negb andb]. destruct (Z.eqb_spec (n_child n) NULL) as [->|]; [by destruct fuel; [lia|]|done]. }
  cbn [obind]. rewrite (load_some _ a n) by (by rewrite freed_ne). cbn [obind].
  rewrite (IH _ (n_next n) rest); [|eapply forest_ext; [done|]|done|lia].
  - f_equal. apply map_eq. intros y. rewrite !lookup_freed, lookup_delete, lookup_freed. repeat case_decide; try done; set_solver.
  - intros y Hy. rewrite lookup_delete_ne by (by intros <-). apply freed_ne. intros Hy'. by apply (Hd y).
Qed.
Lemma delete_all h a l : forest h a l -> NoDup l -> cJSON_Delete (S (size h)) a h = Ok (freed l h).
Proof. intros Hf Hnd. apply delete_forest; [done..|]. pose proof (forest_size h a l Hf Hnd). lia. Qed.

Lemma children_ext h h' p l : children h p l -> h' !! NULL = None -> (forall y, y ∈ p :: l -> h' !! y = h !! y) -> children h' p l.
Proof.
  intros [H0 Hnd Hc Hn Hp] H0' He. split; [done..| | |].
  - unfold childf. rewrite He; [done|left].
  - eapply next_chain_ext; [|done]. intros y Hy. unfold nextf. rewrite He; [done|by right].
  - eapply prev_chain_ext; [|done]. intros y Hy. unfold prevf. rewrite He; [done|by right].
Qed.
Lemma freed_children h p l own : children h p l -> (forall y, y ∈ own -> y ∉ p :: l) -> children (freed own h) p l.
Proof.
  intros Hl Hd. eapply children_ext; [done|rewrite lookup_freed, (ch_null _ _ _ Hl); by case_decide|].
  intros y Hy. apply freed_ne. intros Hy'. by apply (Hd y).
Qed.

(** A node taken out of its list and unlinked is a forest of its own. *)
Lemma below_alone h h' x own : below h x own -> x <> NULL -> (forall y, y ∈ own -> h' !! y = h !! y) ->
  nextf h' x = Some NULL -> childf h' x = childf h x -> contents h' x = contents h x -> forest h' x (x :: own).
Proof.
  intros (n & E & Hf) H0 He Hn Hc Ht. unfold nextf, childf, contents in *. rewrite E in Hc, Ht.
  destruct (h' !! x) as [n'|] eqn:E'; [|done]. cbn in *. injection Hn as Hn. injection Hc as Hc. injection Ht as Ht _ _ _ _.
  replace (x :: own) with (x :: own ++ []) by by rewrite app_nil_r. apply (forest_node _ _ n'); [done..| |rewrite Hn; constructor].
  unfold owned_child in *. rewrite Hc, Ht. by eapply forest_ext.
Qed.

(** ** Replace *)

Definition put_for (h : gmap Z node) (p : Z) (l1 : list Z) (x r : Z) (l2 : list Z) : gmap Z node :=
  let h := alter (put_prev (List.last l1 (List.last (x :: l2) NULL))) r (alter (put_next (hd NULL l2)) r h) in
  let h := match l2 with [] => h | b :: _ => alter (put_prev r) b h end in
  let h := match l1, l2 with
           | [], [] => alter (put_child r) p (alter (put_prev r) r h)
           | [], _ => alter (put_child r) p h
           | a :: _, [] => alter (put_prev r) a (alter (put_next r) (List.last l1 NULL) h)
           | _, _ => alter (put_next r) (List.last l1 NULL) h end in
  alter (put_prev NULL) x (alter (put_next NULL) x h).

Section PutFor.
Context (h : gmap Z node) (p : Z) (l1 : list Z) (x r : Z) (l2 : list Z).
Context (Hl : children h p (l1 ++ x :: l2)) (Hr : r ∉ p :: l1 ++ x :: l2) (Sr : is_Some (h !! r)).

Lemma replace_run : cJSON_ReplaceItemViaPointer p x r h =
  (let h' := put_for h p l1 x r l2 in let* h' := cJSON_Delete (S (size h')) x h' in Ok (true, h')).
Proof.
  destruct (member _ _ _ _ _ Hl) as (Hn & Hp & Hc & Hxp & H1 & H2 & Hp1 & Hp2 & Hnd).
  pose proof (part_some _ _ _ _ _ Hl) as Hs. pose proof (child_not_null _ _ _ Hl) as H0.
  pose proof Hr as [Hrp (Hr1 & [Hrx Hr2]%not_elem_of_cons)%not_elem_of_app]%not_elem_of_cons.
  pose proof (child_some _ _ _ Hl p ltac:(left)) as Sp. present Sp. pose proof (Hs x ltac:(auto)) as Sx. present Sx. present Sr.
  assert ((p =? NULL) = false) by (apply H0; left). assert ((x =? NULL) = false) by (apply H0; set_solver).
  assert ((r =? NULL) = false) by (by apply Z.eqb_neq, (some_not_null _ _ _ Hl)).
  unfold cJSON_ReplaceItemViaPointer, put_for. destruct l1 as [|a l1'], l2 as [|b l2']; cbn [hd] in *.
  - change (List.last [] (List.last [x] NULL)) with x in *. by eval_heap.
  - assert (is_Some (h !! b)) by (apply Hs; right; right; left). assert ((b =? NULL) = false) by (apply H0; set_solver).
    assert (x <> b) by (intros ->; apply H2; left). assert (r <> b) by (intros ->; apply Hr2; left). assert (p <> b) by (intros ->; apply Hp2; left).
    assert (x <> List.last (b :: l2') NULL) by (intros ->; apply H2; by apply last_in).
    change (List.last [] (List.last (x :: b :: l2') NULL)) with (List.last (b :: l2') NULL) in *.
    set (e := List.last (b :: l2') NULL) in *. by eval_heap.
  - rewrite (last_default (a :: l1') (List.last [x] NULL) NULL) in * by done. set (t := List.last (a :: l1') NULL) in *.
    assert (t ∈ a :: l1') as Ht by (by apply last_in). assert (is_Some (h !! t)) by (by apply Hs; left).
    assert (is_Some (h !! a)) by (apply Hs; left; left). assert ((t =? NULL) = false) by (apply H0; set_solver).
    assert (x <> t) by (by intros ->). assert (p <> t) by (by intros ->). assert (r <> t) by (by intros ->).
    assert (x <> a) by (intros ->; apply H1; left). by eval_heap.
  - rewrite (last_default (a :: l1') (List.last (x :: b :: l2') NULL) NULL) in * by done. set (t := List.last (a :: l1') NULL) in *.
    assert (t ∈ a :: l1') as Ht by (by apply last_in). assert (is_Some (h !! t)) by (by apply Hs; left).
    assert (is_Some (h !! b)) by (apply Hs; right; right; left). assert ((b =? NULL) = false) by (apply H0; set_solver).
    assert ((t =? NULL) = false) by (apply H0; set_solver).
    assert (x <> b) by (intros ->; apply H2; left). assert (r <> b) by (intros ->; apply Hr2; left). assert (p <> b) by (intros ->; apply Hp2; left).
    assert (x <> t) by (by intros ->). assert (p <> t) by (by intros ->). assert (r <> t) by (by intros ->).
    assert (x <> a) by (intros ->; apply H1; left). by eval_heap.
Qed.

Lemma for_next z : nextf (put_for h p l1 x r l2) z =
  if decide (z = x) then Some NULL else
  if decide (l1 <> [] /\ z = List.last l1 NULL) then Some r else
  if decide (z = r) then Some (hd NULL l2) else nextf h z.
Proof.
  pose proof (front_some _ _ _ _ _ Hl) as St. pose proof (part_some _ _ _ _ _ Hl x ltac:(auto)) as Sx. unfold put_for.
  rewrite nextf_put_prev. case_decide as Hz; [subst z|].
  - rewrite nextf_put_next; [done|]. destruct l1, l2; by alters.
  - rewrite nextf_put_next_ne by done. destruct l1 as [|a l1'], l2 as [|b l2']; repeat case_decide; destruct_and?; try done; subst;
      autorewrite with fields; first [rewrite nextf_put_next; [done|by alters; apply St] | rewrite nextf_put_next_ne by naive_solver | idtac];
      autorewrite with fields; by fld.
Qed.
Lemma for_prev z : r <> x -> r ∉ l1 -> r ∉ l2 -> prevf (put_for h p l1 x r l2) z =
  if decide (z = x) then Some NULL else
  if decide (z = r) then Some (List.last l1 (List.last (r :: l2) NULL)) else
  if decide (l2 <> [] /\ z = hd NULL l2) then Some r else
  if decide (l2 = [] /\ l1 <> [] /\ z = hd NULL l1) then Some r else prevf h z.
Proof.
  intros Hrx Hr1 Hr2. pose proof (part_some _ _ _ _ _ Hl) as Hs. unfold put_for. case_decide as Hz; [subst z|].
  - rewrite prevf_put_prev; [done|]. alters. pose proof (Hs x ltac:(auto)). destruct l1, l2; by alters.
  - rewrite prevf_put_prev_ne, prevf_put_next by done. destruct l1 as [|a l1'], l2 as [|b l2']; repeat case_decide; destruct_and?; try done; subst;
      autorewrite with fields; cbn [hd] in *.
    all: repeat first [progress autorewrite with fields | rewrite prevf_put_prev by (rewrite ?lookup_alter_some; first [done | apply Hs; set_solver])
                      | rewrite prevf_put_prev_ne by (intros ->; first [set_solver | naive_solver])].
    all: first [done | f_equal; by apply last_default].
Qed.
Lemma for_child z : childf (put_for h p l1 x r l2) z = if decide (l1 = [] /\ z = p) then Some r else childf h z.
Proof.
  pose proof (child_some _ _ _ Hl p ltac:(left)) as Sp. unfold put_for. rewrite childf_put_prev, childf_put_next.
  destruct l1 as [|a l1'], l2 as [|b l2']; case_decide; destruct_and?; try done; subst;
    first [rewrite childf_put_child; [done|by alters] | rewrite childf_put_child_ne by naive_solver | idtac]; by autorewrite with fields.
Qed.
Lemma for_untouched : untouched (p :: r :: l1 ++ x :: l2) h (put_for h p l1 x r l2).
Proof.
  intros z Hz. rewrite !not_elem_of_cons, not_elem_of_app, !not_elem_of_cons in Hz. destruct Hz as (Hzp & Hzr & Hz1 & Hzx & Hz2).
  unfold put_for. rewrite !(lookup_alter_ne _ _ x) by done. pose proof (last_in l1 NULL) as Ht.
  destruct l1 as [|a l1'], l2 as [|b l2']; rewrite !lookup_alter_ne; try done; intros <-.
  all: try (by apply Hz1, Ht). all: try (apply Hz1; left). all: apply Hz2; left.
Qed.
Lemma for_contents z : contents (put_for h p l1 x r l2) z = contents h z.
Proof. unfold put_for. destruct l1, l2; by autorewrite with fields. Qed.

Lemma for_children : children (put_for h p l1 x r l2) p (l1 ++ r :: l2).
Proof.
  destruct (member _ _ _ _ _ Hl) as (Hn & Hp & Hc & Hxp & H1 & H2 & Hp1 & Hp2 & Hnd).
  pose proof Hnd as (D1 & D12 & D2)%NoDup_app.
  pose proof Hr as [Hrp (Hr1 & [Hrx Hr2]%not_elem_of_cons)%not_elem_of_app]%not_elem_of_cons.
  pose proof (fun z => for_prev z Hrx Hr1 Hr2) as for_prev.
  apply (relink h _ p l1 [x] [r] l2); [done|..];
    try (intros z Hz); try (intros Hd); rewrite ?for_next, ?for_prev, ?for_child; cbn [app].
  - pose proof (ch_null _ _ _ Hl). unfold put_for. destruct l1, l2; by repeat apply lookup_alter_null.
  - apply NoDup_cons. split; [set_solver|]. rewrite <- Permutation_middle. apply NoDup_cons. set_solver.
  - case_decide as E; [destruct E as [-> _]; done|]. rewrite Hc. destruct l1; [naive_solver|done].
  - rewrite !decide_False; [done|by intros ->|naive_solver|by intros ->].
  - rewrite decide_False, decide_True; [done|done|]. intros E. apply H1. rewrite <- E. by apply last_in.
  - split; [|done]. rewrite for_next, decide_False, decide_False, decide_True; [done|done| |done]. intros [? ->]. by apply Hr1, last_in.
  - rewrite !decide_False; [done|by intros ->| |by intros ->]. intros [? ->]. by apply (D12 (List.last l1 NULL)); [apply last_in|].
  - rewrite !decide_False; [done|naive_solver| |by intros ->|by intros ->]. intros [? ->]. apply (D12 (hd NULL l2)); [done|by apply hd_in].
  - rewrite (decide_False (P:=_ = x)) by (intros <-; by apply H1, hd_in).
    rewrite (decide_False (P:=_ = r)) by (intros <-; by apply Hr1, hd_in).
    rewrite decide_False by (intros [Hne E]; apply (D12 (hd NULL l1)); [by apply hd_in|rewrite E; by apply hd_in]).
    rewrite last_app_cons. case_decide as E; [by destruct E as [-> _]|].
    destruct l2 as [|b l2']; [naive_solver|]. rewrite (front_prev _ _ _ _ Hl) by done. by rewrite last_app_cons.
  - split; [|done]. rewrite for_prev, decide_False, decide_True by done. by rewrite last_app_cons.
  - rewrite !decide_False; [done| |naive_solver|by intros ->|by intros ->]. intros [-> _]. by apply not_elem_of_nil in Hz.
  - rewrite decide_False, decide_False, decide_True; [|done|intros <-; by apply Hr2, hd_in|intros <-; by apply H2, hd_in].
    by rewrite last_snoc.
Qed.
End PutFor.

(** ** What the functions do to a list of children *)

(** One list operation: the children become [l'], every other node is as before,
    and no node's data changes. *)
Definition rearranged (h : gmap Z node) (p : Z) (l' moved : list Z) (h' : gmap Z node) : Prop :=
  children h' p l' /\ untouched (p :: moved) h h' /\ same_data p h h'.

(** The children that are looked up by index, and their number. *)
Theorem array_access (h : gmap Z node) (p : Z) (l : list Z) (i : Z) : children h p l -> Z.of_nat (length l) < 2 ^ 31 ->
  cJSON_GetArraySize p h = Ok (Z.of_nat (length l))
  /\ (0 <= i -> cJSON_GetArrayItem p i h = Ok (default NULL (l !! Z.to_nat i)))
  /\ (i < 0 -> cJSON_GetArrayItem p i h = Ok NULL).
Proof.
  intros Hl Hlen. split; [|unfold cJSON_GetArrayItem; split].
  - unfold cJSON_GetArraySize. rewrite (child_not_null _ _ _ Hl p) by left.
    pose proof (child_some _ _ _ Hl p ltac:(left)) as Sp. present Sp. pose proof (ch_child _ _ _ Hl). known. eval_load.
    rewrite (count_children_spec h p [] l) by (done || pose proof (children_size _ _ _ Hl); lia). cbn [obind].
    f_equal. apply wrap32_small. unfold is_int. lia.
  - intros Hi. rewrite (proj2 (Z.ltb_ge i 0)) by lia. by apply get_array_item_spec.
  - intros Hi. by rewrite (proj2 (Z.ltb_lt i 0)).
Qed.

(** [cJSON_InsertItemInArray] puts the new node at the index, or behind the last
    child when the index is past the end. *)
Theorem array_insert (h : gmap Z node) (p : Z) (l : list Z) (which x : Z) : children h p l ->
  x ∉ p :: l -> nextf h x = Some NULL -> 0 <= which ->
  let i := Z.to_nat which in
  exists h', cJSON_InsertItemInArray p which x h = Ok (true, h')
    /\ rearranged h p (take i l ++ x :: drop i l) (x :: l) h'.
Proof.
  intros Hl Hx Hn Hw i. destruct (l !! i) as [y|] eqn:Ei.
  - pose proof (take_drop_middle _ _ _ Ei) as E. pose proof (lookup_lt_Some _ _ _ Ei) as Hlt.
    rewrite <- E in Hl, Hx. exists (put_in h p (take i l) x y (drop (S i) l)). pose proof (nextf_some _ _ _ Hn) as Sx.
    rewrite <- (Z2Nat.id which Hw). fold i. rewrite <- (length_take_le l i) at 1 by lia.
    split; [by apply insert_run|]. rewrite (drop_S _ _ _ Ei). split; [by apply put_in_children|]. split.
    + intros z Hz. apply put_in_untouched; [done..|]. rewrite <- E in Hz. set_solver.
    + intros z. split; [by apply put_in_contents|]. intros Hz. rewrite (put_child_at _ _ _ _ _ _ Hl Hx), decide_False by naive_solver. done.
  - apply lookup_ge_None in Ei. rewrite take_ge, drop_ge by done. destruct (add_spec h p l x) as (h' & Ea & Hc & Hu & Hd); [done..|].
    exists h'. split; [|split; [done|split; [|done]]].
    + unfold cJSON_InsertItemInArray. rewrite (proj2 (Z.ltb_ge _ 0)) by lia. fold i. rewrite (get_array_item_spec _ _ _ _ Hl).
      rewrite lookup_ge_None_2 by done. done.
    + intros z Hz. apply Hu. set_solver.
Qed.

Lemma detach_spec h p l i x : children h p l -> l !! i = Some x ->
  exists h', cJSON_DetachItemViaPointer p x h = Ok (x, h') /\ rearranged h p (delete i l) l h'
    /\ nextf h' x = Some NULL /\ prevf h' x = Some NULL.
Proof.
  intros Hl Ei. pose proof (take_drop_middle _ _ _ Ei) as E. rewrite <- E in Hl.
  exists (taken_out h p (take i l) x (drop (S i) l)). split; [by apply detach_run|].
  destruct (taken_out_spec _ _ _ _ _ Hl) as (Hc & Hn & Hp & Hu & Hd). rewrite E in Hu. rewrite delete_take_drop. done.
Qed.

(** [cJSON_DetachItemFromArray] takes out the child at the index and unlinks it;
    past the end it does nothing and gives NULL. *)
Theorem array_detach (h : gmap Z node) (p : Z) (l : list Z) (which : Z) : children h p l -> 0 <= which ->
  let i := Z.to_nat which in
  match l !! i with
  | None => cJSON_DetachItemFromArray p which h = Ok (NULL, h)
  | Some x => exists h', cJSON_DetachItemFromArray p which h = Ok (x, h') /\ rearranged h p (delete i l) l h'
                /\ nextf h' x = Some NULL /\ prevf h' x = Some NULL
  end.
Proof.
  intros Hl Hw i. unfold cJSON_DetachItemFromArray. rewrite (proj2 (Z.ltb_ge _ 0)) by lia. fold i.
  rewrite (get_array_item_spec _ _ _ _ Hl). cbn [obind]. destruct (l !! i) as [x|] eqn:Ei; cbn [default id].
  - by apply (detach_spec h p l i x).
  - unfold cJSON_DetachItemViaPointer. by rewrite orb_true_r.
Qed.

(** Deleting the child at an index frees it and all that is below it, each node
    once, and nothing else. *)
Lemma delete_child h p l i x own : children h p l -> l !! i = Some x -> below h x own ->
  NoDup own -> (forall y, y ∈ own -> y ∉ p :: l) ->
  exists h', (let* '(item, h) := cJSON_DetachItemViaPointer p x h in cJSON_Delete (S (size h)) item h) = Ok h'
    /\ children h' p (delete i l) /\ h' !! x = None /\ (forall y, y ∈ own -> h' !! y = None)
    /\ (forall y, y ∉ p :: l ++ own -> h' !! y = h !! y)
    /\ (forall y, y ∈ p :: delete i l -> contents h' y = contents h y).
Proof.
  intros Hl Ei Hb Hnd Hd. pose proof (list_elem_of_lookup_2 _ _ _ Ei) as Hx.
  destruct (detach_spec _ _ _ _ _ Hl Ei) as (h1 & Er & (Hc & Hu & Hs) & Hn & _).
  rewrite Er. cbn [obind]. assert (x ∉ own) as Hxo by (intros Hxo; apply (Hd x Hxo); by right).
  assert (forest h1 x (x :: own)) as Hf.
  { apply (below_alone h); [done|by apply (some_not_null _ _ _ Hl), (child_some _ _ _ Hl); right| |done|apply Hs|apply Hs].
    - intros y Hy. by apply Hu, Hd.
    - by apply (child_not_parent _ _ _ Hl). }
  exists (freed (x :: own) h1). split; [apply delete_all; [done|by apply NoDup_cons]|].
  assert (forall y, y ∈ x :: own -> y ∉ p :: delete i l) as Hd'.
  { pose proof (take_drop_middle _ _ _ Ei) as E. rewrite <- E in Hl. destruct (member _ _ _ _ _ Hl) as (_ & _ & _ & ? & ? & ? & _).
    rewrite delete_take_drop. intros y [->|Hy]%elem_of_cons; [set_solver|]. specialize (Hd y Hy). rewrite <- E in Hd. set_solver. }
  split; [by apply freed_children|]. split; [rewrite lookup_freed, decide_True; [done|left]|].
  split; [intros y Hy; rewrite lookup_freed, decide_True; [done|by right]|]. split.
  - intros y Hy. rewrite freed_ne by set_solver. apply Hu. set_solver.
  - intros y Hy. unfold contents. rewrite freed_ne by (intros Hy'; by apply (Hd' y)). apply Hs.
Qed.

(** C30: [cJSON_DeleteItemFromArray] removes the child at the index and frees it and
    the nodes below it, each once, and no other. *)
Theorem array_delete (h : gmap Z node) (p : Z) (l : list Z) (which x : Z) (own : list Z) : children h p l ->
  0 <= which -> l !! Z.to_nat which = Some x -> below h x own -> NoDup own -> (forall y, y ∈ own -> y ∉ p :: l) ->
  exists h', cJSON_DeleteItemFromArray p which h = Ok h'
    /\ children h' p (delete (Z.to_nat which) l) /\ h' !! x = None /\ (forall y, y ∈ own -> h' !! y = None)
    /\ (forall y, y ∉ p :: l ++ own -> h' !! y = h !! y)
    /\ (forall y, y ∈ p :: delete (Z.to_nat which) l -> contents h' y = contents h y).
Proof.
  intros Hl Hw Ei Hb Hnd Hd. unfold cJSON_DeleteItemFromArray, cJSON_DetachItemFromArray.
  rewrite (proj2 (Z.ltb_ge _ 0)), (get_array_item_spec _ _ _ _ Hl), Ei by lia. by apply delete_child.
Qed.

(** [cJSON_ReplaceItemInArray] puts the new node in the place of the child at the
    index, which is freed with the nodes below it. *)
Theorem array_replace (h : gmap Z node) (p : Z) (l : list Z) (which x r : Z) (own : list Z) : children h p l ->
  0 <= which -> l !! Z.to_nat which = Some x -> r ∉ p :: l -> is_Some (h !! r) ->
  below h x own -> NoDup own -> (forall y, y ∈ own -> y ∉ p :: r :: l) ->
  exists h', cJSON_ReplaceItemInArray p which r h = Ok (true, h')
    /\ children h' p (<[Z.to_nat which := r]> l) /\ h' !! x = None /\ (forall y, y ∈ own -> h' !! y = None)
    /\ (forall y, y ∉ p :: r :: l ++ own -> h' !! y = h !! y)
    /\ (forall y, y ∈ p :: <[Z.to_nat which := r]> l -> contents h' y = contents h y).
Proof.
  intros Hl Hw Ei Hr Sr Hb Hnd Hd. unfold cJSON_ReplaceItemInArray.
  rewrite (proj2 (Z.ltb_ge _ 0)), (get_array_item_spec _ _ _ _ Hl), Ei by lia. cbn [obind default id].
  set (i := Z.to_nat which) in *. pose proof (take_drop_middle _ _ _ Ei) as E.
  rewrite (insert_take_drop _ _ _ (lookup_lt_Some _ _ _ Ei)). pose proof (child_some _ _ _ Hl x) as Sx. rewrite <- E in Hl, Hr, Hd, Sx.
  rewrite (replace_run _ _ _ _ _ _ Hl Hr Sr). set (h1 := put_for _ _ _ _ _ _). cbn zeta.
  destruct (member _ _ _ _ _ Hl) as (_ & _ & _ & Hxp & H1 & H2 & _). assert (x <> r) as Hxr by set_solver.
  pose proof (for_children _ _ _ _ _ _ Hl Hr Sr) as Hc. fold h1 in Hc.
  assert (forest h1 x (x :: own)) as Hf.
  { apply (below_alone h); [done|by apply (some_not_null _ _ _ Hl), Sx; set_solver| | | |by apply for_contents].
    - intros y Hy. apply for_untouched; [done..|]. specialize (Hd y Hy). set_solver.
    - unfold h1. by rewrite (for_next _ _ _ _ _ _ Hl Hr Sr), decide_True.
    - unfold h1. rewrite (for_child _ _ _ _ _ _ Hl Hr), decide_False by naive_solver. done. }
  rewrite (delete_all _ _ _ Hf) by (apply NoDup_cons; set_solver). cbn [obind]. exists (freed (x :: own) h1). split; [done|].
  assert (forall y, y ∈ x :: own -> y ∉ p :: take i l ++ r :: drop (S i) l) as Hd'.
  { intros y [->|Hy]%elem_of_cons; [set_solver|]. specialize (Hd y Hy). set_solver. }
  split; [by apply freed_children|]. split; [rewrite lookup_freed, decide_True; [done|left]|].
  split; [intros y Hy; rewrite lookup_freed, decide_True; [done|by right]|]. split.
  - intros y Hy. rewrite <- E in Hy. rewrite freed_ne by set_solver. apply for_untouched; [done..|]. set_solver.
  - intros y Hy. unfold contents. rewrite freed_ne by (intros Hy'; by apply (Hd' y)). by apply for_contents.
Qed.

(** ** Lookup by name *)

(** Whether the node's name is [k]: letter case counts, or not. *)
Definition name_is (case_sensitive : bool) (k : string) (h : gmap Z node) (y : Z) : bool :=
  match h !! y with
  | Some n => match n_string n with Some s => negb (name_differs case_sensitive k (Some s)) | None => false end
  | None => false
  end.

(** The first child of that name. *)
Definition first_named (cs : bool) (k : string) (h : gmap Z node) (l : list Z) : Z :=
  default NULL (snd <$> list_find (name_is cs k h) l).
(** Every child has a name, as the children of an object do. *)
Definition all_named (h : gmap Z node) (l : list Z) : Prop :=
  Forall (fun y => exists n s, h !! y = Some n /\ n_string n = Some s) l.

Lemma find_child_spec cs k h p l1 l2 fuel : children h p (l1 ++ l2) -> all_named h l2 -> (length l2 < fuel)%nat ->
  find_child fuel cs k h (hd NULL l2) = Ok (first_named cs k h l2).
Proof.
  revert l1 l2. induction fuel as [|fuel IH]; intros l1 l2 Hl Hn Hf; [lia|]. cbn [find_child].
  destruct l2 as [|x l2]; [done|]. cbn [hd]. apply Forall_cons in Hn as [(n & s & E & Es) Hn].
  rewrite (child_not_null _ _ _ Hl x) by (right; apply elem_of_app; right; left).
  destruct (member _ _ _ _ _ Hl) as (Hx & _). unfold nextf in Hx. rewrite E in Hx. injection Hx as Hx.
  rewrite (load_some _ _ _ E). cbn [obind]. rewrite Es. unfold first_named. cbn [list_find].
  assert (name_is cs k h x = negb (name_differs cs k (Some s))) as En by (unfold name_is; by rewrite E, Es).
  destruct (name_differs cs k (Some s)).
  - rewrite decide_False by (rewrite En; by intros []). rewrite Hx, (IH (l1 ++ [x])); [|by rewrite <- app_assoc|done|cbn in Hf; lia].
    unfold first_named. by destruct (list_find _ l2) as [[]|].
  - rewrite decide_True; [done|]. by rewrite En.
Qed.
Lemma get_object_spec cs k h p l : children h p l -> all_named h l ->
  get_object_item p (Some k) cs h = Ok (first_named cs k h l).
Proof.
  intros Hl Hn. unfold get_object_item. rewrite (child_not_null _ _ _ Hl p) by left.
  pose proof (child_some _ _ _ Hl p ltac:(left)) as Sp. present Sp. pose proof (ch_child _ _ _ Hl). known. eval_load.
  apply (find_child_spec cs k h p [] l); [done..|]. pose proof (children_size _ _ _ Hl). lia.
Qed.

Lemma case_insensitive_refl k : case_insensitive_eq k k = true.
Proof. induction k as [|c k IH]; [done|]. cbn. by rewrite Ascii.eqb_refl. Qed.
Lemma name_differs_refl cs k : name_differs cs k (Some k) = false.
Proof. cbn. destruct cs; [by rewrite String.eqb_refl | by rewrite case_insensitive_refl]. Qed.

(** The name and type of a node change, its links do not. *)
Lemma put_name_links s t a h y : nextf (alter (put_name s t) a h) y = nextf h y
  /\ prevf (alter (put_name s t) a h) y = prevf h y /\ childf (alter (put_name s t) a h) y = childf h y.
Proof. repeat split; by apply field_same. Qed.
Lemma put_name_children s t a h p l : children h p l -> children (alter (put_name s t) a h) p l.
Proof.
  intros [H0 Hnd Hc Hn Hp]. split; [by apply lookup_alter_null|done| | |].
  - by rewrite (proj2 (proj2 (put_name_links _ _ _ _ _))).
  - eapply next_chain_ext; [|done]. intros y _. apply put_name_links.
  - eapply prev_chain_ext; [|done]. intros y _. apply put_name_links.
Qed.

Lemma contents_name h y s : (exists n, h !! y = Some n /\ n_string n = Some s) <-> snd <$> contents h y = Some (Some s).
Proof.
  unfold contents. destruct (h !! y) as [n|]; cbn; [|split; [by intros (? & ? & _)|done]].
  split; [intros (n' & [= <-] & E); by rewrite E|intros [= E]; by exists n].
Qed.
Lemma name_is_contents cs k h h' y : contents h' y = contents h y -> name_is cs k h' y = name_is cs k h y.
Proof.
  unfold contents, name_is. destruct (h !! y) as [n|], (h' !! y) as [n'|]; cbn; try done. by intros [= _ _ _ _ ->].
Qed.
Lemma all_named_contents h h' l : (forall y, y ∈ l -> contents h' y = contents h y) -> all_named h l -> all_named h' l.
Proof.
  intros He Hn. apply Forall_forall. intros y Hy. pose proof (proj1 (Forall_forall _ _) Hn y Hy) as (n & s & E & Es).
  specialize (He y Hy). unfold contents in He. rewrite E in He. destruct (h' !! y) as [n'|]; [|done]. exists n', s.
  injection He as _ _ _ _ He. by rewrite He.
Qed.

Lemma first_named_cons cs k h y l : first_named cs k h (y :: l) = if name_is cs k h y then y else first_named cs k h l.
Proof.
  unfold first_named. cbn [list_find]. destruct (name_is cs k h y); cbn [decide]; [done|]. by destruct (list_find _ l) as [[]|].
Qed.
Lemma first_named_ext cs k h h' l : (forall y, y ∈ l -> contents h' y = contents h y) -> first_named cs k h' l = first_named cs k h l.
Proof.
  induction l as [|y l IH]; intros He; [done|]. rewrite !first_named_cons, IH by (intros; apply He; by right).
  by rewrite (name_is_contents cs k h h' y) by (apply He; left).
Qed.
Lemma first_named_snoc cs k h l x : name_is cs k h x = true -> (forall y, y ∈ l -> y <> NULL) ->
  first_named cs k h (l ++ [x]) = if first_named cs k h l =? NULL then x else first_named cs k h l.
Proof.
  intros Hx. induction l as [|y l IH]; intros H0; cbn [app]; rewrite !first_named_cons; [by rewrite Hx|].
  destruct (name_is cs k h y); [|apply IH; intros; apply H0; by right].
  rewrite (proj2 (Z.eqb_neq y NULL)); [done|]. apply H0. left.
Qed.

Lemma object_add_spec (h : gmap Z node) (p : Z) (l : list Z) (x : Z) (k : string) (constant cs : bool) :
  children h p l -> all_named h l -> x ∉ p :: l -> nextf h x = Some NULL ->
  exists h', add_item_to_object true p (Some k) x constant h = Ok (true, h') /\ children h' p (l ++ [x])
    /\ all_named h' (l ++ [x])
    /\ get_object_item p (Some k) cs h' = Ok (if first_named cs k h l =? NULL then x else first_named cs k h l)
    /\ (forall y, y ∉ p :: x :: l -> h' !! y = h !! y).
Proof.
  intros Hl Hn Hx Hnx. pose proof (nextf_some _ _ _ Hnx) as Sx. pose proof Hx as [Hxp Hxl]%not_in_cons.
  unfold add_item_to_object. rewrite (child_not_null _ _ _ Hl p), (proj2 (Z.eqb_neq x NULL)), (proj2 (Z.eqb_neq p x))
    by (done || left || by apply (some_not_null _ _ _ Hl)). rewrite andb_false_r. cbn [orb]. destruct Sx as [n E]. rewrite (load_some _ _ _ E). cbn [obind].
  set (t := if constant then _ else _). rewrite store_some by (by rewrite E). cbn [obind]. set (h1 := alter _ x h).
  pose proof (put_name_children (Some k) t x _ _ _ Hl) as Hl1. fold h1 in Hl1.
  destruct (add_spec h1 p l x) as (h' & Er & Hc & Hu & Hs); [done..|by unfold h1; rewrite (proj1 (put_name_links _ _ _ _ _))|].
  assert (forall y, y ∈ l -> contents h' y = contents h y) as Hsame.
  { intros y Hy. rewrite (proj1 (Hs y)). unfold contents, h1. rewrite lookup_alter_ne; [done|]. by intros <-. }
  assert (exists n, h' !! x = Some n /\ n_string n = Some k) as Hk.
  { apply contents_name. rewrite (proj1 (Hs x)). unfold contents, h1. by rewrite lookup_alter_eq, E. }
  exists h'. split; [done|]. split; [done|]. assert (all_named h' (l ++ [x])) as Hn'.
  { apply Forall_app. split; [by apply (all_named_contents h)|]. apply Forall_singleton. destruct Hk as (n' & ? & ?). by exists n', k. }
  split; [done|]. split.
  - rewrite (get_object_spec _ _ _ _ _ Hc Hn'). f_equal. rewrite first_named_snoc, (first_named_ext cs k h); [done|done| |].
    + destruct Hk as (n' & E1 & E2). unfold name_is. by rewrite E1, E2, name_differs_refl.
    + intros y Hy. apply (some_not_null _ _ _ Hl), (child_some _ _ _ Hl). by right.
  - intros y Hy. rewrite Hu by set_solver. unfold h1. rewrite lookup_alter_ne; [done|]. intros <-. set_solver.
Qed.

(** [cJSON_AddItemToObject] appends the node under the given name, and looking
    that name up finds it, or the first child that had the name before. *)
Theorem object_add_lookup (h : gmap Z node) (p : Z) (l : list Z) (x : Z) (k : string) (constant cs : bool) :
  children h p l -> all_named h l -> x ∉ p :: l -> nextf h x = Some NULL ->
  exists h', add_item_to_object true p (Some k) x constant h = Ok (true, h') /\ children h' p (l ++ [x])
    /\ all_named h' (l ++ [x])
    /\ get_object_item p (Some k) cs h' = Ok (if first_named cs k h l =? NULL then x else first_named cs k h l)
    /\ (forall y, y ∉ p :: x :: l -> h' !! y = h !! y).
Proof. apply object_add_spec. Qed.

(** [cJSON_DeleteItemFromObject] removes and frees the first child whose name is
    the given one up to letter case; a name no child has leaves the heap alone. *)
Theorem object_delete (h : gmap Z node) (p : Z) (l : list Z) (k : string) : children h p l -> all_named h l ->
  match list_find (name_is false k h) l with
  | None => cJSON_DeleteItemFromObject p (Some k) h = Ok h
  | Some (i, x) => forall own, below h x own -> NoDup own -> (forall y, y ∈ own -> y ∉ p :: l) ->
      exists h', cJSON_DeleteItemFromObject p (Some k) h = Ok h'
        /\ children h' p (delete i l) /\ h' !! x = None /\ (forall y, y ∈ own -> h' !! y = None)
        /\ (forall y, y ∉ p :: l ++ own -> h' !! y = h !! y)
        /\ (forall y, y ∈ p :: delete i l -> contents h' y = contents h y)
  end.
Proof.
  intros Hl Hn. unfold cJSON_DeleteItemFromObject, cJSON_DetachItemFromObject, cJSON_GetObjectItem. rewrite (get_object_spec _ _ _ _ _ Hl Hn).
  cbn [obind]. unfold first_named. destruct (list_find _ l) as [[i x]|] eqn:Ef; cbn [fmap option_fmap option_map snd default id].
  - intros own Hb Hnd Hd. apply list_find_Some in Ef as (Ei & _). by apply delete_child.
  - unfold cJSON_DetachItemViaPointer. by rewrite orb_true_r.
Qed.

(** ** A heap with an object of two children, the first with a child of its own,
    and a node that is in no list. *)
Definition demo_heap : gmap Z node :=
  <[1 := Node 0 0 2 64 None 0 dzero None]> (<[2 := Node 3 3 4 32 None 0 dzero (Some "a"%string)]>
  (<[3 := Node 0 2 0 16 (Some "v"%string) 0 dzero (Some "B"%string)]>
  (<[4 := Node 0 4 0 8 None 7 (double_of_Z 7) None]> (<[5 := Node 0 0 0 4 None 0 dzero None]> ∅)))).
Lemma demo_children : children demo_heap 1 [2; 3].
Proof. split; [reflexivity|by apply (bool_decide_eq_true_1 _)|reflexivity|repeat split|repeat split]. Qed.
Lemma demo_below : below demo_heap 2 [4].
Proof.
  eexists. split; [reflexivity|]. apply (forest_node demo_heap 4 (Node 0 4 0 8 None 7 (double_of_Z 7) None) [] []); [done|reflexivity|constructor|constructor].
Qed.
Lemma demo_named : all_named demo_heap [2; 3].
Proof. constructor; [by eexists _, _|]. constructor; [by eexists _, _|constructor]. Qed.
Lemma demo_apart (l own : list Z) : bool_decide (Forall (fun y => y ∉ l) own) = true -> forall y, y ∈ own -> y ∉ l.
Proof. intros E. apply Forall_forall. by apply (bool_decide_eq_true_1 _). Qed.

Lemma array_access_witness : cJSON_GetArraySize 1 demo_heap = Ok 2 /\ cJSON_GetArrayItem 1 1 demo_heap = Ok 3.
Proof.
  destruct (array_access demo_heap 1 [2; 3] 1 demo_children ltac:(cbn; lia)) as (E & E1 & _). split; [exact E|]. apply E1. lia.
Defined.
Lemma array_insert_witness : exists h', cJSON_InsertItemInArray 1 1 5 demo_heap = Ok (true, h')
  /\ rearranged demo_heap 1 [2; 5; 3] [5; 2; 3] h'.
Proof. apply (array_insert demo_heap 1 [2; 3] 1 5); [exact demo_children|set_solver|reflexivity|lia]. Defined.
Lemma array_detach_witness : exists h', cJSON_DetachItemFromArray 1 0 demo_heap = Ok (2, h')
  /\ rearranged demo_heap 1 [3] [2; 3] h' /\ nextf h' 2 = Some NULL /\ prevf h' 2 = Some NULL.
Proof. exact (array_detach demo_heap 1 [2; 3] 0 demo_children ltac:(lia)). Defined.
Lemma array_delete_witness : exists h', cJSON_DeleteItemFromArray 1 0 demo_heap = Ok h'
  /\ children h' 1 [3] /\ h' !! 2 = None /\ (forall y, y ∈ [4] -> h' !! y = None)
  /\ (forall y, y ∉ [1; 2; 3; 4] -> h' !! y = demo_heap !! y)
  /\ (forall y, y ∈ [1; 3] -> contents h' y = contents demo_heap y).
Proof.
  apply (array_delete demo_heap 1 [2; 3] 0 2 [4]);
    [exact demo_children|lia|reflexivity|exact demo_below|apply NoDup_singleton|apply demo_apart; reflexivity].
Defined.
Lemma array_replace_witness : exists h', cJSON_ReplaceItemInArray 1 0 5 demo_heap = Ok (true, h')
  /\ children h' 1 [5; 3] /\ h' !! 2 = None /\ (forall y, y ∈ [4] -> h' !! y = None)
  /\ (forall y, y ∉ [1; 5; 2; 3; 4] -> h' !! y = demo_heap !! y)
  /\ (forall y, y ∈ [1; 5; 3] -> contents h' y = contents demo_heap y).
Proof.
  apply (array_replace demo_heap 1 [2; 3] 0 2 5 [4]);
    [exact demo_children|lia|reflexivity|set_solver|by eexists|exact demo_below|apply NoDup_singleton|apply demo_apart; reflexivity].
Defined.
Lemma object_add_lookup_witness : exists h', add_item_to_object true 1 (Some "c"%string) 5 false demo_heap = Ok (true, h')
  /\ children h' 1 [2; 3; 5] /\ all_named h' [2; 3; 5] /\ get_object_item 1 (Some "c"%string) false h' = Ok 5
  /\ (forall y, y ∉ [1; 5; 2; 3] -> h' !! y = demo_heap !! y).
Proof.
  apply (object_add_lookup demo_heap 1 [2; 3] 5 "c" false false); [exact demo_children|exact demo_named|set_solver|reflexivity].
Defined.
Lemma object_delete_witness : exists h', cJSON_DeleteItemFromObject 1 (Some "A"%string) demo_heap = Ok h' /\ children h' 1 [3] /\ h' !! 2 = None.
Proof.
  destruct (object_delete demo_heap 1 [2; 3] "A" demo_children demo_named [4] demo_below) as (h' & E & Hc & Hx & _);
    [apply NoDup_singleton|apply demo_apart; reflexivity|]. by exists h'.
Defined.
