(* ===== verification/CJsonParse.v ===== *)
(** The parser of cJSON (src/src/common/cJSON.c).

    The parse buffer is the list of the bytes from the current offset to the end
    of the buffer, so [can_access_at_index(buffer, i)] says that the list has
    more than [i] elements. The position of an error is not modelled, and
    allocations succeed. Fallible functions return [Ok None] for [false]. *)

From Stdlib Require Import ZArith Lia Bool Ascii String.
From stdpp Require Import base tactics numbers list strings.
From S2P Require Import Prelude CString Text Double CJson.

Notation "'let?' x ':=' m 'in' k" :=
  (obind m (fun o => match o with Some x => k | None => Ok None end))
  (at level 200, x pattern, right associativity) : cd_scope.

Definition CJSON_NESTING_LIMIT : nat := 1000.

(** [buffer_skip_whitespace]: behind the last byte it steps back onto it. *)
Fixpoint buffer_skip_whitespace (rest : list Z) : list Z :=
  match rest with
  | [] => []
  | c :: rest' =>
      if c <=? 32 then match rest' with [] => rest | _ => buffer_skip_whitespace rest' end
      else rest
  end.

Definition skip_utf8_bom (rest : list Z) : list Z :=
  if (4 <? length rest)%nat && starts_with [239; 187; 191] rest then drop 3 rest else rest.

(** ** Numbers *)

Definition number_char (c : Z) : bool :=
  is_digit c || (c =? 43) || (c =? 45) || (c =? 101) || (c =? 69) || (c =? 46).

(** The bytes copied into [number_c_string]; [n] is the room left. *)
Fixpoint number_prefix (n : nat) (rest : list Z) : list Z :=
  match n, rest with
  | S n, c :: rest => if number_char c then c :: number_prefix n rest else []
  | _, _ => []
  end.

Definition parse_number (rest : list Z) : outcome (option (cJSON * list Z)) :=
  let '(number, after_end) := strtod (number_prefix 63 rest) in
  if (after_end =? 0)%nat then Ok None else
  let* valueint := saturate number in
  Ok (Some (Item cJSON_Number None valueint number None [], drop after_end rest)).

(** ** Strings *)

Definition hex_value (c : Z) : option Z :=
  if (48 <=? c) && (c <=? 57) then Some (c - 48) else
  if (65 <=? c) && (c <=? 70) then Some (10 + c - 65) else
  if (97 <=? c) && (c <=? 102) then Some (10 + c - 97) else None.

(** [parse_hex4]: 0 for invalid digits. *)
Fixpoint hex_loop (input : list Z) (h : Z) : Z :=
  match input with
  | [] => h
  | c :: input =>
      match hex_value c with
      | None => 0
      | Some v => let h := h + v in
                  hex_loop input (match input with [] => h | _ => u32 (Z.shiftl h 4) end)
      end
  end.
Definition parse_hex4 (a b c d : Z) : Z := hex_loop [a; b; c; d] 0.

(** [(codepoint | 0x80) & 0xBF] for the last [k] bytes, from the end. *)
Fixpoint utf8_tail (k : nat) (codepoint : Z) (acc : list Z) : Z * list Z :=
  match k with
  | O => (codepoint, acc)
  | S k => utf8_tail k (Z.shiftr codepoint 6) (Z.land (Z.lor codepoint 128) 191 :: acc)
  end.
Definition utf8_bytes (utf8_length : nat) (first_byte_mark codepoint : Z) : list Z :=
  let '(codepoint, tail) := utf8_tail (utf8_length - 1) codepoint [] in
  (if (1 <? utf8_length)%nat then Z.land (Z.lor codepoint first_byte_mark) 255
   else Z.land codepoint 127) :: tail.

Definition encode_utf8 (codepoint : Z) : option (list Z) :=
  if codepoint <? 128 then Some (utf8_bytes 1 0 codepoint) else
  if codepoint <? 2048 then Some (utf8_bytes 2 192 codepoint) else
  if codepoint <? 65536 then Some (utf8_bytes 3 224 codepoint) else
  if codepoint <=? 1114111 then Some (utf8_bytes 4 240 codepoint) else None.

(** [utf16_literal_to_utf8] on the bytes up to [input_end]: the bytes written and
    what is left behind the sequence; [None] stands for the return value 0. *)
Definition utf16_literal_to_utf8 (input : list Z) : option (list Z * list Z) :=
  match input with
  | _ :: _ :: a :: b :: c :: d :: rest =>
      let first_code := parse_hex4 a b c d in
      if (56320 <=? first_code) && (first_code <=? 57343) then None else
      if (55296 <=? first_code) && (first_code <=? 56319) then
        match rest with
        | s0 :: s1 :: a :: b :: c :: d :: rest =>
            if negb (s0 =? 92) || negb (s1 =? 117) then None else
            let second_code := parse_hex4 a b c d in
            if (second_code <? 56320) || (57343 <? second_code) then None else
            let codepoint := 65536 + Z.lor (Z.shiftl (Z.land first_code 1023) 10)
                                           (Z.land second_code 1023) in
            out ← encode_utf8 codepoint; Some (out, rest)
        | _ => None
        end
      else out ← encode_utf8 first_code; Some (out, rest)
  | _ => None
  end.

(** The scan for the closing quote: the literal, the number of escapes and what
    follows the quote. *)
Fixpoint string_end (rest : list Z) : option (list Z * nat * list Z) :=
  match rest with
  | [] => None
  | c :: rest' =>
      if c =? 34 then Some ([], 0%nat, rest') else
      if c =? 92 then
        match rest' with
        | [] => None
        | c' :: rest'' =>
            '(lit, n, r) ← string_end rest''; Some (c :: c' :: lit, S n, r)
        end
      else '(lit, n, r) ← string_end rest'; Some (c :: lit, n, r)
  end.

(** The character of a one letter escape. *)
Definition escape_char (c : Z) : option Z :=
  if c =? 98 then Some 8 else if c =? 102 then Some 12 else if c =? 110 then Some 10 else
  if c =? 114 then Some 13 else if c =? 116 then Some 9 else
  if (c =? 34) || (c =? 92) || (c =? 47) then Some c else None.

(** The loop through the literal. A backslash in its last place is followed by
    the closing quote. [n] bounds the number of iterations. *)
Fixpoint unescape (n : nat) (input : list Z) : outcome (option (list Z)) :=
  match n with
  | O => Undef NoReturn
  | S n =>
      match input with
      | [] => Ok (Some [])
      | c :: rest =>
          if negb (c =? 92) then let? out := unescape n rest in Ok (Some (c :: out)) else
          match rest with
          | [] => Ok (Some [34])
          | c' :: rest' =>
              if c' =? 117 then
                match utf16_literal_to_utf8 input with
                | None => Ok None
                | Some (bytes, rest) => let? out := unescape n rest in Ok (Some (bytes ++ out))
                end
              else
                match escape_char c' with
                | None => Ok None
                | Some v => let? out := unescape n rest' in Ok (Some (v :: out))
                end
          end
      end
  end.

(** The C string a buffer of bytes denotes. *)
Fixpoint c_string (bs : list Z) : list Z :=
  match bs with [] => [] | c :: bs => if c =? 0 then [] else c :: c_string bs end.

(** [parse_string]: the text and the rest; the output is written into
    [allocation_length + 1] bytes. *)
Definition parse_string (rest : list Z) : outcome (option (string * list Z)) :=
  match rest with
  | [] => Undef OutOfBounds
  | c :: rest =>
      if negb (c =? 34) then Ok None else
      match string_end rest with
      | None => Ok None
      | Some (lit, skipped_bytes, rest) =>
          let allocation_length := (length lit + 1 - skipped_bytes)%nat in
          let? output := unescape (S (length lit)) lit in
          if (length output + 1 <=? allocation_length + 1)%nat
          then Ok (Some (text_of (c_string output), rest))
          else Undef OutOfBounds
      end
  end.

(** ** Values *)

Definition head_is (c : Z) (rest : list Z) : bool :=
  match rest with c' :: _ => c' =? c | [] => false end.

Definition with_name (name : string) (item : cJSON) : cJSON :=
  let '(Item t s v d _ c) := item in Item t s v d (Some name) c.

(** [parse_value], and the loops of [parse_array] and [parse_object] from the
    first byte of an element on; [fuel] bounds the depth of the calls. *)
Fixpoint parse_value (fuel depth : nat) (rest : list Z) : outcome (option (cJSON * list Z)) :=
  match fuel with
  | O => Undef NoReturn
  | S fuel =>
      if starts_with [110; 117; 108; 108] rest
      then Ok (Some (Item cJSON_NULL None 0 dzero None [], drop 4 rest)) else
      if starts_with [102; 97; 108; 115; 101] rest
      then Ok (Some (Item cJSON_False None 0 dzero None [], drop 5 rest)) else
      if starts_with [116; 114; 117; 101] rest
      then Ok (Some (Item cJSON_True None 1 dzero None [], drop 4 rest)) else
      match rest with
      | [] => Ok None
      | c :: rest' =>
          if c =? 34 then
            let? (s, r) := parse_string rest in
            Ok (Some (Item cJSON_String (Some s) 0 dzero None [], r))
          else if (c =? 45) || is_digit c then parse_number rest
          else if c =? 91 then                                   (* parse_array *)
            if (CJSON_NESTING_LIMIT <=? depth)%nat then Ok None else
            let r := buffer_skip_whitespace rest' in
            if head_is 93 r then Ok (Some (Item cJSON_Array None 0 dzero None [], drop 1 r)) else
            match r with
            | [] => Ok None
            | _ =>
                let? (items, r) := parse_elements fuel (S depth) r in
                if head_is 93 r then Ok (Some (Item cJSON_Array None 0 dzero None items, drop 1 r))
                else Ok None
            end
          else if c =? 123 then                                  (* parse_object *)
            if (CJSON_NESTING_LIMIT <=? depth)%nat then Ok None else
            let r := buffer_skip_whitespace rest' in
            if head_is 125 r then Ok (Some (Item cJSON_Object None 0 dzero None [], drop 1 r)) else
            match r with
            | [] => Ok None
            | _ =>
                let? (items, r) := parse_members fuel (S depth) r in
                if head_is 125 r then Ok (Some (Item cJSON_Object None 0 dzero None items, drop 1 r))
                else Ok None
            end
          else Ok None
      end
  end
with parse_elements (fuel depth : nat) (rest : list Z) : outcome (option (list cJSON * list Z)) :=
  match fuel with
  | O => Undef NoReturn
  | S fuel =>
      let? (item, r) := parse_value fuel depth (buffer_skip_whitespace rest) in
      let r := buffer_skip_whitespace r in
      if head_is 44 r then
        let? (items, r) := parse_elements fuel depth (drop 1 r) in Ok (Some (item :: items, r))
      else Ok (Some ([item], r))
  end
with parse_members (fuel depth : nat) (rest : list Z) : outcome (option (list cJSON * list Z)) :=
  match fuel with
  | O => Undef NoReturn
  | S fuel =>
      let? (name, r) := parse_string (buffer_skip_whitespace rest) in
      let r := buffer_skip_whitespace r in
      if negb (head_is 58 r) then Ok None else
      let? (item, r) := parse_value fuel depth (buffer_skip_whitespace (drop 1 r)) in
      let item := with_name name item in
      let r := buffer_skip_whitespace r in
      if head_is 44 r then
        let? (items, r) := parse_members fuel depth (drop 1 r) in Ok (Some (item :: items, r))
      else Ok (Some ([item], r))
  end.

(** [cJSON_ParseWithLengthOpts] on the whole buffer, without a check of what
    follows the value: it is called with [require_null_terminated = 0]. *)
Definition parse_buffer (content : list Z) : outcome (option cJSON) :=
  match content with
  | [] => Ok None
  | _ =>
      let? (item, _) := parse_value (2 * length content + 2) 0
                           (buffer_skip_whitespace (skip_utf8_bom content)) in
      Ok (Some item)
  end.

(** [cJSON_Parse] of a C string. *)
Definition parse_text (value : string) : outcome (option cJSON) :=
  parse_buffer (c_string (bytes_of value) ++ [0]).

(** ** The parser returns, and stays inside its buffers *)

(** A buffer that ends with its only NUL. *)
Definition terminated (r : list Z) : Prop := exists p, nonul p /\ r = p ++ [0].

Lemma terminated_app a r : terminated (a ++ r) -> r <> [] -> nonul a /\ terminated r.
Proof.
  intros (p & Hp & E) Hr. destruct (exists_last Hr) as (r' & z & ->).
  rewrite app_assoc in E. apply app_inj_tail in E as [<- ->].
  apply Forall_app in Hp as [Ha Hr']. split; [done|]. by exists r'.
Qed.

Lemma terminated_nonul a r : nonul a -> terminated (a ++ r) -> terminated r.
Proof.
  intros Ha Ht. assert (r <> []) as Hr; [|exact (proj2 (terminated_app a r Ht Hr))].
  intros ->. destruct Ht as (p & _ & E). rewrite app_nil_r in E. subst a.
  apply Forall_app in Ha as [_ Ha]. by apply Forall_cons in Ha as [? _].
Qed.

Lemma terminated_tail c r : c <> 0 -> terminated (c :: r) -> terminated r.
Proof. intros Hc. apply (terminated_nonul [c]). by constructor. Qed.

Lemma terminated_not_nil : ~ terminated [].
Proof. intros (p & _ & E). by destruct p. Qed.

Lemma head_is_drop c r : c <> 0 -> head_is c r = true -> terminated r ->
  terminated (drop 1 r) /\ (length (drop 1 r) < length r)%nat.
Proof.
  intros Hc Hh Ht. destruct r as [|c' r]; [done|]. cbn in Hh. apply Z.eqb_eq in Hh as ->.
  cbn. rewrite drop_0. split; [by eapply terminated_tail | lia].
Qed.

Lemma starts_with_drop t r : nonul t -> starts_with t r = true -> terminated r ->
  terminated (drop (length t) r) /\ (length r = length t + length (drop (length t) r))%nat.
Proof.
  intros Ht [r' ->]%starts_with_spec Hr. rewrite drop_app_length, length_app.
  split; [by eapply terminated_nonul | done].
Qed.

Lemma skip_whitespace_spec r : terminated r ->
  terminated (buffer_skip_whitespace r) /\ (length (buffer_skip_whitespace r) <= length r)%nat.
Proof.
  induction r as [|c r IH]; intros Ht; [done|]. cbn [buffer_skip_whitespace].
  destruct (c <=? 32); [|done]. destruct r as [|c' r]; [done|].
  assert (c <> 0) as Hc.
  { destruct (terminated_app [c] (c' :: r) Ht) as [Hn _]; [done|]. by apply Forall_cons in Hn as [? _]. }
  destruct (IH (terminated_tail _ _ Hc Ht)) as [H1 H2]. split; [done|]. cbn [length] in *. lia.
Qed.

Lemma skip_bom_spec r : terminated r -> terminated (skip_utf8_bom r) /\ (length (skip_utf8_bom r) <= length r)%nat.
Proof.
  intros Ht. unfold skip_utf8_bom. destruct (_ && _) eqn:E; [|done].
  apply andb_true_iff in E as [_ E].
  destruct (starts_with_drop [239; 187; 191] r) as [H1 H2]; [by repeat constructor|done..|].
  cbn [length] in *. split; [done|lia].
Qed.

(** *** Numbers *)

Lemma saturate_total d : d <> NaN -> exists v, saturate d = Ok v.
Proof.
  intros Hd. unfold saturate. destruct d as [|s|s m e]; [done|destruct s; cbn; eauto|].
  cbn [dge dle]. destruct (Z.leb_spec (INT_MAX * frac_den e) (frac_num s m e)); [eauto|].
  destruct (Z.leb_spec (frac_num s m e) (- 2 ^ 31 * frac_den e)); [eauto|]. cbn [trunc].
  set (q := Z.quot _ _). assert (0 < frac_den e) as Hden by (apply Z.pow_pos_nonneg; lia).
  assert (- 2 ^ 31 <= q <= INT_MAX) as [Hq1 Hq2].
  { pose proof (Z.quot_rem' (frac_num s m e) (frac_den e)) as Hqr. fold q in Hqr.
    pose proof (Z.rem_bound_abs (frac_num s m e) (frac_den e)). unfold INT_MAX in *. nia. }
  apply Z.leb_le in Hq1, Hq2. rewrite Hq1, Hq2. eauto.
Qed.

Lemma round64_no_nan s p q : round64 s p q <> NaN.
Proof. unfold round64. destruct (p =? 0); [done|]. destruct (_ =? 2 ^ 53); by repeat case_match. Qed.

Lemma strtod_no_nan s : (strtod s).1 <> NaN.
Proof.
  unfold strtod, scale. repeat case_match; try done. apply round64_no_nan.
Qed.

Lemma strtod_length s : ((strtod s).2 <= length s)%nat.
Proof. unfold strtod. repeat case_match; cbn; lia. Qed.

Lemma number_prefix_spec n r : exists r', r = number_prefix n r ++ r' /\ nonul (number_prefix n r).
Proof.
  revert r. induction n as [|n IH]; intros r; [by exists r; split; [|constructor]|].
  destruct r as [|c r]; [by exists []; split; [|constructor]|]. cbn [number_prefix].
  destruct (number_char c) eqn:E; [|by exists (c :: r); split; [|constructor]].
  destruct (IH r) as (r' & Er & Hn). exists r'. split; [cbn; by rewrite <- Er|].
  constructor; [|done]. intros ->. discriminate E.
Qed.

(** What a parsing function promises on a buffer [r]: it returns, and on success
    it has moved on inside the buffer. *)
Definition moves {A} (m : outcome (option (A * list Z))) (r : list Z) : Prop :=
  exists o, m = Ok o /\ forall x r', o = Some (x, r') -> terminated r' /\ (length r' < length r)%nat.

Lemma moves_none {A} r : @moves A (Ok None) r.
Proof. by exists None. Qed.
Lemma moves_some {A} (x : A) r r' : terminated r' -> (length r' < length r)%nat -> moves (Ok (Some (x, r'))) r.
Proof. intros H1 H2. eexists. split; [done|]. by intros ? ? [= <- <-]. Qed.
#[local] Hint Resolve moves_none moves_some : cd.

(** A step that moves, followed by one on what is left. *)
Lemma moves_bind {A B} (m : outcome (option (A * list Z))) (k : A -> list Z -> outcome (option (B * list Z))) r0 r :
  moves m r0 -> (length r0 <= length r)%nat ->
  (forall x r', terminated r' -> (length r' < length r0)%nat -> moves (k x r') r) ->
  moves (let? (x, r') := m in k x r') r.
Proof.
  intros (o & -> & Ho) Hl Hk. cbn [obind]. destruct o as [[x r']|]; [|apply moves_none].
  destruct (Ho x r' eq_refl). by apply Hk.
Qed.

Lemma parse_number_moves r : terminated r -> moves (parse_number r) r.
Proof.
  intros Ht. unfold parse_number.
  destruct (number_prefix_spec 63 r) as (r' & Er & Hn). set (s := number_prefix 63 r) in *.
  pose proof (strtod_no_nan s) as Hd. pose proof (strtod_length s) as Hl.
  destruct (strtod s) as [d k]. cbn [fst snd] in *. destruct (Nat.eqb_spec k 0); [apply moves_none|].
  destruct (saturate_total d Hd) as [v ->]. cbn [obind].
  assert (nonul (take k s)) as Hk by (by apply Forall_take).
  assert (r = take k s ++ drop k r) as E.
  { rewrite Er, drop_app_le by done. by rewrite app_assoc, take_drop. }
  apply moves_some; [rewrite E in Ht; by eapply terminated_nonul|].
  rewrite length_drop. rewrite Er, length_app. lia.
Qed.

(** *** Strings *)

(** The escapes the scan counts. *)
Fixpoint escapes (s : list Z) : nat :=
  match s with
  | [] => 0
  | c :: s' => if c =? 92 then match s' with [] => 0 | _ :: s'' => S (escapes s'') end else escapes s'
  end.

Lemma string_end_spec r lit n r' : string_end r = Some (lit, n, r') ->
  r = lit ++ 34 :: r' /\ n = escapes lit.
Proof.
  remember (length r) as k eqn:Ek. revert r lit n Ek. induction k as [k IH] using lt_wf_ind.
  intros [|c r] lit n -> H; cbn [string_end] in H; [done|].
  destruct (Z.eqb_spec c 34) as [->|H34]; [by injection H as <- <- <-|].
  destruct (Z.eqb_spec c 92) as [->|H92].
  - destruct r as [|c' r]; [done|]. destruct (string_end r) as [[[lit0 n0] r0]|] eqn:E; [|done].
    injection H as <- <- <-. destruct (IH (length r) ltac:(cbn; lia) r _ _ eq_refl E) as [-> ->]. done.
  - destruct (string_end r) as [[[lit0 n0] r0]|] eqn:E; [|done].
    injection H as <- <- <-. destruct (IH (length r) ltac:(cbn; lia) r _ _ eq_refl E) as [-> ->].
    split; [done|]. cbn. by rewrite (proj2 (Z.eqb_neq c 92) H92).
Qed.

Lemma escapes_cons x s : (escapes s <= escapes (x :: s) <= S (escapes s))%nat.
Proof.
  remember (length s) as k eqn:Ek. revert x s Ek. induction k as [k IH] using lt_wf_ind.
  intros x [|y s] ->; cbn [escapes]; [destruct (x =? 92); lia|].
  destruct (x =? 92); [|lia]. destruct (y =? 92).
  - destruct s as [|z s]; [cbn; lia|]. pose proof (IH (length s) ltac:(cbn; lia) z s eq_refl). lia.
  - lia.
Qed.
Lemma escapes_app a s : (escapes s <= escapes (a ++ s))%nat.
Proof. induction a as [|x a IH]; [done|]. cbn [app]. pose proof (escapes_cons x (a ++ s)). lia. Qed.
Lemma escapes_plain a s : Forall (fun c => c <> 92) a -> escapes (a ++ s) = escapes s.
Proof.
  induction 1 as [|c a Hc _ IH]; [done|]. cbn [app escapes]. by rewrite (proj2 (Z.eqb_neq c 92) Hc).
Qed.

(** A code other than 0 has four hexadecimal digits. *)
Lemma hex_loop_digits input h : hex_loop input h <> 0 -> Forall (fun c => c <> 92) input.
Proof.
  revert h. induction input as [|c input IH]; intros h Hh; [constructor|]. cbn [hex_loop] in Hh.
  destruct (hex_value c) as [v|] eqn:E; [|done]. constructor; [|by eapply IH]. intros ->. discriminate E.
Qed.

Lemma utf8_bytes_length l mark cp : (0 < l)%nat -> length (utf8_bytes l mark cp) = l.
Proof.
  intros Hl. unfold utf8_bytes.
  assert (forall k x acc, length (utf8_tail k x acc).2 = (k + length acc)%nat) as Ht.
  { induction k as [|k IH]; intros x acc; [done|]. cbn [utf8_tail]. rewrite IH. cbn. lia. }
  pose proof (Ht (l - 1)%nat cp []) as Hx. destruct (utf8_tail _ _ _) as [x tl]. cbn in *. lia.
Qed.

Lemma encode_utf8_length cp out : encode_utf8 cp = Some out ->
  (length out <= 4)%nat /\ (cp < 65536 -> (length out <= 3)%nat) /\ (cp < 128 -> length out = 1%nat).
Proof.
  unfold encode_utf8. intros H. repeat case_match; try done; injection H as <-;
    rewrite utf8_bytes_length by lia;
    repeat match goal with E : (_ <? _) = _ |- _ => first [apply Z.ltb_lt in E | apply Z.ltb_ge in E] end; lia.
Qed.

(** The bytes of a sequence fit the place it leaves. *)
Lemma utf16_fits x y s out rest : x = 92 -> utf16_literal_to_utf8 (x :: y :: s) = Some (out, rest) ->
  (length out + escapes (x :: y :: s) + length rest <= length (x :: y :: s) + escapes rest)%nat
  /\ (length rest < length (x :: y :: s))%nat.
Proof.
  intros -> H. destruct s as [|a [|b [|c [|d s]]]]; try done.
  unfold utf16_literal_to_utf8 in H. set (first := parse_hex4 a b c d) in *.
  change (escapes (92 :: y :: a :: b :: c :: d :: s)) with (S (escapes ([a; b; c; d] ++ s))).
  destruct (_ && _); [done|]. destruct ((55296 <=? first) && (first <=? 56319)) eqn:Ep.
  - apply andb_true_iff in Ep as [Ep _]. apply Z.leb_le in Ep.
    rewrite escapes_plain by (apply (hex_loop_digits _ 0); fold (parse_hex4 a b c d); fold first; lia).
    destruct s as [|s0 [|s1 [|a' [|b' [|c' [|d' s]]]]]]; try done.
    destruct (Z.eqb_spec s0 92) as [->|]; [|done]. destruct (Z.eqb_spec s1 117) as [->|]; [|done].
    cbn [negb orb] in H. destruct (_ || _) eqn:Eq; [done|]. apply orb_false_iff in Eq as [Eq _].
    apply Z.ltb_ge in Eq. set (cp := 65536 + _) in H. clearbody cp.
    destruct (encode_utf8 cp) as [o|] eqn:E; [|done].
    injection H as <- <-. apply encode_utf8_length in E as [E _].
    change (escapes (92 :: 117 :: a' :: b' :: c' :: d' :: s)) with (S (escapes ([a'; b'; c'; d'] ++ s))).
    rewrite escapes_plain by (apply (hex_loop_digits _ 0); fold (parse_hex4 a' b' c' d'); lia).
    cbn [length]. lia.
  - destruct (encode_utf8 first) as [o|] eqn:E; [|done]. injection H as <- <-.
    apply encode_utf8_length in E as (E4 & E3 & E1). destruct (decide (first = 0)) as [E0|E0].
    + rewrite E1 by lia. pose proof (escapes_app [a; b; c; d] s). cbn [length app] in *.
      assert (escapes (a :: b :: c :: d :: s) <= 4 + escapes s)%nat; [|lia].
      pose proof (escapes_cons a (b :: c :: d :: s)). pose proof (escapes_cons b (c :: d :: s)).
      pose proof (escapes_cons c (d :: s)). pose proof (escapes_cons d s). lia.
    + rewrite escapes_plain by (by apply (hex_loop_digits _ 0)). cbn [length]. lia.
Qed.

Lemma unescape_total n s : (length s < n)%nat -> exists o, unescape n s = Ok o.
Proof.
  revert s. induction n as [|n IH]; intros s Hn; [lia|]. cbn [unescape].
  destruct s as [|c s]; [eauto|]. cbn [length] in Hn. destruct (Z.eqb_spec c 92) as [->|Hc]; cbn [negb].
  - destruct s as [|c' s]; [eauto|]. destruct (c' =? 117).
    + destruct (utf16_literal_to_utf8 _) as [[bytes rest]|] eqn:E; [|eauto].
      apply utf16_fits in E as [_ E]; [|done].
      destruct (IH rest ltac:(cbn [length] in *; lia)) as [[out|] ->]; cbn; eauto.
    + destruct (escape_char c'); [|eauto].
      destruct (IH s ltac:(cbn [length] in *; lia)) as [[out|] ->]; cbn; eauto.
  - destruct (IH s ltac:(lia)) as [[out|] ->]; cbn; eauto.
Qed.

Lemma unescape_fits n s out : unescape n s = Ok (Some out) ->
  (length out + escapes s <= length s)%nat.
Proof.
  revert s out. induction n as [|n IH]; intros s out H; [done|]. cbn [unescape] in H.
  destruct s as [|c s]; [by injection H as <-|]. destruct (Z.eqb_spec c 92) as [->|Hc]; cbn [negb] in H.
  - destruct s as [|c' s]; [by injection H as <-|]. destruct (c' =? 117).
    + destruct (utf16_literal_to_utf8 _) as [[bytes rest]|] eqn:E; [|done].
      obind_inv H. destruct a as [o|]; [|done]. injection H as <-. apply IH in E0.
      apply utf16_fits in E as [E _]; [|done]. rewrite length_app. lia.
    + destruct (escape_char c'); [|done]. obind_inv H. destruct a as [o|]; [|done]. injection H as <-.
      apply IH in E. cbn [escapes length Z.eqb Pos.eqb] in *. lia.
  - obind_inv H. destruct a as [o|]; [|done]. injection H as <-. apply IH in E.
    cbn [escapes length]. rewrite (proj2 (Z.eqb_neq c 92) Hc). lia.
Qed.

Lemma parse_string_moves r : terminated r -> moves (parse_string r) r.
Proof.
  intros Ht. destruct r as [|c r]; [by destruct terminated_not_nil|]. cbn [parse_string].
  destruct (Z.eqb_spec c 34) as [->|]; cbn [negb]; [|apply moves_none].
  destruct (string_end r) as [[[lit n] r']|] eqn:E; [|apply moves_none].
  apply string_end_spec in E as [-> ->].
  destruct (unescape_total (S (length lit)) lit) as [[out|] Eu]; [lia| |]; rewrite Eu; [|apply moves_none].
  cbn [obind]. apply unescape_fits in Eu. rewrite (proj2 (Nat.leb_le _ _)) by lia. apply moves_some.
  - assert (terminated (((34 :: lit) ++ [34]) ++ r')) as Ht' by (by rewrite <- app_assoc).
    apply terminated_app in Ht' as [? ?]; [done|]. intros ->.
    destruct Ht as (p & Hp & Ep). change (34 :: lit ++ [34]) with ((34 :: lit) ++ [34]) in Ep.
    by apply app_inj_tail in Ep as [_ ?].
  - cbn [length]. rewrite length_app. cbn. lia.
Qed.

(** *** Values *)

Definition value_ok (fuel : nat) : Prop := forall depth r, terminated r ->
  (2 * length r + 1 <= fuel)%nat -> moves (parse_value fuel depth r) r.
Definition elements_ok (fuel : nat) : Prop := forall depth r, terminated r ->
  (2 * length r + 2 <= fuel)%nat -> moves (parse_elements fuel depth r) r.
Definition members_ok (fuel : nat) : Prop := forall depth r, terminated r ->
  (2 * length r + 2 <= fuel)%nat -> moves (parse_members fuel depth r) r.

(** The end of a list: a comma and more, or the list is done. *)
Lemma moves_more {A} (parse : list Z -> outcome (option (list A * list Z))) (x : A) r r0 :
  terminated r -> (length r < length r0)%nat ->
  (forall r', terminated r' -> (length r' < length r)%nat -> moves (parse r') r') ->
  moves (let r := buffer_skip_whitespace r in
         if head_is 44 r then let? (xs, r) := parse (drop 1 r) in Ok (Some (x :: xs, r))
         else Ok (Some ([x], r))) r0.
Proof.
  intros Ht Hl Hp. destruct (skip_whitespace_spec r Ht) as [Ht' Hl']. cbv zeta.
  destruct (head_is 44 _) eqn:Eh; [|apply moves_some; [done|lia]].
  destruct (head_is_drop 44 _ ltac:(done) Eh Ht') as [Ht2 Hl2].
  eapply moves_bind; [apply Hp; [done|lia]|lia|]. intros xs r1 Ht1 Hl1. apply moves_some; [done|lia].
Qed.

Lemma elements_step fuel : value_ok fuel -> elements_ok fuel -> elements_ok (S fuel).
Proof.
  intros IHv IHe depth r Ht Hf. cbn [parse_elements].
  destruct (skip_whitespace_spec r Ht) as [Ht' Hl'].
  eapply moves_bind; [apply IHv; [done|lia]|done|]. intros x r1 Ht1 Hl1.
  apply (moves_more (parse_elements fuel depth)); [done|lia|]. intros r2 Ht2 Hl2. apply IHe; [done|lia].
Qed.

Lemma members_step fuel : value_ok fuel -> members_ok fuel -> members_ok (S fuel).
Proof.
  intros IHv IHm depth r Ht Hf. cbn [parse_members].
  destruct (skip_whitespace_spec r Ht) as [Ht' Hl'].
  eapply moves_bind; [by apply parse_string_moves|done|]. intros name r1 Ht1 Hl1.
  destruct (skip_whitespace_spec r1 Ht1) as [Ht1' Hl1'].
  destruct (head_is 58 _) eqn:Eh; cbn [negb]; [|apply moves_none].
  destruct (head_is_drop 58 _ ltac:(done) Eh Ht1') as [Ht2 Hl2].
  destruct (skip_whitespace_spec _ Ht2) as [Ht3 Hl3].
  eapply moves_bind; [apply IHv; [done|lia]|lia|]. intros x r4 Ht4 Hl4.
  apply (moves_more (parse_members fuel depth)); [done|lia|]. intros r5 Ht5 Hl5. apply IHm; [done|lia].
Qed.

(** An array or an object behind its opening bracket. *)
Lemma bracket_moves {A} close (parse : list Z -> outcome (option (list A * list Z))) mk c r : close <> 0 ->
  c <> 0 -> terminated (c :: r) -> (forall r', terminated r' -> (length r' <= length r)%nat -> moves (parse r') r') ->
  moves (let r := buffer_skip_whitespace r in
         if head_is close r then Ok (Some (mk [], drop 1 r)) else
         match r with
         | [] => Ok None
         | _ => let? (items, r) := parse r in
                if head_is close r then Ok (Some (mk items, drop 1 r)) else Ok None
         end : outcome (option (cJSON * list Z))) (c :: r).
Proof.
  intros Hc Hc0 Ht Hp. apply terminated_tail in Ht; [|done].
  destruct (skip_whitespace_spec r Ht) as [Ht' Hl']. cbv zeta. cbn [length].
  destruct (head_is close _) eqn:Eh.
  { destruct (head_is_drop _ _ Hc Eh Ht'). apply moves_some; [done|cbn [length] in *; lia]. }
  destruct (buffer_skip_whitespace r) as [|c1 r1] eqn:E1; [apply moves_none|].
  eapply moves_bind; [apply Hp; [done|lia]|cbn in *; lia|]. intros items r2 Ht2 Hl2.
  destruct (head_is close r2) eqn:Eh2; [|apply moves_none].
  destruct (head_is_drop _ _ Hc Eh2 Ht2). apply moves_some; [done|cbn [length] in *; lia].
Qed.

Lemma value_step fuel : elements_ok fuel -> members_ok fuel -> value_ok (S fuel).
Proof.
  intros IHe IHm depth r Ht Hf. cbn [parse_value].
  assert (forall t x, nonul t -> (0 < length t)%nat -> starts_with t r = true ->
    moves (Ok (Some (x : cJSON, drop (length t) r))) r) as Hword.
  { intros t x Hn Hl Hs. destruct (starts_with_drop t r Hn Hs Ht). apply moves_some; [done|lia]. }
  destruct (starts_with [110; 117; 108; 108] r) eqn:E1;
    [apply (Hword [110; 117; 108; 108]); [by repeat constructor|cbn; lia|done]|].
  destruct (starts_with [102; 97; 108; 115; 101] r) eqn:E2;
    [apply (Hword [102; 97; 108; 115; 101]); [by repeat constructor|cbn; lia|done]|].
  destruct (starts_with [116; 114; 117; 101] r) eqn:E3;
    [apply (Hword [116; 114; 117; 101]); [by repeat constructor|cbn; lia|done]|].
  destruct r as [|c r]; [apply moves_none|]. cbn [length] in Hf.
  destruct (c =? 34).
  { eapply moves_bind; [by apply parse_string_moves|done|]. intros x r' ? ?. by apply moves_some. }
  destruct (_ || _); [by apply parse_number_moves|].
  destruct (Z.eqb_spec c 91) as [->|].
  { destruct (_ <=? _)%nat; [apply moves_none|].
    apply (bracket_moves 93 (parse_elements fuel (S depth)) (Item cJSON_Array None 0 dzero None)); [done..|].
    intros r' Ht' Hl'. apply IHe; [done|lia]. }
  destruct (Z.eqb_spec c 123) as [->|]; [|apply moves_none].
  destruct (_ <=? _)%nat; [apply moves_none|].
  apply (bracket_moves 125 (parse_members fuel (S depth)) (Item cJSON_Object None 0 dzero None)); [done..|].
  intros r' Ht' Hl'. apply IHm; [done|lia].
Qed.

Lemma parse_ok fuel : value_ok fuel /\ elements_ok fuel /\ members_ok fuel.
Proof.
  induction fuel as [|fuel (IHv & IHe & IHm)].
  - repeat split; intros depth r _ ?; lia.
  - split; [by apply value_step|]. split; [by apply elements_step | by apply members_step].
Qed.

Lemma c_string_nonul bs : nonul (c_string bs).
Proof.
  induction bs as [|c bs IH]; [constructor|]. cbn. destruct (Z.eqb_spec c 0); [constructor|by constructor].
Qed.

(** C27: [cJSON_Parse] returns for every text: it neither loops nor reads or
    writes outside its buffers, whatever the text holds (the string buffers are
    as small as the source allocates them). *)
Theorem parse_text_total (value : string) : exists r, parse_text value = Ok r.
Proof.
  unfold parse_text. set (content := _ ++ [0]).
  assert (terminated content) as Ht by (eexists; split; [apply c_string_nonul|done]).
  unfold parse_buffer. destruct content as [|c r] eqn:E; [eauto|]. rewrite <- E in *.
  destruct (skip_bom_spec content Ht) as [H1 L1]. destruct (skip_whitespace_spec _ H1) as [H2 L2].
  destruct (proj1 (parse_ok (2 * length content + 2)) 0%nat _ H2) as (o & -> & _); [lia|].
  cbn [obind]. destruct o as [[]|]; eauto.
Qed.

(** [{"a":1,] *)
Definition unclosed : list Z := [123; 34; 97; 34; 58; 49; 44].

(** a buffer that is not terminated by a NUL, as [cJSON_ParseWithLength]
    takes it, can be read beyond its end: behind a comma the parser looks at the
    next byte without a check. *)
Theorem parse_length_overrun : parse_buffer unclosed = Undef OutOfBounds.
Proof. vm_compute. reflexivity. Qed.
