(* ===== verification/CJsonTyped.v ===== *)
(** The trees [cJSON_Parse] can return (src/src/common/cJSON.c): which fields an
    item of each type has, how deep the tree is, and that the items [cJSON_Compare]
    and the CGI programs look into are there. *)

From Stdlib Require Import ZArith Lia Bool Ascii String.
From stdpp Require Import base tactics numbers list strings.
From S2P Require Import Prelude CString Text Double CJson CJsonParse.

(** An item as the parser builds it, with [depth] arrays and objects open around
    it: unused fields are zero, [valueint] is the saturated number, elements of
    an array have no name and members of an object have one. *)
Inductive typed (depth : nat) : cJSON -> Prop :=
  | ty_null n : typed depth (Item cJSON_NULL None 0 dzero n [])
  | ty_false n : typed depth (Item cJSON_False None 0 dzero n [])
  | ty_true n : typed depth (Item cJSON_True None 1 dzero n [])
  | ty_number v d n : d <> NaN -> saturate d = Ok v -> is_int v -> typed depth (Item cJSON_Number None v d n [])
  | ty_string s n : typed depth (Item cJSON_String (Some s) 0 dzero n [])
  | ty_array c n : (depth < CJSON_NESTING_LIMIT)%nat ->
      Forall (fun x => typed (S depth) x /\ item_string x = None) c -> typed depth (Item cJSON_Array None 0 dzero n c)
  | ty_object c n : (depth < CJSON_NESTING_LIMIT)%nat ->
      Forall (fun x => typed (S depth) x /\ exists s, item_string x = Some s) c ->
      typed depth (Item cJSON_Object None 0 dzero n c).

Lemma typed_with_name depth name item : typed depth item -> typed depth (with_name name item).
Proof. destruct 1; by constructor. Qed.
Lemma with_name_string name item : item_string (with_name name item) = Some name.
Proof. by destruct item. Qed.

(** [let?] that gave a result. *)
Lemma maybe_ok {A B} (m : outcome (option A)) (k : A -> outcome (option B)) b :
  obind m (fun o => match o with Some x => k x | None => Ok None end) = Ok (Some b) ->
  exists a, m = Ok (Some a) /\ k a = Ok (Some b).
Proof. destruct m as [[a|]|u]; [|done..]. intros E. by exists a. Qed.
Ltac maybe_inv H := let a := fresh "a" in let E := fresh "E" in apply maybe_ok in H as (a & E & H).

Lemma saturate_int_range d v : saturate d = Ok v -> is_int v.
Proof.
  unfold saturate, is_int. destruct (dge d INT_MAX); [intros [= <-]; done|]. destruct (dle d _); [intros [= <-]; done|].
  unfold trunc. destruct d as [| |s m e]; [done..|]. destruct (_ && _) eqn:E; [|done]. intros [= <-].
  apply andb_true_iff in E as [E1%Z.leb_le E2%Z.leb_le]. unfold INT_MAX in E2. lia.
Qed.
Lemma parse_number_typed depth rest item r : parse_number rest = Ok (Some (item, r)) -> typed depth item /\ item_string item = None.
Proof.
  unfold parse_number. pose proof (strtod_no_nan (number_prefix 63 rest)) as Hn. destruct (strtod _) as [d k]. cbn [fst] in Hn.
  destruct (k =? 0)%nat; [done|]. intros E. obind_inv E. injection E as <- _. split; [|done]. constructor; [done..|]. by eapply saturate_int_range.
Qed.

Definition value_typed (fuel : nat) : Prop := forall depth rest item r,
  parse_value fuel depth rest = Ok (Some (item, r)) -> typed depth item /\ item_string item = None.
Definition elements_typed (fuel : nat) : Prop := forall depth rest items r,
  parse_elements fuel depth rest = Ok (Some (items, r)) -> Forall (fun x => typed depth x /\ item_string x = None) items.
Definition members_typed (fuel : nat) : Prop := forall depth rest items r,
  parse_members fuel depth rest = Ok (Some (items, r)) -> Forall (fun x => typed depth x /\ exists s, item_string x = Some s) items.

Lemma elements_typed_step fuel : value_typed fuel -> elements_typed fuel -> elements_typed (S fuel).
Proof.
  intros IHv IHe depth rest items r E. cbn [parse_elements] in E. maybe_inv E. destruct a as [item r1]. apply IHv in E0.
  destruct (head_is 44 _); [|injection E as <- _; by constructor]. maybe_inv E. destruct a as [items' r2]. injection E as <- _.
  constructor; [done|]. by eapply IHe.
Qed.
Lemma members_typed_step fuel : value_typed fuel -> members_typed fuel -> members_typed (S fuel).
Proof.
  intros IHv IHm depth rest items r E. cbn [parse_members] in E. maybe_inv E. destruct a as [name r1]. destruct (negb _); [done|].
  maybe_inv E. destruct a as [item r2]. apply IHv in E1 as [Ht _].
  assert (typed depth (with_name name item) /\ exists s, item_string (with_name name item) = Some s) as Hi
    by (split; [by apply typed_with_name|exists name; apply with_name_string]).
  destruct (head_is 44 _); [|injection E as <- _; by constructor]. maybe_inv E. destruct a as [items' r3]. injection E as <- _.
  constructor; [done|]. by eapply IHm.
Qed.
Lemma value_typed_step fuel : elements_typed fuel -> members_typed fuel -> value_typed (S fuel).
Proof.
  intros IHe IHm depth rest item r E. cbn [parse_value] in E.
  destruct (starts_with _ rest); [injection E as <- _; split; [constructor|done]|].
  destruct (starts_with _ rest); [injection E as <- _; split; [constructor|done]|].
  destruct (starts_with _ rest); [injection E as <- _; split; [constructor|done]|].
  destruct rest as [|c rest]; [done|]. destruct (c =? 34).
  { maybe_inv E. destruct a as [s r1]. injection E as <- _. split; [constructor|done]. }
  destruct (_ || _); [by apply (parse_number_typed depth) in E|]. destruct (c =? 91).
  - destruct (Nat.leb_spec CJSON_NESTING_LIMIT depth); [done|]. destruct (head_is 93 _).
    { injection E as <- _. split; [by constructor|done]. }
    destruct (buffer_skip_whitespace rest) as [|c' r']; [done|]. maybe_inv E. destruct a as [items r2]. destruct (head_is 93 r2); [|done].
    injection E as <- _. split; [|done]. constructor; [done|]. by eapply IHe.
  - destruct (c =? 123); [|done]. destruct (Nat.leb_spec CJSON_NESTING_LIMIT depth); [done|]. destruct (head_is 125 _).
    { injection E as <- _. split; [by constructor|done]. }
    destruct (buffer_skip_whitespace rest) as [|c' r']; [done|]. maybe_inv E. destruct a as [items r2]. destruct (head_is 125 r2); [|done].
    injection E as <- _. split; [|done]. constructor; [done|]. by eapply IHm.
Qed.
Lemma all_typed fuel : value_typed fuel /\ elements_typed fuel /\ members_typed fuel.
Proof.
  induction fuel as [|fuel (IHv & IHe & IHm)]; [done|].
  split; [by apply value_typed_step|]. split; [by apply elements_typed_step|by apply members_typed_step].
Qed.

(** C28: Every tree [cJSON_Parse] returns is well typed: each item has the fields of its
    type and no other, numbers are never NaN and their [valueint] is saturated
    into the range of [int], elements have no name and members have one, and no
    more than CJSON_NESTING_LIMIT arrays and objects are nested. *)
Theorem parse_text_typed (value : string) (item : cJSON) (E : parse_text value = Ok (Some item)) :
  typed 0 item /\ item_string item = None.
Proof.
  unfold parse_text, parse_buffer in E. destruct (_ ++ [0]) as [|c s]; [done|]. maybe_inv E. destruct a as [i r]. injection E as <-.
  by apply (proj1 (all_typed _)) in E0.
Qed.

Lemma parse_text_typed_witness :
  let item := Item cJSON_Array None 0 dzero None
    [Item cJSON_Number None 7 (double_of_Z 7) None [];
     Item cJSON_Array None 0 dzero None [Item cJSON_True None 1 dzero None []; Item cJSON_NULL None 0 dzero None []]] in
  typed 0 item /\ item_string item = None.
Proof. apply (parse_text_typed "[7, [true, null]]"). vm_compute. reflexivity. Defined.
