(* ===== verification/CJsonPrint.v ===== *)
(** The printer of cJSON (src/src/common/cJSON.c), with the output buffer it
    grows on demand, and what it prints. *)

From Stdlib Require Import ZArith Lia Bool Ascii String.
From stdpp Require Import base tactics numbers list strings.
From S2P Require Import Prelude CString Text Double CJson CJsonParse.

(** What does not change while printing: whether an allocation of a size
    succeeds, and the fields of [printbuffer] that are set once: whether the hooks
    have a [reallocate], whether the buffer may grow, whether white space is added. *)
Record print_setup := PrintSetup {
  realloc_ok : Z -> bool; has_realloc : bool; noalloc : bool; format : bool }.

(** [printbuffer]: [pb_out] holds the bytes before [offset], [pb_tail] the
    NUL-terminated text at [offset], [None] when no NUL was written there. *)
Record printbuffer := PrintBuffer {
  pb_length : Z; pb_out : list Z; pb_tail : option (list Z); pb_depth : nat }.

Definition pb_offset (p : printbuffer) : Z := Z.of_nat (length (pb_out p)).

Section Print.
Variable ps : print_setup.

(** [ensure]: [None] for [NULL]. Without a [reallocate], [offset + 1] bytes are
    copied from the old buffer. *)
Definition ensure (p : printbuffer) (needed : Z) : outcome (option printbuffer) :=
  if (0 <? pb_length p) && (pb_length p <=? pb_offset p) then Ok None else
  if INT_MAX <? needed then Ok None else
  let needed := needed + pb_offset p + 1 in
  if needed <=? pb_length p then Ok (Some p) else
  if noalloc ps then Ok None else
  let grow newsize :=
    if negb (realloc_ok ps newsize) then Ok None else
    if negb (has_realloc ps) && (pb_length p <? pb_offset p + 1) then Undef OutOfBounds else
    Ok (Some (PrintBuffer newsize (pb_out p) (pb_tail p) (pb_depth p))) in
  if INT_MAX / 2 <? needed
  then (if needed <=? INT_MAX then grow INT_MAX else Ok None)
  else grow (needed * 2).

(** Writing [bs] at [offset], with or without a NUL behind it. *)
Definition put (p : printbuffer) (bs : list Z) (nul : bool) : outcome printbuffer :=
  if pb_offset p + Z.of_nat (length bs) + (if nul then 1 else 0) <=? pb_length p
  then Ok (PrintBuffer (pb_length p) (pb_out p) (if nul then Some bs else None) (pb_depth p))
  else Undef OutOfBounds.

(** Writing [bs] at [offset] and moving behind it. *)
Definition emit (p : printbuffer) (bs : list Z) (nul : bool) : outcome printbuffer :=
  let* p := put p bs nul in
  Ok (PrintBuffer (pb_length p) (pb_out p ++ bs) (if nul then Some [] else None) (pb_depth p)).

(** [update_offset]: [strlen] needs a NUL. *)
Definition update_offset (p : printbuffer) : outcome printbuffer :=
  match pb_tail p with
  | None => Undef OutOfBounds
  | Some t => Ok (PrintBuffer (pb_length p) (pb_out p ++ t) (Some []) (pb_depth p))
  end.

Definition set_depth (d : nat) (p : printbuffer) : printbuffer :=
  PrintBuffer (pb_length p) (pb_out p) (pb_tail p) d.

Notation result := (outcome (option printbuffer)).

(** [ensure] followed by a write. *)
Definition ensure_then (p : printbuffer) (needed : Z) (k : printbuffer -> outcome printbuffer) : result :=
  let? p := ensure p needed in
  let* p := k p in
  Ok (Some p).

(** The text of a number in [number_buffer], an array of 26 bytes. *)
Definition number_text (d : double) : list Z :=
  match d with
  | NaN | Inf _ => [110; 117; 108; 108]
  | Fin s m e =>
      let t := format_g 15 s m e in
      let '(test, n) := strtod t in
      if (n =? 0)%nat || negb (compare_double test d) then format_g 17 s m e else t
  end.

Definition print_number (d : double) (p : printbuffer) : result :=
  let text := number_text d in
  let length := Z.of_nat (length text) in
  if 25 <? length then Undef OutOfBounds else
  ensure_then p (length + 1) (fun p => emit p text true).

(** The bytes an escaped byte is printed as; [%04x] of a byte below 32. *)
Definition hex_char (v : Z) : Z := if v <? 10 then 48 + v else 87 + v.
Definition escape (c : Z) : list Z :=
  if (31 <? c) && negb (c =? 34) && negb (c =? 92) then [c] else
  92 :: (if c =? 92 then [92] else if c =? 34 then [34] else if c =? 8 then [98] else
         if c =? 12 then [102] else if c =? 10 then [110] else if c =? 13 then [114] else
         if c =? 9 then [116] else [117; 48; 48; hex_char (c / 16); hex_char (c mod 16)]).

(** [escape_characters] *)
Definition escape_count (c : Z) : nat :=
  if (c =? 34) || (c =? 92) || (c =? 8) || (c =? 12) || (c =? 10) || (c =? 13) || (c =? 9) then 1
  else if c <? 32 then 5 else 0.
Definition escape_characters (input : list Z) : nat := sum_list (escape_count <$> input).

(** [print_string_ptr]; the closing quote is written at [output_length + 1],
    wherever the loop has ended. *)
Definition print_string_ptr (input : option (list Z)) (p : printbuffer) : result :=
  match input with
  | None => ensure_then p 3 (fun p => put p [34; 34] true)
  | Some input =>
      let escapes := escape_characters input in
      let output_length := (length input + escapes)%nat in
      ensure_then p (Z.of_nat output_length + 3) (fun p =>
        if (escapes =? 0)%nat then put p (34 :: input ++ [34]) true else
        let body := input ≫= escape in
        if (length body =? output_length)%nat then put p (34 :: body ++ [34]) true
        else Undef OutOfBounds)
  end.

Definition string_bytes (s : option string) : option (list Z) := bytes_of <$> s.

(** The separator of array elements, and the end of an object's member. *)
Definition array_comma (last : bool) (p : printbuffer) : result :=
  let length := if format ps then 2 else 1 in
  if last then Ok (Some p) else
  ensure_then p (length + 1) (fun p => emit p (44 :: if format ps then [32] else []) true).
Definition member_end (last : bool) (p : printbuffer) : result :=
  let length := (if format ps then 1 else 0) + (if last then 0 else 1) in
  ensure_then p (length + 1)
    (fun p => emit p ((if last then [] else [44]) ++ (if format ps then [10] else [])) true).

Definition is_nil {A} (l : list A) : bool := match l with [] => true | _ => false end.

(** The loops of [print_array] and [print_object], over the printer of a value. *)
Section Loops.
Variable print_item : cJSON -> printbuffer -> result.

Fixpoint print_elements (l : list cJSON) (p : printbuffer) : result :=
  match l with
  | [] => Ok (Some p)
  | x :: l =>
      let? p := print_item x p in
      let* p := update_offset p in
      let? p := array_comma (is_nil l) p in
      print_elements l p
  end.

Definition print_key (x : cJSON) (p : printbuffer) : result :=
  let? p := (if format ps
             then ensure_then p (Z.of_nat (pb_depth p)) (fun p => emit p (replicate (pb_depth p) 9) false)
             else Ok (Some p)) in
  let? p := print_string_ptr (string_bytes (item_string x)) p in
  let* p := update_offset p in
  let length := if format ps then 2 else 1 in
  ensure_then p length (fun p => emit p (58 :: if format ps then [9] else []) false).

Fixpoint print_members (l : list cJSON) (p : printbuffer) : result :=
  match l with
  | [] => Ok (Some p)
  | x :: l =>
      let? p := print_key x p in
      let? p := print_item x p in
      let* p := update_offset p in
      let? p := member_end (is_nil l) p in
      print_members l p
  end.

Definition print_array (child : list cJSON) (p : printbuffer) : result :=
  let? p := ensure_then p 1 (fun p => emit p [91] false) in
  let? p := print_elements child (set_depth (S (pb_depth p)) p) in
  let? p := ensure_then p 2 (fun p => put p [93] true) in
  Ok (Some (set_depth (pred (pb_depth p)) p)).

Definition print_object (child : list cJSON) (p : printbuffer) : result :=
  let length := if format ps then 2 else 1 in
  let? p := ensure_then p (length + 1) (fun p => emit p (123 :: if format ps then [10] else []) false) in
  let? p := print_members child (set_depth (S (pb_depth p)) p) in
  let? p := ensure_then p (if format ps then Z.of_nat (pb_depth p) + 1 else 2)
              (fun p => put p ((if format ps then replicate (pb_depth p - 1) 9 else []) ++ [125]) true) in
  Ok (Some (set_depth (pred (pb_depth p)) p)).
End Loops.

Fixpoint print_value (item : cJSON) (p : printbuffer) {struct item} : result :=
  let '(Item type valuestring _ valuedouble _ child) := item in
  let t := Z.land type 255 in
  if t =? cJSON_NULL then ensure_then p 5 (fun p => put p [110; 117; 108; 108] true) else
  if t =? cJSON_False then ensure_then p 6 (fun p => put p [102; 97; 108; 115; 101] true) else
  if t =? cJSON_True then ensure_then p 5 (fun p => put p [116; 114; 117; 101] true) else
  if t =? cJSON_Number then print_number valuedouble p else
  if t =? cJSON_Raw then
    match string_bytes valuestring with
    | None => Ok None
    | Some s => ensure_then p (Z.of_nat (length s) + 1) (fun p => put p s true)
    end else
  if t =? cJSON_String then print_string_ptr (string_bytes valuestring) p else
  if t =? cJSON_Array then print_array print_value child p else
  if t =? cJSON_Object then print_object print_value child p else Ok None.

End Print.

(** [print]: a buffer of 256 bytes to begin with, and the text in a buffer of its
    own size at the end. *)
Definition print (alloc_ok : Z -> bool) (has_realloc : bool) (format : bool) (item : cJSON)
    : outcome (option (list Z)) :=
  let ps := PrintSetup alloc_ok has_realloc false format in
  if negb (alloc_ok 256) then Ok None else
  let? p := print_value ps item (PrintBuffer 256 [] None 0) in
  let* p := update_offset p in
  if alloc_ok (pb_offset p + 1) then Ok (Some (pb_out p)) else Ok None.

(** [cJSON_PrintBuffered]: a buffer of a size the caller guesses. The text is what
    stands before the NUL. *)
Definition cJSON_PrintBuffered (alloc_ok : Z -> bool) (has_realloc : bool) (prebuffer : Z) (fmt : bool)
    (item : cJSON) : outcome (option (list Z)) :=
  if prebuffer <? 0 then Ok None else
  if negb (alloc_ok prebuffer) then Ok None else
  let? p := print_value (PrintSetup alloc_ok has_realloc false fmt) item (PrintBuffer prebuffer [] None 0) in
  let* p := update_offset p in
  Ok (Some (pb_out p)).

(** [cJSON_PrintPreallocated]: a buffer of the caller that cannot grow; the text in
    it up to its NUL, which [update_offset] finds, or [None] for the return value
    false. *)
Definition cJSON_PrintPreallocated (length : Z) (format : bool) (item : cJSON) : outcome (option (list Z)) :=
  if length <? 0 then Ok None else
  let? p := print_value (PrintSetup (fun _ => false) true true format) item (PrintBuffer length [] None 0) in
  let* p := update_offset p in
  Ok (Some (pb_out p)).

(** [cJSON_Parse] and [cJSON_Print] as the programs use them: [NULL] is [None]
    for a text that cannot be parsed, and nothing is printed for a tree that
    cannot be. *)
Definition cJSON_Parse (value : string) : option cJSON :=
  match parse_text value with Ok r => r | Undef _ => None end.
Definition printed (format : bool) (item : cJSON) : string :=
  match print (fun _ => true) true format item with Ok (Some t) => text_of t | _ => EmptyString end.
Definition cJSON_Print (item : cJSON) : string := printed true item.
Definition cJSON_PrintUnformatted (item : cJSON) : string := printed false item.

(** ** What is printed *)

(** A string between quotes. *)
Definition quoted (s : option string) : list Z :=
  match s with None => [34; 34] | Some s => 34 :: (bytes_of s ≫= escape) ++ [34] end.

(** White space, when there is any. *)
Definition ws (fmt : bool) (l : list Z) : list Z := if fmt then l else [].

Section Render.
Variable fmt : bool.
Variable render_item : nat -> cJSON -> list Z.

Fixpoint render_elements (depth : nat) (l : list cJSON) : list Z :=
  match l with
  | [] => []
  | x :: l => render_item depth x ++ (if is_nil l then [] else 44 :: ws fmt [32]) ++ render_elements depth l
  end.
Fixpoint render_members (depth : nat) (l : list cJSON) : list Z :=
  match l with
  | [] => []
  | x :: l =>
      ws fmt (replicate depth 9) ++ quoted (item_string x) ++ 58 :: ws fmt [9] ++ render_item depth x
      ++ (if is_nil l then [] else [44]) ++ ws fmt [10] ++ render_members depth l
  end.
End Render.

(** The text of a tree at a depth. *)
Fixpoint render (fmt : bool) (depth : nat) (item : cJSON) : list Z :=
  let '(Item type valuestring _ valuedouble _ child) := item in
  let t := Z.land type 255 in
  if t =? cJSON_NULL then [110; 117; 108; 108] else
  if t =? cJSON_False then [102; 97; 108; 115; 101] else
  if t =? cJSON_True then [116; 114; 117; 101] else
  if t =? cJSON_Number then number_text valuedouble else
  if t =? cJSON_Raw then default [] (string_bytes valuestring) else
  if t =? cJSON_String then quoted valuestring else
  if t =? cJSON_Array then [91] ++ render_elements fmt (render fmt) (S depth) child ++ [93] else
  123 :: ws fmt [10] ++ render_members fmt (render fmt) (S depth) child ++ ws fmt (replicate depth 9) ++ [125].

(** A tree the printer accepts: every item has a type, and raw text is there. *)
Fixpoint printable (item : cJSON) : bool :=
  let '(Item type valuestring _ _ _ child) := item in
  let t := Z.land type 255 in
  if (t =? cJSON_NULL) || (t =? cJSON_False) || (t =? cJSON_True) || (t =? cJSON_Number)
     || (t =? cJSON_String) then true else
  if t =? cJSON_Raw then bool_decide (is_Some valuestring) else
  ((t =? cJSON_Array) || (t =? cJSON_Object)) && forallb printable child.

(** Induction on trees. *)
Lemma cJSON_tree_ind (P : cJSON -> Prop) :
  (forall t s v d n c, Forall P c -> P (Item t s v d n c)) -> forall i, P i.
Proof.
  intros H. fix IH 1. intros [t s v d n c]. apply H. induction c as [|x c IHc]; constructor; [apply IH|done].
Qed.

(** *** Numbers fit their buffer *)

Lemma digits_of_length k n : length (digits_of k n) = k.
Proof. revert n. induction k as [|k IH]; intros n; [done|]. cbn. rewrite length_app, IH. cbn. lia. Qed.

Lemma point_length ds : (length (point ds) <= S (length ds))%nat.
Proof.
  unfold point. assert (length (strip_zeros ds) <= length ds)%nat as Hs.
  { induction ds as [|c ds IH]; [done|]. cbn. revert IH.
    destruct (strip_zeros ds); [destruct (c =? 48)|]; cbn; lia. }
  revert Hs. destruct (strip_zeros ds); cbn; lia.
Qed.

Lemma format_g_length P s m e : 0 < P <= 17 -> (length (format_g P s m e) <= 24)%nat.
Proof.
  intros HP. unfold format_g. rewrite length_app.
  assert (length (if s then [45%Z] else []) <= 1)%nat by (destruct s; cbn; lia).
  destruct (m =? 0); [cbn [length]; lia|]. destruct (sig_digits _ _ _) as [n x].
  pose proof (digits_of_length (Z.to_nat P) n) as Ld. set (ds := digits_of _ _) in *. clearbody ds.
  destruct (_ || _) eqn:Ex.
  - pose proof (point_length (drop 1 ds)) as Hp. rewrite length_drop in Hp.
    assert (length (exp_text x) <= 4)%nat.
    { unfold exp_text. destruct (Z.abs x <? 100); cbn [length]; rewrite digits_of_length; lia. }
    rewrite !length_app. cbn [length]. pose proof (length_take_le ds 1). rewrite length_take. lia.
  - apply orb_false_iff in Ex as [Ex1%Z.ltb_ge Ex2%Z.leb_gt]. destruct (Z.ltb_spec x 0).
    + cbn [length]. pose proof (point_length (replicate (Z.to_nat (- x - 1)) 48 ++ ds)) as Hp.
      rewrite length_app, length_replicate in Hp. lia.
    + pose proof (point_length (drop (Z.to_nat (x + 1)) ds)) as Hp. rewrite length_drop in Hp.
      rewrite length_app, length_take. lia.
Qed.

Lemma number_text_length d : (length (number_text d) <= 24)%nat.
Proof.
  unfold number_text. destruct d as [|s|s m e]; [cbn; lia..|].
  destruct (strtod _). destruct (_ || _); apply format_g_length; lia.
Qed.

(** *** The output buffer *)

Section PrintSpec.
(** [sure] says that memory does not run out: then nothing fails while the text
    stays below the limit of [ensure]. *)
Variables (ps : print_setup) (sure : bool).
Hypothesis realloc_sure : sure = true -> noalloc ps = false -> forall n, realloc_ok ps n = true.
Notation fmt := (format ps).

(** There is room behind the offset, or nothing was allocated yet. *)
Definition ready (p : printbuffer) : Prop :=
  (pb_offset p < pb_length p \/ pb_offset p = 0 /\ pb_length p = 0 /\ has_realloc ps = true)
  /\ pb_length p <= INT_MAX.
(** The size the text is limited to. *)
Definition limit (p : printbuffer) : Z := if noalloc ps then pb_length p else INT_MAX.

(** [p'] continues [p] with the text [t]. *)
Definition wrote (p : printbuffer) (t : list Z) (p' : printbuffer) : Prop :=
  pb_out p' = pb_out p ++ t /\ pb_depth p' = pb_depth p /\ ready p' /\ limit p' = limit p.

(** The text fits, when that is known. *)
Definition room (p : printbuffer) (n : nat) : Prop :=
  sure = true -> pb_offset p + Z.of_nat n + 2 <= limit p.

(** [m] gives up, which is excluded when [sure], or it appends [t] and moves
    behind it. *)
Definition emits (m : outcome (option printbuffer)) (p : printbuffer) (t : list Z) : Prop :=
  (sure = false /\ m = Ok None) \/ exists p1, m = Ok (Some p1) /\ wrote p t p1.
(** The same up to the text that [update_offset] takes over. *)
Definition prints (m : outcome (option printbuffer)) (p : printbuffer) (t : list Z) : Prop :=
  emits (let? p := m in let* p := update_offset p in Ok (Some p)) p t.

Lemma emits_none p t : sure = false -> emits (Ok None) p t.
Proof. by left. Qed.
Lemma emits_some p t p1 : wrote p t p1 -> emits (Ok (Some p1)) p t.
Proof. intros Hw. right. eauto. Qed.

Lemma wrote_refl p : ready p -> wrote p [] p.
Proof. intros Hr. split; [by rewrite app_nil_r|]. done. Qed.
Lemma wrote_offset p t p' : wrote p t p' -> pb_offset p' = pb_offset p + Z.of_nat (length t).
Proof. intros (E & _ & _). unfold pb_offset. rewrite E, length_app. lia. Qed.

(** Two steps in a row. *)
Lemma emits_bind m k p t1 t2 : emits m p t1 ->
  (forall p1, wrote p t1 p1 -> emits (k p1) p1 t2) -> emits (let? p := m in k p) p (t1 ++ t2).
Proof.
  intros [[Hs ->]|(p1 & -> & Hw)] Hk; [by apply emits_none|]. cbn [obind].
  destruct (Hk p1 Hw) as [[Hs ->]|(p2 & -> & E2 & D2 & R2 & L2)]; [by apply emits_none|]. apply emits_some.
  destruct Hw as (E1 & D1 & R1 & L1). split; [by rewrite E2, E1, app_assoc|]. split; [congruence|]. split; [done|congruence].
Qed.
Lemma prints_bind m k p t1 t2 : prints m p t1 ->
  (forall p1, wrote p t1 p1 -> emits (k p1) p1 t2) ->
  emits (let? p := m in let* p := update_offset p in k p) p (t1 ++ t2).
Proof.
  intros Hm Hk. pose proof (emits_bind _ k _ _ _ Hm Hk) as Hb.
  destruct m as [[q|]|]; [|done|done]. cbn [obind] in *. by destruct (update_offset q).
Qed.

Lemma ensure_spec p n : ready p -> 0 <= n -> (sure = true -> n + pb_offset p + 1 <= limit p) ->
  (sure = false /\ ensure ps p n = Ok None) \/
  exists L, ensure ps p n = Ok (Some (PrintBuffer L (pb_out p) (pb_tail p) (pb_depth p)))
    /\ n + pb_offset p + 1 <= L <= INT_MAX /\ (noalloc ps = true -> L = pb_length p).
Proof.
  intros [Hr1 Hr2] Hn Hb. unfold ensure, limit in *.
  assert (0 <= pb_offset p) by (unfold pb_offset; lia).
  assert ((sure = true -> False) -> sure = false) as Hf by (by destruct sure; [intros []|]).
  assert ((0 <? pb_length p) && (pb_length p <=? pb_offset p) = false) as ->.
  { apply andb_false_iff. rewrite Z.ltb_ge, Z.leb_gt. lia. }
  destruct (Z.ltb_spec INT_MAX n).
  { left. split; [|done]. apply Hf. intros Hs. specialize (Hb Hs). destruct (noalloc ps); lia. }
  destruct (Z.leb_spec (n + pb_offset p + 1) (pb_length p)).
  { right. exists (pb_length p). destruct p. split; [done|]. cbn in *. lia. }
  destruct (noalloc ps) eqn:En.
  { left. split; [|done]. apply Hf. intros Hs. specialize (Hb Hs). lia. }
  assert (negb (has_realloc ps) && (pb_length p <? pb_offset p + 1) = false) as ->.
  { destruct Hr1 as [Hr1|(_ & _ & ->)]; [|done]. apply andb_false_iff. right. apply Z.ltb_ge. lia. }
  assert (forall size, n + pb_offset p + 1 <= size <= INT_MAX ->
    let r := if negb (realloc_ok ps size) then Ok None
             else Ok (Some (PrintBuffer size (pb_out p) (pb_tail p) (pb_depth p))) in
    (sure = false /\ r = Ok None) \/
    exists L, r = Ok (Some (PrintBuffer L (pb_out p) (pb_tail p) (pb_depth p)))
      /\ n + pb_offset p + 1 <= L <= INT_MAX /\ (false = true -> L = pb_length p)) as Hgrow.
  { intros size Hs r. unfold r. destruct (realloc_ok ps size) eqn:E;
      [right; exists size; split; [done|]; by split|]. left. split; [|done].
    apply Hf. intros Hs'. by rewrite realloc_sure in E. }
  destruct (Z.ltb_spec (INT_MAX / 2) (n + pb_offset p + 1)).
  - destruct (Z.leb_spec (n + pb_offset p + 1) INT_MAX); [apply Hgrow; lia|].
    left. split; [|done]. apply Hf. intros Hs. specialize (Hb Hs). lia.
  - apply Hgrow. change (INT_MAX / 2) with 1073741823 in *. unfold INT_MAX in *. lia.
Qed.

Lemma wrote_grown p n L t tl : n + pb_offset p + 1 <= L <= INT_MAX -> Z.of_nat (length t) <= n ->
  (noalloc ps = true -> L = pb_length p) -> wrote p t (PrintBuffer L (pb_out p ++ t) tl (pb_depth p)).
Proof.
  intros HL Ht Hn. split; [done|]. split; [done|]. split.
  - unfold ready, pb_offset in *. cbn. rewrite length_app. lia.
  - unfold limit. cbn. destruct (noalloc ps); auto.
Qed.

(** Writing without a NUL, and with one. *)
Lemma emit_spec p n (t : list Z) (nul : bool) : ready p ->
  Z.of_nat (length t) + (if nul then 1 else 0) <= n + 1 -> Z.of_nat (length t) <= n ->
  (sure = true -> n + pb_offset p + 1 <= limit p) ->
  emits (ensure_then ps p n (fun p => emit p t nul)) p t.
Proof.
  intros Hr Ht Ht' Hb. unfold ensure_then.
  destruct (ensure_spec p n Hr ltac:(lia) Hb) as [[Hs ->]|(L & -> & HL & Hna)]; [by apply emits_none|]. cbn [obind].
  unfold emit, put. change (pb_offset (PrintBuffer L _ _ _)) with (pb_offset p). cbn [pb_length].
  rewrite (proj2 (Z.leb_le _ L)) by lia. cbn. apply emits_some. by apply (wrote_grown p n).
Qed.

Lemma put_spec p n (t : list Z) : ready p -> Z.of_nat (length t) <= n ->
  (sure = true -> n + pb_offset p + 1 <= limit p) ->
  prints (ensure_then ps p n (fun p => put p t true)) p t.
Proof.
  intros Hr Ht Hb. unfold prints, ensure_then.
  destruct (ensure_spec p n Hr ltac:(lia) Hb) as [[Hs ->]|(L & -> & HL & Hna)]; [by apply emits_none|]. cbn [obind].
  unfold put. change (pb_offset (PrintBuffer L _ _ _)) with (pb_offset p). cbn [pb_length].
  rewrite (proj2 (Z.leb_le _ L)) by lia. cbn. apply emits_some. by apply (wrote_grown p n).
Qed.

Lemma emit_nul_spec p n (t : list Z) : ready p -> Z.of_nat (length t) <= n ->
  (sure = true -> n + pb_offset p + 1 <= limit p) ->
  prints (ensure_then ps p n (fun p => emit p t true)) p t.
Proof.
  intros Hr Ht Hb. unfold prints, ensure_then.
  destruct (ensure_spec p n Hr ltac:(lia) Hb) as [[Hs ->]|(L & -> & HL & Hna)]; [by apply emits_none|]. cbn [obind].
  unfold emit, put. change (pb_offset (PrintBuffer L _ _ _)) with (pb_offset p). cbn [pb_length].
  rewrite (proj2 (Z.leb_le _ L)) by lia. cbn. apply emits_some. rewrite app_nil_r. by apply (wrote_grown p n).
Qed.

(** *** Strings *)

Lemma escape_length c : length (escape c) = S (escape_count c).
Proof.
  unfold escape, escape_count.
  destruct (Z.eqb_spec c 34) as [->|]; [done|]. destruct (Z.eqb_spec c 92) as [->|]; [done|].
  destruct (Z.eqb_spec c 8) as [->|]; [done|]. destruct (Z.eqb_spec c 12) as [->|]; [done|].
  destruct (Z.eqb_spec c 10) as [->|]; [done|]. destruct (Z.eqb_spec c 13) as [->|]; [done|].
  destruct (Z.eqb_spec c 9) as [->|]; [done|]. cbn [orb negb].
  destruct (Z.ltb_spec 31 c), (Z.ltb_spec c 32); try lia; done.
Qed.

Lemma escape_bind_length s : length (s ≫= escape) = (length s + escape_characters s)%nat.
Proof.
  induction s as [|c s IH]; [done|]. cbn. rewrite length_app, escape_length.
  change (mbind escape s) with (s ≫= escape). rewrite IH. cbn. unfold escape_characters. lia.
Qed.

Lemma escape_none s : escape_characters s = 0%nat -> s ≫= escape = s.
Proof.
  induction s as [|c s IH]; intros H; [done|]. unfold escape_characters in H. cbn in H. cbn.
  change (mbind escape s) with (s ≫= escape). rewrite IH by (unfold escape_characters; lia).
  assert (escape c = [c]) as ->; [|done]. pose proof (escape_length c) as Hl.
  unfold escape in *. destruct (_ && _); [done|]. cbn in Hl. repeat case_match; cbn in Hl; lia.
Qed.

(** [sure_lia] uses the hypotheses that hold when [sure]. *)
Ltac sure_lia :=
  intros; repeat match goal with Hs : sure = true, Hb : sure = true -> _ |- _ => specialize (Hb Hs) end; lia.

Lemma print_string_spec s p : ready p -> room p (length (quoted s)) ->
  prints (print_string_ptr ps (string_bytes s) p) p (quoted s).
Proof.
  intros Hr Hb. unfold room in Hb. destruct s as [s|]; [|apply put_spec; [done|cbn; lia|cbn [quoted length] in *; sure_lia]].
  change (string_bytes (Some s)) with (Some (bytes_of s)). cbn [quoted] in *.
  set (bs := bytes_of s) in *. unfold print_string_ptr.
  cbn [length] in Hb. rewrite length_app in Hb. cbn [length] in Hb. rewrite escape_bind_length in Hb.
  pose proof (put_spec p (Z.of_nat (length bs + escape_characters bs) + 3) (34 :: (bs ≫= escape) ++ [34]) Hr)
    as Hput.
  cbn [length] in Hput. rewrite length_app, escape_bind_length in Hput. cbn [length] in Hput.
  specialize (Hput ltac:(lia) ltac:(sure_lia)). revert Hput.
  unfold prints, ensure_then. cbv zeta. destruct (ensure _ _ _); [|done].
  destruct (Nat.eqb_spec (escape_characters bs) 0) as [E0|E0].
  - by rewrite escape_none.
  - by rewrite escape_bind_length, Nat.eqb_refl.
Qed.

Lemma print_number_spec d p : ready p -> room p (length (number_text d)) ->
  prints (print_number ps d p) p (number_text d).
Proof.
  intros Hr Hb. unfold room in Hb. unfold print_number. pose proof (number_text_length d).
  rewrite (proj2 (Z.ltb_ge 25 (Z.of_nat (length (number_text d))))) by lia.
  apply emit_nul_spec; [done|lia|sure_lia].
Qed.

(** *** Lists *)

(** The printer of one item. *)
Definition item_spec (x : cJSON) : Prop := forall p, ready p -> room p (length (render fmt (pb_depth p) x)) ->
  prints (print_value ps x p) p (render fmt (pb_depth p) x).

(** [room_tac] derives the room that is left from the room there was. *)
Ltac room_tac :=
  unfold room in *;
  repeat match goal with
  | Hw : wrote _ _ _ |- _ => pose proof (wrote_offset _ _ _ Hw); destruct Hw as (_ & ? & ? & ?)
  end;
  repeat match goal with E : pb_depth _ = pb_depth _ |- _ => rewrite E in *; clear E end;
  repeat (rewrite ?length_app, ?length_replicate in *; cbn [length] in *); sure_lia.

Lemma comma_spec l p : ready p -> room p (length (if is_nil l then [] else 44 :: ws fmt [32])) ->
  emits (array_comma ps (@is_nil cJSON l) p) p (if is_nil l then [] else 44 :: ws fmt [32]).
Proof.
  intros Hr Hb. unfold array_comma, room, ws in *.
  destruct (is_nil l); [by apply emits_some, wrote_refl|].
  destruct fmt; apply emit_spec; cbn [length] in *; first [done | sure_lia].
Qed.

Lemma elements_spec l p : Forall item_spec l -> ready p ->
  room p (length (render_elements fmt (render fmt) (pb_depth p) l)) ->
  emits (print_elements ps (print_value ps) l p) p (render_elements fmt (render fmt) (pb_depth p) l).
Proof.
  intros Hl. revert p. induction Hl as [|x l Hx Hl IH]; intros p Hr Hb.
  { by apply emits_some, wrote_refl. }
  cbn [render_elements print_elements] in *.
  apply prints_bind; [apply Hx; [done|room_tac]|]. intros p1 Hw1.
  apply emits_bind; [apply comma_spec; [apply Hw1|room_tac]|]. intros p2 Hw2.
  assert (pb_depth p2 = pb_depth p) as Ed by (destruct Hw1 as (_ & ? & _), Hw2 as (_ & ? & _); congruence).
  rewrite <- Ed. apply IH; [apply Hw2|]. rewrite Ed. room_tac.
Qed.

Lemma indent_spec p : ready p -> room p (pb_depth p) ->
  emits (if fmt then ensure_then ps p (Z.of_nat (pb_depth p)) (fun p => emit p (replicate (pb_depth p) 9) false)
         else Ok (Some p)) p (ws fmt (replicate (pb_depth p) 9)).
Proof.
  intros Hr Hb. unfold ws. destruct fmt; [|by apply emits_some, wrote_refl].
  pose proof (emit_spec p (Z.of_nat (pb_depth p)) (replicate (pb_depth p) 9) false Hr) as He.
  rewrite length_replicate in He. specialize (He ltac:(lia) ltac:(lia) ltac:(unfold room in Hb; sure_lia)).
  revert He. unfold ensure_then.
  destruct (ensure_spec p (Z.of_nat (pb_depth p)) Hr ltac:(lia) ltac:(unfold room in Hb; sure_lia))
    as [[_ ->]|(L & -> & _)]; done.
Qed.

Lemma ws_length b l : (length (ws b l) <= length l)%nat.
Proof. destruct b; cbn; lia. Qed.

Lemma print_key_spec x p : ready p ->
  room p (length (ws fmt (replicate (pb_depth p) 9) ++ quoted (item_string x) ++ 58 :: ws fmt [9])) ->
  emits (print_key ps x p) p (ws fmt (replicate (pb_depth p) 9) ++ quoted (item_string x) ++ 58 :: ws fmt [9]).
Proof.
  intros Hr Hb. unfold print_key. apply emits_bind.
  - pose proof (indent_spec p Hr) as Hi. unfold ws in *. destruct fmt; [|by apply emits_some, wrote_refl].
    apply Hi. room_tac.
  - intros p1 Hw1. apply prints_bind; [apply print_string_spec; [apply Hw1|room_tac]|].
    intros p2 Hw2. unfold ws in *. destruct fmt; apply emit_spec; try apply Hw2; try (cbn; lia); room_tac.
Qed.

Lemma member_end_spec l p : ready p -> room p (length ((if is_nil l then [] else [44%Z]) ++ ws fmt [10%Z])) ->
  emits (member_end ps (@is_nil cJSON l) p) p ((if is_nil l then [] else [44]) ++ ws fmt [10]).
Proof.
  intros Hr Hb. unfold member_end, room, ws in *.
  destruct (is_nil l), fmt; apply emit_spec; cbn [length app] in *; first [done | sure_lia].
Qed.

Lemma members_spec l p : Forall item_spec l -> ready p ->
  room p (length (render_members fmt (render fmt) (pb_depth p) l)) ->
  emits (print_members ps (print_value ps) l p) p (render_members fmt (render fmt) (pb_depth p) l).
Proof.
  intros Hl. revert p. induction Hl as [|x l Hx Hl IH]; intros p Hr Hb.
  { by apply emits_some, wrote_refl. }
  cbn [render_members print_members] in *.
  replace (ws fmt (replicate (pb_depth p) 9) ++ _) with
    ((ws fmt (replicate (pb_depth p) 9) ++ quoted (item_string x) ++ 58 :: ws fmt [9]) ++ render fmt (pb_depth p) x ++
     ((if is_nil l then [] else [44]) ++ ws fmt [10]) ++ render_members fmt (render fmt) (pb_depth p) l)
    by (by rewrite <- !app_assoc).
  apply emits_bind; [apply print_key_spec; [done|room_tac]|]. intros p1 Hw1.
  assert (pb_depth p1 = pb_depth p) as Ed1 by apply Hw1.
  apply prints_bind; [rewrite <- Ed1; apply Hx; [apply Hw1|rewrite Ed1; room_tac]|]. intros p2 Hw2.
  apply emits_bind; [apply member_end_spec; [apply Hw2|room_tac]|]. intros p3 Hw3.
  assert (pb_depth p3 = pb_depth p) as Ed by (destruct Hw2 as (_ & ? & _), Hw3 as (_ & ? & _); congruence).
  rewrite <- Ed. apply IH; [apply Hw3|]. rewrite Ed. room_tac.
Qed.

(** A list between brackets, one level deeper. *)
Lemma bracket_spec p (n1 : Z) (opening closing : list Z) list_of t
    (close : printbuffer -> outcome (option printbuffer)) : ready p ->
  Z.of_nat (length opening) <= n1 ->
  (sure = true -> n1 + pb_offset p + 1 <= limit p) ->
  (forall p1, ready p1 -> limit p1 = limit p -> pb_depth p1 = S (pb_depth p) ->
     pb_offset p1 = pb_offset p + Z.of_nat (length opening) -> emits (list_of p1) p1 t) ->
  (forall p1, ready p1 -> limit p1 = limit p -> pb_depth p1 = S (pb_depth p) ->
     pb_offset p1 = pb_offset p + Z.of_nat (length opening + length t) -> prints (close p1) p1 closing) ->
  prints (let? p := ensure_then ps p n1 (fun p => emit p opening false) in
          let? p := list_of (set_depth (S (pb_depth p)) p) in
          let? p := close p in
          Ok (Some (set_depth (pred (pb_depth p)) p))) p (opening ++ t ++ closing).
Proof.
  intros Hr Hn Hb Hl Hc. unfold prints.
  destruct (emit_spec p n1 opening false Hr ltac:(lia) Hn Hb) as [[Hs ->]|(p1 & -> & Hw1)]; [by apply emits_none|].
  cbn [obind]. pose proof (wrote_offset _ _ _ Hw1) as O1. destruct Hw1 as (E1 & D1 & R1 & L1).
  destruct (Hl (set_depth (S (pb_depth p1)) p1)) as [[Hs ->]|(p2 & -> & Hw2)];
    [exact R1|exact L1|by rewrite <- D1|exact O1|by apply emits_none|].
  cbn [obind]. pose proof (wrote_offset _ _ _ Hw2) as O2. destruct Hw2 as (E2 & D2 & R2 & L2). cbn in D2.
  change (pb_offset (set_depth _ p1)) with (pb_offset p1) in O2.
  change (limit (set_depth _ p1)) with (limit p1) in L2.
  assert (prints (close p2) p2 closing) as Hcl by (apply Hc; [done|congruence|congruence|lia]). unfold prints in Hcl.
  destruct (close p2) as [[p3|]|]; [| |by destruct Hcl as [[? [=]]|(? & [=] & _)]].
  2:{ destruct Hcl as [[Hs _]|(? & [=] & _)]. by apply emits_none. }
  cbn [obind] in *. unfold update_offset in *. cbn [set_depth pb_tail pb_length pb_out pb_depth].
  destruct (pb_tail p3) as [tl|]; [|by destruct Hcl as [[? [=]]|(? & [=] & _)]]. cbn [obind] in *.
  destruct Hcl as [[_ [=]]|(p4 & [= <-] & E4 & D4 & R4 & L4)]. cbn in E4, D4. apply emits_some. split; cbn.
  - rewrite E4, E2. cbn. by rewrite E1, !app_assoc.
  - split; [by rewrite D4, D2, D1|]. split; [exact R4|]. change (limit (PrintBuffer (pb_length p3) (pb_out p3 ++ tl) (Some []) (pb_depth p3)) = limit p). congruence.
Qed.

Lemma close_spec p d : ready p -> pb_depth p = S d -> room p (length (ws fmt (replicate d 9%Z) ++ [125%Z])) ->
  prints (ensure_then ps p (if fmt then Z.of_nat (pb_depth p) + 1 else 2)
    (fun p => put p ((if fmt then replicate (pb_depth p - 1) 9 else []) ++ [125]) true)) p
    (ws fmt (replicate d 9) ++ [125]).
Proof.
  intros Hr Hd Hb. unfold ws, room in *. destruct fmt; [|apply put_spec; cbn [length app] in *; [done|lia|sure_lia]].
  rewrite length_app, length_replicate in Hb. cbn [length] in Hb.
  pose proof (put_spec p (Z.of_nat (pb_depth p) + 1) (replicate d 9 ++ [125]) Hr) as Hput.
  rewrite length_app, length_replicate in Hput. cbn [length] in Hput.
  specialize (Hput ltac:(lia) ltac:(rewrite Hd; sure_lia)). revert Hput. unfold prints, ensure_then.
  destruct (ensure_spec p (Z.of_nat (pb_depth p) + 1) Hr ltac:(lia) ltac:(rewrite Hd; sure_lia))
    as [[_ ->]|(L & -> & _)]; [done|]. cbn [obind pb_depth]. rewrite Hd. cbn [Nat.sub]. by rewrite Nat.sub_0_r.
Qed.

Lemma print_value_spec x : printable x = true -> item_spec x.
Proof.
  induction x as [type s v d n c IH] using cJSON_tree_ind. intros Hp p Hr Hb. unfold room in Hb.
  cbn [printable print_value render] in *. set (t := Z.land type 255) in *. clearbody t.
  destruct (Z.eqb_spec t cJSON_NULL) as [E|H1]; [apply put_spec; cbn [length] in *; [done|lia|sure_lia]|].
  destruct (Z.eqb_spec t cJSON_False) as [E|H2]; [apply put_spec; cbn [length] in *; [done|lia|sure_lia]|].
  destruct (Z.eqb_spec t cJSON_True) as [E|H3]; [apply put_spec; cbn [length] in *; [done|lia|sure_lia]|].
  destruct (Z.eqb_spec t cJSON_Number) as [E|H4]; [by apply print_number_spec|].
  cbn [orb] in Hp. destruct (Z.eqb_spec t cJSON_String) as [E|H5]; [rewrite E in *; by apply print_string_spec|].
  destruct (Z.eqb_spec t cJSON_Raw) as [E|H6].
  { destruct s as [s|]; [|discriminate Hp]. change (string_bytes (Some s)) with (Some (bytes_of s)) in *.
    change (default [] (Some (bytes_of s))) with (bytes_of s) in *. apply put_spec; [done|lia|sure_lia]. }
  apply andb_true_iff in Hp as [Ht Hc].
  assert (Forall item_spec c) as Hitems.
  { rewrite Forall_forall in *. rewrite forallb_forall in Hc. intros x Hx. apply IH; [done|].
    by apply Hc, list_elem_of_In. }
  destruct (Z.eqb_spec t cJSON_Array) as [E|H7].
  - apply (bracket_spec p 1 [91] [93]); [done|cbn; lia|rewrite !length_app in Hb; cbn [length] in Hb; sure_lia|..].
    + intros p1 R1 L1 D1 O1. rewrite <- D1. apply elements_spec; [done..|]. rewrite D1. unfold room.
      rewrite !length_app in Hb. cbn [length] in *. rewrite L1. sure_lia.
    + intros p1 R1 L1 D1 O1. apply put_spec; [done|cbn; lia|].
      rewrite !length_app in Hb. cbn [length] in *. rewrite L1. sure_lia.
  - destruct (Z.eqb_spec t cJSON_Object) as [E|H8]; [|discriminate Ht].
    change (123 :: ws fmt [10] ++ ?x) with ((123 :: ws fmt [10]) ++ x) in *. rewrite !length_app in Hb.
    unfold print_object. pose proof (ws_length fmt [10]) as Hws. cbn [length] in Hb, Hws.
    apply (bracket_spec p ((if fmt then 2 else 1) + 1) (123 :: ws fmt [10]) (ws fmt (replicate (pb_depth p) 9) ++ [125])).
    + done.
    + destruct fmt; cbn; lia.
    + revert Hb. unfold ws. destruct fmt; cbn [length]; intros; sure_lia.
    + intros p1 R1 L1 D1 O1. rewrite <- D1. apply members_spec; [done..|]. rewrite D1. unfold room.
      cbn [length] in *. rewrite L1. sure_lia.
    + intros p1 R1 L1 D1 O1. cbn [length] in *. apply close_spec; [done..|]. unfold room.
      rewrite length_app, L1. cbn [length]. sure_lia.
Qed.

End PrintSpec.

(** Printing into a fresh buffer, up to the final [strlen]. *)
Lemma print_value_fresh ps sure item len :
  (sure = true -> noalloc ps = false -> forall n, realloc_ok ps n = true) -> printable item = true ->
  0 <= len <= INT_MAX -> (len = 0 -> has_realloc ps = true) ->
  (sure = true -> Z.of_nat (length (render (format ps) 0 item)) + 2 <= if noalloc ps then len else INT_MAX) ->
  let m := let? p := print_value ps item (PrintBuffer len [] None 0) in
           let* p := update_offset p in Ok (Some (pb_out p)) in
  (sure = false /\ m = Ok None) \/ m = Ok (Some (render (format ps) 0 item)).
Proof.
  intros Hs Hp Hl Hz Hb m.
  destruct (print_value_spec ps sure Hs item Hp (PrintBuffer len [] None 0)) as [[Hf E]|(p & E & Eo & _)].
  - split; [|apply Hl]. unfold pb_offset. cbn. destruct (decide (len = 0)); [right|left; lia]. auto.
  - intros Hsure. unfold limit, pb_offset. cbn. by apply Hb.
  - left. split; [done|]. unfold m. destruct (print_value _ _ _) as [[q|]|]; [|done..]. cbn [obind] in *.
    by destruct (update_offset q).
  - right. unfold m. destruct (print_value _ _ _) as [[q|]|]; [|done..]. cbn [obind] in *.
    destruct (update_offset q) as [p'|]; [|done]. injection E as ->. cbn [obind]. by rewrite Eo.
Qed.

Lemma print_run alloc_ok hr fmt item : printable item = true ->
  print alloc_ok hr fmt item = Ok None \/ print alloc_ok hr fmt item = Ok (Some (render fmt 0 item)).
Proof.
  intros Hp. unfold print. destruct (negb (alloc_ok 256)); [by left|].
  destruct (print_value_fresh (PrintSetup alloc_ok hr false fmt) false item 256) as [[_ E]|E]; [done|done|unfold INT_MAX; lia|lia|done|..].
  - left. destruct (print_value _ _ _) as [[q|]|]; [|done..]. cbn [obind] in *. by destruct (update_offset q).
  - destruct (print_value _ _ _) as [[q|]|]; [|done..]. cbn [obind] in *. destruct (update_offset q); [|done].
    cbn [obind] in *. destruct (alloc_ok _); [right|by left]. exact E.
Qed.

Lemma print_total hr fmt item : printable item = true ->
  Z.of_nat (length (render fmt 0 item)) + 2 <= INT_MAX ->
  print (fun _ => true) hr fmt item = Ok (Some (render fmt 0 item)).
Proof.
  intros Hp Hb. unfold print. cbn [negb].
  destruct (print_value_fresh (PrintSetup (fun _ => true) hr false fmt) true item 256) as [[[=] _]|E]; [done|done|unfold INT_MAX; lia|lia|done|].
  destruct (print_value _ _ _) as [[q|]|]; [|done..]. cbn [obind] in *. by destruct (update_offset q).
Qed.

(** C24: [cJSON_Print] and [cJSON_PrintUnformatted] print exactly the text of the
    tree, with and without white space, on every tree whose items have a type and
    whose text is below the 2 GB limit of [ensure], with memory that does not run
    out and with every setting of the hooks. *)
Theorem print_correct (hr fmt : bool) (item : cJSON)
    (Hp : printable item = true) (Hb : Z.of_nat (length (render fmt 0 item)) + 2 <= INT_MAX) :
  print (fun _ => true) hr fmt item = Ok (Some (render fmt 0 item)).
Proof. by apply print_total. Qed.

(** C25: whatever the allocator does and however large the tree is, the printer
    stays inside its buffer and returns nothing or the whole text. *)
Theorem print_safe (alloc_ok : Z -> bool) (hr fmt : bool) (item : cJSON) (Hp : printable item = true) :
  print alloc_ok hr fmt item = Ok None \/ print alloc_ok hr fmt item = Ok (Some (render fmt 0 item)).
Proof. by apply print_run. Qed.

(** C26: [cJSON_PrintPreallocated] never writes beyond the buffer of the caller, for
    any tree and any size; when it succeeds the buffer holds the whole text; and
    it succeeds whenever the buffer has two bytes more than the text. *)
Theorem print_preallocated_correct (len : Z) (fmt : bool) (item : cJSON)
    (Hp : printable item = true) (Hl : len <= INT_MAX) :
  (cJSON_PrintPreallocated len fmt item = Ok None \/
   cJSON_PrintPreallocated len fmt item = Ok (Some (render fmt 0 item))) /\
  (Z.of_nat (length (render fmt 0 item)) + 2 <= len ->
   cJSON_PrintPreallocated len fmt item = Ok (Some (render fmt 0 item))).
Proof.
  unfold cJSON_PrintPreallocated. set (ps := PrintSetup (fun _ => false) true true fmt).
  destruct (Z.ltb_spec len 0); [split; [by left|lia]|]. split.
  - destruct (print_value_fresh ps false item len) as [[_ E]|E]; try done; [by left|by right].
  - intros Hn. by destruct (print_value_fresh ps true item len) as [[[=] _]|E].
Qed.

(** [cJSON_PrintBuffered] prints the same text whatever the guess, when the hooks
    have a [reallocate] or the guess is not 0. *)
Theorem print_buffered_correct (hr fmt : bool) (prebuffer : Z) (item : cJSON)
    (Hp : printable item = true) (Hl : 0 <= prebuffer <= INT_MAX) (Hz : prebuffer = 0 -> hr = true)
    (Hb : Z.of_nat (length (render fmt 0 item)) + 2 <= INT_MAX) :
  cJSON_PrintBuffered (fun _ => true) hr prebuffer fmt item = Ok (Some (render fmt 0 item)).
Proof.
  unfold cJSON_PrintBuffered. destruct (Z.ltb_spec prebuffer 0); [lia|]. cbn [negb].
  by destruct (print_value_fresh (PrintSetup (fun _ => true) hr false fmt) true item prebuffer) as [[[=] _]|E].
Qed.

(** {"code": "005"} *)
Definition status_tree : cJSON := cJSON_AddStringToObject cJSON_CreateObject "code" "005".

(** With a guess of 0 and hooks without a [reallocate], [ensure] copies one byte
    from an empty buffer. *)
Theorem print_buffered_empty :
  cJSON_PrintBuffered (fun _ => true) false 0 true status_tree = Undef OutOfBounds.
Proof. vm_compute. reflexivity. Qed.

Lemma print_correct_witness : print (fun _ => true) true false status_tree = Ok (Some (render false 0 status_tree)).
Proof. apply print_correct; [reflexivity | vm_compute; congruence]. Defined.

(** An allocator that fails beyond 300 bytes. *)
Lemma print_safe_witness : print (fun n => n <? 300) false true status_tree = Ok None \/
  print (fun n => n <? 300) false true status_tree = Ok (Some (render true 0 status_tree)).
Proof. apply print_safe. reflexivity. Defined.

(** 14 bytes of text: 16 bytes are enough, and 14 are not. *)
Lemma print_preallocated_correct_witness :
  cJSON_PrintPreallocated 16 false status_tree = Ok (Some (render false 0 status_tree)) /\
  cJSON_PrintPreallocated 14 false status_tree = Ok None.
Proof. split; [|reflexivity]. apply (print_preallocated_correct 16 false status_tree); [reflexivity|vm_compute; congruence..]. Defined.

Lemma print_buffered_correct_witness :
  cJSON_PrintBuffered (fun _ => true) true 0 true status_tree = Ok (Some (render true 0 status_tree)).
Proof. apply print_buffered_correct; [reflexivity|vm_compute; split; congruence|done|vm_compute; congruence]. Defined.
