(* ===== verification/CJsonMinify.v ===== *)
(** [cJSON_Minify] (src/src/common/cJSON.c): white space and comments are removed
    from a text in its own buffer, behind the position that is read. *)

From Stdlib Require Import ZArith Lia Bool Ascii String.
From stdpp Require Import base tactics numbers list strings.
From S2P Require Import Prelude CString Text CJson CJsonParse CJsonPrint.

(** ** The code *)

(** [p[0]] and [p[0] = c] for a position in the buffer. *)
Definition at_ (buf : list Z) (p : nat) : outcome Z := rd buf (Z.of_nat p).
Definition put (buf : list Z) (p : nat) (c : Z) : outcome (list Z) :=
  if (p <? length buf)%nat then Ok (<[p := c]> buf) else Undef OutOfBounds.

(** The loops of [skip_oneline_comment] and [skip_multiline_comment]. *)
Fixpoint oneline_loop (fuel : nat) (buf : list Z) (input : nat) : outcome nat :=
  match fuel with
  | O => Undef NoReturn
  | S fuel =>
      let* c := at_ buf input in
      if c =? 0 then Ok input else
      if c =? 10 then Ok (input + 1)%nat else oneline_loop fuel buf (input + 1)
  end.
Definition skip_oneline_comment (buf : list Z) (input : nat) : outcome nat :=
  oneline_loop (S (length buf)) buf (input + 2).
Fixpoint multiline_loop (fuel : nat) (buf : list Z) (input : nat) : outcome nat :=
  match fuel with
  | O => Undef NoReturn
  | S fuel =>
      let* c := at_ buf input in
      if c =? 0 then Ok input else
      let* ends := if c =? 42 then let* d := at_ buf (input + 1) in Ok (d =? 47) else Ok false in
      if ends : bool then Ok (input + 2)%nat else multiline_loop fuel buf (input + 1)
  end.
Definition skip_multiline_comment (buf : list Z) (input : nat) : outcome nat :=
  multiline_loop (S (length buf)) buf (input + 2).

(** [minify_string]: the buffer and the two positions. *)
Fixpoint string_loop (fuel : nat) (buf : list Z) (input output : nat) : outcome (list Z * nat * nat) :=
  match fuel with
  | O => Undef NoReturn
  | S fuel =>
      let* c := at_ buf input in
      if c =? 0 then Ok (buf, input, output) else
      let* buf := put buf output c in
      if c =? 34 then
        let* buf := put buf output 34 in Ok (buf, (input + 1)%nat, (output + 1)%nat)
      else
        let* escaped := if c =? 92 then let* d := at_ buf (input + 1) in Ok (d =? 34) else Ok false in
        if escaped : bool then
          let* d := at_ buf (input + 1) in
          let* buf := put buf (output + 1) d in
          string_loop fuel buf (input + 2) (output + 2)
        else string_loop fuel buf (input + 1) (output + 1)
  end.
Definition minify_string (buf : list Z) (input output : nat) : outcome (list Z * nat * nat) :=
  let* c := at_ buf input in
  let* buf := put buf output c in
  string_loop (S (length buf)) buf (input + 1) (output + 1).

Definition is_blank (c : Z) : bool := (c =? 32) || (c =? 9) || (c =? 13) || (c =? 10).

Fixpoint minify_loop (fuel : nat) (buf : list Z) (json into : nat) : outcome (list Z * nat) :=
  match fuel with
  | O => Undef NoReturn
  | S fuel =>
      let* c := at_ buf json in
      if c =? 0 then Ok (buf, into) else
      if is_blank c then minify_loop fuel buf (json + 1) into else
      if c =? 47 then
        let* d := at_ buf (json + 1) in
        let* json := if d =? 47 then skip_oneline_comment buf json else
                     if d =? 42 then skip_multiline_comment buf json else Ok (json + 1)%nat in
        minify_loop fuel buf json into
      else if c =? 34 then
        let* '(buf, json, into) := minify_string buf json into in
        minify_loop fuel buf json into
      else
        let* buf := put buf into c in
        minify_loop fuel buf (json + 1) (into + 1)
  end.

Definition cJSON_Minify (json : option (list Z)) : outcome (option (list Z)) :=
  match json with
  | None => Ok None
  | Some buf =>
      let* '(buf, into) := minify_loop (S (length buf)) buf 0 0 in
      let* buf := put buf into 0 in
      Ok (Some buf)
  end.

(** ** What it computes *)

(** One pass over the text: outside of literals and comments, in a literal, in a
    comment of either kind. *)
Inductive mode := Plain | Literal | Line | Block.
Fixpoint minified (m : mode) (s : list Z) : list Z :=
  match s with
  | [] => []
  | c :: s' =>
      match m with
      | Plain =>
          if is_blank c then minified Plain s' else
          if c =? 47 then
            match s' with
            | d :: s'' => if d =? 47 then minified Line s'' else if d =? 42 then minified Block s'' else minified Plain s'
            | [] => []
            end
          else if c =? 34 then c :: minified Literal s' else c :: minified Plain s'
      | Literal =>
          if c =? 34 then c :: minified Plain s' else
          if c =? 92 then
            match s' with
            | d :: s'' => if d =? 34 then c :: d :: minified Literal s'' else c :: minified Literal s'
            | [] => [c]
            end
          else c :: minified Literal s'
      | Line => if c =? 10 then minified Plain s' else minified Line s'
      | Block =>
          if c =? 42 then
            match s' with
            | d :: s'' => if d =? 47 then minified Plain s'' else minified Block s'
            | [] => []
            end
          else minified Block s'
      end
  end.

(** ** The code computes it in place *)

Lemma at_pre pre c r p : p = length pre -> at_ (pre ++ c :: r) p = Ok c.
Proof. intros ->. apply rd_app_l. Qed.

(** Writing the byte that is read, behind or at the position it is read from. *)
Lemma put_gap out gap c r p : p = length out ->
  exists gap', put (out ++ gap ++ c :: r) p c = Ok ((out ++ [c]) ++ gap' ++ r) /\ length gap' = length gap.
Proof.
  intros ->. unfold put. rewrite (proj2 (Nat.ltb_lt _ _)) by (rewrite !length_app; cbn; lia).
  rewrite insert_app_r_alt by lia. rewrite Nat.sub_diag. destruct gap as [|g gap]; cbn [app insert list_insert].
  - exists []. by rewrite <- app_assoc.
  - exists (gap ++ [c]). split; [by rewrite <- !app_assoc|]. rewrite length_app. cbn. lia.
Qed.

Lemma nonul_cons c s : nonul (c :: s) -> (c =? 0) = false /\ nonul s.
Proof. intros [Hc Hs]%Forall_cons. split; [by apply Z.eqb_neq|done]. Qed.

(** What is behind the part of a text that a loop has passed. *)
Definition passed (m : mode) (s s' : list Z) : Prop :=
  exists p, s = p ++ s' /\ minified m s = minified Plain s'.

Lemma oneline_spec s pre rest fuel i : nonul s -> (length s < fuel)%nat -> i = length pre ->
  exists s', oneline_loop fuel (pre ++ s ++ 0 :: rest) i = Ok (i + (length s - length s'))%nat /\ passed Line s s'.
Proof.
  revert pre fuel i. induction s as [|c s IH]; intros pre [|fuel] i Hs Hf Hi; cbn [length] in Hf; try lia; cbn [oneline_loop app].
  - rewrite at_pre by done. cbn. exists []. rewrite Nat.add_0_r. split; [done|]. by exists [].
  - apply nonul_cons in Hs as [Hc Hs]. rewrite at_pre by done. cbn [obind]. rewrite Hc. destruct (c =? 10) eqn:E.
    + exists s. cbn [length]. split; [f_equal; lia|]. exists [c]. split; [done|]. cbn. by rewrite E.
    + replace (pre ++ c :: s ++ 0 :: rest) with ((pre ++ [c]) ++ s ++ 0 :: rest) by by rewrite <- !app_assoc.
      destruct (IH (pre ++ [c]) fuel (i + 1)%nat) as (s' & Er & p & -> & Em); [done|lia|rewrite length_app; cbn; lia|].
      exists s'. rewrite Er. split; [f_equal; cbn [length]; rewrite length_app; lia|]. exists (c :: p). split; [done|]. cbn. by rewrite E.
Qed.
Lemma multiline_spec s pre rest fuel i : nonul s -> (length s < fuel)%nat -> i = length pre ->
  exists s', multiline_loop fuel (pre ++ s ++ 0 :: rest) i = Ok (i + (length s - length s'))%nat /\ passed Block s s'.
Proof.
  revert pre fuel i. induction s as [|c s IH]; intros pre [|fuel] i Hs Hf Hi; cbn [length] in Hf; try lia; cbn [multiline_loop app].
  - rewrite at_pre by done. cbn. exists []. rewrite Nat.add_0_r. split; [done|]. by exists [].
  - apply nonul_cons in Hs as [Hc Hs]. rewrite at_pre by done. cbn [obind]. rewrite Hc.
    assert (pre ++ c :: s ++ 0 :: rest = (pre ++ [c]) ++ s ++ 0 :: rest) as Eb by by rewrite <- !app_assoc.
    assert (minified Block (c :: s) = minified Block s ->
      exists s', multiline_loop fuel (pre ++ c :: s ++ 0 :: rest) (i + 1) = Ok (i + (length (c :: s) - length s'))%nat /\ passed Block (c :: s) s') as Hgo.
    { intros E. rewrite Eb. destruct (IH (pre ++ [c]) fuel (i + 1)%nat) as (s' & Er & p & Ep & Em); [done|lia|rewrite length_app; cbn; lia|].
      exists s'. rewrite Er, Ep. split; [f_equal; cbn [length]; rewrite length_app; lia|]. exists (c :: p). split; [done|]. by rewrite <- Ep, E. }
    destruct (c =? 42) eqn:E.
    + rewrite Eb. destruct s as [|d s]; cbn [app].
      * rewrite at_pre by (rewrite length_app; cbn; lia). cbn [obind]. change (0 =? 47) with false. rewrite <- app_assoc. cbn [app]. apply Hgo. cbn. by rewrite E.
      * rewrite at_pre by (rewrite length_app; cbn; lia). cbn [obind]. destruct (d =? 47) eqn:E'.
        -- exists s. cbn [length]. split; [f_equal; lia|]. exists [c; d]. split; [done|]. cbn. by rewrite E, E'.
        -- rewrite <- app_assoc. cbn [app]. apply Hgo. cbn. by rewrite E, E'.
    + cbn [obind]. apply Hgo. cbn. by rewrite E.
Qed.

Definition copied_to (out w gap s rest : list Z) : list Z * nat * nat :=
  ((out ++ w) ++ gap ++ s ++ 0 :: rest, (length (out ++ w) + length gap)%nat, length (out ++ w)).
Lemma string_spec fuel s out gap rest : nonul s -> (length s < fuel)%nat ->
  exists s' w gap', string_loop fuel (out ++ gap ++ s ++ 0 :: rest) (length out + length gap) (length out)
      = Ok (copied_to out w gap' s' rest)
    /\ length gap' = length gap /\ minified Literal s = w ++ minified Plain s' /\ exists p, s = p ++ s'.
Proof.
  revert s out gap. induction fuel as [|fuel IH]; intros s out gap Hs Hf; [lia|]. cbn [string_loop]. rewrite app_assoc.
  destruct s as [|c s]; cbn [app].
  - rewrite at_pre by (by rewrite length_app). cbn. exists [], [], gap. unfold copied_to. rewrite app_nil_r, <- app_assoc. split; [done|]. split; [done|]. split; [done|]. by exists [].
  - apply nonul_cons in Hs as [Hc Hs]. cbn [length] in Hf. rewrite at_pre by (by rewrite length_app). cbn [obind]. rewrite Hc, <- app_assoc.
    destruct (put_gap out gap c (s ++ 0 :: rest) (length out) eq_refl) as (gap1 & -> & Hg). cbn [obind].
    (* one byte is copied, and the loop goes on *)
    assert (minified Literal (c :: s) = c :: minified Literal s -> exists s' w gap',
      string_loop fuel ((out ++ [c]) ++ gap1 ++ s ++ 0 :: rest) (length out + length gap + 1) (length out + 1)
        = Ok (copied_to out w gap' s' rest)
      /\ length gap' = length gap /\ minified Literal (c :: s) = w ++ minified Plain s' /\ exists p, c :: s = p ++ s') as Hgo.
    { intros E. destruct (IH s (out ++ [c]) gap1 Hs) as (s' & w & gap' & Er & Hg' & Em & p & Ep); [lia|]. rewrite length_app, Hg in Er. cbn [length] in Er.
      exists s', (c :: w), gap'. replace (length out + length gap + 1)%nat with (length out + 1 + length gap)%nat by lia.
      rewrite Er. unfold copied_to. rewrite <- (app_assoc out [c] w). cbn [app]. split; [done|]. split; [lia|]. split; [by rewrite E, Em|].
      exists (c :: p). by rewrite Ep. }
    destruct (c =? 34) eqn:E34.
    + apply Z.eqb_eq in E34 as ->. unfold put. rewrite (proj2 (Nat.ltb_lt _ _)) by (rewrite !length_app; cbn; lia). cbn [obind].
      exists s, [34], gap1. unfold copied_to. rewrite length_app. cbn [length]. split; [|split; [done|split; [done|by exists [34]]]].
      rewrite <- (app_assoc out), insert_app_r_alt, Nat.sub_diag by lia. cbn [app insert list_insert]. rewrite <- ?app_assoc. do 3 f_equal. lia.
    + destruct (c =? 92) eqn:E92; [|cbn [obind]; apply Hgo; cbn; by rewrite E34, E92].
      assert (length out + length gap + 1 = length ((out ++ [c]) ++ gap1))%nat as Ei by (rewrite !length_app, Hg; cbn; lia).
      destruct s as [|d s]; cbn [app].
      * rewrite app_assoc, at_pre by done. cbn [obind]. change (0 =? 34) with false. rewrite <- app_assoc. apply Hgo. cbn. by rewrite E34, E92.
      * rewrite app_assoc, at_pre by done. cbn [obind]. destruct (d =? 34) eqn:Ed; [|rewrite <- app_assoc; apply Hgo; cbn; by rewrite E34, E92, Ed].
        rewrite <- app_assoc. apply nonul_cons in Hs as [_ Hs].
        destruct (put_gap (out ++ [c]) gap1 d (s ++ 0 :: rest) (length out + 1)) as (gap2 & -> & Hg2); [by rewrite length_app|]. cbn [obind].
        destruct (IH s ((out ++ [c]) ++ [d]) gap2 Hs) as (s' & w & gap' & Er & Hg' & Em & p & Ep); [cbn in Hf; lia|].
        rewrite !length_app, Hg2, Hg in Er. cbn [length] in Er. exists s', (c :: d :: w), gap'.
        replace (length out + length gap + 2)%nat with (length out + 1 + 1 + length gap)%nat by lia. replace (length out + 2)%nat with (length out + 1 + 1)%nat by lia.
        rewrite Er. unfold copied_to. rewrite <- !(app_assoc out). cbn [app]. split; [done|]. split; [lia|].
        split; [cbn; by rewrite E34, E92, Ed, Em|]. exists (c :: d :: p). by rewrite Ep.
Qed.

Definition minify_ok (fuel : nat) : Prop := forall s out gap rest, nonul s -> (length s < fuel)%nat ->
  exists gap', minify_loop fuel (out ++ gap ++ s ++ 0 :: rest) (length out + length gap) (length out)
    = Ok ((out ++ minified Plain s) ++ gap' ++ 0 :: rest, length (out ++ minified Plain s)).

(** A part [p] of the text is passed over. *)
Lemma minify_skip fuel p s out gap rest i : minify_ok fuel -> nonul s -> (length s < fuel)%nat ->
  i = (length out + length gap + length p)%nat ->
  exists gap', minify_loop fuel (out ++ gap ++ (p ++ s) ++ 0 :: rest) i (length out)
    = Ok ((out ++ minified Plain s) ++ gap' ++ 0 :: rest, length (out ++ minified Plain s)).
Proof.
  intros IH Hs Hf ->. destruct (IH s out (gap ++ p) rest Hs Hf) as (gap' & E). rewrite length_app in E. exists gap'.
  rewrite <- E, <- !app_assoc. f_equal; lia.
Qed.
Lemma nonul_app p s : nonul (p ++ s) -> nonul s.
Proof. by intros [_ ?]%Forall_app. Qed.

Lemma minify_slash fuel s out gap rest : minify_ok fuel -> nonul s -> (length s < fuel)%nat ->
  exists gap', (let* d := at_ (out ++ gap ++ (47 :: s) ++ 0 :: rest) (length out + length gap + 1) in
    let* json := if d =? 47 then skip_oneline_comment (out ++ gap ++ (47 :: s) ++ 0 :: rest) (length out + length gap) else
                 if d =? 42 then skip_multiline_comment (out ++ gap ++ (47 :: s) ++ 0 :: rest) (length out + length gap)
                 else Ok (length out + length gap + 1)%nat in
    minify_loop fuel (out ++ gap ++ (47 :: s) ++ 0 :: rest) json (length out))
  = Ok ((out ++ minified Plain (47 :: s)) ++ gap' ++ 0 :: rest, length (out ++ minified Plain (47 :: s))).
Proof.
  intros IH Hs Hf. assert (out ++ gap ++ (47 :: s) ++ 0 :: rest = (out ++ gap ++ [47]) ++ s ++ 0 :: rest) as Eb by (by rewrite <- !app_assoc).
  assert (length (out ++ gap ++ [47]) = (length out + length gap + 1)%nat) as El by (rewrite !length_app; cbn; lia).
  assert (at_ (out ++ gap ++ (47 :: s) ++ 0 :: rest) (length out + length gap + 1) = Ok (hd 0 s)) as Ed.
  { rewrite Eb. destruct s; cbn [app hd]; by apply at_pre. }
  rewrite Ed. cbn [obind]. clear Ed. destruct s as [|d s]; cbn [hd Z.eqb obind].
  { apply (minify_skip fuel [47] []); [done..|cbn; lia]. }
  apply nonul_cons in Hs as [Hd Hs]. cbn [length] in Hf.
  assert (out ++ gap ++ (47 :: d :: s) ++ 0 :: rest = (out ++ gap ++ [47; d]) ++ s ++ 0 :: rest) as Eb2 by (by rewrite <- !app_assoc).
  assert ((length out + length gap + 2)%nat = length (out ++ gap ++ [47; d])) as El2 by (rewrite !length_app; cbn; lia).
  assert (Nat.lt (length s) (S (length ((out ++ gap ++ [47; d]) ++ s ++ 0 :: rest)))) as Hlen by (rewrite !length_app; lia).
  (* behind a comment *)
  assert (forall m s', passed m s s' -> minified Plain (47 :: d :: s) = minified m s -> exists gap',
    minify_loop fuel (out ++ gap ++ (47 :: d :: s) ++ 0 :: rest) (length out + length gap + 2 + (length s - length s')) (length out)
    = Ok ((out ++ minified Plain (47 :: d :: s)) ++ gap' ++ 0 :: rest, length (out ++ minified Plain (47 :: d :: s)))) as Hgo.
  { intros m s' (p & -> & Em) E. rewrite E, Em. apply (minify_skip fuel (47 :: d :: p) s'); [done|by apply (nonul_app p)|rewrite length_app in Hf; lia|].
    rewrite length_app. cbn [length]. lia. }
  destruct (d =? 47) eqn:E47; [|destruct (d =? 42) eqn:E42].
  - destruct (oneline_spec s (out ++ gap ++ [47; d]) rest _ _ Hs Hlen El2) as (s' & Er & Hp). rewrite <- Eb2 in Er.
    unfold skip_oneline_comment. rewrite Er. cbn [obind]. apply (Hgo Line s' Hp). cbn [minified is_blank Z.eqb orb]. by rewrite E47.
  - destruct (multiline_spec s (out ++ gap ++ [47; d]) rest _ _ Hs Hlen El2) as (s' & Er & Hp). rewrite <- Eb2 in Er.
    unfold skip_multiline_comment. rewrite Er. cbn [obind]. apply (Hgo Block s' Hp). cbn [minified is_blank Z.eqb orb]. by rewrite E47, E42.
  - cbn [obind]. replace (minified Plain (47 :: d :: s)) with (minified Plain (d :: s)) by (cbn [minified is_blank Z.eqb orb]; by rewrite E47, E42).
    apply (minify_skip fuel [47] (d :: s)); [done|constructor; [by apply Z.eqb_neq|done]|cbn; lia|cbn; lia].
Qed.

Lemma minify_all fuel : minify_ok fuel.
Proof.
  induction fuel as [|fuel IH]; intros s out gap rest Hs Hf; [lia|]. cbn [minify_loop].
  destruct s as [|c s]; cbn [app].
  - rewrite app_assoc, at_pre by (by rewrite length_app). cbn. exists gap. by rewrite app_nil_r, <- app_assoc.
  - apply nonul_cons in Hs as [Hc Hs]. cbn [length] in Hf. pose proof (put_gap out gap c (s ++ 0 :: rest) (length out) eq_refl) as (gap1 & Ep & Hg).
    assert (at_ (out ++ gap ++ c :: s ++ 0 :: rest) (length out + length gap) = Ok c) as Ec by (rewrite app_assoc; apply at_pre; by rewrite length_app).
    rewrite Ec. cbn [obind]. rewrite Hc. destruct (is_blank c) eqn:Eb.
    + replace (minified Plain (c :: s)) with (minified Plain s) by (cbn; by rewrite Eb).
      apply (minify_skip fuel [c] s); [done..|lia|cbn; lia].
    + destruct (c =? 47) eqn:E47; [apply Z.eqb_eq in E47 as ->; apply (minify_slash fuel s out gap rest); [done..|lia]|].
      destruct (c =? 34) eqn:E34.
      * unfold minify_string. rewrite Ec. cbn [obind]. rewrite Ep. cbn [obind].
        destruct (string_spec (S (length ((out ++ [c]) ++ gap1 ++ s ++ 0 :: rest))) s (out ++ [c]) gap1 rest Hs) as (s' & w & gap2 & Er & Hg2 & Em & p & Es);
          [rewrite !length_app; lia|]. rewrite (length_app out), Hg in Er. cbn [length] in Er.
        replace (length out + length gap + 1)%nat with (length out + 1 + length gap)%nat by lia. rewrite Er. cbn [obind copied_to].
        destruct (IH s' ((out ++ [c]) ++ w) gap2 rest) as (gap' & E); [rewrite Es in Hs; by apply nonul_app in Hs|rewrite Es, length_app in Hf; lia|].
        exists gap'. rewrite E. replace (minified Plain (c :: s)) with (c :: w ++ minified Plain s') by (cbn; by rewrite Eb, E47, E34, Em).
        rewrite <- !app_assoc. cbn [app]. by rewrite <- ?app_assoc.
      * rewrite Ep. cbn [obind]. destruct (IH s (out ++ [c]) gap1 rest Hs) as (gap' & E); [lia|]. rewrite length_app, Hg in E. cbn [length] in E.
        exists gap'. replace (length out + length gap + 1)%nat with (length out + 1 + length gap)%nat by lia. rewrite E.
        replace (minified Plain (c :: s)) with (c :: minified Plain s) by (cbn; by rewrite Eb, E47, E34).
        rewrite <- !app_assoc. cbn [app]. by rewrite <- ?app_assoc.
Qed.

(** ** Properties of the result *)

Lemma minified_nonul m s : nonul s -> nonul (minified m s).
Proof.
  remember (length s) as n eqn:En. revert m s En. induction n as [n IH] using lt_wf_ind. intros m s En Hs.
  destruct s as [|c s]; [by destruct m|]. apply Forall_cons in Hs as [Hc Hs]. cbn [length] in En.
  pose proof (fun m s' H => IH (length s') H m s' eq_refl) as IH'. destruct m; cbn [minified]; repeat case_match; try apply Forall_cons; try (split; [done|]);
    repeat match goal with H : Forall _ (_ :: _) |- _ => apply Forall_cons in H as [? ?] end; try (apply Forall_cons; split; [done|]);
    try apply IH'; cbn [length] in *; try lia; try done; try constructor; try done.
Qed.

(** Nothing is left to remove. *)
Lemma minified_literal_head d s : exists r, minified Literal (d :: s) = d :: r.
Proof. cbn [minified]. repeat case_match; by eexists. Qed.
Lemma minified_idem n s : (length s <= n)%nat ->
  minified Plain (minified Plain s) = minified Plain s /\ minified Literal (minified Literal s) = minified Literal s
  /\ minified Plain (minified Line s) = minified Line s /\ minified Plain (minified Block s) = minified Block s.
Proof.
  revert s. induction n as [|n IH]; intros [|c s] Hn; try done; cbn [length] in Hn; [lia|].
  destruct (IH s ltac:(lia)) as (Ip & Il & In & Ib). split; [|split; [|split]]; cbn [minified].
  - destruct (is_blank c) eqn:Eb; [done|]. destruct (c =? 47) eqn:E47.
    + destruct s as [|d s]; [done|]. cbn [length] in Hn. destruct (IH s ltac:(lia)) as (_ & _ & In' & Ib').
      destruct (d =? 47); [done|]. by destruct (d =? 42).
    + destruct (c =? 34) eqn:E34; cbn [minified]; by rewrite Eb, E47, E34, ?Ip, ?Il.
  - destruct (c =? 34) eqn:E34; [cbn [minified]; by rewrite E34, Ip|]. destruct (c =? 92) eqn:E92; [|cbn [minified]; by rewrite E34, E92, Il].
    destruct s as [|d s]; [cbn [minified]; by rewrite E34, E92|]. cbn [length] in Hn. destruct (IH s ltac:(lia)) as (_ & Il' & _).
    destruct (d =? 34) eqn:Ed; [cbn [minified]; by rewrite E34, E92, Ed, Il'|].
    destruct (minified_literal_head d s) as [r Er]. rewrite Er in Il |- *. cbn [minified]. rewrite E34, E92, Ed. f_equal.
    cbn [minified] in Il. rewrite Ed in Il. exact Il.
  - by destruct (c =? 10).
  - destruct (c =? 42); [|done]. destruct s as [|d s]; [done|]. cbn [length] in Hn. destruct (IH s ltac:(lia)) as (Ip' & _). by destruct (d =? 47).
Qed.

(** The buffer keeps its size. *)
Lemma put_length buf p c buf' : put buf p c = Ok buf' -> length buf' = length buf.
Proof. unfold put. destruct (_ <? _)%nat; [|done]. intros [= <-]. by rewrite length_insert. Qed.
Lemma string_loop_length fuel buf i o buf' i' o' : string_loop fuel buf i o = Ok (buf', i', o') -> length buf' = length buf.
Proof.
  revert buf i o. induction fuel as [|fuel IH]; intros buf i o E; [done|]. cbn [string_loop] in E. obind_inv E.
  destruct (a =? 0); [by injection E as <- _ _|]. obind_inv E. pose proof (put_length _ _ _ _ E1) as L1. destruct (a =? 34).
  - obind_inv E. injection E as <- _ _. by rewrite (put_length _ _ _ _ E2).
  - obind_inv E. destruct a1; [|by rewrite (IH _ _ _ E)]. obind_inv E. obind_inv E.
    by rewrite (IH _ _ _ E), (put_length _ _ _ _ E4).
Qed.
Lemma minify_loop_length fuel buf j i buf' i' : minify_loop fuel buf j i = Ok (buf', i') -> length buf' = length buf.
Proof.
  revert buf j i. induction fuel as [|fuel IH]; intros buf j i E; [done|]. cbn [minify_loop] in E. obind_inv E.
  destruct (a =? 0); [by injection E as <- _|]. destruct (is_blank a); [by rewrite (IH _ _ _ E)|]. destruct (a =? 47).
  { obind_inv E. obind_inv E. by rewrite (IH _ _ _ E). }
  destruct (a =? 34); obind_inv E; [|by rewrite (IH _ _ _ E), (put_length _ _ _ _ E1)]. destruct a0 as [[b' j'] i1].
  rewrite (IH _ _ _ E). unfold minify_string in E1. obind_inv E1. obind_inv E1. by rewrite (string_loop_length _ _ _ _ _ _ _ E1), (put_length _ _ _ _ E3).
Qed.

Lemma minify_total (buf s : list Z) : text buf = Ok s ->
  exists buf', cJSON_Minify (Some buf) = Ok (Some buf') /\ text buf' = Ok (minified Plain s) /\ length buf' = length buf
    /\ minified Plain (minified Plain s) = minified Plain s.
Proof.
  intros Ht. destruct (text_inv _ _ Ht) as (Hs & rest & ->). unfold cJSON_Minify.
  destruct (minify_all (S (length (s ++ 0 :: rest))) s [] [] rest Hs) as (gap & E); [rewrite length_app; lia|]. cbn [app length Nat.add] in E.
  rewrite E. cbn [obind]. pose proof (minify_loop_length _ _ _ _ _ _ E) as El. set (r := minified Plain s) in *.
  unfold put. rewrite (proj2 (Nat.ltb_lt _ _)) by (rewrite !length_app; cbn; lia). cbn [obind]. eexists. split; [done|].
  split; [|split; [by rewrite length_insert, El|by apply (minified_idem (length s))]].
  rewrite insert_app_r_alt, Nat.sub_diag by lia. destruct gap as [|g gap]; cbn [app insert list_insert]; by apply text_app, minified_nonul.
Qed.

(** C32: [cJSON_Minify] returns on every C string without leaving its buffer, and the
    text it leaves is the one-pass removal of white space and comments outside of
    literals; to do it twice is to do it once. *)
Theorem minify_correct (buf s : list Z) : text buf = Ok s ->
  exists buf', cJSON_Minify (Some buf) = Ok (Some buf') /\ text buf' = Ok (minified Plain s) /\ length buf' = length buf
    /\ minified Plain (minified Plain s) = minified Plain s.
Proof. apply minify_total. Qed.

(** A literal whose last character is an escaped backslash, [["\\", "a b"]]. *)
Definition backslash_text : list Z := [91; 34; 92; 92; 34; 44; 32; 34; 97; 32; 98; 34; 93].
(** The quote behind an escaped backslash is taken for an escaped quote: from
    there on literals and the text between them change places, and minifying
    valid JSON removes a blank from a string. *)
Theorem minify_corrupts :
  cJSON_Minify (Some (backslash_text ++ [0])) = Ok (Some [91; 34; 92; 92; 34; 44; 32; 34; 97; 98; 34; 93; 0; 0])
  /\ exists t t', parse_buffer (backslash_text ++ [0]) = Ok (Some t) /\ parse_buffer (minified Plain backslash_text ++ [0]) = Ok (Some t')
       /\ item_valuestring <$> item_child t = [Some "\"%string; Some "a b"%string]
       /\ item_valuestring <$> item_child t' = [Some "\"%string; Some "ab"%string].
Proof.
  split; [by vm_compute|]. eexists _, _. split; [by vm_compute|]. split; [by vm_compute|]. split; by vm_compute.
Qed.

Lemma minify_correct_witness : exists buf',
  cJSON_Minify (Some (bytes_of "[1, /* two */ 2 ] // end" ++ [0])) = Ok (Some buf')
  /\ text buf' = Ok (bytes_of "[1,2]") /\ length buf' = length (bytes_of "[1, /* two */ 2 ] // end" ++ [0])
  /\ minified Plain (bytes_of "[1,2]") = bytes_of "[1,2]".
Proof. apply (minify_correct (bytes_of "[1, /* two */ 2 ] // end" ++ [0]) (bytes_of "[1, /* two */ 2 ] // end")). reflexivity. Defined.
