(* ===== verification/CJsonCopy.v ===== *)
(** Copies of cJSON trees (src/src/common/cJSON.c): allocation that may fail at
    any call, references, and [cJSON_Duplicate], which either copies a whole tree
    into new nodes or gives back all it has allocated. *)

From Stdlib Require Import ZArith Lia Bool Ascii String.
From stdpp Require Import base tactics numbers list strings gmap.
From S2P Require Import Prelude Text Double CJson.
From S2P Require Import CJsonHeap CJsonParse.

(** The allocator: any function of the number of earlier calls and of the heap,
    as long as it hands out addresses that are not in use. *)
Class Allocator := {
  malloc : nat -> gmap Z node -> option Z;
  malloc_fresh n h a : malloc n h = Some a -> a <> NULL /\ h !! a = None
}.

(** The heap of nodes, and the number of allocations so far. *)
Record mem := Mem { calls : nat; nodes : gmap Z node }.
Definition on_nodes (f : gmap Z node -> outcome (gmap Z node)) (m : mem) : outcome mem :=
  let* h := f (nodes m) in Ok (Mem (calls m) h).

Definition put_scalars (t v : Z) (d : double) (n : node) :=
  Node (n_next n) (n_prev n) (n_child n) t (n_valuestring n) v d (n_string n).
Definition put_valuestring (s : option string) (n : node) :=
  Node (n_next n) (n_prev n) (n_child n) (n_type n) s (n_valueint n) (n_valuedouble n) (n_string n).
Definition put_string (s : option string) (n : node) :=
  Node (n_next n) (n_prev n) (n_child n) (n_type n) (n_valuestring n) (n_valueint n) (n_valuedouble n) s.
Definition blank : node := Node NULL NULL NULL 0 None 0 dzero None.

Section Copy.
Context `{Allocator}.

Definition allocate (m : mem) : option Z * mem := (malloc (calls m) (nodes m), Mem (S (calls m)) (nodes m)).
Definition cJSON_New_Item (m : mem) : Z * mem :=
  match allocate m with
  | (Some a, m) => (a, Mem (calls m) (<[a := blank]> (nodes m)))
  | (None, m) => (NULL, m)
  end.
(** [cJSON_strdup]: whether the text could be copied. *)
Definition cJSON_strdup (m : mem) : bool * mem :=
  match allocate m with (Some _, m) => (true, m) | (None, m) => (false, m) end.

(** [create_reference]: a node that shares the children of [item]. *)
Definition as_reference (n : node) : node :=
  Node NULL NULL (n_child n) (Z.lor (n_type n) cJSON_IsReference) (n_valuestring n) (n_valueint n) (n_valuedouble n) None.
Definition create_reference (item : Z) (m : mem) : outcome (Z * mem) :=
  if item =? NULL then Ok (NULL, m) else
  let '(reference, m) := cJSON_New_Item m in
  if reference =? NULL then Ok (NULL, m) else
  let* n := load (nodes m) item in
  Ok (reference, Mem (calls m) (<[reference := as_reference n]> (nodes m))).
Definition cJSON_AddItemReferenceToArray (array item : Z) (m : mem) : outcome (bool * mem) :=
  if array =? NULL then Ok (false, m) else
  let* '(r, m) := create_reference item m in
  let* '(ok, h) := add_item_to_array array r (nodes m) in
  Ok (ok, Mem (calls m) h).

(** One text of a copy, which is allocated unless it is [shared]; [false] when
    that fails. *)
Definition dup_text (shared : bool) (put : option string -> node -> node) (s : option string) (newitem : Z) (m : mem)
    : outcome (bool * mem) :=
  match s with
  | None => Ok (true, m)
  | Some _ => let '(ok, m) := if shared then (true, m) else cJSON_strdup m in
              if ok : bool then let* m := on_nodes (store (put s) newitem) m in Ok (true, m) else Ok (false, m)
  end.
(** All fields of a copy but its links. *)
Definition dup_fields (newitem : Z) (n : node) (m : mem) : outcome (bool * mem) :=
  let* m := on_nodes (store (put_scalars (Z.ldiff (n_type n) cJSON_IsReference) (n_valueint n) (n_valuedouble n)) newitem) m in
  let* '(ok, m) := dup_text false put_valuestring (n_valuestring n) newitem m in
  if negb ok then Ok (false, m) else
  dup_text (has_flag (n_type n) cJSON_StringIsConst) put_string (n_string n) newitem m.

Definition dup_fail (newitem : Z) (m : mem) : outcome (Z * mem) :=
  let* m := on_nodes (cJSON_Delete (S (size (nodes m))) newitem) m in Ok (NULL, m).

(** One more child of the copy: behind [next], or the first. *)
Definition link_child (newitem next newchild : Z) (h : gmap Z node) : outcome (gmap Z node) :=
  if negb (next =? NULL) then suffix_object next newchild h else set_child newitem newchild h.

Fixpoint cJSON_Duplicate (fuel : nat) (item : Z) (recurse : bool) (m : mem) : outcome (Z * mem) :=
  match fuel with
  | O => Undef NoReturn
  | S fuel =>
      if item =? NULL then Ok (NULL, m) else
      let '(newitem, m) := cJSON_New_Item m in
      if newitem =? NULL then Ok (NULL, m) else
      let* n := load (nodes m) item in
      let* '(ok, m) := dup_fields newitem n m in
      if negb ok then dup_fail newitem m else
      if negb recurse then Ok (newitem, m) else
      let* n := load (nodes m) item in
      dup_children fuel newitem NULL (n_child n) m
  end
with dup_children (fuel : nat) (newitem next child : Z) (m : mem) : outcome (Z * mem) :=
  match fuel with
  | O => Undef NoReturn
  | S fuel =>
      if child =? NULL then Ok (newitem, m) else
      let* '(newchild, m) := cJSON_Duplicate fuel child true m in
      if newchild =? NULL then dup_fail newitem m else
      let* m := on_nodes (link_child newitem next newchild) m in
      let* c := load (nodes m) child in
      dup_children fuel newitem newchild (n_next c) m
  end.

(** ** Constructors *)

(** A new node with the fields [f] gives it, or NULL. *)
Definition create (f : node -> node) (m : mem) : outcome (Z * mem) :=
  let '(item, m) := cJSON_New_Item m in
  if item =? NULL then Ok (NULL, m) else let* m := on_nodes (store f item) m in Ok (item, m).
Definition put_type (t : Z) (n : node) := put_scalars t (n_valueint n) (n_valuedouble n) n.
Definition cJSON_CreateNull := create (put_type cJSON_NULL).
Definition cJSON_CreateTrue := create (put_type cJSON_True).
Definition cJSON_CreateFalse := create (put_type cJSON_False).
Definition cJSON_CreateBool (boolean : bool) := create (put_type (if boolean then cJSON_True else cJSON_False)).
Definition cJSON_CreateArray := create (put_type cJSON_Array).
Definition cJSON_CreateObject := create (put_type cJSON_Object).
(** Values that refer to a text or to children they do not own. *)
Definition cJSON_CreateStringReference (string : string) :=
  create (fun n => put_valuestring (Some string) (put_type (Z.lor cJSON_String cJSON_IsReference) n)).
Definition cJSON_CreateObjectReference (child : Z) :=
  create (fun n => put_child child (put_type (Z.lor cJSON_Object cJSON_IsReference) n)).
Definition cJSON_CreateArrayReference (child : Z) :=
  create (fun n => put_child child (put_type (Z.lor cJSON_Array cJSON_IsReference) n)).
Definition cJSON_CreateNumber (num : double) (m : mem) : outcome (Z * mem) :=
  let '(item, m) := cJSON_New_Item m in
  if item =? NULL then Ok (NULL, m) else
  let* valueint := saturate num in
  let* m := on_nodes (store (put_scalars cJSON_Number valueint num) item) m in Ok (item, m).
(** [cJSON_CreateString] and [cJSON_CreateRaw]. *)
Definition create_text (type : Z) (string : string) (m : mem) : outcome (Z * mem) :=
  let '(item, m) := cJSON_New_Item m in
  if item =? NULL then Ok (NULL, m) else
  let* m := on_nodes (store (put_type type) item) m in
  let '(ok, m) := cJSON_strdup m in
  if ok : bool then let* m := on_nodes (store (put_valuestring (Some string)) item) m in Ok (item, m)
  else dup_fail item m.
Definition cJSON_CreateString := create_text cJSON_String.
Definition cJSON_CreateRaw := create_text cJSON_Raw.

(** The loop of the array constructors; [n] makes the element for [numbers[i]],
    [p] is the element before it. *)
Fixpoint fill_array {A} (n : A -> mem -> outcome (Z * mem)) (numbers : list A) (a : Z) (count i : nat) (p : Z) (m : mem)
    : outcome (Z * mem) :=
  match count with
  | O => Ok (a, m)
  | S count =>
      match numbers !! i with
      | None => Undef OutOfBounds
      | Some x =>
          let* '(item, m) := n x m in
          if item =? NULL then dup_fail a m else
          let* m := on_nodes (if (i =? 0)%nat then set_child a item else suffix_object p item) m in
          fill_array n numbers a count (S i) item m
      end
  end.
Definition create_array {A} (n : A -> mem -> outcome (Z * mem)) (numbers : option (list A)) (count : Z) (m : mem)
    : outcome (Z * mem) :=
  match numbers with
  | None => Ok (NULL, m)
  | Some numbers =>
      if count <? 0 then Ok (NULL, m) else
      let* '(a, m) := cJSON_CreateArray m in
      if a =? NULL then Ok (NULL, m) else fill_array n numbers a (Z.to_nat count) 0 NULL m
  end.
Definition cJSON_CreateIntArray := create_array (fun n => cJSON_CreateNumber (double_of_Z n)).
(** The values of a [float] array are doubles already. *)
Definition cJSON_CreateFloatArray := create_array cJSON_CreateNumber.
Definition cJSON_CreateDoubleArray := create_array cJSON_CreateNumber.
Definition cJSON_CreateStringArray := create_array cJSON_CreateString.

(** [add_item_to_object] with the copy of the name it allocates, and the functions
    that add a new value: the value is deleted when it cannot be added. *)
Definition add_to_object (object : Z) (name : option string) (item : Z) (constant_key : bool) (m : mem)
    : outcome (bool * mem) :=
  let copies := match name with None => false | Some _ => true end && negb (object =? NULL) && negb (item =? NULL)
                && negb (object =? item) && negb constant_key in
  let '(copied, m) := if copies then cJSON_strdup m else (true, m) in
  let* '(ok, h) := add_item_to_object copied object name item constant_key (nodes m) in
  Ok (ok, Mem (calls m) h).
Definition add_new_to_object (new : mem -> outcome (Z * mem)) (object : Z) (name : option string) (m : mem)
    : outcome (Z * mem) :=
  let* '(item, m) := new m in
  let* '(ok, m) := add_to_object object name item false m in
  if ok : bool then Ok (item, m) else dup_fail item m.
Definition cJSON_AddItemToObject (object : Z) (name : option string) (item : Z) := add_to_object object name item false.
Definition cJSON_AddItemToObjectCS (object : Z) (name : option string) (item : Z) := add_to_object object name item true.
Definition cJSON_AddItemReferenceToObject (object : Z) (name : option string) (item : Z) (m : mem) : outcome (bool * mem) :=
  if (object =? NULL) || match name with None => true | Some _ => false end then Ok (false, m) else
  let* '(r, m) := create_reference item m in add_to_object object name r false m.
Definition cJSON_AddNullToObject := add_new_to_object cJSON_CreateNull.
Definition cJSON_AddTrueToObject := add_new_to_object cJSON_CreateTrue.
Definition cJSON_AddFalseToObject := add_new_to_object cJSON_CreateFalse.
Definition cJSON_AddBoolToObject (object : Z) (name : option string) (boolean : bool) :=
  add_new_to_object (cJSON_CreateBool boolean) object name.
Definition cJSON_AddNumberToObject (object : Z) (name : option string) (number : double) :=
  add_new_to_object (cJSON_CreateNumber number) object name.
Definition cJSON_AddStringToObject (object : Z) (name : option string) (string : string) :=
  add_new_to_object (cJSON_CreateString string) object name.
Definition cJSON_AddRawToObject (object : Z) (name : option string) (raw : string) :=
  add_new_to_object (cJSON_CreateRaw raw) object name.
Definition cJSON_AddObjectToObject := add_new_to_object cJSON_CreateObject.
Definition cJSON_AddArrayToObject := add_new_to_object cJSON_CreateArray.
End Copy.

(** ** Trees in the heap *)

Definition tree_of (n : node) (cs : list cJSON) : cJSON :=
  Item (n_type n) (n_valuestring n) (n_valueint n) (n_valuedouble n) (n_string n) cs.

(** The list of siblings that starts at an address stands for a list of trees.
    Nodes may be shared, as references do. *)
Inductive forest_at (h : gmap Z node) : Z -> list cJSON -> Prop :=
  | at_nil : forest_at h NULL []
  | at_cons a n cs ts : a <> NULL -> h !! a = Some n -> forest_at h (n_child n) cs ->
      forest_at h (n_next n) ts -> forest_at h a (tree_of n cs :: ts).
Definition tree_at (h : gmap Z node) (a : Z) (t : cJSON) : Prop :=
  exists n cs, a <> NULL /\ h !! a = Some n /\ forest_at h (n_child n) cs /\ t = tree_of n cs.

(** A tree with the nodes it is made of: the root, whose siblings do not matter,
    and its children, linked both ways, with no node before the first. *)
Inductive tree_own (h : gmap Z node) : Z -> cJSON -> list Z -> Prop :=
  | own_node a n l cs fp : h !! a = Some n -> n_child n = hd NULL l -> next_chain h l NULL -> prev_chain h NULL l ->
      trees_own h l cs fp -> tree_own h a (tree_of n cs) (a :: fp)
with trees_own (h : gmap Z node) : list Z -> list cJSON -> list Z -> Prop :=
  | owns_nil : trees_own h [] [] []
  | owns_cons a l t ts f1 f2 : tree_own h a t f1 -> trees_own h l ts f2 -> trees_own h (a :: l) (t :: ts) (f1 ++ f2).
Scheme tree_own_mut := Minimality for tree_own Sort Prop
  with trees_own_mut := Minimality for trees_own Sort Prop.
Combined Scheme tree_own_ind2 from tree_own_mut, trees_own_mut.

(** A copy refers to no node of another tree. *)
Fixpoint dup (t : cJSON) : cJSON :=
  let '(Item ty s v d k cs) := t in Item (Z.ldiff ty cJSON_IsReference) s v d k (map dup cs).
(** How deep the recursion of [cJSON_Duplicate] goes. *)
Fixpoint weight (t : cJSON) : nat :=
  let '(Item _ _ _ _ _ cs) := t in
  S ((fix wl ts := match ts with [] => 1%nat | t :: ts => S (Nat.max (weight t) (wl ts)) end) cs).
Fixpoint weights (ts : list cJSON) : nat :=
  match ts with [] => 1%nat | t :: ts => S (Nat.max (weight t) (weights ts)) end.
Lemma weight_tree n cs : weight (tree_of n cs) = S (weights cs).
Proof. cbn. f_equal. Qed.

(** The heap [h'] is [h] with a new tree for [t] at [a], made of the nodes [fp]. *)
Record new_tree (h h' : gmap Z node) (a : Z) (t : cJSON) (fp : list Z) : Prop := {
  nt_tree : tree_own h' a t fp;
  nt_next : nextf h' a = Some NULL;
  nt_prev : prevf h' a = Some NULL;
  nt_nodup : NoDup fp;
  nt_fresh : forall y, y ∈ fp -> y <> NULL /\ h !! y = None;
  nt_rest : forall y, y ∉ fp -> h' !! y = h !! y
}.
(** The outcome of making a tree: a new one, or no change at all when an
    allocation failed. *)
Definition exhausted `{Allocator} : Prop := exists k h, malloc k h = None.
Definition made `{Allocator} (h : gmap Z node) (t : cJSON) (r : Z) (h' : gmap Z node) : Prop :=
  (r = NULL /\ h' = h /\ exhausted) \/ exists fp, new_tree h h' r t fp.

Lemma forest_at_mono h h' a ts : forest_at h a ts -> h ⊆ h' -> forest_at h' a ts.
Proof.
  intros Hf Hs. induction Hf; [constructor|]. constructor; [done|by eapply lookup_weaken|done..].
Qed.
Lemma tree_at_mono h h' a t : tree_at h a t -> h ⊆ h' -> tree_at h' a t.
Proof.
  intros (n & cs & H0 & E & Hf & ->) Hs. exists n, cs. repeat split; [done|by eapply lookup_weaken|by eapply forest_at_mono].
Qed.

Lemma trees_roots h l ts fp : trees_own h l ts fp -> forall y, y ∈ l -> y ∈ fp.
Proof.
  induction 1 as [|a l t ts f1 f2 Ht Hts IH]; [done|]. intros y [->|Hy]%elem_of_cons; apply elem_of_app; [left|right; auto].
  destruct Ht. left.
Qed.
Lemma own_ext h h' :
  (forall a t fp, tree_own h a t fp -> (forall y, y ∈ fp -> h' !! y = h !! y) -> tree_own h' a t fp) /\
  (forall l ts fp, trees_own h l ts fp -> (forall y, y ∈ fp -> h' !! y = h !! y) -> trees_own h' l ts fp).
Proof.
  apply (tree_own_ind2 h (fun a t fp => (forall y, y ∈ fp -> h' !! y = h !! y) -> tree_own h' a t fp)
    (fun l ts fp => (forall y, y ∈ fp -> h' !! y = h !! y) -> trees_own h' l ts fp)).
  - intros a n l cs fp E Ec Hn Hp Ht IH He. apply own_node with (l := l); [|done| | |].
    + rewrite He; [done|left].
    + eapply next_chain_ext; [|done]. intros y Hy. unfold nextf. rewrite He; [done|]. right. by eapply trees_roots.
    + eapply prev_chain_ext; [|done]. intros y Hy. unfold prevf. rewrite He; [done|]. right. by eapply trees_roots.
    + apply IH. intros y Hy. apply He. by right.
  - constructor.
  - intros a l t ts f1 f2 _ IH1 _ IH2 He. constructor; [apply IH1|apply IH2]; intros y Hy; apply He, elem_of_app; auto.
Qed.
(** The links of the root are free. *)
Lemma tree_own_root h h' a t fp : tree_own h a t fp -> (forall y, y ∈ fp -> y <> a -> h' !! y = h !! y) -> NoDup fp ->
  contents h' a = contents h a -> childf h' a = childf h a -> tree_own h' a t fp.
Proof.
  intros Ht He Hnd Hc Hch. destruct Ht as [a n l cs fp E Ec Hn Hp Ht]. apply NoDup_cons in Hnd as [Ha Hnd].
  unfold contents, childf in *. rewrite E in *. destruct (h' !! a) as [n'|] eqn:E'; [|done]. cbn in *.
  replace (tree_of n cs) with (tree_of n' cs) by (unfold tree_of; congruence).
  assert (forall y, y ∈ fp -> h' !! y = h !! y) as He' by (intros y Hy; apply He; [by right|by intros ->]).
  apply own_node with (l := l); [done|congruence| | |].
  - eapply next_chain_ext; [|done]. intros y Hy. unfold nextf. rewrite He'; [done|]. by eapply trees_roots.
  - eapply prev_chain_ext; [|done]. intros y Hy. unfold prevf. rewrite He'; [done|]. by eapply trees_roots.
  - by apply (proj2 (own_ext h h')).
Qed.
Lemma trees_own_roots h h' l ts fp : trees_own h l ts fp -> NoDup fp -> (forall y, y ∈ fp -> y ∉ l -> h' !! y = h !! y) ->
  (forall y, y ∈ l -> contents h' y = contents h y /\ childf h' y = childf h y) -> trees_own h' l ts fp.
Proof.
  induction 1 as [|a l t ts f1 f2 Ht Hts IH]; [constructor|]. intros (Hn1 & Hd & Hn2)%NoDup_app He Hl. constructor.
  - apply (tree_own_root h); [done| |done|apply Hl; left|apply Hl; left]. intros y Hy Hya. apply He; [apply elem_of_app; auto|].
    rewrite not_elem_of_cons. split; [done|]. intros Hy'. apply (Hd y Hy). by eapply trees_roots.
  - apply IH; [done| |intros y Hy; apply Hl; by right]. intros y Hy Hyl. apply He; [apply elem_of_app; auto|].
    rewrite not_elem_of_cons. split; [|done]. intros ->. apply (Hd a); [|done]. destruct Ht. left.
Qed.
Lemma trees_own_snoc h l ts fp a t f : trees_own h l ts fp -> tree_own h a t f -> trees_own h (l ++ [a]) (ts ++ [t]) (fp ++ f).
Proof.
  induction 1 as [|b l t' ts f1 f2 Ht Hts IH]; intros Ha; cbn.
  - rewrite <- (app_nil_r f). constructor; [done|constructor].
  - rewrite <- app_assoc. constructor; [done|]. by apply IH.
Qed.

(** No node is a reference. *)
Fixpoint plain (t : cJSON) : Prop :=
  let '(Item ty _ _ _ _ cs) := t in
  has_flag ty cJSON_IsReference = false /\ (fix pl ts := match ts with [] => True | t :: ts => plain t /\ pl ts end) cs.
Fixpoint plains (ts : list cJSON) : Prop := match ts with [] => True | t :: ts => plain t /\ plains ts end.
Lemma plain_tree n cs : plain (tree_of n cs) <-> has_flag (n_type n) cJSON_IsReference = false /\ plains cs.
Proof. done. Qed.
Lemma plains_app ts1 ts2 : plains (ts1 ++ ts2) <-> plains ts1 /\ plains ts2.
Proof. induction ts1 as [|t ts1 IH]; cbn; [tauto|]. rewrite IH. tauto. Qed.
Lemma dup_plain t : plain (dup t).
Proof.
  revert t. fix IH 1. intros [ty s v d k cs]. split.
  - unfold has_flag. rewrite (proj2 (Z.eqb_eq _ _)); [done|]. apply Z.bits_inj'. intros i Hi.
    rewrite Z.land_spec, Z.ldiff_spec, Z.bits_0. destruct (Z.testbit cJSON_IsReference i), (Z.testbit ty i); done.
  - induction cs as [|t cs IHcs]; [done|]. split; [apply IH|exact IHcs].
Qed.

Lemma own_forest h : h !! NULL = None ->
  (forall a t fp, tree_own h a t fp -> plain t -> exists inner, fp = a :: inner /\ below h a inner) /\
  (forall l ts fp, trees_own h l ts fp -> plains ts -> next_chain h l NULL -> forest h (hd NULL l) fp).
Proof.
  intros H0. apply (tree_own_ind2 h (fun a t fp => plain t -> exists inner, fp = a :: inner /\ below h a inner)
    (fun l ts fp => plains ts -> next_chain h l NULL -> forest h (hd NULL l) fp)).
  - intros a n l cs fp E Ec Hn _ _ IH [Hf Hp]%plain_tree. exists fp. split; [done|]. exists n. split; [done|].
    unfold owned_child. rewrite Hf, Ec. by apply IH.
  - constructor.
  - intros a l t ts f1 f2 _ IH1 _ IH2 [Hp Hps] [Hn Hns]. destruct (IH1 Hp) as (inner & -> & n & E & Hf). cbn [app hd].
    assert (a <> NULL) by (intros ->; congruence). unfold nextf in Hn. rewrite E in Hn. injection Hn as Hn.
    apply (forest_node _ _ n); [done..|]. rewrite Hn. by apply IH2.
Qed.

(** Giving up: everything new is freed. *)
Lemma discard h h' a t fp : h !! NULL = None -> new_tree h h' a t fp -> plain t ->
  cJSON_Delete (S (size h')) a h' = Ok h.
Proof.
  intros H0 Hn Hp. assert (NULL ∉ fp) as Hnull by (intros Hin; by apply (nt_fresh _ _ _ _ _ Hn) in Hin as [? _]).
  assert (h' !! NULL = None) as H0' by (by rewrite (nt_rest _ _ _ _ _ Hn)).
  destruct (proj1 (own_forest h' H0') a t fp (nt_tree _ _ _ _ _ Hn) Hp) as (inner & -> & Hb).
  assert (a <> NULL) as Ha by (intros ->; apply Hnull; left).
  assert (forest h' a (a :: inner)) as Hf by (apply (below_alone h'); [done..|apply (nt_next _ _ _ _ _ Hn)|done|done]).
  rewrite (delete_all _ _ _ Hf (nt_nodup _ _ _ _ _ Hn)). f_equal. apply map_eq. intros y. rewrite lookup_freed. case_decide as Hy.
  - symmetry. by apply (nt_fresh _ _ _ _ _ Hn).
  - by apply (nt_rest _ _ _ _ _ Hn).
Qed.

(** ** Building a node with its children *)

Section Building.
Context (h : gmap Z node) (H0 : h !! NULL = None) (a : Z) (n : node).

(** [h1] is [h] with the new node [a], with the fields of [n] and the children [l]
    so far. *)
Record building (h1 : gmap Z node) (l : list Z) (ts : list cJSON) (fp : list Z) : Prop := {
  b_node : exists n', h1 !! a = Some n' /\ n_next n' = NULL /\ n_prev n' = NULL /\ n_child n' = hd NULL l
             /\ forall cs, tree_of n' cs = tree_of n cs;
  b_next : next_chain h1 l NULL;
  b_prev : prev_chain h1 NULL l;
  b_trees : trees_own h1 l ts fp;
  b_nodup : NoDup (a :: fp);
  b_fresh : forall y, y ∈ a :: fp -> y <> NULL /\ h !! y = None;
  b_rest : forall y, y ∉ a :: fp -> h1 !! y = h !! y
}.

Lemma building_tree h1 l ts fp : building h1 l ts fp -> new_tree h h1 a (tree_of n ts) (a :: fp).
Proof.
  intros [(n' & E & En & Ep & Ec & Et) Hn Hp Ht Hnd Hf Hr]. split; try done.
  - rewrite <- Et. by apply own_node with (l := l).
  - unfold nextf. by rewrite E; cbn; rewrite En.
  - unfold prevf. by rewrite E; cbn; rewrite Ep.
Qed.
Lemma building_null h1 l ts fp : building h1 l ts fp -> h1 !! NULL = None.
Proof. intros B. rewrite (b_rest _ _ _ _ B); [done|]. intros Hin. by apply (b_fresh _ _ _ _ B) in Hin as [? _]. Qed.
Lemma building_mono h1 l ts fp : building h1 l ts fp -> h ⊆ h1.
Proof.
  intros B. apply map_subseteq_spec. intros y v E. rewrite (b_rest _ _ _ _ B); [done|].
  intros Hin. apply (b_fresh _ _ _ _ B) in Hin as [_ ?]. congruence.
Qed.
Lemma building_start : a <> NULL -> h !! a = None -> n_next n = NULL -> n_prev n = NULL -> n_child n = NULL ->
  building (<[a := n]> h) [] [] [].
Proof.
  intros Ha Ef ? ? ?. split; try done.
  - exists n. by rewrite lookup_insert_eq.
  - constructor.
  - apply NoDup_singleton.
  - by intros y ->%list_elem_of_singleton.
  - intros y Hy. rewrite list_elem_of_singleton in Hy. by rewrite lookup_insert_ne.
Qed.

Lemma own_some h1 :
  (forall b t fp, tree_own h1 b t fp -> forall y, y ∈ fp -> is_Some (h1 !! y)) /\
  (forall l ts fp, trees_own h1 l ts fp -> forall y, y ∈ fp -> is_Some (h1 !! y)).
Proof.
  apply (tree_own_ind2 h1 (fun _ _ fp => forall y, y ∈ fp -> is_Some (h1 !! y)) (fun _ _ fp => forall y, y ∈ fp -> is_Some (h1 !! y))).
  - intros b n' l cs fp E _ _ _ _ IH y [->|Hy]%elem_of_cons; [by exists n'|auto].
  - by intros y ?%not_elem_of_nil.
  - intros b l t ts f1 f2 _ IH1 _ IH2 y [Hy|Hy]%elem_of_app; auto.
Qed.
Lemma building_some h1 l ts fp y : building h1 l ts fp -> y ∈ a :: fp -> is_Some (h1 !! y).
Proof.
  intros B [->|Hy]%elem_of_cons; [destruct (b_node _ _ _ _ B) as (n' & E & _); by exists n'|].
  exact (proj2 (own_some h1) l ts fp (b_trees _ _ _ _ B) y Hy).
Qed.

Section Link.
Context (h1 h2 : gmap Z node) (l : list Z) (ts : list cJSON) (fp : list Z) (c : Z) (t : cJSON) (f : list Z).
Context (B : building h1 l ts fp) (N : new_tree h1 h2 c t f).

Lemma link_apart y : y ∈ f -> y ∉ a :: fp.
Proof.
  intros Hy Hy'. apply (nt_fresh _ _ _ _ _ N) in Hy as [_ E]. destruct (building_some _ _ _ _ _ B Hy') as [v E']. congruence.
Qed.
Lemma link_kept y : y ∈ a :: fp -> h2 !! y = h1 !! y.
Proof. intros Hy. apply (nt_rest _ _ _ _ _ N). intros Hy'. by apply (link_apart y). Qed.
Lemma link_root : c ∈ f.
Proof. destruct (nt_tree _ _ _ _ _ N). left. Qed.

(** What the two ways to link have in common. *)
Lemma link_building h3 :
  (exists n', h3 !! a = Some n' /\ n_next n' = NULL /\ n_prev n' = NULL /\ n_child n' = hd NULL (l ++ [c])
      /\ forall cs, tree_of n' cs = tree_of n cs) ->
  (forall y, y ∈ l -> y <> List.last l NULL -> nextf h3 y = nextf h2 y) -> (l <> [] -> nextf h3 (List.last l NULL) = Some c) ->
  nextf h3 c = Some NULL -> (forall y, y ∈ l -> prevf h3 y = prevf h2 y) -> prevf h3 c = Some (List.last l NULL) ->
  (forall y, y <> a -> contents h3 y = contents h2 y /\ childf h3 y = childf h2 y) ->
  (forall y, y <> a -> y ∉ l -> y <> c -> h3 !! y = h2 !! y) ->
  building h3 (l ++ [c]) (ts ++ [t]) (fp ++ f).
Proof.
  intros Ha Hn Hn' Hc Hp Hpc Hs Hr. pose proof (b_nodup _ _ _ _ B) as [Hafp Hfp]%NoDup_cons.
  pose proof (trees_roots _ _ _ _ (b_trees _ _ _ _ B)) as Hroots. pose proof link_root as Hcf. pose proof link_apart as Hap.
  assert (c <> a /\ c ∉ fp) as [Hca Hcfp] by (by apply not_elem_of_cons, Hap).
  assert (forall y, y ∈ l -> y <> a) as Hla by (intros y Hy ->; by apply Hafp, Hroots).
  assert (forall y, y ∈ l -> h2 !! y = h1 !! y) as Hk by (intros y Hy; apply link_kept; right; auto).
  split.
  - done.
  - apply next_chain_app. split; [|done]. cbn [hd]. eapply (next_retarget h1); [|apply (b_next _ _ _ _ B)| |done].
    + assert (trees_own h1 l ts fp) as Ht by apply B. clear -Hfp Ht. induction Ht as [|b l t ts f1 f2 Hb Hts IH]; [constructor|].
      apply NoDup_app in Hfp as (_ & Hd & Hf2). constructor; [|auto]. intros Hbl. apply (Hd b); [destruct Hb; left|by eapply trees_roots].
    + intros y Hy Hy'. rewrite Hn by done. unfold nextf. by rewrite Hk.
  - apply prev_chain_app. split; [|done]. eapply prev_chain_ext; [|apply (b_prev _ _ _ _ B)].
    intros y Hy. rewrite Hp by done. unfold prevf. by rewrite Hk.
  - apply trees_own_snoc.
    + apply (trees_own_roots h1); [apply B|done| |].
      * intros y Hy Hyl. rewrite Hr; [apply link_kept; by right|by intros ->|done|by intros ->].
      * intros y Hy. specialize (Hs y (Hla y Hy)). unfold contents, childf in *. by rewrite <- Hk.
    + apply (tree_own_root h2); [apply N| |apply N|by apply Hs|by apply Hs]. intros y Hy Hyc.
      pose proof (Hap y Hy) as [? ?]%not_elem_of_cons. apply Hr; [done| |done]. intros Hyl. auto.
  - apply NoDup_cons. rewrite not_elem_of_app. split; [split; [done|]|].
    + intros Haf. apply (Hap a Haf). left.
    + apply NoDup_app. split; [done|]. split; [|apply N]. intros y Hy Hyf. apply (Hap y Hyf). by right.
  - intros y Hy. change (a :: fp ++ f) with ((a :: fp) ++ f) in Hy. apply elem_of_app in Hy as [Hy|Hy]; [by apply (b_fresh _ _ _ _ B)|].
    destruct (nt_fresh _ _ _ _ _ N y Hy) as [? E]. split; [done|]. by rewrite <- (b_rest _ _ _ _ B) by auto.
  - intros y Hy. rewrite not_elem_of_cons, not_elem_of_app in Hy. destruct Hy as (Hya & Hyfp & Hyf).
    rewrite Hr; [|done|auto|by intros ->]. rewrite (nt_rest _ _ _ _ _ N) by done. apply (b_rest _ _ _ _ B). by rewrite not_elem_of_cons.
Qed.

Lemma link_spec : exists h3, link_child a (List.last l NULL) c h2 = Ok h3 /\ building h3 (l ++ [c]) (ts ++ [t]) (fp ++ f).
Proof.
  pose proof link_root as Hcf. pose proof (link_apart c Hcf) as [Hca Hcfp]%not_elem_of_cons.
  pose proof (b_nodup _ _ _ _ B) as [Hafp _]%NoDup_cons. pose proof (trees_roots _ _ _ _ (b_trees _ _ _ _ B)) as Hroots.
  pose proof (nextf_some _ _ _ (nt_next _ _ _ _ _ N)) as Sc. pose proof (nt_next _ _ _ _ _ N). pose proof (nt_prev _ _ _ _ _ N).
  destruct (b_node _ _ _ _ B) as (n' & E & En & Ep & Ec & Et). rewrite <- (link_kept a) in E by left.
  assert (is_Some (h2 !! a)) as Sa by by eexists. unfold link_child. destruct (decide (l = [])) as [El|Hl].
  - rewrite El. change (negb (List.last [] NULL =? NULL)) with false. cbn [app]. unfold set_child. rewrite store_some by done.
    eexists. split; [done|]. pose proof link_building as Hb. rewrite El in *. apply Hb; try done.
    + exists (put_child c n'). rewrite lookup_alter_eq, E. done.
    + by intros y ?%not_elem_of_nil.
    + by fld.
    + by intros y ?%not_elem_of_nil.
    + by fld.
    + intros y Hy. by fld.
    + intros y Hy _ _. by rewrite lookup_alter_ne.
  - set (e := List.last l NULL). assert (e ∈ l) as He by (by apply last_in). assert (e ∈ fp) as Hef by auto.
    assert (c <> e) by (by intros ->). assert (a <> e) by (by intros ->).
    assert (is_Some (h2 !! e)) as Se by (rewrite link_kept by (by right); apply (building_some _ _ _ _ _ B); by right).
    assert ((e =? NULL) = false) as Hnull by (apply Z.eqb_neq; apply (b_fresh _ _ _ _ B e); by right). rewrite Hnull. cbn [negb].
    unfold suffix_object, set_next, set_prev. rewrite store_some by done. cbn [obind]. rewrite store_some by alters. eexists. split; [done|].
    apply link_building.
    + exists n'. rewrite !lookup_alter_ne by done. repeat split; try done. rewrite Ec. by destruct l.
    + intros y Hy Hne. by fld.
    + intros _. fold e. by fld.
    + by fld.
    + intros y Hy. assert (y <> c) by (intros ->; auto). by fld.
    + fold e. fld; alters.
    + intros y Hy. by fld.
    + intros y Hy Hyl Hyc. rewrite !lookup_alter_ne; [done|by intros <-|done].
Qed.
End Link.
End Building.

Section Duplicate.
Context `{Allocator}.

(** The node of a copy. *)
Definition copy_node (n : node) : node :=
  Node NULL NULL NULL (Z.ldiff (n_type n) cJSON_IsReference) (n_valuestring n) (n_valueint n) (n_valuedouble n) (n_string n).
Definition leaf (n : node) : Prop :=
  n_next n = NULL /\ n_prev n = NULL /\ n_child n = NULL /\ has_flag (n_type n) cJSON_IsReference = false.

Lemma store_fresh f a n h : store f a (<[a := n]> h) = Ok (<[a := f n]> h).
Proof. rewrite store_some by (by rewrite lookup_insert_eq). by rewrite alter_insert_eq. Qed.
Lemma cleared_flag t : has_flag (Z.ldiff t cJSON_IsReference) cJSON_IsReference = false.
Proof. destruct (dup_plain (Item t None 0 dzero None [])) as [E _]. exact E. Qed.

Lemma dup_text_spec shared put s h a n m : nodes m = <[a := n]> h -> put None n = n ->
  exists ok m' n', dup_text shared put s a m = Ok (ok, m') /\ nodes m' = <[a := n']> h
    /\ (if ok : bool then n' = put s n else n' = n /\ exhausted).
Proof.
  intros E En. unfold dup_text. destruct s as [s|]; [|by exists true, m, n].
  destruct (if shared then (true, m) else cJSON_strdup m) as [ok m1] eqn:E1.
  assert (nodes m1 = <[a := n]> h /\ (ok = false -> exhausted)) as [Em Hex].
  { destruct shared; [by injection E1 as <- <-|]. unfold cJSON_strdup, allocate in E1.
    destruct (malloc _ _) eqn:Em; injection E1 as <- <-; split; try done. intros _. by eexists _, _. }
  destruct ok; [|exists false, m1, n; auto]. unfold on_nodes. rewrite Em, store_fresh. cbn [obind]. by eexists true, _, _.
Qed.
Lemma dup_fields_spec h a n m : nodes m = <[a := blank]> h ->
  exists ok m' n', dup_fields a n m = Ok (ok, m') /\ nodes m' = <[a := n']> h /\ leaf n'
    /\ (if ok : bool then n' = copy_node n else exhausted).
Proof.
  intros E. pose proof (cleared_flag (n_type n)) as Hfl. unfold dup_fields, on_nodes. rewrite E, store_fresh. cbn [obind].
  edestruct (dup_text_spec false put_valuestring (n_valuestring n)) as (ok & m1 & n1 & -> & E1 & Hn1); [done..|]. cbn [obind].
  destruct ok; cbn [negb]; [|destruct Hn1 as [-> ?]; by eexists false, m1, _]. subst n1.
  edestruct (dup_text_spec (has_flag (n_type n) cJSON_StringIsConst) put_string (n_string n)) as (ok & m2 & n2 & -> & E2 & Hn2); [done..|].
  exists ok, m2, n2. split; [done|]. split; [done|]. destruct ok; [by subst n2|]. by destruct Hn2 as [-> ?].
Qed.

Lemma new_item_spec m : nodes m !! NULL = None ->
  (exists m', cJSON_New_Item m = (NULL, m') /\ nodes m' = nodes m /\ exhausted) \/
  (exists a m', cJSON_New_Item m = (a, m') /\ nodes m' = <[a := blank]> (nodes m) /\ a <> NULL /\ nodes m !! a = None).
Proof.
  intros H0. unfold cJSON_New_Item, allocate. destruct (malloc (calls m) (nodes m)) as [a|] eqn:E; [right|left]; cbn.
  - destruct (malloc_fresh _ _ _ E) as [Ha Hf]. by eexists _, _.
  - eexists. split; [done|]. split; [done|]. by eexists _, _.
Qed.

(** Giving up in the middle leaves the heap as it was at the start. *)
Lemma fail_spec h a t fp m : h !! NULL = None -> new_tree h (nodes m) a t fp -> plain t ->
  exists m', dup_fail a m = Ok (NULL, m') /\ nodes m' = h.
Proof.
  intros H0 Hn Hp. unfold dup_fail, on_nodes. rewrite (discard _ _ _ _ _ H0 Hn Hp). cbn [obind]. by eexists.
Qed.

Definition dup_ok (fuel : nat) : Prop := forall a t m, nodes m !! NULL = None -> tree_at (nodes m) a t -> (weight t <= fuel)%nat ->
  exists r m', cJSON_Duplicate fuel a true m = Ok (r, m') /\ made (nodes m) (dup t) r (nodes m').
Definition loop_ok (fuel : nat) : Prop := forall h a n l ts fp m child ts', h !! NULL = None ->
  building h a n (nodes m) l ts fp -> plain (tree_of n ts) -> forest_at h child ts' -> (weights ts' <= fuel)%nat ->
  exists r m', dup_children fuel a (List.last l NULL) child m = Ok (r, m')
    /\ ((r = NULL /\ nodes m' = h /\ exhausted) \/ (r = a /\ exists l' fp', building h a n (nodes m') l' (ts ++ map dup ts') fp')).

Lemma loop_step fuel : dup_ok fuel -> loop_ok fuel -> loop_ok (S fuel).
Proof.
  intros IHd IHl h a n l ts fp m child ts' H0 B Hp Hf Hw. cbn [dup_children].
  destruct Hf as [|child nc cs ts' Hc E Hcs Hts]; [exists a, m; split; [done|]; right; split; [done|]; cbn [map]; rewrite app_nil_r; by exists l, fp|].
  rewrite (proj2 (Z.eqb_neq child NULL) Hc). pose proof (building_null _ H0 _ _ _ _ _ _ B) as H1. pose proof (building_mono _ _ _ _ _ _ _ B) as Hs.
  cbn [weights] in Hw. destruct (IHd child (tree_of nc cs) m H1) as (c & m2 & -> & Hm); [|lia|].
  { apply (tree_at_mono h); [|done]. by exists nc, cs. }
  cbn [obind]. destruct Hm as [(-> & Em & Hex)|(f & N)].
  - change (NULL =? NULL) with true. cbn. destruct (fail_spec h a (tree_of n ts) (a :: fp) m2) as (m' & -> & E'); [done|rewrite Em; by eapply building_tree|done|].
    exists NULL, m'. split; [done|]. by left.
  - destruct (link_spec h a n (nodes m) (nodes m2) l ts fp c (dup (tree_of nc cs)) f B N) as (h3 & E3 & B3).
    pose proof (nt_fresh _ _ _ _ _ N c (link_root _ _ _ _ _ N)) as [Hcn _]. rewrite (proj2 (Z.eqb_neq c NULL) Hcn).
    unfold on_nodes at 1. rewrite E3. cbn [obind]. pose proof (building_mono _ _ _ _ _ _ _ B3) as Hs3.
    rewrite (load_some _ child nc) by (cbn [nodes]; by eapply lookup_weaken). cbn [obind].
    destruct (IHl h a n (l ++ [c]) (ts ++ [dup (tree_of nc cs)]) (fp ++ f) (Mem (calls m2) h3) (n_next nc) ts') as (r & m' & E' & Hr); try done; [|lia|].
    + apply plain_tree in Hp as [? ?]. apply plain_tree. split; [done|]. apply plains_app. split; [done|]. split; [apply dup_plain|done].
    + rewrite last_snoc in E'. exists r, m'. split; [done|]. cbn [map]. destruct Hr as [?|[-> (l' & fp' & B')]]; [by left|right].
      split; [done|]. exists l', fp'. by rewrite <- app_assoc in B'.
Qed.
Lemma dup_step fuel : loop_ok fuel -> dup_ok (S fuel).
Proof.
  intros IHl a t m H0 (n & cs & Ha & E & Hf & ->) Hw. rewrite weight_tree in Hw. cbn [cJSON_Duplicate].
  rewrite (proj2 (Z.eqb_neq a NULL) Ha). destruct (new_item_spec m H0) as [(m' & -> & Em & Hex)|(b & m1 & -> & E1 & Hb & Efb)].
  { exists NULL, m'. split; [done|]. by left. }
  rewrite (proj2 (Z.eqb_neq b NULL) Hb). rewrite E1. rewrite (load_some _ a n) by (rewrite lookup_insert_ne; [done|congruence]). cbn [obind].
  destruct (dup_fields_spec _ b n m1 E1) as (ok & m2 & n2 & -> & E2 & (Hl1 & Hl2 & Hl3 & Hl4) & Hn2). cbn [obind].
  pose proof (building_start (nodes m) b n2 Hb Efb Hl1 Hl2 Hl3) as B. rewrite <- E2 in B. destruct ok; cbn [negb].
  - rewrite (load_some _ a n) by (rewrite E2, lookup_insert_ne; [done|congruence]). cbn [obind].
    destruct (IHl _ b n2 [] [] [] m2 (n_child n) cs H0 B) as (r & m' & E' & Hr); [done|done|lia|]. exists r, m'. split; [done|].
    destruct Hr as [?|[-> (l' & fp' & B')]]; [by left|right]. exists (b :: fp'). rewrite Hn2 in B'. exact (building_tree _ _ _ _ _ _ _ B').
  - destruct (fail_spec (nodes m) b (tree_of n2 []) [b] m2) as (m' & -> & E'); [done|by eapply building_tree|done|].
    exists NULL, m'. split; [done|]. by left.
Qed.
Lemma dup_all fuel : dup_ok fuel /\ loop_ok fuel.
Proof.
  induction fuel as [|fuel [IHd IHl]].
  - split; [intros a t m _ (n & cs & _ & _ & _ & ->) Hw; rewrite weight_tree in Hw; lia|].
    intros h a n l ts fp m child [|? ?] ? ? ? ? Hw; cbn in Hw; lia.
  - split; [by apply dup_step|by apply loop_step].
Qed.

(** C29: [cJSON_Duplicate] of a whole tree, whatever the allocator does: either a copy
    made of nodes that were not in use, with every text and number of the original
    and no reference in it, or NULL with the heap exactly as it was, and only
    when an allocation failed; the nodes of the original are untouched. *)
Theorem duplicate_correct (fuel : nat) (a : Z) (t : cJSON) (m : mem) : nodes m !! NULL = None ->
  tree_at (nodes m) a t -> (weight t <= fuel)%nat ->
  exists r m', cJSON_Duplicate fuel a true m = Ok (r, m')
    /\ ((r = NULL /\ nodes m' = nodes m /\ exhausted) \/ exists fp, new_tree (nodes m) (nodes m') r (dup t) fp).
Proof. intros. by apply (proj1 (dup_all fuel)). Qed.
End Duplicate.

(** ** What the constructors make *)

Section Constructors.
Context `{Allocator}.

Lemma leaf_tree h a n : a <> NULL -> h !! a = None -> leaf n -> new_tree h (<[a := n]> h) a (tree_of n []) [a].
Proof. intros Ha Hf (? & ? & ? & _). eapply building_tree. by apply building_start. Qed.
Lemma leaf_plain n : leaf n -> plain (tree_of n []).
Proof. intros (_ & _ & _ & ?). by apply plain_tree. Qed.

Lemma create_spec f m : nodes m !! NULL = None -> leaf (f blank) ->
  exists r m', create f m = Ok (r, m') /\ made (nodes m) (tree_of (f blank) []) r (nodes m').
Proof.
  intros H0 Hl. unfold create. destruct (new_item_spec m H0) as [(m' & -> & Em & Hex)|(a & m' & -> & Em & Ha & Hf)].
  - exists NULL, m'. split; [done|]. by left.
  - rewrite (proj2 (Z.eqb_neq a NULL) Ha). unfold on_nodes. rewrite Em, store_fresh. cbn [obind]. eexists _, _. split; [done|].
    right. exists [a]. by apply leaf_tree.
Qed.
Lemma create_number_spec d v m : nodes m !! NULL = None -> saturate d = Ok v ->
  exists r m', cJSON_CreateNumber d m = Ok (r, m') /\ made (nodes m) (Item cJSON_Number None v d None []) r (nodes m').
Proof.
  intros H0 Hv. pose proof (create_spec (put_scalars cJSON_Number v d) m H0) as Hc. unfold cJSON_CreateNumber. unfold create in Hc.
  destruct (cJSON_New_Item m) as [item m1]. rewrite Hv. cbn [obind]. by apply Hc.
Qed.
Lemma create_text_spec t s m : nodes m !! NULL = None -> has_flag t cJSON_IsReference = false ->
  exists r m', create_text t s m = Ok (r, m') /\ made (nodes m) (Item t (Some s) 0 dzero None []) r (nodes m').
Proof.
  intros H0 Ht. unfold create_text. destruct (new_item_spec m H0) as [(m' & -> & Em & Hex)|(a & m' & -> & Em & Ha & Hf)].
  - exists NULL, m'. split; [done|]. by left.
  - rewrite (proj2 (Z.eqb_neq a NULL) Ha). unfold on_nodes at 1. rewrite Em, store_fresh. cbn [obind].
    unfold cJSON_strdup, allocate. cbn [calls nodes]. destruct (malloc _ _) eqn:E.
    + unfold on_nodes. cbn [nodes]. rewrite store_fresh. cbn [obind]. eexists _, _. split; [done|]. right. exists [a].
      by apply (leaf_tree _ _ (put_valuestring (Some s) (put_type t blank))).
    + edestruct (fail_spec (nodes m) a (tree_of (put_type t blank) []) [a]) as (m2 & -> & E2); [done| |by apply leaf_plain|].
      { cbn [nodes]. by apply leaf_tree. }
      exists NULL, m2. split; [done|]. left. split; [done|]. split; [done|]. by eexists _, _.
Qed.

Section Arrays.
Context {A : Type} (new : A -> mem -> outcome (Z * mem)) (tree : A -> cJSON).
Context (numbers : list A) (Hnew : forall x m, x ∈ numbers -> nodes m !! NULL = None ->
  exists r m', new x m = Ok (r, m') /\ made (nodes m) (tree x) r (nodes m')).
Context (Hplain : forall x, plain (tree x)).

Lemma fill_spec h a n count : h !! NULL = None -> has_flag (n_type n) cJSON_IsReference = false ->
  forall i l fp m, (i + count <= length numbers)%nat -> length l = i ->
  building h a n (nodes m) l (map tree (take i numbers)) fp ->
  exists r m', fill_array new numbers a count i (List.last l NULL) m = Ok (r, m')
    /\ made h (tree_of n (map tree (take (i + count) numbers))) r (nodes m').
Proof.
  intros H0 Hn. induction count as [|count IH]; intros i l fp m Hi Hl B; cbn [fill_array].
  - exists a, m. split; [done|]. right. exists (a :: fp). rewrite Nat.add_0_r. by eapply building_tree.
  - destruct (lookup_lt_is_Some_2 numbers i ltac:(lia)) as [x Ex]. rewrite Ex.
    destruct (Hnew x m (list_elem_of_lookup_2 _ _ _ Ex) (building_null _ H0 _ _ _ _ _ _ B)) as (c & m2 & -> & Hm). cbn [obind]. destruct Hm as [(-> & Em & Hex)|(f & N)].
    + change (NULL =? NULL) with true. cbv iota. destruct (fail_spec h a (tree_of n (map tree (take i numbers))) (a :: fp) m2 H0) as (m' & -> & E'); [rewrite Em; by eapply building_tree| |].
      * apply plain_tree. split; [done|]. clear -Hplain. induction (take i numbers); [done|]. by split.
      * exists NULL, m'. split; [done|]. by left.
    + destruct (link_spec h a n (nodes m) (nodes m2) l _ fp c (tree x) f B N) as (h3 & E3 & B3).
      pose proof (nt_fresh _ _ _ _ _ N c (link_root _ _ _ _ _ N)) as [Hcn _]. rewrite (proj2 (Z.eqb_neq c NULL) Hcn).
      assert ((if (i =? 0)%nat then set_child a c else suffix_object (List.last l NULL) c) (nodes m2) = Ok h3) as E3'.
      { rewrite <- E3. unfold link_child. destruct l as [|b l]; cbn [length] in Hl; subst i; [done|].
        rewrite (proj2 (Z.eqb_neq _ _)); [done|]. apply (b_fresh _ _ _ _ _ _ _ B). right.
        eapply trees_roots; [apply B|]. by apply last_in. }
      unfold on_nodes at 1. rewrite E3'. cbn [obind]. pose proof (IH (S i) (l ++ [c]) (fp ++ f) (Mem (calls m2) h3)) as IH'. rewrite last_snoc in IH'.
      replace (i + S count)%nat with (S i + count)%nat by lia. apply IH'; [lia|rewrite length_app; cbn; lia|].
      cbn [nodes]. rewrite (take_S_r _ _ _ Ex), map_app. exact B3.
Qed.

Lemma create_array_spec count m : nodes m !! NULL = None -> 0 <= count <= Z.of_nat (length numbers) ->
  exists r m', create_array new (Some numbers) count m = Ok (r, m')
    /\ made (nodes m) (Item cJSON_Array None 0 dzero None (map tree (take (Z.to_nat count) numbers))) r (nodes m').
Proof.
  intros H0 Hc. unfold create_array. rewrite (proj2 (Z.ltb_ge count 0)) by lia. unfold cJSON_CreateArray, create.
  destruct (new_item_spec m H0) as [(m' & -> & Em & Hex)|(a & m1 & -> & Em & Ha & Hf)].
  - exists NULL, m'. split; [done|]. by left.
  - rewrite (proj2 (Z.eqb_neq a NULL) Ha). unfold on_nodes. rewrite Em, store_fresh. cbn [obind].
    rewrite (proj2 (Z.eqb_neq a NULL) Ha).
    apply (fill_spec (nodes m) a (put_type cJSON_Array blank) (Z.to_nat count) H0 eq_refl 0 [] []); [lia|done|].
    by apply building_start.
Qed.
End Arrays.

Lemma create_double d m : d <> NaN -> nodes m !! NULL = None ->
  exists r m', cJSON_CreateNumber d m = Ok (r, m')
    /\ made (nodes m) (Item cJSON_Number None (match saturate d with Ok v => v | Undef _ => 0 end) d None []) r (nodes m').
Proof. intros Hd H0. destruct (saturate_total d Hd) as [v Ev]. rewrite Ev. by apply create_number_spec. Qed.

(** [cJSON_CreateIntArray]: a new array of the numbers, or no change at all when
    an allocation failed. *)
Theorem create_int_array_correct (numbers : list Z) (count : Z) (m : mem) : nodes m !! NULL = None ->
  0 <= count <= Z.of_nat (length numbers) ->
  exists r m', cJSON_CreateIntArray (Some numbers) count m = Ok (r, m')
    /\ made (nodes m) (Item cJSON_Array None 0 dzero None (map CJson.cJSON_CreateNumber (take (Z.to_nat count) numbers)))
         r (nodes m').
Proof.
  intros H0 Hc. apply create_array_spec; [|done..]. intros x m' _ H0'. apply create_double; [apply round64_no_nan|done].
Qed.

(** [cJSON_CreateStringArray]: the same for texts. *)
Theorem create_string_array_correct (strings : list string) (count : Z) (m : mem) : nodes m !! NULL = None ->
  0 <= count <= Z.of_nat (length strings) ->
  exists r m', cJSON_CreateStringArray (Some strings) count m = Ok (r, m')
    /\ made (nodes m) (Item cJSON_Array None 0 dzero None (map CJson.cJSON_CreateString (take (Z.to_nat count) strings)))
         r (nodes m').
Proof. intros H0 Hc. apply create_array_spec; [|done..]. intros x m' _ H0'. by apply create_text_spec. Qed.

(** ** Adding a new value to an object *)

Lemma new_tree_kept h h' a t fp y : new_tree h h' a t fp -> is_Some (h !! y) -> h' !! y = h !! y /\ y ∉ fp.
Proof.
  intros N [v E]. assert (y ∉ fp) as Hy by (intros Hy; apply (nt_fresh _ _ _ _ _ N) in Hy as [_ ?]; congruence).
  split; [by apply (nt_rest _ _ _ _ _ N)|done].
Qed.
Lemma new_tree_children h h' a t fp p l : new_tree h h' a t fp -> children h p l ->
  children h' p l /\ a ∉ p :: l /\ (all_named h l -> all_named h' l).
Proof.
  intros N Hl. pose proof (child_some _ _ _ Hl) as Hs.
  assert (forall y, y ∈ p :: l -> h' !! y = h !! y /\ y ∉ fp) as Hk by (intros y Hy; eapply new_tree_kept; [done|auto]).
  split; [|split].
  - eapply children_ext; [done| |intros y Hy; by apply Hk]. rewrite (nt_rest _ _ _ _ _ N); [apply (ch_null _ _ _ Hl)|].
    intros Hin. by apply (nt_fresh _ _ _ _ _ N) in Hin as [? _].
  - intros Ha. apply Hk in Ha as [_ Ha]. apply Ha. destruct (nt_tree _ _ _ _ _ N). left.
  - intros Hn. apply (all_named_contents h); [|done]. intros y Hy. unfold contents. rewrite (proj1 (Hk y ltac:(by right))). done.
Qed.

Lemma add_new_spec new t p l k m : children (nodes m) p l -> all_named (nodes m) l -> plain t ->
  (exists r m', new m = Ok (r, m') /\ made (nodes m) t r (nodes m')) ->
  exists r m', add_new_to_object new p (Some k) m = Ok (r, m') /\
    ((r = NULL /\ nodes m' = nodes m /\ exhausted) \/
     (nodes m !! r = None /\ children (nodes m') p (l ++ [r]) /\ all_named (nodes m') (l ++ [r])
      /\ (first_named false k (nodes m) l = NULL -> get_object_item p (Some k) false (nodes m') = Ok r)
      /\ exists fp, (forall y, y ∈ fp -> nodes m !! y = None)
           /\ forall y, y ∉ p :: l ++ fp -> nodes m' !! y = nodes m !! y)).
Proof.
  intros Hl Hn Hp (r & m1 & En & Hm). pose proof (ch_null _ _ _ Hl) as H0. pose proof (child_not_null _ _ _ Hl p ltac:(left)) as Hp0.
  unfold add_new_to_object, add_to_object. rewrite En. cbn [obind]. rewrite Hp0. cbn [negb andb]. destruct Hm as [(-> & Em & Hex)|(fp & N)].
  { change (NULL =? NULL) with true. cbn [negb andb obind]. unfold add_item_to_object. rewrite Hp0. change (NULL =? NULL) with true.
    cbn [orb obind]. unfold dup_fail, on_nodes. cbn. eexists _, _. split; [done|]. by left. }
  destruct (new_tree_children _ _ _ _ _ p l N Hl) as (Hl1 & Hr & Hn1). specialize (Hn1 Hn).
  assert (r ∈ fp) as Hrf by (destruct (nt_tree _ _ _ _ _ N); left). destruct (nt_fresh _ _ _ _ _ N r Hrf) as [Hr0 Hrn].
  pose proof Hr as [Hrp _]%not_elem_of_cons. rewrite (proj2 (Z.eqb_neq r NULL) Hr0), (proj2 (Z.eqb_neq p r)) by done. cbn [negb andb].
  unfold cJSON_strdup, allocate. destruct (malloc _ _) eqn:Ea; cbn [nodes calls].
  - destruct (object_add_spec (nodes m1) p l r k false false Hl1 Hn1 Hr (nt_next _ _ _ _ _ N)) as (h' & Er & Hc & Hnm & Hg & Hu).
    rewrite Er. cbn [obind]. eexists _, _. split; [done|]. right. cbn [nodes]. split; [done|]. split; [done|]. split; [done|]. split.
    + intros Hf. rewrite Hg, (first_named_ext _ _ (nodes m)), Hf; [done|]. intros y Hy. unfold contents.
      rewrite (proj1 (new_tree_kept _ _ _ _ _ y N ltac:(apply (child_some _ _ _ Hl); by right))). done.
    + exists fp. split; [intros y Hy; by apply (nt_fresh _ _ _ _ _ N)|]. intros y Hy. rewrite Hu by set_solver. apply (nt_rest _ _ _ _ _ N). set_solver.
  - unfold add_item_to_object. rewrite Hp0, (proj2 (Z.eqb_neq r NULL) Hr0), (proj2 (Z.eqb_neq p r)) by done. cbn [orb negb andb obind].
    destruct (fail_spec (nodes m) r t fp (Mem (S (calls m1)) (nodes m1)) H0 N Hp) as (m' & -> & E'). exists NULL, m'. split; [done|].
    left. split; [done|]. split; [done|]. by eexists _, _.
Qed.

(** [cJSON_AddStringToObject], which builds the answers of the programs: the text
    is appended under its name and found under it, in a node that was not in use;
    or, when an allocation failed, NULL is returned and nothing is left behind. *)
Theorem add_string_to_object_correct (p : Z) (l : list Z) (k s : string) (m : mem) :
  children (nodes m) p l -> all_named (nodes m) l ->
  exists r m', cJSON_AddStringToObject p (Some k) s m = Ok (r, m') /\
    ((r = NULL /\ nodes m' = nodes m /\ exhausted) \/
     (nodes m !! r = None /\ children (nodes m') p (l ++ [r]) /\ all_named (nodes m') (l ++ [r])
      /\ (first_named false k (nodes m) l = NULL -> get_object_item p (Some k) false (nodes m') = Ok r)
      /\ exists fp, (forall y, y ∈ fp -> nodes m !! y = None)
           /\ forall y, y ∉ p :: l ++ fp -> nodes m' !! y = nodes m !! y)).
Proof.
  intros Hl Hn. apply (add_new_spec (cJSON_CreateString s) (Item cJSON_String (Some s) 0 dzero None [])); [done..|].
  apply create_text_spec; [apply (ch_null _ _ _ Hl)|done].
Qed.
End Constructors.

(** ** An allocator that takes the address behind the last one in use, and fails at
    the calls given. *)

Definition last_address (h : gmap Z node) : Z := foldr Z.max 0 (map fst (map_to_list h)).
Lemma last_address_above h a n : h !! a = Some n -> a <= last_address h.
Proof.
  intros E%elem_of_map_to_list. unfold last_address.
  induction (map_to_list h) as [|[b n'] l IH]; [by apply not_elem_of_nil in E|]. cbn.
  apply elem_of_cons in E as [[= -> ->]|E]; [lia|]. specialize (IH E). lia.
Qed.
Lemma last_address_nonneg h : 0 <= last_address h.
Proof. unfold last_address. induction (map fst (map_to_list h)); cbn; lia. Qed.
#[refine] Instance bump (fails : nat -> bool) : Allocator := {
  malloc k h := if fails k then None else Some (last_address h + 1)
}.
Proof.
  intros k h a. destruct (fails k); [done|]. intros [= <-]. pose proof (last_address_nonneg h). split; [unfold NULL; lia|].
  destruct (h !! (last_address h + 1)) as [n|] eqn:E; [|done]. apply last_address_above in E. lia.
Defined.

Definition demo_tree : cJSON :=
  Item 64 None 0 dzero None
    [Item 32 None 0 dzero (Some "a"%string) [Item 8 None 7 (double_of_Z 7) None []];
     Item 16 (Some "v"%string) 0 dzero (Some "B"%string) []].
Lemma demo_tree_at : tree_at demo_heap 1 demo_tree.
Proof.
  eexists _, _. split; [done|]. split; [reflexivity|]. split; [|reflexivity].
  apply (at_cons _ 2 (Node 3 3 4 32 None 0 dzero (Some "a"%string))); [done..| |].
  - apply (at_cons _ 4 (Node 0 4 0 8 None 7 (double_of_Z 7) None)); [done..|constructor|constructor].
  - apply (at_cons _ 3 (Node 0 2 0 16 (Some "v"%string) 0 dzero (Some "B"%string))); [done..|constructor|constructor].
Qed.

Lemma duplicate_correct_witness : let _ := bump (fun _ => false) in
  exists r m', cJSON_Duplicate 9 1 true (Mem 0 demo_heap) = Ok (r, m')
    /\ ((r = NULL /\ nodes m' = demo_heap /\ exhausted) \/ exists fp, new_tree demo_heap (nodes m') r (dup demo_tree) fp).
Proof.
  intros A. apply (duplicate_correct 9 1 demo_tree (Mem 0 demo_heap)); [reflexivity|exact demo_tree_at|vm_compute; lia].
Defined.
(** The copy is made, and every failing call leaves the heap as it was. *)
Example duplicate_runs :
  (let _ := bump (fun _ => false) in
   match cJSON_Duplicate 9 1 true (Mem 0 demo_heap) with Ok (r, m) => r = 6 /\ size (nodes m) = 9%nat | Undef _ => False end)
  /\ forallb (fun k => let _ := bump (Nat.eqb k) in
       match cJSON_Duplicate 9 1 true (Mem 0 demo_heap) with
       | Ok (r, m) => (r =? NULL) && (size (nodes m) =? 5)%nat | Undef _ => false end) (seq 0 7) = true.
Proof. split; [vm_compute; done|vm_compute; reflexivity]. Qed.
(** [cJSON_AddItemReferenceToObject] does not free the reference it made when the
    name cannot be copied. *)
Example reference_leaks : let _ := bump (Nat.eqb 1) in
  match cJSON_AddItemReferenceToObject 1 (Some "c"%string) 5 (Mem 0 demo_heap) with
  | Ok (ok, m) => ok = false /\ size (nodes m) = S (size demo_heap)
  | Undef _ => False end.
Proof. vm_compute. done. Qed.
Lemma create_int_array_correct_witness : let _ := bump (fun _ => false) in
  exists r m', cJSON_CreateIntArray (Some [3; -1; 4]) 2 (Mem 0 demo_heap) = Ok (r, m')
    /\ made demo_heap (Item cJSON_Array None 0 dzero None (map CJson.cJSON_CreateNumber [3; -1])) r (nodes m').
Proof. intros A. apply (create_int_array_correct [3; -1; 4] 2 (Mem 0 demo_heap)); [reflexivity|cbn; lia]. Defined.
Lemma add_string_to_object_correct_witness : let _ := bump (fun _ => false) in
  exists r m', cJSON_AddStringToObject 1 (Some "code"%string) "005" (Mem 0 demo_heap) = Ok (r, m') /\
    ((r = NULL /\ nodes m' = demo_heap /\ exhausted) \/
     (demo_heap !! r = None /\ children (nodes m') 1 ([2; 3] ++ [r]) /\ all_named (nodes m') ([2; 3] ++ [r])
      /\ (first_named false "code" demo_heap [2; 3] = NULL -> get_object_item 1 (Some "code"%string) false (nodes m') = Ok r)
      /\ exists fp, (forall y, y ∈ fp -> demo_heap !! y = None)
           /\ forall y, y ∉ 1 :: [2; 3] ++ fp -> nodes m' !! y = demo_heap !! y)).
Proof. intros A. apply (add_string_to_object_correct 1 [2; 3] "code" "005" (Mem 0 demo_heap)); [exact demo_children|exact demo_named]. Defined.
