(* ===== verification/CJsonCompare.v ===== *)
(** The type tests and [cJSON_Compare] of cJSON (src/src/common/cJSON.c): a tree
    and its copy compare equal, unless an object has a name twice. *)

From Stdlib Require Import ZArith Lia Bool Ascii String.
From stdpp Require Import base tactics numbers list strings gmap.
From S2P Require Import Prelude Text Double CJson.
From S2P Require Import CJsonHeap CJsonCopy.

(** ** Type tests *)

Definition kind (t : Z) : Z := Z.land t 255.
Definition test_type (p : Z -> bool) (item : Z) (h : gmap Z node) : outcome bool :=
  if item =? NULL then Ok false else let* n := load h item in Ok (p (n_type n)).
Definition cJSON_IsInvalid := test_type (fun t => kind t =? 0).
Definition cJSON_IsFalse := test_type (fun t => kind t =? cJSON_False).
Definition cJSON_IsTrue := test_type (fun t => kind t =? cJSON_True).
Definition cJSON_IsBool := test_type (fun t => has_flag t (Z.lor cJSON_True cJSON_False)).
Definition cJSON_IsNull := test_type (fun t => kind t =? cJSON_NULL).
Definition cJSON_IsNumber := test_type (fun t => kind t =? cJSON_Number).
Definition cJSON_IsString := test_type (fun t => kind t =? cJSON_String).
Definition cJSON_IsArray := test_type (fun t => kind t =? cJSON_Array).
Definition cJSON_IsObject := test_type (fun t => kind t =? cJSON_Object).
Definition cJSON_IsRaw := test_type (fun t => kind t =? cJSON_Raw).

(** ** Comparison *)

Definition valid_kind (k : Z) : bool :=
  existsb (Z.eqb k) [cJSON_False; cJSON_True; cJSON_NULL; cJSON_Number; cJSON_String; cJSON_Raw; cJSON_Array; cJSON_Object].

Fixpoint cJSON_Compare (fuel : nat) (a b : Z) (case_sensitive : bool) (h : gmap Z node) : outcome bool :=
  match fuel with
  | O => Undef NoReturn
  | S fuel =>
      if (a =? NULL) || (b =? NULL) then Ok false else
      let* na := load h a in
      let* nb := load h b in
      let k := kind (n_type na) in
      if negb (k =? kind (n_type nb)) then Ok false else
      let* invalid := cJSON_IsInvalid a h in
      if (invalid : bool) || negb (valid_kind k) then Ok false else
      if a =? b then Ok true else
      if (k =? cJSON_False) || (k =? cJSON_True) || (k =? cJSON_NULL) then Ok true else
      if k =? cJSON_Number then Ok (compare_double (n_valuedouble na) (n_valuedouble nb)) else
      if (k =? cJSON_String) || (k =? cJSON_Raw) then
        match n_valuestring na, n_valuestring nb with
        | Some s, Some s' => Ok (String.eqb s s')
        | _, _ => Ok false
        end
      else if k =? cJSON_Array then compare_elements fuel (n_child na) (n_child nb) case_sensitive h
      else if k =? cJSON_Object then
        let* first := compare_members fuel (n_child na) b case_sensitive h in
        if negb first then Ok false else compare_members fuel (n_child nb) a case_sensitive h
      else Ok false
  end
with compare_elements (fuel : nat) (a_element b_element : Z) (case_sensitive : bool) (h : gmap Z node) : outcome bool :=
  match fuel with
  | O => Undef NoReturn
  | S fuel =>
      if negb (a_element =? NULL) && negb (b_element =? NULL) then
        let* same := cJSON_Compare fuel a_element b_element case_sensitive h in
        if negb same then Ok false else
        let* na := load h a_element in
        let* nb := load h b_element in
        compare_elements fuel (n_next na) (n_next nb) case_sensitive h
      else Ok (a_element =? b_element)
  end
(** Each member of one object against the member of that name in the other. *)
with compare_members (fuel : nat) (element other : Z) (case_sensitive : bool) (h : gmap Z node) : outcome bool :=
  match fuel with
  | O => Undef NoReturn
  | S fuel =>
      if element =? NULL then Ok true else
      let* n := load h element in
      let* match_ := get_object_item other (n_string n) case_sensitive h in
      if match_ =? NULL then Ok false else
      let* same := cJSON_Compare fuel element match_ case_sensitive h in
      if negb same then Ok false else
      compare_members fuel (n_next n) other case_sensitive h
  end.

(** ** Trees that are equal up to reference flags *)

(** The node at [a] stands for a tree whose copy is [u]. *)
Definition stands (h : gmap Z node) (a : Z) (u : cJSON) : Prop := exists t, tree_at h a t /\ dup t = u.
Definition stand (h : gmap Z node) (a : Z) (us : list cJSON) : Prop := exists ts, forest_at h a ts /\ map dup ts = us.

Definition names_match (cs : bool) (u v : cJSON) : Prop :=
  exists k k', item_string u = Some k /\ item_string v = Some k' /\ name_differs cs k (Some k') = false.
Definition unique_names (cs : bool) (us : list cJSON) : Prop :=
  Forall (fun u => exists k, item_string u = Some k) us /\ ForallOrdPairs (fun u v => ~ names_match cs u v) us.

(** What [cJSON_Compare] can find equal to itself. *)
Section Comparable.
Context (cs : bool).
Fixpoint comparable (u : cJSON) : Prop :=
  let '(Item t s _ d _ us) := u in
  valid_kind (kind t) = true
  /\ (kind t = cJSON_Number -> compare_double d d = true)
  /\ (kind t = cJSON_String \/ kind t = cJSON_Raw -> exists x, s = Some x)
  /\ (kind t = cJSON_Object -> unique_names cs us)
  /\ (fix all us := match us with [] => True | u :: us => comparable u /\ all us end) us.
Fixpoint comparables (us : list cJSON) : Prop :=
  match us with [] => True | u :: us => comparable u /\ comparables us end.
End Comparable.

(** ** Chains of siblings *)

Lemma forest_chain h a ts : forest_at h a ts ->
  exists l, hd NULL l = a /\ length l = length ts /\ next_chain h l NULL /\ NULL ∉ l.
Proof.
  induction 1 as [|a n cs ts H0 E _ _ _ (l & Hd & Hlen & Hn & Hnull)]; [exists []; repeat split; by apply not_elem_of_nil|].
  exists (a :: l). split; [done|]. split; [cbn; by rewrite Hlen|]. split; [|by apply not_elem_of_cons]. split; [|done].
  unfold nextf. rewrite E. cbn. by rewrite Hd.
Qed.
Lemma chain_functional h x l l' : next_chain h (x :: l) NULL -> next_chain h (x :: l') NULL -> NULL ∉ l -> NULL ∉ l' -> l = l'.
Proof.
  revert x l'. induction l as [|y l IH]; intros x [|y' l'] [E Hn] [E' Hn'] H0 H0'; cbn [hd] in *; rewrite E in E'; [done|..].
  - injection E' as E'. subst y'. destruct H0'. left.
  - injection E' as E'. subst y. destruct H0. left.
  - injection E' as E'. subst y'. f_equal. apply (IH y); [done..| |]; [intros ?; apply H0|intros ?; apply H0']; by right.
Qed.
Lemma chain_nodup h l : next_chain h l NULL -> NULL ∉ l -> NoDup l.
Proof.
  induction l as [|x l IH]; [constructor|]. intros Hn H0. pose proof Hn as [_ Hn']. rewrite not_elem_of_cons in H0. destruct H0 as [Hx H0].
  constructor; [|by apply IH]. intros (l1 & l2 & ->)%list_elem_of_split. pose proof Hn' as Hn2. apply next_chain_app in Hn2 as [_ Hn2].
  rewrite not_elem_of_app, not_elem_of_cons in H0. destruct H0 as (H1 & _ & H2).
  assert (l1 ++ x :: l2 = l2) as E; [|apply (f_equal length) in E; rewrite length_app in E; cbn in E; lia].
  apply (chain_functional h x); [done..| |done]. rewrite not_elem_of_app, not_elem_of_cons. done.
Qed.
Lemma forest_length h a ts : forest_at h a ts -> (length ts <= size h)%nat.
Proof.
  intros (l & _ & <- & Hn & H0)%forest_chain. pose proof (chain_nodup h l Hn H0) as Hnd.
  assert (list_to_set l ⊆ dom h) as Hsub.
  { intros y Hy%elem_of_list_to_set. apply elem_of_dom. by apply (next_chain_some h l NULL). }
  apply subseteq_size in Hsub. by rewrite size_list_to_set, size_dom in Hsub.
Qed.

(** ** Members by name *)

Lemma case_insensitive_sym k k' : case_insensitive_eq k k' = case_insensitive_eq k' k.
Proof. revert k'. induction k as [|c k IH]; intros [|c' k']; cbn; [done..|]. by rewrite IH, Ascii.eqb_sym. Qed.
Lemma name_differs_sym cs k k' : name_differs cs k (Some k') = name_differs cs k' (Some k).
Proof. cbn. destruct cs; [by rewrite String.eqb_sym | by rewrite case_insensitive_sym]. Qed.
Lemma dup_string n cs : item_string (dup (tree_of n cs)) = n_string n.
Proof. done. Qed.

Lemma find_at cs h k u fuel a ts : forest_at h a ts -> unique_names cs (map dup ts) -> u ∈ map dup ts ->
  item_string u = Some k -> (length ts < fuel)%nat ->
  exists r, find_child fuel cs k h a = Ok r /\ r <> NULL /\ stands h r u.
Proof.
  intros Hf. revert fuel. induction Hf as [|a n cs' ts H0 E Hcs _ Hts IH]; intros fuel [Hn Hu] Hin Hk Hlt; [by apply not_elem_of_nil in Hin|].
  destruct fuel as [|fuel]; [cbn in Hlt; lia|]. cbn [find_child]. rewrite (proj2 (Z.eqb_neq a NULL) H0), (load_some _ _ _ E). cbn [obind].
  cbn [map] in Hn, Hu, Hin. apply Forall_cons in Hn as [[k' Hk'] Hn]. inversion Hu as [|? ? Hd Hu']; subst. rewrite dup_string in Hk'. rewrite Hk'.
  apply elem_of_cons in Hin as [->|Hin].
  - rewrite dup_string in Hk. rewrite Hk' in Hk. injection Hk as ->. rewrite name_differs_refl. exists a. split; [done|]. split; [done|].
    exists (tree_of n cs'). split; [|done]. by exists n, cs'.
  - destruct (name_differs cs k (Some k')) eqn:Ed.
    + apply IH; [done..|cbn in Hlt; lia].
    + destruct (proj1 (Forall_forall _ _) Hd u Hin). exists k', k. split; [done|]. split; [done|]. by rewrite name_differs_sym.
Qed.
Lemma get_at cs h k u b nb ts : h !! b = Some nb -> b <> NULL -> forest_at h (n_child nb) ts -> unique_names cs (map dup ts) ->
  u ∈ map dup ts -> item_string u = Some k ->
  exists r, get_object_item b (Some k) cs h = Ok r /\ r <> NULL /\ stands h r u.
Proof.
  intros E H0 Hf Hu Hin Hk. unfold get_object_item. rewrite (proj2 (Z.eqb_neq b NULL) H0), (load_some _ _ _ E). cbn [obind].
  eapply find_at; [done..|]. pose proof (forest_length _ _ _ Hf). lia.
Qed.

(** ** A tree against one of the same value *)

Lemma kind_cleared t : kind (Z.ldiff t cJSON_IsReference) = kind t.
Proof.
  unfold kind. apply Z.bits_inj'. intros i Hi. rewrite !Z.land_spec, Z.ldiff_spec.
  destruct (Z.eq_dec i 8) as [->|Hne]; [by rewrite !andb_false_r|].
  replace (Z.testbit cJSON_IsReference i) with false; [by rewrite andb_true_r|].
  change cJSON_IsReference with (2 ^ 8). by rewrite Z.pow2_bits_false by lia.
Qed.

Lemma stands_node h a u : stands h a u -> exists n, a <> NULL /\ h !! a = Some n /\ stand h (n_child n) (item_child u)
  /\ u = tree_of (copy_node n) (item_child u).
Proof. intros (t & (n & cs & H0 & E & Hf & ->) & <-). exists n. split; [done|]. split; [done|]. split; [by exists cs|done]. Qed.
Lemma stand_cons h a u us : stand h a (u :: us) -> exists n, a <> NULL /\ h !! a = Some n /\ stands h a u /\ stand h (n_next n) us.
Proof.
  intros (ts & Hf & E). destruct Hf as [|a n cs ts H0 En Hcs Hts]; [done|]. injection E as E1 E2. exists n.
  split; [done|]. split; [done|]. split; [|by exists ts]. exists (tree_of n cs). split; [by exists n, cs|done].
Qed.
Lemma stand_nil h a : stand h a [] -> a = NULL.
Proof. intros (ts & Hf & E). by destruct Hf. Qed.

Section Compare.
Context (h : gmap Z node) (cs : bool).

Definition compare_ok (fuel : nat) : Prop := forall a b u, stands h a u -> stands h b u -> comparable cs u ->
  (weight u <= fuel)%nat -> cJSON_Compare fuel a b cs h = Ok true.
Definition elements_ok (fuel : nat) : Prop := forall a b us, stand h a us -> stand h b us -> comparables cs us ->
  (weights us <= fuel)%nat -> compare_elements fuel a b cs h = Ok true.
Definition members_ok (fuel : nat) : Prop := forall a us b nb us', stand h a us -> b <> NULL -> h !! b = Some nb ->
  stand h (n_child nb) us' -> unique_names cs us' -> (forall u, u ∈ us -> u ∈ us') -> comparables cs us ->
  (weights us <= fuel)%nat -> compare_members fuel a b cs h = Ok true.

Lemma compare_elements_step fuel : compare_ok fuel -> elements_ok fuel -> elements_ok (S fuel).
Proof.
  intros IHc IHe a b [|u us] Ha Hb Hc Hw; cbn [compare_elements].
  - by rewrite (stand_nil _ _ Ha), (stand_nil _ _ Hb).
  - apply stand_cons in Ha as (na & Ha0 & Ea & Ha & Han). apply stand_cons in Hb as (nb & Hb0 & Eb & Hb & Hbn).
    cbn [weights] in Hw. destruct Hc as [Hu Hus]. rewrite (proj2 (Z.eqb_neq a NULL) Ha0), (proj2 (Z.eqb_neq b NULL) Hb0). cbn [negb andb].
    rewrite (IHc a b u) by (done || lia). cbn [obind negb]. rewrite (load_some _ _ _ Ea), (load_some _ _ _ Eb). cbn [obind].
    apply (IHe _ _ us); [done..|lia].
Qed.
Lemma compare_members_step fuel : compare_ok fuel -> members_ok fuel -> members_ok (S fuel).
Proof.
  intros IHc IHm a [|u us] b nb us' Ha Hb0 Eb Hb Hu Hin Hc Hw; cbn [compare_members]; [by rewrite (stand_nil _ _ Ha)|].
  apply stand_cons in Ha as (na & Ha0 & Ea & Ha & Han). cbn [weights] in Hw. destruct Hc as [Hcu Hus].
  rewrite (proj2 (Z.eqb_neq a NULL) Ha0), (load_some _ _ _ Ea). cbn [obind].
  assert (u ∈ us') as Hu' by (apply Hin; left). pose proof (proj1 (Forall_forall _ _) (proj1 Hu) u Hu') as [k Hk].
  assert (n_string na = Some k) as Ek.
  { destruct (stands_node _ _ _ Ha) as (n & _ & E & _ & Eu). rewrite Ea in E. injection E as <-. rewrite Eu in Hk. exact Hk. }
  destruct Hb as (ts & Hf & Et). subst us'. destruct (get_at cs h k u b nb ts) as (r & Er & Hr0 & Hr); [done..|].
  rewrite Ek, Er. cbn [obind]. rewrite (proj2 (Z.eqb_neq r NULL) Hr0), (IHc a r u) by (done || lia). cbn [obind negb].
  apply (IHm _ us b nb (map dup ts)); [done..|by exists ts|done| |done|lia]. intros v Hv. apply Hin. by right.
Qed.
Lemma compare_step fuel : elements_ok fuel -> members_ok fuel -> compare_ok (S fuel).
Proof.
  intros IHe IHm a b u Ha Hb Hc Hw. destruct (stands_node _ _ _ Ha) as (na & Ha0 & Ea & Hca & Eu).
  destruct (stands_node _ _ _ Hb) as (nb & Hb0 & Eb & Hcb & Eu'). destruct u as [t s v d k us]. cbn [item_child] in *.
  change (weight (Item t s v d k us)) with (S (weights us)) in Hw. unfold tree_of, copy_node in Eu, Eu'. cbn in Eu, Eu'.
  injection Eu as Et Es _ Ed _. injection Eu' as Et' Es' _ Ed' _.
  assert (kind (n_type na) = kind t) as Ka by (by rewrite Et, kind_cleared).
  assert (kind (n_type nb) = kind t) as Kb by (by rewrite Et', kind_cleared).
  destruct Hc as (Hv & Hnum & Hstr & Hobj & Hus). change (comparables cs us) in Hus. cbn [cJSON_Compare].
  rewrite (proj2 (Z.eqb_neq a NULL) Ha0), (proj2 (Z.eqb_neq b NULL) Hb0). cbn [orb]. rewrite (load_some _ _ _ Ea), (load_some _ _ _ Eb). cbn [obind].
  rewrite Ka, Kb, Z.eqb_refl. cbn [negb]. unfold cJSON_IsInvalid, test_type. rewrite (proj2 (Z.eqb_neq a NULL) Ha0), (load_some _ _ _ Ea). cbn [obind].
  rewrite Ka, Hv. cbn [negb]. rewrite orb_false_r. destruct (Z.eqb_spec (kind t) 0) as [Ez|_]; [by rewrite Ez in Hv|].
  destruct (a =? b); [done|]. destruct ((kind t =? cJSON_False) || (kind t =? cJSON_True) || (kind t =? cJSON_NULL)) eqn:Ek1; [done|]. destruct (kind t =? cJSON_Number) eqn:Ek2.
  { rewrite <- Ed, <- Ed', Hnum; [done|by apply Z.eqb_eq]. }
  destruct ((kind t =? cJSON_String) || (kind t =? cJSON_Raw)) eqn:Ek3.
  { destruct Hstr as [x Ex]; [apply orb_true_iff in Ek3 as [?%Z.eqb_eq|?%Z.eqb_eq]; auto|]. rewrite <- Es, <- Es', Ex. by rewrite String.eqb_refl. }
  destruct (kind t =? cJSON_Array) eqn:Ek4; [apply (IHe _ _ us); [done..|lia]|]. destruct (kind t =? cJSON_Object) eqn:Ek5.
  - specialize (Hobj (proj1 (Z.eqb_eq _ _) Ek5)). rewrite (IHm _ us b nb us) by (done || lia). cbn [obind negb]. apply (IHm _ us a na us); done || lia.
  - apply orb_false_iff in Ek1 as [[? ?]%orb_false_iff ?]. apply orb_false_iff in Ek3 as [? ?]. unfold valid_kind in Hv. cbn [existsb] in Hv.
    repeat match goal with E : (kind t =? _) = false |- _ => rewrite E in Hv; clear E end. done.
Qed.
Lemma compare_all fuel : compare_ok fuel /\ elements_ok fuel /\ members_ok fuel.
Proof.
  induction fuel as [|fuel (IHc & IHe & IHm)].
  - split; [intros a b [] _ _ _ Hw; cbn in Hw; lia|]. split; [intros a b [] _ _ _ Hw; cbn in Hw; lia|].
    intros a [] b nb us' _ _ _ _ _ _ _ Hw; cbn in Hw; lia.
  - split; [by apply compare_step|]. split; [by apply compare_elements_step|by apply compare_members_step].
Qed.
End Compare.


(** An object with a name twice: an array of two such objects of the same value.
    [1] is the array, [2] and [3] are the objects, both of them
    {"a": null, "a": true}. *)
Definition twice_heap : gmap Z node :=
  <[1 := Node 0 0 2 32 None 0 dzero None]>
  (<[2 := Node 3 3 4 64 None 0 dzero None]> (<[3 := Node 0 2 6 64 None 0 dzero None]>
  (<[4 := Node 5 5 0 4 None 0 dzero (Some "a"%string)]> (<[5 := Node 0 4 0 2 None 0 dzero (Some "a"%string)]>
  (<[6 := Node 7 7 0 4 None 0 dzero (Some "a"%string)]> (<[7 := Node 0 6 0 2 None 0 dzero (Some "a"%string)]> ∅)))))).

(** A name that occurs twice breaks it: the second member is compared with the
    first of that name. *)
Theorem compare_duplicate_names (cs : bool) :
  (exists t, tree_at twice_heap 2 t /\ tree_at twice_heap 3 t) /\ cJSON_Compare 9 2 3 cs twice_heap = Ok false.
Proof.
  split; [|by destruct cs; vm_compute].
  exists (Item 64 None 0 dzero None [Item 4 None 0 dzero (Some "a"%string) []; Item 2 None 0 dzero (Some "a"%string) []]).
  split; (eexists _, _; split; [done|]; split; [reflexivity|]; split; [|reflexivity]).
  - apply (at_cons _ 4 (Node 5 5 0 4 None 0 dzero (Some "a"%string))); [done..|constructor|].
    apply (at_cons _ 5 (Node 0 4 0 2 None 0 dzero (Some "a"%string))); [done..|constructor|constructor].
  - apply (at_cons _ 6 (Node 7 7 0 4 None 0 dzero (Some "a"%string))); [done..|constructor|].
    apply (at_cons _ 7 (Node 0 6 0 2 None 0 dzero (Some "a"%string))); [done..|constructor|constructor].
Qed.

(** Two stored objects {"a": null, "B": "v"}. *)
Definition pair_heap : gmap Z node :=
  <[2 := Node 3 3 4 64 None 0 dzero None]> (<[3 := Node 0 2 6 64 None 0 dzero None]>
  (<[4 := Node 5 5 0 4 None 0 dzero (Some "a"%string)]> (<[5 := Node 0 4 0 16 (Some "v"%string) 0 dzero (Some "B"%string)]>
  (<[6 := Node 7 7 0 4 None 0 dzero (Some "a"%string)]> (<[7 := Node 0 6 0 16 (Some "v"%string) 0 dzero (Some "B"%string)]> ∅))))).
Definition pair_tree : cJSON :=
  Item 64 None 0 dzero None [Item 4 None 0 dzero (Some "a"%string) []; Item 16 (Some "v"%string) 0 dzero (Some "B"%string) []].
Lemma pair_trees : tree_at pair_heap 2 pair_tree /\ tree_at pair_heap 3 pair_tree.
Proof.
  split; (eexists _, _; split; [done|]; split; [reflexivity|]; split; [|reflexivity]).
  - apply (at_cons _ 4 (Node 5 5 0 4 None 0 dzero (Some "a"%string))); [done..|constructor|].
    apply (at_cons _ 5 (Node 0 4 0 16 (Some "v"%string) 0 dzero (Some "B"%string))); [done..|constructor|constructor].
  - apply (at_cons _ 6 (Node 7 7 0 4 None 0 dzero (Some "a"%string))); [done..|constructor|].
    apply (at_cons _ 7 (Node 0 6 0 16 (Some "v"%string) 0 dzero (Some "B"%string))); [done..|constructor|constructor].
Qed.
Lemma pair_comparable : comparable false (dup pair_tree).
Proof.
  cbn. repeat split; try done; try (intros E; vm_compute in E; by destruct E || done).
  - repeat constructor; by eexists.
  - repeat constructor. intros (k & k' & [= <-] & [= <-] & E). done.
  - by eexists.
Qed.
