(* ===== verification/CJsonRoundtrip.v ===== *)
(** Reading back what was printed: [cJSON_Parse] after [cJSON_Print]. *)

From Stdlib Require Import ZArith Lia Bool Ascii String.
From stdpp Require Import base tactics numbers list strings.
From S2P Require Import Prelude CString Text Double CJson CJsonParse CJsonPrint.

(** ** Trees as the parser builds them *)

(** A number that its text stands for. *)
Definition number_ok (d : double) (valueint : Z) : bool :=
  let t := number_text d in
  bool_decide (strtod t = (d, length t)) && forallb number_char t
  && match t with c :: _ => (c =? 45) || is_digit c | [] => false end
  && bool_decide (saturate d = Ok valueint).

Definition text_ok (s : string) : Prop := nonul (bytes_of s).

(** [depth] arrays and objects are open around the item. *)
Inductive well_formed (depth : nat) : cJSON -> Prop :=
  | wf_null n : well_formed depth (Item cJSON_NULL None 0 dzero n [])
  | wf_false n : well_formed depth (Item cJSON_False None 0 dzero n [])
  | wf_true n : well_formed depth (Item cJSON_True None 1 dzero n [])
  | wf_number v d n : number_ok d v = true -> well_formed depth (Item cJSON_Number None v d n [])
  | wf_string s n : text_ok s -> well_formed depth (Item cJSON_String (Some s) 0 dzero n [])
  | wf_array c n : (depth < CJSON_NESTING_LIMIT)%nat ->
      Forall (fun x => well_formed (S depth) x /\ item_string x = None) c ->
      well_formed depth (Item cJSON_Array None 0 dzero n c)
  | wf_object c n : (depth < CJSON_NESTING_LIMIT)%nat ->
      Forall (fun x => well_formed (S depth) x /\ exists s, item_string x = Some s /\ text_ok s) c ->
      well_formed depth (Item cJSON_Object None 0 dzero n c).

Definition no_name (item : cJSON) : cJSON := let '(Item t s v d _ c) := item in Item t s v d None c.

(** ** White space *)

Definition blank (w : list Z) : Prop := Forall (fun c => c <= 32) w.

Lemma skip_blank w c r : blank w -> 32 < c -> buffer_skip_whitespace (w ++ c :: r) = c :: r.
Proof.
  intros Hw Hc. induction Hw as [|x w Hx Hw IH]; cbn [app buffer_skip_whitespace].
  - by rewrite (proj2 (Z.leb_gt c 32)).
  - rewrite (proj2 (Z.leb_le x 32) Hx). rewrite IH. by destruct (w ++ c :: r) eqn:E; [destruct w|].
Qed.
Lemma skip_idem r : buffer_skip_whitespace (buffer_skip_whitespace r) = buffer_skip_whitespace r.
Proof.
  induction r as [|c r IH]; [done|]. cbn [buffer_skip_whitespace]. destruct (c <=? 32) eqn:E.
  - destruct r as [|c' r]; [cbn; by rewrite E|]. done.
  - cbn. by rewrite E.
Qed.

Lemma blank_tabs n : blank (replicate n 9).
Proof. apply Forall_replicate. lia. Qed.
Lemma blank_ws b w : blank w -> blank (ws b w).
Proof. destruct b; [done|constructor]. Qed.
Lemma blank_one c : c <= 32 -> blank [c].
Proof. intros. by apply Forall_singleton. Qed.
#[local] Hint Resolve blank_tabs blank_ws : core.

(** ** Strings *)

(** The codes of the bytes below 32. *)
Definition hex_escape_ok (c : Z) : bool :=
  (parse_hex4 48 48 (hex_char (c / 16)) (hex_char (c mod 16)) =? c)
  && bool_decide (encode_utf8 c = Some [c]).
Lemma hex_escape c : 0 <= c < 32 ->
  parse_hex4 48 48 (hex_char (c / 16)) (hex_char (c mod 16)) = c /\ encode_utf8 c = Some [c].
Proof.
  intros Hc. assert (hex_escape_ok c = true) as H.
  { apply (seqZ_forallb hex_escape_ok 0 32); [vm_compute; reflexivity | done]. }
  apply andb_true_iff in H as [H1%Z.eqb_eq H2%bool_decide_eq_true]. done.
Qed.

(** The three shapes of an escaped byte. *)
Lemma escape_cases c : 0 <= c ->
  (escape c = [c] /\ c <> 34 /\ c <> 92) \/
  (exists e, escape c = [92; e] /\ e <> 117 /\ escape_char e = Some c) \/
  (c < 32 /\ escape c = [92; 117; 48; 48; hex_char (c / 16); hex_char (c mod 16)]).
Proof.
  intros Hc. destruct (Z.eqb_spec c 34) as [->|H34]; [right; left; by exists 34|].
  destruct (Z.eqb_spec c 92) as [->|H92]; [right; left; by exists 92|].
  destruct (Z.eqb_spec c 8) as [->|H8]; [right; left; by exists 98|].
  destruct (Z.eqb_spec c 12) as [->|H12]; [right; left; by exists 102|].
  destruct (Z.eqb_spec c 10) as [->|H10]; [right; left; by exists 110|].
  destruct (Z.eqb_spec c 13) as [->|H13]; [right; left; by exists 114|].
  destruct (Z.eqb_spec c 9) as [->|H9]; [right; left; by exists 116|].
  unfold escape. rewrite !(proj2 (Z.eqb_neq _ _)) by done. cbn [negb]. rewrite !andb_true_r.
  destruct (Z.ltb_spec 31 c); [by left|]. right. right. split; [lia|done].
Qed.

Lemma hex_char_plain v : 0 <= v < 16 -> hex_char v <> 34 /\ hex_char v <> 92.
Proof. intros Hv. unfold hex_char. destruct (Z.ltb_spec v 10); lia. Qed.

Lemma string_end_plain c r : c <> 34 -> c <> 92 ->
  string_end (c :: r) = '(lit, n, r') ← string_end r; Some (c :: lit, n, r').
Proof. intros H1 H2. cbn. by rewrite (proj2 (Z.eqb_neq c 34) H1), (proj2 (Z.eqb_neq c 92) H2). Qed.

Lemma string_end_escape c r lit n r' : 0 <= c -> string_end r = Some (lit, n, r') ->
  exists m, string_end (escape c ++ r) = Some (escape c ++ lit, m, r').
Proof.
  intros Hc E. destruct (escape_cases c Hc) as [(-> & H1 & H2)|[(e & -> & _)|(Hlt & ->)]].
  - exists n. cbn [app]. by rewrite string_end_plain, E.
  - exists (S n). cbn. by rewrite E.
  - exists (S n). cbn [app]. pose proof (Z.mod_pos_bound c 16 ltac:(lia)).
    assert (0 <= c / 16 < 16) by (split; [apply Z.div_pos; lia | apply Z.div_lt_upper_bound; lia]).
    destruct (hex_char_plain (c / 16)) as [A1 A2]; [done|]. destruct (hex_char_plain (c mod 16)) as [B1 B2]; [lia|].
    change (string_end (92 :: 117 :: ?s)) with ('(lit, n, r) ← string_end s; Some (92 :: 117 :: lit, S n, r)).
    rewrite (string_end_plain 48), (string_end_plain 48), (string_end_plain (hex_char (c / 16))),
      (string_end_plain (hex_char (c mod 16))), E by done. done.
Qed.

Lemma string_end_escaped s rest : Forall (fun c => 0 <= c) s ->
  exists n, string_end ((s ≫= escape) ++ 34 :: rest) = Some (s ≫= escape, n, rest).
Proof.
  induction 1 as [|c s Hc _ [n IH]]; [by exists 0%nat|]. cbn. change (mbind escape s) with (s ≫= escape).
  rewrite <- app_assoc. by eapply string_end_escape.
Qed.

Lemma unescape_escape s n : Forall (fun c => 0 <= c) s -> (length s < n)%nat ->
  unescape n (s ≫= escape) = Ok (Some s).
Proof.
  intros Hs. revert n. induction Hs as [|c s Hc _ IH]; intros n Hn; [by destruct n; [lia|]|].
  destruct n as [|n]; [lia|]. cbn [length] in Hn. cbn [mbind list_bind]. change (mbind escape s) with (s ≫= escape).
  specialize (IH n ltac:(lia)).
  destruct (escape_cases c Hc) as [(-> & H1 & H2)|[(e & -> & He & Hx)|(Hlt & ->)]]; cbn [app unescape].
  - rewrite (proj2 (Z.eqb_neq c 92) H2). cbn [negb]. by rewrite IH.
  - cbn [Z.eqb Pos.eqb negb]. rewrite (proj2 (Z.eqb_neq e 117) He), Hx. by rewrite IH.
  - cbn [Z.eqb Pos.eqb negb]. unfold utf16_literal_to_utf8.
    destruct (hex_escape c ltac:(lia)) as [-> ->].
    rewrite (proj2 (Z.leb_gt 56320 c)), (proj2 (Z.leb_gt 55296 c)) by lia. cbn [andb].
    change (Some [c] ≫= fun out => Some (out, s ≫= escape)) with (Some ([c], s ≫= escape)).
    cbv iota beta. by rewrite IH.
Qed.

(** ** Texts and bytes *)

Lemma bytes_of_range s : Forall is_byte (bytes_of s).
Proof.
  unfold bytes_of. apply Forall_fmap, Forall_true. intros c. cbn.
  pose proof (N_ascii_bounded c). unfold is_byte. lia.
Qed.

Lemma text_of_bytes s : text_of (bytes_of s) = s.
Proof.
  unfold text_of, bytes_of. rewrite <- list_fmap_compose.
  rewrite <- (string_of_list_ascii_of_string s) at 2. f_equal.
  rewrite <- (list_fmap_id (list_ascii_of_string s)) at 2. apply list_fmap_ext. intros i c _. cbn.
  by rewrite N2Z.id, ascii_N_embedding.
Qed.

Lemma bytes_of_text bs : Forall is_byte bs -> bytes_of (text_of bs) = bs.
Proof.
  intros Hb. unfold text_of, bytes_of. rewrite list_ascii_of_string_of_list_ascii, <- list_fmap_compose.
  rewrite <- (list_fmap_id bs) at 2. apply list_fmap_ext. intros i c Hc. cbn.
  rewrite Forall_lookup in Hb. apply Hb in Hc. unfold is_byte in Hc. rewrite N_ascii_embedding; lia.
Qed.

Lemma c_string_id s : nonul s -> c_string s = s.
Proof.
  induction 1 as [|c s Hc _ IH]; [done|]. cbn. by rewrite (proj2 (Z.eqb_neq c 0) Hc), IH.
Qed.

Lemma bytes_nonneg s : Forall (fun c => 0 <= c) (bytes_of s).
Proof. eapply Forall_impl; [apply bytes_of_range|]. intros c [? _]. done. Qed.

Lemma parse_quoted s rest : text_ok s -> parse_string (quoted (Some s) ++ rest) = Ok (Some (s, rest)).
Proof.
  intros Hs. cbn [quoted app]. rewrite <- app_assoc. cbn [app parse_string Z.eqb Pos.eqb negb].
  destruct (string_end_escaped (bytes_of s) rest (bytes_nonneg s)) as [n E]. rewrite E.
  assert (length (bytes_of s) < S (length (bytes_of s ≫= escape)))%nat as Hl.
  { rewrite escape_bind_length. lia. }
  pose proof (unescape_escape (bytes_of s) _ (bytes_nonneg s) Hl) as Eu. rewrite Eu. cbn [obind].
  apply unescape_fits in Eu. apply string_end_spec in E as [_ ->].
  rewrite (proj2 (Nat.leb_le _ _)) by lia. by rewrite c_string_id, text_of_bytes.
Qed.

(** ** Numbers *)

(** What may follow a number. *)
Definition stops (rest : list Z) : Prop := match rest with [] => True | c :: _ => number_char c = false end.

Lemma number_prefix_app t rest n : (length t <= n)%nat -> forallb number_char t = true -> stops rest ->
  number_prefix n (t ++ rest) = t.
Proof.
  revert n. induction t as [|c t IH]; intros n Hn Ht Hs; cbn [app].
  - destruct n as [|n]; [done|]. destruct rest as [|c r]; [done|]. cbn in *. by rewrite Hs.
  - destruct n as [|n]; [cbn in Hn; lia|]. cbn in Ht. apply andb_true_iff in Ht as [Hc Ht].
    cbn [number_prefix]. rewrite Hc, IH; [done|cbn in Hn; lia|done..].
Qed.

Lemma parse_number_text d v rest : number_ok d v = true -> stops rest ->
  parse_number (number_text d ++ rest) = Ok (Some (Item cJSON_Number None v d None [], rest)).
Proof.
  unfold number_ok. rewrite !andb_true_iff, !bool_decide_eq_true. intros [[[Hd Hc] Hh] Hv] Hs.
  pose proof (number_text_length d). unfold parse_number. rewrite number_prefix_app by (done || lia).
  rewrite Hd. destruct (number_text d) as [|c t]; [done|]. cbn [length Nat.eqb]. rewrite Hv. cbn [obind].
  do 4 f_equal. change (S (length t)) with (length (c :: t)). apply drop_app_length.
Qed.

(** ** Values *)

Section Values.
(** With or without white space. *)
Variable fmt : bool.

(** The first byte of a rendered value. *)
Definition starts_value (c : Z) : Prop := 32 < c /\ c < 128 /\ c <> 93 /\ c <> 125.

Lemma render_head depth j item : well_formed depth item ->
  exists c t, render fmt j item = c :: t /\ starts_value c.
Proof.
  unfold starts_value. intros Hw.
  destruct Hw as [n|n|n|v d n Hn|s n Hs|c n Hd Hc|c n Hd Hc]; cbn;
    try (eexists _, _; split; [done|]; lia).
  unfold number_ok in Hn. rewrite !andb_true_iff in Hn. destruct Hn as [[[_ _] Hh] _].
  destruct (number_text d) as [|c t]; [done|]. eexists _, _. split; [done|].
  apply orb_true_iff in Hh as [Hh%Z.eqb_eq|Hh]; [lia|].
  unfold is_digit in Hh. apply andb_true_iff in Hh as [H1%Z.leb_le H2%Z.leb_le]. lia.
Qed.

(** An item read back behind any amount of fuel from some point on. *)
Definition reads (item : cJSON) : Prop := forall depth j rest, well_formed depth item -> stops rest ->
  exists N, forall fuel, (N <= fuel)%nat ->
    parse_value fuel depth (render fmt j item ++ rest) = Ok (Some (no_name item, rest)).

Lemma no_name_id item : item_string item = None -> no_name item = item.
Proof. destruct item. cbn. by intros ->. Qed.
Lemma with_name_id item s : item_string item = Some s -> with_name s (no_name item) = item.
Proof. destruct item. cbn. by intros ->. Qed.

Lemma elements_read depth j l rest w : l <> [] -> blank w ->
  Forall reads l -> Forall (fun x => well_formed depth x /\ item_string x = None) l ->
  exists N, forall fuel, (N <= fuel)%nat ->
    parse_elements fuel depth (w ++ render_elements fmt (render fmt) j l ++ 93 :: rest) = Ok (Some (l, 93 :: rest)).
Proof.
  intros Hne Hw Hr Hl. revert w Hw Hl. induction Hr as [|x l Hx Hr IH]; intros w Hw Hl; [done|].
  apply Forall_cons in Hl as [[Hwf Hn] Hl]. cbn [render_elements].
  destruct (render_head depth j x Hwf) as (c & t & Et & Hc & _).
  set (after := (if is_nil l then [] else 44 :: ws fmt [32]) ++ render_elements fmt (render fmt) j l ++ 93 :: rest).
  assert (stops after) as Hs by (unfold after; by destruct l).
  destruct (Hx depth j after Hwf Hs) as [N1 H1].
  assert (buffer_skip_whitespace (w ++ (render fmt j x ++ (if is_nil l then [] else 44 :: ws fmt [32]) ++
    render_elements fmt (render fmt) j l) ++ 93 :: rest) = render fmt j x ++ after) as Eskip.
  { unfold after. rewrite <- !app_assoc, Et. cbn [app]. by apply skip_blank. }
  destruct l as [|y l].
  - exists (S N1). intros [|fuel] Hf; [lia|]. cbn [parse_elements]. rewrite Eskip, H1 by lia.
    cbn. by rewrite no_name_id.
  - destruct (IH ltac:(done) (ws fmt [32]) ltac:(by apply blank_ws, blank_one) Hl) as [N2 H2].
    exists (S (N1 `max` N2)). intros [|fuel] Hf; [lia|]. cbn [parse_elements]. rewrite Eskip, H1 by lia.
    cbn [obind]. unfold after. cbn [is_nil app]. change (buffer_skip_whitespace (44 :: ?r)) with (44 :: r).
    cbn [head_is Z.eqb Pos.eqb drop]. rewrite ?drop_0.
    rewrite H2 by lia. cbn. by rewrite no_name_id.
Qed.

Lemma members_read depth j l rest w : l <> [] -> blank w ->
  Forall reads l ->
  Forall (fun x => well_formed depth x /\ exists s, item_string x = Some s /\ text_ok s) l ->
  exists N, forall fuel, (N <= fuel)%nat ->
    parse_members fuel depth (w ++ render_members fmt (render fmt) j l ++ ws fmt (replicate (pred j) 9) ++ 125 :: rest) =
    Ok (Some (l, 125 :: rest)).
Proof.
  intros Hne Hw Hr Hl. revert w Hw Hl. induction Hr as [|x l Hx Hr IH]; intros w Hw Hl; [done|].
  apply Forall_cons in Hl as [(Hwf & s & Hn & Hs) Hl]. cbn [render_members].
  destruct (render_head depth j x Hwf) as (c & t & Et & Hc & _).
  set (after := (if is_nil l then [] else [44]) ++ ws fmt [10] ++ render_members fmt (render fmt) j l
                ++ ws fmt (replicate (pred j) 9) ++ 125 :: rest).
  assert (stops after) as Hst by (unfold after, ws; by destruct l, fmt).
  destruct (Hx depth j after Hwf Hst) as [N1 H1].
  assert (buffer_skip_whitespace (w ++ (ws fmt (replicate j 9) ++ quoted (item_string x) ++ 58 :: ws fmt [9] ++ render fmt j x ++
    (if is_nil l then [] else [44]) ++ ws fmt [10] ++ render_members fmt (render fmt) j l) ++ ws fmt (replicate (pred j) 9) ++ 125 :: rest)
    = quoted (Some s) ++ 58 :: ws fmt [9] ++ render fmt j x ++ after) as Eskip.
  { unfold after. rewrite Hn, <- !app_assoc. cbn [quoted app]. rewrite <- !app_assoc, (app_assoc w).
    apply skip_blank; [|lia]. apply Forall_app. split; [done|apply blank_ws, blank_tabs]. }
  assert (forall fuel, parse_members (S fuel) depth (w ++ (ws fmt (replicate j 9) ++ quoted (item_string x) ++ 58 :: ws fmt [9] ++
      render fmt j x ++ (if is_nil l then [] else [44]) ++ ws fmt [10] ++ render_members fmt (render fmt) j l) ++
      ws fmt (replicate (pred j) 9) ++ 125 :: rest) =
    let? (item, r) := parse_value fuel depth (render fmt j x ++ after) in
    let item := with_name s item in
    let r := buffer_skip_whitespace r in
    if head_is 44 r then let? (items, r) := parse_members fuel depth (drop 1 r) in Ok (Some (item :: items, r))
    else Ok (Some ([item], r))) as Estep.
  { intros fuel. cbn [parse_members]. rewrite Eskip, parse_quoted by done. cbn [obind].
    change (buffer_skip_whitespace (58 :: ?r)) with (58 :: r). cbn [head_is Z.eqb Pos.eqb negb drop]. rewrite ?drop_0.
    assert (buffer_skip_whitespace (ws fmt [9] ++ render fmt j x ++ after) = render fmt j x ++ after) as ->; [|done].
    rewrite Et. by apply (skip_blank (ws fmt [9])); [apply blank_ws, blank_one|]. }
  destruct l as [|y l].
  - exists (S N1). intros [|fuel] Hf; [lia|]. rewrite Estep, H1 by lia. cbn [obind]. unfold after.
    cbn [is_nil app render_members].
    rewrite app_assoc, skip_blank; [|apply Forall_app; split; apply blank_ws; [by apply blank_one|apply blank_tabs]|lia].
    cbn. by rewrite with_name_id.
  - destruct (IH ltac:(done) (ws fmt [10]) ltac:(by apply blank_ws, blank_one) Hl) as [N2 H2].
    exists (S (N1 `max` N2)). intros [|fuel] Hf; [lia|]. rewrite Estep, H1 by lia. cbn [obind]. unfold after.
    cbn [is_nil app]. change (buffer_skip_whitespace (44 :: ?r)) with (44 :: r).
    cbn [head_is Z.eqb Pos.eqb drop]. rewrite ?drop_0.
    rewrite H2 by lia. cbn. by rewrite with_name_id.
Qed.

(** A value that begins with none of the letters of null, false and true. *)
Lemma not_word c r : c <> 110 -> c <> 102 -> c <> 116 ->
  starts_with [110; 117; 108; 108] (c :: r) = false /\
  starts_with [102; 97; 108; 115; 101] (c :: r) = false /\
  starts_with [116; 114; 117; 101] (c :: r) = false.
Proof.
  intros H1 H2 H3. unfold starts_with. rewrite !bool_decide_eq_false. cbn [take length].
  repeat split; congruence.
Qed.

Lemma parse_members_skip fuel depth r :
  parse_members fuel depth (buffer_skip_whitespace r) = parse_members fuel depth r.
Proof. destruct fuel; [done|]. cbn [parse_members]. by rewrite skip_idem. Qed.

(** The branch of [parse_value] for an opening bracket. *)
Lemma parse_bracket_array fuel depth rest : (depth < CJSON_NESTING_LIMIT)%nat ->
  parse_value (S fuel) depth (91 :: rest) =
  let r := buffer_skip_whitespace rest in
  if head_is 93 r then Ok (Some (Item cJSON_Array None 0 dzero None [], drop 1 r)) else
  match r with
  | [] => Ok None
  | _ => let? (items, r) := parse_elements fuel (S depth) r in
         if head_is 93 r then Ok (Some (Item cJSON_Array None 0 dzero None items, drop 1 r)) else Ok None
  end.
Proof.
  intros Hd. cbn [parse_value]. destruct (not_word 91 rest) as (-> & -> & ->); [done..|].
  cbn [Z.eqb Pos.eqb orb is_digit]. change (is_digit 91) with false. by rewrite (proj2 (Nat.leb_gt _ _) Hd).
Qed.
Lemma parse_bracket_object fuel depth rest : (depth < CJSON_NESTING_LIMIT)%nat ->
  parse_value (S fuel) depth (123 :: rest) =
  let r := buffer_skip_whitespace rest in
  if head_is 125 r then Ok (Some (Item cJSON_Object None 0 dzero None [], drop 1 r)) else
  match r with
  | [] => Ok None
  | _ => let? (items, r) := parse_members fuel (S depth) r in
         if head_is 125 r then Ok (Some (Item cJSON_Object None 0 dzero None items, drop 1 r)) else Ok None
  end.
Proof.
  intros Hd. cbn [parse_value]. destruct (not_word 123 rest) as (-> & -> & ->); [done..|].
  cbn [Z.eqb Pos.eqb orb is_digit]. change (is_digit 123) with false. by rewrite (proj2 (Nat.leb_gt _ _) Hd).
Qed.

Lemma array_reads depth j c rest : (depth < CJSON_NESTING_LIMIT)%nat -> Forall reads c ->
  Forall (fun x => well_formed (S depth) x /\ item_string x = None) c ->
  exists N, forall fuel, (N <= fuel)%nat ->
    parse_value fuel depth (([91] ++ render_elements fmt (render fmt) (S j) c ++ [93]) ++ rest) =
    Ok (Some (Item cJSON_Array None 0 dzero None c, rest)).
Proof.
  intros Hd Hr Hl. rewrite <- !app_assoc. cbn [app]. destruct c as [|x c].
  { exists 1%nat. intros [|fuel] ?; [lia|]. by rewrite parse_bracket_array. }
  destruct (elements_read (S depth) (S j) (x :: c) rest []) as [N HN]; [done|constructor|done..|].
  exists (S N). intros [|fuel] Hf; [lia|]. rewrite parse_bracket_array by done.
  specialize (HN fuel ltac:(lia)). cbn [app] in HN.
  apply Forall_cons in Hl as [[Hwf _] _]. destruct (render_head _ (S j) x Hwf) as (h & t & Et & H1 & _ & H2 & _).
  set (r := render_elements fmt (render fmt) (S j) (x :: c) ++ 93 :: rest) in *.
  assert (exists u, r = h :: u) as [u Er] by (unfold r; cbn [render_elements]; rewrite Et; cbn; eauto).
  assert (buffer_skip_whitespace r = r) as -> by (rewrite Er; apply (skip_blank [] h u); [constructor|done]). cbv zeta.
  assert (head_is 93 r = false) as -> by (rewrite Er; by apply Z.eqb_neq). rewrite HN, Er. done.
Qed.

Lemma object_reads depth j c rest : (depth < CJSON_NESTING_LIMIT)%nat -> Forall reads c ->
  Forall (fun x => well_formed (S depth) x /\ exists s, item_string x = Some s /\ text_ok s) c ->
  exists N, forall fuel, (N <= fuel)%nat ->
    parse_value fuel depth ((123 :: ws fmt [10] ++ render_members fmt (render fmt) (S j) c ++ ws fmt (replicate j 9) ++ [125]) ++ rest) =
    Ok (Some (Item cJSON_Object None 0 dzero None c, rest)).
Proof.
  intros Hd Hr Hl. cbn [app]. rewrite <- !app_assoc. cbn [app]. destruct c as [|x c].
  { exists 1%nat. intros [|fuel] ?; [lia|]. rewrite parse_bracket_object by done. cbn [render_members app].
    rewrite app_assoc, skip_blank; [done|apply Forall_app; split; apply blank_ws; [by apply blank_one|apply blank_tabs]|lia]. }
  destruct (members_read (S depth) (S j) (x :: c) rest (ws fmt [10])) as [N HN]; [done|by apply blank_ws, blank_one|done..|].
  exists (S N). intros [|fuel] Hf; [lia|]. rewrite parse_bracket_object by done.
  specialize (HN fuel ltac:(lia)). cbn [pred] in HN. rewrite <- parse_members_skip in HN.
  apply Forall_cons in Hl as [(_ & s & Hn & _) _].
  set (r := ws fmt [10] ++ render_members fmt (render fmt) (S j) (x :: c) ++ ws fmt (replicate j 9) ++ 125 :: rest) in *.
  assert (exists u, buffer_skip_whitespace r = 34 :: u) as [u Er].
  { unfold r. cbn [render_members]. rewrite Hn. rewrite <- !app_assoc, app_assoc. cbn [quoted app]. eexists.
    apply skip_blank; [apply Forall_app; split; apply blank_ws; [by apply blank_one|apply blank_tabs]|lia]. }
  rewrite Er in *. cbv zeta. cbn [head_is Z.eqb Pos.eqb]. rewrite HN. done.
Qed.

Lemma value_reads item : reads item.
Proof.
  induction item as [type s v d n c IH] using cJSON_tree_ind. intros depth j rest Hwf Hst.
  inversion Hwf; subst; cbn [no_name].
  - exists 1%nat. intros [|fuel] ?; [lia|]. done.
  - exists 1%nat. intros [|fuel] ?; [lia|]. done.
  - exists 1%nat. intros [|fuel] ?; [lia|]. done.
  - exists 1%nat. intros [|fuel] ?; [lia|]. cbn [render].
    change (Z.land cJSON_Number 255) with cJSON_Number. cbn [Z.eqb Pos.eqb cJSON_Number cJSON_NULL cJSON_False cJSON_True].
    pose proof (parse_number_text d v rest ltac:(done) Hst) as Hp.
    match goal with H : number_ok _ _ = true |- _ => rename H into Hn end.
    unfold number_ok in Hn. rewrite !andb_true_iff in Hn. destruct Hn as [[[_ _] Hh] _].
    destruct (number_text d) as [|c t]; [done|]. cbn [app] in *.
    assert (c <> 110 /\ c <> 102 /\ c <> 116 /\ c <> 34) as (H1 & H2 & H3 & H4).
    { apply orb_true_iff in Hh as [Hh%Z.eqb_eq|Hh]; [lia|].
      unfold is_digit in Hh. apply andb_true_iff in Hh as [?%Z.leb_le ?%Z.leb_le]. lia. }
    cbn [parse_value]. destruct (not_word c (t ++ rest) H1 H2 H3) as (-> & -> & ->).
    by rewrite (proj2 (Z.eqb_neq c 34) H4), Hh.
  - exists 1%nat. intros [|fuel] ?; [lia|]. cbn [render].
    change (Z.land cJSON_String 255) with cJSON_String.
    cbn [Z.eqb Pos.eqb cJSON_String cJSON_Number cJSON_NULL cJSON_False cJSON_True cJSON_Raw].
    match goal with H : text_ok ?x |- _ => pose proof (parse_quoted x rest H) as Hp end.
    cbn [quoted app] in *. cbn [parse_value].
    match goal with |- context [starts_with _ (34 :: ?r)] => destruct (not_word 34 r) as (-> & -> & ->); [done..|] end.
    cbn [Z.eqb Pos.eqb]. by rewrite Hp.
  - match goal with H : (_ < _)%nat |- _ => exact (array_reads depth j c rest H IH ltac:(done)) end.
  - match goal with H : (_ < _)%nat |- _ => exact (object_reads depth j c rest H IH ltac:(done)) end.
Qed.

End Values.

(** ** From the buffer to the text *)

(** [m'] returns what [m] returns. *)
Definition refines {A} (m m' : outcome A) : Prop := forall o, m = Ok o -> m' = Ok o.

Lemma refines_refl {A} (m : outcome A) : refines m m.
Proof. by intros o. Qed.
Lemma refines_bind {A B} (m m' : outcome (option A)) (k k' : A -> outcome (option B)) :
  refines m m' -> (forall a, refines (k a) (k' a)) ->
  refines (let? a := m in k a) (let? a := m' in k' a).
Proof.
  intros Hm Hk o E. destruct m as [a|]; [|done]. rewrite (Hm a eq_refl). cbn in *.
  destruct a; [by apply Hk | done].
Qed.

(** [refine_step] opens the common structure of both sides. *)
Ltac refine_step :=
  match goal with
  | |- refines ?m ?m => apply refines_refl
  | |- refines (if ?b then _ else _) (if ?b then _ else _) => destruct b
  | |- refines (match ?r with [] => _ | _ :: _ => _ end) (match ?r with [] => _ | _ :: _ => _ end) =>
      destruct r
  | |- refines (obind _ _) (obind _ _) => apply refines_bind; [|intros []]
  end.

(** More fuel changes nothing once the parser has returned. *)
Lemma fuel_mono fuel : forall fuel' depth r, (fuel <= fuel')%nat ->
  refines (parse_value fuel depth r) (parse_value fuel' depth r) /\
  refines (parse_elements fuel depth r) (parse_elements fuel' depth r) /\
  refines (parse_members fuel depth r) (parse_members fuel' depth r).
Proof.
  induction fuel as [|fuel IH]; intros fuel' depth r Hf; [by repeat split|].
  destruct fuel' as [|fuel']; [lia|].
  assert (forall depth r, refines (parse_value fuel depth r) (parse_value fuel' depth r)) as Hv
    by (intros; by apply IH, le_S_n).
  assert (forall depth r, refines (parse_elements fuel depth r) (parse_elements fuel' depth r)) as He
    by (intros; by apply IH, le_S_n).
  assert (forall depth r, refines (parse_members fuel depth r) (parse_members fuel' depth r)) as Hm
    by (intros; by apply IH, le_S_n).
  split; [|split]; cbn [parse_value parse_elements parse_members]; cbv zeta; repeat (refine_step || apply Hv || apply He || apply Hm).
Qed.

(** The bytes of a text: no NUL, and none beyond 255. *)
Definition text_byte (c : Z) : Prop := 0 < c < 256.

Lemma escape_bytes c : text_byte c -> Forall text_byte (escape c).
Proof.
  intros Hc. assert (0 <= c) as H0 by (unfold text_byte in Hc; lia).
  assert (text_byte 92 /\ text_byte 117 /\ text_byte 48) as (B1 & B2 & B3) by (unfold text_byte; lia).
  destruct (escape_cases c H0) as [(-> & _)|[(e & -> & _ & He)|(Hlt & ->)]].
  - by rewrite Forall_singleton.
  - rewrite !Forall_cons. split; [done|]. split; [|done]. unfold escape_char in He. unfold text_byte.
    repeat case_match; simplify_eq;
      repeat match goal with E : (_ =? _) = true |- _ => apply Z.eqb_eq in E
                           | E : _ || _ = true |- _ => apply orb_true_iff in E as [E|E] end; lia.
  - assert (forall v, 0 <= v < 16 -> text_byte (hex_char v)) as Hh.
    { intros v Hv. unfold hex_char, text_byte. destruct (v <? 10); lia. }
    rewrite !Forall_cons. split_and!; try done; apply Hh; [|apply Z.mod_pos_bound; lia].
    split; [apply Z.div_pos; lia | apply Z.div_lt_upper_bound; lia].
Qed.

Lemma quoted_bytes s : text_ok s -> Forall text_byte (quoted (Some s)).
Proof.
  intros Hs. cbn. constructor; [unfold text_byte; lia|]. apply Forall_app. split; [|by repeat constructor].
  apply Forall_bind. apply Forall_forall. intros c Hc.
  unfold text_ok, nonul in Hs. rewrite Forall_forall in Hs. apply Forall_forall.
  pose proof (bytes_of_range s) as Hr. rewrite Forall_forall in Hr.
  apply Forall_forall, escape_bytes. specialize (Hs c Hc). specialize (Hr c Hc). unfold is_byte, text_byte in *. lia.
Qed.

Lemma number_char_byte c : number_char c = true -> text_byte c.
Proof.
  unfold number_char, is_digit, text_byte. rewrite !orb_true_iff, !andb_true_iff, !Z.eqb_eq, !Z.leb_le. lia.
Qed.

Section Texts.
Variable fmt : bool.

Lemma elements_bytes j l : Forall (fun x => Forall text_byte (render fmt j x)) l ->
  Forall text_byte (render_elements fmt (render fmt) j l).
Proof.
  induction 1 as [|x l Hx Hl IH]; [constructor|]. cbn. apply Forall_app. split; [done|].
  apply Forall_app. split; [|done]. destruct l, fmt; by repeat constructor.
Qed.

Lemma members_bytes j l : Forall (fun x => Forall text_byte (render fmt j x)
    /\ exists s, item_string x = Some s /\ text_ok s) l ->
  Forall text_byte (render_members fmt (render fmt) j l).
Proof.
  induction 1 as [|x l (Hx & s & Hn & Hs) Hl IH]; [constructor|]. cbn [render_members]. rewrite Hn.
  change (58 :: ws fmt [9] ++ ?r) with ((58 :: ws fmt [9]) ++ r). rewrite !Forall_app.
  repeat split; [by destruct fmt; [apply Forall_replicate|]|by apply quoted_bytes| |done| | |done].
  - destruct fmt; by repeat constructor.
  - destruct l; by repeat constructor.
  - destruct fmt; by repeat constructor.
Qed.

Lemma render_bytes item : forall depth j, well_formed depth item -> Forall text_byte (render fmt j item).
Proof.
  induction item as [type s v d n c IH] using cJSON_tree_ind. intros depth j Hwf.
  inversion Hwf as [n'|n'|n'|v' d' n' Hn|s' n' Hs|c' n' Hd Hc|c' n' Hd Hc]; subst; cbn [render].
  - by repeat constructor.
  - by repeat constructor.
  - by repeat constructor.
  - change (Forall text_byte (number_text d)). unfold number_ok in Hn. rewrite !andb_true_iff in Hn.
    destruct Hn as [[[_ Hn] _] _]. rewrite forallb_forall in Hn. apply Forall_forall. intros x Hx.
    by apply number_char_byte, Hn, list_elem_of_In.
  - by apply quoted_bytes.
  - change (Forall text_byte ([91] ++ render_elements fmt (render fmt) (S j) c ++ [93])). rewrite !Forall_app.
    split_and!; [by repeat constructor| |by repeat constructor]. apply elements_bytes. rewrite Forall_forall in *.
    intros x Hx. eapply IH; [done|]. by apply Hc.
  - change (Forall text_byte ((123 :: ws fmt [10]) ++ render_members fmt (render fmt) (S j) c ++ ws fmt (replicate j 9) ++ [125])).
    rewrite !Forall_app. split_and!; [by destruct fmt; repeat constructor| |by destruct fmt; [apply Forall_replicate|]|by repeat constructor].
    apply members_bytes. rewrite Forall_forall in *. intros x Hx. destruct (Hc x Hx) as [Hx1 Hx2].
    split; [|done]. by eapply IH.
Qed.

Lemma well_formed_printable item : forall depth, well_formed depth item -> printable item = true.
Proof.
  induction item as [type s v d n c IH] using cJSON_tree_ind. intros depth Hwf.
  inversion Hwf as [n'|n'|n'|v' d' n' Hn|s' n' Hs|c' n' Hd Hc|c' n' Hd Hc]; subst; try done.
  all: change (forallb printable c = true); apply forallb_forall; intros x Hx%list_elem_of_In;
    rewrite Forall_forall in *; eapply IH; [done|]; by apply Hc.
Qed.

(** The parser on a rendered tree with more text behind it. *)
Lemma parse_value_rendered item g : well_formed 0 item -> item_string item = None -> nonul g -> stops (g ++ [0]) ->
  let content := render fmt 0 item ++ g ++ [0] in
  content <> [] /\
  parse_value (2 * length content + 2) 0 (buffer_skip_whitespace (skip_utf8_bom content)) = Ok (Some (item, g ++ [0])).
Proof.
  intros Hw Hn Hg Hst content. destruct (value_reads fmt item 0%nat 0%nat (g ++ [0]) Hw Hst) as [N HN].
  rewrite no_name_id in HN by done. destruct (render_head fmt 0 0 item Hw) as (c & t & Et & Hc & Hc' & _).
  pose proof (render_bytes item 0 0 Hw) as Hbytes.
  assert (terminated content) as Ht.
  { exists (render fmt 0 item ++ g). split; [|unfold content; by rewrite app_assoc]. apply Forall_app. split; [|done].
    eapply Forall_impl; [exact Hbytes|]. unfold text_byte. intros x ?. lia. }
  assert (content = c :: t ++ g ++ [0]) as Ec by (unfold content; by rewrite Et). split; [by rewrite Ec|].
  assert (skip_utf8_bom content = content) as Eb.
  { unfold skip_utf8_bom. destruct (starts_with _ _) eqn:E; [|by rewrite andb_false_r].
    apply starts_with_spec in E as [r Er]. rewrite Ec in Er. injection Er as E _. lia. }
  assert (buffer_skip_whitespace content = content) as Es
    by (rewrite Ec; apply (skip_blank [] c); [constructor|done]).
  rewrite Eb, Es. set (F := (2 * length content + 2)%nat).
  destruct (proj1 (parse_ok F) 0%nat content Ht ltac:(unfold F; lia)) as (o & Eo & _).
  destruct (fuel_mono F (F `max` N) 0 content ltac:(lia)) as [Hm _].
  rewrite Eo. apply Hm in Eo. rewrite HN in Eo by lia. by injection Eo as <-.
Qed.

Lemma parse_rendered item : well_formed 0 item -> item_string item = None ->
  parse_buffer (render fmt 0 item ++ [0]) = Ok (Some item).
Proof.
  intros Hw Hn. destruct (parse_value_rendered item [] Hw Hn) as [Hne E]; [constructor|done|]. cbn [app] in *.
  unfold parse_buffer. destruct (render fmt 0 item ++ [0]) as [|c r] eqn:Ec; [done|]. rewrite <- Ec in *. by rewrite E.
Qed.

Lemma parse_printed (item : cJSON) : well_formed 0 item -> item_string item = None ->
  Z.of_nat (length (render fmt 0 item)) + 2 <= INT_MAX -> cJSON_Parse (printed fmt item) = Some item.
Proof.
  intros Hw Hn Hb.
  unfold printed. rewrite print_total by (done || by eapply well_formed_printable).
  pose proof (render_bytes item 0 0 Hw) as Hbytes. unfold cJSON_Parse, parse_text.
  rewrite bytes_of_text by (eapply Forall_impl; [exact Hbytes|]; unfold text_byte, is_byte; intros x ?; lia).
  rewrite c_string_id by (eapply Forall_impl; [exact Hbytes|]; unfold text_byte; intros x ?; lia).
  by rewrite parse_rendered.
Qed.

End Texts.


(** {"code": "005", "files": [1, 2.5, true, null, {}]} *)
Definition sample_tree : cJSON :=
  Item cJSON_Object None 0 dzero None
    [Item cJSON_String (Some "005") 0 dzero (Some "code") [];
     Item cJSON_Array None 0 dzero (Some "files")
       [cJSON_CreateNumber 1; Item cJSON_Number None 2 (Fin false 5629499534213120 (-51)) None [];
        Item cJSON_True None 1 dzero None []; Item cJSON_NULL None 0 dzero None [];
        Item cJSON_Object None 0 dzero None []]]%string.

Lemma sample_tree_wf : well_formed 0 sample_tree.
Proof.
  apply wf_object; [unfold CJSON_NESTING_LIMIT; lia|]. repeat apply Forall_cons_2; [..|constructor].
  - split; [constructor; by_decide|]. eexists. split; [done|by_decide].
  - split; [|eexists; split; [done|by_decide]].
    apply wf_array; [unfold CJSON_NESTING_LIMIT; lia|]. repeat apply Forall_cons_2; [..|constructor].
    + split; [by apply wf_number | done].
    + split; [by apply wf_number | done].
    + split; [constructor | done].
    + split; [constructor | done].
    + split; [apply wf_object; [unfold CJSON_NESTING_LIMIT; lia|constructor] | done].
Qed.


(** ** Integers *)

Lemma round64_int s p : 0 < p < 2 ^ 53 ->
  round64 s p 1 = Fin s (p * 2 ^ (52 - Z.log2 p)) (Z.log2 p - 52).
Proof.
  intros Hp. unfold round64. destruct (Z.eqb_spec p 0); [lia|].
  pose proof (Z.log2_spec p ltac:(lia)) as [L1 L2]. pose proof (Z.log2_nonneg p).
  assert (Z.log2 p < 53) as L3 by (apply Z.log2_lt_pow2; lia).
  assert (log2_ratio p 1 = Z.log2 p) as ->.
  { unfold log2_ratio, up2. change (Z.log2 1) with 0. rewrite Z.sub_0_r.
    rewrite (Z.max_l 0 (- Z.log2 p)), Z.max_r by lia. change (2 ^ 0) with 1.
    destruct (Z.ltb_spec (p * 1) (1 * 2 ^ Z.log2 p)); [lia|done]. }
  rewrite Z.max_l by lia. unfold up2.
  replace (- (Z.log2 p - 52)) with (52 - Z.log2 p) by lia.
  rewrite Z.max_r, (Z.max_l 0 (Z.log2 p - 52)) by lia. change (1 * 2 ^ 0) with 1.
  set (m := p * 2 ^ (52 - Z.log2 p)).
  assert (round_int m 1 = m) as ->.
  { unfold round_int. by rewrite Z.mod_1_r, Z.div_1_r. }
  assert (0 < 2 ^ (52 - Z.log2 p)) by (apply Z.pow_pos_nonneg; lia).
  assert (m < 2 ^ 53) as Hm.
  { unfold m. apply Z.lt_le_trans with (2 ^ Z.succ (Z.log2 p) * 2 ^ (52 - Z.log2 p)); [nia|].
    rewrite <- Z.pow_add_r by lia. apply Z.pow_le_mono_r; lia. }
  destruct (Z.eqb_spec m (2 ^ 53)); [lia|]. destruct (Z.ltb_spec 971 (Z.log2 p - 52)); [lia|].
  destruct (Z.eqb_spec m 0); [unfold m in *; nia|]. done.
Qed.

(** The shape of a double that holds an integer: [p * c / c]. *)
Lemma double_of_Z_spec n : n <> 0 -> Z.abs n < 2 ^ 53 -> exists m e c,
  double_of_Z n = Fin (n <? 0) m e /\ 0 < c /\ m <> 0 /\
  frac_num false m e = Z.abs n * c /\ frac_num (n <? 0) m e = n * c /\ frac_den e = c.
Proof.
  intros Hn Hb. set (p := Z.abs n). exists (p * 2 ^ (52 - Z.log2 p)), (Z.log2 p - 52), (2 ^ (52 - Z.log2 p)).
  assert (0 < p < 2 ^ 53) as Hp by lia. pose proof (Z.log2_nonneg p).
  assert (Z.log2 p < 53) by (apply Z.log2_lt_pow2; lia).
  assert (0 < 2 ^ (52 - Z.log2 p)) by (apply Z.pow_pos_nonneg; lia).
  split; [by apply round64_int|]. split; [done|]. split; [nia|]. unfold frac_num, frac_den, up2.
  rewrite (Z.max_l 0 (Z.log2 p - 52)) by lia. replace (- (Z.log2 p - 52)) with (52 - Z.log2 p) by lia.
  rewrite Z.max_r by lia. change (2 ^ 0) with 1. rewrite !Z.mul_1_r. split; [done|]. split; [|done].
  subst p. destruct (Z.ltb_spec n 0); nia.
Qed.

(** *** Digits *)

Lemma digits_of_app k n : digits_of (S k) n = digits_of k (n / 10) ++ [48 + n mod 10].
Proof. done. Qed.

Lemma digits_of_zeros z k n : 0 <= n -> digits_of (k + z) (n * 10 ^ Z.of_nat z) = digits_of k n ++ replicate z 48.
Proof.
  intros Hn. induction z as [|z IH].
  - cbn [replicate]. by rewrite app_nil_r, Nat.add_0_r, Z.mul_1_r.
  - rewrite Nat.add_succ_r, digits_of_app, Nat2Z.inj_succ, Z.pow_succ_r by lia.
    replace (n * (10 * 10 ^ Z.of_nat z)) with (n * 10 ^ Z.of_nat z * 10) by ring.
    rewrite Z.div_mul, Z.mod_mul, IH by lia. rewrite <- app_assoc. f_equal.
    change (48 + 0) with 48. by rewrite <- replicate_S_end.
Qed.

Lemma num_of_app ds c : num_of (ds ++ [c]) = 10 * num_of ds + (c - 48).
Proof. unfold num_of. by rewrite foldl_app. Qed.

Lemma num_of_digits k n : 0 <= n < 10 ^ Z.of_nat k -> num_of (digits_of k n) = n.
Proof.
  revert n. induction k as [|k IH]; intros n Hn; [change (10 ^ Z.of_nat 0) with 1 in Hn; cbn; lia|].
  rewrite Nat2Z.inj_succ, Z.pow_succ_r in Hn by lia. rewrite digits_of_app, num_of_app, IH.
  - pose proof (Z.div_mod n 10). lia.
  - split; [apply Z.div_pos; lia | apply Z.div_lt_upper_bound; lia].
Qed.

Lemma digits_of_digits k n : Forall (fun c => is_digit c = true) (digits_of k n).
Proof.
  revert n. induction k as [|k IH]; intros n; [constructor|]. rewrite digits_of_app. apply Forall_app.
  split; [done|]. constructor; [|constructor]. pose proof (Z.mod_pos_bound n 10 ltac:(lia)).
  unfold is_digit. apply andb_true_iff. rewrite !Z.leb_le. lia.
Qed.

(** The number of digits. *)
Lemma count_digits_spec fuel n : 0 < n < 10 ^ Z.of_nat fuel ->
  exists k, count_digits fuel n = Z.of_nat (S k) /\ (S k <= fuel)%nat /\ 10 ^ Z.of_nat k <= n < 10 ^ Z.of_nat (S k).
Proof.
  revert n. induction fuel as [|fuel IH]; intros n Hn; [change (10 ^ Z.of_nat 0) with 1 in Hn; lia|].
  cbn [count_digits]. destruct (Z.ltb_spec n 10).
  - exists 0%nat. split; [done|]. split; [lia|]. change (10 ^ Z.of_nat 0) with 1. change (10 ^ Z.of_nat 1) with 10. lia.
  - rewrite Nat2Z.inj_succ, Z.pow_succ_r in Hn by lia.
    destruct (IH (n / 10)) as (k & -> & Hk & H1 & H2).
    { split; [apply Z.div_str_pos; lia | apply Z.div_lt_upper_bound; lia]. }
    exists (S k). split; [lia|]. split; [lia|]. rewrite !Nat2Z.inj_succ, !Z.pow_succ_r in * by lia.
    pose proof (Z.div_mod n 10). pose proof (Z.mod_pos_bound n 10). lia.
Qed.

Lemma span_all ds : Forall (fun c => is_digit c = true) ds -> span_digits ds = (ds, []).
Proof. induction 1 as [|c ds Hc _ IH]; [done|]. cbn. by rewrite Hc, IH. Qed.

Lemma strip_all z : strip_zeros (replicate z 48) = [].
Proof. induction z as [|z IH]; [done|]. cbn. by rewrite IH. Qed.

Lemma small_pow n k : n < 10 ^ 15 -> (15 < k)%nat -> n < 10 ^ Z.of_nat k.
Proof. intros Hn Hk. apply Z.lt_trans with (10 ^ 15); [done|]. apply Z.pow_lt_mono_r; lia. Qed.

(** The text of an integer is the sign and its digits. *)
Definition int_text (n : Z) : list Z :=
  (if n <? 0 then [45] else []) ++ digits_of (Z.to_nat (count_digits 400 (Z.abs n))) (Z.abs n).

Lemma format_int n : n <> 0 -> Z.abs n < 10 ^ 15 ->
  forall m e, double_of_Z n = Fin (n <? 0) m e -> format_g 15 (n <? 0) m e = int_text n.
Proof.
  intros Hn Hb m0 e0 Ed. destruct (double_of_Z_spec n Hn ltac:(lia)) as (m & e & c & E & Hc & Hm & F1 & _ & F2).
  rewrite E in Ed. injection Ed as <- <-. unfold format_g, int_text. f_equal.
  rewrite (proj2 (Z.eqb_neq m 0) Hm). unfold sig_digits, log10_ratio. rewrite F1, F2.
  set (p := Z.abs n) in *. assert (0 < p) as Hp by lia.
  rewrite (proj2 (Z.leb_le c (p * c))), Z.div_mul by nia.
  destruct (count_digits_spec 400 p) as (k & -> & _ & K1 & K2).
  { split; [done|]. apply small_pow; [done|lia]. }
  assert (k < 15)%nat as Hk.
  { apply Nat.nle_gt. intros Hge. assert (10 ^ 15 <= 10 ^ Z.of_nat k) by (apply Z.pow_le_mono_r; lia). lia. }
  replace (Z.of_nat (S k) - 1) with (Z.of_nat k) by lia.
  replace (15 - 1 - Z.of_nat k) with (Z.of_nat (14 - k)) by lia.
  rewrite Z.max_r, (Z.max_l 0 (Z.of_nat k - 15 + 1)) by lia. change (10 ^ 0) with 1. rewrite Z.mul_1_r.
  assert (round_int (p * c * 10 ^ Z.of_nat (14 - k)) c = p * 10 ^ Z.of_nat (14 - k)) as ->.
  { unfold round_int. replace (p * c * 10 ^ Z.of_nat (14 - k)) with (p * 10 ^ Z.of_nat (14 - k) * c) by ring.
    rewrite Z.mod_mul, Z.div_mul by lia. by destruct c. }
  assert (p * 10 ^ Z.of_nat (14 - k) < 10 ^ 15) as Hlt.
  { replace (10 ^ 15) with (10 ^ Z.of_nat (S k) * 10 ^ Z.of_nat (14 - k)) by (rewrite <- Z.pow_add_r by lia; f_equal; lia).
    apply Z.mul_lt_mono_pos_r; [apply Z.pow_pos_nonneg; lia|done]. }
  destruct (Z.eqb_spec (p * 10 ^ Z.of_nat (14 - k)) (10 ^ 15)); [lia|].
  rewrite (proj2 (Z.ltb_ge (Z.of_nat k) (-4))), (proj2 (Z.leb_gt 15 (Z.of_nat k))) by lia. cbn [orb].
  rewrite (proj2 (Z.ltb_ge (Z.of_nat k) 0)) by lia.
  assert (digits_of (Z.to_nat 15) (p * 10 ^ Z.of_nat (14 - k)) = digits_of (S k) p ++ replicate (14 - k) 48) as ->.
  { rewrite <- digits_of_zeros by lia. f_equal. lia. }
  replace (Z.to_nat (Z.of_nat k + 1)) with (S k) by lia.
  rewrite take_app_le, drop_app_ge by (rewrite digits_of_length; lia).
  rewrite digits_of_length, Nat.sub_diag, drop_0. unfold point. rewrite strip_all, app_nil_r.
  rewrite take_ge by (rewrite digits_of_length; lia). f_equal. lia.
Qed.

Lemma strtod_int n : n <> 0 -> Z.abs n < 10 ^ 15 -> strtod (int_text n) = (double_of_Z n, length (int_text n)).
Proof.
  intros Hn Hb. unfold int_text. set (p := Z.abs n). assert (0 < p) as Hp by lia.
  destruct (count_digits_spec 400 p) as (k & -> & _ & K1 & K2).
  { split; [done|]. apply small_pow; [done|lia]. }
  rewrite Nat2Z.id. pose proof (digits_of_digits (S k) p) as Hd. pose proof (num_of_digits (S k) p ltac:(lia)) as En.
  pose proof (digits_of_length (S k) p) as Ld. set (ds := digits_of (S k) p) in *. clearbody ds.
  destruct ds as [|c ds]; [done|]. pose proof Hd as Hd'. apply Forall_cons in Hd' as [Hc _].
  assert (read_sign ((if n <? 0 then [45] else []) ++ c :: ds) = (n <? 0, c :: ds)) as Es.
  { destruct (n <? 0); [done|]. cbn. unfold is_digit in Hc. apply andb_true_iff in Hc as [?%Z.leb_le ?%Z.leb_le].
    by rewrite (proj2 (Z.eqb_neq c 45)), (proj2 (Z.eqb_neq c 43)) by lia. }
  unfold strtod. rewrite Es, (span_all _ Hd). cbn [read_frac app read_exp length]. rewrite app_nil_r, En.
  rewrite Nat.sub_0_r. f_equal. unfold scale, double_of_Z. rewrite (proj2 (Z.eqb_neq p 0)) by lia.
  change (0 - Z.of_nat 0) with 0. cbn [Z.ltb Z.compare]. change (10 ^ Z.max 0 0) with 1.
  change (10 ^ Z.max 0 (- 0)) with 1. by rewrite Z.mul_1_r.
Qed.

Lemma round_int_nonneg p q : 0 <= p -> 0 < q -> 0 <= round_int p q.
Proof.
  intros Hp Hq. unfold round_int. assert (0 <= p / q) by (by apply Z.div_pos).
  destruct (_ ?= _); [destruct (Z.even _)|..]; lia.
Qed.

Lemma round64_nonneg s p q s' m e : 0 <= p -> 0 < q -> round64 s p q = Fin s' m e -> 0 <= m.
Proof.
  intros Hp Hq. unfold round64. destruct (p =? 0); [by intros [= _ <- _]|].
  set (x := round_int _ _). assert (0 <= x) as Hx.
  { apply round_int_nonneg; unfold up2; [apply Z.mul_nonneg_nonneg | apply Z.mul_pos_pos]; try done;
      [apply Z.pow_nonneg | apply Z.pow_pos_nonneg]; lia. }
  destruct (x =? 2 ^ 53); (destruct (971 <? _); [done|]); [by intros [= _ <- _]|].
  destruct (x =? 0); by intros [= _ <- _].
Qed.

Lemma compare_double_refl s m e : 0 <= m -> compare_double (Fin s m e) (Fin s m e) = true.
Proof.
  intros Hm. cbn [compare_double]. rewrite Z.sub_diag. change (round64 false (Z.abs 0) ?d) with (Fin false 0 0).
  destruct (round64 false _ _) as [| |s2 m2 e2] eqn:E; [done..|].
  assert (forall e, 0 < frac_den e) as Hden by (intros; apply Z.pow_pos_nonneg; lia).
  apply round64_nonneg in E; [|lia|pose proof (Hden e); nia].
  apply Z.leb_le. unfold frac_num at 1, up2. rewrite !Z.mul_0_l. apply Z.mul_nonneg_nonneg; [|by apply Z.lt_le_incl].
  unfold frac_num, up2. apply Z.mul_nonneg_nonneg; [done|apply Z.pow_nonneg; lia].
Qed.

(** *** The decimal text *)

Lemma bytes_of_digits fuel n acc : 0 <= n ->
  bytes_of (digits fuel n acc) = digits_of (Z.to_nat (count_digits fuel n)) n ++ bytes_of acc.
Proof.
  assert (forall d s, 0 <= d <= 9 -> bytes_of (String (digit_char d) s) = (48 + d) :: bytes_of s) as Hchar.
  { intros d s Hd. unfold bytes_of, digit_char. cbn. f_equal. rewrite N_ascii_embedding; lia. }
  revert n acc. induction fuel as [|fuel IH]; intros n acc Hn; [done|]. cbn [digits count_digits].
  destruct (Z.ltb_spec n 10).
  - rewrite Hchar by lia. change (digits_of (Z.to_nat 1) n) with [48 + n mod 10]. by rewrite Z.mod_small by lia.
  - rewrite IH by (apply Z.div_pos; lia). pose proof (Z.mod_pos_bound n 10).
    rewrite Hchar by lia.
    assert (0 <= count_digits fuel (n / 10)) as Hc.
    { generalize (n / 10). clear. induction fuel as [|fuel IH]; intros n; cbn; [lia|].
      destruct (_ <? _); [lia|]. specialize (IH (n / 10)). lia. }
    replace (Z.to_nat (1 + count_digits fuel (n / 10))) with (S (Z.to_nat (count_digits fuel (n / 10)))) by lia.
    rewrite digits_of_app, <- app_assoc. done.
Qed.

Lemma count_digits_fuel n f1 f2 : 0 < n -> n < 10 ^ Z.of_nat f1 -> n < 10 ^ Z.of_nat f2 ->
  count_digits f1 n = count_digits f2 n.
Proof.
  intros Hn H1 H2. destruct (count_digits_spec f1 n) as (k1 & -> & _ & A1 & A2); [done|].
  destruct (count_digits_spec f2 n) as (k2 & -> & _ & B1 & B2); [done|].
  assert (k1 < S k2)%nat by (apply Nat2Z.inj_lt, (Z.pow_lt_mono_r_iff 10); lia).
  assert (k2 < S k1)%nat by (apply Nat2Z.inj_lt, (Z.pow_lt_mono_r_iff 10); lia). lia.
Qed.

Lemma int_text_dec n : n <> 0 -> Z.abs n < 10 ^ 15 -> int_text n = bytes_of (dec n).
Proof.
  intros Hn Hb. unfold int_text, dec.
  assert (bytes_of (digits 20 (Z.abs n) "") = digits_of (Z.to_nat (count_digits 400 (Z.abs n))) (Z.abs n)) as E.
  { rewrite bytes_of_digits, (count_digits_fuel (Z.abs n) 20 400) by (first [lia | apply small_pow; [done|lia]]).
    apply app_nil_r. }
  rewrite <- E. destruct (Z.ltb_spec n 0).
  - by replace (Z.abs n) with (- n) by lia.
  - by replace (Z.abs n) with n by lia.
Qed.

Lemma saturate_int n : Z.abs n < 10 ^ 15 -> saturate (double_of_Z n) = Ok (Z.max (- 2 ^ 31) (Z.min INT_MAX n)).
Proof.
  intros Hb. destruct (decide (n = 0)) as [->|Hn]; [done|].
  destruct (double_of_Z_spec n Hn ltac:(lia)) as (m & e & c & -> & Hc & _ & _ & F1 & F2).
  unfold saturate, dge, dle, trunc. rewrite F1, F2. unfold INT_MAX.
  destruct (Z.leb_spec ((2 ^ 31 - 1) * c) (n * c)); [f_equal; nia|].
  destruct (Z.leb_spec (n * c) (- 2 ^ 31 * c)); [f_equal; nia|]. rewrite Z.quot_mul by lia.
  assert (- 2 ^ 31 < n < 2 ^ 31 - 1) by nia.
  rewrite (proj2 (Z.leb_le (- 2 ^ 31) n)), (proj2 (Z.leb_le n (2 ^ 31 - 1))) by lia. cbn. f_equal. lia.
Qed.

Lemma number_text_int n : Z.abs n < 10 ^ 15 -> number_text (double_of_Z n) = bytes_of (dec n).
Proof.
  intros Hb. destruct (decide (n = 0)) as [->|Hn]; [done|].
  destruct (double_of_Z_spec n Hn ltac:(lia)) as (m & e & c & E & Hc & _).
  unfold number_text. rewrite E, (format_int n Hn Hb m e E), (strtod_int n Hn Hb), E.
  assert (0 <= m) as Hm.
  { unfold double_of_Z in E. by apply round64_nonneg in E; [|lia..]. }
  rewrite compare_double_refl by done. rewrite orb_false_r.
  assert (length (int_text n) <> 0)%nat as Hl.
  { unfold int_text. rewrite length_app, digits_of_length.
    destruct (count_digits_spec 400 (Z.abs n)) as (k & -> & _); [|lia].
    split; [lia|]. apply small_pow; [done|lia]. }
  rewrite (proj2 (Nat.eqb_neq _ 0) Hl). by apply int_text_dec.
Qed.

Lemma integer_ok n : Z.abs n < 10 ^ 15 ->
  number_ok (double_of_Z n) (Z.max (- 2 ^ 31) (Z.min INT_MAX n)) = true.
Proof.
  intros Hb. unfold number_ok. rewrite (number_text_int n Hb), (saturate_int n Hb).
  destruct (decide (n = 0)) as [->|Hn]; [done|].
  rewrite <- (int_text_dec n Hn Hb), (strtod_int n Hn Hb), !bool_decide_eq_true_2, andb_true_r by done. cbn [andb].
  unfold int_text. destruct (count_digits_spec 400 (Z.abs n)) as (k & -> & _).
  { split; [lia|]. apply small_pow; [done|lia]. }
  rewrite Nat2Z.id. pose proof (digits_of_digits (S k) (Z.abs n)) as Hd. pose proof (digits_of_length (S k) (Z.abs n)).
  set (ds := digits_of (S k) (Z.abs n)) in *. clearbody ds. apply andb_true_iff. split.
  - rewrite forallb_app. apply andb_true_iff. split; [by destruct (n <? 0)|]. apply forallb_forall.
    intros c Hc%list_elem_of_In. rewrite Forall_forall in Hd. unfold number_char. by rewrite (Hd c Hc).
  - destruct ds as [|c ds]; [done|]. apply Forall_cons in Hd as [Hc _].
    destruct (n <? 0); [done|]. cbn. by rewrite Hc, orb_true_r.
Qed.

Lemma well_formed_number depth n : Z.abs n < 10 ^ 15 -> well_formed depth (cJSON_CreateNumber n).
Proof.
  intros Hb. unfold cJSON_CreateNumber. rewrite (saturate_int n Hb). by apply wf_number, integer_ok.
Qed.

(** integers of up to 15 digits, which are what the programs put into their
    answers: cJSON prints exactly their decimal text, and reads the same number
    back, with [valueint] saturated to the range of [int]. *)
Theorem integer_text (n : Z) (Hb : Z.abs n < 10 ^ 15) :
  render true 0 (cJSON_CreateNumber n) = bytes_of (dec n) /\
  number_ok (double_of_Z n) (Z.max (- 2 ^ 31) (Z.min INT_MAX n)) = true.
Proof. split; [by apply number_text_int | by apply integer_ok]. Qed.

Lemma integer_text_witness :
  render true 0 (cJSON_CreateNumber (-147171)) = bytes_of (dec (-147171)) /\
  number_ok (double_of_Z (-147171)) (Z.max (- 2 ^ 31) (Z.min INT_MAX (-147171))) = true.
Proof. apply integer_text. vm_compute. reflexivity. Defined.
