(* ===== verification/Compact.v ===== *)
(** Printing with white space, without it, and removing it: [cJSON_Minify] of what
    [cJSON_Print] prints is what [cJSON_PrintUnformatted] prints
    (src/src/common/cJSON.c). *)

From Stdlib Require Import ZArith Lia Bool Ascii String.
From stdpp Require Import base tactics numbers list strings.
From S2P Require Import Prelude CString Text Double CJson CJsonParse CJsonPrint CJsonMinify CJsonRoundtrip.

(** No text of the tree contains a backslash, which [cJSON_Minify] cannot handle
    in front of a quote. *)
Definition no_backslash (s : option string) : bool :=
  match s with Some s => forallb (fun c => negb (c =? 92)) (bytes_of s) | None => true end.
Fixpoint plain_texts (item : cJSON) : bool :=
  let '(Item _ valuestring _ _ name child) := item in
  no_backslash valuestring && no_backslash name && forallb plain_texts child.

(** Bytes that are copied one by one outside of literals. *)
Definition kept (c : Z) : bool := negb (is_blank c) && negb (c =? 47) && negb (c =? 34).

Lemma minified_kept t rest : forallb kept t = true -> minified Plain (t ++ rest) = t ++ minified Plain rest.
Proof.
  induction t as [|c t IH]; [done|]. cbn [forallb]. intros [Hc Ht]%andb_true_iff. unfold kept in Hc.
  rewrite !andb_true_iff, !negb_true_iff in Hc. destruct Hc as [[H1 H2] H3].
  cbn [app minified]. by rewrite H1, H2, H3, IH.
Qed.

Lemma minified_ws b w rest : forallb is_blank w = true -> minified Plain (ws b w ++ rest) = minified Plain rest.
Proof.
  intros Hw. destruct b; [|done]. cbn [ws]. induction w as [|c w IH]; [done|].
  cbn [forallb] in Hw. apply andb_true_iff in Hw as [Hc Hw]. cbn [app minified]. rewrite Hc. by apply IH.
Qed.

Lemma blank_replicate n : forallb is_blank (replicate n 9) = true.
Proof. by induction n. Qed.

(** One escaped byte inside a literal. *)
Lemma minified_escape c rest : 0 <= c -> c <> 92 ->
  minified Literal (escape c ++ rest) = escape c ++ minified Literal rest.
Proof.
  intros H0 Hc. destruct (escape_cases c H0) as [(-> & H1 & H2)|[(e & -> & He & Hx)|(Hlt & ->)]].
  - cbn [app minified]. by rewrite (proj2 (Z.eqb_neq c 34)), (proj2 (Z.eqb_neq c 92)).
  - assert (e <> 92) as He' by (intros ->; by injection Hx as <-).
    cbn [app minified Z.eqb Pos.eqb]. destruct (Z.eqb_spec e 34); [done|]. by rewrite (proj2 (Z.eqb_neq e 92)).
  - cbn [app minified Z.eqb Pos.eqb].
    destruct (hex_char_plain (c / 16)) as [Ha Hb]; [split; [apply Z.div_pos; lia|apply Z.div_lt_upper_bound; lia]|].
    destruct (hex_char_plain (c mod 16)) as [Hd He]; [apply Z.mod_pos_bound; lia|].
    by rewrite !(proj2 (Z.eqb_neq (hex_char _) _)).
Qed.

Lemma minified_quoted s rest : no_backslash s = true ->
  minified Plain (quoted s ++ rest) = quoted s ++ minified Plain rest.
Proof.
  destruct s as [s|]; [|done]. cbn [no_backslash quoted app]. intros Hb. rewrite <- !app_assoc.
  change (minified Plain (34 :: ?r)) with (34 :: minified Literal r). f_equal.
  pose proof (bytes_nonneg s) as Hn. induction Hn as [|c l Hc _ IH]; [done|].
  cbn [forallb] in Hb. apply andb_true_iff in Hb as [Hc'%negb_true_iff%Z.eqb_neq Hb].
  cbn [mbind list_bind]. change (mbind escape l) with (l ≫= escape). rewrite <- !app_assoc.
  rewrite minified_escape by done. f_equal. by apply IH.
Qed.

Lemma number_char_kept c : number_char c = true -> kept c = true.
Proof.
  intros Hc. assert (0 <= c < 128) as Hr.
  { apply number_char_byte in Hc as Hb. unfold number_char, is_digit in Hc.
    rewrite !orb_true_iff, !andb_true_iff, !Z.eqb_eq, !Z.leb_le in Hc. lia. }
  assert (negb (number_char c) || kept c = true) as H.
  { apply (seqZ_forallb (fun c => negb (number_char c) || kept c) 0 128); [vm_compute; reflexivity|done]. }
  by rewrite Hc in H.
Qed.

(** The text of an item with white space, minified, and its text without. *)
Definition shrinks (item : cJSON) : Prop := forall depth j j' rest, well_formed depth item -> plain_texts item = true ->
  minified Plain (render true j item ++ rest) = render false j' item ++ minified Plain rest.

Lemma elements_shrink depth j j' l rest : Forall shrinks l ->
  Forall (fun x => well_formed depth x /\ plain_texts x = true) l ->
  minified Plain (render_elements true (render true) j l ++ rest) =
  render_elements false (render false) j' l ++ minified Plain rest.
Proof.
  intros Hs Hl. revert Hl. induction Hs as [|x l Hx _ IH]; intros Hl; [done|].
  apply Forall_cons in Hl as [[Hwf Hp] Hl]. cbn [render_elements]. rewrite <- !app_assoc, (Hx depth j j') by done. f_equal.
  destruct l as [|y l]; [exact (IH Hl)|]. cbn [is_nil ws app].
  change (minified Plain (44 :: 32 :: ?r)) with (44 :: minified Plain r). f_equal. exact (IH Hl).
Qed.

Lemma members_shrink depth j j' l rest : Forall shrinks l ->
  Forall (fun x => well_formed depth x /\ plain_texts x = true /\ no_backslash (item_string x) = true) l ->
  minified Plain (render_members true (render true) j l ++ rest) =
  render_members false (render false) j' l ++ minified Plain rest.
Proof.
  intros Hs Hl. revert Hl. induction Hs as [|x l Hx _ IH]; intros Hl; [done|].
  apply Forall_cons in Hl as [(Hwf & Hp & Hn) Hl]. cbn [render_members]. rewrite <- !app_assoc.
  rewrite (minified_ws true) by apply blank_replicate. cbn [ws app]. rewrite <- ?app_assoc.
  rewrite minified_quoted by done. f_equal. cbn [app]. rewrite <- ?app_assoc.
  change (minified Plain (58 :: 9 :: ?r)) with (58 :: minified Plain r). f_equal.
  rewrite (Hx depth j j') by done. f_equal.
  destruct l as [|y l]; cbn [is_nil app].
  - change (minified Plain (10 :: ?r)) with (minified Plain r). exact (IH Hl).
  - change (minified Plain (44 :: 10 :: ?r)) with (44 :: minified Plain r). f_equal. exact (IH Hl).
Qed.

Lemma value_shrinks item : shrinks item.
Proof.
  induction item as [type s v d n c IH] using cJSON_tree_ind. intros depth j j' rest Hwf Hp.
  cbn [plain_texts] in Hp. rewrite !andb_true_iff in Hp. destruct Hp as [[Hs Hn] Hc]. rewrite forallb_forall in Hc.
  inversion Hwf as [n'|n'|n'|v' d' n' Hd|s' n' Ht|c' n' Hd Hl|c' n' Hd Hl]; subst.
  - exact (minified_kept [110; 117; 108; 108] rest eq_refl).
  - exact (minified_kept [102; 97; 108; 115; 101] rest eq_refl).
  - exact (minified_kept [116; 114; 117; 101] rest eq_refl).
  - apply (minified_kept (number_text d)). unfold number_ok in Hd. rewrite !andb_true_iff in Hd.
    destruct Hd as [[[_ Hd] _] _]. rewrite forallb_forall in Hd |- *. intros x Hx. by apply number_char_kept, Hd.
  - by apply (minified_quoted (Some s')).
  - change (minified Plain (([91] ++ render_elements true (render true) (S j) c ++ [93]) ++ rest) =
      ([91] ++ render_elements false (render false) (S j') c ++ [93]) ++ minified Plain rest).
    rewrite <- !app_assoc. rewrite (minified_kept [91]) by done. f_equal.
    rewrite (elements_shrink (S depth) (S j) (S j')); [|done|].
    + done.
    + rewrite Forall_forall in *. intros x Hx. split; [by apply Hl|]. by apply Hc, list_elem_of_In.
  - change (minified Plain ((123 :: [10] ++ render_members true (render true) (S j) c ++ replicate j 9 ++ [125]) ++ rest) =
      (123 :: [] ++ render_members false (render false) (S j') c ++ [] ++ [125]) ++ minified Plain rest).
    cbn [app]. rewrite <- !app_assoc.
    change (minified Plain (123 :: 10 :: ?r)) with (123 :: minified Plain r). f_equal.
    rewrite (members_shrink (S depth) (S j) (S j')); [|done|].
    + f_equal. rewrite (minified_ws true (replicate j 9)) by apply blank_replicate. exact (minified_kept [125] rest eq_refl).
    + rewrite Forall_forall in *. intros x Hx. specialize (Hc x ltac:(by apply list_elem_of_In)).
      split; [by apply Hl|]. split; [done|]. destruct x. cbn in *. rewrite !andb_true_iff in Hc. apply Hc.
Qed.

(** C33: [cJSON_Minify] undoes the formatting: on a buffer with the text that
    [cJSON_Print] prints for a tree it leaves the text that
    [cJSON_PrintUnformatted] prints for it, for every tree the parser can build
    whose texts contain no backslash. *)
Theorem minify_print (item : cJSON) (buf : list Z)
    (Hw : well_formed 0 item) (Hp : plain_texts item = true)
    (Hb : forall fmt, Z.of_nat (length (render fmt 0 item)) + 2 <= INT_MAX)
    (Ht : text buf = Ok (bytes_of (cJSON_Print item))) :
  exists buf', cJSON_Minify (Some buf) = Ok (Some buf') /\ text buf' = Ok (bytes_of (cJSON_PrintUnformatted item)).
Proof.
  assert (forall fmt, bytes_of (printed fmt item) = render fmt 0 item) as Epr.
  { intros fmt. unfold printed. rewrite print_total by (done || by eapply well_formed_printable).
    apply bytes_of_text. eapply Forall_impl; [exact (render_bytes fmt item 0 0 Hw)|].
    unfold text_byte, is_byte. intros x ?. lia. }
  destruct (minify_total buf _ Ht) as (buf' & E & Et & _). exists buf'. split; [done|].
  unfold cJSON_Print, cJSON_PrintUnformatted in *. rewrite !Epr in *. rewrite Et. f_equal.
  pose proof (value_shrinks item 0%nat 0%nat 0%nat [] Hw Hp) as Hs. by rewrite !app_nil_r in Hs.
Qed.

Lemma minify_print_witness :
  exists buf', cJSON_Minify (Some (bytes_of (cJSON_Print sample_tree) ++ [0])) = Ok (Some buf') /\
    text buf' = Ok (bytes_of (cJSON_PrintUnformatted sample_tree)).
Proof.
  apply minify_print; [exact sample_tree_wf|reflexivity|intros []; vm_compute; congruence|reflexivity].
Defined.

