(* ===== verification/CJsonMisc.v ===== *)
(** The rest of the interface of cJSON (src/src/common/cJSON.c): parsing with
    options, values read and set in place, hooks and version. *)

From Stdlib Require Import ZArith Lia Bool Ascii String.
From stdpp Require Import base tactics numbers list strings.
From S2P Require Import Prelude CString Text Double CJson CJsonParse CJsonPrint CJsonRoundtrip.

(** ** Parsing with options *)

(** [cJSON_ParseWithLengthOpts] on a buffer of [buffer_length] bytes: the item and
    the bytes from [return_parse_end] on; [None] for [NULL]. *)
Definition cJSON_ParseWithLengthOpts (content : list Z) (require_null_terminated : bool)
    : outcome (option (cJSON * list Z)) :=
  match content with
  | [] => Ok None
  | _ =>
      let? (item, rest) := parse_value (2 * length content + 2) 0
                             (buffer_skip_whitespace (skip_utf8_bom content)) in
      if require_null_terminated then
        let rest := buffer_skip_whitespace rest in
        if head_is 0 rest then Ok (Some (item, rest)) else Ok None
      else Ok (Some (item, rest))
  end.

(** [cJSON_ParseWithOpts] of a C string; the NUL belongs to the buffer. *)
Definition cJSON_ParseWithOpts (value : option (list Z)) (require_null_terminated : bool)
    : outcome (option (cJSON * list Z)) :=
  match value with
  | None => Ok None
  | Some value => cJSON_ParseWithLengthOpts (c_string value ++ [0]) require_null_terminated
  end.
Definition cJSON_ParseWithLength (content : list Z) : outcome (option cJSON) :=
  let? (item, _) := cJSON_ParseWithLengthOpts content false in Ok (Some item).

(** [cJSON_Parse] is the parser without options. *)
Lemma parse_without_options value :
  parse_text value = let? (item, _) := cJSON_ParseWithOpts (Some (bytes_of value)) false in Ok (Some item).
Proof.
  unfold parse_text, parse_buffer, cJSON_ParseWithOpts, cJSON_ParseWithLengthOpts.
  destruct (c_string (bytes_of value) ++ [0]) as [|c r] eqn:E; [done|]. rewrite <- E.
  destruct (parse_value _ _ _) as [[[item rest]|]|]; done.
Qed.

(** White space up to the end, and anything else. *)
Lemma skip_to_nul g : Forall (fun c => c <= 32) g -> buffer_skip_whitespace (g ++ [0]) = [0].
Proof.
  induction 1 as [|c g Hc Hg IH]; [done|]. cbn [app buffer_skip_whitespace].
  rewrite (proj2 (Z.leb_le c 32) Hc), IH. by destruct (g ++ [0]) eqn:E; [destruct g|].
Qed.
Lemma skip_to_garbage g : nonul g -> ~ Forall (fun c => c <= 32) g ->
  head_is 0 (buffer_skip_whitespace (g ++ [0])) = false.
Proof.
  induction 1 as [|c g Hc Hg IH]; intros Hn; [by destruct Hn|]. cbn [app buffer_skip_whitespace].
  destruct (Z.leb_spec c 32) as [Hle|Hgt].
  - destruct (g ++ [0]) eqn:E; [by destruct g|]. apply IH. intros Hf. apply Hn. by constructor.
  - cbn. by apply Z.eqb_neq.
Qed.

#[export] Instance blank_dec (g : list Z) : Decision (Forall (fun c => c <= 32) g).
Proof. apply _. Defined.

(** parsing the text of a tree with [g] behind it: without options the tree is
    found and [return_parse_end] is exactly behind its text, whatever [g] is (a
    number may not run into it); with [require_null_terminated] it is accepted
    exactly if [g] is white space. *)
Theorem parse_end_exact (fmt : bool) (item : cJSON) (g : list Z)
    (Hw : well_formed 0 item) (Hn : item_string item = None) (Hg : nonul g) (Hs : stops (g ++ [0])) :
  let value := Some (render fmt 0 item ++ g) in
  cJSON_ParseWithOpts value false = Ok (Some (item, g ++ [0])) /\
  cJSON_ParseWithOpts value true =
    if decide (Forall (fun c => c <= 32) g) then Ok (Some (item, [0])) else Ok None.
Proof.
  intros value. destruct (parse_value_rendered fmt item g Hw Hn Hg Hs) as [Hne E].
  assert (c_string (render fmt 0 item ++ g) ++ [0] = render fmt 0 item ++ g ++ [0]) as Ec.
  { rewrite c_string_id; [by rewrite app_assoc|]. apply Forall_app. split; [|done].
    eapply Forall_impl; [exact (render_bytes fmt item 0 0 Hw)|]. unfold text_byte. intros x ?. lia. }
  assert (forall req, cJSON_ParseWithOpts value req =
    if req then (if head_is 0 (buffer_skip_whitespace (g ++ [0])) then Ok (Some (item, buffer_skip_whitespace (g ++ [0]))) else Ok None)
    else Ok (Some (item, g ++ [0]))) as Eo.
  { intros req. unfold value, cJSON_ParseWithOpts, cJSON_ParseWithLengthOpts. rewrite Ec.
    destruct (render fmt 0 item ++ g ++ [0]) as [|c r]; [done|]. by rewrite E. }
  rewrite !Eo. split; [done|]. destruct (decide _) as [Hb|Hb].
  - by rewrite skip_to_nul.
  - by rewrite skip_to_garbage.
Qed.

(** [[] x]: the end is at the blank, and the garbage is noticed when asked for. *)
Lemma parse_end_exact_witness :
  cJSON_ParseWithOpts (Some (render true 0 cJSON_CreateArray ++ [32; 120])) false =
    Ok (Some (cJSON_CreateArray, [32; 120; 0])) /\
  cJSON_ParseWithOpts (Some (render true 0 cJSON_CreateArray ++ [32; 120])) true = Ok None.
Proof.
  apply (parse_end_exact true cJSON_CreateArray [32; 120]).
  - apply wf_array; [unfold CJSON_NESTING_LIMIT; lia|constructor].
  - done.
  - by repeat constructor.
  - done.
Defined.

(** ** Values in place *)

Definition cJSON_IsReference : Z := 256.

(** The type of an item, without the flags. *)
Definition cJSON_IsNumber (item : option cJSON) : bool :=
  match item with Some i => Z.land (item_type i) 255 =? cJSON_Number | None => false end.
Definition cJSON_IsString (item : option cJSON) : bool :=
  match item with Some i => Z.land (item_type i) 255 =? cJSON_String | None => false end.

Definition cJSON_GetStringValue (item : option cJSON) : option string :=
  match item with Some i => if cJSON_IsString item then item_valuestring i else None | None => None end.
Definition cJSON_GetNumberValue (item : option cJSON) : double :=
  match item with Some i => if cJSON_IsNumber item then item_valuedouble i else NaN | None => NaN end.

(** [cJSON_SetNumberHelper]: the object afterwards. *)
Definition cJSON_SetNumberHelper (object : cJSON) (number : double) : outcome cJSON :=
  let '(Item t s _ _ n c) := object in
  let* v := saturate number in
  Ok (Item t s v number n c).

(** [cJSON_SetValuestring]: the returned text and the object afterwards; [alloc_ok]
    says whether a copy can be allocated. *)
Definition cJSON_SetValuestring (alloc_ok : Z -> bool) (object : cJSON) (valuestring : string)
    : outcome (option string * cJSON) :=
  let '(Item t s v d n c) := object in
  if (Z.land t cJSON_String =? 0) || negb (Z.land t cJSON_IsReference =? 0) then Ok (None, object) else
  match s with
  | None => Undef NullDeref
  | Some old =>
      let set := Ok (Some valuestring, Item t (Some valuestring) v d n c) in
      if (String.length valuestring <=? String.length old)%nat then set else
      if alloc_ok (Z.of_nat (String.length valuestring) + 1) then set else Ok (None, object)
  end.

(** Setting a value and reading it: the new value, everything else unchanged. *)
Theorem set_get_value (alloc_ok : Z -> bool) (object : cJSON) (s old : string) (d : double) :
  (Z.land (item_type object) 255 = cJSON_String -> Z.land (item_type object) cJSON_IsReference = 0 ->
   item_valuestring object = Some old -> (forall n, alloc_ok n = true) ->
   exists o, cJSON_SetValuestring alloc_ok object s = Ok (Some s, o) /\ cJSON_GetStringValue (Some o) = Some s
     /\ item_child o = item_child object /\ item_string o = item_string object) /\
  (Z.land (item_type object) 255 = cJSON_Number -> d <> NaN ->
   exists o, cJSON_SetNumberHelper object d = Ok o /\ cJSON_GetNumberValue (Some o) = d
     /\ item_child o = item_child object /\ item_string o = item_string object).
Proof.
  destruct object as [t vs v vd n c]. cbn [item_type item_valuestring]. split.
  - intros Ht Hr -> Ha. unfold cJSON_SetValuestring.
    assert (Z.land t cJSON_String = cJSON_String) as Es.
    { rewrite <- Ht at 2. change cJSON_String with (Z.land 255 cJSON_String) at 1. by rewrite Z.land_assoc, Ht. }
    rewrite Es, Hr, Ha. cbn [Z.eqb cJSON_String orb negb].
    exists (Item t (Some s) v vd n c). split; [by destruct (_ <=? _)%nat|].
    unfold cJSON_GetStringValue, cJSON_IsString. cbn [item_type]. by rewrite Ht.
  - intros Ht Hd. unfold cJSON_SetNumberHelper. destruct (saturate_total d Hd) as [x ->]. cbn [obind].
    eexists. split; [done|]. unfold cJSON_GetNumberValue, cJSON_IsNumber. cbn [item_type]. by rewrite Ht.
Qed.

(** ** Hooks and version *)

(** The functions the hooks name: the C library's, or the user's. *)
Inductive hook := Libc | User (id : nat).
#[export] Instance hook_eq : EqDecision hook. Proof. solve_decision. Defined.

Record internal_hooks := InternalHooks {
  allocate : hook; deallocate : hook; reallocate : option hook }.

(** [cJSON_Hooks]: [None] for a [NULL] function. *)
Record cJSON_Hooks := Hooks { malloc_fn : option hook; free_fn : option hook }.

Definition global_hooks : internal_hooks := InternalHooks Libc Libc (Some Libc).

(** [cJSON_InitHooks]: the global hooks afterwards. *)
Definition cJSON_InitHooks (hooks : option cJSON_Hooks) : internal_hooks :=
  match hooks with
  | None => InternalHooks Libc Libc (Some Libc)
  | Some hooks =>
      let a := default Libc (malloc_fn hooks) in
      let d := default Libc (free_fn hooks) in
      InternalHooks a d (if bool_decide (a = Libc) && bool_decide (d = Libc) then Some Libc else None)
  end.

(** The library's [realloc] is only used on memory of its [malloc] that its [free]
    releases. *)
Theorem hooks_matched (hooks : option cJSON_Hooks) :
  reallocate (cJSON_InitHooks hooks) <> None ->
  allocate (cJSON_InitHooks hooks) = Libc /\ deallocate (cJSON_InitHooks hooks) = Libc.
Proof.
  destruct hooks as [[m f]|]; [|done]. cbn [cJSON_InitHooks reallocate allocate deallocate malloc_fn free_fn].
  repeat case_bool_decide; done.
Qed.

Definition CJSON_VERSION_MAJOR : Z := 1.
Definition CJSON_VERSION_MINOR : Z := 7.
Definition CJSON_VERSION_PATCH : Z := 13.

(** [cJSON_Version], into [static char version[15]]. *)
Definition cJSON_Version : outcome string :=
  let s := (dec CJSON_VERSION_MAJOR +:+ "." +:+ dec CJSON_VERSION_MINOR +:+ "." +:+ dec CJSON_VERSION_PATCH)%string in
  if (String.length s <? 15)%nat then Ok s else Undef OutOfBounds.
Example version_text : cJSON_Version = Ok "1.7.13"%string.
Proof. reflexivity. Qed.
