(* ===== verification/ParseError.v ===== *)
(** Where a parse stops: the position that cJSON keeps when a text is no document
    (src/src/common/cJSON.c: [global_error], [cJSON_GetErrorPtr]), and the wrappers
    of the hooks. *)

From Stdlib Require Import ZArith Lia Bool Ascii String.
From stdpp Require Import base tactics numbers list strings.
From S2P Require Import Prelude CString Text Double CJson CJsonParse CJsonPrint CJsonRoundtrip CJsonMisc.

(** ** The offset of a failure *)

(** [input_pointer] at the escape that cannot be read: the number of bytes of the
    literal in front of it. *)
Fixpoint stop_escape (n : nat) (input : list Z) : nat :=
  match n, input with
  | S n, c :: rest =>
      if negb (c =? 92) then S (stop_escape n rest) else
      match rest with
      | [] => O
      | c' :: rest' =>
          if c' =? 117 then
            match utf16_literal_to_utf8 input with
            | None => O
            | Some (_, after) => (length input - length after + stop_escape n after)%nat
            end
          else match escape_char c' with None => O | Some _ => S (S (stop_escape n rest')) end
      end
  | _, _ => O
  end.

(** What is left of the buffer, from [offset] on, when [parse_string] has failed:
    [offset] is that of [input_pointer]. *)
Definition stop_string (rest : list Z) : list Z :=
  match rest with
  | [] => []
  | c :: r =>
      if negb (c =? 34) then r else
      match string_end r with
      | None => r
      | Some (lit, _, _) => drop (stop_escape (S (length lit)) lit) r
      end
  end.

(** The same for [parse_value], and for the loops of [parse_array] and
    [parse_object]. *)
Fixpoint stop_value (fuel depth : nat) (rest : list Z) : list Z :=
  match fuel, rest with
  | S fuel, c :: rest' =>
      let r := buffer_skip_whitespace rest' in
      if c =? 34 then stop_string rest
      else if (c =? 45) || is_digit c then rest
      else if (c =? 91) || (c =? 123) then
        if (CJSON_NESTING_LIMIT <=? depth)%nat then rest else
        match r with
        | [] => rest
        | _ => if c =? 91 then stop_elements fuel (S depth) r else stop_members fuel (S depth) r
        end
      else rest
  | _, _ => rest
  end
with stop_elements (fuel depth : nat) (rest : list Z) : list Z :=
  match fuel with
  | O => rest
  | S fuel =>
      let v := buffer_skip_whitespace rest in
      match parse_value fuel depth v with
      | Ok (Some (_, r)) =>
          let r := buffer_skip_whitespace r in
          if head_is 44 r then stop_elements fuel depth (drop 1 r) else r
      | _ => stop_value fuel depth v
      end
  end
with stop_members (fuel depth : nat) (rest : list Z) : list Z :=
  match fuel with
  | O => rest
  | S fuel =>
      let n := buffer_skip_whitespace rest in
      match parse_string n with
      | Ok (Some (_, r)) =>
          let r := buffer_skip_whitespace r in
          if negb (head_is 58 r) then r else
          let v := buffer_skip_whitespace (drop 1 r) in
          match parse_value fuel depth v with
          | Ok (Some (_, r)) =>
              let r := buffer_skip_whitespace r in
              if head_is 44 r then stop_members fuel depth (drop 1 r) else r
          | _ => stop_value fuel depth v
          end
      | _ => stop_string n
      end
  end.

(** ** The error *)

Record error := Error { err_json : option (list Z); err_position : nat }.
Definition no_error : error := Error None 0.

(** [cJSON_GetErrorPtr]: the bytes it points to, [None] for [NULL]. *)
Definition cJSON_GetErrorPtr (global_error : error) : option (list Z) :=
  drop (err_position global_error) <$> err_json global_error.

(** [local_error] behind [fail:], from what is left of the buffer. *)
Definition failed_at (content rest : list Z) : error :=
  let offset := (length content - length rest)%nat in
  Error (Some content)
    (if (offset <? length content)%nat then offset
     else if (0 <? length content)%nat then length content - 1 else O)%nat.

(** [global_error] after [cJSON_ParseWithLengthOpts] of a buffer that is not
    [NULL]. *)
Definition parse_error (content : list Z) (require_null_terminated : bool) : error :=
  match content with
  | [] => failed_at [] []
  | _ =>
      let start := buffer_skip_whitespace (skip_utf8_bom content) in
      let fuel := (2 * length content + 2)%nat in
      match parse_value fuel 0 start with
      | Ok (Some (_, rest)) =>
          let rest := buffer_skip_whitespace rest in
          if require_null_terminated && negb (head_is 0 rest) then failed_at content rest else no_error
      | _ => failed_at content (stop_value fuel 0 start)
      end
  end.

(** [cJSON_malloc] and [cJSON_free]: the function each calls, with its argument. *)
Definition cJSON_malloc (hooks : internal_hooks) (size : Z) : hook * Z := (allocate hooks, size).
Definition cJSON_free (hooks : internal_hooks) (object : Z) : hook * Z := (deallocate hooks, object).

(** ** What the error says *)

Lemma skip_whitespace_suffix r : exists k, r = k ++ buffer_skip_whitespace r.
Proof.
  induction r as [|c r [k IH]]; [by exists []|]. cbn [buffer_skip_whitespace].
  destruct (c <=? 32); [|by exists []]. destruct r as [|c2 r]; [by exists []|]. exists (c :: k). cbn. by f_equal.
Qed.
Lemma skip_whitespace_nonempty r : r <> [] -> buffer_skip_whitespace r <> [].
Proof.
  induction r as [|c r IH]; [done|]. intros _. cbn [buffer_skip_whitespace]. destruct (c <=? 32); [|done].
  destruct r as [|c2 r]; [done|]. by apply IH.
Qed.

Lemma failed_inside content rest : content <> [] ->
  err_json (failed_at content rest) = Some content /\ (err_position (failed_at content rest) < length content)%nat.
Proof.
  intros Hne. split; [done|]. assert (0 < length content)%nat by (destruct content; [done|cbn; lia]).
  unfold failed_at. cbn [err_position]. destruct (Nat.ltb_spec (length content - length rest) (length content)); [lia|].
  destruct (Nat.ltb_spec 0 (length content)); lia.
Qed.

(** An error is kept exactly when the parse fails, and it points into the text or at
    its terminator. *)
Theorem parse_error_inside (value : list Z) (req : bool) (Hv : nonul value) :
  let e := parse_error (value ++ [0]) req in
  match cJSON_ParseWithOpts (Some value) req with
  | Ok (Some _) => e = no_error /\ cJSON_GetErrorPtr e = None
  | Ok None => exists p, e = Error (Some (value ++ [0])) p /\ (p <= length value)%nat
  | Undef _ => False
  end.
Proof.
  cbv zeta. unfold cJSON_ParseWithOpts, cJSON_ParseWithLengthOpts, parse_error. rewrite (c_string_id value Hv).
  destruct (value ++ [0]) as [|c r] eqn:E; [by destruct value|]. rewrite <- E in *.
  assert (forall rest, exists p, failed_at (value ++ [0]) rest = Error (Some (value ++ [0])) p /\ (p <= length value)%nat) as Hf.
  { intros rest. destruct (failed_inside (value ++ [0]) rest) as [_ Hp]; [by rewrite E|].
    rewrite length_app in Hp. cbn [length] in Hp. exists (err_position (failed_at (value ++ [0]) rest)). split; [done|lia]. }
  assert (terminated (value ++ [0])) as Ht by (by exists value).
  destruct (skip_bom_spec _ Ht) as [H1 L1]. destruct (skip_whitespace_spec _ H1) as [H2 L2].
  destruct (proj1 (parse_ok (2 * length (value ++ [0]) + 2)) 0%nat _ H2 ltac:(lia)) as (o & Ho & _). rewrite Ho. cbn [obind]. destruct o as [[item rest]|]; [|apply Hf].
  destruct req; [|done]. cbn [andb]. destruct (head_is 0 _); [done|apply Hf].
Qed.

(** Garbage behind a document: the error points at its first byte that is not white
    space. *)
Theorem parse_error_exact (fmt : bool) (item : cJSON) (g : list Z)
    (Hw : well_formed 0 item) (Hn : item_string item = None) (Hg : nonul g) (Hs : stops (g ++ [0]))
    (Hb : ~ Forall (fun c => c <= 32) g) :
  let value := render fmt 0 item ++ g in
  cJSON_ParseWithOpts (Some value) true = Ok None /\
  cJSON_GetErrorPtr (parse_error (value ++ [0]) true) = Some (buffer_skip_whitespace (g ++ [0])).
Proof.
  intros value. destruct (parse_value_rendered fmt item g Hw Hn Hg Hs) as [Hne E].
  assert (nonul value) as Hv.
  { apply Forall_app. split; [|done]. eapply Forall_impl; [exact (render_bytes fmt item 0 0 Hw)|].
    unfold text_byte. intros x ?. lia. }
  assert (value ++ [0] = render fmt 0 item ++ g ++ [0]) as Ev by (unfold value; by rewrite <- app_assoc).
  assert (exists k, g ++ [0] = k ++ buffer_skip_whitespace (g ++ [0])) as [k Ek] by apply skip_whitespace_suffix.
  pose proof (skip_to_garbage g Hg Hb) as Hh. set (r := buffer_skip_whitespace (g ++ [0])) in *.
  assert (cJSON_ParseWithOpts (Some value) true = Ok None /\
    parse_error (value ++ [0]) true = failed_at (value ++ [0]) r) as [-> ->].
  { unfold cJSON_ParseWithOpts, cJSON_ParseWithLengthOpts, parse_error. rewrite (c_string_id value Hv), Ev.
    destruct (render fmt 0 item ++ g ++ [0]) as [|c t] eqn:Ec; [done|]. rewrite E. cbn [obind]. fold r. by rewrite Hh. }
  split; [done|]. assert (r <> []) as Hr by (apply skip_whitespace_nonempty; by destruct g).
  assert (0 < length r)%nat by (destruct r; [done|cbn; lia]).
  assert (value ++ [0] = (render fmt 0 item ++ k) ++ r) as E2 by (rewrite Ev, Ek; by rewrite app_assoc).
  unfold cJSON_GetErrorPtr, failed_at. cbn [err_json err_position fmap option_fmap option_map]. rewrite E2, length_app.
  replace (length (render fmt 0 item ++ k) + length r - length r)%nat with (length (render fmt 0 item ++ k)) by lia.
  rewrite (proj2 (Nat.ltb_lt _ _)) by lia. by rewrite drop_app_length.
Qed.

(** [[] x]: the error is at the x. *)
Lemma parse_error_exact_witness :
  cJSON_ParseWithOpts (Some (render true 0 cJSON_CreateArray ++ [32; 120])) true = Ok None /\
  cJSON_GetErrorPtr (parse_error ((render true 0 cJSON_CreateArray ++ [32; 120]) ++ [0]) true) = Some [120; 0].
Proof.
  apply (parse_error_exact true cJSON_CreateArray [32; 120]).
  - apply wf_array; [unfold CJSON_NESTING_LIMIT; lia|constructor].
  - done.
  - by repeat constructor.
  - done.
  - intros Hf. by inversion Hf as [|? ? _ Hf']; inversion Hf'; subst.
Defined.

(** Where the parser gives up: in front of the bad escape of a string, behind the
    quote of one that does not end, at the element that is no value, at the place
    of a missing colon or bracket. *)
Example error_positions :
  (fun s => err_position (parse_error (s ++ [0]) false)) <$>
    [ [123; 34; 97; 92; 113; 34; 125]; [34; 97; 98]; [91; 49; 44; 120; 93];
      [123; 34; 97; 34; 49; 125]; [91; 49; 44; 50]; [] ] = [3; 1; 3; 4; 4; 0]%nat.
Proof. vm_compute. reflexivity. Qed.
