(* ===== verification/World.v ===== *)
(** The machine the CGI programs run on: the external services as an interface,
    the state the programs change, and the monad their code is written in. *)

From Stdlib Require Import ZArith Lia Bool Ascii String.
From stdpp Require Import base tactics numbers list strings gmap.
From S2P Require Import Prelude Text.

Open Scope Z_scope.

(** ** External services *)

(** The result of [mysql_query] and [mysql_store_result]: a statement that is
    refused, one without a result set, or the rows, with [None] for SQL's null. *)
Inductive sql_reply :=
  | QError
  | QDone
  | QRows (rows : list (list (option string))).

(** [redisReply]: the reply types of hiredis that its replies of RESP2 have. *)
Inductive redisReply :=
  | RStatus (str : string)
  | RErrorReply (str : string)
  | RInteger (integer : Z)
  | RNil
  | RString (str : string)
  | RArray (element : list redisReply).

(** What [redisConnect] returns: [NULL], a context with [err] set, or a usable
    context. *)
Inductive redis_link := LinkNull | LinkErr | LinkOk.

(** A variadic argument of [redisCommand]. *)
Inductive rarg := RS (s : string) | RI (n : Z).

(** The software the programs call and do not contain: the MySQL client and
    server, hiredis and the Redis server, and the FastDFS command line tools run
    by [system] and [execlp]. [spawn_ok] says whether [pipe] and [fork] succeed,
    [run_tool] gives the bytes one [read] on the pipe of a child returns. *)
Class Services := {
  Db : Type;
  Rd : Type;
  Sys : Type;
  mysql_init : Db -> bool;
  mysql_real_connect : Db -> string -> string -> string -> bool;
  mysql_exec : Db -> string -> Db * sql_reply;
  redis_connect : Rd -> string -> Z -> redis_link;
  redis_exec : Rd -> string -> list rarg -> Rd * option redisReply;
  redis_append : Rd -> string -> list rarg -> Rd * Z;
  redis_get_reply : Rd -> Rd * Z;
  system_run : Sys -> string -> Sys * Z;
  spawn_ok : Sys -> bool;
  run_tool : Sys -> list string -> Sys * string
}.

(** ** State *)

Record world `{Services} := World {
  w_db : Db;                        (* the MySQL server *)
  w_redis : Rd;                     (* the Redis server *)
  w_sys : Sys;                      (* the storage cluster *)
  w_fs : gmap string string;        (* files *)
  w_now : string;                   (* the clock, as strftime prints it *)
  w_out : list string;              (* what was printed to the client *)
  w_open_db : nat;                  (* open MySQL connections *)
  w_open_redis : nat                (* open Redis contexts *)
}.

Section Monad.
Context `{Services}.

Definition M (A : Type) : Type := world -> outcome (A * world).

Global Instance M_ret : MRet M := fun A a w => Ok (a, w).
Global Instance M_bind : MBind M :=
  fun A B k m w => match m w with Ok (a, w') => k a w' | Undef u => Undef u end.

Definition lift {A} (m : outcome A) : M A := fun w => ofmap (fun a => (a, w)) m.
Definition undef {A} (u : ub) : M A := fun _ => Undef u.

Definition set_db (db : Db) (w : world) : world :=
  World _ db (w_redis w) (w_sys w) (w_fs w) (w_now w) (w_out w) (w_open_db w) (w_open_redis w).
Definition set_redis (r : Rd) (w : world) : world :=
  World _ (w_db w) r (w_sys w) (w_fs w) (w_now w) (w_out w) (w_open_db w) (w_open_redis w).
Definition set_sys (s : Sys) (w : world) : world :=
  World _ (w_db w) (w_redis w) s (w_fs w) (w_now w) (w_out w) (w_open_db w) (w_open_redis w).
Definition set_fs (f : gmap string string) (w : world) : world :=
  World _ (w_db w) (w_redis w) (w_sys w) f (w_now w) (w_out w) (w_open_db w) (w_open_redis w).
Definition set_out (o : list string) (w : world) : world :=
  World _ (w_db w) (w_redis w) (w_sys w) (w_fs w) (w_now w) o (w_open_db w) (w_open_redis w).
Definition set_open_db (n : nat) (w : world) : world :=
  World _ (w_db w) (w_redis w) (w_sys w) (w_fs w) (w_now w) (w_out w) n (w_open_redis w).
Definition set_open_redis (n : nat) (w : world) : world :=
  World _ (w_db w) (w_redis w) (w_sys w) (w_fs w) (w_now w) (w_out w) (w_open_db w) n.

(** [printf(s)] of a text without conversions. *)
Definition printf (s : string) : M unit := fun w => Ok (tt, set_out (w_out w ++ [s]) w).

(** [strftime] of the current time. *)
Definition now : M string := fun w => Ok (w_now w, w).

(** Writing a text and its terminator into a [char] array of [cap] bytes, as
    [sprintf] and [strcpy] do. *)
Definition fits (cap : nat) (s : string) : bool := (String.length s <? cap)%nat.
#[global] Arguments fits : simpl never.
Definition sprintf (cap : nat) (s : string) : M string :=
  if fits cap s then mret s else undef OutOfBounds.
Definition strcpy (cap : nat) (src : option string) : M string :=
  match src with
  | None => undef NullDeref
  | Some s => sprintf cap s
  end.

(** [a + b] and [a - b] on [int]. *)
Definition int_ok (x : Z) : bool := (- 2 ^ 31 <=? x) && (x <? 2 ^ 31).
Definition to_int (x : Z) : M Z := if int_ok x then mret x else undef IntOverflow.

Definition mysql_query (cmd : string) : M sql_reply := fun w =>
  let '(db, r) := mysql_exec (w_db w) cmd in Ok (r, set_db db w).

Definition query_failed (r : sql_reply) : bool := match r with QError => true | _ => false end.

Definition redisCommand (fmt : string) (args : list rarg) : M (option redisReply) := fun w =>
  let '(rd, r) := redis_exec (w_redis w) fmt args in Ok (r, set_redis rd w).

Definition redisAppendCommand (fmt : string) (args : list rarg) : M Z := fun w =>
  let '(rd, r) := redis_append (w_redis w) fmt args in Ok (r, set_redis rd w).
Definition redisGetReply : M Z := fun w =>
  let '(rd, r) := redis_get_reply (w_redis w) in Ok (r, set_redis rd w).

Definition system (cmd : string) : M Z := fun w =>
  let '(s, r) := system_run (w_sys w) cmd in Ok (r, set_sys s w).

(** A child process with its output on a pipe; [None] when there is no pipe or
    no child. *)
Definition pipe_from (argv : list string) : M (option string) := fun w =>
  if negb (spawn_ok (w_sys w)) then Ok (None, w) else
  let '(s, out) := run_tool (w_sys w) argv in Ok (Some out, set_sys s w).

(** Replacing a file, and removing it. *)
Definition write_file (path content : string) : M unit := fun w =>
  Ok (tt, set_fs (<[path := content]> (w_fs w)) w).
Definition unlink (path : string) : M unit := fun w => Ok (tt, set_fs (delete path (w_fs w)) w).

Definition fopen_read (path : string) : M (option string) := fun w => Ok (w_fs w !! path, w).

End Monad.

(** ** Lemmas *)

Lemma int_ok_true x : is_int x -> int_ok x = true.
Proof.
  unfold is_int, int_ok. intros [H1 H2]. apply andb_true_iff.
  by rewrite Z.leb_le, Z.ltb_lt.
Qed.
