(* ===== verification/MysqlOp.v ===== *)
(** The database helpers (src/src/common/mysql_op.c) and the configuration
    reader (src/src/common/cfg.c). *)

From Stdlib Require Import ZArith Lia Bool Ascii String.
From stdpp Require Import base tactics numbers list strings gmap.
From S2P Require Import Prelude Text Double CJson CJsonParse CJsonPrint World.

Section Ops.
Context `{Services}.

(** A [char] array of a caller: its size and its text; [None] is [NULL]. *)
Definition cbuf : Type := option (nat * string).
Definition cbuf_text (b : cbuf) : string := match b with Some (_, s) => s | None => "" end.

(** What [print_error] writes to standard error. *)
Definition print_error (title : string) (mysql_errno : Z) (mysql_error : string) : string :=
  let nl := String "010" "" in
  title +:+ ":" +:+ nl +:+ "Error " +:+ dec mysql_errno +:+ " (" +:+ mysql_error +:+ ")" +:+ nl.

(** [msql_conn]: whether a connection was made. *)
Definition msql_conn (user_name passwd db_name : string) : M bool := fun w =>
  if negb (mysql_init (w_db w)) then Ok (false, w) else
  if negb (mysql_real_connect (w_db w) user_name passwd db_name) then Ok (false, w) else
  Ok (true, set_open_db (S (w_open_db w)) w).

Definition mysql_close : M unit := fun w => Ok (tt, set_open_db (pred (w_open_db w)) w).

(** [process_result_one]: the return value and the new text of [buf]. *)
Definition process_result_one (sql_cmd : string) (buf : cbuf) : M (Z * string) :=
  r ← mysql_query sql_cmd;
  match r with
  | QError => mret (-1, cbuf_text buf)
  | QDone => mret (-1, cbuf_text buf)
  | QRows [] => mret (1, cbuf_text buf)
  | QRows (row :: _) =>
      match buf with
      | None => mret (2, cbuf_text buf)
      | Some (cap, old) =>
          match row with
          | [] => undef OutOfBounds
          | Some field :: _ => s ← sprintf cap field; mret (0, s)
          | None :: _ => mret (0, old)
          end
      end
  end.

(** A row of [process_result_test]: fields separated by tabs. *)
Fixpoint print_fields (first : bool) (row : list (option string)) : string :=
  match row with
  | [] => ""
  | f :: row => (if first then "" else String "009" "") +:+ default "NULL" f +:+ print_fields false row
  end.

Definition process_result_test (rows : list (list (option string))) (mysql_errno : Z) : M unit :=
  let body := String.concat "" (map (fun row => print_fields true row +:+ String "010" "") rows) in
  printf body;;
  if mysql_errno =? 0
  then printf (dec (Z.of_nat (length rows)) +:+ " rows returned " +:+ String "010" "")
  else mret tt.

(** ** Configuration *)

Definition CFG_PATH : string := "./conf/cfg.json".

(** [get_cfg_value]: the return value and the new text of [value]. *)
Definition get_cfg_value (profile title key : option string) (value : cbuf) : M (Z * string) :=
  match profile, title, key, value with
  | Some profile, Some title, Some key, Some (cap, old) =>
      fp ← fopen_read profile;
      match fp with
      | None => mret (-1, old)
      | Some buf =>
          match cJSON_Parse buf with
          | None => mret (-1, old)
          | Some root =>
              match cJSON_GetObjectItem root title with
              | None => mret (-1, old)
              | Some father =>
                  match cJSON_GetObjectItem father key with
                  | None => mret (-1, old)
                  | Some son => v ← strcpy cap (item_valuestring son); mret (0, v)
                  end
              end
          end
      end
  | _, _, _, _ => mret (-1, cbuf_text value)
  end.

(** A value read into a zeroed array of [cap] bytes. *)
Definition cfg_value (cap : nat) (title key : string) : M (Z * string) :=
  get_cfg_value (Some CFG_PATH) (Some title) (Some key) (Some (cap, "")).

(** [get_mysql_info] into arrays of 256 zeroed bytes: return value, user,
    password, database. *)
Definition get_mysql_info : M (Z * (string * string * string)) :=
  '(r, user) ← cfg_value 256 "mysql" "user";
  if r =? -1 then mret (-1, (user, "", "")) else
  '(r, pwd) ← cfg_value 256 "mysql" "password";
  if r =? -1 then mret (-1, (user, pwd, "")) else
  '(r, db) ← cfg_value 256 "mysql" "database";
  if r =? -1 then mret (-1, (user, pwd, db)) else
  mret (0, (user, pwd, db)).

End Ops.
