(* ===== verification/RedisOp.v ===== *)
(** The Redis helpers (src/src/common/redis_op.c): one definition per function.
    A reply that hiredis returns as [NULL] is [None]; the fields of a reply that
    its type does not set are zero, as hiredis allocates replies zeroed. *)

From Stdlib Require Import ZArith Lia Bool Ascii String.
From stdpp Require Import base tactics numbers list strings gmap.
From S2P Require Import Prelude Text World MysqlOp.

Definition REDIS_COMMAND_SIZE : nat := 300.
Definition FIELD_ID_SIZE : nat := 100.
Definition VALUES_ID_SIZE : nat := 1024.

Definition is_integer (r : redisReply) : bool := match r with RInteger _ => true | _ => false end.
Definition is_status (r : redisReply) : bool := match r with RStatus _ => true | _ => false end.
Definition reply_integer (r : redisReply) : Z := match r with RInteger n => n | _ => 0 end.
Definition reply_str (r : redisReply) : option string :=
  match r with RStatus s | RErrorReply s | RString s => Some s | _ => None end.

(** The message [rop_test_reply_type] logs; hiredis has no other type of reply to
    the commands of this file, so its default branch is not reached. *)
Definition rop_test_reply_type (reply : option redisReply) : outcome string :=
  let head := "[+][GMS_REDIS]=REDIS_REPLY_"%string in
  let data := "=[string] use reply->str to get data, reply->len get "%string in
  match reply with
  | None => Undef NullDeref
  | Some (RStatus _) => Ok (head +:+ "STATUS" +:+ data +:+ "data len")
  | Some (RErrorReply _) => Ok (head +:+ "ERROR" +:+ data +:+ "date len")
  | Some (RInteger _) => Ok (head +:+ "INTEGER=[long long] use reply->integer to get data")
  | Some RNil => Ok (head +:+ "NIL=[] data not exist")
  | Some (RArray _) => Ok (head +:+ "ARRAY=[array] use reply->elements to get number of data, "
      +:+ "reply->element[index] to get (struct redisReply*) Object")
  | Some (RString _) => Ok (head +:+ "string" +:+ data +:+ "data len")
  end.

Section Rop.
Context `{Services}.

(** [reply->...] *)
Definition deref (r : option redisReply) : M redisReply :=
  match r with None => undef NullDeref | Some r => mret r end.

(** [strcmp(reply->str, "OK") != 0 ? -1 : 0] *)
Definition check_ok (r : redisReply) : M Z :=
  match reply_str r with
  | None => undef NullDeref
  | Some s => mret (if String.eqb s "OK" then 0 else -1)
  end.

Definition rop_selectdatabase (db_no : Z) : M Z :=
  reply ← redisCommand "select %d" [RI db_no];
  mret (match reply with None => -1 | Some _ => 0 end).

Definition rop_flush_database : M Z :=
  reply ← redisCommand "FLUSHDB" [];
  mret (match reply with None => -1 | Some _ => 0 end).

Definition rop_is_key_exist (key : string) : M Z :=
  reply ← redisCommand "EXISTS %s" [RS key];
  r ← deref reply;
  mret (if negb (is_integer r) then -1 else if reply_integer r =? 1 then 1 else 0).

Definition rop_del_key (key : string) : M Z :=
  reply ← redisCommand "DEL %s" [RS key];
  r ← deref reply;
  mret (if negb (is_integer r) then -1 else if 0 <? reply_integer r then 0 else -1).

(** The error branch does not return: [integer] decides alone. *)
Definition rop_set_key_lifecycle (key : string) (delete_time : Z) : M Z :=
  reply ← redisCommand "EXPIREAT %s %d" [RS key; RI delete_time];
  r ← deref reply;
  mret (if reply_integer r =? 1 then 0 else -1).

(** The lines [rop_show_keys] prints; an element without text prints as
    [(null)] does in glibc. *)
Definition rop_show_keys (pattern : string) : M (list string) :=
  reply ← redisCommand "keys %s" [RS pattern];
  r ← deref reply;
  mret (match r with
        | RArray els => (fun e => "======[" +:+ default "(null)" (reply_str e) +:+ "]======") <$> els
        | _ => []
        end).

(** The two loops of the [_append] functions: queue [n] commands, then read
    [n] replies; [cmd i] is the format and the arguments of command [i], [None]
    when the array has no element [i]. *)
Fixpoint append_commands (cmd : nat -> option (string * list rarg)) (i n : nat) : M Z :=
  match n with
  | O => mret 0
  | S n =>
      match cmd i with
      | None => undef OutOfBounds
      | Some (fmt, args) =>
          retn ← redisAppendCommand fmt args;
          if retn =? 0 then append_commands cmd (S i) n else mret (-1)
      end
  end.
Fixpoint commit_commands (n : nat) : M Z :=
  match n with
  | O => mret 0
  | S n => retn ← redisGetReply; if retn =? 0 then commit_commands n else mret (-1)
  end.
Definition pipeline (cmd : nat -> option (string * list rarg)) (num : Z) : M Z :=
  retn ← append_commands cmd 0 (Z.to_nat num);
  if retn =? 0 then commit_commands (Z.to_nat num) else mret (-1).

(** Each command text is itself the format. *)
Definition rop_redis_append (cmds : list string) (cmd_num : Z) : M Z :=
  pipeline (fun i => (fun c => (c, [])) <$> cmds !! i) cmd_num.

Definition rop_redis_command (cmd : string) : M Z :=
  reply ← redisCommand cmd [];
  mret (match reply with None => -1 | Some _ => 0 end).

(** [uint16_t port = atoi(port_str)] *)
Definition port_of (port_str : string) : Z := atoi port_str mod 2 ^ 16.

(** Opening a context: a context with [err] set is freed. *)
Definition open_link (l : redis_link) : M bool := fun w =>
  match l with
  | LinkNull | LinkErr => Ok (false, w)
  | LinkOk => Ok (true, set_open_redis (S (w_open_redis w)) w)
  end.

Definition rop_connectdb_nopwd (ip_str port_str : string) : M bool := fun w =>
  open_link (redis_connect (w_redis w) ip_str (port_of port_str)) w.

(** The [auth] step: on a [NULL] reply the context is dropped without being
    freed. *)
Definition authenticate (pwd : string) : M bool :=
  auth_cmd ← sprintf REDIS_COMMAND_SIZE ("auth " +:+ pwd);
  reply ← redisCommand auth_cmd [];
  mret (match reply with None => false | Some _ => true end).

Definition rop_connectdb (ip_str port_str pwd : string) : M bool :=
  conn ← rop_connectdb_nopwd ip_str port_str;
  if conn : bool then authenticate pwd else mret false.

Definition rop_connectdb_unix (link : redis_link) (pwd : string) : M bool :=
  conn ← open_link link;
  if conn : bool then authenticate pwd else mret false.

Definition rop_connectdb_timeout (link : redis_link) : M bool := open_link link.

Definition rop_disconnect : M unit := fun w => Ok (tt, set_open_redis (pred (w_open_redis w)) w).

(** [strncat(cmd, s, n)] *)
Definition strncat (cmd s : string) (n : nat) : string := cmd +:+ String.substring 0 n s.

Definition MB : Z := 1024 * 1024.

(** One [strncat] of [make_hmset_command] and the growth of the buffer behind
    it; the text must fit the [alloc] bytes allocated so far. State: text,
    [use_size], [buf_size], allocated bytes. *)
Definition hmset_cat (s : string) (n : nat) (used : Z) (st : string * Z * Z * Z)
    : outcome (string * Z * Z * Z) :=
  let '(cmd, use_size, buf_size, alloc) := st in
  let cmd := strncat cmd s n in
  if alloc <=? Z.of_nat (String.length cmd) then Undef OutOfBounds else
  let use_size := u32 (use_size + used) in
  if buf_size <=? use_size
  then Ok (cmd, use_size, u32 (buf_size + MB), u32 (use_size + MB))
  else Ok (cmd, use_size, buf_size, alloc).

Fixpoint hmset_loop (fields values : list string) (i n : nat) (st : string * Z * Z * Z)
    : outcome string :=
  match n with
  | O => let '(cmd, _, _, _) := st in Ok cmd
  | S n =>
      match fields !! i, values !! i with
      | Some f, Some v =>
          let* st := hmset_cat " " 1 1 st in
          let* st := hmset_cat f FIELD_ID_SIZE (Z.of_nat (String.length f)) st in
          let* st := hmset_cat " " 1 1 st in
          let* st := hmset_cat v VALUES_ID_SIZE (Z.of_nat (String.length v)) st in
          hmset_loop fields values (S i) n st
      | _, _ => Undef OutOfBounds
      end
  end.

Definition make_hmset_command (key : string) (element_num : Z) (fields values : list string)
    : outcome string :=
  let cmd := strncat "" "hmset" 6 in
  let cmd := strncat cmd " " 1 in
  let cmd := strncat cmd key 200 in
  hmset_loop fields values 0 (Z.to_nat element_num) (cmd, 206, MB, MB).

Definition rop_hash_set_append (key : string) (fields values : list string) (val_num : Z) : M Z :=
  pipeline (fun i => f ← fields !! i; v ← values !! i; Some ("hset %s %s %s", [RS key; RS f; RS v])) val_num.

Definition rop_hash_set (key field value : string) : M Z :=
  reply ← redisCommand "hset %s %s %s" [RS key; RS field; RS value];
  mret (match reply with
        | None => -1
        | Some r => if is_integer r then 0 else -1
        end).

(** [value] has [cap] bytes. *)
Definition rop_hash_get (cap : nat) (key field old : string) : M (Z * string) :=
  reply ← redisCommand "hget %s %s" [RS key; RS field];
  match reply with
  | Some (RString str) =>
      let len := Nat.min VALUES_ID_SIZE (String.length str) in
      v ← sprintf cap (String.substring 0 len str);
      mret (0, v)
  | _ => mret (-1, old)
  end.

Definition rop_hash_del (key field : string) : M Z :=
  reply ← redisCommand "hdel %s %s" [RS key; RS field];
  r ← deref reply;
  mret (if reply_integer r =? 1 then 0 else -1).

Definition rop_create_or_replace_hash_table (key : string) (element_num : Z)
    (fields values : list string) : M Z :=
  cmd ← lift (make_hmset_command key element_num fields values);
  reply ← redisCommand cmd [];
  r ← deref reply;
  check_ok r.

Definition rop_hincrement_one_field (key field : string) (num : Z) : M Z :=
  reply ← redisCommand "HINCRBY %s %s %d" [RS key; RS field; RI num];
  mret (match reply with None => -1 | Some _ => 0 end).

Definition rop_list_push_append (key : string) (values : list string) (val_num : Z) : M Z :=
  pipeline (fun i => v ← values !! i; Some ("lpush %s %s", [RS key; RS v])) val_num.

Definition rop_list_push (key value : string) : M Z :=
  reply ← redisCommand "LPUSH %s %s" [RS key; RS value];
  r ← deref reply;
  mret (if is_integer r then 0 else -1).

(** [long long] to [int]. *)
Definition rop_get_list_cnt (key : string) : M Z :=
  reply ← redisCommand "LLEN %s" [RS key];
  r ← deref reply;
  mret (if is_integer r then wrap32 (reply_integer r) else -1).

Definition rop_trim_list (key : string) (begin end_ : Z) : M Z :=
  reply ← redisCommand "LTRIM %s %d %d" [RS key; RI begin; RI end_];
  r ← deref reply;
  mret (if is_status r then 0 else -1).

(** [max_count = (reply->elements > count) ? count : reply->elements], compared
    as unsigned 64-bit numbers. *)
Definition max_count_of (elements : nat) (count : Z) : Z :=
  if count mod 2 ^ 64 <? Z.of_nat elements then count else Z.of_nat elements.

(** [strncpy(values[i], reply->element[i]->str, VALUES_ID_SIZE - 1)] for the
    first [n] elements; [room] is the number of elements [values] has. *)
Fixpoint copy_values (els : list redisReply) (n room : nat) : outcome (list string) :=
  match n with
  | O => Ok []
  | S n =>
      match els, room with
      | e :: els, S room =>
          match reply_str e with
          | None => Undef NullDeref
          | Some s => ofmap (cons (String.substring 0 (VALUES_ID_SIZE - 1) s)) (copy_values els n room)
          end
      | _, _ => Undef OutOfBounds
      end
  end.

(** Return value, values stored (a prefix of the array) and [*get_num]. *)
Definition rop_range_list (room : nat) (key : string) (from_pos end_pos : Z)
    : M (Z * list string * option Z) :=
  span ← to_int (end_pos - from_pos);
  count ← to_int (span + 1);
  reply ← redisCommand "LRANGE %s %d %d" [RS key; RI from_pos; RI end_pos];
  r ← deref reply;
  match r with
  | RArray (e :: els) =>
      let max_count := max_count_of (length (e :: els)) count in
      vs ← lift (copy_values (e :: els) (Z.to_nat max_count) room);
      mret (0, vs, Some max_count)
  | _ => mret (-1, [], None)
  end.

Definition rop_set_string (key value : string) : M Z :=
  reply ← redisCommand "set %s %s" [RS key; RS value];
  r ← deref reply;
  check_ok r.

Definition rop_setex_string (key : string) (seconds : Z) (value : string) : M Z :=
  reply ← redisCommand "setex %s %u %s" [RS key; RI seconds; RS value];
  r ← deref reply;
  check_ok r.

(** [value] has [cap] bytes. *)
Definition rop_get_string (cap : nat) (key old : string) : M (Z * string) :=
  reply ← redisCommand "get %s" [RS key];
  r ← deref reply;
  match r with
  | RString str => v ← sprintf cap str; mret (0, v)
  | _ => mret (-1, old)
  end.

Definition rop_zset_add (key : string) (score : Z) (member : string) : M Z :=
  reply ← redisCommand "ZADD %s %ld %s" [RS key; RI score; RS member];
  r ← deref reply;
  mret (if reply_integer r =? 1 then 0 else -1).

Definition rop_zset_zrem (key member : string) : M Z :=
  reply ← redisCommand "ZREM %s %s" [RS key; RS member];
  r ← deref reply;
  mret (if reply_integer r =? 1 then 0 else -1).

Definition rop_zset_del_all (key : string) : M Z :=
  reply ← redisCommand "ZREMRANGEBYRANK %s 0 -1" [RS key];
  r ← deref reply;
  mret (if is_integer r then 0 else -1).

Definition rop_zset_zrevrange (room : nat) (key : string) (from_pos end_pos : Z)
    : M (Z * list string * option Z) :=
  span ← to_int (end_pos - from_pos);
  count ← to_int (span + 1);
  reply ← redisCommand "ZREVRANGE %s %d %d" [RS key; RI from_pos; RI end_pos];
  r ← deref reply;
  match r with
  | RArray els =>
      let max_count := max_count_of (length els) count in
      vs ← lift (copy_values els (Z.to_nat max_count) room);
      mret (0, vs, Some max_count)
  | _ => mret (-1, [], None)
  end.

Definition rop_zset_increment (key member : string) : M Z :=
  reply ← redisCommand "ZINCRBY %s 1 %s" [RS key; RS member];
  r ← deref reply;
  check_ok r.

Definition rop_zset_zcard (key : string) : M Z :=
  reply ← redisCommand "ZCARD %s" [RS key];
  r ← deref reply;
  mret (if is_integer r then wrap32 (reply_integer r) else -1).

Definition rop_zset_get_score (key member : string) : M Z :=
  reply ← redisCommand "ZSCORE %s %s" [RS key; RS member];
  r ← deref reply;
  mret (match r with RString str => atoi str | _ => -1 end).

Definition rop_zset_exit (key member : string) : M Z :=
  reply ← redisCommand "zlexcount %s [%s [%s" [RS key; RS member; RS member];
  r ← deref reply;
  mret (if is_integer r then wrap32 (reply_integer r) else -1).

Definition rop_zset_increment_append (key : string) (values : list string) (val_num : Z) : M Z :=
  pipeline (fun i => v ← values !! i; Some ("ZINCRBY %s 1 %s", [RS key; RS v])) val_num.

End Rop.
