(* ===== verification/Sql.v ===== *)
(** The statements the CGI programs send to MySQL: their texts as [sprintf]
    builds them, the tables they act on, what each statement does, and the
    contract of the server. *)

From Stdlib Require Import ZArith Lia Bool Ascii String.
From stdpp Require Import base tactics numbers list strings gmap.
From S2P Require Import Prelude Text World.

(** ** Formatted texts *)

Definition arg_text (a : rarg) : string := match a with RS s => s | RI n => dec n end.

(** [sprintf] for formats whose conversions are %s, %d, %u and %ld. *)
Fixpoint cformat (fmt : string) (args : list rarg) : string :=
  match fmt with
  | EmptyString => ""
  | String c f =>
      if Ascii.eqb c "%" then
        match f, args with
        | String k f', a :: args' =>
            if Ascii.eqb k "l"
            then match f' with
                 | String _ f'' => arg_text a +:+ cformat f'' args'
                 | EmptyString => ""
                 end
            else arg_text a +:+ cformat f' args'
        | _, _ => ""
        end
      else String c (cformat f args)
  end.

(** ** Tables *)

Record user_row := UserRow {
  u_name : string; u_nick : string; u_pwd : string;
  u_phone : string; u_time : string; u_email : string }.
Record file_row := FileRow {
  f_md5 : string; f_id : string; f_url : string;
  f_size : Z; f_type : string; f_count : Z }.
Record list_row := ListRow {
  l_user : string; l_md5 : string; l_time : string;
  l_name : string; l_shared : Z; l_pv : Z }.
Record count_row := CountRow { c_user : string; c_count : Z }.
Record share_row := ShareRow {
  s_user : string; s_md5 : string; s_time : string; s_name : string; s_pv : Z }.

#[export] Instance user_row_eq : EqDecision user_row. Proof. solve_decision. Defined.
#[export] Instance file_row_eq : EqDecision file_row. Proof. solve_decision. Defined.
#[export] Instance list_row_eq : EqDecision list_row. Proof. solve_decision. Defined.
#[export] Instance count_row_eq : EqDecision count_row. Proof. solve_decision. Defined.
#[export] Instance share_row_eq : EqDecision share_row. Proof. solve_decision. Defined.

Record tables := Tables {
  t_user : list user_row;         (* user *)
  t_file : list file_row;         (* file_info *)
  t_list : list list_row;         (* user_file_list *)
  t_count : list count_row;       (* user_file_count *)
  t_share : list share_row        (* share_file_list *)
}.
Definition set_user x T := Tables x (t_file T) (t_list T) (t_count T) (t_share T).
Definition set_file x T := Tables (t_user T) x (t_list T) (t_count T) (t_share T).
Definition set_list x T := Tables (t_user T) (t_file T) x (t_count T) (t_share T).
Definition set_count x T := Tables (t_user T) (t_file T) (t_list T) x (t_share T).
Definition set_share x T := Tables (t_user T) (t_file T) (t_list T) (t_count T) x.

(** ** Statements *)

Inductive stmt :=
  | SetNames
  | SelPassword (name : string)
  | SelUser (name : string)
  | InsUser (r : user_row)
  | SelFileCount (md5 : string)
  | SelFileId (md5 : string)
  | UpdFileCount (n : Z) (md5 : string)
  | UpdFileCount' (n : Z) (md5 : string)
  | DelFile (md5 : string)
  | InsFile (r : file_row)
  | SelList (user md5 name : string)
  | SelShared (user md5 name : string)
  | SelPv (user md5 name : string)
  | InsList (r : list_row)
  | UpdShared1 (user md5 name : string)
  | UpdShared0 (user md5 name : string)
  | UpdPv (n : Z) (user md5 name : string)
  | DelList (user md5 name : string)
  | SelCount (user : string)
  | SelCount' (user : string)
  | InsCount (user : string) (n : Z)
  | InsCount' (user : string) (n : Z)
  | UpdCount (n : Z) (user : string)
  | DelCount (user : string)
  | SelShare (md5 name : string)
  | SelSharePv (md5 name : string)
  | InsShare (r : share_row)
  | UpdSharePv (n : Z) (md5 name : string)
  | DelShare (user md5 name : string)
  | SelFiles (user : string)
  | SelShareFiles (start count : Z)
  | SelShareRank.

(** A double quote. *)
Definition dq : string := String "034" EmptyString.

(** Format and arguments, as in the source. *)
Definition stmt_fmt (st : stmt) : string :=
  match st with
  | SetNames => "set names utf8"
  | SelPassword _ => "select password from user where name=" +:+ dq +:+ "%s" +:+ dq
  | SelUser _ => "select * from user where name = '%s'"
  | InsUser _ => "insert into user (name, nickname, password, phone, createtime, email) values ('%s', '%s', '%s', '%s', '%s', '%s')"
  | SelFileCount _ => "select count from file_info where md5 = '%s'"
  | SelFileId _ => "select file_id from file_info where md5 = '%s'"
  | UpdFileCount _ _ => "update file_info set count = %d where md5 = '%s'"
  | UpdFileCount' _ _ => "update file_info set count=%d where md5 = '%s'"
  | DelFile _ => "delete from file_info where md5 = '%s'"
  | InsFile _ => "insert into file_info (md5, file_id, url, size, type, count) values ('%s', '%s', '%s', '%ld', '%s', %d)"
  | SelList _ _ _ => "select * from user_file_list where user = '%s' and md5 = '%s' and filename = '%s'"
  | SelShared _ _ _ => "select shared_status from user_file_list where user = '%s' and md5 = '%s' and filename = '%s'"
  | SelPv _ _ _ => "select pv from user_file_list where user = '%s' and md5 = '%s' and filename = '%s'"
  | InsList _ => "insert into user_file_list(user, md5, createtime, filename, shared_status, pv) values ('%s', '%s', '%s', '%s', %d, %d)"
  | UpdShared1 _ _ _ => "update user_file_list set shared_status = 1 where user = '%s' and md5 = '%s' and filename = '%s'"
  | UpdShared0 _ _ _ => "update user_file_list set shared_status = 0 where user = '%s' and md5 = '%s' and filename = '%s'"
  | UpdPv _ _ _ _ => "update user_file_list set pv = %d where user = '%s' and md5 = '%s' and filename = '%s'"
  | DelList _ _ _ => "delete from user_file_list where user = '%s' and md5 = '%s' and filename = '%s'"
  | SelCount _ => "select count from user_file_count where user = '%s'"
  | SelCount' _ => "select count from user_file_count where user=" +:+ dq +:+ "%s" +:+ dq
  | InsCount _ _ => " insert into user_file_count (user, count) values('%s', %d)"
  | InsCount' _ _ => "insert into user_file_count (user, count) values('%s', %d)"
  | UpdCount _ _ => "update user_file_count set count = %d where user = '%s'"
  | DelCount _ => "delete from user_file_count where user = '%s'"
  | SelShare _ _ => "select * from share_file_list where md5 = '%s' and filename = '%s'"
  | SelSharePv _ _ => "select pv from share_file_list where md5 = '%s' and filename = '%s'"
  | InsShare _ => "insert into share_file_list (user, md5, createtime, filename, pv) values ('%s', '%s', '%s', '%s', %d)"
  | UpdSharePv _ _ _ => "update share_file_list set pv = %d where md5 = '%s' and filename = '%s'"
  | DelShare _ _ _ => "delete from share_file_list where user = '%s' and md5 = '%s' and filename = '%s'"
  | SelFiles _ => "select user_file_list.*, file_info.url, file_info.size, file_info.type from file_info, user_file_list where user = '%s' and file_info.md5 = user_file_list.md5"
  | SelShareFiles _ _ => "select share_file_list.*, file_info.url, file_info.size, file_info.type from file_info, share_file_list where file_info.md5 = share_file_list.md5 limit %d, %d"
  | SelShareRank => "select md5, filename, pv from share_file_list order by pv desc"
  end.

Definition stmt_args (st : stmt) : list rarg :=
  match st with
  | SetNames | SelShareRank => []
  | SelPassword a | SelUser a | SelFileCount a | SelFileId a | DelFile a
  | SelCount a | SelCount' a | DelCount a | SelFiles a => [RS a]
  | InsUser r => [RS (u_name r); RS (u_nick r); RS (u_pwd r); RS (u_phone r); RS (u_time r); RS (u_email r)]
  | UpdFileCount n m | UpdFileCount' n m => [RI n; RS m]
  | InsFile r => [RS (f_md5 r); RS (f_id r); RS (f_url r); RI (f_size r); RS (f_type r); RI (f_count r)]
  | SelList u m n | SelShared u m n | SelPv u m n | UpdShared1 u m n | UpdShared0 u m n
  | DelList u m n | DelShare u m n => [RS u; RS m; RS n]
  | InsList r => [RS (l_user r); RS (l_md5 r); RS (l_time r); RS (l_name r); RI (l_shared r); RI (l_pv r)]
  | UpdPv v u m n => [RI v; RS u; RS m; RS n]
  | InsCount u n | InsCount' u n => [RS u; RI n]
  | UpdCount n u => [RI n; RS u]
  | SelShare m n | SelSharePv m n => [RS m; RS n]
  | InsShare r => [RS (s_user r); RS (s_md5 r); RS (s_time r); RS (s_name r); RI (s_pv r)]
  | UpdSharePv v m n => [RI v; RS m; RS n]
  | SelShareFiles s c => [RI s; RI c]
  end.

(** The text of a statement. *)
Definition render (st : stmt) : string := cformat (stmt_fmt st) (stmt_args st).

(** ** What the statements do *)

Definition field (s : string) : option string := Some s.
Definition nfield (n : Z) : option string := Some (dec n).

Definition user_fields (r : user_row) := [field (u_name r); field (u_nick r); field (u_pwd r);
  field (u_phone r); field (u_time r); field (u_email r)].
Definition list_fields (r : list_row) := [field (l_user r); field (l_md5 r); field (l_time r);
  field (l_name r); nfield (l_shared r); nfield (l_pv r)].
Definition share_fields (r : share_row) := [field (s_user r); field (s_md5 r); field (s_time r);
  field (s_name r); nfield (s_pv r)].

Definition is_entry (u m n : string) (r : list_row) : Prop := l_user r = u /\ l_md5 r = m /\ l_name r = n.
Definition is_shared (m n : string) (r : share_row) : Prop := s_md5 r = m /\ s_name r = n.
Definition is_shared_by (u m n : string) (r : share_row) : Prop := s_user r = u /\ s_md5 r = m /\ s_name r = n.
#[export] Instance is_entry_dec u m n r : Decision (is_entry u m n r).
Proof. unfold is_entry. apply _. Defined.
#[export] Instance is_shared_dec m n r : Decision (is_shared m n r).
Proof. unfold is_shared. apply _. Defined.
#[export] Instance is_shared_by_dec u m n r : Decision (is_shared_by u m n r).
Proof. unfold is_shared_by. apply _. Defined.

(** [update ... where P]: [f] applied to the rows that satisfy [P]. *)
Definition update {A} (P : A -> Prop) `{forall x, Decision (P x)} (f : A -> A) (l : list A) : list A :=
  (fun r => if decide (P r) then f r else r) <$> l.

Definition file_set_count (n : Z) (r : file_row) := FileRow (f_md5 r) (f_id r) (f_url r) (f_size r) (f_type r) n.
Definition count_set (n : Z) (r : count_row) := CountRow (c_user r) n.
Definition list_set_shared (v : Z) (r : list_row) := ListRow (l_user r) (l_md5 r) (l_time r) (l_name r) v (l_pv r).
Definition list_set_pv (v : Z) (r : list_row) := ListRow (l_user r) (l_md5 r) (l_time r) (l_name r) (l_shared r) v.
Definition share_set_pv (v : Z) (r : share_row) := ShareRow (s_user r) (s_md5 r) (s_time r) (s_name r) v.

(** The tables after a statement. *)
Definition stmt_effect (st : stmt) (T : tables) : tables :=
  match st with
  | InsUser r => set_user (t_user T ++ [r]) T
  | UpdFileCount n m | UpdFileCount' n m =>
      set_file (update (fun r => f_md5 r = m) (file_set_count n) (t_file T)) T
  | DelFile m => set_file (filter (fun r => f_md5 r <> m) (t_file T)) T
  | InsFile r => set_file (t_file T ++ [r]) T
  | InsList r => set_list (t_list T ++ [r]) T
  | UpdShared1 u m n => set_list (update (is_entry u m n) (list_set_shared 1) (t_list T)) T
  | UpdShared0 u m n => set_list (update (is_entry u m n) (list_set_shared 0) (t_list T)) T
  | UpdPv v u m n => set_list (update (is_entry u m n) (list_set_pv v) (t_list T)) T
  | DelList u m n => set_list (filter (fun r => ~ is_entry u m n r) (t_list T)) T
  | InsCount u n | InsCount' u n => set_count (t_count T ++ [CountRow u n]) T
  | UpdCount n u => set_count (update (fun r => c_user r = u) (count_set n) (t_count T)) T
  | DelCount u => set_count (filter (fun r => c_user r <> u) (t_count T)) T
  | InsShare r => set_share (t_share T ++ [r]) T
  | UpdSharePv v m n => set_share (update (is_shared m n) (share_set_pv v) (t_share T)) T
  | DelShare u m n => set_share (filter (fun r => ~ is_shared_by u m n r) (t_share T)) T
  | _ => T
  end.

(** The join behind a user's file list. *)
Definition joined (r : list_row) (files : list file_row) : list (list (option string)) :=
  (fun f => list_fields r ++ [field (f_url f); nfield (f_size f); field (f_type f)]) <$>
  filter (fun f => f_md5 f = l_md5 r) files.

(** The join behind the list of shares. *)
Definition share_joined (r : share_row) (files : list file_row) : list (list (option string)) :=
  (fun f => share_fields r ++ [field (f_url f); nfield (f_size f); field (f_type f)]) <$>
  filter (fun f => f_md5 f = s_md5 r) files.
Definition share_rows (T : tables) : list (list (option string)) :=
  t_share T ≫= fun r => share_joined r (t_file T).

(** The rows a query selects; [None] for a statement without a result set. *)
Definition stmt_rows (st : stmt) (T : tables) : option (list (list (option string))) :=
  match st with
  | SelPassword a => Some ((fun r => [field (u_pwd r)]) <$> filter (fun r => u_name r = a) (t_user T))
  | SelUser a => Some (user_fields <$> filter (fun r => u_name r = a) (t_user T))
  | SelFileCount m => Some ((fun r => [nfield (f_count r)]) <$> filter (fun r => f_md5 r = m) (t_file T))
  | SelFileId m => Some ((fun r => [field (f_id r)]) <$> filter (fun r => f_md5 r = m) (t_file T))
  | SelList u m n => Some (list_fields <$> filter (is_entry u m n) (t_list T))
  | SelShared u m n => Some ((fun r => [nfield (l_shared r)]) <$> filter (is_entry u m n) (t_list T))
  | SelPv u m n => Some ((fun r => [nfield (l_pv r)]) <$> filter (is_entry u m n) (t_list T))
  | SelCount u | SelCount' u =>
      Some ((fun r => [nfield (c_count r)]) <$> filter (fun r => c_user r = u) (t_count T))
  | SelShare m n => Some (share_fields <$> filter (is_shared m n) (t_share T))
  | SelSharePv m n => Some ((fun r => [nfield (s_pv r)]) <$> filter (is_shared m n) (t_share T))
  | SelFiles u => Some (filter (fun r => l_user r = u) (t_list T) ≫= fun r => joined r (t_file T))
  | SelShareRank => Some ((fun r => [field (s_md5 r); field (s_name r); nfield (s_pv r)]) <$> t_share T)
  | _ => None
  end.

(** A reply that carries the selected rows, in any order. *)
Definition reply_for (rows : option (list (list (option string)))) (r : sql_reply) : Prop :=
  match rows, r with
  | Some rows, QRows rows' => rows' ≡ₚ rows
  | None, QDone => True
  | _, _ => False
  end.

(** ** Contract of the server *)

(** Characters that end or escape a quoted SQL text. *)
Definition quote_free (s : string) : bool :=
  forallb (fun c => negb (Ascii.eqb c "'" || Ascii.eqb c "034" || Ascii.eqb c "092"))
          (list_ascii_of_string s).
(** Numbers of 64 bits. *)
Definition num_ok (n : Z) : bool := (- 2 ^ 63 <? n) && (n <? 2 ^ 63).
Definition arg_safe (a : rarg) : bool := match a with RS s => quote_free s | RI n => num_ok n end.

(** Statements whose effect is fixed by the tables: texts without quotes; a
    query limited without an order is not one of them. *)
Definition stmt_safe (st : stmt) : bool :=
  match st with SelShareFiles _ _ => false | _ => forallb arg_safe (stmt_args st) end.

(** The server, for columns that compare byte by byte: a statement is either
    refused and changes nothing, or it does what SQL says. [serving] describes
    a server that refuses none of these statements. *)
Class SqlServer `{Services} := {
  db_tables : Db -> tables;
  serving : Db -> Prop;
  sql_exec : forall db st, stmt_safe st = true ->
    let '(db', r) := mysql_exec db (render st) in
    (r = QError /\ db_tables db' = db_tables db) \/
    (db_tables db' = stmt_effect st (db_tables db) /\ reply_for (stmt_rows st (db_tables db)) r);
  sql_serving : forall db st, serving db -> stmt_safe st = true ->
    let '(db', r) := mysql_exec db (render st) in r <> QError /\ serving db'
}.

(** A query with [limit start, count] and no order: the server puts the selected
    rows into an order of its choice, which may differ from query to query, skips
    [start] of them and returns at most [count]. *)
Class SqlPaging `{SqlServer} := {
  sql_page : forall db start count, is_int start -> is_int count -> 0 <= start -> 0 <= count ->
    let '(db', r) := mysql_exec db (render (SelShareFiles start count)) in
    db_tables db' = db_tables db /\
    (r = QError \/ exists rows, rows ≡ₚ share_rows (db_tables db) /\
       r = QRows (take (Z.to_nat count) (drop (Z.to_nat start) rows)));
  sql_page_serving : forall db start count, serving db ->
    is_int start -> is_int count -> 0 <= start -> 0 <= count ->
    let '(db', r) := mysql_exec db (render (SelShareFiles start count)) in r <> QError /\ serving db'
}.

Lemma num_ok_int n : is_int n -> num_ok n = true.
Proof. unfold is_int, num_ok. intros. apply andb_true_iff. rewrite !Z.ltb_lt. lia. Qed.
