(* ===== verification/Kv.v ===== *)
(** The Redis server: its key space, the commands the programs use with the
    formats they are sent with, and the contract of the server. *)

From Stdlib Require Import ZArith Lia Bool Ascii String.
From stdpp Require Import base tactics numbers list strings gmap sorting.
From S2P Require Import Prelude Text World.

Inductive rvalue :=
  | VStr (s : string)
  | VZset (z : gmap string Z)
  | VHash (h : gmap string string)
  | VList (l : list string).

Notation keyspace := (gmap string rvalue).

Definition wrong_type : redisReply :=
  RErrorReply "WRONGTYPE Operation against a key holding the wrong kind of value".

(** A key of one type: [Some] of its value, of the empty value when the key is
    absent, or [None] when it holds another type. *)
Definition zset_at (k : keyspace) (key : string) : option (gmap string Z) :=
  match k !! key with None => Some ∅ | Some (VZset z) => Some z | _ => None end.
Definition hash_at (k : keyspace) (key : string) : option (gmap string string) :=
  match k !! key with None => Some ∅ | Some (VHash h) => Some h | _ => None end.

(** A collection that becomes empty disappears. *)
Definition put_zset (key : string) (z : gmap string Z) (k : keyspace) : keyspace :=
  if decide (z = ∅) then delete key k else <[key := VZset z]> k.
Definition put_hash (key : string) (h : gmap string string) (k : keyspace) : keyspace :=
  if decide (h = ∅) then delete key k else <[key := VHash h]> k.

(** All members of a sorted set have the same score. *)
Definition same_scores (z : gmap string Z) : bool :=
  match map_to_list z with
  | [] => true
  | (_, s) :: l => forallb (fun p => p.2 =? s) l
  end.

Inductive command :=
  | CGet (key : string)
  | CSet (key value : string)
  | CSetex (key : string) (seconds : Z) (value : string)
  | CExists (key : string)
  | CDel (key : string)
  | CZadd (key : string) (score : Z) (member : string)
  | CZrem (key member : string)
  | CZcard (key : string)
  | CZscore (key member : string)
  | CZincrby (key member : string)
  | CZlexcount (key member : string)
  | CHset (key field value : string)
  | CHget (key field : string)
  | CHdel (key field : string).

(** Format and arguments, as in redis_op.c. *)
Definition command_fmt (c : command) : string :=
  match c with
  | CGet _ => "get %s"
  | CSet _ _ => "set %s %s"
  | CSetex _ _ _ => "setex %s %u %s"
  | CExists _ => "EXISTS %s"
  | CDel _ => "DEL %s"
  | CZadd _ _ _ => "ZADD %s %ld %s"
  | CZrem _ _ => "ZREM %s %s"
  | CZcard _ => "ZCARD %s"
  | CZscore _ _ => "ZSCORE %s %s"
  | CZincrby _ _ => "ZINCRBY %s 1 %s"
  | CZlexcount _ _ => "zlexcount %s [%s [%s"
  | CHset _ _ _ => "hset %s %s %s"
  | CHget _ _ => "hget %s %s"
  | CHdel _ _ => "hdel %s %s"
  end.
Definition command_args (c : command) : list rarg :=
  match c with
  | CGet k | CExists k | CDel k | CZcard k => [RS k]
  | CSet k v | CZrem k v | CZscore k v | CZincrby k v | CHget k v | CHdel k v => [RS k; RS v]
  | CSetex k s v | CZadd k s v => [RS k; RI s; RS v]
  | CZlexcount k m => [RS k; RS m; RS m]
  | CHset k f v => [RS k; RS f; RS v]
  end.

(** Commands whose reply is specified: [zlexcount] is only for sets whose
    members share one score, and [setex] needs a positive time. *)
Definition specified (k : keyspace) (c : command) : bool :=
  match c with
  | CZlexcount key _ => match zset_at k key with Some z => same_scores z | None => true end
  | CSetex _ s _ => 0 <? s
  | _ => true
  end.

Definition b2z (b : bool) : Z := if b then 1 else 0.

(** Key space and reply after a command. *)
Definition run_command (c : command) (k : keyspace) : keyspace * redisReply :=
  match c with
  | CGet key => (k, match k !! key with
                    | None => RNil | Some (VStr s) => RString s | _ => wrong_type end)
  | CSet key v => (<[key := VStr v]> k, RStatus "OK")
  | CSetex key _ v => (<[key := VStr v]> k, RStatus "OK")
  | CExists key => (k, RInteger (b2z (bool_decide (is_Some (k !! key)))))
  | CDel key => (delete key k, RInteger (b2z (bool_decide (is_Some (k !! key)))))
  | CZadd key s m =>
      match zset_at k key with
      | None => (k, wrong_type)
      | Some z => (put_zset key (<[m := s]> z) k, RInteger (b2z (bool_decide (z !! m = None))))
      end
  | CZrem key m =>
      match zset_at k key with
      | None => (k, wrong_type)
      | Some z => (put_zset key (delete m z) k, RInteger (b2z (bool_decide (is_Some (z !! m)))))
      end
  | CZcard key =>
      (k, match zset_at k key with None => wrong_type | Some z => RInteger (Z.of_nat (size z)) end)
  | CZscore key m =>
      (k, match zset_at k key with
          | None => wrong_type
          | Some z => match z !! m with None => RNil | Some s => RString (dec s) end end)
  | CZincrby key m =>
      match zset_at k key with
      | None => (k, wrong_type)
      | Some z => let s := default 0 (z !! m) + 1 in
                  (put_zset key (<[m := s]> z) k, RString (dec s))
      end
  | CZlexcount key m =>
      (k, match zset_at k key with
          | None => wrong_type
          | Some z => RInteger (b2z (bool_decide (is_Some (z !! m)))) end)
  | CHset key f v =>
      match hash_at k key with
      | None => (k, wrong_type)
      | Some h => (put_hash key (<[f := v]> h) k, RInteger (b2z (bool_decide (h !! f = None))))
      end
  | CHget key f =>
      (k, match hash_at k key with
          | None => wrong_type
          | Some h => match h !! f with None => RNil | Some v => RString v end end)
  | CHdel key f =>
      match hash_at k key with
      | None => (k, wrong_type)
      | Some h => (put_hash key (delete f h) k, RInteger (b2z (bool_decide (is_Some (h !! f)))))
      end
  end.

(** The server: a command either executes and is answered, or hiredis returns
    [NULL] because the connection broke, before or after the command ran.
    [answering] describes a server whose connections do not break. *)
Class RedisServer `{Services} := {
  keys : Rd -> keyspace;
  answering : Rd -> Prop;
  redis_run : forall r c, specified (keys r) c = true ->
    let '(r', o) := redis_exec r (command_fmt c) (command_args c) in
    let '(k', reply) := run_command c (keys r) in
    (o = Some reply /\ keys r' = k') \/
    (o = None /\ (keys r' = keys r \/ keys r' = k'));
  redis_answering : forall r fmt args, answering r ->
    let '(r', o) := redis_exec r fmt args in is_Some o /\ answering r'
}.

(** The members of a sorted set with their scores, by falling score; the order
    of members with one score is left open. *)
Definition falling (p q : string * Z) : Prop := q.2 <= p.2.
#[export] Instance falling_dec p q : Decision (falling p q).
Proof. unfold falling. apply _. Defined.
Definition ranking (z : gmap string Z) (l : list (string * Z)) : Prop :=
  l ≡ₚ map_to_list z /\ Sorted falling l.

(** [ZREVRANGE] with positions counted from the start. *)
Class RedisRanking `{RedisServer} := {
  redis_zrevrange : forall r key from to, 0 <= from -> from <= to -> is_int to ->
    let '(r', o) := redis_exec r "ZREVRANGE %s %d %d" [RS key; RI from; RI to] in
    keys r' = keys r /\
    (o = None \/
     match zset_at (keys r) key with
     | None => o = Some wrong_type
     | Some z => exists l, ranking z l /\ o = Some (RArray ((fun p => RString p.1) <$>
         take (Z.to_nat (to - from + 1)) (drop (Z.to_nat from) l)))
     end)
}.

(** ** Collections in the key space *)

Lemma zset_at_put key z k : zset_at (put_zset key z k) key = Some z.
Proof.
  unfold zset_at, put_zset. destruct (decide (z = ∅)) as [->|]; [by rewrite lookup_delete_eq | by rewrite lookup_insert_eq].
Qed.
Lemma hash_at_put key h k : hash_at (put_hash key h k) key = Some h.
Proof.
  unfold hash_at, put_hash. destruct (decide (h = ∅)) as [->|]; [by rewrite lookup_delete_eq | by rewrite lookup_insert_eq].
Qed.
Lemma hash_at_put_zset key key' z k : key <> key' -> hash_at (put_zset key z k) key' = hash_at k key'.
Proof.
  intros Hne. unfold hash_at, put_zset.
  destruct (decide (z = ∅)); [by rewrite lookup_delete_ne | by rewrite lookup_insert_ne].
Qed.
Lemma zset_at_put_hash key key' h k : key <> key' -> zset_at (put_hash key h k) key' = zset_at k key'.
Proof.
  intros Hne. unfold zset_at, put_hash.
  destruct (decide (h = ∅)); [by rewrite lookup_delete_ne | by rewrite lookup_insert_ne].
Qed.

Lemma put_zset_other key key' z k : key <> key' -> put_zset key z k !! key' = k !! key'.
Proof.
  intros Hne. unfold put_zset. destruct (decide (z = ∅)); [by rewrite lookup_delete_ne | by rewrite lookup_insert_ne].
Qed.
Lemma put_hash_other key key' h k : key <> key' -> put_hash key h k !! key' = k !! key'.
Proof.
  intros Hne. unfold put_hash. destruct (decide (h = ∅)); [by rewrite lookup_delete_ne | by rewrite lookup_insert_ne].
Qed.
