(* ===== verification/CgiCommon.v ===== *)
(** What the CGI programs share: reading a request, status replies and the
    token check (src/src/common/cgi_util.c, and the request loop every program
    repeats). *)

From Stdlib Require Import ZArith Lia Bool Ascii String.
From stdpp Require Import base tactics numbers list strings gmap.
From S2P Require Import Prelude Text Double CJson CJsonParse CJsonPrint World MysqlOp RedisOp.
From S2P Require Import Sql Kv.

Definition SQL_MAX_LEN : nat := 512.
Definition PWD_LEN : nat := 256.
Definition USER_NAME_LEN : nat := 128.
Definition TOKEN_LEN : nat := 128.
Definition MD5_LEN : nat := 256.
Definition FILE_NAME_LEN : nat := 256.
Definition TEMP_BUF_MAX_LEN : nat := 512.
Definition FILE_URL_LEN : nat := 512.
Definition HOST_NAME_LEN : nat := 30.
Definition SUFFIX_LEN : nat := 8.
Definition FILE_PUBLIC_ZSET : string := "FILE_PUBLIC_ZSET".
Definition FILE_NAME_HASH : string := "FILE_NAME_HASH".

(** The user name under which the number of shared files is counted. *)
Definition SHARE_COUNT : string := "xxx_share_xxx_file_xxx_list_xxx_count_xxx".

Definition crlf : string := String "013" (String "010" EmptyString).
Definition newline : string := String "010" EmptyString.

(** What a request brings: CONTENT_LENGTH and the bytes on standard input. *)
Record request := Request { content_length : option string; stdin : string }.

(** The outcome of reading the body. *)
Inductive body := NoData | ReadError | Body (buf : string).

Section Common.
Context `{Services}.

(** [sprintf(sql_cmd, ...)] into [char sql_cmd[SQL_MAX_LEN]]. *)
Definition sql_cmd (st : stmt) : M string := sprintf SQL_MAX_LEN (render st).

(** Format a statement and send it; the flag says that [mysql_query] failed. *)
Definition sql_do (st : stmt) : M bool :=
  cmd ← sql_cmd st; r ← mysql_query cmd; mret (query_failed r).

(** Format a query and fetch its first field. *)
Definition sql_one (st : stmt) (buf : cbuf) : M (Z * string) :=
  cmd ← sql_cmd st; process_result_one cmd buf.

(** [mysql_query(conn, "set names utf8")], result ignored. *)
Definition set_names : M unit := mysql_query "set names utf8";; mret tt.

(** The head of every request loop: header, length, and [fread] into
    [char buf[4 * 1024]]; a body of 4096 bytes or more is written beyond the
    array or leaves no terminator. *)
Definition read_request (rq : request) : M body :=
  printf ("Content-type: text/html" +:+ crlf +:+ crlf);;
  let len := match content_length rq with None => 0 | Some s => atoi s end in
  if len <=? 0 then printf ("No data from standard input.<p>" +:+ newline);; mret NoData else
  let data := String.substring 0 (Z.to_nat len) (stdin rq) in
  if (String.length data =? 0)%nat then mret ReadError else
  buf ← sprintf 4096 data;
  mret (Body buf).

(** [strcpy(dst, cJSON_GetObjectItem(root, name)->valuestring)]; [None] when the
    item is missing. *)
Definition copy_item (root : cJSON) (name : string) (cap : nat) : M (option string) :=
  match cJSON_GetObjectItem root name with
  | None => mret None
  | Some child => v ← strcpy cap (item_valuestring child); mret (Some v)
  end.

Definition return_status (status_num : string) : string :=
  cJSON_Print (cJSON_AddStringToObject cJSON_CreateObject "code" status_num).

Definition verify_token (user token : string) : M Z :=
  '(_, redis_ip) ← cfg_value 30 "redis" "ip";
  '(_, redis_port) ← cfg_value 10 "redis" "port";
  redis_conn ← rop_connectdb_nopwd redis_ip redis_port;
  if negb redis_conn then mret (-1) else
  '(ret, tmp_token) ← rop_get_string 128 user "";
  let ret := if ret =? 0 then (if String.eqb token tmp_token then 0 else -1) else ret in
  rop_disconnect;;
  mret ret.

(** The last step of an addition: the counter of [user] is created by [ins] or
    incremented. When the query failed, [sql_cmd] still holds the query, which
    is then sent again. [tmp] is the text of [char tmp[512]]. *)
Definition bump_user_count (ins : stmt) (user tmp : string) : M Z :=
  '(ret2, tmp) ← sql_one (SelCount user) (Some (512%nat, tmp));
  failed ← (if ret2 =? 1 then sql_do ins else
            if ret2 =? 0 then count ← to_int (atoi tmp + 1); sql_do (UpdCount count user)
            else sql_do (SelCount user));
  mret (if failed : bool then -1 else 0).

(** The statements behind the check in [deal_md5] and [save_file]: reference
    count, entry, user's counter; [count] is the old reference count. *)
Definition add_entry (count : Z) (user md5 filename tmp : string) : M Z :=
  count ← to_int (count + 1);
  failed ← sql_do (UpdFileCount count md5);
  if failed : bool then mret (-1) else
  time_str ← now;
  failed ← sql_do (InsList (ListRow user md5 time_str filename 0 0));
  if failed : bool then mret (-1) else
  bump_user_count (InsCount user 1) user tmp.

(** The static connection settings of a program, read by its [read_cfg]. *)
Record settings := Settings {
  mysql_user : string; mysql_pwd : string; mysql_db : string;
  redis_ip : string; redis_port : string }.

Definition read_cfg : M settings :=
  '(_, u) ← cfg_value 128 "mysql" "user";
  '(_, p) ← cfg_value 128 "mysql" "password";
  '(_, d) ← cfg_value 128 "mysql" "database";
  '(_, i) ← cfg_value 30 "redis" "ip";
  '(_, q) ← cfg_value 10 "redis" "port";
  mret (Settings u p d i q).

End Common.
