(* ===== verification/Logic.v ===== *)
(** Reasoning about the programs: a predicate transformer for the monad, with
    one rule per primitive step. [run true] is total correctness on servers that
    serve every statement; [run false] covers every execution that stays
    defined, with servers that may fail at any step. *)

From Stdlib Require Import ZArith Lia Bool Ascii String.
From stdpp Require Import base tactics numbers list strings gmap.
From S2P Require Import Prelude Text Double CJson CJsonParse CJsonPrint World MysqlOp RedisOp.
From S2P Require Import Sql Kv CgiCommon.

Lemma substring_all s n : (String.length s <= n)%nat -> String.substring 0 n s = s.
Proof.
  revert n. induction s as [|c s IH]; intros [|n] Hn; try done; [cbn in Hn; lia|].
  cbn. f_equal. apply IH. cbn in Hn. lia.
Qed.

Section Logic.
Context {SV : Services} {SQ : SqlServer} {RD : RedisServer}.

Definition run {A} (total : bool) (m : M A) (Q : A -> world -> Prop) (w : world) : Prop :=
  match m w with Ok (a, w') => Q a w' | Undef _ => total = false end.

Definition db_up (total : bool) (w : world) : Prop := total = true -> serving (w_db w).
Definition redis_up (total : bool) (w : world) : Prop := total = true -> answering (w_redis w).
Definition tabs (w : world) : tables := db_tables (w_db w).
Definition kv (w : world) : keyspace := keys (w_redis w).

Variable t : bool.

Lemma run_ret {A} (a : A) Q w : Q a w -> run t (mret a) Q w.
Proof. done. Qed.

Lemma run_bind {A B} (m : M A) (k : A -> M B) Q w :
  run t m (fun a w' => run t (k a) Q w') w -> run t (m ≫= k) Q w.
Proof.
  unfold run, mbind, M_bind. destruct (m w) as [[a w']|u]; [done|]. done.
Qed.

Lemma run_mono {A} (m : M A) (Q Q' : A -> world -> Prop) w :
  run t m Q w -> (forall a w', Q a w' -> Q' a w') -> run t m Q' w.
Proof. unfold run. destruct (m w) as [[a w']|u]; auto. Qed.

Lemma run_undef {A} u (Q : A -> world -> Prop) w : t = false -> run t (undef u) Q w.
Proof. done. Qed.

Lemma run_lift {A} (m : outcome A) Q w :
  (t = true -> exists a, m = Ok a) -> (forall a, m = Ok a -> Q a w) -> run t (lift m) Q w.
Proof.
  unfold run, lift. intros H1 H2. destruct m as [a|u]; cbn; [by apply H2|].
  destruct t; [|done]. destruct (H1 eq_refl) as [? [=]].
Qed.

Lemma run_sprintf cap s Q w :
  (t = true -> fits cap s = true) -> (fits cap s = true -> Q s w) -> run t (sprintf cap s) Q w.
Proof.
  unfold run, sprintf. intros H1 H2. destruct (fits cap s) eqn:E; [by apply H2|].
  destruct t; [|done]. specialize (H1 eq_refl). congruence.
Qed.

Lemma run_to_int x Q w :
  (t = true -> is_int x) -> (is_int x -> Q x w) -> run t (to_int x) Q w.
Proof.
  unfold run, to_int. intros H1 H2. destruct (int_ok x) eqn:E.
  - apply H2. unfold int_ok in E. apply andb_true_iff in E as [E1 E2].
    rewrite Z.leb_le in E1. rewrite Z.ltb_lt in E2. done.
  - destruct t; [|done]. specialize (H1 eq_refl). by rewrite int_ok_true in E.
Qed.

Lemma run_printf s (Q : unit -> world -> Prop) w :
  Q tt (set_out (w_out w ++ [s]) w) -> run t (printf s) Q w.
Proof. done. Qed.

Lemma run_now Q w : Q (w_now w) w -> run t now Q w.
Proof. done. Qed.

Lemma run_if {A} (b : bool) (m1 m2 : M A) Q w :
  (b = true -> run t m1 Q w) -> (b = false -> run t m2 Q w) -> run t (if b then m1 else m2) Q w.
Proof. destruct b; auto. Qed.

(** *** Connections *)

Definition mysql_accepts (w : world) (u p d : string) : bool :=
  mysql_init (w_db w) && mysql_real_connect (w_db w) u p d.

Lemma run_msql_conn u p d (Q : bool -> world -> Prop) w :
  (mysql_accepts w u p d = true -> Q true (set_open_db (S (w_open_db w)) w)) ->
  (mysql_accepts w u p d = false -> Q false w) -> run t (msql_conn u p d) Q w.
Proof.
  unfold run, msql_conn, mysql_accepts. intros H1 H2.
  destruct (mysql_init (w_db w)); cbn in *; [|by apply H2].
  destruct (mysql_real_connect (w_db w) u p d); cbn; [by apply H1 | by apply H2].
Qed.

Lemma run_mysql_close (Q : unit -> world -> Prop) w :
  Q tt (set_open_db (pred (w_open_db w)) w) -> run t mysql_close Q w.
Proof. done. Qed.

Lemma run_connect ip port (Q : bool -> world -> Prop) w :
  (redis_connect (w_redis w) ip (port_of port) = LinkOk ->
     Q true (set_open_redis (S (w_open_redis w)) w)) ->
  (redis_connect (w_redis w) ip (port_of port) <> LinkOk -> Q false w) ->
  run t (rop_connectdb_nopwd ip port) Q w.
Proof.
  unfold run, rop_connectdb_nopwd, open_link. intros H1 H2.
  destruct (redis_connect _ _ _); [by apply H2 | by apply H2 | by apply H1].
Qed.

Lemma run_disconnect (Q : unit -> world -> Prop) w :
  Q tt (set_open_redis (pred (w_open_redis w)) w) -> run t rop_disconnect Q w.
Proof. done. Qed.

(** *** Statements *)

(** The outcome of sending a statement. *)
Lemma mysql_query_cases st w : stmt_safe st = true -> db_up t w ->
  exists db r, mysql_query (render st) w = Ok (r, set_db db w) /\
    ((t = false /\ r = QError /\ db_tables db = tabs w) \/
     (db_up t (set_db db w) /\ db_tables db = stmt_effect st (tabs w)
      /\ reply_for (stmt_rows st (tabs w)) r)).
Proof.
  intros Hs Hu. unfold mysql_query. pose proof (sql_exec (w_db w) st Hs) as He.
  pose proof (sql_serving (w_db w) st) as Hv.
  destruct (mysql_exec (w_db w) (render st)) as [db r]. exists db, r. split; [done|].
  unfold db_up in *. cbn [set_db w_db]. destruct t.
  - destruct (Hv (Hu eq_refl) Hs) as [Hne Hv']. right. destruct He as [[-> _]|[? ?]]; [done|].
    split; [done|]. done.
  - destruct He as [[-> ?]|[? ?]]; [by left|]. by right.
Qed.

Lemma run_sql_do st (Q : bool -> world -> Prop) w :
  stmt_safe st = true -> (t = true -> fits SQL_MAX_LEN (render st) = true) -> db_up t w ->
  (forall db, t = false -> db_tables db = tabs w -> Q true (set_db db w)) ->
  (forall db, db_up t (set_db db w) -> db_tables db = stmt_effect st (tabs w) -> Q false (set_db db w)) ->
  run t (sql_do st) Q w.
Proof.
  intros Hs Hf Hu Hbad Hgood. unfold sql_do, sql_cmd. apply run_bind, run_sprintf; [done|].
  intros _. apply run_bind. destruct (mysql_query_cases st w Hs Hu) as (db & r & E & Hc).
  unfold run at 1. rewrite E. apply run_ret. destruct Hc as [(Ht & -> & Hd)|(Hv & Hd & Hr)].
  - by apply Hbad.
  - destruct r; [|by apply Hgood..]. by destruct (stmt_rows st (tabs w)).
Qed.

Lemma db_up_false w : t = false -> db_up t w.
Proof. unfold db_up. congruence. Qed.

Lemma run_set_names (Q : unit -> world -> Prop) w : db_up t w ->
  (forall db, db_up t (set_db db w) -> db_tables db = tabs w -> Q tt (set_db db w)) ->
  run t set_names Q w.
Proof.
  intros Hu HQ. unfold set_names. apply run_bind.
  destruct (mysql_query_cases SetNames w eq_refl Hu) as (db & r & E & Hc).
  change (render SetNames) with "set names utf8"%string in E.
  unfold run at 1. rewrite E. apply run_ret. apply HQ.
  - destruct Hc as [(Ht & _)|(? & _)]; [|done]. unfold db_up. rewrite Ht. done.
  - by destruct Hc as [(_ & _ & ?)|(_ & ? & _)].
Qed.

(** A query whose rows all begin with a text: return value and text. *)
Lemma run_sql_one st rows cap old (Q : Z * string -> world -> Prop) w :
  stmt_safe st = true -> (t = true -> fits SQL_MAX_LEN (render st) = true) -> db_up t w ->
  stmt_effect st (tabs w) = tabs w -> stmt_rows st (tabs w) = Some rows ->
  (t = true -> Forall (fun row => exists f rest, row = Some f :: rest /\ fits cap f = true) rows) ->
  (forall db, t = false -> db_tables db = tabs w -> Q (-1, old) (set_db db w)) ->
  (forall db, db_up t (set_db db w) -> db_tables db = tabs w -> rows = [] ->
     Q (1, old) (set_db db w)) ->
  (forall db f rest, db_up t (set_db db w) -> db_tables db = tabs w -> (Some f :: rest) ∈ rows ->
     Q (0, f) (set_db db w)) ->
  (forall db rest, t = false -> db_tables db = tabs w -> (None :: rest) ∈ rows ->
     Q (0, old) (set_db db w)) ->
  run t (sql_one st (Some (cap, old))) Q w.
Proof.
  intros Hs Hf Hu Heff Hrows Hfit Hbad Hnone Hhit Hnull. unfold sql_one, sql_cmd.
  apply run_bind, run_sprintf; [done|]. intros _.
  unfold process_result_one. apply run_bind.
  destruct (mysql_query_cases st w Hs Hu) as (db & r & E & Hc).
  unfold run at 1. rewrite E. rewrite Heff, Hrows in Hc.
  destruct Hc as [(Ht & -> & Hd)|(Hv & Hd & Hr)]; [apply run_ret; by apply Hbad|].
  destruct r as [| |rs]; [done..|]. cbn [reply_for] in Hr. destruct rs as [|row rs].
  - apply Permutation_nil_l in Hr. apply run_ret. by apply Hnone.
  - assert (row ∈ rows) as Hin by (rewrite <- Hr; left).
    assert (t = true -> exists f rest, row = Some f :: rest /\ fits cap f = true) as Hrow.
    { intros Ht. specialize (Hfit Ht). rewrite Forall_forall in Hfit. by apply Hfit. }
    destruct row as [|[f|] rest].
    + apply run_undef. destruct t; [|done]. by destruct (Hrow eq_refl) as (? & ? & ? & _).
    + apply run_bind, run_sprintf.
      * intros Ht. destruct (Hrow Ht) as (? & ? & [= -> ->] & ?). done.
      * intros _. apply run_ret. by eapply Hhit.
    + apply run_ret. destruct t; [|by eapply Hnull].
      by destruct (Hrow eq_refl) as (? & ? & ? & _).
Qed.

(** An existence test: 2 when a row matches, 1 when none does. *)
Lemma run_sql_exists st rows (Q : Z * string -> world -> Prop) w :
  stmt_safe st = true -> (t = true -> fits SQL_MAX_LEN (render st) = true) -> db_up t w ->
  stmt_effect st (tabs w) = tabs w -> stmt_rows st (tabs w) = Some rows ->
  (forall db, t = false -> db_tables db = tabs w -> Q (-1, ""%string) (set_db db w)) ->
  (forall db, db_up t (set_db db w) -> db_tables db = tabs w -> rows = [] ->
     Q (1, ""%string) (set_db db w)) ->
  (forall db, db_up t (set_db db w) -> db_tables db = tabs w -> rows <> [] ->
     Q (2, ""%string) (set_db db w)) ->
  run t (sql_one st None) Q w.
Proof.
  intros Hs Hf Hu Heff Hrows Hbad Hnone Hhit. unfold sql_one, sql_cmd.
  apply run_bind, run_sprintf; [done|]. intros _.
  unfold process_result_one. apply run_bind.
  destruct (mysql_query_cases st w Hs Hu) as (db & r & E & Hc).
  unfold run at 1. rewrite E. rewrite Heff, Hrows in Hc.
  destruct Hc as [(Ht & -> & Hd)|(Hv & Hd & Hr)]; [apply run_ret; by apply Hbad|].
  destruct r as [| |rs]; [done..|]. cbn [reply_for] in Hr. destruct rs as [|row rs].
  - apply Permutation_nil_l in Hr. apply run_ret. by apply Hnone.
  - apply run_ret. apply Hhit; [done..|]. intros ->. by apply Permutation_nil_r in Hr.
Qed.

(** *** Redis *)

Lemma run_redis c (Q : option redisReply -> world -> Prop) w :
  specified (kv w) c = true -> redis_up t w ->
  (forall r, redis_up t (set_redis r w) -> keys r = (run_command c (kv w)).1 ->
     Q (Some (run_command c (kv w)).2) (set_redis r w)) ->
  (forall r, t = false -> Q None (set_redis r w)) ->
  run t (redisCommand (command_fmt c) (command_args c)) Q w.
Proof.
  intros Hs Hu Hok Hbad. unfold run, redisCommand.
  pose proof (redis_run (w_redis w) c Hs) as He.
  pose proof (redis_answering (w_redis w) (command_fmt c) (command_args c)) as Ha.
  destruct (redis_exec _ _ _) as [r o]. fold (kv w) in He.
  destruct (run_command c (kv w)) as [k' reply]. cbn [fst snd] in *.
  assert (redis_up t (set_redis r w)) as Hu'.
  { intros Ht. by apply Ha, Hu. }
  destruct He as [[-> Hk]|[-> _]]; [by apply Hok|]. apply Hbad.
  destruct t; [|done]. by destruct (Ha (Hu eq_refl)) as [[? ?] _].
Qed.

(** *** Configuration *)

(** The text a configuration value is copied from; [None] when the file, the
    section or the key is missing. *)
Definition cfg_source (fs : gmap string string) (title key : string) : option (option string) :=
  buf ← fs !! CFG_PATH;
  root ← cJSON_Parse buf;
  father ← cJSON_GetObjectItem root title;
  son ← cJSON_GetObjectItem father key;
  Some (item_valuestring son).

(** What is read depends on the files only. *)
Lemma cfg_value_eq cap a b w : cfg_value cap a b w =
  match cfg_source (w_fs w) a b with
  | None => Ok ((-1, ""%string), w)
  | Some None => Undef NullDeref
  | Some (Some v) => if fits cap v then Ok ((0, v), w) else Undef OutOfBounds
  end.
Proof.
  unfold cfg_value, get_cfg_value, cfg_source, mbind at 1, M_bind, fopen_read.
  destruct (w_fs w !! CFG_PATH) as [buf|]; [|done]. cbn.
  destruct (cJSON_Parse buf) as [root|]; [|done]. cbn.
  destruct (cJSON_GetObjectItem root a) as [father|]; [|done]. cbn.
  destruct (cJSON_GetObjectItem father b) as [son|]; [|done]. cbn.
  unfold mbind, M_bind, strcpy, sprintf. destruct (item_valuestring son) as [v|]; [|done].
  by destruct (fits cap v).
Qed.

Lemma cfg_value_pure cap a b w x w' : (0 < cap)%nat -> cfg_value cap a b w = Ok (x, w') ->
  w' = w /\ fits cap x.2 = true.
Proof.
  intros Hcap%Nat.ltb_lt. rewrite cfg_value_eq.
  destruct (cfg_source _ _ _) as [[v|]|]; [|done|by intros [= <- <-]].
  destruct (fits cap v) eqn:E; [|done]. by intros [= <- <-].
Qed.

Lemma cfg_value_fs cap a b w x w' : w_fs w' = w_fs w -> cfg_value cap a b w = Ok (x, w) ->
  cfg_value cap a b w' = Ok (x, w').
Proof.
  rewrite !cfg_value_eq. intros ->. destruct (cfg_source _ _ _) as [[v|]|]; [|done|by intros [= <-]].
  destruct (fits cap v); [|done]. by intros [= <-].
Qed.

Lemma run_cfg_value cap a b (Q : Z * string -> world -> Prop) w : (0 < cap)%nat ->
  (t = true -> exists x, cfg_value cap a b w = Ok (x, w)) ->
  (forall x, cfg_value cap a b w = Ok (x, w) -> fits cap x.2 = true -> Q x w) ->
  run t (cfg_value cap a b) Q w.
Proof.
  intros Hcap Hex HQ. unfold run. destruct (cfg_value cap a b w) as [[x w']|u] eqn:E.
  - destruct (cfg_value_pure _ _ _ _ _ _ Hcap E) as [-> Hf]. by apply HQ.
  - destruct t; [|done]. destruct (Hex eq_refl) as [? [=]].
Qed.

Lemma run_deref r (Q : redisReply -> world -> Prop) w :
  (t = true -> r <> None) -> (forall x, r = Some x -> Q x w) -> run t (deref r) Q w.
Proof.
  unfold run, deref. intros H1 H2. destruct r; [by apply H2|]. cbn. destruct t; [|done]. by destruct H1.
Qed.

(** *** The Redis helpers *)

(** A helper that sends one command and inspects the reply. *)
Lemma run_redis_reply {A} c (k : redisReply -> M A) Q w :
  specified (kv w) c = true -> redis_up t w ->
  (forall r, redis_up t (set_redis r w) -> keys r = (run_command c (kv w)).1 ->
     run t (k (run_command c (kv w)).2) Q (set_redis r w)) ->
  run t (reply ← redisCommand (command_fmt c) (command_args c); r ← deref reply; k r) Q w.
Proof.
  intros Hs Hu Hk. apply run_bind, run_redis; [done..| |].
  - intros r Hr Ek. apply run_bind, run_deref; [done|]. intros x [= <-]. by apply Hk.
  - intros r Ht. apply run_bind, run_deref; [congruence|done].
Qed.

(** [rop_zset_exit] on a set whose members share one score. *)
Lemma run_zset_exit key member z (Q : Z -> world -> Prop) w :
  zset_at (kv w) key = Some z -> same_scores z = true -> redis_up t w ->
  (forall r, redis_up t (set_redis r w) -> keys r = kv w ->
     Q (b2z (bool_decide (is_Some (z !! member)))) (set_redis r w)) ->
  run t (rop_zset_exit key member) Q w.
Proof.
  intros Hz Hsc Hu HQ. unfold rop_zset_exit.
  apply (run_redis_reply (CZlexcount key member)
    (fun r => mret (if is_integer r then wrap32 (reply_integer r) else -1))).
  - cbn. by rewrite Hz.
  - done.
  - intros r Hr Ek. cbn in *. rewrite Hz. apply run_ret. cbn.
    destruct (bool_decide _); by apply HQ.
Qed.

(** Changing a sorted set and a hash. *)
Lemma run_zset_add key score member z (Q : Z -> world -> Prop) w :
  zset_at (kv w) key = Some z -> redis_up t w ->
  (forall ret r, redis_up t (set_redis r w) -> keys r = put_zset key (<[member := score]> z) (kv w) ->
     Q ret (set_redis r w)) ->
  run t (rop_zset_add key score member) Q w.
Proof.
  intros Hz Hu HQ. apply (run_redis_reply (CZadd key score member)
    (fun r => mret (if reply_integer r =? 1 then 0 else -1))); [done..|].
  intros r Hr Ek. cbn in Ek. rewrite Hz in Ek. apply run_ret. by apply HQ.
Qed.

Lemma run_zset_zrem key member z (Q : Z -> world -> Prop) w :
  zset_at (kv w) key = Some z -> redis_up t w ->
  (forall r, redis_up t (set_redis r w) -> keys r = put_zset key (delete member z) (kv w) ->
     Q (if bool_decide (is_Some (z !! member)) then 0 else -1) (set_redis r w)) ->
  run t (rop_zset_zrem key member) Q w.
Proof.
  intros Hz Hu HQ. apply (run_redis_reply (CZrem key member)
    (fun r => mret (if reply_integer r =? 1 then 0 else -1))); [done..|].
  intros r Hr Ek. cbn in *. rewrite Hz in *. apply run_ret. cbn in *.
  destruct (bool_decide _); by apply HQ.
Qed.

Lemma run_hash_set key field value h (Q : Z -> world -> Prop) w :
  hash_at (kv w) key = Some h -> redis_up t w ->
  (forall ret r, (t = false \/ keys r = put_hash key (<[field := value]> h) (kv w)) ->
     redis_up t (set_redis r w) -> Q ret (set_redis r w)) ->
  run t (rop_hash_set key field value) Q w.
Proof.
  intros Hh Hu HQ. unfold rop_hash_set. apply run_bind.
  apply (run_redis (CHset key field value)); [done..| |].
  - intros r Hr Ek. cbn in Ek. rewrite Hh in Ek. apply run_ret. apply HQ; auto.
  - intros r Ht. apply run_ret. apply HQ; [by left|]. intros Ht'. congruence.
Qed.

Lemma run_hash_del key field h (Q : Z -> world -> Prop) w :
  hash_at (kv w) key = Some h -> redis_up t w ->
  (forall r, redis_up t (set_redis r w) -> keys r = put_hash key (delete field h) (kv w) ->
     Q (if bool_decide (is_Some (h !! field)) then 0 else -1) (set_redis r w)) ->
  run t (rop_hash_del key field) Q w.
Proof.
  intros Hh Hu HQ. apply (run_redis_reply (CHdel key field)
    (fun r => mret (if reply_integer r =? 1 then 0 else -1))); [done..|].
  intros r Hr Ek. cbn in *. rewrite Hh in *. apply run_ret. cbn in *.
  destruct (bool_decide _); by apply HQ.
Qed.

Lemma run_del_key key (Q : Z -> world -> Prop) w : redis_up t w ->
  (forall ret r, redis_up t (set_redis r w) -> keys r = delete key (kv w) -> Q ret (set_redis r w)) ->
  run t (rop_del_key key) Q w.
Proof.
  intros Hu HQ. apply (run_redis_reply (CDel key)
    (fun r => mret (if negb (is_integer r) then -1 else if 0 <? reply_integer r then 0 else -1))); [done..|].
  intros r Hr Ek. apply run_ret. by apply HQ.
Qed.

(** Reading a sorted set and a hash. *)
Lemma run_zset_zcard key z (Q : Z -> world -> Prop) w :
  zset_at (kv w) key = Some z -> Z.of_nat (size z) < 2 ^ 31 -> redis_up t w ->
  (forall r, redis_up t (set_redis r w) -> keys r = kv w -> Q (Z.of_nat (size z)) (set_redis r w)) ->
  run t (rop_zset_zcard key) Q w.
Proof.
  intros Hz Hs Hu HQ. apply (run_redis_reply (CZcard key)
    (fun r => mret (if is_integer r then wrap32 (reply_integer r) else -1))); [done..|].
  intros r Hr Ek. cbn in *. rewrite Hz in *. apply run_ret. cbn [is_integer reply_integer].
  rewrite wrap32_small by (unfold is_int; lia). by apply HQ.
Qed.

Lemma run_zset_get_score key member z s (Q : Z -> world -> Prop) w :
  zset_at (kv w) key = Some z -> z !! member = Some s -> is_int s -> redis_up t w ->
  (forall r, redis_up t (set_redis r w) -> keys r = kv w -> Q s (set_redis r w)) ->
  run t (rop_zset_get_score key member) Q w.
Proof.
  intros Hz Hm Hs Hu HQ. apply (run_redis_reply (CZscore key member)
    (fun r => mret (match r with RString str => atoi str | _ => -1 end))); [done..|].
  intros r Hr Ek. cbn in *. rewrite Hz, Hm in *. apply run_ret. cbn. rewrite atoi_dec by done. by apply HQ.
Qed.

Lemma run_hash_get cap key field old h v (Q : Z * string -> world -> Prop) w :
  hash_at (kv w) key = Some h -> h !! field = Some v -> (String.length v < cap)%nat ->
  (String.length v <= VALUES_ID_SIZE)%nat -> redis_up t w ->
  (forall r, redis_up t (set_redis r w) -> keys r = kv w -> Q (0, v) (set_redis r w)) ->
  (forall r, t = false -> Q (-1, old) (set_redis r w)) ->
  run t (rop_hash_get cap key field old) Q w.
Proof.
  intros Hh Hf Hc Hl Hu HQ Hbad. unfold rop_hash_get. apply run_bind.
  apply (run_redis (CHget key field)); [done..| |].
  - intros r Hr Ek. cbn [run_command fst snd] in *. rewrite Hh, Hf in *. cbv zeta. rewrite Nat.min_r by done.
    rewrite substring_all by done. apply run_bind, run_sprintf; [intros _; by apply Nat.ltb_lt|].
    intros _. apply run_ret. by apply HQ.
  - intros r Ht. apply run_ret. by apply Hbad.
Qed.

End Logic.

(** Everything but the servers is as before. *)
Record frame {SV : Services} (w w' : world) : Prop := {
  fr_fs : w_fs w' = w_fs w;
  fr_now : w_now w' = w_now w;
  fr_out : w_out w' = w_out w;
  fr_open_db : w_open_db w' = w_open_db w;
  fr_open_redis : w_open_redis w' = w_open_redis w
}.
#[export] Instance frame_preorder {SV : Services} : PreOrder frame.
Proof. split; [done|]. intros a b c [] []. split; congruence. Qed.

Lemma frame_db {SV : Services} w db : frame w (set_db db w).
Proof. done. Qed.
Lemma frame_redis {SV : Services} w r : frame w (set_redis r w).
Proof. done. Qed.
Lemma frame_sys {SV : Services} w s : frame w (set_sys s w).
Proof. done. Qed.
#[export] Hint Resolve frame_db frame_redis frame_sys : cd.
#[export] Hint Extern 1 (frame ?a ?a) => reflexivity : cd.

(** The installation is as it was, and both servers serve. *)
Record kept {SV : Services} {SQ : SqlServer} {RD : RedisServer} (w w' : world) : Prop := {
  kp_fs : w_fs w' = w_fs w;
  kp_now : w_now w' = w_now w;
  kp_db : serving (w_db w');
  kp_redis : answering (w_redis w')
}.

(** A request that only reads: beyond that, tables, keys and the number of open
    connections are as they were. *)
Record reads {SV : Services} {SQ : SqlServer} {RD : RedisServer} (w w' : world) : Prop := {
  re_kept : kept w w';
  re_tabs : tabs w' = tabs w;
  re_kv : kv w' = kv w;
  re_open_db : w_open_db w' = w_open_db w;
  re_open_redis : w_open_redis w' = w_open_redis w
}.

(** One that only talks to the database, and may print. *)
Lemma reads_db {SV : Services} {SQ : SqlServer} {RD : RedisServer} (w w' : world) :
  w' = set_out (w_out w') (set_db (w_db w') w) -> answering (w_redis w) -> serving (w_db w') -> tabs w' = tabs w ->
  reads w w'.
Proof. intros -> Hr Hs Ht. by split. Qed.

(** Total correctness, read as the existence of a result. *)
Lemma run_total {SV : Services} {A} (m : M A) (Q : A -> world -> Prop) w :
  run true m Q w -> exists a w', m w = Ok (a, w') /\ Q a w'.
Proof. unfold run. destruct (m w) as [[a w']|u]; [eauto | done]. Qed.

(** The same with a known result. *)
Lemma run_det {SV : Services} {A} (m : M A) (x : A) (P : world -> Prop) w :
  run true m (fun a w' => a = x /\ P w') w -> exists w', m w = Ok (x, w') /\ P w'.
Proof. intros (a & w' & E & -> & HP)%run_total. eauto. Qed.

(** Partial correctness, read as a property of a result. *)
Lemma run_partial {SV : Services} {A} (m : M A) (Q : A -> world -> Prop) w a w' :
  run false m Q w -> m w = Ok (a, w') -> Q a w'.
Proof. unfold run. intros Hr E. by rewrite E in Hr. Qed.

(** ** Sizes and safety of statements *)

Definition arg_len (a : rarg) : nat := match a with RS s => String.length s | RI _ => 21 end.
Definition args_len (l : list rarg) : nat := foldr (fun a n => arg_len a + n)%nat 0%nat l.

Lemma digits_length fuel n acc : (String.length (digits fuel n acc) <= fuel + String.length acc)%nat.
Proof.
  revert n acc. induction fuel as [|fuel IH]; intros n acc; cbn [digits]; [lia|].
  destruct (n <? 10); [cbn; lia|]. specialize (IH (n / 10) (String (digit_char (n mod 10)) acc)).
  cbn in IH. lia.
Qed.

Lemma dec_length n : (String.length (dec n) <= 21)%nat.
Proof.
  unfold dec. pose proof (digits_length 20 (- n) ""). pose proof (digits_length 20 n "").
  destruct (n <? 0); cbn [String.length] in *; lia.
Qed.

Lemma arg_text_length a : (String.length (arg_text a) <= arg_len a)%nat.
Proof. destruct a; cbn; [done | apply dec_length]. Qed.

Lemma length_append s s' : String.length (s +:+ s') = (String.length s + String.length s')%nat.
Proof. induction s as [|c s IH]; [done|]. change (S (String.length (s +:+ s')) = S (String.length s + String.length s')). by rewrite IH. Qed.

Lemma cformat_length fmt args :
  (String.length (cformat fmt args) <= String.length fmt + args_len args)%nat.
Proof.
  remember (String.length fmt) as n eqn:En. revert fmt args En.
  induction n as [n IH] using lt_wf_ind. intros [|c f] args ->; cbn [cformat String.length]; [lia|].
  destruct (Ascii.eqb c "%").
  - destruct f as [|k f']; [cbn; lia|]. destruct args as [|a args]; [cbn; lia|].
    pose proof (arg_text_length a). cbn [args_len foldr String.length].
    fold (args_len args). destruct (Ascii.eqb k "l").
    + destruct f' as [|k' f'']; [cbn; lia|]. rewrite length_append.
      pose proof (IH (String.length f'') ltac:(cbn; lia) f'' args eq_refl). cbn [String.length]. lia.
    + rewrite length_append. pose proof (IH (String.length f') ltac:(cbn; lia) f' args eq_refl). lia.
  - cbn [String.length]. pose proof (IH (String.length f) ltac:(cbn; lia) f args eq_refl). lia.
Qed.

Lemma fits_lt cap s : (String.length s < cap)%nat -> fits cap s = true.
Proof. intros Hl. by apply Nat.ltb_lt. Qed.

Lemma fits_inv cap s : fits cap s = true -> (String.length s < cap)%nat.
Proof. by intros Hl%Nat.ltb_lt. Qed.

Lemma render_fits st :
  (String.length (stmt_fmt st) + args_len (stmt_args st) < SQL_MAX_LEN)%nat ->
  fits SQL_MAX_LEN (render st) = true.
Proof.
  intros Hl. apply fits_lt. unfold render.
  pose proof (cformat_length (stmt_fmt st) (stmt_args st)). lia.
Qed.

Lemma fits_dec n cap : (21 < cap)%nat -> fits cap (dec n) = true.
Proof. intros Hc. apply fits_lt. pose proof (dec_length n). lia. Qed.

(** The arguments of an operation on an entry: texts without quotes that fit
    every statement. *)
Record args_ok (user md5 filename time : string) : Prop := {
  ao_user : quote_free user = true;
  ao_md5 : quote_free md5 = true;
  ao_filename : quote_free filename = true;
  ao_time : quote_free time = true;
  ao_len : (String.length user + String.length md5 + String.length filename
            + String.length time <= 300)%nat
}.

(** [stmt_len] computes the length of a statement's format; [fits_stmt] and
    [safe_stmt] discharge the side conditions of the statement rules. *)
Ltac stmt_len :=
  match goal with
  | |- context [String.length (stmt_fmt ?st)] =>
      let n := eval vm_compute in (String.length (stmt_fmt st)) in
      change (String.length (stmt_fmt st)) with n
  end.
Ltac fits_stmt :=
  intros; apply render_fits; stmt_len;
  repeat match goal with HA : args_ok _ _ _ _ |- _ => destruct HA as [_ _ _ _ HA] end;
  cbn -[String.length Nat.add SQL_MAX_LEN] in *; unfold SQL_MAX_LEN in *;
  change (String.length SHARE_COUNT) with 41%nat; cbn [String.length]; lia.
Ltac safe_stmt :=
  unfold stmt_safe;
  repeat match goal with HA : args_ok _ _ _ _ |- _ => destruct HA as [? ? ? ? _] end;
  cbn -[quote_free num_ok] in *;
  repeat match goal with HA : is_int ?n |- context [num_ok ?n] => rewrite (num_ok_int n HA) end;
  repeat match goal with HA : quote_free _ = true |- _ => rewrite HA; clear HA end; reflexivity.
