(* ===== verification/MakeLog.v ===== *)
(** Logging (src/src/common/make_log.c): the directories of a log file are
    created on demand and the message is appended to the file of the day. *)

From Stdlib Require Import ZArith Lia Bool Ascii String.
From stdpp Require Import base tactics numbers list strings gmap sets.
From S2P Require Import Prelude Text World Sql Logic.

(** ** Paths *)

(** A path as the list of its components: empty components and "." name the
    directory they stand in. *)
Definition flush (cur : list ascii) : list (list ascii) :=
  if decide (cur = []) then [] else if decide (cur = ["."%char]) then [] else [cur].
Fixpoint comps (l cur : list ascii) : list (list ascii) :=
  match l with
  | [] => flush cur
  | c :: l => if Ascii.eqb c "/" then flush cur ++ comps l [] else comps l (cur ++ [c])
  end.
Definition path_of (s : string) : list (list ascii) := comps (list_ascii_of_string s) [].

Definition path : Type := list (list ascii).

(** The directories and the files with their contents. *)
Record log_fs := LogFs { dirs : gset path; files : gmap path string }.

(** [access(p, F_OK)] and [mkdir(p, 0777)]: 0 on success, -1 on failure; a
    directory is created in an existing one. *)
Definition exists_path (fs : log_fs) (p : path) : bool :=
  bool_decide (p ∈ dirs fs \/ is_Some (files fs !! p)).
Definition access (fs : log_fs) (s : string) : Z := if exists_path fs (path_of s) then 0 else -1.
Definition parent (p : path) : path := take (pred (length p)) p.
Definition mkdir (fs : log_fs) (s : string) : Z * log_fs :=
  let p := path_of s in
  if negb (exists_path fs p) && bool_decide (parent p ∈ dirs fs)
  then (0, LogFs (dirs fs ∪ {[p]}) (files fs)) else (-1, fs).

(** ** The code *)

(** [%0kd] of a non-negative number. *)
Definition zeros (k : nat) : string := string_of_list_ascii (replicate k "0"%char).
Definition pad (k : nat) (n : Z) : string := zeros (k - String.length (dec n)) +:+ dec n.

(** [struct tm], with the fields the code prints. *)
Record tm := Tm { tm_year : Z; tm_mon : Z; tm_mday : Z; tm_hour : Z; tm_min : Z; tm_sec : Z }.

(** Create directories from the outermost to the innermost, stopping at the
    first failure, as the chains of [else if (mkdir(...) == -1)] do. *)
Fixpoint mkdirs (fs : log_fs) (l : list string) : log_fs :=
  match l with
  | [] => fs
  | d :: l => let '(r, fs) := mkdir fs d in if r =? -1 then fs else mkdirs fs l
  end.

Definition top_dir : string := ".".
Definition second_dir : string := "./logs".
Definition third_dir (module_name : string) : string := second_dir +:+ "/" +:+ module_name.
Definition y_dir (module_name : string) (now : tm) : string :=
  third_dir module_name +:+ "/" +:+ pad 4 (tm_year now + 1900) +:+ "/".
Definition m_dir (module_name : string) (now : tm) : string :=
  y_dir module_name now +:+ "/" +:+ pad 2 (tm_mon now + 1) +:+ "/".

(** The log file: [snprintf] cuts the path at 1023 characters. *)
Definition log_path (module_name proc_name : string) (now : tm) : string :=
  String.substring 0 1023 ("./logs/" +:+ module_name +:+ "/" +:+ pad 4 (tm_year now + 1900) +:+ "/"
    +:+ pad 2 (tm_mon now + 1) +:+ "/" +:+ proc_name +:+ "-" +:+ pad 2 (tm_mday now) +:+ ".log").

(** [make_path]: the path and the file system; the directory of the day is named
    and never created. *)
Definition make_path (fs : log_fs) (module_name proc_name : string) (now : tm) : string * log_fs :=
  let path := log_path module_name proc_name now in
  let third_dir := third_dir module_name in
  let y_dir := y_dir module_name now in
  let m_dir := m_dir module_name now in
  (path,
   if access fs top_dir =? -1 then mkdirs fs [top_dir; second_dir; third_dir; y_dir; m_dir] else
   if access fs second_dir =? -1 then mkdirs fs [second_dir; third_dir; y_dir; m_dir] else
   if access fs third_dir =? -1 then mkdirs fs [third_dir; y_dir; m_dir] else
   if access fs y_dir =? -1 then mkdirs fs [y_dir; m_dir] else
   if access fs m_dir =? -1 then mkdirs fs [m_dir] else fs).

(** [out_put_file]: [open] creates the file in an existing directory; when it
    fails, so does [write], and nothing is written. *)
Definition out_put_file (fs : log_fs) (path buf : string) : log_fs :=
  let p := path_of path in
  match files fs !! p with
  | Some old => LogFs (dirs fs) (<[p := old +:+ buf]> (files fs))
  | None => if bool_decide (p ∈ dirs fs) then fs else
            if bool_decide (parent p ∈ dirs fs) then LogFs (dirs fs) (<[p := buf]> (files fs)) else fs
  end.

(** The line of a message: [snprintf] cuts it at 4095 characters. *)
Definition log_line (now : tm) (filename : string) (line : Z) (mesg : string) : string :=
  String.substring 0 4095 ("[" +:+ pad 4 (tm_year now + 1900) +:+ "-" +:+ pad 2 (tm_mon now + 1) +:+ "-"
    +:+ pad 2 (tm_mday now) +:+ " " +:+ pad 2 (tm_hour now) +:+ ":" +:+ pad 2 (tm_min now) +:+ ":"
    +:+ pad 2 (tm_sec now) +:+ "]--[" +:+ filename +:+ ":" +:+ dec line +:+ "]--" +:+ mesg).

(** [dumpmsg_to_file]: [vsprintf] writes the message into 4096 bytes. *)
Definition dumpmsg_to_file (fs : log_fs) (now : tm) (module_name proc_name filename : string)
    (line : Z) (mesg : string) : outcome (Z * log_fs) :=
  if negb (fits 4096 mesg) then Undef OutOfBounds else
  let buf := log_line now filename line mesg in
  let '(filepath, fs) := make_path fs module_name proc_name now in
  Ok (0, out_put_file fs filepath buf).

(** ** Lemmas on paths *)

Definition no_slash (s : string) : Prop := "/"%char ∉ list_ascii_of_string s.
(** The name of a directory entry. *)
Definition component (s : string) : Prop := no_slash s /\ s <> "" /\ s <> ".".

Lemma comps_slash a b cur : comps (a ++ "/"%char :: b) cur = comps a cur ++ comps b [].
Proof.
  revert cur. induction a as [|c a IH]; intros cur; cbn [app comps].
  - by rewrite Ascii.eqb_refl.
  - destruct (Ascii.eqb c "/"); rewrite IH; [by rewrite app_assoc | done].
Qed.

Lemma list_ascii_app s s' : list_ascii_of_string (s +:+ s') = list_ascii_of_string s ++ list_ascii_of_string s'.
Proof.
  induction s as [|c s IH]; [done|].
  change (c :: list_ascii_of_string (s +:+ s') = c :: list_ascii_of_string s ++ list_ascii_of_string s').
  by rewrite IH.
Qed.

Lemma path_slash a b : path_of (a +:+ "/" +:+ b) = path_of a ++ path_of b.
Proof. unfold path_of. rewrite !list_ascii_app. apply comps_slash. Qed.

Lemma comps_no_slash a cur : "/"%char ∉ a -> comps a cur = flush (cur ++ a).
Proof.
  revert cur. induction a as [|c a IH]; intros cur Ha; cbn [comps]; [by rewrite app_nil_r|].
  apply not_elem_of_cons in Ha as [Hc Ha].
  destruct (Ascii.eqb_spec c "/"); [congruence|]. rewrite IH by done. by rewrite <- app_assoc.
Qed.

Lemma path_component s : component s -> path_of s = [list_ascii_of_string s].
Proof.
  intros (Hs & Hne & Hdot). unfold path_of. rewrite comps_no_slash by done. cbn [app]. unfold flush.
  assert (forall s', list_ascii_of_string s = list_ascii_of_string s' -> s = s') as Hinj.
  { intros s' E. rewrite <- (string_of_list_ascii_of_string s), E. apply string_of_list_ascii_of_string. }
  rewrite decide_False by (intros E; by apply Hne, Hinj).
  rewrite decide_False by (intros E; by apply Hdot, (Hinj ".")). done.
Qed.

(** Padded numbers are names. *)
Lemma digits_no_slash fuel n acc : 0 <= n -> no_slash acc -> no_slash (digits fuel n acc).
Proof.
  assert (forall d, 0 <= d <= 9 -> digit_char d <> "/"%char) as Hd.
  { intros d Hd E. pose proof (char_digit_char d Hd) as Hc. rewrite E in Hc. discriminate Hc. }
  revert n acc. induction fuel as [|fuel IH]; intros n acc Hn Ha; [done|]. cbn [digits].
  destruct (Z.ltb_spec n 10); [apply not_elem_of_cons; split; [|done]; apply not_eq_sym, Hd; lia|].
  apply IH; [apply Z.div_pos; lia|]. apply not_elem_of_cons. split; [|done].
  pose proof (Z.mod_pos_bound n 10). apply not_eq_sym, Hd. lia.
Qed.

Lemma pad_component k n : 0 <= n < 2 ^ 63 -> component (pad k n).
Proof.
  intros Hn. assert (dec n = digits 20 n "") as Ed.
  { unfold dec. destruct (Z.ltb_spec n 0); [lia|done]. }
  destruct (digits_head 20 n "" ltac:(lia) ltac:(lia)) as (d & s & Hd & E).
  assert (no_slash (dec n)) as Hs by (rewrite Ed; apply digits_no_slash; [lia|apply not_elem_of_nil]).
  assert (no_slash (pad k n)) as Hp.
  { unfold pad, no_slash. rewrite list_ascii_app, elem_of_app. intros [Hin|Hin]; [|done].
    unfold zeros in Hin. rewrite list_ascii_of_string_of_list_ascii in Hin.
    by apply elem_of_replicate in Hin as [? _]. }
  split; [done|]. unfold pad. rewrite Ed, E. clear - Hd.
  destruct (k - String.length (String (digit_char d) s))%nat; [|done].
  change (zeros 0 +:+ String (digit_char d) s) with (String (digit_char d) s).
  split; [done|]. intros [= Ec _]. pose proof (char_digit_char d Hd) as Hc. rewrite Ec in Hc. discriminate Hc.
Qed.

(** ** Directories *)

(** The directories of the log of a module, from the outermost. *)
Definition logs_c : list ascii := list_ascii_of_string "logs".
Definition dir_chain (m : string) (now : tm) : list path :=
  let M := list_ascii_of_string m in
  let Y := list_ascii_of_string (pad 4 (tm_year now + 1900)) in
  let O := list_ascii_of_string (pad 2 (tm_mon now + 1)) in
  [[logs_c]; [logs_c; M]; [logs_c; M; Y]; [logs_c; M; Y; O]].

(** The names the code builds denote the directories of the chain. *)
Lemma dir_names m now : component m -> 0 <= tm_year now + 1900 < 2 ^ 63 -> 0 <= tm_mon now + 1 < 2 ^ 63 ->
  path_of <$> [second_dir; third_dir m; y_dir m now; m_dir m now] = dir_chain m now.
Proof.
  intros Hm Hy Ho.
  assert (forall s k n, 0 <= n < 2 ^ 63 ->
    path_of (s +:+ "/" +:+ pad k n +:+ "/") = path_of s ++ [list_ascii_of_string (pad k n)]) as Hp.
  { intros s k n Hn. rewrite path_slash. f_equal.
    change (path_of (pad k n +:+ "/" +:+ "") = [list_ascii_of_string (pad k n)]).
    rewrite path_slash, path_component by (by apply pad_component). done. }
  assert (path_of (third_dir m) = [logs_c; list_ascii_of_string m]) as E3.
  { unfold third_dir. rewrite path_slash, (path_component m Hm). done. }
  cbn [fmap list_fmap]. unfold m_dir. rewrite Hp by done. unfold y_dir. rewrite Hp, E3 by done. done.
Qed.

(** A chain of directories, each inside the one before. *)
Fixpoint linked (q : path) (ps : list path) : Prop :=
  match ps with
  | [] => True
  | p :: ps => parent p = q /\ length p = S (length q) /\ linked p ps
  end.

Lemma linked_longer q ps p : linked q ps -> p ∈ ps -> (length q < length p)%nat.
Proof.
  revert q. induction ps as [|x ps IH]; intros q Hl Hp; [by apply not_elem_of_nil in Hp|].
  destruct Hl as (_ & El & Hl). apply elem_of_cons in Hp as [->|Hp]; [lia|].
  specialize (IH x Hl Hp). lia.
Qed.

(** Creating a chain of missing directories inside an existing one. *)
Lemma mkdirs_chain names fs q : q ∈ dirs fs -> linked q (path_of <$> names) ->
  (forall p, p ∈ path_of <$> names -> exists_path fs p = false) ->
  dirs (mkdirs fs names) = dirs fs ∪ list_to_set (path_of <$> names) /\
  files (mkdirs fs names) = files fs.
Proof.
  revert fs q. induction names as [|d names IH]; intros fs q Hq Hl Hno; cbn [mkdirs fmap list_fmap list_to_set].
  { split; [set_solver|done]. }
  destruct Hl as (Hpar & Hlen & Hl). unfold mkdir.
  rewrite Hno by left. rewrite Hpar, bool_decide_true by done. cbn [negb andb Z.eqb].
  destruct (IH (LogFs (dirs fs ∪ {[path_of d]}) (files fs)) (path_of d)) as [-> ->]; [set_solver|done| |].
  - intros p Hp. pose proof (linked_longer _ _ p Hl Hp). specialize (Hno p ltac:(by right)).
    unfold exists_path in *. apply bool_decide_eq_false in Hno. apply bool_decide_eq_false.
    cbn [dirs files]. intros [Hin|?]; [|tauto]. apply Hno. left.
    apply elem_of_union in Hin as [?|Hin%elem_of_singleton]; [done|]. subst p. lia.
  - cbn [dirs files]. split; [set_solver|done].
Qed.

(** A file system in which the working directory exists, every directory lies
    in a directory, and no file has the name of a directory of the log. *)
Record log_ready (fs : log_fs) (m : string) (now : tm) : Prop := {
  lr_root : [] ∈ dirs fs;
  lr_closed : forall p, p ∈ dirs fs -> parent p ∈ dirs fs;
  lr_files : forall p, p ∈ dir_chain m now -> files fs !! p = None
}.

(** The cascade of [make_path]: from the first missing directory on, create. *)
Fixpoint ensure (fs : log_fs) (names : list string) : log_fs :=
  match names with
  | [] => fs
  | d :: rest => if access fs d =? -1 then mkdirs fs (d :: rest) else ensure fs rest
  end.

Lemma make_path_ensure fs m proc now :
  (make_path fs m proc now).2 = ensure fs [top_dir; second_dir; third_dir m; y_dir m now; m_dir m now].
Proof. done. Qed.

Lemma access_exists fs s : access fs s =? -1 = negb (exists_path fs (path_of s)).
Proof. unfold access. by destruct (exists_path fs (path_of s)). Qed.

Lemma exists_dir fs p : files fs !! p = None -> exists_path fs p = bool_decide (p ∈ dirs fs).
Proof.
  intros Hf. unfold exists_path. rewrite Hf. apply bool_decide_ext.
  split; [by intros [?|[? [=]]] | by left].
Qed.

(** In a missing directory everything is missing. *)
Lemma linked_missing fs q ps : (forall p, p ∈ dirs fs -> parent p ∈ dirs fs) -> q ∉ dirs fs ->
  linked q ps -> forall p, p ∈ ps -> p ∉ dirs fs.
Proof.
  intros Hcl. revert q. induction ps as [|x ps IH]; intros q Hq Hl p Hp; [by apply not_elem_of_nil in Hp|].
  destruct Hl as (<- & _ & Hl).
  assert (x ∉ dirs fs) as Hx by (intros ?; by apply Hq, Hcl).
  apply elem_of_cons in Hp as [->|Hp]; [done|]. by eapply IH.
Qed.

Lemma ensure_chain fs names q : (forall p, p ∈ dirs fs -> parent p ∈ dirs fs) -> q ∈ dirs fs ->
  linked q (path_of <$> names) -> (forall p, p ∈ path_of <$> names -> files fs !! p = None) ->
  dirs (ensure fs names) = dirs fs ∪ list_to_set (path_of <$> names) /\
  files (ensure fs names) = files fs.
Proof.
  intros Hcl. revert q. induction names as [|d names IH]; intros q Hq Hl Hf.
  { cbn. split; [set_solver|done]. }
  cbn [ensure]. rewrite access_exists, exists_dir by (apply Hf; left).
  destruct (decide (path_of d ∈ dirs fs)) as [Hd|Hd];
    [rewrite bool_decide_true by done | rewrite bool_decide_false by done]; cbn [negb].
  - destruct (IH (path_of d) Hd) as [-> ->]; [apply Hl | intros p Hp; apply Hf; by right|].
    cbn [fmap list_fmap list_to_set]. split; [set_solver|done].
  - apply (mkdirs_chain _ _ q); [done..|]. intros p Hp. rewrite exists_dir by (by apply Hf).
    apply bool_decide_eq_false. apply elem_of_cons in Hp as [->|Hp]; [done|].
    eapply linked_missing; [done|exact Hd|apply Hl|done].
Qed.

(** After [make_path] the directories of the log exist, and nothing else has
    changed. *)
Lemma make_path_dirs fs m proc now : component m ->
  0 <= tm_year now + 1900 < 2 ^ 63 -> 0 <= tm_mon now + 1 < 2 ^ 63 -> log_ready fs m now ->
  dirs (make_path fs m proc now).2 = dirs fs ∪ list_to_set (dir_chain m now) /\
  files (make_path fs m proc now).2 = files fs.
Proof.
  intros Hm Hy Ho [Hroot Hcl Hf]. rewrite make_path_ensure.
  set (names := [second_dir; third_dir m; y_dir m now; m_dir m now]).
  change (ensure fs _) with (if access fs top_dir =? -1 then mkdirs fs (top_dir :: names) else ensure fs names).
  rewrite access_exists. unfold exists_path. rewrite bool_decide_true by (left; exact Hroot). cbn [negb].
  rewrite <- dir_names in * by done. fold names in Hf |- *. apply (ensure_chain _ _ []); try done.
  subst names. by rewrite dir_names.
Qed.

(** The name of the log file of a day. *)
Definition log_name (proc : string) (now : tm) : string := proc +:+ "-" +:+ pad 2 (tm_mday now) +:+ ".log".

Lemma log_name_component proc now : no_slash proc -> 0 <= tm_mday now < 2 ^ 63 -> component (log_name proc now).
Proof.
  intros Hp Hd. destruct (pad_component 2 (tm_mday now) Hd) as (Hpad & _). split.
  - unfold no_slash, log_name. rewrite !list_ascii_app, !elem_of_app. intros [?|[Hin|[?|Hin]]]; [done| |done|];
      revert Hin; by_decide.
  - split; intros E; apply (f_equal String.length) in E; unfold log_name in E;
      rewrite !length_append in E; cbn [String.length] in E; lia.
Qed.

(** The path of the log file, when it is not cut. *)
Lemma log_path_of m proc now : component m -> no_slash proc ->
  0 <= tm_year now + 1900 < 2 ^ 63 -> 0 <= tm_mon now + 1 < 2 ^ 63 -> 0 <= tm_mday now < 2 ^ 63 ->
  (String.length m + String.length proc <= 900)%nat ->
  path_of (log_path m proc now) =
  [logs_c; list_ascii_of_string m; list_ascii_of_string (pad 4 (tm_year now + 1900));
   list_ascii_of_string (pad 2 (tm_mon now + 1)); list_ascii_of_string (log_name proc now)].
Proof.
  intros Hm Hp Hy Ho Hd Hlen. unfold log_path. fold (log_name proc now).
  assert (forall k n, (k <= 4)%nat -> (String.length (pad k n) <= 25)%nat) as Hpl.
  { intros k n Hk. unfold pad, zeros. rewrite length_append. pose proof (dec_length n).
    assert (forall j, String.length (string_of_list_ascii (replicate j "0"%char)) = j) as ->
      by (induction j; cbn; congruence). lia. }
  pose proof (Hpl 4%nat (tm_year now + 1900) ltac:(lia)). pose proof (Hpl 2%nat (tm_mon now + 1) ltac:(lia)).
  pose proof (Hpl 2%nat (tm_mday now) ltac:(lia)).
  rewrite substring_all by (unfold log_name; rewrite !length_append; cbn [String.length]; lia).
  change (path_of ("./logs" +:+ "/" +:+ (m +:+ "/" +:+ pad 4 (tm_year now + 1900) +:+ "/" +:+
    pad 2 (tm_mon now + 1) +:+ "/" +:+ log_name proc now)) = [logs_c; list_ascii_of_string m;
    list_ascii_of_string (pad 4 (tm_year now + 1900)); list_ascii_of_string (pad 2 (tm_mon now + 1));
    list_ascii_of_string (log_name proc now)]).
  rewrite !path_slash, (path_component m Hm), (path_component (log_name proc now)) by (by apply log_name_component).
  rewrite !(path_component (pad _ _)) by (by apply pad_component). done.
Qed.

(** C38: logging a message that fits its buffer, in a file system where the
    working directory exists and nothing stands in the way: the directories of
    the log are created where they are missing, the line is appended to the file
    of the day (created when it is missing), and no other file changes. *)
Theorem dumpmsg_appends (fs : log_fs) (now : tm) (m proc file mesg : string) (line : Z)
    (Hm : component m) (Hp : no_slash proc)
    (Hy : 0 <= tm_year now + 1900 < 2 ^ 63) (Ho : 0 <= tm_mon now + 1 < 2 ^ 63)
    (Hd : 0 <= tm_mday now < 2 ^ 63)
    (Hlen : (String.length m + String.length proc <= 900)%nat)
    (Hmsg : fits 4096 mesg = true) (Hr : log_ready fs m now)
    (Hfile : path_of (log_path m proc now) ∉ dirs fs) :
  exists fs', dumpmsg_to_file fs now m proc file line mesg = Ok (0, fs')
    /\ dirs fs' = dirs fs ∪ list_to_set (dir_chain m now)
    /\ files fs' = <[path_of (log_path m proc now) :=
         default "" (files fs !! path_of (log_path m proc now)) +:+ log_line now file line mesg]> (files fs).
Proof.
  unfold dumpmsg_to_file. rewrite Hmsg. cbn [negb].
  destruct (make_path_dirs fs m proc now Hm Hy Ho Hr) as [Ed Ef].
  destruct (make_path fs m proc now) as [p fs1] eqn:E. cbn [snd] in Ed, Ef.
  assert (p = log_path m proc now) as -> by (by injection E).
  eexists. split; [done|]. unfold out_put_file. rewrite Ef.
  destruct (files fs !! path_of (log_path m proc now)) as [old|]; [by rewrite <- Ed|].
  rewrite Ed, bool_decide_false, bool_decide_true; [done|..];
    rewrite (log_path_of m proc now) in * by done.
  - cbn. set_solver.
  - intros [?|Hin]%elem_of_union; [done|]. revert Hin. cbn. set_solver.
Qed.

(** a message of 4096 bytes or more overflows the buffer of [vsprintf]. *)
Theorem dumpmsg_overflow (fs : log_fs) (now : tm) (m proc file mesg : string) (line : Z)
    (Hmsg : (4096 <= String.length mesg)%nat) :
  dumpmsg_to_file fs now m proc file line mesg = Undef OutOfBounds.
Proof.
  unfold dumpmsg_to_file. assert (fits 4096 mesg = false) as ->; [|done].
  apply Nat.ltb_ge. done.
Qed.
