(* ===== verification/Catalogue.v ===== *)
(** The catalogue behind the tables: who owns which file, and when the counters
    the programs maintain agree with it. *)

From Stdlib Require Import ZArith Lia Bool Ascii String.
From stdpp Require Import base tactics numbers list strings gmap.
From S2P Require Import Prelude Text World MysqlOp RedisOp Sql Kv CgiCommon Logic.

(** The entry a row of user_file_list stands for: owner, digest, file name. *)
Definition entry (r : list_row) : string * string * string := (l_user r, l_md5 r, l_name r).
Definition share_key (r : share_row) : string * string := (s_md5 r, s_name r).

(** The number of entries with a digest, and of a user. *)
Definition refs (m : string) (l : list list_row) : nat := length (filter (fun r => l_md5 r = m) l).
Definition owned (u : string) (l : list list_row) : nat := length (filter (fun r => l_user r = u) l).

(** What the counters of the tables have to say about the entries. *)
Record consistent (T : tables) : Prop := {
  con_entries : NoDup (entry <$> t_list T);
  con_files : NoDup (f_md5 <$> t_file T);
  con_counts : NoDup (c_user <$> t_count T);
  (* a stored content is referenced as often as its counter says, and no
     entry lacks its content *)
  con_refs : forall f, f ∈ t_file T -> f_count f = Z.of_nat (refs (f_md5 f) (t_list T));
  con_stored : forall r, r ∈ t_list T -> l_md5 r ∈ f_md5 <$> t_file T;
  (* the counter of a user is the number of the user's entries *)
  con_owned : forall c, c ∈ t_count T -> c_user c <> SHARE_COUNT ->
    c_count c = Z.of_nat (owned (c_user c) (t_list T));
  con_counted : forall r, r ∈ t_list T -> l_user r ∈ c_user <$> t_count T;
  con_reserved : forall r, r ∈ t_list T -> l_user r <> SHARE_COUNT;
  (* the number of shares is kept under the reserved name *)
  con_shares : NoDup (share_key <$> t_share T);
  con_shared : forall c, c ∈ t_count T -> c_user c = SHARE_COUNT ->
    c_count c = Z.of_nat (length (t_share T));
  con_share_counted : t_share T <> [] -> SHARE_COUNT ∈ c_user <$> t_count T
}.

(** Consistency can be decided. *)
Definition consistent_rows (T : tables) : Prop :=
  NoDup (entry <$> t_list T) /\ NoDup (f_md5 <$> t_file T) /\ NoDup (c_user <$> t_count T) /\
  NoDup (share_key <$> t_share T) /\
  Forall (fun f => f_count f = Z.of_nat (refs (f_md5 f) (t_list T))) (t_file T) /\
  Forall (fun r => l_md5 r ∈ f_md5 <$> t_file T /\ l_user r ∈ c_user <$> t_count T
                   /\ l_user r <> SHARE_COUNT) (t_list T) /\
  Forall (fun c => (c_user c = SHARE_COUNT \/ c_count c = Z.of_nat (owned (c_user c) (t_list T))) /\
                   (c_user c <> SHARE_COUNT \/ c_count c = Z.of_nat (length (t_share T)))) (t_count T) /\
  (t_share T = [] \/ SHARE_COUNT ∈ c_user <$> t_count T).

Lemma consistent_alt T : consistent T <-> consistent_rows T.
Proof.
  unfold consistent_rows. rewrite !Forall_forall. split.
  - intros []. repeat split; auto.
    + destruct (decide (c_user x = SHARE_COUNT)); auto.
    + destruct (decide (c_user x = SHARE_COUNT)); auto.
    + destruct (t_share T); auto.
  - intros (? & ? & ? & ? & Hf & Hl & Hc & Hs). split; auto.
    + intros r Hr. by apply Hl.
    + intros c Hin Hne. by destruct (proj1 (Hc c Hin)).
    + intros r Hr. by apply Hl.
    + intros r Hr. by apply Hl.
    + intros c Hin E. by destruct (proj2 (Hc c Hin)).
    + intros Hne. by destruct Hs.
Qed.

#[export] Instance consistent_rows_dec T : Decision (consistent_rows T).
Proof. unfold consistent_rows. apply _. Defined.
#[export] Instance consistent_dec T : Decision (consistent T).
Proof. refine (cast_if (decide (consistent_rows T))); by rewrite consistent_alt. Defined.

(** ** Abstract operations *)

(** The counter of a user, created or incremented. *)
Definition bump (u : string) (C : list count_row) : list count_row :=
  match filter (fun c => c_user c = u) C with
  | [] => C ++ [CountRow u 1]
  | c :: _ => update (fun r => c_user r = u) (count_set (c_count c + 1)) C
  end.

(** The counter of a user, decremented, or removed by the last entry. *)
Definition unbump (u : string) (C : list count_row) : list count_row :=
  match filter (fun c => c_user c = u) C with
  | [] => C
  | c :: _ => if c_count c =? 1 then filter (fun r => c_user r <> u) C
              else update (fun r => c_user r = u) (count_set (c_count c - 1)) C
  end.

(** A new reference to stored content. *)
Definition add_reference (r : list_row) (T : tables) : tables :=
  Tables (t_user T)
    (update (fun f => f_md5 f = l_md5 r)
       (file_set_count (Z.of_nat (refs (l_md5 r) (t_list T)) + 1)) (t_file T))
    (t_list T ++ [r]) (bump (l_user r) (t_count T)) (t_share T).

(** New content with its first reference. *)
Definition add_content (f : file_row) (r : list_row) (T : tables) : tables :=
  Tables (t_user T) (t_file T ++ [f]) (t_list T ++ [r]) (bump (l_user r) (t_count T)) (t_share T).

(** A reference removed, with the content when it was the last. *)
Definition drop_reference (u m n : string) (T : tables) : tables :=
  let k := Z.of_nat (refs m (t_list T)) - 1 in
  Tables (t_user T)
    (if k =? 0 then filter (fun f => f_md5 f <> m) (t_file T)
     else update (fun f => f_md5 f = m) (file_set_count k) (t_file T))
    (filter (fun r => ~ is_entry u m n r) (t_list T)) (unbump u (t_count T)) (t_share T).

(** ** Lemmas on updates and filters *)

Lemma filter_empty {A} (P : A -> Prop) `{forall x, Decision (P x)} (l : list A) :
  (forall x, x ∈ l -> ~ P x) -> filter P l = [].
Proof.
  induction l as [|x l IH]; intros Hl; [done|].
  rewrite filter_cons_False by (apply Hl; left). apply IH. intros y Hy. apply Hl. by right.
Qed.

Lemma filter_all {A} (P : A -> Prop) `{forall x, Decision (P x)} (l : list A) :
  (forall x, x ∈ l -> P x) -> filter P l = l.
Proof.
  induction l as [|x l IH]; intros Hl; [done|].
  rewrite filter_cons_True by (apply Hl; left). f_equal. apply IH. intros y Hy. apply Hl. by right.
Qed.

Lemma filter_ext_in {A} (P Q : A -> Prop) `{forall x, Decision (P x)} `{forall x, Decision (Q x)} (l : list A) :
  (forall x, x ∈ l -> P x <-> Q x) -> filter P l = filter Q l.
Proof.
  induction l as [|x l IH]; intros Hl; [done|]. rewrite !filter_cons, IH by (intros y Hy; apply Hl; by right).
  destruct (Hl x ltac:(left)) as [H1 H2].
  destruct (decide (P x)), (decide (Q x)); try done; exfalso; auto.
Qed.

Lemma length_filter_snoc {A} (P : A -> Prop) `{forall x, Decision (P x)} (l : list A) (x : A) :
  length (filter P (l ++ [x])) = (length (filter P l) + if decide (P x) then 1 else 0)%nat.
Proof. rewrite filter_app, length_app, filter_cons, filter_nil. by destruct (decide (P x)). Qed.

Section Keys.
Context {A K : Type} `{EqDecision K} (key : A -> K).

Lemma update_keys P `{forall x, Decision (P x)} (f : A -> A) l :
  (forall x, key (f x) = key x) -> key <$> update P f l = key <$> l.
Proof.
  intros Hf. unfold update. rewrite <- list_fmap_compose. apply list_fmap_ext.
  intros i x _. cbn. destruct (decide (P x)); [by rewrite Hf | done].
Qed.

Lemma elem_of_update P `{forall x, Decision (P x)} (f : A -> A) l y :
  y ∈ update P f l <-> exists x, x ∈ l /\ y = if decide (P x) then f x else x.
Proof. unfold update. rewrite list_elem_of_fmap. firstorder. Qed.

Lemma key_unique l x y : NoDup (key <$> l) -> x ∈ l -> y ∈ l -> key x = key y -> x = y.
Proof.
  intros Hn Hx Hy E. apply list_elem_of_lookup in Hx as [i Hi].
  apply list_elem_of_lookup in Hy as [j Hj].
  assert (i = j) as ->; [|congruence].
  eapply NoDup_lookup; [exact Hn|..]; rewrite list_lookup_fmap; [by rewrite Hi | rewrite Hj].
  cbn. by rewrite E.
Qed.

(** The element with a key, and what is left without it. *)
Lemma split_key l x : NoDup (key <$> l) -> x ∈ l -> l ≡ₚ x :: filter (fun y => key y <> key x) l.
Proof.
  induction l as [|y l IH]; intros Hn Hx; [by apply not_elem_of_nil in Hx|].
  cbn in Hn. apply NoDup_cons in Hn as [Hy Hn]. apply elem_of_cons in Hx as [->|Hx].
  - rewrite filter_cons_False by auto. f_equiv.
    assert (filter (fun z => key z <> key y) l = l) as ->; [|done].
    apply filter_all. intros z Hz E. apply Hy. rewrite <- E. by apply list_elem_of_fmap_2.
  - rewrite filter_cons_True.
    + etrans; [apply Permutation_cons, (IH Hn Hx); done | apply Permutation_swap].
    + intros E. apply Hy. rewrite E. by apply list_elem_of_fmap_2.
Qed.

Lemma filter_unique l x : NoDup (key <$> l) -> x ∈ l -> filter (fun y => key y = key x) l = [x].
Proof.
  intros Hn Hx. apply Permutation_singleton_r. rewrite (split_key l x Hn Hx) at 1.
  rewrite filter_cons_True by done. f_equiv. rewrite filter_empty; [done|].
  intros y [? _]%list_elem_of_filter. done.
Qed.

Lemma filter_none l k : k ∉ key <$> l -> filter (fun y => key y = k) l = [].
Proof.
  intros Hk. apply filter_empty. intros z Hz E. apply Hk. rewrite <- E. by apply list_elem_of_fmap_2.
Qed.

Lemma NoDup_snoc_keys l x : NoDup (key <$> l) -> key x ∉ key <$> l -> NoDup (key <$> l ++ [x]).
Proof.
  intros Hn Hx. rewrite fmap_app. apply NoDup_app. split; [done|]. cbn. split; [|apply NoDup_singleton].
  intros y Hy Hy'. by apply list_elem_of_singleton in Hy' as ->.
Qed.

Lemma NoDup_filter_keys (P : A -> Prop) `{forall x, Decision (P x)} (l : list A) :
  NoDup (key <$> l) -> NoDup (key <$> filter P l).
Proof. intros Hn. eapply sublist_NoDup; [exact Hn|]. apply fmap_sublist, sublist_filter. Qed.
End Keys.

(** ** Counters *)

Lemma refs_snoc m l r : refs m (l ++ [r]) = (refs m l + if decide (l_md5 r = m) then 1 else 0)%nat.
Proof. exact (length_filter_snoc (fun r => l_md5 r = m) l r). Qed.
Lemma owned_snoc u l r : owned u (l ++ [r]) = (owned u l + if decide (l_user r = u) then 1 else 0)%nat.
Proof. exact (length_filter_snoc (fun r => l_user r = u) l r). Qed.

Lemma refs_le m l : (refs m l <= length l)%nat.
Proof. apply length_filter. Qed.
Lemma owned_le u l : (owned u l <= length l)%nat.
Proof. apply length_filter. Qed.

Lemma bump_cases u C : NoDup (c_user <$> C) ->
  (u ∉ c_user <$> C /\ bump u C = C ++ [CountRow u 1]) \/
  (exists c, c ∈ C /\ c_user c = u /\ filter (fun c => c_user c = u) C = [c] /\
     bump u C = update (fun r => c_user r = u) (count_set (c_count c + 1)) C).
Proof.
  intros Hn. unfold bump. destruct (decide (u ∈ c_user <$> C)) as [Hu|Hu].
  - right. apply list_elem_of_fmap in Hu as (c & -> & Hc). exists c.
    rewrite filter_unique by done. done.
  - left. by rewrite filter_none.
Qed.

Lemma bump_keys u C k : NoDup (c_user <$> C) -> k ∈ c_user <$> bump u C <-> k = u \/ k ∈ c_user <$> C.
Proof.
  intros Hn. destruct (bump_cases u C Hn) as [[Hu ->]|(c & Hc & <- & _ & ->)].
  - rewrite fmap_app, elem_of_app. cbn. rewrite list_elem_of_singleton. tauto.
  - rewrite update_keys by done. split; [tauto|]. intros [->|?]; [|done]. by apply list_elem_of_fmap_2.
Qed.

Lemma bump_NoDup u C : NoDup (c_user <$> C) -> NoDup (c_user <$> bump u C).
Proof.
  intros Hn. destruct (bump_cases u C Hn) as [[Hu ->]|(c & Hc & <- & _ & ->)].
  - by apply NoDup_snoc_keys.
  - by rewrite update_keys.
Qed.

Lemma elem_of_bump u C c : NoDup (c_user <$> C) -> c ∈ bump u C ->
  (c_user c <> u /\ c ∈ C) \/
  (c_user c = u /\ c_count c = 1 /\ u ∉ c_user <$> C) \/
  (c_user c = u /\ exists c0, c0 ∈ C /\ c_user c0 = u /\ c_count c = c_count c0 + 1).
Proof.
  intros Hn Hc. destruct (bump_cases u C Hn) as [[Hu E]|(c0 & Hc0 & Eu & _ & E)]; rewrite E in Hc.
  - apply elem_of_app in Hc as [Hc|Hc%list_elem_of_singleton].
    + left. split; [|done]. intros <-. apply Hu. by apply list_elem_of_fmap_2.
    + subst c. cbn. tauto.
  - apply elem_of_update in Hc as (x & Hx & ->). destruct (decide (c_user x = u)) as [Ex|Ex].
    + right. right. cbn. split; [done|]. exists c0. split; [done|]. done.
    + by left.
Qed.

(** A user without a counter owns nothing. *)
Lemma uncounted T u : consistent T -> u ∉ c_user <$> t_count T -> owned u (t_list T) = 0%nat.
Proof.
  intros HT Hu. unfold owned. rewrite filter_empty; [done|].
  intros r Hr <-. by apply Hu, con_counted.
Qed.

Lemma bump_counted T r L : consistent T -> l_user r <> SHARE_COUNT -> L = t_list T ++ [r] ->
  forall c, c ∈ bump (l_user r) (t_count T) -> c_user c <> SHARE_COUNT ->
  c_count c = Z.of_nat (owned (c_user c) L).
Proof.
  intros HT Hr -> c Hc Hs. rewrite owned_snoc.
  destruct (elem_of_bump _ _ _ (con_counts T HT) Hc) as [[Hne Hin]|[(Eu & E1 & Hu)|(Eu & c0 & H0 & E0 & E1)]].
  - rewrite decide_False by done. rewrite (con_owned T HT c Hin Hs). lia.
  - rewrite decide_True by done. rewrite E1, Eu, (uncounted T) by done. lia.
  - rewrite decide_True by done. rewrite E1, (con_owned T HT c0 H0) by congruence. rewrite E0, Eu. lia.
Qed.

Lemma bump_shared T u : consistent T -> u <> SHARE_COUNT ->
  forall c, c ∈ bump u (t_count T) -> c_user c = SHARE_COUNT ->
  c_count c = Z.of_nat (length (t_share T)).
Proof.
  intros HT Hu c Hc Hs.
  destruct (elem_of_bump _ _ _ (con_counts T HT) Hc) as [[Hne Hin]|[(Eu & _)|(Eu & _)]]; [|congruence..].
  by apply (con_shared T HT).
Qed.

(** ** Adding *)

Lemma consistent_add T r (files : list file_row) : consistent T -> l_user r <> SHARE_COUNT ->
  entry r ∉ entry <$> t_list T -> NoDup (f_md5 <$> files) ->
  (forall m, m ∈ f_md5 <$> files <-> m = l_md5 r \/ m ∈ f_md5 <$> t_file T) ->
  (forall f, f ∈ files -> f_count f = Z.of_nat (refs (f_md5 f) (t_list T ++ [r]))) ->
  consistent (Tables (t_user T) files (t_list T ++ [r]) (bump (l_user r) (t_count T)) (t_share T)).
Proof.
  intros HT Hu Hr Hf Hk Hc. constructor; cbn; auto using bump_NoDup, con_counts, con_shares.
  - by apply NoDup_snoc_keys, Hr; apply con_entries.
  - intros x [Hx| ->%list_elem_of_singleton]%elem_of_app; apply Hk; [|by left].
    right. by apply con_stored.
  - by eapply bump_counted.
  - intros x [Hx| ->%list_elem_of_singleton]%elem_of_app; apply bump_keys; try apply con_counts; auto.
    right. by apply con_counted.
  - intros x [Hx| ->%list_elem_of_singleton]%elem_of_app; [by apply (con_reserved T)|done].
  - by apply bump_shared.
  - intros Hs. apply bump_keys; [by apply con_counts|]. right. by apply con_share_counted.
Qed.

Lemma consistent_add_reference T r : consistent T -> l_user r <> SHARE_COUNT ->
  entry r ∉ entry <$> t_list T -> l_md5 r ∈ f_md5 <$> t_file T -> consistent (add_reference r T).
Proof.
  intros HT Hu Hr Hm. apply consistent_add; auto.
  - rewrite update_keys by done. by apply con_files.
  - intros m. rewrite update_keys by done. split; [tauto|]. by intros [->|?].
  - intros f (x & Hx & ->)%elem_of_update. rewrite refs_snoc.
    destruct (decide (f_md5 x = l_md5 r)) as [E|E]; cbn.
    + rewrite decide_True by done. rewrite E. lia.
    + rewrite decide_False by done. rewrite (con_refs T HT x Hx). lia.
Qed.

Lemma consistent_add_content T f r : consistent T -> l_user r <> SHARE_COUNT ->
  f_md5 f = l_md5 r -> f_count f = 1 -> l_md5 r ∉ f_md5 <$> t_file T -> consistent (add_content f r T).
Proof.
  intros HT Hu Ef Ec Hm.
  assert (forall x, x ∈ t_list T -> l_md5 x <> l_md5 r) as Hfresh.
  { intros x Hx E. apply Hm. rewrite <- E. by apply con_stored. }
  apply consistent_add; auto.
  - intros (x & E & Hx)%list_elem_of_fmap. injection E as _ E _. by destruct (Hfresh x Hx).
  - apply NoDup_snoc_keys; [by apply con_files | by rewrite Ef].
  - intros m. rewrite fmap_app, elem_of_app. cbn. rewrite list_elem_of_singleton, Ef. tauto.
  - intros x [Hx| ->%list_elem_of_singleton]%elem_of_app; rewrite refs_snoc.
    + rewrite decide_False by (intros E; apply Hm; rewrite E; by apply list_elem_of_fmap_2).
      rewrite (con_refs T HT x Hx). lia.
    + rewrite decide_True by done. unfold refs. rewrite filter_empty; [cbn; lia|].
      intros x Hx E. apply (Hfresh x Hx). by rewrite E.
Qed.

(** ** Removing *)

Lemma unbump_cases u C c : NoDup (c_user <$> C) -> c ∈ C -> c_user c = u ->
  (c_count c = 1 /\ unbump u C = filter (fun r => c_user r <> u) C) \/
  (c_count c <> 1 /\ unbump u C = update (fun r => c_user r = u) (count_set (c_count c - 1)) C).
Proof.
  intros Hn Hc <-. unfold unbump. rewrite filter_unique by done.
  destruct (Z.eqb_spec (c_count c) 1); auto.
Qed.

Lemma elem_of_unbump u C c x : NoDup (c_user <$> C) -> c ∈ C -> c_user c = u -> x ∈ unbump u C ->
  (c_user x <> u /\ x ∈ C) \/ (c_user x = u /\ c_count x = c_count c - 1).
Proof.
  intros Hn Hc Eu Hx. destruct (unbump_cases u C c Hn Hc Eu) as [[_ E]|[_ E]]; rewrite E in Hx.
  - apply list_elem_of_filter in Hx as [? ?]. by left.
  - apply elem_of_update in Hx as (y & Hy & ->). destruct (decide (c_user y = u)); [by right | by left].
Qed.

Lemma unbump_keys u C c k : NoDup (c_user <$> C) -> c ∈ C -> c_user c = u ->
  k ∈ c_user <$> C -> (k = u -> c_count c <> 1) -> k ∈ c_user <$> unbump u C.
Proof.
  intros Hn Hc Eu Hk Hne. destruct (unbump_cases u C c Hn Hc Eu) as [[E1 ->]|[_ ->]].
  - apply list_elem_of_fmap in Hk as (y & -> & Hy). apply list_elem_of_fmap_2, list_elem_of_filter.
    split; [|done]. intros E. by destruct (Hne E).
  - by rewrite update_keys.
Qed.

Lemma unbump_NoDup u C c : NoDup (c_user <$> C) -> c ∈ C -> c_user c = u -> NoDup (c_user <$> unbump u C).
Proof.
  intros Hn Hc Eu. destruct (unbump_cases u C c Hn Hc Eu) as [[_ ->]|[_ ->]].
  - by apply NoDup_filter_keys.
  - by rewrite update_keys.
Qed.

(** The list without one entry. *)
Lemma split_entry l r0 : NoDup (entry <$> l) -> r0 ∈ l ->
  l ≡ₚ r0 :: filter (fun r => ~ is_entry (l_user r0) (l_md5 r0) (l_name r0) r) l.
Proof.
  intros Hn Hr. rewrite (split_key entry l r0 Hn Hr) at 1. f_equiv.
  rewrite (list_filter_iff _ (fun r => ~ is_entry (l_user r0) (l_md5 r0) (l_name r0) r)); [done|].
  intros r. unfold is_entry, entry. split; intros Hne E; apply Hne; [|by injection E as -> -> ->].
  by destruct E as (-> & -> & ->).
Qed.

Lemma refs_perm m l l' : l ≡ₚ l' -> refs m l = refs m l'.
Proof. intros E. unfold refs. by rewrite E. Qed.
Lemma owned_perm u l l' : l ≡ₚ l' -> owned u l = owned u l'.
Proof. intros E. unfold owned. by rewrite E. Qed.
Lemma refs_cons m l r : refs m (r :: l) = ((if decide (l_md5 r = m) then 1 else 0) + refs m l)%nat.
Proof. unfold refs. rewrite filter_cons. by destruct (decide _). Qed.
Lemma owned_cons u l r : owned u (r :: l) = ((if decide (l_user r = u) then 1 else 0) + owned u l)%nat.
Proof. unfold owned. rewrite filter_cons. by destruct (decide _). Qed.

Lemma refs_pos m l r : r ∈ l -> l_md5 r = m -> (0 < refs m l)%nat.
Proof.
  intros Hr <-. unfold refs.
  assert (r ∈ filter (fun x => l_md5 x = l_md5 r) l) as Hin by (by apply list_elem_of_filter).
  destruct (filter _ l); [by apply not_elem_of_nil in Hin | cbn; lia].
Qed.
Lemma owned_pos u l r : r ∈ l -> l_user r = u -> (0 < owned u l)%nat.
Proof.
  intros Hr <-. unfold owned.
  assert (r ∈ filter (fun x => l_user x = l_user r) l) as Hin by (by apply list_elem_of_filter).
  destruct (filter _ l); [by apply not_elem_of_nil in Hin | cbn; lia].
Qed.

(** The contents that are left. *)
Definition drop_content (m : string) (k : Z) (F : list file_row) : list file_row :=
  if k =? 0 then filter (fun f => f_md5 f <> m) F
  else update (fun f => f_md5 f = m) (file_set_count k) F.

Lemma elem_of_drop_content m k F f : f ∈ drop_content m k F ->
  (f_md5 f <> m /\ f ∈ F) \/ (f_md5 f = m /\ f_count f = k).
Proof.
  unfold drop_content. destruct (k =? 0).
  - intros [? ?]%list_elem_of_filter. by left.
  - intros (y & Hy & ->)%elem_of_update. destruct (decide (f_md5 y = m)); [by right | by left].
Qed.

Lemma drop_content_keys m k F x : x ∈ f_md5 <$> F -> (x = m -> k <> 0) -> x ∈ f_md5 <$> drop_content m k F.
Proof.
  intros Hx Hk. unfold drop_content. destruct (Z.eqb_spec k 0).
  - apply list_elem_of_fmap in Hx as (y & -> & Hy). apply list_elem_of_fmap_2, list_elem_of_filter.
    split; [|done]. intros E. by destruct (Hk E).
  - by rewrite update_keys.
Qed.

Lemma drop_content_NoDup m k F : NoDup (f_md5 <$> F) -> NoDup (f_md5 <$> drop_content m k F).
Proof.
  intros Hn. unfold drop_content. destruct (k =? 0); [by apply NoDup_filter_keys | by rewrite update_keys].
Qed.

Lemma consistent_drop_reference T r0 : consistent T -> r0 ∈ t_list T ->
  consistent (drop_reference (l_user r0) (l_md5 r0) (l_name r0) T).
Proof.
  intros HT Hr. pose proof (split_entry (t_list T) r0 (con_entries T HT) Hr) as HL.
  set (L := filter _ (t_list T)) in HL.
  assert (forall x, x ∈ L -> x ∈ t_list T) as Hsub by (intros x; rewrite HL; by right).
  assert (forall m, refs m (t_list T) = (if decide (l_md5 r0 = m) then 1 else 0) + refs m L)%nat as Er
    by (intros m; rewrite (refs_perm m _ _ HL); apply refs_cons).
  assert (forall u, owned u (t_list T) = (if decide (l_user r0 = u) then 1 else 0) + owned u L)%nat as Eo
    by (intros u; rewrite (owned_perm u _ _ HL); apply owned_cons).
  pose proof (Er (l_md5 r0)) as Er0. rewrite decide_True in Er0 by done.
  pose proof (Eo (l_user r0)) as Eo0. rewrite decide_True in Eo0 by done.
  pose proof (con_counted T HT r0 Hr) as Hc. apply list_elem_of_fmap in Hc as (c & Ec & Hc). symmetry in Ec.
  pose proof (con_reserved T HT r0 Hr) as Hres.
  pose proof (con_owned T HT c Hc ltac:(congruence)) as Ecc. rewrite Ec in Ecc.
  pose proof (con_counts T HT) as HnC.
  unfold drop_reference. fold (drop_content (l_md5 r0) (Z.of_nat (refs (l_md5 r0) (t_list T)) - 1) (t_file T)).
  fold L. constructor; cbn [t_user t_file t_list t_count t_share]; try apply (con_shares T HT).
  - apply NoDup_filter_keys, con_entries, HT.
  - apply drop_content_NoDup, con_files, HT.
  - by eapply unbump_NoDup.
  - intros f [[Hne Hf]|[Em Ek]]%elem_of_drop_content.
    + rewrite (con_refs T HT f Hf), Er, decide_False by done. lia.
    + rewrite Ek, Em, Er0. lia.
  - intros x Hx. apply drop_content_keys; [by apply con_stored, Hsub|].
    intros Em. pose proof (refs_pos (l_md5 r0) L x Hx Em). lia.
  - intros x Hx Hs. destruct (elem_of_unbump _ _ c _ HnC Hc Ec Hx) as [[Hne Hin]|[Eu Ek]].
    + rewrite (con_owned T HT x Hin Hs), Eo, decide_False by done. lia.
    + rewrite Ek, Ecc, Eu, Eo0. lia.
  - intros x Hx. eapply unbump_keys; [done..|by apply con_counted, Hsub|].
    intros Eu. pose proof (owned_pos (l_user r0) L x Hx Eu). rewrite Ecc, Eo0. lia.
  - intros x Hx. by apply (con_reserved T HT), Hsub.
  - intros x Hx Hs. destruct (elem_of_unbump _ _ c _ HnC Hc Ec Hx) as [[Hne Hin]|[Eu Ek]]; [|congruence].
    by apply (con_shared T HT).
  - intros Hs. eapply unbump_keys; [done..|by apply con_share_counted|]. congruence.
Qed.

(** ** Sharing *)

(** A file becomes public: its entry is marked, and the share is recorded and
    counted. *)
Definition add_share (user md5 filename time : string) (T : tables) : tables :=
  Tables (t_user T) (t_file T)
    (update (is_entry user md5 filename) (list_set_shared 1) (t_list T))
    (bump SHARE_COUNT (t_count T)) (t_share T ++ [ShareRow user md5 time filename 0]).

(** A share is withdrawn. *)
Definition drop_share (user md5 filename : string) (T : tables) : tables :=
  Tables (t_user T) (t_file T)
    (update (is_entry user md5 filename) (list_set_shared 0) (t_list T))
    (unbump SHARE_COUNT (t_count T)) (filter (fun r => ~ is_shared_by user md5 filename r) (t_share T)).

(** Marking entries changes neither what they are nor how many there are. *)
Lemma filter_update {A} (P Q : A -> Prop) `{forall x, Decision (P x)} `{forall x, Decision (Q x)} (f : A -> A) l :
  (forall x, Q (f x) <-> Q x) -> length (filter Q (update P f l)) = length (filter Q l).
Proof.
  intros Hf. induction l as [|x l IH]; [done|].
  change (update P f (x :: l)) with ((if decide (P x) then f x else x) :: update P f l). rewrite !filter_cons.
  destruct (decide (P x)); [|by destruct (decide (Q x)); cbn; rewrite IH].
  destruct (decide (Q (f x))) as [H1|H1], (decide (Q x)) as [H2|H2]; cbn; rewrite ?IH; try done.
  - by destruct H2; apply Hf.
  - by destruct H1; apply Hf.
Qed.
Lemma refs_mark P `{forall x, Decision (P x)} v m l : refs m (update P (list_set_shared v) l) = refs m l.
Proof. by apply filter_update. Qed.
Lemma owned_mark P `{forall x, Decision (P x)} v u l : owned u (update P (list_set_shared v) l) = owned u l.
Proof. by apply filter_update. Qed.

(** The parts of consistency that marking entries and the number of shares do
    not touch. *)
Lemma consistent_mark T user md5 filename v (C : list count_row) (S : list share_row) : consistent T ->
  NoDup (c_user <$> C) -> NoDup (share_key <$> S) ->
  (forall c, c_user c <> SHARE_COUNT -> c ∈ C <-> c ∈ t_count T) ->
  (forall c, c ∈ C -> c_user c = SHARE_COUNT -> c_count c = Z.of_nat (length S)) ->
  (S <> [] -> SHARE_COUNT ∈ c_user <$> C) ->
  consistent (Tables (t_user T) (t_file T)
    (update (is_entry user md5 filename) (list_set_shared v) (t_list T)) C S).
Proof.
  intros HT HnC HnS HC Hcnt Hne.
  assert (forall r, r ∈ update (is_entry user md5 filename) (list_set_shared v) (t_list T) ->
    exists x, x ∈ t_list T /\ l_md5 r = l_md5 x /\ l_user r = l_user x) as Hrow.
  { intros r (x & Hx & ->)%elem_of_update. exists x. by destruct (decide _). }
  constructor; cbn [t_user t_file t_list t_count t_share]; auto.
  - rewrite update_keys by done. by apply con_entries.
  - by apply con_files.
  - intros f Hf. rewrite refs_mark. by apply (con_refs T).
  - intros r (x & Hx & -> & _)%Hrow. by apply con_stored.
  - intros c Hc Hs. rewrite owned_mark. apply (con_owned T); [done| |done]. by apply HC.
  - intros r (x & Hx & _ & Eu)%Hrow. rewrite Eu. pose proof (con_counted T HT x Hx) as Hk.
    apply list_elem_of_fmap in Hk as (c & Ec & Hc). rewrite Ec. apply list_elem_of_fmap_2, HC; [|done].
    rewrite <- Ec. by apply (con_reserved T).
  - intros r (x & Hx & _ & ->)%Hrow. by apply (con_reserved T).
Qed.

Lemma elem_of_bump_other u C c : NoDup (c_user <$> C) -> c_user c <> u -> c ∈ bump u C <-> c ∈ C.
Proof.
  intros Hn Hc. destruct (bump_cases u C Hn) as [[_ ->]|(c0 & _ & _ & _ & ->)].
  - rewrite elem_of_app, list_elem_of_singleton. split; [|by left]. intros [?| ->]; done.
  - rewrite elem_of_update. split.
    + intros (x & Hx & ->). destruct (decide (c_user x = u)) as [E|E]; [by destruct Hc|done].
    + intros Hin. exists c. by rewrite decide_False.
Qed.
Lemma elem_of_unbump_other u C c0 c : NoDup (c_user <$> C) -> c0 ∈ C -> c_user c0 = u -> c_user c <> u ->
  c ∈ unbump u C <-> c ∈ C.
Proof.
  intros Hn H0 E0 Hc. destruct (unbump_cases u C c0 Hn H0 E0) as [[_ ->]|[_ ->]].
  - rewrite list_elem_of_filter. tauto.
  - rewrite elem_of_update. split.
    + intros (x & Hx & ->). destruct (decide (c_user x = u)) as [E|E]; [by destruct Hc|done].
    + intros Hin. exists c. by rewrite decide_False.
Qed.

Lemma consistent_add_share T user md5 filename time : consistent T ->
  (md5, filename) ∉ share_key <$> t_share T -> consistent (add_share user md5 filename time T).
Proof.
  intros HT Hn. pose proof (con_counts T HT) as HnC. apply consistent_mark; [done|by apply bump_NoDup|..].
  - apply NoDup_snoc_keys; [by apply con_shares | done].
  - intros c Hc. by apply elem_of_bump_other.
  - intros c Hc Hs. rewrite length_app. cbn.
    destruct (elem_of_bump _ _ _ HnC Hc) as [[? _]|[(_ & E & Hu)|(_ & c0 & H0 & E0 & E)]]; [done|..].
    + destruct (decide (t_share T = [])) as [->|Hne]; [done|]. by destruct Hu; apply con_share_counted.
    + rewrite E, (con_shared T HT c0 H0 E0). lia.
  - intros _. apply bump_keys; [done|by left].
Qed.

(** The share of one file. *)
Lemma split_share S r0 : NoDup (share_key <$> S) -> r0 ∈ S ->
  S ≡ₚ r0 :: filter (fun r => ~ is_shared_by (s_user r0) (s_md5 r0) (s_name r0) r) S.
Proof.
  intros Hn Hr. rewrite (split_key share_key S r0 Hn Hr) at 1. f_equiv.
  assert (filter (fun y => share_key y <> share_key r0) S =
    filter (fun r => ~ is_shared_by (s_user r0) (s_md5 r0) (s_name r0) r) S) as ->; [|done].
  apply filter_ext_in. intros r Hin. unfold is_shared_by, share_key. split.
  - intros Hne (_ & E1 & E2). apply Hne. by rewrite E1, E2.
  - intros Hne [= E1 E2]. apply Hne. rewrite (key_unique share_key S r r0 Hn Hin Hr); [done|].
    unfold share_key. congruence.
Qed.

Lemma consistent_drop_share T r0 : consistent T -> r0 ∈ t_share T ->
  consistent (drop_share (s_user r0) (s_md5 r0) (s_name r0) T).
Proof.
  intros HT Hr. pose proof (con_counts T HT) as HnC. pose proof (con_shares T HT) as HnS.
  pose proof (split_share _ r0 HnS Hr) as HL. apply Permutation_length in HL. cbn in HL.
  assert (SHARE_COUNT ∈ c_user <$> t_count T) as Hk.
  { apply con_share_counted; [done|]. intros E. rewrite E in Hr. by apply not_elem_of_nil in Hr. }
  apply list_elem_of_fmap in Hk as (c0 & E0 & H0). symmetry in E0.
  pose proof (con_shared T HT c0 H0 E0) as Ec0.
  apply consistent_mark; [done|by eapply unbump_NoDup|by apply NoDup_filter_keys|..].
  - intros c Hc. by eapply elem_of_unbump_other.
  - intros c Hc Hs. destruct (elem_of_unbump _ _ c0 c HnC H0 E0 Hc) as [[? _]|[_ ->]]; [done|]. lia.
  - intros Hne. eapply unbump_keys; [done..|by rewrite <- E0; apply list_elem_of_fmap_2|]. intros _ E1.
    apply Hne. apply nil_length_inv. lia.
Qed.

(** Withdrawing a share undoes it. *)
Lemma update_back {A} (P : A -> Prop) `{forall x, Decision (P x)} (f g : A -> A) l :
  (forall x, x ∈ l -> P x -> P (f x) /\ g (f x) = x) -> update P g (update P f l) = l.
Proof.
  intros Hl. unfold update. rewrite <- list_fmap_compose. rewrite <- (list_fmap_id l) at 2.
  apply list_fmap_ext. intros i x Hx. cbn. destruct (decide (P x)) as [Hp|Hp].
  - destruct (Hl x (list_elem_of_lookup_2 _ _ _ Hx) Hp) as [Hq ->]. by rewrite decide_True.
  - by rewrite decide_False.
Qed.

Lemma unbump_bump u C : NoDup (c_user <$> C) ->
  (forall c, c ∈ C -> c_user c = u -> c_count c <> 0) -> unbump u (bump u C) = C.
Proof.
  intros Hn H0. pose proof (bump_NoDup u C Hn) as Hn'.
  destruct (bump_cases u C Hn) as [[Hu E]|(c & Hc & Eu & _ & E)].
  - destruct (unbump_cases u (bump u C) (CountRow u 1) Hn') as [[_ ->]|[? _]]; try done.
    { rewrite E. apply elem_of_app. right. by left. }
    rewrite E, filter_app, filter_cons_False by auto. rewrite filter_nil, app_nil_r.
    apply filter_all. intros x Hx <-. by apply Hu, list_elem_of_fmap_2.
  - set (c' := count_set (c_count c + 1) c).
    assert (c' ∈ bump u C) as Hc'. { rewrite E. apply elem_of_update. exists c. by rewrite decide_True. }
    destruct (unbump_cases u (bump u C) c' Hn' Hc' Eu) as [[E1 _]|[_ ->]].
    + destruct (H0 c Hc Eu). cbn in E1. lia.
    + rewrite E. apply update_back. intros x Hx Ex. split; [done|].
      rewrite (key_unique c_user C x c Hn Hx Hc) by congruence. destruct c. unfold count_set. cbn. f_equal. lia.
Qed.

Lemma drop_add_share T user md5 filename time : consistent T ->
  (md5, filename) ∉ share_key <$> t_share T ->
  (forall r, r ∈ t_list T -> is_entry user md5 filename r -> l_shared r = 0) ->
  (t_share T = [] -> SHARE_COUNT ∉ c_user <$> t_count T) ->
  drop_share user md5 filename (add_share user md5 filename time T) = T.
Proof.
  intros HT Hn H0 Hz. unfold drop_share, add_share. cbn [t_user t_file t_list t_count t_share].
  rewrite update_back, unbump_bump, filter_app, filter_cons_False, filter_nil, app_nil_r, filter_all.
  - by destruct T.
  - intros r Hr (_ & E1 & E2). apply Hn. rewrite <- E1, <- E2. by apply (list_elem_of_fmap_2 share_key).
  - by intros [].
  - by apply con_counts.
  - intros c Hc Eu. rewrite (con_shared T HT c Hc Eu). intros E. destruct (t_share T); [|done].
    apply Hz; [done|]. rewrite <- Eu. by apply list_elem_of_fmap_2.
  - intros r Hr He. split; [done|]. specialize (H0 r Hr He). destruct r. cbn in *. by subst.
Qed.

(** ** The counter step of the programs *)

Section CountStep.
Context {SV : Services} {SQ : SqlServer} {RD : RedisServer}.
Variable t : bool.

Lemma is_int_count (l : list list_row) k : Z.of_nat (length l) < INT_MAX -> (k <= length l)%nat ->
  is_int (Z.of_nat k) /\ is_int (Z.of_nat k + 1) /\ is_int (Z.of_nat k - 1).
Proof. unfold is_int, INT_MAX. lia. Qed.

(** The counter step, on tables whose counter of [user] is right. *)
Lemma bump_user_count_spec ins user tmp w :
  stmt_safe ins = true -> fits SQL_MAX_LEN (render ins) = true ->
  (forall T, stmt_effect ins T = set_count (t_count T ++ [CountRow user 1]) T) ->
  quote_free user = true -> (String.length user <= 300)%nat -> db_up t w ->
  NoDup (c_user <$> t_count (tabs w)) ->
  (forall c, c ∈ t_count (tabs w) -> c_user c = user -> is_int (c_count c) /\ is_int (c_count c + 1)) ->
  run t (bump_user_count ins user tmp) (fun ret w' =>
    w' = set_db (w_db w') w /\ db_up t w' /\
    ((ret = 0 /\ tabs w' = set_count (bump user (t_count (tabs w))) (tabs w)) \/ t = false)) w.
Proof.
  intros Hsi Hfi Hei Hq Hl Hu HnC Hint. unfold bump_user_count. apply run_bind.
  assert (stmt_safe (SelCount user) = true) as Hs1 by (cbn; by rewrite Hq).
  eapply run_sql_one; [done|fits_stmt|done|done|done|..].
  - intros _. apply Forall_fmap, Forall_true. intros r. eexists _, _. split; [done|]. apply fits_dec; lia.
  - intros db Ht Hd. apply run_bind. cbn [Z.eqb].
    eapply run_sql_do; [done|fits_stmt|by apply db_up_false|..]; intros; apply run_ret;
      auto using db_up_false.
  - intros db Hu' Hd Hnil. apply run_bind. cbn [Z.eqb Pos.eqb].
    eapply run_sql_do; [done|done|done|..]; intros db' ? Hd'; apply run_ret; cbn.
    + auto using db_up_false.
    + split; [done|]. split; [done|]. left. split; [done|]. rewrite Hei in Hd'.
      unfold tabs in *. cbn in *. rewrite Hd', Hd. f_equal. unfold bump.
      apply fmap_nil_inv in Hnil. by rewrite Hnil.
  - intros db f rest Hu' Hd Hin. apply list_elem_of_fmap in Hin as (c & [= -> ->] & Hc).
    apply list_elem_of_filter in Hc as [Ec Hc]. destruct (Hint c Hc Ec) as [Hi Hi'].
    apply run_bind. cbn [Z.eqb]. rewrite atoi_dec by done.
    apply run_bind, run_to_int; [done|]. intros _.
    eapply run_sql_do; [safe_stmt|fits_stmt|done|..]; intros db' ? Hd'; apply run_ret; cbn.
    + auto using db_up_false.
    + split; [done|]. split; [done|]. left. split; [done|]. unfold tabs in *. cbn in *.
      rewrite Hd', Hd. f_equal. subst user.
      unfold bump. by rewrite filter_unique.
  - intros db rest Ht Hd Hin. apply list_elem_of_fmap in Hin as (c & [=] & Hc).
Qed.

(** The counter is lowered, or removed when it was 1. *)
Lemma lower_count_spec user c w :
  quote_free user = true -> (String.length user <= 300)%nat -> db_up t w ->
  NoDup (c_user <$> t_count (tabs w)) -> c ∈ t_count (tabs w) -> c_user c = user ->
  is_int (c_count c - 1) ->
  run t (if c_count c =? 1 then sql_do (DelCount user)
         else count ← to_int (c_count c - 1); sql_do (UpdCount count user)) (fun failed w' =>
    w' = set_db (w_db w') w /\ db_up t w' /\
    (t = false \/ (failed = false /\ tabs w' = set_count (unbump user (t_count (tabs w))) (tabs w)))) w.
Proof.
  intros Hq Hl Hu Hn Hc Ec Hi. destruct (unbump_cases user _ c Hn Hc Ec) as [[E1 Eb]|[E1 Eb]];
    [rewrite E1; cbn [Z.eqb Pos.eqb] | rewrite (proj2 (Z.eqb_neq _ _) E1); apply run_bind, run_to_int; [done|]; intros _];
    (eapply run_sql_do; [safe_stmt|fits_stmt|done|..]; intros db Hu' Hd;
      [split; [done|]; split; [by apply db_up_false|by left]|]; split; [done|]; split; [done|]; right; split; [done|]).
  all: change (tabs (set_db db w)) with (db_tables db); by rewrite Hd, Eb.
Qed.

(** The row [deal_md5] and [save_file] add. *)
Definition new_entry (user md5 filename time : string) : list_row := ListRow user md5 time filename 0 0.

Lemma entry_rows user md5 filename L :
  list_fields <$> filter (is_entry user md5 filename) L = [] <-> (user, md5, filename) ∉ entry <$> L.
Proof.
  split.
  - intros E%fmap_nil_inv Hin. apply list_elem_of_fmap in Hin as (r & [= -> -> ->] & Hr).
    exact (filter_nil_not_elem_of _ L r E (conj eq_refl (conj eq_refl eq_refl)) Hr).
  - intros Hn. rewrite filter_empty; [done|]. intros r Hr (<- & <- & <-). apply Hn.
    by apply (list_elem_of_fmap_2 entry).
Qed.

(** The entry and the user's counter. *)
Lemma insert_entry_spec user md5 filename tmp w :
  args_ok user md5 filename (w_now w) -> db_up t w -> NoDup (c_user <$> t_count (tabs w)) ->
  (forall c, c ∈ t_count (tabs w) -> c_user c = user -> is_int (c_count c) /\ is_int (c_count c + 1)) ->
  run t (time_str ← now;
         failed ← sql_do (InsList (ListRow user md5 time_str filename 0 0));
         if failed : bool then mret (-1) else bump_user_count (InsCount user 1) user tmp) (fun ret w' =>
    w' = set_db (w_db w') w /\ db_up t w' /\
    ((ret = 0 /\ tabs w' = set_count (bump user (t_count (tabs w)))
        (set_list (t_list (tabs w) ++ [new_entry user md5 filename (w_now w)]) (tabs w))) \/ t = false)) w.
Proof.
  intros Ha Hu Hn Hint. apply run_bind, run_now. apply run_bind.
  eapply run_sql_do; [safe_stmt|fits_stmt|done|..]; intros db2 Hu2 Hd2;
    [apply run_ret; auto using db_up_false|].
  assert (t_count (tabs (set_db db2 w)) = t_count (tabs w)) as Ec by (unfold tabs at 1; cbn; by rewrite Hd2).
  eapply run_mono; [eapply bump_user_count_spec|]; rewrite ?Ec; try done.
  - safe_stmt.
  - fits_stmt.
  - apply Ha.
  - destruct Ha. lia.
  - intros ret w' (Ew & Hu' & Hc). split; [by rewrite Ew|]. split; [done|].
    destruct Hc as [[-> E]|?]; [|by right]. left. split; [done|].
    rewrite E. change (tabs (set_db db2 w)) with (db_tables db2). by rewrite Hd2.
Qed.

(** The counters of users in consistent tables are in range. *)
Lemma user_count_int T user c : consistent T -> Z.of_nat (length (t_list T)) < INT_MAX ->
  user <> SHARE_COUNT -> c ∈ t_count T -> c_user c = user ->
  is_int (c_count c) /\ is_int (c_count c + 1).
Proof.
  intros HT Hlen Hres Hc Eu. rewrite (con_owned _ HT c Hc) by congruence.
  destruct (is_int_count (t_list T) (owned (c_user c) (t_list T)) Hlen (owned_le _ _)). tauto.
Qed.

(** The three additions behind a successful check: reference count, entry,
    user's counter; [count] is what the check read. *)
Lemma add_entry_effect user md5 filename count tmp w :
  args_ok user md5 filename (w_now w) -> db_up t w -> NoDup (c_user <$> t_count (tabs w)) ->
  (forall c, c ∈ t_count (tabs w) -> c_user c = user -> is_int (c_count c) /\ is_int (c_count c + 1)) ->
  is_int (count + 1) ->
  run t (add_entry count user md5 filename tmp) (fun ret w' =>
    w' = set_db (w_db w') w /\ db_up t w' /\
    ((ret = 0 /\ tabs w' = Tables (t_user (tabs w))
        (update (fun f => f_md5 f = md5) (file_set_count (count + 1)) (t_file (tabs w)))
        (t_list (tabs w) ++ [new_entry user md5 filename (w_now w)])
        (bump user (t_count (tabs w))) (t_share (tabs w))) \/ t = false)) w.
Proof.
  intros Ha Hu Hn Hint Hi. unfold add_entry. apply run_bind, run_to_int; [done|]. intros _. apply run_bind.
  eapply run_sql_do; [safe_stmt|fits_stmt|done|..]; intros db1 Hu1 Hd1;
    [apply run_ret; auto using db_up_false|].
  assert (tabs (set_db db1 w) = stmt_effect (UpdFileCount (count + 1) md5) (tabs w)) as E1 by done.
  eapply run_mono; [apply insert_entry_spec; rewrite ?E1; done|].
  intros ret w' (Ew & Hu' & Hc). split; [by rewrite Ew|]. split; [done|]. by rewrite ?E1 in Hc.
Qed.

(** The same on consistent tables, with the right count. *)
Lemma add_entry_spec user md5 filename count tmp w :
  args_ok user md5 filename (w_now w) -> db_up t w -> consistent (tabs w) ->
  Z.of_nat (length (t_list (tabs w))) < INT_MAX -> user <> SHARE_COUNT ->
  count = Z.of_nat (refs md5 (t_list (tabs w))) ->
  run t (add_entry count user md5 filename tmp) (fun ret w' =>
    w' = set_db (w_db w') w /\ db_up t w' /\
    ((ret = 0 /\ tabs w' = add_reference (new_entry user md5 filename (w_now w)) (tabs w)) \/ t = false)) w.
Proof.
  intros Ha Hu HT Hlen Hres ->. apply add_entry_effect; [done|done|by apply con_counts|..].
  - intros c. exact (user_count_int (tabs w) user c HT Hlen Hres).
  - by apply (is_int_count (t_list (tabs w))), refs_le.
Qed.

End CountStep.
