(* ===== verification/Login.v ===== *)
(** Login (src/src/cgi/cgi_login.c): credentials, the token and its storage. *)

From Stdlib Require Import ZArith Lia Bool Ascii String.
From stdpp Require Import base tactics numbers list strings gmap.
From S2P Require Import Prelude Base64 Md5 Des CString Text Double CJson CJsonParse CJsonPrint.
From S2P Require Import World MysqlOp RedisOp Sql Kv CgiCommon Logic Catalogue.

(** Two lower-case hexadecimal digits, as [%02x] prints a byte. *)
Definition hex_digit (d : Z) : ascii :=
  if d <? 10 then ascii_of_N (Z.to_N (48 + d)) else ascii_of_N (Z.to_N (87 + d)).
Definition hex_byte (b : Z) : string :=
  String (hex_digit (b / 16)) (String (hex_digit (b mod 16)) EmptyString).

(** What [set_token] finds in its environment: the four values of [rand()],
    the uninitialised stack of the DES and MD5 code, and whether [malloc]
    succeeds. *)
Record token_env := TokenEnv {
  rands : Z * Z * Z * Z;
  des_junk : des_stack;
  md5_junk : list Z;
  malloc_ok : bool }.

Section Login.
Context `{Services} {dm : DataModel}.

Definition get_login_info (login_buf user pwd : string) : M (Z * string * string) :=
  match cJSON_Parse login_buf with
  | None => mret (-1, user, pwd)
  | Some root =>
      u ← copy_item root "user" 512;
      match u with
      | None => mret (-1, user, pwd)
      | Some user =>
          p ← copy_item root "pwd" 512;
          match p with
          | None => mret (-1, user, pwd)
          | Some pwd => mret (0, user, pwd)
          end
      end
  end.

Definition check_user_pwd (user pwd : string) : M Z :=
  '(_, (mysql_user, mysql_pwd, mysql_db)) ← get_mysql_info;
  conn ← msql_conn mysql_user mysql_pwd mysql_db;
  if negb conn then mret (-1) else
  set_names;;
  '(_, tmp) ← sql_one (SelPassword user) (Some (PWD_LEN, ""));
  let ret := if String.eqb tmp pwd && negb (String.eqb pwd "") then 0 else -1 in
  mysql_close;;
  mret ret.

(** The token of a text: DES, base64 and MD5, printed in hexadecimal; [None]
    when [DesEnc] returns an error code. *)
Definition make_token (env : token_env) (tmp : string) : outcome (option string) :=
  match DesEnc (malloc_ok env) (des_junk env) (bytes_of tmp) with
  | inl _ => Ok None
  | inr enc =>
      let* enc_tmp := memcpy (replicate (1024 * 2) 0) 0 enc in
      let* base64 := memcpy (replicate (1024 * 3) 0) 0
                            (base64_encode (take (length enc) enc_tmp)) in
      let* txt := text base64 in
      let* ctx := MD5Update (MD5Init (md5_junk env)) txt in
      let* decrypt := MD5Final ctx in
      Ok (Some (String.concat "" (hex_byte <$> decrypt)))
  end.

(** [set_token] with [token] an array of 128 zeroed bytes: return value and
    token. *)
Definition set_token (env : token_env) (user : string) : M (Z * string) :=
  '(_, redis_ip) ← cfg_value 30 "redis" "ip";
  '(_, redis_port) ← cfg_value 10 "redis" "port";
  redis_conn ← rop_connectdb_nopwd redis_ip redis_port;
  if negb redis_conn then mret (-1, "") else
  let '(a, b, c, d) := rands env in
  tmp ← sprintf 1024 (cformat "%s%d%d%d%d"
          [RS user; RI (a mod 1000); RI (b mod 1000); RI (c mod 1000); RI (d mod 1000)]);
  tok ← lift (make_token env tmp);
  match tok with
  | None => rop_disconnect;; mret (-1, "")
  | Some tok =>
      token ← sprintf 128 tok;
      ret ← rop_setex_string user 86400 token;
      rop_disconnect;;
      mret (ret, token)
  end.

Definition login_status (status_num token : string) : cJSON :=
  cJSON_AddStringToObject (cJSON_AddStringToObject cJSON_CreateObject "code" status_num) "token" token.
Definition return_login_status (status_num token : string) : M unit :=
  printf (cJSON_Print (login_status status_num token)).

(** One turn of the loop of [main]. *)
Definition login_main (env : token_env) (rq : request) : M unit :=
  b ← read_request rq;
  match b with
  | NoData | ReadError => mret tt
  | Body buf =>
      '(_, user, pwd) ← get_login_info buf "" "";
      ret ← check_user_pwd user pwd;
      '(ret, token) ← (if ret =? 0 then set_token env user else mret (ret, ""));
      if ret =? 0 then return_login_status "000" token else return_login_status "001" "fail"
  end.

End Login.

(** ** The token *)

Lemma length_hex_byte b : String.length (hex_byte b) = 2%nat.
Proof. done. Qed.

Lemma length_hex_concat l : String.length (String.concat "" (hex_byte <$> l)) = (2 * length l)%nat.
Proof.
  induction l as [|b l IH]; [done|]. destruct l as [|b' l]; [done|].
  change (String.concat "" (hex_byte <$> b :: b' :: l))
    with (hex_byte b +:+ "" +:+ String.concat "" (hex_byte <$> b' :: l)).
  rewrite !length_append, IH. change (String.length (hex_byte b)) with 2%nat. cbn [String.length length]. lia.
Qed.

Lemma base64_text_nonul bs : nonul (base64_loop bs).
Proof. eapply Forall_impl; [apply base64_loop_chars|]. intros c [? _]. lia. Qed.

Lemma length_bytes_of s : length (bytes_of s) = String.length s.
Proof. unfold bytes_of. rewrite length_fmap. induction s; cbn; congruence. Qed.

(** Hexadecimal digits are not NUL. *)
Lemma hex_digit_nonul d : 0 <= d < 16 -> Z.of_N (N_of_ascii (hex_digit d)) <> 0.
Proof.
  intros Hd. assert ((Z.of_N (N_of_ascii (hex_digit d)) =? 0) = false) as E; [|by apply Z.eqb_neq].
  apply negb_true_iff. apply (seqZ_forallb (fun d => negb (Z.of_N (N_of_ascii (hex_digit d)) =? 0)) 0 16); [by vm_compute|done].
Qed.

Lemma hex_concat_nonul l : Forall is_byte l -> nonul (bytes_of (String.concat "" (hex_byte <$> l))).
Proof.
  assert (forall b s, is_byte b -> nonul (bytes_of s) -> nonul (bytes_of (hex_byte b +:+ s))) as Hcons.
  { intros b s Hb Hs. repeat constructor; [apply hex_digit_nonul..|done].
    - unfold is_byte in Hb. split; [apply Z.div_pos; lia|apply Z.div_lt_upper_bound; lia].
    - apply Z.mod_pos_bound. lia. }
  induction 1 as [|b l Hb Hl IH]; [constructor|]. destruct l as [|b' l]; [by apply (Hcons b ""); [|constructor]|].
  change (String.concat "" (hex_byte <$> b :: b' :: l))
    with (hex_byte b +:+ String.concat "" (hex_byte <$> b' :: l)). by apply Hcons.
Qed.

(** The token of a text that fits its buffer: MD5 of the base64 text of the
    ciphertext, as 32 hexadecimal digits. *)
Lemma make_token_total {dm : DataModel} env tmp :
  length (md5_junk env) = 64%nat -> (String.length tmp < 1024)%nat ->
  exists enc tok, DesEnc (malloc_ok env) (des_junk env) (bytes_of tmp) = inr enc
    /\ tok = String.concat "" (hex_byte <$> md5_spec (base64_loop enc))
    /\ make_token env tmp = Ok (Some tok) /\ String.length tok = 32%nat /\ nonul (bytes_of tok).
Proof.
  intros Hj Hl. unfold make_token.
  destruct (DesEnc_total (malloc_ok env) (des_junk env) (bytes_of tmp)) as (c & -> & Lc).
  rewrite length_bytes_of in Lc. exists c, (String.concat "" (hex_byte <$> md5_spec (base64_loop c))).
  split; [done|]. split; [done|].
  rewrite memcpy_0 by (rewrite length_replicate; lia). cbn [obind]. rewrite take_app_length.
  pose proof (base64_loop_length c) as Lb.
  assert ((Z.of_nat (length c) + 2) / 3 <= 400) by (apply Z.div_le_upper_bound; lia).
  unfold base64_encode. rewrite memcpy_0 by (rewrite length_app, length_replicate; cbn [length]; lia).
  cbn [obind]. rewrite <- app_assoc. cbn [app]. rewrite text_app by apply base64_text_nonul. cbn [obind].
  destruct (MD5Update_repr (MD5Init (md5_junk env)) [] (base64_loop c)) as (ctx & -> & Hr);
    [by apply MD5Init_repr | lia |]. cbn [obind].
  rewrite (MD5Final_spec ctx _ Hr). cbn [obind app]. split; [done|].
  destruct (md5_spec_wf (base64_loop c)) as [Hn Hb]. split; [by rewrite length_hex_concat, Hn|by apply hex_concat_nonul].
Qed.

(** ** Specification *)

Section Spec.
Context {SV : Services} {SQ : SqlServer} {RD : RedisServer} {dm : DataModel}.
Variable t : bool.

(** The configuration of a server can be read. *)
Definition cfg_ready (w : world) (cap : nat) (title key : string) : Prop :=
  t = true -> exists x, cfg_value cap title key w = Ok (x, w).

(** [rop_setex_string] on a Redis that answers. *)
Lemma run_setex key seconds value (Q : Z -> world -> Prop) w :
  0 < seconds -> redis_up t w ->
  (forall r, redis_up t (set_redis r w) -> keys r = <[key := VStr value]> (kv w) -> Q 0 (set_redis r w)) ->
  run t (rop_setex_string key seconds value) Q w.
Proof.
  intros Hs Hu HQ. unfold rop_setex_string.
  apply (run_redis_reply t (CSetex key seconds value) check_ok); [by apply Z.ltb_lt | done|].
  intros r Hr Ek. by apply HQ.
Qed.

(** [rop_get_string] on a key that holds a text. *)
Lemma run_get_string cap key old v (Q : Z * string -> world -> Prop) w :
  kv w !! key = Some (VStr v) -> fits cap v = true -> redis_up t w ->
  (forall r, redis_up t (set_redis r w) -> keys r = kv w -> Q (0, v) (set_redis r w)) ->
  run t (rop_get_string cap key old) Q w.
Proof.
  intros Hk Hf Hu HQ. unfold rop_get_string.
  apply (run_redis_reply t (CGet key) (fun r => match r with
    | RString str => v ← sprintf cap str; mret (0, v) | _ => mret (-1, old) end)); [done..|].
  intros r Hr Ek. cbn. rewrite Hk. apply run_bind, run_sprintf; [done|]. intros _. by apply HQ.
Qed.

(** A Redis that answers accepts connections. *)
Definition reachable : Prop :=
  t = true -> forall r ip port, answering r -> redis_connect r ip port = LinkOk.

(** Storing a token: afterwards the user's key holds it. *)
Lemma set_token_spec env user w :
  length (md5_junk env) = 64%nat -> (String.length user <= 511)%nat ->
  cfg_ready w 30 "redis" "ip" -> cfg_ready w 10 "redis" "port" -> redis_up t w -> reachable ->
  run t (set_token env user) (fun '(ret, token) w' =>
    w_db w' = w_db w /\ frame w w' /\ redis_up t w' /\
    ((ret = 0 /\ String.length token = 32%nat /\ nonul (bytes_of token) /\ kv w' = <[user := VStr token]> (kv w)) \/
     (t = false /\ ret = -1))) w.
Proof.
  intros Hj Hl Hc1 Hc2 Hu Hlink. unfold set_token.
  apply run_bind, run_cfg_value; [lia|done|]. intros [r1 ip] _ _.
  apply run_bind, run_cfg_value; [lia|done|]. intros [r2 port] _ _.
  apply run_bind, run_connect.
  2:{ intros Hno. apply run_ret. split; [done|]. split; [done|]. split; [done|]. right. split; [|done].
      destruct (decide (t = true)) as [Ht|Ht]; [|by destruct t]. by destruct Hno; apply Hlink, Hu. }
  intros _. cbn [negb]. destruct (rands env) as [[[a b] c] d]. apply run_bind.
  set (txt := cformat _ _).
  assert (String.length txt < 1024)%nat as Ht.
  { pose proof (cformat_length "%s%d%d%d%d" [RS user; RI (a mod 1000); RI (b mod 1000);
      RI (c mod 1000); RI (d mod 1000)]) as Hx. cbn [String.length args_len foldr arg_len] in Hx.
    subst txt. lia. }
  apply run_sprintf; [intros _; by apply fits_lt|]. intros _. apply run_bind.
  destruct (make_token_total env txt Hj Ht) as (enc & tok & _ & _ & Etok & Ltok & Ntok).
  apply run_lift; [eauto|]. rewrite Etok. intros ? [= <-].
  apply run_bind, run_sprintf; [intros _; apply fits_lt; lia|]. intros _.
  apply run_bind, run_setex; [lia|done|]. intros r Hr Hk.
  apply run_bind, run_disconnect, run_ret. cbn. split; [done|]. split; [done|]. split; [done|]. by left.
Qed.

(** Checking a token: success means that the user's key holds it. *)
Lemma verify_token_spec user token w :
  cfg_ready w 30 "redis" "ip" -> cfg_ready w 10 "redis" "port" -> redis_up t w -> reachable ->
  (t = true -> forall s, kv w !! user = Some (VStr s) -> fits 128 s = true) ->
  run t (verify_token user token) (fun ret w' =>
    frame w w' /\ w_db w' = w_db w /\ w_sys w' = w_sys w /\ kv w' = kv w /\ redis_up t w' /\
    (ret = 0 -> kv w !! user = Some (VStr token)) /\
    (t = true -> kv w !! user = Some (VStr token) -> ret = 0) /\ (ret = 0 \/ ret = -1)) w.
Proof.
  intros Hc1 Hc2 Hu Hlink Hfit. unfold verify_token.
  apply run_bind, run_cfg_value; [lia|done|]. intros [r1 ip] _ _.
  apply run_bind, run_cfg_value; [lia|done|]. intros [r2 port] _ _.
  apply run_bind, run_connect.
  2:{ intros Hno. apply run_ret. repeat split; try done; [|by right].
      intros Ht. by destruct Hno; apply Hlink, Hu. }
  intros _. cbn [negb]. apply run_bind. unfold rop_get_string.
  apply (run_redis_reply t (CGet user) (fun r => match r with
    | RString str => v ← sprintf 128 str; mret (0, v) | _ => mret (-1, ""%string) end)); [done..|].
  intros r Hr Ek. cbn [run_command fst snd] in *.
  change (kv (set_open_redis (S (w_open_redis w)) w)) with (kv w) in *.
  assert (kv w !! user <> Some (VStr token) -> run t (rop_disconnect;; mret (-1)) (fun ret w' =>
    frame w w' /\ w_db w' = w_db w /\ w_sys w' = w_sys w /\ kv w' = kv w /\ redis_up t w' /\
    (ret = 0 -> kv w !! user = Some (VStr token)) /\
    (t = true -> kv w !! user = Some (VStr token) -> ret = 0) /\ (ret = 0 \/ ret = -1))
    (set_redis r (set_open_redis (S (w_open_redis w)) w))) as Hbad.
  { intros Hne. apply run_bind, run_disconnect, run_ret. repeat split; try done. by right. }
  destruct (kv w !! user) as [[s|z|h|l]|] eqn:Ev; cbn [wrong_type];
    try (apply run_ret; cbn [Z.eqb]; by apply Hbad).
  apply run_bind, run_sprintf; [by auto|]. intros _. apply run_ret. cbn [Z.eqb].
  destruct (String.eqb_spec token s) as [->|Hne]; [|apply Hbad; congruence].
  apply run_bind, run_disconnect, run_ret. repeat split; try done. by left.
Qed.

Lemma run_get_mysql_info (Q : Z * (string * string * string) -> world -> Prop) w :
  cfg_ready w 256 "mysql" "user" -> cfg_ready w 256 "mysql" "password" ->
  cfg_ready w 256 "mysql" "database" -> (forall x, Q x w) -> run t get_mysql_info Q w.
Proof.
  intros Hc1 Hc2 Hc3 HQ. unfold get_mysql_info.
  apply run_bind, run_cfg_value; [lia|done|]. intros [r1 u] _ _.
  destruct (r1 =? -1); [by apply run_ret|].
  apply run_bind, run_cfg_value; [lia|done|]. intros [r2 p] _ _.
  destruct (r2 =? -1); [by apply run_ret|].
  apply run_bind, run_cfg_value; [lia|done|]. intros [r3 d] _ _.
  destruct (r3 =? -1); by apply run_ret.
Qed.

(** A password that the check accepts. *)
Definition credentials (user pwd : string) (T : tables) : Prop :=
  pwd <> ""%string /\ exists r, r ∈ t_user T /\ u_name r = user /\ u_pwd r = pwd.

(** Success means a row with that name and that password. *)
Lemma check_user_pwd_spec user pwd w :
  quote_free user = true -> (String.length user <= 400)%nat ->
  cfg_ready w 256 "mysql" "user" -> cfg_ready w 256 "mysql" "password" ->
  cfg_ready w 256 "mysql" "database" -> db_up t w ->
  (t = true -> forall r, r ∈ t_user (tabs w) -> fits PWD_LEN (u_pwd r) = true) ->
  run t (check_user_pwd user pwd) (fun ret w' =>
    frame w w' /\ tabs w' = tabs w /\ w_redis w' = w_redis w /\ db_up t w' /\
    (ret = 0 \/ ret = -1) /\ (ret = 0 -> credentials user pwd (tabs w)) /\
    (t = true -> (forall u p d, mysql_accepts w u p d = true) ->
     NoDup (u_name <$> t_user (tabs w)) -> credentials user pwd (tabs w) -> ret = 0)) w.
Proof.
  intros Hq Hl Hc1 Hc2 Hc3 Hu Hfit. unfold check_user_pwd, credentials.
  apply run_bind, run_get_mysql_info; [done..|]. intros [r [[mu mp] md]].
  apply run_bind, run_msql_conn.
  2:{ intros Hno. apply run_ret. repeat split; try done; [by right|].
      intros _ Hacc. by rewrite Hacc in Hno. }
  intros _. cbn [negb]. apply run_bind, run_set_names; [done|]. intros db0 Hu0 Hd0.
  assert (forall db tmp, db_tables db = tabs w -> db_up t (set_db db w) ->
    (tmp = ""%string \/ exists r, r ∈ t_user (tabs w) /\ u_name r = user /\ u_pwd r = tmp) ->
    (t = true -> NoDup (u_name <$> t_user (tabs w)) ->
     forall r, r ∈ t_user (tabs w) -> u_name r = user -> tmp = u_pwd r) ->
    run t (mysql_close;; mret (if String.eqb tmp pwd && negb (String.eqb pwd "") then 0 else -1))
      (fun ret w' => frame w w' /\ tabs w' = tabs w /\ w_redis w' = w_redis w /\ db_up t w' /\
       (ret = 0 \/ ret = -1) /\ (ret = 0 -> credentials user pwd (tabs w)) /\
       (t = true -> (forall u p d, mysql_accepts w u p d = true) ->
        NoDup (u_name <$> t_user (tabs w)) -> credentials user pwd (tabs w) -> ret = 0))
      (set_db db (set_open_db (S (w_open_db w)) w))) as Hend.
  { intros db tmp Hd Hup Htmp Hun. apply run_bind, run_mysql_close, run_ret. split; [done|]. split; [done|].
    split; [done|]. split; [done|]. set (b := String.eqb tmp pwd && negb (String.eqb pwd "")).
    assert (b = true <-> tmp = pwd /\ pwd <> ""%string) as Hb.
    { subst b. by rewrite andb_true_iff, negb_true_iff, String.eqb_eq, String.eqb_neq. }
    destruct b; (split; [auto|]); (split; [|done || idtac]).
    - intros _. destruct (proj1 Hb eq_refl) as [<- Hp]. split; [done|]. by destruct Htmp.
    - done.
    - intros Ht _ Hnd [Hp (x & Hx & Ex & <-)]. discriminate (proj2 Hb (conj (Hun Ht Hnd x Hx Ex) Hp)). }
  apply run_bind. change (tabs (set_db db0 _)) with (db_tables db0) in *.
  eapply run_sql_one; [safe_stmt|fits_stmt|done|done|done|..];
    change (tabs (set_db db0 _)) with (db_tables db0); rewrite ?Hd0.
  - intros Ht. apply Forall_fmap, Forall_forall. intros x [_ Hx]%list_elem_of_filter.
    eexists _, _. split; [done|]. by apply Hfit.
  - intros db Ht Hd. apply Hend; [done|by apply db_up_false|by left|congruence].
  - intros db Hup Hd Hnil%fmap_nil_inv. apply Hend; [done|done|by left|].
    intros _ _ x Hx Ex. by destruct (filter_nil_not_elem_of _ _ x Hnil Ex).
  - intros db f rest Hup Hd Hin. apply list_elem_of_fmap in Hin as (x & [= -> ->] & Hx).
    apply list_elem_of_filter in Hx as [Ex Hx]. apply Hend; [done|done|right; eauto|].
    intros _ Hnd y Hy Ey. f_equal. apply (key_unique u_name (t_user (tabs w))); [done..|congruence].
  - intros db rest _ _ Hin. apply list_elem_of_fmap in Hin as (x & [=] & _).
Qed.

End Spec.

Section Theorems.
Context {SV : Services} {SQ : SqlServer} {RD : RedisServer} {dm : DataModel}.


(** no false accept: whatever the servers do, [verify_token] returns 0 only
    for the text that Redis holds under the user's name. *)
Theorem verify_token_sound (user token : string) (w w' : world)
    (E : verify_token user token w = Ok (0, w')) :
  kv w !! user = Some (VStr token) /\ kv w' = kv w /\ w_open_redis w' = w_open_redis w.
Proof.
  pose proof (verify_token_spec false user token w) as Hs.
  apply (run_partial _ _ _ _ _ (Hs ltac:(done) ltac:(done) ltac:(done) ltac:(done) ltac:(done))) in E.
  destruct E as (Hf & _ & _ & Hk & _ & Hok & _). split; [by apply Hok|]. split; [done|]. apply Hf.
Qed.


End Theorems.
