(* ===== verification/Register.v ===== *)
(** Registration (src/src/cgi/cgi_register.c). *)

From Stdlib Require Import ZArith Lia Bool Ascii String.
From stdpp Require Import base tactics numbers list strings gmap.
From S2P Require Import Prelude Text Double CJson CJsonParse CJsonPrint World MysqlOp RedisOp.
From S2P Require Import Sql Kv CgiCommon Logic Catalogue Login.

Section Register.
Context `{Services}.

(** The five fields, each copied into an array of 128 bytes; [None] stands for
    the return value -1. *)
Definition get_reg_info (reg_buf : string) : M (option (string * string * string * string * string)) :=
  match cJSON_Parse reg_buf with
  | None => mret None
  | Some root =>
      o ← copy_item root "userName" 128;
      match o with None => mret None | Some user =>
      o ← copy_item root "nickName" 128;
      match o with None => mret None | Some nick_name =>
      o ← copy_item root "firstPwd" 128;
      match o with None => mret None | Some pwd =>
      o ← copy_item root "phone" 128;
      match o with None => mret None | Some tel =>
      o ← copy_item root "email" 128;
      match o with None => mret None | Some email =>
      mret (Some (user, nick_name, pwd, tel, email))
      end end end end end
  end.

(** The part of [user_register] that has a connection. *)
Definition register_user (user nick_name pwd tel email : string) : M Z :=
  set_names;;
  '(ret2, _) ← sql_one (SelUser user) None;
  if ret2 =? 2 then mret (-2) else
  time_str ← now;
  failed ← sql_do (InsUser (UserRow user nick_name pwd tel time_str email));
  mret (if failed : bool then -1 else 0).

Definition user_register (reg_buf : string) : M Z :=
  '(ret, (mysql_user, mysql_pwd, mysql_db)) ← get_mysql_info;
  if negb (ret =? 0) then mret ret else
  info ← get_reg_info reg_buf;
  match info with
  | None => mret (-1)
  | Some (user, nick_name, pwd, tel, email) =>
      conn ← msql_conn mysql_user mysql_pwd mysql_db;
      if negb conn then mret (-1) else
      ret ← register_user user nick_name pwd tel email;
      mysql_close;;
      mret ret
  end.

(** One turn of the loop of [main]. *)
Definition register_main (rq : request) : M unit :=
  b ← read_request rq;
  match b with
  | NoData | ReadError => mret tt
  | Body buf =>
      ret ← user_register buf;
      if ret =? 0 then printf (return_status "002") else
      if ret =? -1 then printf (return_status "004") else
      if ret =? -2 then printf (return_status "003") else mret tt
  end.

End Register.

(** ** Specification *)

Section Spec.
Context {SV : Services} {SQ : SqlServer} {RD : RedisServer}.

(** The fields of a registration: texts without quotes that fit the insertion. *)
Record reg_ok (user nick pwd tel email time : string) : Prop := {
  rg_user : quote_free user = true; rg_nick : quote_free nick = true;
  rg_pwd : quote_free pwd = true; rg_tel : quote_free tel = true;
  rg_email : quote_free email = true; rg_time : quote_free time = true;
  rg_len : (String.length user + String.length nick + String.length pwd + String.length tel
            + String.length email + String.length time <= 390)%nat
}.

Lemma register_user_spec t user nick pwd tel email w :
  reg_ok user nick pwd tel email (w_now w) -> db_up t w ->
  run t (register_user user nick pwd tel email) (fun ret w' =>
    w' = set_db (w_db w') w /\ db_up t w' /\
    (t = false \/
     (ret = -2 /\ tabs w' = tabs w /\ user ∈ u_name <$> t_user (tabs w)) \/
     (ret = 0 /\ user ∉ u_name <$> t_user (tabs w) /\
      tabs w' = set_user (t_user (tabs w) ++ [UserRow user nick pwd tel (w_now w) email]) (tabs w)))) w.
Proof.
  intros [Q1 Q2 Q3 Q4 Q5 Q6 Hl] Hu. unfold register_user.
  apply run_bind, run_set_names; [done|]. intros db0 Hu0 Hd0.
  assert (forall db1, db_up t (set_db db1 w) -> db_tables db1 = tabs w ->
    (t = false \/ user ∉ u_name <$> t_user (tabs w)) ->
    run t (time_str ← now; failed ← sql_do (InsUser (UserRow user nick pwd tel time_str email));
           mret (if failed : bool then -1 else 0)) (fun ret w' => w' = set_db (w_db w') w /\ db_up t w' /\
      (t = false \/
       (ret = -2 /\ tabs w' = tabs w /\ user ∈ u_name <$> t_user (tabs w)) \/
       (ret = 0 /\ user ∉ u_name <$> t_user (tabs w) /\
        tabs w' = set_user (t_user (tabs w) ++ [UserRow user nick pwd tel (w_now w) email]) (tabs w))))
      (set_db db1 w)) as Hins.
  { intros db1 Hu1 Hd1 Hno. apply run_bind, run_now, run_bind. cbn [w_now set_db].
    eapply run_sql_do; [safe_stmt|fits_stmt|done|..]; intros db2 Hu2 Hd2; apply run_ret; (split; [done|]).
    { split; [by apply db_up_false|by left]. }
    split; [done|]. destruct Hno as [?|Hno]; [by left|]. right. right. split; [done|]. split; [done|].
    change (tabs (set_db db2 _)) with (db_tables db2). rewrite Hd2.
    change (tabs (set_db db1 _)) with (db_tables db1). by rewrite Hd1. }
  apply run_bind. eapply run_sql_exists; [safe_stmt|fits_stmt|done|done|done|..];
    change (tabs (set_db db0 w)) with (db_tables db0); rewrite ?Hd0.
  - intros db1 Ht Hd1. apply Hins; auto using db_up_false.
  - intros db1 Hu1 Hd1 Hnil%fmap_nil_inv. apply Hins; auto. right.
    intros (r & -> & Hr)%list_elem_of_fmap. exact (filter_nil_not_elem_of _ _ r Hnil eq_refl Hr).
  - intros db1 Hu1 Hd1 Hne. apply run_ret. split; [done|]. split; [done|]. right. left. split; [done|]. split; [done|].
    apply dec_stable. intros Hn. apply Hne. by rewrite filter_none.
Qed.

(** Registration with a connection. *)
Lemma user_register_run (reg_buf user nick pwd tel email : string) (w : world)
    (Hinfo : get_reg_info reg_buf w = Ok (Some (user, nick, pwd, tel, email), w))
    (Hok : reg_ok user nick pwd tel email (w_now w))
    (Hc : exists x y z, get_mysql_info w = Ok ((0, (x, y, z)), w) /\ mysql_accepts w x y z = true)
    (Hs : serving (w_db w))
    (Hn : NoDup (u_name <$> t_user (tabs w))) :
  exists ret w', user_register reg_buf w = Ok (ret, w')
    /\ (answering (w_redis w) -> kept w w') /\ w_open_redis w' = w_open_redis w /\ kv w' = kv w
    /\ w_out w' = w_out w /\ w_open_db w' = w_open_db w /\ NoDup (u_name <$> t_user (tabs w'))
    /\ ((ret = -2 /\ user ∈ u_name <$> t_user (tabs w) /\ tabs w' = tabs w) \/
        (ret = 0 /\ user ∉ u_name <$> t_user (tabs w) /\
         tabs w' = set_user (t_user (tabs w) ++ [UserRow user nick pwd tel (w_now w) email]) (tabs w))).
Proof.
  destruct Hc as (x & y & z & Ec & Ha). apply run_total. unfold user_register. apply run_bind.
  unfold run at 1. rewrite Ec. cbn [Z.eqb negb]. apply run_bind. unfold run at 1. rewrite Hinfo.
  apply run_bind, run_msql_conn; [|congruence]. intros _. cbn [negb]. apply run_bind.
  eapply run_mono; [apply (register_user_spec true); [done|by intros _]|].
  intros ret w1 (Ew & Hup & Hr). apply run_bind, run_mysql_close, run_ret. rewrite Ew. cbn.
  split; [intros Hr'; by split; [..|apply Hup|]|]. do 4 (split; [done|]).
  change (tabs (set_open_db (S (w_open_db w)) w)) with (tabs w) in Hr. cbn [w_now set_open_db] in Hr.
  change (NoDup (u_name <$> t_user (tabs w1)) /\ ((ret = -2 /\ user ∈ u_name <$> t_user (tabs w) /\ tabs w1 = tabs w) \/
    (ret = 0 /\ user ∉ u_name <$> t_user (tabs w) /\
     tabs w1 = set_user (t_user (tabs w) ++ [UserRow user nick pwd tel (w_now w) email]) (tabs w)))).
  destruct Hr as [[=]|[(-> & -> & Hin)|(-> & Hno & ->)]]; [auto|]. split; [|auto]. cbn.
  rewrite fmap_app. apply NoDup_app. split; [done|]. cbn. split; [|apply NoDup_singleton].
  intros u Hu Hu'%list_elem_of_singleton. by subst u.
Qed.


End Spec.
