(* ===== verification/FastUpload.v ===== *)
(** Upload by digest (src/src/cgi/cgi_md5.c): a file whose MD5 is already
    stored is added to the user's list without a transfer. *)

From Stdlib Require Import ZArith Lia Bool Ascii String.
From stdpp Require Import base tactics numbers list strings gmap.
From S2P Require Import Prelude Text Double CJson CJsonParse CJsonPrint World MysqlOp RedisOp.
From S2P Require Import Sql Kv CgiCommon Logic Catalogue.

Section FastUpload.
Context `{Services}.

(** User, token, digest and file name, into arrays of 128, 256, 256 and 128
    bytes; [None] stands for the return value -1. *)
Definition get_md5_info (buf : string) : M (option (string * string * string * string)) :=
  match cJSON_Parse buf with
  | None => mret None
  | Some root =>
      o ← copy_item root "user" 128;
      match o with None => mret None | Some user =>
      o ← copy_item root "md5" 256;
      match o with None => mret None | Some md5 =>
      o ← copy_item root "fileName" 128;
      match o with None => mret None | Some filename =>
      o ← copy_item root "token" 256;
      match o with None => mret None | Some token =>
      mret (Some (user, token, md5, filename))
      end end end end
  end.

(** The part of [deal_md5] that has a connection. *)
Definition deal_md5_body (user md5 filename : string) : M Z :=
  set_names;;
  '(ret2, tmp) ← sql_one (SelFileCount md5) (Some (512%nat, ""));
  if ret2 =? 0 then
    let count := atoi tmp in
    '(ret2, _) ← sql_one (SelList user md5 filename) None;
    if ret2 =? 2 then mret (-2) else
    add_entry count user md5 filename tmp
  else if ret2 =? 1 then mret (-3)
  else mret 0.

Definition deal_md5 (cfg : settings) (user md5 filename : string) : M Z :=
  conn ← msql_conn (mysql_user cfg) (mysql_pwd cfg) (mysql_db cfg);
  ret ← (if conn : bool then deal_md5_body user md5 filename else mret (-1));
  printf (return_status (if ret =? 0 then "005" else if ret =? -2 then "004" else "006"));;
  (if conn : bool then mysql_close else mret tt);;
  mret ret.

(** One turn of the loop of [main]. *)
Definition md5_main (cfg : settings) (rq : request) : M unit :=
  b ← read_request rq;
  match b with
  | NoData | ReadError => mret tt
  | Body buf =>
      info ← get_md5_info buf;
      match info with
      | None => mret tt
      | Some (user, token, md5, filename) =>
          ret ← verify_token user token;
          if ret =? 0 then deal_md5 cfg user md5 filename;; mret tt
          else printf (return_status "111")
      end
  end.

End FastUpload.

(** ** Specification *)

Section Spec.
Context {SV : Services} {SQ : SqlServer} {RD : RedisServer}.
Variable t : bool.

(** The outcomes of [deal_md5_body] on a serving database: digest unknown, entry
    already there, entry added. *)
Definition fast_upload_post (user md5 filename : string) (w : world) (ret : Z) (w' : world) : Prop :=
  w' = set_db (w_db w') w /\ db_up t w' /\
  (t = false \/
   (ret = -3 /\ tabs w' = tabs w /\ md5 ∉ f_md5 <$> t_file (tabs w)) \/
   (ret = -2 /\ tabs w' = tabs w /\ (user, md5, filename) ∈ entry <$> t_list (tabs w)) \/
   (ret = 0 /\ tabs w' = add_reference (new_entry user md5 filename (w_now w)) (tabs w)
    /\ md5 ∈ f_md5 <$> t_file (tabs w) /\ (user, md5, filename) ∉ entry <$> t_list (tabs w))).

Lemma deal_md5_body_spec user md5 filename w :
  args_ok user md5 filename (w_now w) -> db_up t w -> consistent (tabs w) ->
  Z.of_nat (length (t_list (tabs w))) < INT_MAX -> user <> SHARE_COUNT ->
  run t (deal_md5_body user md5 filename) (fast_upload_post user md5 filename w) w.
Proof.
  intros Ha Hu HT Hlen Hres. unfold deal_md5_body. apply run_bind.
  apply run_set_names; [done|]. intros db0 Hu0 Hd0. apply run_bind.
  eapply run_sql_one; [safe_stmt|fits_stmt|done|done|done|..].
  - intros _. apply Forall_fmap, Forall_true. intros r. eexists _, _. split; [done|]. apply fits_dec. lia.
  - intros db1 Ht Hd1. apply run_ret. split; [done|]. split; [by apply db_up_false|by left].
  - intros db1 Hu1 Hd1 Hnil. apply run_ret. split; [done|]. split; [done|]. right. left. split; [done|].
    unfold tabs in *. cbn in *. rewrite Hd1, Hd0. split; [done|].
    intros (f & -> & Hf)%list_elem_of_fmap. apply fmap_nil_inv in Hnil. rewrite Hd0 in Hnil.
    exact (filter_nil_not_elem_of _ _ f Hnil eq_refl Hf).
  - intros db1 f rest Hu1 Hd1 Hin. apply list_elem_of_fmap in Hin as (fr & [= -> ->] & Hf).
    apply list_elem_of_filter in Hf as [Em Hf].
    change (set_db db1 (set_db db0 w)) with (set_db db1 w) in *.
    change (tabs (set_db db0 w)) with (db_tables db0) in *. rewrite Hd0 in Hf, Hd1.
    assert (tabs (set_db db1 w) = tabs w) as E1 by done.
    cbn [Z.eqb]. rewrite (con_refs _ HT fr Hf), Em, atoi_dec by
      (by apply (is_int_count (t_list (tabs w))), refs_le). apply run_bind.
    assert (md5 ∈ f_md5 <$> t_file (tabs w)) as Hm by (rewrite <- Em; by apply list_elem_of_fmap_2).
    assert (forall db2, db_up t (set_db db2 w) -> db_tables db2 = tabs w ->
      (t = false \/ (user, md5, filename) ∉ entry <$> t_list (tabs w)) ->
      run t (add_entry (Z.of_nat (refs md5 (t_list (tabs w)))) user md5 filename
               (dec (Z.of_nat (refs md5 (t_list (tabs w))))))
        (fast_upload_post user md5 filename w) (set_db db2 w)) as Hadd.
    { intros db2 Hu2 Hd2 Hc. assert (tabs (set_db db2 w) = tabs w) as E2 by done.
      eapply run_mono; [apply add_entry_spec; rewrite ?E2; auto|].
      intros ret w' (Ew & Hup & Hr). split; [by rewrite Ew|]. split; [done|]. rewrite E2 in Hr. naive_solver. }
    eapply run_sql_exists; [safe_stmt|fits_stmt|done|done|done|..]; rewrite ?E1.
    + intros db2 Ht Hd2. apply Hadd; auto using db_up_false.
    + intros db2 Hu2 Hd2 Hnil. apply Hadd; auto. right. by apply entry_rows.
    + intros db2 Hu2 Hd2 Hne. apply run_ret. split; [done|]. split; [done|]. right. right. left. split; [done|].
      split; [done|]. apply dec_stable. intros Hn. by apply Hne, entry_rows.
  - intros db1 rest Ht Hd1 Hin. apply list_elem_of_fmap in Hin as (fr & [=] & Hf).
Qed.

End Spec.

Section Theorems.
Context {SV : Services} {SQ : SqlServer} {RD : RedisServer}.

(** The reply of [deal_md5] to a return value. *)
Definition md5_reply (ret : Z) : string :=
  return_status (if ret =? 0 then "005" else if ret =? -2 then "004" else "006").

(** [deal_md5] on a serving database. *)
Lemma deal_md5_run (cfg : settings) (user md5 filename : string) (w : world)
    (Ha : args_ok user md5 filename (w_now w))
    (Hs : serving (w_db w))
    (Hc : mysql_accepts w (mysql_user cfg) (mysql_pwd cfg) (mysql_db cfg) = true)
    (HT : consistent (tabs w))
    (Hlen : Z.of_nat (length (t_list (tabs w))) < INT_MAX)
    (Hres : user <> SHARE_COUNT) :
  exists ret w', deal_md5 cfg user md5 filename w = Ok (ret, w') /\ (answering (w_redis w) -> kept w w')
    /\ consistent (tabs w') /\ kv w' = kv w
    /\ w_open_db w' = w_open_db w /\ w_open_redis w' = w_open_redis w
    /\ w_out w' = w_out w ++ [md5_reply ret]
    /\ ((ret = -3 /\ tabs w' = tabs w /\ md5 ∉ f_md5 <$> t_file (tabs w)) \/
        (ret = -2 /\ tabs w' = tabs w /\ (user, md5, filename) ∈ entry <$> t_list (tabs w)) \/
        (ret = 0 /\ tabs w' = add_reference (new_entry user md5 filename (w_now w)) (tabs w)
         /\ md5 ∈ f_md5 <$> t_file (tabs w) /\ (user, md5, filename) ∉ entry <$> t_list (tabs w))).
Proof.
  apply (run_total (deal_md5 cfg user md5 filename)). unfold deal_md5. apply run_bind, run_msql_conn; [|congruence].
  intros _. apply run_bind.
  eapply run_mono; [apply (deal_md5_body_spec true); [done|by intros _|done..]|].
  intros ret w1 (Ew & Hup & Hr). apply run_bind, run_printf, run_bind, run_mysql_close, run_ret.
  destruct Hr as [[=]|Hr].
  change (tabs (set_open_db (S (w_open_db w)) w)) with (tabs w) in Hr. cbn [w_now set_open_db] in Hr.
  rewrite Ew. cbn. split; [intros Hr'; by split; [..|apply Hup|]|]. split; [|split; [done|split; [done|split; [done|split; [done|exact Hr]]]]].
  change (consistent (tabs w1)).
  destruct Hr as [(_ & -> & _)|[(_ & -> & _)|(_ & -> & Hm & Hn)]]; [done..|].
  by apply consistent_add_reference.
Qed.

(** C2: on a serving database with consistent counters [deal_md5] returns, keeps
    the counters consistent, closes its connection and answers exactly: 006 with
    nothing changed when the digest is unknown, 004 with nothing changed when
    the user already has the file, and 005 with one more reference (reference
    count, entry, user's counter) otherwise. *)
Theorem deal_md5_refines (cfg : settings) (user md5 filename : string) (w : world)
    (Ha : args_ok user md5 filename (w_now w))
    (Hs : serving (w_db w))
    (Hc : mysql_accepts w (mysql_user cfg) (mysql_pwd cfg) (mysql_db cfg) = true)
    (HT : consistent (tabs w))
    (Hlen : Z.of_nat (length (t_list (tabs w))) < INT_MAX)
    (Hres : user <> SHARE_COUNT) :
  exists ret w', deal_md5 cfg user md5 filename w = Ok (ret, w')
    /\ consistent (tabs w') /\ kv w' = kv w
    /\ w_open_db w' = w_open_db w /\ w_open_redis w' = w_open_redis w
    /\ w_out w' = w_out w ++ [md5_reply ret]
    /\ ((ret = -3 /\ tabs w' = tabs w /\ md5 ∉ f_md5 <$> t_file (tabs w)) \/
        (ret = -2 /\ tabs w' = tabs w /\ (user, md5, filename) ∈ entry <$> t_list (tabs w)) \/
        (ret = 0 /\ tabs w' = add_reference (new_entry user md5 filename (w_now w)) (tabs w)
         /\ md5 ∈ f_md5 <$> t_file (tabs w) /\ (user, md5, filename) ∉ entry <$> t_list (tabs w))).
Proof.
  destruct (deal_md5_run cfg user md5 filename w) as (ret & w' & E & _ & H); try done. by exists ret, w'.
Qed.

(** when the database refuses the query for the digest, [deal_md5] changes
    nothing and reports success, 005. *)
Theorem deal_md5_error_is_success (cfg : settings) (user md5 filename : string) (w : world)
    (db1 db2 : Db) (r1 : sql_reply)
    (Hc : mysql_accepts w (mysql_user cfg) (mysql_pwd cfg) (mysql_db cfg) = true)
    (H1 : mysql_exec (w_db w) "set names utf8" = (db1, r1))
    (H2 : mysql_exec db1 (render (SelFileCount md5)) = (db2, QError))
    (Hl : (String.length md5 <= 255)%nat) :
  exists w', deal_md5 cfg user md5 filename w = Ok (0, w') /\ w_db w' = db2
    /\ w_out w' = w_out w ++ [return_status "005"].
Proof.
  assert (fits SQL_MAX_LEN (render (SelFileCount md5)) = true) as Hf by fits_stmt.
  unfold mysql_accepts in Hc. apply andb_true_iff in Hc as [Hc1 Hc2].
  unfold deal_md5, mbind, M_bind, msql_conn. rewrite Hc1, Hc2. cbn [negb].
  unfold deal_md5_body, set_names, mbind, M_bind. unfold mysql_query at 1.
  cbn [w_db set_open_db]. rewrite H1. cbn [mret M_ret].
  unfold sql_one, sql_cmd, sprintf, process_result_one, mbind, M_bind, mret, M_ret. rewrite Hf.
  unfold mysql_query. cbn [w_db set_db set_open_db]. rewrite H2. cbn. eauto.
Qed.

End Theorems.
