(* ===== verification/Interleave.v ===== *)
(** Any number of uploads by digest at the same time (src/src/cgi/cgi_md5.c).
    [deal_md5] is written once more as a tree of the statements it sends, which
    is shown to be the program of FastUpload.v; the trees of several processes
    are then interleaved statement by statement, and what every interleaving
    guarantees is proved by rule induction. *)

From Stdlib Require Import ZArith Lia Bool Ascii String.
From stdpp Require Import base tactics numbers list strings gmap relations.
From S2P Require Import Prelude Text Double CJson CJsonParse CJsonPrint World MysqlOp RedisOp Sql Kv.
From S2P Require Import CgiCommon Logic Catalogue FastUpload.

(** ** Programs as trees of statements *)

(** A program that talks to the database and reads the clock; [Stuck] is
    undefined behaviour. *)
Inductive prog (A : Type) : Type :=
  | Return (a : A)
  | Stuck (u : ub)
  | Query (st : stmt) (k : sql_reply -> prog A)
  | Clock (k : string -> prog A).
Arguments Return {A} a.
Arguments Stuck {A} u.
Arguments Query {A} st k.
Arguments Clock {A} k.

#[export] Instance prog_ret : MRet prog := @Return.
#[export] Instance prog_bind : MBind prog := fun A B f =>
  fix go m :=
    match m with
    | Return a => f a
    | Stuck u => Stuck u
    | Query st k => Query st (fun r => go (k r))
    | Clock k => Clock (fun s => go (k s))
    end.

Definition p_sprintf (cap : nat) (s : string) : prog string :=
  if fits cap s then mret s else Stuck OutOfBounds.
Definition p_to_int (x : Z) : prog Z := if int_ok x then mret x else Stuck IntOverflow.
Definition p_now : prog string := Clock Return.

(** [sql_cmd] is formatted, then sent. *)
Definition p_query (st : stmt) : prog sql_reply :=
  p_sprintf SQL_MAX_LEN (render st);; Query st Return.
Definition p_sql_do (st : stmt) : prog bool := r ← p_query st; mret (query_failed r).

(** [process_result_one]. *)
Definition p_sql_one (st : stmt) (buf : cbuf) : prog (Z * string) :=
  r ← p_query st;
  match r with
  | QError => mret (-1, cbuf_text buf)
  | QDone => mret (-1, cbuf_text buf)
  | QRows [] => mret (1, cbuf_text buf)
  | QRows (row :: _) =>
      match buf with
      | None => mret (2, cbuf_text buf)
      | Some (cap, old) =>
          match row with
          | [] => Stuck OutOfBounds
          | Some field :: _ => s ← p_sprintf cap field; mret (0, s)
          | None :: _ => mret (0, old)
          end
      end
  end.

Definition p_bump_user_count (ins : stmt) (user tmp : string) : prog Z :=
  '(ret2, tmp) ← p_sql_one (SelCount user) (Some (512%nat, tmp));
  failed ← (if ret2 =? 1 then p_sql_do ins else
            if ret2 =? 0 then count ← p_to_int (atoi tmp + 1); p_sql_do (UpdCount count user)
            else p_sql_do (SelCount user));
  mret (if failed : bool then -1 else 0).

(** The entry, behind the update of the reference count. *)
Definition p_insert_entry (user md5 filename tmp : string) : prog Z :=
  time_str ← p_now;
  failed ← p_sql_do (InsList (ListRow user md5 time_str filename 0 0));
  if failed : bool then mret (-1) else
  p_bump_user_count (InsCount user 1) user tmp.

Definition p_add_entry (count : Z) (user md5 filename tmp : string) : prog Z :=
  count ← p_to_int (count + 1);
  failed ← p_sql_do (UpdFileCount count md5);
  if failed : bool then mret (-1) else
  p_insert_entry user md5 filename tmp.

(** The check of the user's entry, with the count that was read. *)
Definition p_check_entry (count : Z) (user md5 filename tmp : string) : prog Z :=
  '(ret2, _) ← p_sql_one (SelList user md5 filename) None;
  if ret2 =? 2 then mret (-2) else
  p_add_entry count user md5 filename tmp.

Definition p_read_count (user md5 filename : string) : prog Z :=
  '(ret2, tmp) ← p_sql_one (SelFileCount md5) (Some (512%nat, ""%string));
  if ret2 =? 0 then p_check_entry (atoi tmp) user md5 filename tmp
  else if ret2 =? 1 then mret (-3)
  else mret 0.

(** [deal_md5] with a connection. *)
Definition p_deal_md5 (user md5 filename : string) : prog Z :=
  Query SetNames Return;; p_read_count user md5 filename.

(** ** One process alone *)

Section Exec.
Context `{Services}.

(** Running a tree without interruption. *)
Fixpoint exec {A} (p : prog A) : M A :=
  match p with
  | Return a => mret a
  | Stuck u => undef u
  | Query st k => r ← mysql_query (render st); exec (k r)
  | Clock k => s ← now; exec (k s)
  end.

(** Programs with the same runs. *)
Definition same {A} (p : prog A) (m : M A) : Prop := forall w, exec p w = m w.

Lemma same_ret {A} (a : A) : same (mret a) (mret a).
Proof. done. Qed.

Lemma same_bind {A B} (p : prog A) (m : M A) (f : A -> prog B) (g : A -> M B) :
  same p m -> (forall a, same (f a) (g a)) -> same (p ≫= f) (m ≫= g).
Proof.
  intros Hp Hf w. transitivity ((exec p ≫= g) w).
  - clear Hp. revert w. induction p as [a|u|st k IH|k IH]; intros w; cbn; [apply Hf|done|..].
    + unfold mbind, M_bind. destruct (mysql_query (render st) w) as [[r w']|u]; [|done]. apply IH.
    + unfold mbind, M_bind. destruct (now w) as [[r w']|u]; [|done]. apply IH.
  - unfold mbind at 1 2, M_bind. by rewrite Hp.
Qed.

Lemma same_if {A} (b : bool) (p p' : prog A) (m m' : M A) :
  same p m -> same p' m' -> same (if b then p else p') (if b then m else m').
Proof. by destruct b. Qed.

Lemma same_sprintf cap s : same (p_sprintf cap s) (sprintf cap s).
Proof. intros w. unfold p_sprintf, sprintf. by destruct (fits cap s). Qed.
Lemma same_to_int x : same (p_to_int x) (to_int x).
Proof. intros w. unfold p_to_int, to_int. by destruct (int_ok x). Qed.
Lemma same_now : same p_now now.
Proof. done. Qed.

Lemma same_sql_do st : same (p_sql_do st) (sql_do st).
Proof.
  intros w. unfold p_sql_do, p_query, sql_do, sql_cmd, p_sprintf, sprintf.
  destruct (fits _ _); [|done]. cbn. unfold mbind, M_bind, mret, M_ret.
  by destruct (mysql_query (render st) w) as [[r w']|u].
Qed.

Lemma same_sql_one st buf : same (p_sql_one st buf) (sql_one st buf).
Proof.
  intros w. unfold p_sql_one, p_query, sql_one, sql_cmd, process_result_one, p_sprintf, sprintf.
  destruct (fits SQL_MAX_LEN (render st)); [|done]. cbn. unfold mbind, M_bind, mret, M_ret.
  destruct (mysql_query (render st) w) as [[r w']|u]; [|done].
  destruct r as [| |[|row rows]]; [done..|]. destruct buf as [[cap old]|]; [|done].
  destruct row as [|[f|] rest]; [done| |done]. by destruct (fits cap f).
Qed.

Create HintDb same.
#[local] Hint Resolve same_ret same_if same_sprintf same_to_int same_now same_sql_do same_sql_one : same.

(** [same_tac] follows the structure of two programs. *)
Ltac same_tac :=
  repeat first
    [ progress auto with same
    | apply same_if
    | apply same_bind; [|intros ?]
    | match goal with |- context [let '(_, _) := ?x in _] => destruct x end ].

(** The tree is the program of FastUpload.v. *)
Lemma exec_deal_md5 user md5 filename w :
  exec (p_deal_md5 user md5 filename) w = deal_md5_body user md5 filename w.
Proof.
  unfold deal_md5_body, set_names.
  set (rest := fun _ : unit => _ ≫= _). assert (same (p_read_count user md5 filename) (rest tt)) as Hr.
  { unfold rest, p_read_count, p_check_entry. same_tac. }
  cbn. unfold mbind, M_bind, mret, M_ret. change (render SetNames) with "set names utf8"%string.
  destruct (mysql_query _ w) as [[r w']|u]; [|done]. apply Hr.
Qed.

End Exec.

(** ** Several processes *)

(** What an upload by digest is called with. *)
Record req := Req { rq_user : string; rq_md5 : string; rq_name : string }.

(** What [strftime] writes for "%Y-%m-%d %H:%M:%S". *)
Definition strftime_text (s : string) : bool := (String.length s <=? 19)%nat && quote_free s.

Record req_ok (q : req) : Prop := {
  ro_user : quote_free (rq_user q) = true;
  ro_md5 : quote_free (rq_md5 q) = true;
  ro_name : quote_free (rq_name q) = true;
  ro_len : (String.length (rq_user q) + String.length (rq_md5 q) + String.length (rq_name q) <= 281)%nat;
  ro_reserved : rq_user q <> SHARE_COUNT
}.

Definition upload (q : req) : prog Z := p_deal_md5 (rq_user q) (rq_md5 q) (rq_name q).

Section Processes.
Context `{Services}.

(** The database, the clock, and the processes with what is left of them. *)
Record config := Config { c_db : Db; c_now : string; c_procs : list (prog Z) }.

(** Some process sends its next statement, or reads the clock. *)
Inductive pstep : config -> config -> Prop :=
  | step_query db time l1 st k l2 db' r :
      mysql_exec db (render st) = (db', r) ->
      pstep (Config db time (l1 ++ Query st k :: l2)) (Config db' time (l1 ++ k r :: l2))
  | step_clock db time l1 k l2 :
      pstep (Config db time (l1 ++ Clock k :: l2)) (Config db time (l1 ++ k time :: l2)).

(** A run with a number of process steps; the clock goes on in between. *)
Inductive runs : nat -> config -> config -> Prop :=
  | runs_refl c : runs 0 c c
  | runs_step n c c' c'' : runs n c c' -> pstep c' c'' -> runs (S n) c c''
  | runs_tick n c c' time : runs n c c' -> strftime_text time = true ->
      runs n c (Config (c_db c') time (c_procs c')).

Definition finished (c : config) : Prop := Forall (fun p => exists ret, p = Return ret) (c_procs c).

End Processes.

(** ** The protocol the processes follow *)

(** How far an upload has come. The rows and the flag (whether the user's counter
    was created) record what it has done. *)
Inductive phase :=
  | Start
  | Named
  | CountRead (c : Z)
  | Checked (c : Z)
  | Counted
  | Timed (time : string)
  | Inserted (r : list_row)
  | UserNone (r : list_row)
  | UserRead (r : list_row) (c : Z)
  | Done (ret : Z) (o : option (list_row * bool)).

(** What is left of the program; [tmp] is the text in its buffer. *)
Definition code (q : req) (tmp : string) (ph : phase) : prog Z :=
  let '(Req u m n) := q in
  match ph with
  | Start => p_deal_md5 u m n
  | Named => p_read_count u m n
  | CountRead c => p_check_entry c u m n tmp
  | Checked c => p_add_entry c u m n tmp
  | Counted => p_insert_entry u m n tmp
  | Timed time =>
      failed ← p_sql_do (InsList (ListRow u m time n 0 0));
      if failed : bool then mret (-1) else p_bump_user_count (InsCount u 1) u tmp
  | Inserted _ => p_bump_user_count (InsCount u 1) u tmp
  | UserNone _ => failed ← p_sql_do (InsCount u 1); mret (if failed : bool then -1 else 0)
  | UserRead _ c =>
      failed ← (count ← p_to_int (c + 1); p_sql_do (UpdCount count u));
      mret (if failed : bool then -1 else 0)
  | Done ret _ => mret ret
  end.

Definition req_entry (q : req) : string * string * string := (rq_user q, rq_md5 q, rq_name q).

(** The effect of each step on the tables. *)
Inductive advance (q : req) : tables -> phase -> tables -> phase -> Prop :=
  | adv_names T : advance q T Start T Named
  | adv_unknown T : rq_md5 q ∉ f_md5 <$> t_file T -> advance q T Named T (Done (-3) None)
  | adv_read T f : f ∈ t_file T -> f_md5 f = rq_md5 q -> advance q T Named T (CountRead (f_count f))
  | adv_exists T c : req_entry q ∈ entry <$> t_list T -> advance q T (CountRead c) T (Done (-2) None)
  | adv_check T c : req_entry q ∉ entry <$> t_list T -> advance q T (CountRead c) T (Checked c)
  | adv_count T c : advance q T (Checked c) (stmt_effect (UpdFileCount (c + 1) (rq_md5 q)) T) Counted
  | adv_time T time : strftime_text time = true -> advance q T Counted T (Timed time)
  | adv_insert T time :
      let r := ListRow (rq_user q) (rq_md5 q) time (rq_name q) 0 0 in
      advance q T (Timed time) (set_list (t_list T ++ [r]) T) (Inserted r)
  | adv_user_none T r : rq_user q ∉ c_user <$> t_count T -> advance q T (Inserted r) T (UserNone r)
  | adv_user_read T r c : c ∈ t_count T -> c_user c = rq_user q ->
      advance q T (Inserted r) T (UserRead r (c_count c))
  | adv_user_insert T r :
      advance q T (UserNone r) (set_count (t_count T ++ [CountRow (rq_user q) 1]) T) (Done 0 (Some (r, true)))
  | adv_user_update T r c :
      advance q T (UserRead r c) (stmt_effect (UpdCount (c + 1) (rq_user q)) T) (Done 0 (Some (r, false))).

(** The numbers a phase holds can be incremented, its time fits. *)
Definition phase_ok (ph : phase) : Prop :=
  match ph with
  | CountRead c | Checked c | UserRead _ c => is_int (c + 1)
  | Timed time => strftime_text time = true
  | _ => True
  end.

(** The numbers of the tables are read back as they are. *)
Record readable (T : tables) : Prop := {
  rd_files : forall f, f ∈ t_file T -> is_int (f_count f);
  rd_counts : forall c, c ∈ t_count T -> c_user c <> SHARE_COUNT -> is_int (c_count c)
}.

Section Simulation.
Context {SV : Services} {SQ : SqlServer}.

Lemma served db st db' r : serving db -> stmt_safe st = true -> mysql_exec db (render st) = (db', r) ->
  serving db' /\ db_tables db' = stmt_effect st (db_tables db) /\ reply_for (stmt_rows st (db_tables db)) r.
Proof.
  intros Hs Hst E. pose proof (sql_exec db st Hst) as He. pose proof (sql_serving db st Hs Hst) as Hv.
  rewrite E in He, Hv. destruct Hv as [Hne Hv]. destruct He as [[-> _]|[? ?]]; done.
Qed.

Lemma p_query_fits st : fits SQL_MAX_LEN (render st) = true -> p_query st = Query st Return.
Proof. unfold p_query, p_sprintf. by intros ->. Qed.
Lemma p_sprintf_dec n : p_sprintf 512 (dec n) = Return (dec n).
Proof. unfold p_sprintf. by rewrite fits_dec by lia. Qed.
Lemma p_to_int_ok x : is_int x -> p_to_int x = Return x.
Proof. intros Hx. unfold p_to_int. by rewrite int_ok_true. Qed.

Lemma req_args u m n time : req_ok (Req u m n) -> strftime_text time = true -> args_ok u m n time.
Proof.
  intros [? ? ? Hl _] [Ht%Nat.leb_le ?]%andb_true_iff. cbn in *. split; try done. lia.
Qed.

#[local] Opaque p_query.

(** The rows of a query without an answer, and the first one of an answer. *)
Lemma rows_nil {A B} (P : A -> Prop) `{forall x, Decision (P x)} (f : A -> B) (l : list A) :
  [] ≡ₚ f <$> filter P l -> forall x, x ∈ l -> ~ P x.
Proof.
  intros Hr%Permutation_nil_l x Hx HP. symmetry in Hr. apply fmap_nil_inv in Hr.
  by apply (filter_nil_not_elem_of _ _ x Hr).
Qed.
Lemma rows_cons {A B} (P : A -> Prop) `{forall x, Decision (P x)} (f : A -> B) (l : list A) row rows :
  row :: rows ≡ₚ f <$> filter P l -> exists x, row = f x /\ P x /\ x ∈ l.
Proof.
  intros Hr. assert (row ∈ f <$> filter P l) as Hin by (rewrite <- Hr; left).
  apply list_elem_of_fmap in Hin as (x & -> & [HP Hx]%list_elem_of_filter). eauto.
Qed.

(** [open_query] exposes the statement a program sends next; [serve] adds what
    the server does with it. *)
Ltac open_query E :=
  rewrite p_query_fits in E by fits_stmt; cbn -[render fits Z.add] in E; injection E as <- <-.
Ltac serve E :=
  apply served in E as (Hs' & Hd & Hr); [|done|safe_stmt]; split; [exact Hs'|]; cbn in Hr.

(** Every statement of a process is a step of the protocol. *)
Lemma sim_query q tmp ph st k db db' r :
  req_ok q -> phase_ok ph -> readable (db_tables db) -> serving db ->
  code q tmp ph = Query st k -> mysql_exec db (render st) = (db', r) ->
  serving db' /\ exists tmp' ph', k r = code q tmp' ph' /\ advance q (db_tables db) ph (db_tables db') ph'.
Proof.
  destruct q as [u m n]. intros Hq Hp HT Hs E Ex.
  pose proof (req_args u m n "" Hq eq_refl) as Ha.
  destruct ph as [| |c|c| |time|row|row|row c|ret o]; cbn [code phase_ok] in *.
  - injection E as <- <-. serve Ex. rewrite Hd. exists tmp, Named. split; [done|]. apply adv_names.
  - unfold p_read_count, p_sql_one in E. open_query E. serve Ex. rewrite Hd.
    destruct r as [| |[|row rows]]; try done.
    + exists tmp, (Done (-3) None). split; [done|]. apply adv_unknown.
      intros (f & Ef & Hf)%list_elem_of_fmap. by apply (rows_nil _ _ _ Hr f).
    + apply rows_cons in Hr as (f & -> & Ef & Hf). exists (dec (f_count f)), (CountRead (f_count f)).
      split; [|by apply adv_read]. cbn -[p_sprintf dec p_check_entry p_to_int p_sql_do Z.add]. rewrite p_sprintf_dec. cbn -[p_check_entry].
      by rewrite atoi_dec by (by apply (rd_files _ HT)).
  - unfold p_check_entry, p_sql_one in E. open_query E. serve Ex. rewrite Hd.
    destruct r as [| |[|row rows]]; try done.
    + exists tmp, (Checked c). split; [done|]. apply adv_check.
      intros (f & [= -> -> ->] & Hf)%list_elem_of_fmap. by apply (rows_nil _ _ _ Hr f).
    + apply rows_cons in Hr as (f & -> & (<- & <- & <-) & Hf). exists tmp, (Done (-2) None).
      split; [done|]. apply adv_exists. by apply (list_elem_of_fmap_2 entry).
  - unfold p_add_entry, p_sql_do in E. rewrite p_to_int_ok in E by done. cbn -[p_query] in E.
    open_query E. serve Ex. rewrite Hd. destruct r; try done.
    exists tmp, Counted. split; [done|]. apply adv_count.
  - discriminate E.
  - pose proof (req_args u m n time Hq Hp) as Ht. unfold p_sql_do in E. clear Ha. open_query E.
    serve Ex. rewrite Hd. destruct r; try done. eexists tmp, (Inserted _). split; [done|].
    apply (adv_insert (Req u m n)).
  - unfold p_bump_user_count, p_sql_one in E. open_query E. serve Ex. rewrite Hd.
    destruct r as [| |[|row' rows]]; try done.
    + exists tmp, (UserNone row). split; [done|]. apply adv_user_none.
      intros (c & Ec & Hc)%list_elem_of_fmap. by apply (rows_nil _ _ _ Hr c).
    + apply rows_cons in Hr as (c & -> & Ec & Hc). exists tmp, (UserRead row (c_count c)).
      split; [|by apply adv_user_read]. cbn -[p_sprintf dec p_check_entry p_to_int p_sql_do Z.add]. rewrite p_sprintf_dec. cbn -[p_to_int p_sql_do Z.add].
      rewrite atoi_dec; [done|]. apply (rd_counts _ HT); [done|]. rewrite Ec. apply Hq.
  - unfold p_sql_do in E. open_query E. serve Ex. rewrite Hd. destruct r; try done.
    exists tmp, (Done 0 (Some (row, true))). split; [done|]. apply adv_user_insert.
  - unfold p_sql_do in E. rewrite p_to_int_ok in E by done. cbn -[p_query] in E.
    open_query E. serve Ex. rewrite Hd. destruct r; try done.
    exists tmp, (Done 0 (Some (row, false))). split; [done|]. apply adv_user_update.
  - discriminate E.
Qed.

(** What a process does next: a statement, reading the clock for the date of the
    entry, or nothing; never undefined behaviour. *)
Inductive next_of (q : req) (tmp : string) : phase -> prog Z -> Prop :=
  | next_query ph st k : (forall ret o, ph <> Done ret o) -> next_of q tmp ph (Query st k)
  | next_clock k : (forall time, k time = code q tmp (Timed time)) -> next_of q tmp Counted (Clock k)
  | next_return ret o : next_of q tmp (Done ret o) (Return ret).

Lemma code_next q tmp ph : req_ok q -> phase_ok ph -> next_of q tmp ph (code q tmp ph).
Proof.
  destruct q as [u m n]. intros Hq Hp. pose proof (req_args u m n "" Hq eq_refl) as Ha.
  destruct ph as [| |c|c| |time|row|row|row c|ret o]; cbn [code phase_ok] in *;
    [|unfold p_read_count, p_sql_one|unfold p_check_entry, p_sql_one|unfold p_add_entry, p_sql_do| |
     clear Ha; pose proof (req_args u m n time Hq Hp); unfold p_sql_do|
     unfold p_bump_user_count, p_sql_one|unfold p_sql_do|unfold p_sql_do|];
    try (rewrite p_to_int_ok by done; cbn -[p_query]);
    try (rewrite p_query_fits by fits_stmt); try by apply next_query.
  - by apply next_clock.
  - apply next_return.
Qed.

End Simulation.

(** ** The invariant of the protocol *)

(** What an upload has done so far. *)
Definition has_counted (ph : phase) : bool :=
  match ph with
  | Counted | Timed _ | Inserted _ | UserNone _ | UserRead _ _ | Done _ (Some _) => true
  | _ => false
  end.
Definition row_of (ph : phase) : option list_row :=
  match ph with
  | Inserted r | UserNone r | UserRead r _ | Done _ (Some (r, _)) => Some r
  | _ => None
  end.
Definition has_written (ph : phase) : bool := match ph with Done _ (Some _) => true | _ => false end.
Definition has_created (ph : phase) : bool := match ph with Done _ (Some (_, b)) => b | _ => false end.

Definition proc : Type := req * phase.
(** How many uploads have counted content [m], written or created the counter of [u]. *)
Definition counted (m : string) (p : proc) : Prop := rq_md5 p.1 = m /\ has_counted p.2 = true.
Definition written (u : string) (p : proc) : Prop := rq_user p.1 = u /\ has_written p.2 = true.
Definition created (u : string) (p : proc) : Prop := rq_user p.1 = u /\ has_created p.2 = true.
#[export] Instance counted_dec m p : Decision (counted m p).
Proof. unfold counted. apply _. Defined.
#[export] Instance written_dec u p : Decision (written u p).
Proof. unfold written. apply _. Defined.
#[export] Instance created_dec u p : Decision (created u p).
Proof. unfold created. apply _. Defined.

Definition tally (P : proc -> Prop) `{forall p, Decision (P p)} (ps : list proc) : nat :=
  length (filter P ps).
Definition new_rows (ps : list proc) : list list_row := omap (fun p => row_of p.2) ps.

(** A counter that started at [lo] and was incremented, possibly with lost
    updates, by [k] processes. *)
Definition between (lo k : nat) (x : Z) : Prop :=
  Z.of_nat lo + (if (k =? 0)%nat then 0 else 1) <= x <= Z.of_nat lo + Z.of_nat k.
(** A value of such a counter read earlier. *)
Definition was_between (lo k : nat) (x : Z) : Prop := Z.of_nat lo <= x <= Z.of_nat lo + Z.of_nat k.

Lemma between_was lo k x : between lo k x -> was_between lo k x.
Proof. unfold between, was_between. destruct (Nat.eqb_spec k 0); lia. Qed.
Lemma between_next lo k x : was_between lo k x -> between lo (S k) (x + 1).
Proof. unfold between, was_between. cbn [Nat.eqb]. lia. Qed.
Lemma was_between_mono lo k k' x : (k <= k')%nat -> was_between lo k x -> was_between lo k' x.
Proof. unfold was_between. lia. Qed.

Section Invariant.
Variable T0 : tables.
Hypothesis HT0 : consistent T0.

(** A process that went past the check: its content is stored, its entry was not
    there at the beginning. *)
Definition fresh (q : req) : Prop :=
  rq_md5 q ∈ f_md5 <$> t_file T0 /\ req_entry q ∉ entry <$> t_list T0.

(** What a process knows in a phase, with the tables' entries [L] and counters
    [C], and the numbers of increments so far. *)
Definition knows (L : list list_row) (C : list count_row) (k1 k2 : nat) (q : req) (ph : phase) : Prop :=
  match ph with
  | Start | Named => True
  | CountRead c => rq_md5 q ∈ f_md5 <$> t_file T0 /\ was_between (refs (rq_md5 q) (t_list T0)) k1 c
  | Checked c => fresh q /\ was_between (refs (rq_md5 q) (t_list T0)) k1 c
  | Counted => fresh q
  | Timed time => fresh q /\ strftime_text time = true
  | Inserted r => fresh q /\ entry r = req_entry q
  | UserNone r => fresh q /\ entry r = req_entry q /\ rq_user q ∉ c_user <$> t_count T0
  | UserRead r c => fresh q /\ entry r = req_entry q /\ rq_user q ∈ c_user <$> C /\
      was_between (owned (rq_user q) (t_list T0)) k2 c
  | Done ret (Some (r, b)) => ret = 0 /\ fresh q /\ entry r = req_entry q /\
      rq_user q ∈ c_user <$> C /\ (b = true -> rq_user q ∉ c_user <$> t_count T0)
  | Done ret None => (ret = -3 /\ rq_md5 q ∉ f_md5 <$> t_file T0) \/
      (ret = -2 /\ req_entry q ∈ entry <$> L)
  end.

Lemma knows_mono L C k1 k2 L' C' k1' k2' q ph :
  knows L C k1 k2 q ph -> (forall e, e ∈ entry <$> L -> e ∈ entry <$> L') ->
  (forall u, u ∈ c_user <$> C -> u ∈ c_user <$> C') -> (k1 <= k1')%nat -> (k2 <= k2')%nat ->
  knows L' C' k1' k2' q ph.
Proof.
  intros Hk HL HC H1 H2. destruct ph as [| |c|c| |time|r|r|r c|ret [[r b]|]]; cbn in *;
    naive_solver eauto using was_between_mono.
Qed.

Record inv (T : tables) (ps : list proc) : Prop := {
  i_req : Forall (fun p => req_ok p.1) ps;
  i_user : t_user T = t_user T0;
  i_share : t_share T = t_share T0;
  i_list : t_list T ≡ₚ t_list T0 ++ new_rows ps;
  i_files : f_md5 <$> t_file T = f_md5 <$> t_file T0;
  i_count : forall f, f ∈ t_file T ->
    between (refs (f_md5 f) (t_list T0)) (tally (counted (f_md5 f)) ps) (f_count f);
  i_ucount : forall c, c ∈ t_count T -> c_user c <> SHARE_COUNT ->
    between (owned (c_user c) (t_list T0)) (tally (written (c_user c)) ps) (c_count c);
  i_reserved : filter (fun c => c_user c = SHARE_COUNT) (t_count T) =
    filter (fun c => c_user c = SHARE_COUNT) (t_count T0);
  i_ukeys : forall u, u ∈ c_user <$> t_count T0 -> u ∈ c_user <$> t_count T;
  i_urows : forall u, (length (filter (fun c => c_user c = u) (t_count T)) <=
    length (filter (fun c => c_user c = u) (t_count T0)) + tally (created u) ps)%nat;
  i_knows : Forall (fun p => knows (t_list T) (t_count T) (tally (counted (rq_md5 p.1)) ps)
    (tally (written (rq_user p.1)) ps) p.1 p.2) ps
}.

(** *** Replacing one process *)

Lemma tally_mid P `{forall p, Decision (P p)} l1 p l2 :
  tally P (l1 ++ p :: l2) = ((if decide (P p) then 1 else 0) + tally P (l1 ++ l2))%nat.
Proof.
  unfold tally. rewrite !filter_app, !length_app, filter_cons. destruct (decide (P p)); cbn; lia.
Qed.
Lemma new_rows_mid l1 p l2 : new_rows (l1 ++ p :: l2) ≡ₚ option_list (row_of p.2) ++ new_rows (l1 ++ l2).
Proof.
  unfold new_rows. rewrite !omap_app. cbn. destruct (row_of p.2); cbn; [|done].
  by rewrite Permutation_middle.
Qed.
Lemma Forall_mid {A} (P : A -> Prop) l1 x l2 : Forall P (l1 ++ x :: l2) <-> P x /\ Forall P (l1 ++ l2).
Proof. rewrite !Forall_app, Forall_cons. tauto. Qed.

(** The tallies after a step of one process. *)
Lemma tally_up P `{forall p, Decision (P p)} l1 a b l2 : ~ P a -> P b ->
  tally P (l1 ++ b :: l2) = S (tally P (l1 ++ a :: l2)).
Proof. intros. rewrite !tally_mid. repeat case_decide; done || lia. Qed.
Lemma tally_same P `{forall p, Decision (P p)} l1 a b l2 : (P a <-> P b) ->
  tally P (l1 ++ b :: l2) = tally P (l1 ++ a :: l2).
Proof. intros. rewrite !tally_mid. repeat case_decide; tauto || lia. Qed.
Lemma tally_le P `{forall p, Decision (P p)} l1 a b l2 : (P a -> P b) ->
  (tally P (l1 ++ a :: l2) <= tally P (l1 ++ b :: l2))%nat.
Proof. intros. rewrite !tally_mid. repeat case_decide; tauto || lia. Qed.

(** Flags are never taken back. *)
Definition later (ph ph' : phase) : Prop :=
  (has_counted ph = true -> has_counted ph' = true) /\ (has_written ph = true -> has_written ph' = true).

(** What the processes know after a step of one of them. *)
Lemma knows_step T T' l1 q ph l2 ph' :
  inv T (l1 ++ (q, ph) :: l2) -> later ph ph' ->
  (forall e, e ∈ entry <$> t_list T -> e ∈ entry <$> t_list T') ->
  (forall u, u ∈ c_user <$> t_count T -> u ∈ c_user <$> t_count T') ->
  let ps' := l1 ++ (q, ph') :: l2 in
  knows (t_list T') (t_count T') (tally (counted (rq_md5 q)) ps') (tally (written (rq_user q)) ps') q ph' ->
  Forall (fun p => knows (t_list T') (t_count T') (tally (counted (rq_md5 p.1)) ps')
    (tally (written (rq_user p.1)) ps') p.1 p.2) ps'.
Proof.
  intros HI Hl HL HC ps' Hk. apply Forall_mid. split; [exact Hk|].
  pose proof (proj2 (proj1 (Forall_mid _ _ _ _) (i_knows _ _ HI))) as Ho.
  eapply Forall_impl; [exact Ho|]. intros [q1 ph1] H1. cbn [fst snd] in *.
  destruct Hl as [Hl1 Hl2]. eapply knows_mono; [exact H1|done|done|apply tally_le..];
    intros [? ?]; split; auto.
Qed.

(** A step that only reads. *)
Lemma inv_read T l1 q ph l2 ph' :
  inv T (l1 ++ (q, ph) :: l2) -> has_counted ph' = has_counted ph -> row_of ph' = row_of ph ->
  has_written ph' = has_written ph -> has_created ph' = has_created ph ->
  (forall k1 k2, tally (counted (rq_md5 q)) (l1 ++ (q, ph) :: l2) = k1 ->
     tally (written (rq_user q)) (l1 ++ (q, ph) :: l2) = k2 ->
     knows (t_list T) (t_count T) k1 k2 q ph -> knows (t_list T) (t_count T) k1 k2 q ph') ->
  inv T (l1 ++ (q, ph') :: l2).
Proof.
  intros HI E1 E2 E3 E4 Hk.
  assert (forall m, tally (counted m) (l1 ++ (q, ph') :: l2) = tally (counted m) (l1 ++ (q, ph) :: l2)) as F1.
  { intros. apply tally_same. unfold counted. cbn [fst snd]. by rewrite E1. }
  assert (forall u, tally (written u) (l1 ++ (q, ph') :: l2) = tally (written u) (l1 ++ (q, ph) :: l2)) as F3.
  { intros. apply tally_same. unfold written. cbn [fst snd]. by rewrite E3. }
  assert (forall u, tally (created u) (l1 ++ (q, ph') :: l2) = tally (created u) (l1 ++ (q, ph) :: l2)) as F4.
  { intros. apply tally_same. unfold created. cbn [fst snd]. by rewrite E4. }
  pose proof (proj1 (proj1 (Forall_mid _ _ _ _) (i_knows _ _ HI))) as Hme. cbn [fst snd] in Hme.
  constructor.
  - pose proof (i_req _ _ HI) as Hr. rewrite Forall_mid in Hr |- *. exact Hr.
  - apply HI.
  - apply HI.
  - rewrite (i_list _ _ HI), !new_rows_mid. cbn [snd]. by rewrite E2.
  - apply HI.
  - intros f Hf. rewrite F1. by apply HI.
  - intros c Hc. rewrite F3. by apply HI.
  - apply HI.
  - apply HI.
  - intros u. rewrite F4. by apply HI.
  - eapply knows_step; [exact HI|split; congruence|done|done|]. rewrite F1, F3. by eapply Hk.
Qed.

(** What the invariant says of the process that moves, and of the requests. *)
Lemma inv_self T l1 q ph l2 : inv T (l1 ++ (q, ph) :: l2) ->
  knows (t_list T) (t_count T) (tally (counted (rq_md5 q)) (l1 ++ (q, ph) :: l2))
    (tally (written (rq_user q)) (l1 ++ (q, ph) :: l2)) q ph /\ req_ok q.
Proof.
  intros HI. pose proof (i_knows _ _ HI) as Hk. pose proof (i_req _ _ HI) as Hr.
  rewrite Forall_mid in Hk, Hr. split; [apply Hk|apply Hr].
Qed.

Lemma inv_reqs T l1 q ph ph' l2 : inv T (l1 ++ (q, ph) :: l2) ->
  Forall (fun p => req_ok p.1) (l1 ++ (q, ph') :: l2).
Proof. intros HI. pose proof (i_req _ _ HI) as Hr. rewrite Forall_mid in Hr |- *. exact Hr. Qed.

(** The reference count is written. *)
Lemma inv_count T l1 q c l2 : inv T (l1 ++ (q, Checked c) :: l2) ->
  inv (stmt_effect (UpdFileCount (c + 1) (rq_md5 q)) T) (l1 ++ (q, Counted) :: l2).
Proof.
  intros HI. destruct (inv_self _ _ _ _ _ HI) as [[Hfr Hc] Hq]. cbn [stmt_effect].
  assert (forall u, tally (written u) (l1 ++ (q, Counted) :: l2) = tally (written u) (l1 ++ (q, Checked c) :: l2)) as F2
    by (intros; by apply tally_same).
  constructor; cbn [t_user t_file t_list t_count t_share set_file].
  - by eapply inv_reqs.
  - apply HI.
  - apply HI.
  - by rewrite (i_list _ _ HI), !new_rows_mid.
  - rewrite update_keys by done. apply HI.
  - intros f (x & Hx & ->)%elem_of_update. case_decide as Em; cbn [file_set_count f_md5 f_count].
    + rewrite Em, (tally_up _ _ (q, Checked c)) by (by intros [_ ?] || done). by apply between_next.
    + rewrite (tally_same _ _ (q, Checked c)) by (unfold counted; cbn; naive_solver). by apply HI.
  - intros x. rewrite F2. by apply HI.
  - apply HI.
  - apply HI.
  - intros u. rewrite (tally_same _ _ (q, Checked c)) by done. by apply HI.
  - by eapply knows_step.
Qed.

(** The entry is inserted. *)
Lemma inv_insert T l1 q time l2 : inv T (l1 ++ (q, Timed time) :: l2) ->
  let r := ListRow (rq_user q) (rq_md5 q) time (rq_name q) 0 0 in
  inv (set_list (t_list T ++ [r]) T) (l1 ++ (q, Inserted r) :: l2).
Proof.
  intros HI r. destruct (inv_self _ _ _ _ _ HI) as [[Hfr Ht] Hq].
  constructor; cbn [t_user t_file t_list t_count t_share set_list].
  - by eapply inv_reqs.
  - apply HI.
  - apply HI.
  - rewrite (i_list _ _ HI), !new_rows_mid. cbn. rewrite <- app_assoc. by rewrite <- Permutation_cons_append.
  - apply HI.
  - intros f Hf. rewrite (tally_same _ _ (q, Timed time)) by done. by apply HI.
  - intros c Hc. rewrite (tally_same _ _ (q, Timed time)) by done. by apply HI.
  - apply HI.
  - apply HI.
  - intros u. rewrite (tally_same _ _ (q, Timed time)) by done. by apply HI.
  - eapply (knows_step T (set_list (t_list T ++ [r]) T)); [exact HI|done| |done|by split]. intros e He. cbn [t_list set_list]. rewrite fmap_app, elem_of_app. by left.
Qed.

Lemma created_written u ps : (tally (created u) ps <= tally (written u) ps)%nat.
Proof.
  induction ps as [|p ps IH]; [done|]. pose proof (tally_mid (created u) [] p ps) as E1.
  pose proof (tally_mid (written u) [] p ps) as E2. cbn [app] in E1, E2. rewrite E1, E2.
  assert (created u p -> written u p) as Hcw.
  { intros [? Hc]. split; [done|]. by destruct (p.2) as [| | | | | | | | |? [[]|]]. }
  repeat case_decide; tauto || lia.
Qed.

Lemma between_more lo k x : k <> 0%nat -> between lo k x -> between lo (S k) x.
Proof. unfold between. cbn [Nat.eqb]. destruct (Nat.eqb_spec k 0); lia. Qed.

(** The counter of the user is created. *)
Lemma inv_user_insert T l1 q r l2 : inv T (l1 ++ (q, UserNone r) :: l2) ->
  inv (set_count (t_count T ++ [CountRow (rq_user q) 1]) T) (l1 ++ (q, Done 0 (Some (r, true))) :: l2).
Proof.
  intros HI. destruct (inv_self _ _ _ _ _ HI) as [(Hfr & Er & Hu) Hq].
  set (ps := l1 ++ (q, UserNone r) :: l2) in *. set (u := rq_user q) in *.
  assert (u ∈ c_user <$> t_count T ++ [CountRow u 1]) as Hin.
  { rewrite fmap_app, elem_of_app. right. cbn. by left. }
  constructor; cbn [t_user t_file t_list t_count t_share set_count].
  - by eapply inv_reqs.
  - apply HI.
  - apply HI.
  - by rewrite (i_list _ _ HI); unfold ps; rewrite !new_rows_mid.
  - apply HI.
  - intros f Hf. rewrite (tally_same _ _ (q, UserNone r)) by done. by apply HI.
  - intros c [Hc| ->%list_elem_of_singleton]%elem_of_app Hs; [destruct (decide (c_user c = u)) as [Eu|Eu]|].
    + rewrite Eu, (tally_up _ _ (q, UserNone r)) by (by intros [_ ?] || done). apply between_more.
      * intros E0. change (tally (written u) ps = 0%nat) in E0. pose proof (created_written u ps) as Hcw. pose proof (i_urows _ _ HI u) as Hr.
        rewrite (filter_none c_user (t_count T0) u Hu) in Hr.
        assert (c ∈ filter (fun c => c_user c = u) (t_count T)) as Hf by (by apply list_elem_of_filter).
        destruct (filter _ (t_count T)); [by apply not_elem_of_nil in Hf|cbn [length] in Hr; lia].
      * rewrite <- Eu. by apply HI.
    + rewrite (tally_same _ _ (q, UserNone r)) by (unfold written; cbn; naive_solver). by apply HI.
    + cbn [c_user c_count]. rewrite (tally_up _ _ (q, UserNone r)) by (by intros [_ ?] || done).
      rewrite (uncounted T0) by done. unfold between. cbn [Nat.eqb]. lia.
  - rewrite filter_app, filter_cons_False, filter_nil, app_nil_r by apply Hq. apply HI.
  - intros x Hx. rewrite fmap_app, elem_of_app. left. by apply HI.
  - intros x. rewrite length_filter_snoc. cbn [c_user]. pose proof (i_urows _ _ HI x) as Hr.
    destruct (decide (u = x)) as [<-|Hne].
    + rewrite (tally_up (created u) _ (q, UserNone r)) by (by intros [_ ?] || done).
      change (tally (created u) (l1 ++ (q, UserNone r) :: l2)) with (tally (created u) ps). lia.
    + rewrite (tally_same (created x) _ (q, UserNone r)) by (unfold created; cbn; naive_solver).
      change (tally (created x) (l1 ++ (q, UserNone r) :: l2)) with (tally (created x) ps). lia.
  - eapply (knows_step T (set_count (t_count T ++ [CountRow u 1]) T)); [exact HI|done|done| |done]. intros x Hx. cbn [t_count set_count]. rewrite fmap_app, elem_of_app. by left.
Qed.

Lemma length_filter_update u u' n C :
  length (filter (fun c => c_user c = u) (update (fun c => c_user c = u') (count_set n) C)) =
  length (filter (fun c => c_user c = u) C).
Proof.
  induction C as [|c C IH]; [done|]. cbn [update fmap list_fmap]. rewrite !filter_cons.
  fold (update (fun c => c_user c = u') (count_set n) C).
  assert (c_user (if decide (c_user c = u') then count_set n c else c) = c_user c) as -> by (by case_decide).
  destruct (decide (c_user c = u)); cbn; by rewrite IH.
Qed.
Lemma filter_count_other u u' n C : u <> u' ->
  filter (fun c => c_user c = u) (update (fun c => c_user c = u') (count_set n) C) =
  filter (fun c => c_user c = u) C.
Proof.
  intros Hne. induction C as [|c C IH]; [done|]. cbn [update fmap list_fmap]. rewrite !filter_cons.
  fold (update (fun c => c_user c = u') (count_set n) C). destruct (decide (c_user c = u')) as [E|E].
  - change (c_user (count_set n c)) with (c_user c). by rewrite decide_False, decide_False by congruence.
  - case_decide; by rewrite IH.
Qed.

(** The counter of the user is updated. *)
Lemma inv_user_update T l1 q r c l2 : inv T (l1 ++ (q, UserRead r c) :: l2) ->
  inv (stmt_effect (UpdCount (c + 1) (rq_user q)) T) (l1 ++ (q, Done 0 (Some (r, false))) :: l2).
Proof.
  intros HI. destruct (inv_self _ _ _ _ _ HI) as [(Hfr & Er & Hu & Hc) Hq]. cbn [stmt_effect].
  constructor; cbn [t_user t_file t_list t_count t_share set_count].
  - by eapply inv_reqs.
  - apply HI.
  - apply HI.
  - by rewrite (i_list _ _ HI), !new_rows_mid.
  - apply HI.
  - intros f Hf. rewrite (tally_same _ _ (q, UserRead r c)) by done. by apply HI.
  - intros x (y & Hy & ->)%elem_of_update Hs. case_decide as Eu; cbn [count_set c_user c_count].
    + rewrite Eu, (tally_up _ _ (q, UserRead r c)) by (by intros [_ ?] || done). by apply between_next.
    + rewrite (tally_same _ _ (q, UserRead r c)) by (unfold written; cbn; naive_solver). by apply HI.
  - rewrite filter_count_other by (intros E; by apply (ro_reserved q Hq)). apply HI.
  - intros x Hx. rewrite update_keys by done. by apply HI.
  - intros x. rewrite length_filter_update, (tally_same _ _ (q, UserRead r c)) by done. by apply HI.
  - eapply (knows_step T (stmt_effect (UpdCount (c + 1) (rq_user q)) T)); [exact HI|done|done|..]; cbn [stmt_effect t_count set_count knows]; rewrite ?update_keys by done; done.
Qed.

(** Every step of the protocol keeps the invariant. *)
Lemma inv_advance T l1 q ph l2 T' ph' : inv T (l1 ++ (q, ph) :: l2) -> advance q T ph T' ph' ->
  inv T' (l1 ++ (q, ph') :: l2).
Proof.
  intros HI Ha. destruct Ha as [T|T Hm|T f Hf Em|T c He|T c He|T c|T time Ht|T time r|T r Hu|T r c Hc Eu|T r|T r c].
  - by eapply inv_read.
  - eapply inv_read; [exact HI|done..|]. intros k1 k2 _ _ _. left. split; [done|]. by rewrite <- (i_files _ _ HI).
  - eapply inv_read; [exact HI|done..|]. intros k1 k2 E1 _ _. split.
    + rewrite <- (i_files _ _ HI), <- Em. by apply list_elem_of_fmap_2.
    + apply between_was. rewrite <- E1, <- Em. by apply HI.
  - eapply inv_read; [exact HI|done..|]. intros k1 k2 _ _ _. by right.
  - eapply inv_read; [exact HI|done..|]. intros k1 k2 _ _ [Hm Hc]. split; [|done]. split; [done|].
    intros He0. apply He. rewrite (i_list _ _ HI), fmap_app, elem_of_app. by left.
  - by apply inv_count.
  - eapply inv_read; [exact HI|done..|]. done.
  - by apply inv_insert.
  - eapply inv_read; [exact HI|done..|]. intros k1 k2 _ _ [Hfr Er]. split; [done|]. split; [done|].
    intros Hin. by apply Hu, HI.
  - eapply inv_read; [exact HI|done..|]. intros k1 k2 _ E2 [Hfr Er]. split; [done|]. split; [done|]. split.
    + rewrite <- Eu. by apply list_elem_of_fmap_2.
    + apply between_was. rewrite <- E2, <- Eu. apply HI; [done|]. rewrite Eu.
      destruct (inv_self _ _ _ _ _ HI) as [_ Hq]. apply Hq.
  - by apply inv_user_insert.
  - by apply inv_user_update.
Qed.

End Invariant.

(** ** What the invariant says of the tables *)

Section Outcome.
Variable T0 : tables.
Hypothesis HT0 : consistent T0.

(** Each new row is the entry of its process. *)
Definition rows_match (ps : list proc) : Prop :=
  Forall (fun p => forall r, row_of p.2 = Some r -> entry r = req_entry p.1 /\ fresh T0 p.1 /\ req_ok p.1) ps.

Lemma inv_rows T ps : inv T0 T ps -> rows_match ps.
Proof.
  intros HI. apply Forall_forall. intros p Hp r Er.
  pose proof (proj1 (Forall_forall _ _) (i_knows _ _ _ HI) p Hp) as Hk.
  pose proof (proj1 (Forall_forall _ _) (i_req _ _ _ HI) p Hp) as Hq. cbn beta in *.
  destruct (p.2) as [| |x|x| |time|r'|r'|r' x|ret [[r' b]|]]; try done; injection Er as ->; cbn in Hk; tauto.
Qed.

Lemma new_row_from T ps r : inv T0 T ps -> r ∈ new_rows ps ->
  exists p, p ∈ ps /\ row_of p.2 = Some r /\ entry r = req_entry p.1 /\ fresh T0 p.1 /\ req_ok p.1.
Proof.
  intros HI (p & Hp & Er)%list_elem_of_omap. exists p. split; [done|]. split; [done|].
  exact (proj1 (Forall_forall _ _) (inv_rows _ _ HI) p Hp r Er).
Qed.

Lemma new_rows_cons p ps :
  new_rows (p :: ps) = match row_of p.2 with Some r => r :: new_rows ps | None => new_rows ps end.
Proof. done. Qed.

Lemma inv_stored T ps r : inv T0 T ps -> r ∈ t_list T -> l_md5 r ∈ f_md5 <$> t_file T.
Proof.
  intros HI Hr. rewrite (i_list _ _ _ HI) in Hr. rewrite (i_files _ _ _ HI).
  apply elem_of_app in Hr as [Hr|Hr]; [by apply con_stored|].
  destruct (new_row_from _ _ _ HI Hr) as (p & _ & _ & [= _ -> _] & [Hm _] & _). done.
Qed.

(** When every process is done, each increment has its entry. *)
Definition all_done (ps : list proc) : Prop := Forall (fun p => exists ret o, p.2 = Done ret o) ps.

Lemma done_rows T ps : inv T0 T ps -> all_done ps ->
  (forall m, tally (counted m) ps = refs m (new_rows ps)) /\
  (forall u, tally (written u) ps = owned u (new_rows ps)).
Proof.
  intros HI%inv_rows Hd. split; intros k; (induction ps as [|[q ph] ps IH]; [done|]);
    apply Forall_cons in Hd as [(ret & o & Ed) Hd]; cbn [snd] in Ed; subst ph; apply Forall_cons in HI as [Ep HI]; specialize (IH HI Hd);
    [pose proof (tally_mid (counted k) [] (q, Done ret o) ps) as E1|
     pose proof (tally_mid (written k) [] (q, Done ret o) ps) as E1];
    cbn [app] in E1; rewrite E1, IH, new_rows_cons; clear E1 IH HI Hd;
    destruct o as [[r b]|]; cbn [fst snd row_of] in *.
  - rewrite refs_cons. destruct (Ep r eq_refl) as [[= _ -> _] _]. repeat case_decide; unfold counted in *; naive_solver lia.
  - case_decide as Hd; [by destruct Hd|lia].
  - rewrite owned_cons. destruct (Ep r eq_refl) as [[= -> _ _] _]. repeat case_decide; unfold written in *; naive_solver lia.
  - case_decide as Hd; [by destruct Hd|lia].
Qed.

Lemma refs_app m l l' : refs m (l ++ l') = (refs m l + refs m l')%nat.
Proof. unfold refs. by rewrite filter_app, length_app. Qed.
Lemma owned_app u l l' : owned u (l ++ l') = (owned u l + owned u l')%nat.
Proof. unfold owned. by rewrite filter_app, length_app. Qed.

Lemma done_refs T ps : inv T0 T ps -> all_done ps ->
  (forall m, refs m (t_list T) = (refs m (t_list T0) + tally (counted m) ps)%nat) /\
  (forall u, owned u (t_list T) = (owned u (t_list T0) + tally (written u) ps)%nat).
Proof.
  intros HI Hd. destruct (done_rows _ _ HI Hd) as [E1 E2]. split; intros k.
  - by rewrite (refs_perm k _ _ (i_list _ _ _ HI)), refs_app, E1.
  - by rewrite (owned_perm k _ _ (i_list _ _ _ HI)), owned_app, E2.
Qed.

(** *** Uploads that have nothing in common *)

(** At most one process satisfies a property that determines its request. *)
Lemma tally_unique {K} (key : req -> K) (k : K) P `{forall p, Decision (P p)} (ps : list proc) :
  NoDup (key <$> (fst <$> ps)) -> (forall p, P p -> key p.1 = k) -> (tally P ps <= 1)%nat.
Proof.
  intros Hn HP. unfold tally. induction ps as [|p ps IH]; [cbn; lia|].
  rewrite !fmap_cons in Hn. apply NoDup_cons in Hn as [Hp Hn]. rewrite filter_cons. case_decide as Hd; [|auto].
  rewrite filter_empty; [done|]. intros p' Hp' HP'. apply Hp. rewrite (HP _ Hd), <- (HP _ HP').
  by apply list_elem_of_fmap_2, list_elem_of_fmap_2.
Qed.

Lemma between_exact lo k x : (k <= 1)%nat -> between lo k x -> x = Z.of_nat (lo + k).
Proof. unfold between. intros. destruct (Nat.eqb_spec k 0); lia. Qed.

Lemma NoDup_counted (C : list count_row) :
  (forall u, (length (filter (fun c => c_user c = u) C) <= 1)%nat) -> NoDup (c_user <$> C).
Proof.
  induction C as [|c C IH]; intros Hl; [constructor|]. rewrite fmap_cons. apply NoDup_cons. split.
  - intros (c' & Ec & Hc')%list_elem_of_fmap. specialize (Hl (c_user c)). rewrite filter_cons_True in Hl by done.
    assert (c' ∈ filter (fun x => c_user x = c_user c) C) as Hin by (by apply list_elem_of_filter).
    destruct (filter _ C); [by apply not_elem_of_nil in Hin|cbn [length] in Hl; lia].
  - apply IH. intros u. specialize (Hl u). rewrite filter_cons in Hl. case_decide; cbn [length] in Hl; lia.
Qed.

(** The user's counters are not doubled. *)
Lemma disjoint_counts T ps : inv T0 T ps -> NoDup (rq_user <$> (fst <$> ps)) -> NoDup (c_user <$> t_count T).
Proof.
  intros HI Hn. apply NoDup_counted. intros u. pose proof (i_urows _ _ _ HI u) as Hr.
  pose proof (tally_unique rq_user u (created u) ps Hn (fun p Hp => proj1 Hp)) as H1.
  destruct (decide (u ∈ c_user <$> t_count T0)) as [Hu|Hu]; [|rewrite (filter_none c_user _ u Hu) in Hr; cbn in Hr; lia].
  assert (tally (created u) ps = 0%nat) as E0.
  { unfold tally. rewrite filter_empty; [done|]. intros [q ph] Hp [Eu Hc]. cbn [fst snd] in *.
    pose proof (proj1 (Forall_forall _ _) (i_knows _ _ _ HI) _ Hp) as Hk. cbn [fst snd] in Hk.
    destruct ph as [| | | | | | | | |ret [[r b]|]]; try done. cbn in Hc, Hk. subst u b.
    destruct Hk as (_ & _ & _ & _ & Hb). by apply Hb. }
  apply list_elem_of_fmap in Hu as (c0 & -> & Hc0).
  rewrite (filter_unique c_user _ c0 (con_counts _ HT0) Hc0), E0 in Hr. cbn in Hr. lia.
Qed.

Lemma disjoint_entries T ps : inv T0 T ps -> NoDup (rq_md5 <$> (fst <$> ps)) -> NoDup (entry <$> t_list T).
Proof.
  intros HI Hn. rewrite (i_list _ _ _ HI), fmap_app. apply NoDup_app. split; [apply HT0|]. split.
  - intros e He Hne. apply list_elem_of_fmap in Hne as (r & -> & Hr).
    destruct (new_row_from _ _ _ HI Hr) as (p & _ & _ & E & [_ Hf] & _). by rewrite E in He.
  - apply (sublist_NoDup _ (req_entry <$> (fst <$> ps))).
    + apply (NoDup_fmap_1 (fun e => e.1.2)). by rewrite <- list_fmap_compose.
    + apply inv_rows in HI. clear Hn. induction ps as [|p ps IH]; [constructor|].
      apply Forall_cons in HI as [Ep HI]. rewrite new_rows_cons, !fmap_cons.
      destruct (row_of p.2) as [r|]; [rewrite fmap_cons|by constructor; apply IH].
      destruct (Ep r eq_refl) as [-> _]. constructor. by apply IH.
Qed.

(** Uploads of different contents by different users leave exact counters. *)
Lemma disjoint_consistent T ps : inv T0 T ps -> all_done ps ->
  NoDup (rq_md5 <$> (fst <$> ps)) -> NoDup (rq_user <$> (fst <$> ps)) -> consistent T.
Proof.
  intros HI Hd Hm Hu. destruct (done_refs _ _ HI Hd) as [Er Eo]. constructor.
  - by eapply disjoint_entries.
  - rewrite (i_files _ _ _ HI). by apply con_files.
  - by eapply disjoint_counts.
  - intros f Hf. rewrite Er. eapply between_exact; [|by apply HI].
    exact (tally_unique rq_md5 (f_md5 f) (counted (f_md5 f)) ps Hm (fun p Hp => proj1 Hp)).
  - intros r. by apply (inv_stored _ ps).
  - intros c Hc Hs. rewrite Eo. eapply between_exact; [|by apply HI].
    exact (tally_unique rq_user (c_user c) (written (c_user c)) ps Hu (fun p Hp => proj1 Hp)).
  - intros r Hr. rewrite (i_list _ _ _ HI) in Hr. apply elem_of_app in Hr as [Hr|Hr].
    + by apply HI, con_counted.
    + destruct (new_row_from _ _ _ HI Hr) as ([q ph] & Hp & Eq & [= -> _ _] & _). cbn [fst snd] in *.
      pose proof (proj1 (Forall_forall _ _) (i_knows _ _ _ HI) _ Hp) as Hk.
      destruct (proj1 (Forall_forall _ _) Hd _ Hp) as (ret & [[r' b]|] & E); cbn [fst snd] in *; subst ph; [|done].
      apply Hk.
  - intros r Hr. rewrite (i_list _ _ _ HI) in Hr. apply elem_of_app in Hr as [Hr|Hr]; [by apply (con_reserved _ HT0)|].
    destruct (new_row_from _ _ _ HI Hr) as (p & _ & _ & [= -> _ _] & _ & Hq). apply Hq.
  - rewrite (i_share _ _ _ HI). by apply con_shares.
  - intros c Hc Ec. rewrite (i_share _ _ _ HI). apply (con_shared _ HT0); [|done].
    assert (c ∈ filter (fun x => c_user x = SHARE_COUNT) (t_count T)) as Hf by (by apply list_elem_of_filter).
    rewrite (i_reserved _ _ _ HI) in Hf. by apply list_elem_of_filter in Hf as [_ ?].
  - rewrite (i_share _ _ _ HI). intros Hs. by apply HI, con_share_counted.
Qed.

End Outcome.

(** ** Every interleaving *)

(** The steps a process has left. *)
Definition steps_left (ph : phase) : nat :=
  match ph with
  | Start => 8 | Named => 7 | CountRead _ => 6 | Checked _ => 5 | Counted => 4 | Timed _ => 3
  | Inserted _ => 2 | UserNone _ | UserRead _ _ => 1 | Done _ _ => 0
  end.
Definition all_left (ps : list proc) : nat := sum_list_with (fun p => steps_left p.2) ps.

Lemma advance_left q T ph T' ph' : advance q T ph T' ph' -> (steps_left ph' < steps_left ph)%nat.
Proof. destruct 1; cbn; lia. Qed.

Lemma all_left_mid l1 p l2 : all_left (l1 ++ p :: l2) = (steps_left p.2 + all_left (l1 ++ l2))%nat.
Proof. unfold all_left. rewrite !sum_list_with_app. cbn. lia. Qed.

Section Interleavings.
Context {SV : Services} {SQ : SqlServer}.
Variable T0 : tables.
Hypothesis HT0 : consistent T0.
Variable reqs : list req.
Hypothesis Hlen : Z.of_nat (length (t_list T0)) + Z.of_nat (length reqs) < INT_MAX.

(** A configuration and the phases its processes are in. *)
Record sim (c : config) (ps : list proc) : Prop := {
  sim_serving : serving (c_db c);
  sim_time : strftime_text (c_now c) = true;
  sim_reqs : fst <$> ps = reqs;
  sim_inv : inv T0 (db_tables (c_db c)) ps;
  sim_code : Forall2 (fun p pr => exists tmp, p = code pr.1 tmp pr.2) (c_procs c) ps
}.

Lemma tally_length P `{forall p, Decision (P p)} ps : fst <$> ps = reqs -> (tally P ps <= length reqs)%nat.
Proof. intros <-. rewrite length_fmap. apply length_filter. Qed.

Lemma was_between_int lo k x : (lo <= length (t_list T0))%nat -> (k <= length reqs)%nat ->
  was_between lo k x -> is_int x /\ is_int (x + 1).
Proof. unfold was_between, is_int, INT_MAX in *. lia. Qed.

Lemma sim_readable c ps : sim c ps -> readable (db_tables (c_db c)).
Proof.
  intros [_ _ Hr HI _]. split.
  - intros f Hf. eapply was_between_int, between_was, HI; eauto using refs_le, tally_length.
  - intros x Hx Hs. eapply was_between_int, between_was, HI; eauto using owned_le, tally_length.
Qed.

Lemma sim_phase_ok c ps l1 q ph l2 : sim c ps -> ps = l1 ++ (q, ph) :: l2 -> req_ok q /\ phase_ok ph.
Proof.
  intros [_ _ Hr HI _] ->. destruct (inv_self _ _ _ _ _ _ HI) as [Hk Hq]. split; [done|].
  destruct ph as [| |x|x| |time|r|r|r x|ret o]; cbn in Hk |- *; try done.
  - apply (was_between_int _ _ x (refs_le (rq_md5 q) _) (tally_length (counted (rq_md5 q)) _ Hr)), Hk.
  - apply (was_between_int _ _ x (refs_le (rq_md5 q) _) (tally_length (counted (rq_md5 q)) _ Hr)), Hk.
  - apply Hk.
  - apply (was_between_int _ _ x (owned_le (rq_user q) _) (tally_length (written (rq_user q)) _ Hr)), Hk.
Qed.

(** A step of a configuration is a step of the protocol. *)
Lemma sim_step c ps c' : sim c ps -> pstep c c' ->
  exists ps', sim c' ps' /\ (all_left ps' < all_left ps)%nat.
Proof.
  intros Hs Hst. pose proof (sim_readable _ _ Hs) as HT. pose proof Hs as [Hv Ht Hr HI Hc].
  assert (forall q ph ph' l1' l2' db' p' l1 l2 tmp T' time, ps = l1' ++ (q, ph) :: l2' ->
    T' = db_tables db' -> serving db' -> strftime_text time = true ->
    advance q (db_tables (c_db c)) ph T' ph' -> p' = code q tmp ph' ->
    Forall2 (fun p pr => exists tmp, p = code pr.1 tmp pr.2) l1 l1' ->
    Forall2 (fun p pr => exists tmp, p = code pr.1 tmp pr.2) l2 l2' ->
    exists ps', sim (Config db' time (l1 ++ p' :: l2)) ps' /\ (all_left ps' < all_left ps)%nat) as Hmove.
  { intros q ph ph' l1' l2' db' p' l1 l2 tmp T' time -> -> Hv' Ht' Ha -> H1 H2.
    exists (l1' ++ (q, ph') :: l2'). split.
    - split; try done; cbn [c_db c_procs].
      + rewrite <- Hr, !fmap_app. done.
      + by eapply inv_advance.
      + apply Forall2_app; [done|]. constructor; [|done]. by eexists.
    - apply advance_left in Ha. rewrite !all_left_mid. cbn. lia. }
  destruct Hst as [db time l1 st k l2 db' r E|db time l1 k l2]; cbn [c_db c_now c_procs] in *;
    apply Forall2_app_inv_l in Hc as (l1' & l2'' & H1 & H2 & ->);
    apply Forall2_cons_inv_l in H2 as ([q ph] & l2' & [tmp Ep] & H2 & ->); cbn [fst snd] in Ep;
    destruct (sim_phase_ok _ _ _ _ _ _ Hs eq_refl) as [Hq Hp].
  - destruct (sim_query q tmp ph st k db db' r Hq Hp HT Hv (eq_sym Ep) E) as (Hv' & tmp' & ph' & Ek & Ha).
    by eapply Hmove.
  - pose proof (code_next q tmp ph Hq Hp) as Hn. rewrite <- Ep in Hn. inversion Hn as [|k' Hk' E1 E2|]; subst.
    eapply Hmove; [done..|by apply adv_time|apply Hk'|done|done].
Qed.

(** Any number of steps. *)
Lemma sim_runs n c c' ps : runs n c c' -> sim c ps -> exists ps', sim c' ps' /\ (n + all_left ps' <= all_left ps)%nat.
Proof.
  intros Hr Hs. induction Hr as [c|n c c' c'' Hr IH Hst|n c c' time Hr IH Ht].
  - exists ps. split; [done|lia].
  - destruct (IH Hs) as (ps1 & Hs1 & Hl1). destruct (sim_step _ _ _ Hs1 Hst) as (ps2 & Hs2 & Hl2).
    exists ps2. split; [done|lia].
  - destruct (IH Hs) as (ps1 & [] & Hl1). exists ps1. by split.
Qed.

(** At the beginning. *)
Definition start_of (db : Db) (time : string) : config := Config db time (upload <$> reqs).

Lemma sim_start db time : serving db -> db_tables db = T0 -> strftime_text time = true ->
  Forall req_ok reqs -> sim (start_of db time) ((fun q => (q, Start)) <$> reqs).
Proof.
  intros Hv HT Ht Hq.
  assert (forall P `{forall p, Decision (P p)}, (forall q, ~ P (q, Start)) ->
    tally P ((fun q => (q, Start)) <$> reqs) = 0%nat) as H0.
  { intros P HP Hn. unfold tally. rewrite filter_empty; [done|].
    intros p (q & -> & _)%list_elem_of_fmap. apply Hn. }
  split; try done.
  - rewrite <- list_fmap_compose. apply list_fmap_id.
  - cbn [c_db start_of]. rewrite HT. constructor; try done.
    + by apply Forall_fmap.
    + assert (new_rows ((fun q => (q, Start)) <$> reqs) = []) as ->; [|by rewrite app_nil_r].
      clear. induction reqs; [done|]. exact IHl.
    + intros f Hf. rewrite H0 by (by intros q [_ ?]). rewrite (con_refs _ HT0 f Hf). unfold between. cbn. lia.
    + intros x Hx Hs. rewrite H0 by (by intros q [_ ?]). rewrite (con_owned _ HT0 x Hx Hs). unfold between. cbn. lia.
    + intros u. lia.
    + by apply Forall_fmap, Forall_true.
  - cbn [c_procs start_of]. apply Forall2_fmap, Forall_Forall2_diag, Forall_true. intros [u m n]. by exists ""%string.
Qed.

(** A finished configuration has finished processes. *)
Lemma sim_finished c ps : sim c ps -> finished c -> all_done ps.
Proof.
  intros Hs Hf. apply Forall_forall. intros [q ph] Hp. cbn [snd].
  apply list_elem_of_split in Hp as (l1 & l2 & ->). destruct (sim_phase_ok _ _ _ _ _ _ Hs eq_refl) as [Hq Hph].
  destruct Hs as [_ _ _ _ Hc]. apply Forall2_app_inv_r in Hc as (k1 & k2 & _ & H2 & E).
  apply Forall2_cons_inv_r in H2 as (p & k3 & [tmp Ep] & _ & ->). cbn [fst snd] in Ep.
  assert (p ∈ c_procs c) as Hin by (rewrite E; set_solver).
  destruct (proj1 (Forall_forall _ _) Hf p Hin) as [ret Er].
  pose proof (code_next q tmp ph Hq Hph) as Hn. rewrite <- Ep, Er in Hn. inversion Hn; eauto.
Qed.

(** A process that is not done can go on, and none is stuck. *)
Lemma sim_progress c ps : sim c ps -> (forall u, Stuck u ∉ c_procs c) /\ (finished c \/ exists c', pstep c c').
Proof.
  intros Hs.
  assert (Forall (fun p => (exists ret, p = Return ret) \/ (exists k, p = Clock k) \/ exists st k, p = Query st k) (c_procs c)) as Hn.
  { apply Forall_forall. intros p Hp. apply list_elem_of_split in Hp as (k1 & k2 & E).
    pose proof (sim_code _ _ Hs) as Hc. rewrite E in Hc.
    apply Forall2_app_inv_l in Hc as (l1 & l2 & _ & H2 & Eps).
    apply Forall2_cons_inv_l in H2 as ([q ph] & l3 & [tmp Ep] & _ & ->). cbn [fst snd] in Ep.
    destruct (sim_phase_ok _ _ _ _ _ _ Hs Eps) as [Hq Hph].
    pose proof (code_next q tmp ph Hq Hph) as Hn. rewrite <- Ep in Hn. inversion Hn; eauto. }
  split.
  - intros u Hu. by destruct (proj1 (Forall_forall _ _) Hn _ Hu) as [[? ?]|[[? ?]|(? & ? & ?)]].
  - destruct c as [db time l]. cbn [c_procs] in Hn. clear Hs. unfold finished. cbn [c_procs].
    assert (Forall (fun p => exists ret, p = Return ret) l \/
      exists l1 p l2, l = l1 ++ p :: l2 /\ ((exists k, p = Clock k) \/ exists st k, p = Query st k)) as Hc.
    { induction Hn as [|p l [Hp|Hp] _ IH]; [by left| |right; by exists [], p, l].
      destruct IH as [IH|(l1 & p' & l2 & -> & IH)]; [left; by constructor|right]. by exists (p :: l1), p', l2. }
    destruct Hc as [Hc|(l1 & p & l2 & -> & [[k ->]|(st & k & ->)])]; [by left|right..].
    + eexists. apply step_clock.
    + destruct (mysql_exec db (render st)) as [db' r] eqn:E. eexists. by apply step_query.
Qed.

(** The answers of finished processes. *)
Lemma sim_answers c ps : sim c ps -> finished c ->
  Forall2 (fun q p =>
    (p = Return 0 /\ req_entry q ∈ entry <$> t_list (db_tables (c_db c)) /\ req_entry q ∉ entry <$> t_list T0) \/
    (p = Return (-2) /\ req_entry q ∈ entry <$> t_list (db_tables (c_db c))) \/
    (p = Return (-3) /\ rq_md5 q ∉ f_md5 <$> t_file T0)) reqs (c_procs c).
Proof.
  intros Hs Hf. pose proof (sim_finished _ _ Hs Hf) as Hd. destruct Hs as [_ _ Hr HI Hc].
  rewrite <- Hr. apply Forall2_fmap_l. set (good := fun (q : req) (p : prog Z) => _ \/ _).
  assert (Forall (fun pr => forall tmp, good pr.1 (code pr.1 tmp pr.2)) ps) as Hg.
  { apply Forall_forall. intros [q ph] Hp tmp. unfold good. cbn [fst snd].
    destruct (proj1 (Forall_forall _ _) Hd _ Hp) as (ret & o & E). cbn [snd] in E. subst ph.
    pose proof (proj1 (Forall_forall _ _) (i_knows _ _ _ HI) _ Hp) as Hk. cbn [fst snd] in Hk.
    destruct q as [u m n]. cbn [code]. destruct o as [[r b]|]; cbn in Hk.
    - destruct Hk as (-> & [_ Hfr] & Er & _). left. split; [done|]. split; [|done]. rewrite <- Er.
      apply (list_elem_of_fmap_2 entry). rewrite (i_list _ _ _ HI), elem_of_app. right.
      apply list_elem_of_omap. by eexists (_, _).
    - destruct Hk as [[-> ?]|[-> ?]]; auto. }
  clear - Hc Hg. induction Hc as [|p pr l ps [tmp ->] _ IH]; [constructor|].
  apply Forall_cons in Hg as [Hp Hg]. constructor; [apply Hp | by apply IH].
Qed.

End Interleavings.

(** ** Schedules *)

Section Schedules.
Context `{Services}.

(** Running a list of process numbers. *)
Fixpoint play (schedule : list nat) (c : config) : option config :=
  match schedule with
  | [] => Some c
  | i :: schedule =>
      match c_procs c !! i with
      | Some (Query st k) =>
          let '(db, r) := mysql_exec (c_db c) (render st) in
          play schedule (Config db (c_now c) (<[i := k r]> (c_procs c)))
      | Some (Clock k) => play schedule (Config (c_db c) (c_now c) (<[i := k (c_now c)]> (c_procs c)))
      | _ => None
      end
  end.

Lemma insert_mid {A} (l : list A) i x y : l !! i = Some x ->
  exists l1 l2, l = l1 ++ x :: l2 /\ <[i := y]> l = l1 ++ y :: l2.
Proof.
  intros Hi. exists (take i l), (drop (S i) l). split; [by rewrite take_drop_middle|].
  apply insert_take_drop. by eapply lookup_lt_Some.
Qed.

Lemma play_runs schedule c0 n c c' : runs n c0 c -> play schedule c = Some c' ->
  runs (n + length schedule) c0 c'.
Proof.
  revert n c. induction schedule as [|i schedule IH]; intros n [db time ps] Hr Hp; cbn in Hp.
  - injection Hp as <-. by rewrite Nat.add_0_r.
  - destruct (ps !! i) as [[| |st k|k]|] eqn:Ei; try done.
    + destruct (mysql_exec db (render st)) as [db' r] eqn:E.
      destruct (insert_mid ps i _ (k r) Ei) as (l1 & l2 & -> & Ein). rewrite Ein in Hp.
      cbn [length]. rewrite <- Nat.add_succ_comm. eapply IH; [|exact Hp].
      eapply runs_step; [exact Hr|]. by apply step_query.
    + destruct (insert_mid ps i _ (k time) Ei) as (l1 & l2 & -> & Ein). rewrite Ein in Hp.
      cbn [length]. rewrite <- Nat.add_succ_comm. eapply IH; [|exact Hp].
      eapply runs_step; [exact Hr|]. apply step_clock.
Qed.

Definition is_return (p : prog Z) : bool := match p with Return _ => true | _ => false end.
Lemma all_return c : forallb is_return (c_procs c) = true -> finished c.
Proof.
  intros Hb. apply Forall_forall. intros p Hp. rewrite forallb_forall in Hb.
  apply list_elem_of_In in Hp. specialize (Hb p Hp). destruct p; try done. by eexists.
Qed.

End Schedules.

(** ** Theorems *)

Section Theorems.
Context {SV : Services} {SQ : SqlServer}.

Lemma tally_requests m ps :
  (tally (counted m) ps <= length (filter (fun q => rq_md5 q = m) (fst <$> ps)))%nat.
Proof.
  induction ps as [|p ps IH]; [done|]. pose proof (tally_mid (counted m) [] p ps) as E. cbn [app] in E.
  rewrite E, fmap_cons, filter_cons. unfold counted at 1. repeat case_decide; cbn [length]; naive_solver lia.
Qed.

(** C10: any number of uploads by digest, interleaved statement by statement in any
    order on a serving database with consistent counters: no process reaches
    undefined behaviour, the processes take at most eight steps each and are
    never blocked, and at every moment each entry has its content and each
    reference count is at least what it was and at most that plus the number of
    uploads of the content. *)
Theorem uploads_interleave (db : Db) (time : string) (reqs : list req) (n : nat) (c : config)
    (Hs : serving db) (HT : consistent (db_tables db)) (Ht : strftime_text time = true)
    (Hlen : Z.of_nat (length (t_list (db_tables db))) + Z.of_nat (length reqs) < INT_MAX)
    (Hq : Forall req_ok reqs) (Hr : runs n (start_of reqs db time) c) :
  let T0 := db_tables db in let T := db_tables (c_db c) in
  (n <= 8 * length reqs)%nat /\ (finished c \/ exists c', pstep c c') /\
  (forall u, Stuck u ∉ c_procs c) /\
  (forall r, r ∈ t_list T -> l_md5 r ∈ f_md5 <$> t_file T) /\
  (forall f, f ∈ t_file T -> Z.of_nat (refs (f_md5 f) (t_list T0)) <= f_count f <=
     Z.of_nat (refs (f_md5 f) (t_list T0)) + Z.of_nat (length (filter (fun q => rq_md5 q = f_md5 f) reqs))).
Proof.
  intros T0 T. pose proof (sim_start T0 HT reqs db time Hs eq_refl Ht Hq) as H0.
  destruct (sim_runs T0 HT reqs Hlen n _ _ _ Hr H0) as (ps & Hsim & Hn).
  destruct (sim_progress T0 reqs Hlen c ps Hsim) as [Hst Hgo]. pose proof Hsim as [_ _ Er HI _].
  split; [|split; [exact Hgo|split; [exact Hst|split]]].
  - assert (all_left ((fun q => (q, Start)) <$> reqs) = 8 * length reqs)%nat as E8; [|lia].
    clear. induction reqs as [|q reqs IH]; [done|].
    change (8 + all_left ((fun q => (q, Start)) <$> reqs) = 8 * S (length reqs))%nat. rewrite IH. lia.
  - intros r. by apply (inv_stored T0 HT _ ps).
  - intros f Hf. pose proof (between_was _ _ _ (i_count _ _ _ HI f Hf)) as [H1 H2].
    pose proof (tally_requests (f_md5 f) ps) as H3. rewrite Er in H3. lia.
Qed.

(** C11: when the interleaved uploads have finished, each answered 005 and has its
    entry, or 004 and the entry was there, or 006 and the content is unknown; a
    counter of references or of a user's files may have lost updates but is never
    above the number of entries it counts and has grown when that number has; and
    uploads of different contents by different users leave consistent counters. *)
Theorem uploads_interleave_end (db : Db) (time : string) (reqs : list req) (n : nat) (c : config)
    (Hs : serving db) (HT : consistent (db_tables db)) (Ht : strftime_text time = true)
    (Hlen : Z.of_nat (length (t_list (db_tables db))) + Z.of_nat (length reqs) < INT_MAX)
    (Hq : Forall req_ok reqs) (Hr : runs n (start_of reqs db time) c) (Hf : finished c) :
  let T0 := db_tables db in let T := db_tables (c_db c) in
  Forall2 (fun q p =>
    (p = Return 0 /\ req_entry q ∈ entry <$> t_list T /\ req_entry q ∉ entry <$> t_list T0) \/
    (p = Return (-2) /\ req_entry q ∈ entry <$> t_list T) \/
    (p = Return (-3) /\ rq_md5 q ∉ f_md5 <$> t_file T0)) reqs (c_procs c) /\
  (forall f, f ∈ t_file T -> let r0 := Z.of_nat (refs (f_md5 f) (t_list T0)) in
     let r := Z.of_nat (refs (f_md5 f) (t_list T)) in r0 <= f_count f <= r /\ (r0 < r -> r0 < f_count f)) /\
  (forall x, x ∈ t_count T -> c_user x <> SHARE_COUNT -> let o0 := Z.of_nat (owned (c_user x) (t_list T0)) in
     let o := Z.of_nat (owned (c_user x) (t_list T)) in o0 <= c_count x <= o /\ (o0 < o -> o0 < c_count x)) /\
  (NoDup (rq_md5 <$> reqs) -> NoDup (rq_user <$> reqs) -> consistent T).
Proof.
  intros T0 T. pose proof (sim_start T0 HT reqs db time Hs eq_refl Ht Hq) as H0.
  destruct (sim_runs T0 HT reqs Hlen n _ _ _ Hr H0) as (ps & Hsim & _).
  pose proof (sim_finished T0 HT reqs Hlen c ps Hsim Hf) as Hd. pose proof Hsim as [_ _ Er HI _].
  destruct (done_refs T0 _ ps HI Hd) as [E1 E2].
  split; [by apply (sim_answers T0 HT reqs Hlen c ps)|split; [|split]].
  - intros f Hin r0 r. pose proof (i_count _ _ _ HI f Hin) as Hb. unfold between in Hb. unfold r, r0.
    rewrite E1. destruct (Nat.eqb_spec (tally (counted (f_md5 f)) ps) 0); lia.
  - intros x Hin Hsh o0 o. pose proof (i_ucount _ _ _ HI x Hin Hsh) as Hb. unfold between in Hb. unfold o, o0.
    rewrite E2. destruct (Nat.eqb_spec (tally (written (c_user x)) ps) 0); lia.
  - intros Hm Hu. apply (disjoint_consistent T0 HT _ ps HI Hd); by rewrite Er.
Qed.

End Theorems.
