(* ===== verification/FilesOp.v ===== *)
(** Operations on a user's file (src/src/cgi/cgi_filesop.c): share, delete and
    count a download. *)

From Stdlib Require Import ZArith Lia Bool Ascii String.
From stdpp Require Import base tactics numbers list strings gmap.
From S2P Require Import Prelude Text Double CJson CJsonParse CJsonPrint World MysqlOp RedisOp.
From S2P Require Import Sql Kv CgiCommon Logic Catalogue.

(** The arrays of [main], which live as long as the process: [None] is an array
    that was never written. *)
Record op_bufs := OpBufs {
  ob_user : option string; ob_token : option string;
  ob_md5 : option string; ob_filename : option string }.

Section FilesOp.
Context `{Services}.

(** Reading an array that may never have been written. *)
Definition need (o : option string) : M string :=
  match o with None => undef Uninit | Some s => mret s end.

Definition get_json_info (buf : string) (b : op_bufs) : M (Z * op_bufs) :=
  match cJSON_Parse buf with
  | None => mret (-1, b)
  | Some root =>
      o ← copy_item root "user" USER_NAME_LEN;
      match o with None => mret (-1, b) | Some user =>
      let b := OpBufs (Some user) (ob_token b) (ob_md5 b) (ob_filename b) in
      o ← copy_item root "md5" MD5_LEN;
      match o with None => mret (-1, b) | Some md5 =>
      let b := OpBufs (Some user) (ob_token b) (Some md5) (ob_filename b) in
      o ← copy_item root "filename" FILE_NAME_LEN;
      match o with None => mret (-1, b) | Some filename =>
      let b := OpBufs (Some user) (ob_token b) (Some md5) (Some filename) in
      o ← copy_item root "token" TOKEN_LEN;
      match o with None => mret (-1, b) | Some token =>
      mret (0, OpBufs (Some user) (Some token) (Some md5) (Some filename))
      end end end end
  end.

(** [share_file] once both connections are open. *)
Definition share_file_body (user md5 filename : string) : M Z :=
  set_names;;
  fileid ← sprintf 1024 (md5 +:+ filename);
  ret2 ← rop_zset_exit FILE_PUBLIC_ZSET fileid;
  if ret2 =? 1 then mret (-2) else
  if negb (ret2 =? 0) then mret (-1) else
  '(ret2, _) ← sql_one (SelShare md5 filename) None;
  if ret2 =? 2 then rop_zset_add FILE_PUBLIC_ZSET 0 fileid;; mret (-2) else
  failed ← sql_do (UpdShared1 user md5 filename);
  if failed : bool then mret (-1) else
  create_time ← now;
  failed ← sql_do (InsShare (ShareRow user md5 create_time filename 0));
  if failed : bool then mret (-1) else
  ret ← bump_user_count (InsCount' SHARE_COUNT 1) SHARE_COUNT "";
  if negb (ret =? 0) then mret ret else
  rop_zset_add FILE_PUBLIC_ZSET 0 fileid;;
  rop_hash_set FILE_NAME_HASH fileid filename;;
  mret 0.

(** The frame of the operations that use both servers: open Redis, then MySQL,
    run [body], print a status, close what was opened. *)
Definition with_servers (cfg : settings) (body : M Z) (status : Z -> option string) : M Z :=
  redis_conn ← rop_connectdb_nopwd (redis_ip cfg) (redis_port cfg);
  '(ret, conn) ← (if redis_conn : bool then
                    conn ← msql_conn (mysql_user cfg) (mysql_pwd cfg) (mysql_db cfg);
                    if conn : bool then ret ← body; mret (ret, true) else mret (-1, false)
                  else mret (-1, false));
  match status ret with Some s => printf (return_status s) | None => mret tt end;;
  (if redis_conn : bool then rop_disconnect else mret tt);;
  (if conn : bool then mysql_close else mret tt);;
  mret ret.

Definition share_status (ret : Z) : option string :=
  if ret =? 0 then Some "010" else if ret =? -1 then Some "011" else
  if ret =? -2 then Some "012" else None.

Definition share_file (cfg : settings) (user md5 filename : string) : M Z :=
  with_servers cfg (share_file_body user md5 filename) share_status.

Definition remove_file_from_storage (fileid : string) : M Z :=
  '(_, fdfs_cli_conf_path) ← cfg_value 256 "dfs_path" "client";
  cmd ← sprintf (1024 * 2) (cformat "fdfs_delete_file %s %s" [RS fdfs_cli_conf_path; RS fileid]);
  system cmd.

(** Is the file shared? Result: [share], [flag] and the text of [tmp]; [None]
    stands for [ret = -1; goto END]. *)
Definition del_lookup (user md5 filename fileid : string) : M (option (Z * Z * string)) :=
  ret2 ← rop_zset_exit FILE_PUBLIC_ZSET fileid;
  if ret2 =? 1 then mret (Some (1, 1, "")) else
  if negb (ret2 =? 0) then mret None else
  '(ret2, tmp) ← sql_one (SelShared user md5 filename) (Some (512%nat, ""));
  if ret2 =? 0 then mret (Some (atoi tmp, 0, tmp)) else
  if ret2 =? -1 then mret None else mret (Some (0, 0, tmp)).

(** Withdraw the share. *)
Definition del_unshare (user md5 filename fileid tmp : string) (flag : Z) : M (option string) :=
  failed ← sql_do (DelShare user md5 filename);
  if failed : bool then mret None else
  '(ret2, tmp) ← sql_one (SelCount SHARE_COUNT) (Some (512%nat, tmp));
  if negb (ret2 =? 0) then mret None else
  count ← to_int (atoi tmp - 1);
  failed ← sql_do (UpdCount count SHARE_COUNT);
  if failed : bool then mret None else
  (if flag =? 1 then
     rop_zset_zrem FILE_PUBLIC_ZSET fileid;;
     rop_hash_del FILE_NAME_HASH fileid;; mret tt
   else mret tt);;
  mret (Some tmp).

(** The user's counter and the entry of the user's list. *)
Definition del_entry (user md5 filename tmp : string) : M (option string) :=
  '(ret2, tmp) ← sql_one (SelCount user) (Some (512%nat, tmp));
  if negb (ret2 =? 0) then mret None else
  let count := atoi tmp in
  failed ← (if count =? 1 then sql_do (DelCount user)
            else count ← to_int (count - 1); sql_do (UpdCount count user));
  if failed : bool then mret None else
  failed ← sql_do (DelList user md5 filename);
  if failed : bool then mret None else mret (Some tmp).

(** The reference count of the content, and its removal with the last
    reference. *)
Definition del_content (md5 tmp : string) : M Z :=
  '(ret2, tmp) ← sql_one (SelFileCount md5) (Some (512%nat, tmp));
  if negb (ret2 =? 0) then mret (-1) else
  count ← to_int (atoi tmp - 1);
  failed ← sql_do (UpdFileCount' count md5);
  if failed : bool then mret (-1) else
  if negb (count =? 0) then mret 0 else
  '(ret2, tmp) ← sql_one (SelFileId md5) (Some (512%nat, tmp));
  if negb (ret2 =? 0) then mret (-1) else
  failed ← sql_do (DelFile md5);
  if failed : bool then mret (-1) else
  ret2 ← remove_file_from_storage tmp;
  mret (if ret2 =? 0 then 0 else -1).

(** [del_file] once both connections are open. *)
Definition del_file_body (user md5 filename : string) : M Z :=
  set_names;;
  fileid ← sprintf 1024 (md5 +:+ filename);
  st ← del_lookup user md5 filename fileid;
  match st with
  | None => mret (-1)
  | Some (share, flag, tmp) =>
      o ← (if share =? 1 then del_unshare user md5 filename fileid tmp flag else mret (Some tmp));
      match o with
      | None => mret (-1)
      | Some tmp =>
          o ← del_entry user md5 filename tmp;
          match o with
          | None => mret (-1)
          | Some tmp => del_content md5 tmp
          end
      end
  end.

Definition del_status (ret : Z) : option string := Some (if ret =? 0 then "013" else "014").

Definition del_file (cfg : settings) (user md5 filename : string) : M Z :=
  with_servers cfg (del_file_body user md5 filename) del_status.

Definition pv_file_body (user md5 filename : string) : M Z :=
  set_names;;
  '(ret2, tmp) ← sql_one (SelPv user md5 filename) (Some (512%nat, ""));
  if negb (ret2 =? 0) then mret (-1) else
  pv ← to_int (atoi tmp + 1);
  failed ← sql_do (UpdPv pv user md5 filename);
  mret (if failed : bool then -1 else 0).

Definition pv_file (cfg : settings) (user md5 filename : string) : M Z :=
  conn ← msql_conn (mysql_user cfg) (mysql_pwd cfg) (mysql_db cfg);
  ret ← (if conn : bool then pv_file_body user md5 filename else mret (-1));
  printf (return_status (if ret =? 0 then "016" else "017"));;
  (if conn : bool then mysql_close else mret tt);;
  mret ret.

(** One turn of the loop of [main]: the buffers before and after. The log message
    behind [get_json_info] reads all four. *)
Definition filesop_main (cfg : settings) (b : op_bufs) (rq : request) : M op_bufs :=
  r ← read_request rq;
  match r with
  | NoData | ReadError => mret b
  | Body buf =>
      '(_, b) ← get_json_info buf b;
      user ← need (ob_user b);
      token ← need (ob_token b);
      md5 ← need (ob_md5 b);
      filename ← need (ob_filename b);
      ret ← verify_token user token;
      if negb (ret =? 0) then printf (return_status "111");; mret b else
      del_file cfg user md5 filename;;
      mret b
  end.

End FilesOp.

(** ** Specification *)

Section Spec.
Context {SV : Services} {SQ : SqlServer} {RD : RedisServer}.
Variable t : bool.

(** [refused] closes the branches in which a statement was refused, which a
    serving database excludes. *)
Ltac refused := repeat split; first [done | by apply db_up_false | by left].

(** Both servers serve. *)
Definition up (w : world) : Prop := db_up t w /\ redis_up t w.

(** [public] is not set for a file: it is not in the public set, whose members
    share one score, and no row of the user says that it is shared. *)
Record unshared (user md5 filename : string) (w : world) : Prop := {
  us_zset : exists z, zset_at (kv w) FILE_PUBLIC_ZSET = Some z /\ same_scores z = true
                      /\ z !! (md5 +:+ filename) = None;
  us_rows : forall r, r ∈ t_list (tabs w) -> is_entry user md5 filename r -> l_shared r = 0
}.

Lemma del_lookup_spec user md5 filename w :
  args_ok user md5 filename (w_now w) -> up w -> unshared user md5 filename w ->
  run t (del_lookup user md5 filename (md5 +:+ filename)) (fun o w' =>
    frame w w' /\ kv w' = kv w /\ w_sys w' = w_sys w /\ up w' /\
    (t = false \/ (tabs w' = tabs w /\ exists tmp, o = Some (0, 0, tmp)))) w.
Proof.
  intros Ha [Hu Hr] [(z & Hz & Hsc & Hn) Hrows]. unfold del_lookup.
  apply run_bind. eapply run_zset_exit; [done..|]. intros r1 Hr1 Hk1.
  rewrite Hn. cbn [b2z bool_decide]. change (b2z (bool_decide (is_Some None))) with 0.
  cbn [Z.eqb negb]. apply run_bind. unfold up.
  eapply run_sql_one; [safe_stmt|fits_stmt|done|done|done|..].
  - intros _. apply Forall_fmap, Forall_true. intros r. eexists _, _. split; [done|]. apply fits_dec. lia.
  - intros db Ht Hd. apply run_ret. refused.
  - intros db Hu' Hd _. apply run_ret. unfold kv. cbn. repeat split; try done. right. eauto.
  - intros db f rest Hu' Hd Hin. apply list_elem_of_fmap in Hin as (x & [= -> ->] & Hx).
    apply list_elem_of_filter in Hx as [He Hx].
    assert (l_shared x = 0) as E0 by (by apply Hrows). rewrite E0.
    change (atoi (dec 0)) with 0. apply run_ret. unfold kv. cbn. repeat split; try done. right. eauto.
  - intros db rest _ _ Hin. apply list_elem_of_fmap in Hin as (x & [=] & _).
Qed.

(** The user's counter and entry. *)
Lemma del_entry_spec user md5 filename tmp c w :
  args_ok user md5 filename (w_now w) -> up w ->
  NoDup (c_user <$> t_count (tabs w)) -> c ∈ t_count (tabs w) -> c_user c = user ->
  is_int (c_count c) -> is_int (c_count c - 1) ->
  run t (del_entry user md5 filename tmp) (fun o w' =>
    frame w w' /\ kv w' = kv w /\ w_sys w' = w_sys w /\ up w' /\
    (t = false \/
     (tabs w' = set_list (filter (fun r => ~ is_entry user md5 filename r) (t_list (tabs w)))
                  (set_count (unbump user (t_count (tabs w))) (tabs w))
      /\ exists tmp, o = Some tmp))) w.
Proof.
  intros Ha [Hu Hr] Hn Hc Ec Hi Hi'. unfold del_entry, up. apply run_bind.
  eapply run_sql_one; [safe_stmt|fits_stmt|done|done|done|..].
  - intros _. apply Forall_fmap, Forall_true. intros r. eexists _, _. split; [done|]. apply fits_dec. lia.
  - intros db Ht Hd. apply run_ret. refused.
  - intros db _ _ Hnil%fmap_nil_inv. exfalso. by apply (filter_nil_not_elem_of _ _ c Hnil Ec).
  - intros db f rest Hu' Hd Hin. subst user. rewrite (filter_unique c_user) in Hin by done.
    apply list_elem_of_singleton in Hin as [= -> ->]. cbn [Z.eqb negb]. rewrite atoi_dec by done.
    assert (db_tables db = tabs w) as Hd' by done. clear Hd.
    assert (forall m, run t m (fun failed w' => w' = set_db (w_db w') w /\ db_up t w' /\
              (t = false \/ (failed = false /\
                 tabs w' = set_count (unbump (c_user c) (t_count (tabs w))) (tabs w)))) (set_db db w) ->
      run t (failed ← m; if failed : bool then mret None else
             failed ← sql_do (DelList (c_user c) md5 filename);
             if failed : bool then mret None else mret (Some (dec (c_count c)))) (fun o w' =>
        frame w w' /\ kv w' = kv w /\ w_sys w' = w_sys w /\ (db_up t w' /\ redis_up t w') /\
        (t = false \/
         (tabs w' = set_list (filter (fun r => ~ is_entry (c_user c) md5 filename r) (t_list (tabs w)))
                      (set_count (unbump (c_user c) (t_count (tabs w))) (tabs w))
          /\ exists tmp, o = Some tmp))) (set_db db w)) as Hstep.
    { intros m Hm. apply run_bind. eapply run_mono; [exact Hm|]. intros failed w1 (Ew & Hu1 & Hc1).
      rewrite Ew in *. destruct failed.
      - apply run_ret. destruct Hc1 as [?|[[=] _]]. refused.
      - apply run_bind. eapply run_sql_do; [safe_stmt|fits_stmt|done|..]; intros db2 Hu2 Hd2; apply run_ret.
        + refused.
        + split; [done|]. split; [done|]. split; [done|]. split; [done|].
          destruct Hc1 as [?|[_ Hc1]]; [by left|]. right. split; [|eauto].
          change (tabs (set_db db2 _)) with (db_tables db2). rewrite Hd2, Hc1. done. }
    assert (tabs (set_db db w) = tabs w) as Ew by done.
    apply Hstep. eapply run_mono; [apply (lower_count_spec t (c_user c) c); rewrite ?Ew;
      [apply Ha|destruct Ha; lia|done..]|].
    intros failed w' (Ew' & Hu2 & Hr2). split; [by rewrite Ew'|]. split; [done|]. by rewrite Ew in Hr2.
  - intros db rest _ _ Hin. apply list_elem_of_fmap in Hin as (x & [=] & _).
Qed.

(** A storage removal that is possible: the configuration can be read and the
    tool succeeds. *)
Definition storage_ready (w : world) : Prop :=
  (exists x, cfg_value 256 "dfs_path" "client" w = Ok (x, w)) /\
  forall s cmd, (system_run s cmd).2 = 0.

Lemma remove_spec fileid w : (String.length fileid <= 511)%nat -> storage_ready w ->
  run t (remove_file_from_storage fileid) (fun ret w' =>
    ret = 0 /\ frame w w' /\ w_db w' = w_db w /\ w_redis w' = w_redis w) w.
Proof.
  intros Hl [Hcfg Hsys]. unfold remove_file_from_storage.
  apply run_bind, run_cfg_value; [lia|done|]. intros [r v] _ Hv. cbn [snd] in Hv.
  apply fits_inv in Hv. apply run_bind, run_sprintf.
  - intros _. apply fits_lt. pose proof (cformat_length "fdfs_delete_file %s %s" [RS v; RS fileid]) as Hc.
    cbn [String.length args_len foldr arg_len] in Hc. lia.
  - intros _. unfold run, system. destruct (system_run _ _) as [s' r'] eqn:E. cbn.
    pose proof (Hsys (w_sys w) (cformat "fdfs_delete_file %s %s" [RS v; RS fileid])) as H0.
    rewrite E in H0. cbn in H0. done.
Qed.

Lemma filter_update_other m k F :
  filter (fun f => f_md5 f <> m) (update (fun f => f_md5 f = m) (file_set_count k) F) =
  filter (fun f => f_md5 f <> m) F.
Proof.
  induction F as [|f F IH]; [done|].
  change (update (fun f => f_md5 f = m) (file_set_count k) (f :: F))
    with ((if decide (f_md5 f = m) then file_set_count k f else f)
          :: update (fun f => f_md5 f = m) (file_set_count k) F).
  rewrite !filter_cons, IH. destruct (decide (f_md5 f = m)) as [E|E].
  - by rewrite !decide_False by (cbn; tauto).
  - by rewrite !decide_True.
Qed.

(** The content: its counter, and its removal with the last reference. *)
Lemma del_content_spec md5 tmp f w :
  quote_free md5 = true -> (String.length md5 <= 300)%nat -> up w -> storage_ready w ->
  NoDup (f_md5 <$> t_file (tabs w)) -> f ∈ t_file (tabs w) -> f_md5 f = md5 ->
  is_int (f_count f) -> is_int (f_count f - 1) -> (String.length (f_id f) <= 511)%nat ->
  run t (del_content md5 tmp) (fun ret w' =>
    frame w w' /\ kv w' = kv w /\ up w' /\
    (t = false \/ (ret = 0 /\
      tabs w' = set_file (drop_content md5 (f_count f - 1) (t_file (tabs w))) (tabs w)))) w.
Proof.
  intros Hq Hlen [Hu Hr] Hst Hn Hf Em Hi Hi' Hid. unfold del_content. apply run_bind.
  eapply run_sql_one; [safe_stmt|fits_stmt|done|done|done|..].
  - intros _. apply Forall_fmap, Forall_true. intros r. eexists _, _. split; [done|]. apply fits_dec. lia.
  - intros db Ht Hd. apply run_ret. refused.
  - intros db _ _ Hnil%fmap_nil_inv. exfalso. by apply (filter_nil_not_elem_of _ _ f Hnil Em).
  - intros db fl rest Hu' Hd Hin. subst md5. rewrite (filter_unique f_md5) in Hin by done.
    apply list_elem_of_singleton in Hin as [= -> ->]. cbn [Z.eqb negb]. rewrite atoi_dec by done.
    apply run_bind, run_to_int; [done|]. intros _. apply run_bind.
    eapply run_sql_do; [safe_stmt|fits_stmt|done|..]; intros db2 Hu2 Hd2; [apply run_ret; refused|].
    change (tabs (set_db db w)) with (db_tables db) in Hd2. rewrite Hd in Hd2.
    unfold drop_content. destruct (Z.eqb_spec (f_count f - 1) 0) as [E0|E0]; cbn [negb].
    2:{ apply run_ret. split; [done|]. split; [done|]. split; [done|]. by right. }
    apply run_bind. change (set_db db2 (set_db db w)) with (set_db db2 w) in *.
    eapply run_sql_one; [safe_stmt|fits_stmt|done|done|done|..].
    all: change (tabs (set_db db2 w)) with (db_tables db2); rewrite Hd2; cbn [stmt_effect t_file set_file].
    + intros _. apply Forall_fmap, Forall_forall.
      intros r [Er (y & Hy & ->)%elem_of_update]%list_elem_of_filter. eexists _, _. split; [done|].
      assert (y = f) as -> by (apply (key_unique f_md5 (t_file (tabs w))); try done; by destruct (decide _)).
      rewrite decide_True by done. apply fits_lt. cbn. lia.
    + intros db3 Ht Hd3. apply run_ret. refused.
    + intros db3 _ _ Hnil%fmap_nil_inv. exfalso.
      eapply (filter_nil_not_elem_of _ _ (file_set_count (f_count f - 1) f) Hnil); [done|].
      apply elem_of_update. exists f. by rewrite decide_True.
    + intros db3 fid rest Hu3 Hd3 Hin. apply run_bind. cbn [Z.eqb negb].
      apply list_elem_of_fmap in Hin as (y & [= -> ->] & Hy).
      apply list_elem_of_filter in Hy as [Ey (x & Hx & ->)%elem_of_update].
      assert (x = f) as -> by (apply (key_unique f_md5 (t_file (tabs w))); try done; by destruct (decide _)).
      rewrite decide_True by done.
      eapply run_sql_do; [safe_stmt|fits_stmt|done|..]; intros db4 Hu4 Hd4; [apply run_ret; refused|].
      apply run_bind. eapply run_mono; [apply remove_spec; [done|]|].
      { destruct Hst as [[v Hv] Hs]. split; [exists v; by apply (cfg_value_fs _ _ _ w)|done]. }
      intros ret w' (-> & Hfr & Edb & Erd). apply run_ret. split; [by etrans; [|exact Hfr]|].
      split; [unfold kv; by rewrite Erd|]. split; [split; unfold db_up, redis_up; by rewrite ?Edb, ?Erd|]. right. split; [done|].
      unfold tabs at 1. rewrite Edb. cbn [w_db set_db]. rewrite Hd4.
      change (tabs (set_db db3 _)) with (db_tables db3). rewrite Hd3.
      unfold set_file. cbn [stmt_effect t_file t_user t_list t_count t_share].
      by rewrite filter_update_other.
    + intros db3 rest _ _ Hin. apply list_elem_of_fmap in Hin as (x & [=] & _).
  - intros db rest _ _ Hin. apply list_elem_of_fmap in Hin as (x & [=] & _).
Qed.

End Spec.

Section Theorems.
Context {SV : Services} {SQ : SqlServer} {RD : RedisServer}.

(** [del_file_body] on a file that is not shared, with the rows it works on. *)
Lemma del_file_body_spec user md5 filename c f w :
  args_ok user md5 filename (w_now w) -> up true w -> unshared user md5 filename w -> storage_ready w ->
  NoDup (c_user <$> t_count (tabs w)) -> c ∈ t_count (tabs w) -> c_user c = user ->
  is_int (c_count c) -> is_int (c_count c - 1) ->
  NoDup (f_md5 <$> t_file (tabs w)) -> f ∈ t_file (tabs w) -> f_md5 f = md5 ->
  is_int (f_count f) -> is_int (f_count f - 1) -> (String.length (f_id f) <= 511)%nat ->
  run true (del_file_body user md5 filename) (fun ret w' =>
    frame w w' /\ kv w' = kv w /\ ret = 0 /\ up true w' /\
    tabs w' = Tables (t_user (tabs w)) (drop_content md5 (f_count f - 1) (t_file (tabs w)))
      (filter (fun r => ~ is_entry user md5 filename r) (t_list (tabs w)))
      (unbump user (t_count (tabs w))) (t_share (tabs w))) w.
Proof.
  intros Ha [Hu Hr] Hus Hst HnC Hc Ec Hi Hi' HnF Hf Em Hj Hj' Hid. unfold del_file_body.
  apply run_bind, run_set_names; [done|]. intros db0 Hu0 Hd0.
  assert (String.length (md5 +:+ filename) <= 300)%nat as Hl by (rewrite length_append; destruct Ha; lia).
  apply run_bind, run_sprintf; [intros _; apply fits_lt; lia|]. intros _. apply run_bind.
  eapply run_mono; [apply del_lookup_spec; [done|done|]|].
  { destruct Hus as [? Hrows]. split; [done|].
    change (tabs (set_db db0 w)) with (db_tables db0). by rewrite Hd0. }
  intros o w1 (Hfr1 & Hk1 & Hs1 & Hup1 & [[=]|[Et1 [tmp ->]]]). cbn [Z.eqb].
  change (tabs (set_db db0 w)) with (db_tables db0) in Et1. rewrite Hd0 in Et1.
  assert (frame w w1) as Hf1 by (by etrans; [|exact Hfr1]). apply run_bind, run_ret, run_bind.
  eapply run_mono; [eapply (del_entry_spec true _ _ _ _ c)|]; rewrite ?Et1; try done.
  { by rewrite (fr_now _ _ Hf1). }
  intros o w2 (Hf2 & Hk2 & Hs2 & Hup2 & [[=]|[Et2 [tmp2 ->]]]).
  eapply run_mono; [eapply (del_content_spec true _ _ f)|]; rewrite ?Et2; try done; try apply Ha.
  - destruct Ha; lia.
  - destruct Hst as [[x Hx] Hsys]. split; [|done]. exists x. apply (cfg_value_fs _ _ _ w); [|done].
    by rewrite (fr_fs _ _ Hf2), (fr_fs _ _ Hf1).
  - intros ret w' (Hf3 & Hk3 & Hu3 & [[=]|[-> Et3]]). split; [by rewrite Hf1, Hf2|].
    split; [by rewrite Hk3, Hk2|]. split; [done|]. split; [done|]. by rewrite Et3, ?Et2, ?Et1.
Qed.

(** The frame of the operations that use both servers: it closes both
    connections, prints one status and leaves the rest to [body]. *)
Lemma with_servers_spec cfg body status (P : Z -> tables -> keyspace -> Prop) w :
  redis_connect (w_redis w) (redis_ip cfg) (port_of (redis_port cfg)) = LinkOk ->
  mysql_accepts w (mysql_user cfg) (mysql_pwd cfg) (mysql_db cfg) = true ->
  (let w1 := set_open_db (S (w_open_db w)) (set_open_redis (S (w_open_redis w)) w) in
   run true body (fun ret w' => frame w1 w' /\ up true w' /\ P ret (tabs w') (kv w')) w1) ->
  run true (with_servers cfg body status) (fun ret w' =>
    P ret (tabs w') (kv w') /\ w_open_db w' = w_open_db w /\ w_open_redis w' = w_open_redis w
    /\ kept w w'
    /\ w_out w' = w_out w ++ match status ret with Some s => [return_status s] | None => [] end) w.
Proof.
  intros Hl Hm Hb. unfold with_servers. apply run_bind, run_connect; [|congruence]. intros _.
  apply run_bind, run_bind, run_msql_conn; [|intros E;
    change (mysql_accepts w (mysql_user cfg) (mysql_pwd cfg) (mysql_db cfg) = false) in E; congruence].
  intros _.
  apply run_bind. eapply run_mono; [exact Hb|]. intros ret w' (Hf & [Hud Hur] & HP). apply run_ret.
  destruct Hf as [Hfs Hn Ho Hd Hr]. cbn in Hfs, Hn, Ho, Hd, Hr. apply run_bind.
  destruct (status ret) eqn:Es; [apply run_printf | apply run_ret];
    apply run_bind, run_disconnect, run_bind, run_mysql_close, run_ret;
    cbn; rewrite ?Hd, ?Hr, ?Ho, ?Es, ?app_nil_r; (split; [exact HP|]); (split; [done|]); (split; [done|]);
    (split; [|done]); (split; [exact Hfs|exact Hn|by apply Hud|by apply Hur]).
Qed.

(** The rows a deletion works on, in consistent tables. *)
Lemma rows_of_entry T user md5 : consistent T ->
  Z.of_nat (length (t_list T)) < INT_MAX ->
  (exists r, r ∈ t_list T /\ l_user r = user) -> md5 ∈ f_md5 <$> t_file T ->
  exists c f, c ∈ t_count T /\ c_user c = user /\ f ∈ t_file T /\ f_md5 f = md5
    /\ c_count c = Z.of_nat (owned user (t_list T)) /\ f_count f = Z.of_nat (refs md5 (t_list T))
    /\ is_int (c_count c) /\ is_int (c_count c - 1) /\ is_int (f_count f) /\ is_int (f_count f - 1).
Proof.
  intros HT Hlen (r & Hr & <-) Hm.
  apply list_elem_of_fmap in Hm as (f & -> & Hf).
  pose proof (con_counted T HT r Hr) as Hc. apply list_elem_of_fmap in Hc as (c & Ec & Hc).
  pose proof (con_reserved T HT r Hr).
  exists c, f. rewrite Ec, (con_owned T HT c Hc), (con_refs T HT f Hf) by congruence.
  pose proof (is_int_count (t_list T) (owned (c_user c) (t_list T)) Hlen (owned_le _ _)).
  pose proof (is_int_count (t_list T) (refs (f_md5 f) (t_list T)) Hlen (refs_le _ _)).
  tauto.
Qed.

(** [del_file] of an owned entry that is not shared. *)
Lemma del_file_run (cfg : settings) (user md5 filename : string) (w : world)
    (Ha : args_ok user md5 filename (w_now w))
    (Hs : serving (w_db w)) (Hr : answering (w_redis w))
    (Hl : redis_connect (w_redis w) (redis_ip cfg) (port_of (redis_port cfg)) = LinkOk)
    (Hc : mysql_accepts w (mysql_user cfg) (mysql_pwd cfg) (mysql_db cfg) = true)
    (Hst : storage_ready w)
    (HT : consistent (tabs w))
    (Hlen : Z.of_nat (length (t_list (tabs w))) < INT_MAX)
    (Hid : forall f, f ∈ t_file (tabs w) -> (String.length (f_id f) <= 511)%nat)
    (Hus : unshared user md5 filename w)
    (Hin : (user, md5, filename) ∈ entry <$> t_list (tabs w)) :
  exists w', del_file cfg user md5 filename w = Ok (0, w') /\ kept w w'
    /\ tabs w' = drop_reference user md5 filename (tabs w) /\ consistent (tabs w')
    /\ (user, md5, filename) ∉ entry <$> t_list (tabs w')
    /\ kv w' = kv w /\ w_open_db w' = w_open_db w /\ w_open_redis w' = w_open_redis w
    /\ w_out w' = w_out w ++ [return_status "013"].
Proof.
  apply list_elem_of_fmap in Hin as (r & [= Eu Em En] & Hin).
  destruct (rows_of_entry (tabs w) user md5) as (c & f & H1 & H2 & H3 & H4 & E5 & E6 & H7 & H8 & H9 & H10); auto.
  { by exists r. }
  { rewrite Em. by apply con_stored. }
  eassert (run true (del_file cfg user md5 filename) _ w) as HR.
  { apply (with_servers_spec _ _ _ (fun ret T k => ret = 0 /\
      T = drop_reference user md5 filename (tabs w) /\ k = kv w)); [done..|].
    eapply run_mono; [apply (del_file_body_spec user md5 filename c f); try done; auto using con_counts, con_files|].
    - split; by intros _.
    - destruct Hus as [Hz Hrw]. split; [exact Hz | exact Hrw].
    - destruct Hst as [[x Hx] Hsys]. split; [|done]. exists x. by apply (cfg_value_fs _ _ _ w).
    - intros ret w' (Hf & Hk & -> & Hup & Ht). split; [done|]. split; [done|]. split; [done|]. split; [|done].
      rewrite Ht. unfold drop_reference. rewrite E6. done. }
  apply run_total in HR as (ret & w' & E & (-> & Ht & Hk) & Ho & Hor & Hkp & Hout). exists w'. rewrite Ht. split; [done|]. split; [done|]. split; [done|].
  split; [rewrite Eu, Em, En; by apply consistent_drop_reference|].
  split; [|done]. cbn. intros (x & [= -> -> ->] & [Hx _]%list_elem_of_filter)%list_elem_of_fmap. by apply Hx.
Qed.

(** C3: deleting an entry the user owns and does not share, on serving servers
    with consistent counters: [del_file] returns 0 and answers 013, removes
    exactly that entry, lowers the user's counter and the reference count, drops
    the content with its last reference, keeps the counters consistent and
    closes both connections. *)
Theorem del_file_refines (cfg : settings) (user md5 filename : string) (w : world)
    (Ha : args_ok user md5 filename (w_now w))
    (Hs : serving (w_db w)) (Hr : answering (w_redis w))
    (Hl : redis_connect (w_redis w) (redis_ip cfg) (port_of (redis_port cfg)) = LinkOk)
    (Hc : mysql_accepts w (mysql_user cfg) (mysql_pwd cfg) (mysql_db cfg) = true)
    (Hst : storage_ready w)
    (HT : consistent (tabs w))
    (Hlen : Z.of_nat (length (t_list (tabs w))) < INT_MAX)
    (Hid : forall f, f ∈ t_file (tabs w) -> (String.length (f_id f) <= 511)%nat)
    (Hus : unshared user md5 filename w)
    (Hin : (user, md5, filename) ∈ entry <$> t_list (tabs w)) :
  exists w', del_file cfg user md5 filename w = Ok (0, w')
    /\ tabs w' = drop_reference user md5 filename (tabs w) /\ consistent (tabs w')
    /\ (user, md5, filename) ∉ entry <$> t_list (tabs w')
    /\ kv w' = kv w /\ w_open_db w' = w_open_db w /\ w_open_redis w' = w_open_redis w
    /\ w_out w' = w_out w ++ [return_status "013"].
Proof.
  destruct (del_file_run cfg user md5 filename w) as (w' & E & _ & H); try done. by exists w'.
Qed.

(** deleting an entry the user does not own: when the user owns some other
    file and the digest is stored, [del_file] still reports success, 013, leaves
    every entry in place and lowers both counters, so that the tables are no
    longer consistent. *)
Theorem del_file_not_owned (cfg : settings) (user md5 filename : string) (w : world)
    (Ha : args_ok user md5 filename (w_now w))
    (Hs : serving (w_db w)) (Hr : answering (w_redis w))
    (Hl : redis_connect (w_redis w) (redis_ip cfg) (port_of (redis_port cfg)) = LinkOk)
    (Hc : mysql_accepts w (mysql_user cfg) (mysql_pwd cfg) (mysql_db cfg) = true)
    (Hst : storage_ready w)
    (HT : consistent (tabs w))
    (Hlen : Z.of_nat (length (t_list (tabs w))) < INT_MAX)
    (Hid : forall f, f ∈ t_file (tabs w) -> (String.length (f_id f) <= 511)%nat)
    (Hus : unshared user md5 filename w)
    (Hown : exists r, r ∈ t_list (tabs w) /\ l_user r = user)
    (Hm : md5 ∈ f_md5 <$> t_file (tabs w))
    (Hin : (user, md5, filename) ∉ entry <$> t_list (tabs w)) :
  exists w', del_file cfg user md5 filename w = Ok (0, w')
    /\ t_list (tabs w') = t_list (tabs w) /\ ~ consistent (tabs w')
    /\ w_out w' = w_out w ++ [return_status "013"].
Proof.
  destruct (rows_of_entry (tabs w) user md5) as (c & f & H1 & H2 & H3 & H4 & E5 & E6 & H7 & H8 & H9 & H10); auto.
  assert (filter (fun r => ~ is_entry user md5 filename r) (t_list (tabs w)) = t_list (tabs w)) as Ef.
  { apply filter_all. intros r Hr' (<- & <- & <-). apply Hin. by apply (list_elem_of_fmap_2 entry). }
  eassert (run true (del_file cfg user md5 filename) _ w) as HR.
  { apply (with_servers_spec _ _ _ (fun ret T k => ret = 0 /\ t_list T = t_list (tabs w) /\
      t_count T = unbump user (t_count (tabs w)))); [done..|].
    eapply run_mono; [apply (del_file_body_spec user md5 filename c f); try done; auto using con_counts, con_files|].
    - split; by intros _.
    - destruct Hus as [Hz Hrw]. split; [exact Hz | exact Hrw].
    - destruct Hst as [[x Hx] Hsys]. split; [|done]. exists x. by apply (cfg_value_fs _ _ _ w).
    - intros ret w' (Hf & Hk & -> & Hup & Ht). rewrite Ht. split; [done|]. split; [done|]. split; [done|].
      split; [exact Ef | done]. }
  apply run_total in HR as (ret & w' & E & (-> & Etl & Etc) & Ho & Hor & Hnow & Hout). exists w'. split; [done|]. split; [done|]. split; [|done].
  intros HT'. destruct Hown as (r & Hr' & <-).
  pose proof (con_counted _ HT' r ltac:(by rewrite Etl)) as Hk. rewrite Etc in Hk.
  apply list_elem_of_fmap in Hk as (x & Ex & Hx).
  pose proof (con_reserved _ HT r Hr').
  destruct (elem_of_unbump _ _ c x (con_counts _ HT) H1 H2 Hx) as [[Hne _]|[_ Ek]]; [congruence|].
  pose proof (con_owned _ HT' x ltac:(by rewrite Etc) ltac:(congruence)) as Eo.
  rewrite Etl, <- Ex in Eo. lia.
Qed.

(** The keys a share changes. *)
Definition share_keys (md5 filename : string) (z : gmap string Z) (h : gmap string string)
    (k : keyspace) : keyspace :=
  put_hash FILE_NAME_HASH (<[md5 +:+ filename := filename]> h)
    (put_zset FILE_PUBLIC_ZSET (<[md5 +:+ filename := 0]> z) k).

Lemma share_body_spec user md5 filename w z h :
  args_ok user md5 filename (w_now w) -> up true w -> consistent (tabs w) ->
  Z.of_nat (length (t_share (tabs w))) < INT_MAX ->
  zset_at (kv w) FILE_PUBLIC_ZSET = Some z -> same_scores z = true -> z !! (md5 +:+ filename) = None ->
  hash_at (kv w) FILE_NAME_HASH = Some h -> (md5, filename) ∉ share_key <$> t_share (tabs w) ->
  run true (share_file_body user md5 filename) (fun ret w' => frame w w' /\ up true w' /\ ret = 0 /\
    tabs w' = add_share user md5 filename (w_now w) (tabs w) /\ kv w' = share_keys md5 filename z h (kv w)) w.
Proof.
  intros Ha [Hu Hr] HT Hlen Hz Hsc Hnew Hh Hno. unfold share_file_body.
  apply run_bind, run_set_names; [done|]. intros db0 Hu0 Hd0.
  apply run_bind, run_sprintf; [intros _; apply fits_lt; rewrite length_append; destruct Ha; lia|]. intros _.
  apply run_bind. eapply run_zset_exit; [done..|]. intros r1 Hr1 Hk1. rewrite Hnew.
  change (b2z (bool_decide (is_Some None))) with 0. cbn [Z.eqb negb]. apply run_bind.
  eapply run_sql_exists; [safe_stmt|fits_stmt|done|done|done|done|..].
  2:{ intros db1 _ _ Hne. exfalso. apply Hne. change (tabs (set_redis r1 (set_db db0 w))) with (db_tables db0).
      rewrite Hd0, filter_empty; [done|]. intros x Hx [<- <-]. apply Hno. by apply (list_elem_of_fmap_2 share_key). }
  intros db1 Hu1 Hd1 _. cbn [Z.eqb Pos.eqb]. apply run_bind.
  eapply run_sql_do; [safe_stmt|fits_stmt|done|done|]. intros db2 Hu2 Hd2.
  apply run_bind, run_now. apply run_bind. cbn [w_now set_db set_redis].
  eapply run_sql_do; [safe_stmt|fits_stmt|done|done|]. intros db3 Hu3 Hd3.
  set (w3 := set_db db3 _). assert (tabs w3 = set_share (t_share (tabs w) ++ [ShareRow user md5 (w_now w) filename 0])
    (set_list (update (is_entry user md5 filename) (list_set_shared 1) (t_list (tabs w))) (tabs w))) as E3.
  { change (tabs w3) with (db_tables db3). rewrite Hd3. change (tabs (set_db db2 _)) with (db_tables db2).
    rewrite Hd2. change (tabs (set_db db1 _)) with (db_tables db1). rewrite Hd1.
    change (tabs (set_redis _ _)) with (db_tables db0). by rewrite Hd0. }
  apply run_bind. eapply run_mono; [apply bump_user_count_spec; rewrite ?E3; try done|].
  - by apply Nat.leb_le.
  - exact (con_counts _ HT).
  - intros c Hc Eu. rewrite (con_shared _ HT c Hc Eu). unfold is_int, INT_MAX in *. lia.
  - intros ret w4 (Ew & Hu4 & [[-> Ht4]|[=]]). cbn [Z.eqb negb]. rewrite Ew. apply run_bind.
    eapply run_zset_add; [change (kv _) with (keys r1); rewrite Hk1; exact Hz|done|].
    intros _ r5 Hr5 Hk5. apply run_bind.
    eapply run_hash_set; [change (kv _) with (keys r5); rewrite Hk5;
      change (kv (set_db _ w3)) with (keys r1); rewrite Hk1, hash_at_put_zset by done; exact Hh|done|].
    intros _ r6 [[=]|Hk6] Hr6. apply run_ret. split; [by destruct w|]. split; [done|]. split; [done|]. split.
    + change (tabs w4 = add_share user md5 filename (w_now w) (tabs w)). rewrite Ht4, E3. done.
    + change (keys r6 = share_keys md5 filename z h (kv w)). rewrite Hk6.
      change (kv (set_redis r5 _)) with (keys r5). rewrite Hk5. change (kv (set_db _ w3)) with (keys r1).
      by rewrite Hk1.
Qed.

(** [share_file] on serving servers. *)
Lemma share_run cfg user md5 filename w z h :
  args_ok user md5 filename (w_now w) -> serving (w_db w) -> answering (w_redis w) ->
  redis_connect (w_redis w) (redis_ip cfg) (port_of (redis_port cfg)) = LinkOk ->
  mysql_accepts w (mysql_user cfg) (mysql_pwd cfg) (mysql_db cfg) = true ->
  consistent (tabs w) -> Z.of_nat (length (t_share (tabs w))) < INT_MAX ->
  zset_at (kv w) FILE_PUBLIC_ZSET = Some z -> same_scores z = true -> z !! (md5 +:+ filename) = None ->
  hash_at (kv w) FILE_NAME_HASH = Some h -> (md5, filename) ∉ share_key <$> t_share (tabs w) ->
  exists w', share_file cfg user md5 filename w = Ok (0, w')
    /\ tabs w' = add_share user md5 filename (w_now w) (tabs w) /\ consistent (tabs w')
    /\ kv w' = share_keys md5 filename z h (kv w)
    /\ w_open_db w' = w_open_db w /\ w_open_redis w' = w_open_redis w /\ kept w w'
    /\ w_out w' = w_out w ++ [return_status "010"].
Proof.
  intros Ha Hs Hr Hl Hc HT Hlen Hz Hsc Hnew Hh Hno.
  eassert (run true (share_file cfg user md5 filename) _ w) as HR.
  { apply (with_servers_spec _ _ _ (fun ret T k => ret = 0 /\
      T = add_share user md5 filename (w_now w) (tabs w) /\ k = share_keys md5 filename z h (kv w))); [done..|].
    eapply run_mono; [apply (share_body_spec user md5 filename _ z h); try done; split; by intros _|].
    intros ret w' (Hf & Hup & Hret & Ht & Hk). done. }
  apply run_total in HR as (ret & w' & E & (-> & Ht & Hk) & Ho & Hor & Hkp & Hout). exists w'.
  split; [done|]. split; [done|]. split; [rewrite Ht; by apply consistent_add_share|]. done.
Qed.

(** C13: sharing a file that is not shared yet, on serving servers with consistent
    counters: [share_file] returns 0 and answers 010, marks the entry, records
    and counts the share, adds the file to the public set and its name to the
    hash, keeps the counters consistent and closes both connections. *)
Theorem share_file_refines (cfg : settings) (user md5 filename : string) (w : world)
    (z : gmap string Z) (h : gmap string string)
    (Ha : args_ok user md5 filename (w_now w))
    (Hs : serving (w_db w)) (Hr : answering (w_redis w))
    (Hl : redis_connect (w_redis w) (redis_ip cfg) (port_of (redis_port cfg)) = LinkOk)
    (Hc : mysql_accepts w (mysql_user cfg) (mysql_pwd cfg) (mysql_db cfg) = true)
    (HT : consistent (tabs w)) (Hlen : Z.of_nat (length (t_share (tabs w))) < INT_MAX)
    (Hz : zset_at (kv w) FILE_PUBLIC_ZSET = Some z) (Hsc : same_scores z = true)
    (Hnew : z !! (md5 +:+ filename) = None) (Hh : hash_at (kv w) FILE_NAME_HASH = Some h)
    (Hno : (md5, filename) ∉ share_key <$> t_share (tabs w)) :
  exists w', share_file cfg user md5 filename w = Ok (0, w')
    /\ tabs w' = add_share user md5 filename (w_now w) (tabs w) /\ consistent (tabs w')
    /\ kv w' = share_keys md5 filename z h (kv w)
    /\ w_open_db w' = w_open_db w /\ w_open_redis w' = w_open_redis w
    /\ w_out w' = w_out w ++ [return_status "010"].
Proof.
  destruct (share_run cfg user md5 filename w z h) as (w' & E & Ht & HT' & Hk & Ho & Hor & _ & Hout); try done.
  by exists w'.
Qed.

End Theorems.
