(* ===== verification/Race.v ===== *)
(** An upload by digest and another program at the same time. Every CGI program is
    a process of its own, and nothing orders the statements of two of them: here
    [deal_md5] (src/src/cgi/cgi_md5.c) is cut where it has read the reference
    count, and a second upload, or a deletion (src/src/cgi/cgi_filesop.c), runs at
    the cut. *)

From Stdlib Require Import ZArith Lia Bool Ascii String.
From stdpp Require Import base tactics numbers list strings gmap.
From S2P Require Import Prelude Text Double CJson CJsonParse CJsonPrint World MysqlOp RedisOp Sql Kv.
From S2P Require Import CgiCommon Logic Catalogue FastUpload FilesOp.

Section Split.
Context `{Services}.

(** Up to the check of the user's entry: the return value, or the count and the
    text read with it. *)
Definition deal_md5_check (user md5 filename : string) : M (Z + Z * string) :=
  set_names;;
  '(ret2, tmp) ← sql_one (SelFileCount md5) (Some (512%nat, ""));
  if ret2 =? 0 then
    let count := atoi tmp in
    '(ret2, _) ← sql_one (SelList user md5 filename) None;
    if ret2 =? 2 then mret (inl (-2)) else mret (inr (count, tmp))
  else if ret2 =? 1 then mret (inl (-3))
  else mret (inl 0).

(** The rest. *)
Definition deal_md5_finish (user md5 filename : string) (st : Z + Z * string) : M Z :=
  match st with
  | inl ret => mret ret
  | inr (count, tmp) => add_entry count user md5 filename tmp
  end.

(** The cut does not change the program. *)
Lemma deal_md5_split user md5 filename w :
  deal_md5_body user md5 filename w =
  (st ← deal_md5_check user md5 filename; deal_md5_finish user md5 filename st) w.
Proof.
  unfold deal_md5_body, deal_md5_check, mbind, M_bind.
  destruct (set_names w) as [[_ w1]|u]; [|done].
  destruct (sql_one (SelFileCount md5) _ w1) as [[[r tmp] w2]|u]; [|done].
  destruct (r =? 0); [|by destruct (r =? 1)].
  destruct (sql_one (SelList user md5 filename) None w2) as [[[r' x] w3]|u]; [|done].
  by destruct (r' =? 2).
Qed.

(** Both processes check, then both go on. *)
Definition upload_race (u1 n1 u2 n2 md5 : string) : M (Z * Z) :=
  s1 ← deal_md5_check u1 md5 n1;
  s2 ← deal_md5_check u2 md5 n2;
  r1 ← deal_md5_finish u1 md5 n1 s1;
  r2 ← deal_md5_finish u2 md5 n2 s2;
  mret (r1, r2).

(** One process checks, another deletes, then the first goes on. *)
Definition upload_delete_race (u n md5 du dn : string) : M (Z * Z) :=
  s ← deal_md5_check u md5 n;
  r2 ← del_file_body du md5 dn;
  r1 ← deal_md5_finish u md5 n s;
  mret (r1, r2).

End Split.

Section Race.
Context {SV : Services} {SQ : SqlServer} {RD : RedisServer}.

(** The check on consistent tables, for stored content the user does not have. *)
Lemma check_spec user md5 filename w : args_ok user md5 filename (w_now w) -> db_up true w ->
  consistent (tabs w) -> Z.of_nat (length (t_list (tabs w))) < INT_MAX ->
  md5 ∈ f_md5 <$> t_file (tabs w) -> (user, md5, filename) ∉ entry <$> t_list (tabs w) ->
  run true (deal_md5_check user md5 filename) (fun st w' =>
    w' = set_db (w_db w') w /\ db_up true w' /\ tabs w' = tabs w /\
    exists tmp, st = inr (Z.of_nat (refs md5 (t_list (tabs w))), tmp)) w.
Proof.
  intros Ha Hu HT Hlen Hm Hno. unfold deal_md5_check. apply run_bind.
  apply run_set_names; [done|]. intros db0 Hu0 Hd0. apply run_bind.
  assert (tabs (set_db db0 w) = tabs w) as E0 by done.
  apply list_elem_of_fmap in Hm as (f & -> & Hf).
  eapply run_sql_one; [safe_stmt|fits_stmt|done|done|done|..]; rewrite ?E0; rewrite ?(filter_unique f_md5) by (done || by apply con_files).
  - intros _. apply Forall_singleton. eexists _, _. split; [done|]. apply fits_dec. lia.
  - done.
  - intros db1 _ _ [=].
  - intros db1 x rest Hu1 Hd1 Hin. cbn in Hin. apply list_elem_of_singleton in Hin as [= -> ->]. cbn [Z.eqb].
    rewrite (con_refs _ HT f Hf), atoi_dec by (by apply (is_int_count (t_list (tabs w))), refs_le).
    apply run_bind. assert (tabs (set_db db1 (set_db db0 w)) = tabs w) as E1 by done.
    eapply run_sql_exists; [safe_stmt|fits_stmt|done|done|done|done|..]; rewrite ?E1.
    + intros db2 Hu2 Hd2 _. apply run_ret. split; [done|]. split; [done|]. split; [done|]. by eexists.
    + intros db2 _ _ Hne. by destruct Hne; apply entry_rows.
  - intros db1 rest _ _ Hin. cbn in Hin. by apply list_elem_of_singleton in Hin.
Qed.

(** a lost update: two uploads by digest of the same content that both read the
    reference count before either writes it both succeed, and two new entries
    are counted once: the counters are wrong from then on, and the content will
    be deleted while an entry still refers to it. *)
Theorem fast_upload_race (u1 n1 u2 n2 md5 : string) (w : world)
    (Ha1 : args_ok u1 md5 n1 (w_now w)) (Ha2 : args_ok u2 md5 n2 (w_now w))
    (Hs : serving (w_db w)) (HT : consistent (tabs w))
    (Hlen : Z.of_nat (length (t_list (tabs w))) + 1 < INT_MAX)
    (H1 : u1 <> SHARE_COUNT) (H2 : u2 <> SHARE_COUNT)
    (Hm : md5 ∈ f_md5 <$> t_file (tabs w))
    (Hn1 : (u1, md5, n1) ∉ entry <$> t_list (tabs w))
    (Hn2 : (u2, md5, n2) ∉ entry <$> t_list (tabs w)) :
  exists w', upload_race u1 n1 u2 n2 md5 w = Ok ((0, 0), w')
    /\ refs md5 (t_list (tabs w')) = S (S (refs md5 (t_list (tabs w))))
    /\ (forall f, f ∈ t_file (tabs w') -> f_md5 f = md5 -> f_count f = Z.of_nat (refs md5 (t_list (tabs w))) + 1)
    /\ ~ consistent (tabs w').
Proof.
  set (r := refs md5 (t_list (tabs w))). set (e1 := new_entry u1 md5 n1 (w_now w)). set (e2 := new_entry u2 md5 n2 (w_now w)).
  assert (exists w', upload_race u1 n1 u2 n2 md5 w = Ok ((0, 0), w') /\
    t_list (tabs w') = (t_list (tabs w) ++ [e1]) ++ [e2] /\
    t_file (tabs w') = update (fun f => f_md5 f = md5) (file_set_count (Z.of_nat r + 1)) (t_file (add_reference e1 (tabs w))))
    as (w' & E & El & Ef).
  { apply (run_det (upload_race u1 n1 u2 n2 md5)). unfold upload_race.
    apply run_bind. eapply run_mono; [apply check_spec; [done|by intros _|done|lia|done|done]|].
    intros s1 w1 (Ew1 & Hu1 & Et1 & tmp1 & ->). assert (w_now w1 = w_now w) as Ec1 by (by rewrite Ew1).
    apply run_bind. eapply run_mono; [apply check_spec; rewrite ?Ec1, ?Et1; try done; lia|].
    intros s2 w2 (Ew2 & Hu2 & Et2 & tmp2 & ->). rewrite Et1 in *.
    assert (w_now w2 = w_now w) as Ec2 by (by rewrite Ew2). cbn [deal_md5_finish].
    apply run_bind. eapply run_mono; [apply (add_entry_spec true); rewrite ?Ec2, ?Et2; try done; lia|].
    intros r1 w3 (Ew3 & Hu3 & [[-> Et3]|[=]]). rewrite Ec2, Et2 in Et3.
    assert (w_now w3 = w_now w) as Ec3 by (by rewrite Ew3). fold e1 in Et3.
    assert (consistent (tabs w3)) as HT3 by (rewrite Et3; by apply consistent_add_reference).
    assert (Z.of_nat (length (t_list (tabs w3))) < INT_MAX) as Hlen3 by (rewrite Et3; cbn; rewrite length_app; cbn; lia).
    apply run_bind. eapply run_mono; [apply (add_entry_effect true); rewrite ?Ec3; try done|].
    - by apply con_counts.
    - intros c. by apply user_count_int.
    - apply (is_int_count (t_list (tabs w)) r); [lia|apply refs_le].
    - intros r2 w4 (Ew4 & _ & [[-> Et4]|[=]]). apply run_ret. split; [done|]. rewrite Et4, Et3, ?Ec3. done. }
  assert (forall f, f ∈ t_file (tabs w') -> f_md5 f = md5 -> f_count f = Z.of_nat r + 1) as Hcount.
  { rewrite Ef. intros f (x & _ & ->)%elem_of_update Hfm. destruct (decide (f_md5 x = md5)); done. }
  assert (refs md5 (t_list (tabs w')) = S (S r)) as Hrefs.
  { rewrite El, !refs_snoc, !decide_True by done. fold r. lia. }
  exists w'. split; [done|]. split; [done|]. split; [done|]. intros HT'.
  assert (md5 ∈ f_md5 <$> t_file (tabs w')) as Hm'.
  { rewrite Ef, update_keys by done. cbn. by rewrite update_keys. }
  apply list_elem_of_fmap in Hm' as (f & Efm & Hf). pose proof (con_refs _ HT' f Hf) as Hc.
  rewrite (Hcount f Hf), <- Efm, Hrefs in Hc by done. lia.
Qed.

(** C40: a lost file: an upload by digest has seen that the content is stored; its
    only owner deletes the file, and the content with it; the upload goes on and
    succeeds. Both answer success, and the new entry refers to content that is
    no longer stored. *)
Theorem upload_delete_loses (u n md5 du dn : string) (w : world)
    (Ha1 : args_ok u md5 n (w_now w)) (Ha2 : args_ok du md5 dn (w_now w))
    (Hs : serving (w_db w)) (Hr : answering (w_redis w)) (Hst : storage_ready w)
    (HT : consistent (tabs w)) (Hlen : Z.of_nat (length (t_list (tabs w))) < INT_MAX)
    (Hid : forall f, f ∈ t_file (tabs w) -> (String.length (f_id f) <= 511)%nat)
    (Hus : unshared du md5 dn w) (Hu : u <> SHARE_COUNT)
    (Hin : (du, md5, dn) ∈ entry <$> t_list (tabs w))
    (Hone : refs md5 (t_list (tabs w)) = 1%nat)
    (Hn : (u, md5, n) ∉ entry <$> t_list (tabs w)) :
  exists w', upload_delete_race u n md5 du dn w = Ok ((0, 0), w')
    /\ (u, md5, n) ∈ entry <$> t_list (tabs w') /\ md5 ∉ f_md5 <$> t_file (tabs w')
    /\ ~ consistent (tabs w').
Proof.
  pose proof Hin as (r & [= Eu Em En] & Hr0)%list_elem_of_fmap.
  assert (md5 ∈ f_md5 <$> t_file (tabs w)) as Hm by (rewrite Em; by apply con_stored).
  destruct (rows_of_entry (tabs w) du md5) as (c & f & H1 & H2 & H3 & H4 & E5 & E6 & H7 & H8 & H9 & H10); auto.
  { by exists r. }
  assert (exists w', upload_delete_race u n md5 du dn w = Ok ((0, 0), w') /\
    t_list (tabs w') = filter (fun x => ~ is_entry du md5 dn x) (t_list (tabs w)) ++ [new_entry u md5 n (w_now w)] /\
    f_md5 <$> t_file (tabs w') = f_md5 <$> filter (fun x => f_md5 x <> md5) (t_file (tabs w)))
    as (w' & E & El & Ef).
  { apply (run_det (upload_delete_race u n md5 du dn)). unfold upload_delete_race.
    apply run_bind. eapply run_mono; [apply check_spec; [done|by intros _|done..]|].
    intros s1 w1 (Ew1 & Hu1 & Et1 & tmp1 & ->).
    apply run_bind. eapply run_mono; [apply (del_file_body_spec du md5 dn c f); rewrite ?Et1; auto using con_counts, con_files|].
    - by rewrite Ew1.
    - split; [done|]. intros _. by rewrite Ew1.
    - destruct Hus as [Hz Hrw]. split; [by rewrite Ew1|by rewrite Et1].
    - destruct Hst as [[x Hx] Hsys]. split; [|done]. exists x. apply (cfg_value_fs _ _ _ w); [by rewrite Ew1|done].
    - intros r2 w2 (Hf2 & _ & -> & [Hs2 _] & Et2). rewrite Et1 in Et2. cbn [deal_md5_finish].
      assert (w_now w2 = w_now w) as Ec2 by (by rewrite (fr_now _ _ Hf2), Ew1).
      apply run_bind. eapply run_mono; [apply (add_entry_effect true); rewrite ?Ec2, ?Et2; try done|].
      + by apply (unbump_NoDup _ _ c), H2; [apply con_counts|].
      + intros x Hx Ex. cbn [t_count] in Hx.
        destruct (elem_of_unbump _ _ c x (con_counts _ HT) H1 H2 Hx) as [[_ Hx']|[_ ->]].
        * by apply (user_count_int (tabs w) u).
        * split; [done|]. by replace (c_count c - 1 + 1) with (c_count c) by lia.
      + by apply (is_int_count (t_list (tabs w))), refs_le.
      + intros r1 w3 (_ & _ & [[-> Et3]|[=]]). apply run_ret. split; [done|]. rewrite Et3, Et2, Ec2.
        cbn [t_list t_file]. split; [done|]. rewrite update_keys by done. unfold drop_content. by rewrite E6, Hone. }
  exists w'. split; [done|]. rewrite El, Ef.
  assert ((u, md5, n) ∈ entry <$> t_list (tabs w')) as Hnew.
  { rewrite El, fmap_app, elem_of_app. right. cbn. by left. }
  assert (md5 ∉ f_md5 <$> t_file (tabs w')) as Hgone.
  { rewrite Ef. intros (x & -> & [Hx _]%list_elem_of_filter)%list_elem_of_fmap. done. }
  rewrite <- El, <- Ef. split; [done|]. split; [done|]. intros HT'. apply Hgone.
  apply list_elem_of_fmap in Hnew as (x & [= _ -> _] & Hx). by apply con_stored.
Qed.

End Race.
