(* ===== verification/Upload.v ===== *)
(** Upload (src/src/cgi/cgi_upload.c): a multipart body is taken apart, stored
    in FastDFS, and recorded in the database. *)

From Stdlib Require Import ZArith Lia Bool Ascii String.
From stdpp Require Import base tactics numbers list strings gmap.
From S2P Require Import Prelude CString CgiUtil Text Double CJson CJsonParse CJsonPrint World.
From S2P Require Import MysqlOp RedisOp Sql Kv CgiCommon Logic Catalogue.

(** ** Taking the body apart *)

(** [strstr(&buf[pos], pat)]: the index of the match, [None] for [NULL]; the
    scan stops at a NUL and is undefined when the buffer ends before one. *)
Fixpoint scan (buf pat : list Z) (pos : nat) : outcome (option nat) :=
  match buf with
  | [] => Undef OutOfBounds
  | c :: buf' =>
      if starts_with pat buf then Ok (Some pos) else
      if c =? 0 then Ok None else scan buf' pat (S pos)
  end.
Definition strstr_at (buf : list Z) (pos : nat) (pat : list Z) : outcome (option nat) :=
  scan (drop pos buf) pat pos.

Definition CRLF : list Z := [13; 10].

(** A [strstr] whose result is used without a check. *)
Definition strstr_unchecked (buf : list Z) (pos : nat) (pat : list Z) : outcome nat :=
  let* r := strstr_at buf pos pat in
  match r with None => Undef NullDeref | Some p => Ok p end.

(** [strtok(s, "|")]: the token and the rest, [None] for [NULL]. *)
Fixpoint skip_bars (s : list Z) : list Z :=
  match s with c :: s' => if c =? 124 then skip_bars s' else s | [] => [] end.
Fixpoint take_token (s : list Z) : list Z * list Z :=
  match s with
  | [] => ([], [])
  | c :: s' => if c =? 124 then ([], s')
               else let '(t, r) := take_token s' in (c :: t, r)
  end.
Definition strtok (s : list Z) : option (list Z * list Z) :=
  match skip_bars s with [] => None | s => Some (take_token s) end.

(** [pch = strtok(...); strncpy(dst, pch, strlen(pch) + 1)] into [cap] bytes. *)
Definition copy_token (s : list Z) (cap : nat) : outcome (list Z * list Z) :=
  match strtok s with
  | None => Undef NullDeref
  | Some (t, r) => if (length t <? cap)%nat then Ok (t, r) else Undef OutOfBounds
  end.

(** What a body holds. *)
Record upload_info := UploadInfo {
  up_user : list Z; up_filename : list Z; up_md5 : list Z; up_size : list Z; up_data : list Z }.

(** The copies of [begin .. p) into [cap] bytes. *)
Definition slice (buf : list Z) (from to cap : nat) (terminated : bool) : outcome (list Z) :=
  let s := take (to - from) (drop from buf) in
  if (length s + (if terminated then 1 else 0) <=? cap)%nat then Ok s else Undef OutOfBounds.

(** The four fields of the info line. *)
Definition parse_info (content_text : list Z) : outcome (list Z * list Z * list Z * list Z) :=
  let* '(user, rest) := copy_token content_text USER_NAME_LEN in
  let* '(filename, rest) := copy_token rest FILE_NAME_LEN in
  let* '(md5, rest) := copy_token rest MD5_LEN in
  let* '(sz, _) := copy_token rest 128 in
  Ok (user, filename, md5, sz).

(** The parsing part of [recv_save_file]; [buf] is [file_buf], of [len] bytes;
    [None] stands for the return value -1. The length given to [memstr] is
    [len - (q - p)] with [q] the start of the buffer. *)
Definition parse_body (buf : list Z) : outcome (option upload_info) :=
  let len := Z.of_nat (length buf) in
  let* p := strstr_at buf 0 CRLF in
  match p with
  | None => Ok None
  | Some p =>
      let* boundary := slice buf 0 p TEMP_BUF_MAX_LEN true in
      let begin := (p + 2)%nat in
      let* p := strstr_unchecked buf begin CRLF in
      let* _ := slice buf begin p TEMP_BUF_MAX_LEN false in
      let begin := (p + 2 + 2)%nat in
      let* p := strstr_at buf begin CRLF in
      match p with
      | None => Ok None
      | Some p =>
          let* content_text := slice buf begin p TEMP_BUF_MAX_LEN true in
          let* '(user, filename, md5, sz) := parse_info content_text in
          let* p := strstr_unchecked buf (p + 2) CRLF in
          let* p := strstr_unchecked buf (p + 2) CRLF in
          let* p := strstr_unchecked buf (p + 2) CRLF in
          let begin := (p + 2 + 2)%nat in
          let* m := memstr (Some (drop begin buf)) (len + Z.of_nat begin) (Some boundary) in
          match m with
          | None => Ok None
          | Some k =>
              if (k <? 2)%nat then Undef OutOfBounds else
              Ok (Some (UploadInfo user filename md5 sz (take (k - 2) (drop begin buf))))
          end
      end
  end.

Section Upload.
Context `{Services}.

(** [recv_save_file]: [stdin] is what arrives, [junk] the rest of the allocated
    bytes, [malloc_ok] and [open_ok] whether the calls succeed. Result: return
    value, user, file name and digest. *)
Definition recv_save_file (malloc_ok open_ok : bool) (len : Z) (stdin junk : list Z)
    : M (Z * string * string * string) :=
  if negb malloc_ok then mret (-1, "", "", "") else
  let data := take (Z.to_nat len) stdin in
  if (length data =? 0)%nat then mret (-1, "", "", "") else
  let file_buf := take (Z.to_nat len) (data ++ junk) in
  r ← lift (parse_body file_buf);
  match r with
  | None => mret (-1, "", "", "")
  | Some i =>
      let user := text_of (up_user i) in
      let filename := text_of (up_filename i) in
      let md5 := text_of (up_md5 i) in
      if negb open_ok then mret (-1, user, filename, md5) else
      write_file filename (text_of (up_data i));;
      mret (0, user, filename, md5)
  end.

(** [upload_to_dstorage], the parent's side, with [fileid] an array of 512
    zeroed bytes: return value and [fileid]. *)
Definition upload_to_dstorage (filename : string) : M (Z * string) :=
  '(_, fdfs_cli_conf_path) ← cfg_value 256 "dfs_path" "client";
  out ← pipe_from ["fdfs_upload_file"; fdfs_cli_conf_path; filename];
  match out with
  | None => mret (-1, "")
  | Some out =>
      fileid ← lift (memcpy (replicate TEMP_BUF_MAX_LEN 0) 0 (take TEMP_BUF_MAX_LEN (bytes_of out)));
      '(_, fileid) ← lift (trim_space (Some fileid));
      t ← lift (text fileid);
      mret (if (length t =? 0)%nat then -1 else 0, text_of t)
  end.

Definition SOURCE_IP : string := "source ip address: ".

(** [make_file_url], the parent's side, with [fdfs_file_url] an array of 512
    zeroed bytes: return value and URL. *)
Definition make_file_url (fileid : string) : M (Z * string) :=
  '(_, fdfs_cli_conf_path) ← cfg_value 256 "dfs_path" "client";
  out ← pipe_from ["fdfs_file_info"; fdfs_cli_conf_path; fileid];
  match out with
  | None => mret (-1, "")
  | Some out =>
      stat_buf ← lift (memcpy (replicate TEMP_BUF_MAX_LEN 0) 0 (take TEMP_BUF_MAX_LEN (bytes_of out)));
      p ← lift (strstr_unchecked stat_buf 0 (bytes_of SOURCE_IP));
      let q := (p + String.length SOURCE_IP)%nat in
      k ← lift (strstr_unchecked stat_buf q [10]);
      host ← lift (slice stat_buf q k HOST_NAME_LEN true);
      '(_, port) ← cfg_value 20 "storage_web_server" "port";
      url ← sprintf FILE_URL_LEN ("http://" +:+ text_of host +:+ ":" +:+ port +:+ "/" +:+ fileid);
      mret (0, url)
  end.

(** [store_fileinfo_to_mysql] with a connection; [suffix] is an uninitialised
    array of 8 bytes. *)
Definition store_fileinfo_body (user filename md5 : string) (size : Z) (fileid url : string)
    (suffix_junk : list Z) : M Z :=
  set_names;;
  '(_, suffix) ← lift (get_file_suffix (Some (bytes_of filename ++ [0])) suffix_junk);
  suffix ← lift (text suffix);
  failed ← sql_do (InsFile (FileRow md5 fileid url size (text_of suffix) 1));
  if failed : bool then mret (-1) else
  create_time ← now;
  failed ← sql_do (InsList (ListRow user md5 create_time filename 0 0));
  if failed : bool then mret (-1) else
  bump_user_count (InsCount user 1) user "".

Definition store_fileinfo_to_mysql (cfg : settings) (user filename md5 : string) (size : Z)
    (fileid url : string) (suffix_junk : list Z) : M Z :=
  conn ← msql_conn (mysql_user cfg) (mysql_pwd cfg) (mysql_db cfg);
  if negb conn then mret (-1) else
  ret ← store_fileinfo_body user filename md5 size fileid url suffix_junk;
  mysql_close;;
  mret ret.

(** The environment of a request: success of [malloc] and [open], the bytes
    behind the body, the value found in [size] and in [suffix]. *)
Record upload_env := UploadEnv {
  ue_malloc_ok : bool; ue_open_ok : bool; ue_junk : list Z; ue_size : Z; ue_suffix : list Z }.

(** The steps of a request, in the order of [main]; -1 as soon as one fails. *)
Definition upload_file (cfg : settings) (env : upload_env) (len : Z) (stdin : list Z) : M Z :=
  '(ret, user, filename, md5) ←
    recv_save_file (ue_malloc_ok env) (ue_open_ok env) len stdin (ue_junk env);
  if ret <? 0 then mret (-1) else
  '(ret, fileid) ← upload_to_dstorage filename;
  if ret <? 0 then mret (-1) else
  unlink filename;;
  '(ret, url) ← make_file_url fileid;
  if ret <? 0 then mret (-1) else
  ret ← store_fileinfo_to_mysql cfg user filename md5 (ue_size env) fileid url (ue_suffix env);
  mret (if ret <? 0 then -1 else 0).

(** One turn of the loop of [main]. *)
Definition upload_main (cfg : settings) (env : upload_env) (rq : request) : M unit :=
  printf ("Content-type: text/html" +:+ crlf +:+ crlf);;
  let len := match content_length rq with None => 0 | Some s => strtol s end in
  if len <=? 0 then printf ("No data from standard input" +:+ newline) else
  ret ← upload_file cfg env len (bytes_of (stdin rq));
  printf (return_status (if ret =? 0 then "008" else "009")).

End Upload.

(** ** Taking a well-formed body apart *)

(** A line of a header: no NUL and no carriage return. *)
Definition plain (s : list Z) : Prop := Forall (fun c => c <> 0 /\ c <> 13) s.

Lemma scan_line s rest pos : plain s -> scan (s ++ CRLF ++ rest) CRLF pos = Ok (Some (pos + length s)%nat).
Proof.
  intros Hs. revert pos. induction Hs as [|c s [H0 H13] _ IH]; intros pos.
  - cbn. by rewrite Nat.add_0_r.
  - cbn [app scan length]. assert (starts_with CRLF (c :: s ++ CRLF ++ rest) = false) as ->.
    { apply not_true_is_false. intros [r E]%starts_with_spec. injection E as E _. done. }
    rewrite (proj2 (Z.eqb_neq c 0) H0), IH. do 2 f_equal. lia.
Qed.

(** One line of the buffer: where it ends, what it holds, what follows. *)
Lemma next_line buf pos s rest : plain s -> drop pos buf = s ++ CRLF ++ rest ->
  strstr_at buf pos CRLF = Ok (Some (pos + length s)%nat)
  /\ take (pos + length s - pos) (drop pos buf) = s
  /\ drop (pos + length s + 2) buf = rest.
Proof.
  intros Hs E. unfold strstr_at. rewrite E, scan_line by done. split; [done|].
  replace (pos + length s - pos)%nat with (length s) by lia. rewrite take_app_length. split; [done|].
  rewrite <- Nat.add_assoc, <- drop_drop, E, drop_app_add. done.
Qed.

(** A field of the info line. *)
Definition token (s : list Z) : Prop := s <> [] /\ Forall (fun c => c <> 124) s.

Lemma take_token_spec s rest : Forall (fun c => c <> 124) s -> take_token (s ++ 124 :: rest) = (s, rest).
Proof.
  induction 1 as [|c s Hc _ IH]; [done|]. cbn [app take_token].
  by rewrite (proj2 (Z.eqb_neq c 124) Hc), IH.
Qed.
Lemma take_token_last s : Forall (fun c => c <> 124) s -> take_token s = (s, []).
Proof.
  induction 1 as [|c s Hc _ IH]; [done|]. cbn [take_token].
  by rewrite (proj2 (Z.eqb_neq c 124) Hc), IH.
Qed.

Lemma copy_token_spec s rest cap : token s -> (length s < cap)%nat ->
  copy_token (s ++ 124 :: rest) cap = Ok (s, rest).
Proof.
  intros [Hne Hs] Hl. unfold copy_token, strtok. destruct s as [|c s]; [done|].
  pose proof Hs as Hs'. apply Forall_cons in Hs' as [Hc _]. cbn [app skip_bars].
  rewrite (proj2 (Z.eqb_neq c 124) Hc).
  change (c :: s ++ 124 :: rest) with ((c :: s) ++ 124 :: rest).
  rewrite take_token_spec by done. by rewrite (proj2 (Nat.ltb_lt _ _) Hl).
Qed.
Lemma copy_token_last s cap : token s -> (length s < cap)%nat -> copy_token s cap = Ok (s, []).
Proof.
  intros [Hne Hs] Hl. unfold copy_token, strtok. destruct s as [|c s]; [done|].
  pose proof Hs as Hs'. apply Forall_cons in Hs' as [Hc _]. cbn [skip_bars].
  rewrite (proj2 (Z.eqb_neq c 124) Hc), take_token_last by done. by rewrite (proj2 (Nat.ltb_lt _ _) Hl).
Qed.

(** A body as a browser sends it: boundary, header and info line; boundary, two
    header lines and the data; boundary and the rest. *)
Definition multipart (b hdr1 info hdr2 hdr3 data tail : list Z) : list Z :=
  b ++ CRLF ++ hdr1 ++ CRLF ++ CRLF ++ info ++ CRLF ++
  b ++ CRLF ++ hdr2 ++ CRLF ++ hdr3 ++ CRLF ++ CRLF ++ data ++ CRLF ++ b ++ tail.
Definition info_line (user filename md5 size : list Z) : list Z :=
  user ++ 124 :: filename ++ 124 :: md5 ++ 124 :: size.

Lemma slice_ok buf from to cap term s : take (to - from) (drop from buf) = s ->
  (length s < cap)%nat -> slice buf from to cap term = Ok s.
Proof.
  intros E Hl. unfold slice. rewrite E.
  assert ((length s + (if term then 1 else 0) <=? cap)%nat = true) as ->; [|done].
  apply Nat.leb_le. destruct term; lia.
Qed.

Lemma parse_info_ok user filename md5 size :
  token user -> token filename -> token md5 -> token size ->
  (length user < USER_NAME_LEN)%nat -> (length filename < FILE_NAME_LEN)%nat ->
  (length md5 < MD5_LEN)%nat -> (length size < 128)%nat ->
  parse_info (info_line user filename md5 size) = Ok (user, filename, md5, size).
Proof.
  intros. unfold parse_info, info_line.
  rewrite copy_token_spec by done. cbn [obind]. rewrite copy_token_spec by done. cbn [obind].
  rewrite copy_token_spec by done. cbn [obind]. by rewrite copy_token_last.
Qed.

(** The end of the data, searched with a length that exceeds the buffer. *)
Lemma find_end buf begin data b tail : b <> [] -> drop begin buf = data ++ CRLF ++ b ++ tail ->
  strstr (data ++ CRLF ++ b ++ tail) b = Some (length data + 2)%nat ->
  memstr (Some (drop begin buf)) (Z.of_nat (length buf) + Z.of_nat begin) (Some b) =
  Ok (Some (length data + 2)%nat).
Proof.
  intros Hne D Hocc. rewrite D. unfold memstr.
  assert (length buf = begin + length (data ++ CRLF ++ b ++ tail))%nat as Hlen.
  { rewrite <- D, length_drop. destruct (decide (begin <= length buf)%nat); [lia|].
    rewrite drop_ge in D by lia. apply (f_equal length) in D. rewrite !length_app in D. cbn in D. lia. }
  rewrite !length_app in Hlen. cbn [length CRLF] in Hlen.
  destruct (Z.leb_spec (Z.of_nat (length buf) + Z.of_nat begin) 0); [lia|].
  destruct b as [|c b']; [done|].
  rewrite (memstr_loop_found (c :: b') _ _ _ (length data + 2)) by (done || lia). done.
Qed.

(** Taking a body apart. *)
Lemma parse_multipart (b hdr1 hdr2 hdr3 user filename md5 size data tail : list Z)
    (Hb : plain b) (H1 : plain hdr1) (H2 : plain hdr2) (H3 : plain hdr3)
    (Hi : plain (info_line user filename md5 size)) (Hne : b <> [])
    (Tu : token user) (Tf : token filename) (Tm : token md5) (Ts : token size)
    (Lu : (length user < USER_NAME_LEN)%nat) (Lf : (length filename < FILE_NAME_LEN)%nat)
    (Lm : (length md5 < MD5_LEN)%nat) (Ls : (length size < 128)%nat)
    (Lb : (length b < TEMP_BUF_MAX_LEN)%nat) (L1 : (length hdr1 < TEMP_BUF_MAX_LEN)%nat)
    (Li : (length (info_line user filename md5 size) < TEMP_BUF_MAX_LEN)%nat)
    (Hocc : strstr (data ++ CRLF ++ b ++ tail) b = Some (length data + 2)%nat) :
  parse_body (multipart b hdr1 (info_line user filename md5 size) hdr2 hdr3 data tail) =
  Ok (Some (UploadInfo user filename md5 size data)).
Proof.
  set (info := info_line user filename md5 size) in *. unfold parse_body.
  set (buf := multipart b hdr1 info hdr2 hdr3 data tail).
  destruct (next_line buf 0 b (hdr1 ++ CRLF ++ CRLF ++ info ++ CRLF ++ b ++ CRLF ++ hdr2 ++ CRLF ++ hdr3
    ++ CRLF ++ CRLF ++ data ++ CRLF ++ b ++ tail)) as (-> & S0 & D0); [done..|]. cbn [obind].
  rewrite (slice_ok _ _ _ _ _ b S0 Lb). cbn [obind].
  destruct (next_line buf _ hdr1 _ H1 D0) as (E1 & S1 & D1). unfold strstr_unchecked at 1. rewrite E1.
  cbn [obind]. rewrite (slice_ok _ _ _ _ _ hdr1 S1 L1). cbn [obind].
  apply (f_equal (drop 2)) in D1. rewrite drop_drop in D1. cbn [CRLF app drop] in D1. rewrite drop_0 in D1.
  destruct (next_line buf _ info _ Hi D1) as (-> & S2 & D2). cbn [obind].
  rewrite (slice_ok _ _ _ _ _ info S2 Li). cbn [obind].
  unfold info at 1. rewrite parse_info_ok by done. cbn [obind]. unfold strstr_unchecked.
  destruct (next_line buf _ b _ Hb D2) as (-> & _ & D3). cbn [obind].
  destruct (next_line buf _ hdr2 _ H2 D3) as (-> & _ & D4). cbn [obind].
  destruct (next_line buf _ hdr3 _ H3 D4) as (-> & _ & D5). cbn [obind].
  apply (f_equal (drop 2)) in D5. rewrite drop_drop in D5. cbn [CRLF app drop] in D5. rewrite drop_0 in D5.
  change (13 :: 10 :: b ++ tail) with (CRLF ++ b ++ tail) in D5.
  rewrite (find_end _ _ _ _ _ Hne D5 Hocc). cbn [obind].
  destruct (Nat.ltb_spec (length data + 2) 2); [lia|].
  rewrite D5, Nat.add_sub. by rewrite take_app_length.
Qed.


(** ** Recording a stored file *)

(** A property of all characters of a name holds of its suffix. *)
Lemma suffix_of_Forall (P : Z -> Prop) s : Forall P s -> Forall P null_text -> Forall P (suffix_of s).
Proof.
  intros Hs Hn. unfold suffix_of. destruct (after_dot s) as [[|c e]|] eqn:E; [done| |done].
  apply after_dot_Some in E as (pre & -> & _). apply Forall_app in Hs as [_ Hs]. by apply Forall_cons in Hs as [_ Hs].
Qed.

Definition safe_byte (b : Z) : Prop := b <> 39 /\ b <> 34 /\ b <> 92 /\ is_byte b.

Lemma quote_free_bytes s : quote_free s = true -> Forall safe_byte (bytes_of s).
Proof.
  unfold quote_free, bytes_of. rewrite forallb_forall. intros Hs. apply Forall_fmap, Forall_forall.
  intros c Hc%list_elem_of_In. specialize (Hs c Hc). rewrite !negb_orb, !andb_true_iff, !negb_true_iff in Hs.
  destruct c as [[] [] [] [] [] [] [] []]; try (vm_compute in Hs; naive_solver);
    unfold safe_byte; cbn; (split; [done|]; split; [done|]; split; [done|]; by_decide).
Qed.

Lemma quote_free_text bs : Forall safe_byte bs -> quote_free (text_of bs) = true.
Proof.
  unfold quote_free, text_of. rewrite list_ascii_of_string_of_list_ascii. intros Hb.
  apply forallb_forall. intros c (b & <- & Hc%list_elem_of_In)%in_map_iff.
  rewrite Forall_forall in Hb. destruct (Hb b Hc) as (H1 & H2 & H3 & H4).
  assert (b = Z.of_N (N_of_ascii (ascii_of_N (Z.to_N b)))) as Eb.
  { rewrite N_ascii_embedding; unfold is_byte in H4; lia. }
  rewrite !negb_orb, !andb_true_iff, !negb_true_iff, !Ascii.eqb_neq.
  repeat split; intros E; rewrite E in Eb; vm_compute in Eb; congruence.
Qed.

Lemma length_text_of bs : String.length (text_of bs) = length bs.
Proof. unfold text_of. induction bs; cbn; congruence. Qed.

Section Store.
Context {SV : Services} {SQ : SqlServer} {RD : RedisServer}.

(** What [store_fileinfo_to_mysql] is given: texts without quotes that fit the
    statements, a name without NULs whose suffix fits its buffer. *)
Record store_ok (user filename md5 : string) (size : Z) (fileid url : string) (w : world) : Prop := {
  so_args : args_ok user md5 filename (w_now w);
  so_fileid : quote_free fileid = true;
  so_url : quote_free url = true;
  so_size : num_ok size = true;
  so_len : (String.length md5 + String.length fileid + String.length url <= 340)%nat;
  so_nonul : nonul (bytes_of filename);
  so_suffix : (length (suffix_of (bytes_of filename)) < SUFFIX_LEN)%nat
}.

(** The row of file_info that is added. *)
Definition stored_row (filename md5 : string) (size : Z) (fileid url : string) : file_row :=
  FileRow md5 fileid url size (text_of (suffix_of (bytes_of filename))) 1.

Lemma store_body_spec user filename md5 size fileid url junk w :
  store_ok user filename md5 size fileid url w -> length junk = SUFFIX_LEN ->
  db_up true w -> consistent (tabs w) -> Z.of_nat (length (t_list (tabs w))) < INT_MAX ->
  user <> SHARE_COUNT ->
  run true (store_fileinfo_body user filename md5 size fileid url junk) (fun ret w' =>
    ret = 0 /\ w' = set_db (w_db w') w /\ db_up true w' /\
    tabs w' = add_content (stored_row filename md5 size fileid url)
                (new_entry user md5 filename (w_now w)) (tabs w)) w.
Proof.
  intros [Ha Hqf Hqu Hsz Hl Hnn Hsuf] Hj Hu HT Hlen Hres. unfold store_fileinfo_body.
  apply run_bind, run_set_names; [done|]. intros db0 Hu0 Hd0.
  apply run_bind. apply run_lift; rewrite get_file_suffix_eq, Hj, (proj2 (Nat.ltb_lt _ _) Hsuf) by done; [eauto|].
  intros ? [= <-]. apply run_bind.
  assert (nonul (suffix_of (bytes_of filename))) as Hns by (apply suffix_of_Forall; [done | by repeat constructor]).
  apply run_lift; rewrite text_app by done; [eauto|]. intros ? [= <-]. apply run_bind.
  assert (quote_free (text_of (suffix_of (bytes_of filename))) = true) as Hqs.
  { apply quote_free_text, suffix_of_Forall; [apply quote_free_bytes, Ha|].
    repeat constructor; by_decide. }
  fold (stored_row filename md5 size fileid url).
  eapply run_sql_do; [| |done|done|].
  { cbn -[quote_free num_ok text_of]. rewrite (ao_md5 _ _ _ _ Ha), Hqf, Hqu, Hsz, Hqs. done. }
  { intros _. apply render_fits. stmt_len.
    cbn [stmt_args stored_row args_len foldr arg_len f_md5 f_id f_url f_size f_type f_count].
    rewrite length_text_of. unfold SUFFIX_LEN, SQL_MAX_LEN in *. lia. }
  intros db1 Hu1 Hd1. assert (tabs (set_db db1 (set_db db0 w)) =
    set_file (t_file (tabs w) ++ [stored_row filename md5 size fileid url]) (tabs w)) as E1.
  { unfold tabs at 1. cbn [w_db set_db]. rewrite Hd1. change (tabs (set_db db0 w)) with (db_tables db0).
    by rewrite Hd0. }
  eapply run_mono; [apply insert_entry_spec; rewrite ?E1; [done|done|exact (con_counts _ HT)|]|].
  { intros c. exact (user_count_int (tabs w) user c HT Hlen Hres). }
  intros ret w' (Ew & Hu' & [[-> Hc]|[=]]). split; [done|]. split; [by rewrite Ew|]. split; [done|].
  rewrite Hc, E1. done.
Qed.

(** [store_fileinfo_to_mysql] on a serving database. *)
Lemma store_run cfg user filename md5 size fileid url junk w :
  store_ok user filename md5 size fileid url w -> length junk = SUFFIX_LEN -> serving (w_db w) ->
  mysql_accepts w (mysql_user cfg) (mysql_pwd cfg) (mysql_db cfg) = true ->
  consistent (tabs w) -> Z.of_nat (length (t_list (tabs w))) < INT_MAX -> user <> SHARE_COUNT ->
  exists w', store_fileinfo_to_mysql cfg user filename md5 size fileid url junk w = Ok (0, w')
    /\ (w_fs w' = w_fs w /\ w_now w' = w_now w /\ w_redis w' = w_redis w /\ serving (w_db w'))
    /\ tabs w' = add_content (stored_row filename md5 size fileid url)
                   (new_entry user md5 filename (w_now w)) (tabs w)
    /\ kv w' = kv w /\ w_out w' = w_out w
    /\ w_open_db w' = w_open_db w /\ w_open_redis w' = w_open_redis w.
Proof.
  intros Hok Hj Hs Hc HT Hlen Hres.
  apply (run_det (store_fileinfo_to_mysql cfg user filename md5 size fileid url junk)).
  unfold store_fileinfo_to_mysql. apply run_bind, run_msql_conn; [|congruence]. intros _.
  apply run_bind. eapply run_mono; [apply store_body_spec; [by destruct Hok|done|by intros _|done..]|].
  intros ret w1 (-> & Ew & Hup & Ht). apply run_bind, run_mysql_close, run_ret.
  rewrite Ew in *. split; [done|]. split; [|split; [exact Ht|done]]. split; [done|]. split; [done|]. split; [done|by apply Hup].
Qed.

(** [store_fileinfo_to_mysql] of new content. *)
Lemma store_fileinfo_run (cfg : settings) (user filename md5 : string) (size : Z)
    (fileid url : string) (junk : list Z) (w : world)
    (Hok : store_ok user filename md5 size fileid url w) (Hj : length junk = SUFFIX_LEN)
    (Hs : serving (w_db w))
    (Hc : mysql_accepts w (mysql_user cfg) (mysql_pwd cfg) (mysql_db cfg) = true)
    (HT : consistent (tabs w)) (Hlen : Z.of_nat (length (t_list (tabs w))) < INT_MAX)
    (Hres : user <> SHARE_COUNT) (Hnew : md5 ∉ f_md5 <$> t_file (tabs w)) :
  exists w', store_fileinfo_to_mysql cfg user filename md5 size fileid url junk w = Ok (0, w')
    /\ (w_fs w' = w_fs w /\ w_now w' = w_now w /\ w_redis w' = w_redis w /\ serving (w_db w'))
    /\ tabs w' = add_content (stored_row filename md5 size fileid url)
                   (new_entry user md5 filename (w_now w)) (tabs w)
    /\ consistent (tabs w') /\ kv w' = kv w /\ w_out w' = w_out w
    /\ w_open_db w' = w_open_db w /\ w_open_redis w' = w_open_redis w.
Proof.
  destruct (store_run cfg user filename md5 size fileid url junk w) as (w' & E & Hfs & Ht & Hr); [done..|].
  exists w'. split; [done|]. split; [done|]. split; [done|]. split; [|done].
  rewrite Ht. by apply consistent_add_content.
Qed.

(** C4: new content on a serving database with consistent counters:
    [store_fileinfo_to_mysql] returns 0, adds the content with reference count 1
    and its suffix, the entry and the user's counter, keeps the counters
    consistent and closes its connection. *)
Theorem store_fileinfo_refines (cfg : settings) (user filename md5 : string) (size : Z)
    (fileid url : string) (junk : list Z) (w : world)
    (Hok : store_ok user filename md5 size fileid url w) (Hj : length junk = SUFFIX_LEN)
    (Hs : serving (w_db w))
    (Hc : mysql_accepts w (mysql_user cfg) (mysql_pwd cfg) (mysql_db cfg) = true)
    (HT : consistent (tabs w)) (Hlen : Z.of_nat (length (t_list (tabs w))) < INT_MAX)
    (Hres : user <> SHARE_COUNT) (Hnew : md5 ∉ f_md5 <$> t_file (tabs w)) :
  exists w', store_fileinfo_to_mysql cfg user filename md5 size fileid url junk w = Ok (0, w')
    /\ tabs w' = add_content (stored_row filename md5 size fileid url)
                   (new_entry user md5 filename (w_now w)) (tabs w)
    /\ consistent (tabs w') /\ kv w' = kv w /\ w_out w' = w_out w
    /\ w_open_db w' = w_open_db w /\ w_open_redis w' = w_open_redis w.
Proof.
  destruct (store_fileinfo_run cfg user filename md5 size fileid url junk w) as (w' & E & _ & H); try done.
  by exists w'.
Qed.

(** content that is stored already is recorded a second time: the call
    succeeds and leaves two rows of file_info with the same digest, so the tables
    are no longer consistent. *)
Theorem store_fileinfo_duplicate (cfg : settings) (user filename md5 : string) (size : Z)
    (fileid url : string) (junk : list Z) (w : world)
    (Hok : store_ok user filename md5 size fileid url w) (Hj : length junk = SUFFIX_LEN)
    (Hs : serving (w_db w))
    (Hc : mysql_accepts w (mysql_user cfg) (mysql_pwd cfg) (mysql_db cfg) = true)
    (HT : consistent (tabs w)) (Hlen : Z.of_nat (length (t_list (tabs w))) < INT_MAX)
    (Hres : user <> SHARE_COUNT) (Hold : md5 ∈ f_md5 <$> t_file (tabs w)) :
  exists w', store_fileinfo_to_mysql cfg user filename md5 size fileid url junk w = Ok (0, w')
    /\ ~ consistent (tabs w').
Proof.
  destruct (store_run cfg user filename md5 size fileid url junk w) as (w' & E & Hfs & Ht & Hr); [done..|].
  exists w'. split; [done|]. intros Hcon%con_files. rewrite Ht in Hcon. cbn in Hcon.
  rewrite fmap_app in Hcon. apply NoDup_app in Hcon as (_ & Hcon & _). apply (Hcon md5 Hold). left.
Qed.

End Store.
