(* ===== verification/Files.v ===== *)
(** The list of a user's files (src/src/cgi/cgi_files.c). *)

From Stdlib Require Import ZArith Lia Bool Ascii String.
From stdpp Require Import base tactics numbers list strings gmap.
From S2P Require Import Prelude CString Text Double CJson CJsonParse CJsonPrint CJsonRoundtrip.
From S2P Require Import World MysqlOp RedisOp Sql Kv CgiCommon Logic Catalogue FilesOp.

(** [if (row[k] != NULL) cJSON_Add...ToObject(item, name, row[k])] *)
Definition add_text (item : cJSON) (name : string) (f : option string) : cJSON :=
  match f with Some s => cJSON_AddStringToObject item name s | None => item end.
Definition add_atoi (item : cJSON) (name : string) (f : option string) : cJSON :=
  match f with Some s => cJSON_AddNumberToObject item name (atoi s) | None => item end.
Definition add_atol (item : cJSON) (name : string) (f : option string) : cJSON :=
  match f with Some s => cJSON_AddNumberToObject item name (atol s) | None => item end.

(** The object of one row; a row of fewer than nine columns is read beyond its
    end. *)
Definition file_item (row : list (option string)) : outcome cJSON :=
  match row with
  | [r0; r1; r2; r3; r4; r5; r6; r7; r8] =>
      let item := cJSON_CreateObject in
      let item := add_text item "user" r0 in
      let item := add_text item "md5" r1 in
      let item := add_text item "time" r2 in
      let item := add_text item "filename" r3 in
      let item := add_atoi item "share_status" r4 in
      let item := add_atol item "pv" r5 in
      let item := add_text item "url" r6 in
      let item := add_atol item "size" r7 in
      let item := add_text item "type" r8 in
      Ok item
  | _ => Undef OutOfBounds
  end.

(** [while ((row = mysql_fetch_row(res_set)) != NULL)] *)
Fixpoint fill_array (f : list (option string) -> outcome cJSON) (array : cJSON)
    (rows : list (list (option string))) : outcome cJSON :=
  match rows with
  | [] => Ok array
  | row :: rows => let* item := f row in fill_array f (cJSON_AddItemToArray array item) rows
  end.

(** The arrays of [main] that live as long as the process. *)
Record files_bufs := FilesBufs { fb_user : option string; fb_token : option string }.

Section Files.
Context `{Services}.

Definition get_user_json_info (buf : string) (b : files_bufs) : M (Z * files_bufs) :=
  match cJSON_Parse buf with
  | None => mret (-1, b)
  | Some root =>
      o ← copy_item root "user" USER_NAME_LEN;
      match o with None => mret (-1, b) | Some user =>
      o ← copy_item root "token" TOKEN_LEN;
      match o with
      | None => mret (-1, FilesBufs (Some user) (fb_token b))
      | Some token => mret (0, FilesBufs (Some user) (Some token))
      end end
  end.

Definition get_user_files_count (cfg : settings) (user : string) : M Z :=
  conn ← msql_conn (mysql_user cfg) (mysql_pwd cfg) (mysql_db cfg);
  if negb conn then mret 0 else
  set_names;;
  '(ret2, tmp) ← sql_one (SelCount' user) (Some (512%nat, ""));
  mysql_close;;
  mret (if ret2 =? 0 then atol tmp else 0).

(** The document printed for a list of rows, by a program whose rows become
    objects by [f]; -1 for a query that fails or selects nothing. *)
Definition print_rows (f : list (option string) -> outcome cJSON) (r : sql_reply) : M (Z * string) :=
  match r with
  | QError => mret (-1, "")
  | QDone => mret (-1, "")
  | QRows [] => mret (-1, "")
  | QRows rows =>
      array ← lift (fill_array f cJSON_CreateArray rows);
      mret (0, cJSON_Print (cJSON_AddItemToObject cJSON_CreateObject "files" array))
  end.

(** [cmd], [start] and [count] are not used. *)
Definition get_user_filelist (cfg : settings) (user : string) : M Z :=
  conn ← msql_conn (mysql_user cfg) (mysql_pwd cfg) (mysql_db cfg);
  '(ret, out) ← (if conn : bool then
                   set_names;;
                   cmd ← sql_cmd (SelFiles user);
                   r ← mysql_query cmd;
                   print_rows file_item r
                 else mret (-1, ""));
  (if ret =? 0 then printf out else printf (return_status "015"));;
  (if conn : bool then mysql_close else mret tt);;
  mret ret.

(** [return_login_status]: the number and the token status, as the client reads
    them. *)
Definition count_status (num token_flag : Z) : M unit :=
  num_buf ← sprintf 128 (dec num);
  let root := cJSON_CreateObject in
  let root := cJSON_AddStringToObject root "num" num_buf in
  let root := cJSON_AddStringToObject root "code" (if token_flag =? 0 then "110" else "111") in
  printf (cJSON_Print root).

(** [get_fileslist_json_info]: user, token, [start] and [count]; not called by
    [main]. *)
Definition get_fileslist_json_info (buf : string) : M (option (string * string * Z * Z)) :=
  match cJSON_Parse buf with
  | None => mret None
  | Some root =>
      o ← copy_item root "user" USER_NAME_LEN;
      match o with None => mret None | Some user =>
      o ← copy_item root "token" TOKEN_LEN;
      match o with None => mret None | Some token =>
      match cJSON_GetObjectItem root "start" with None => mret None | Some child3 =>
      match cJSON_GetObjectItem root "count" with None => mret None | Some child4 =>
      mret (Some (user, token, item_valueint child3, item_valueint child4))
      end end end end
  end.

(** One turn of the loop of [main]: the buffers before and after. *)
Definition files_main (cfg : settings) (b : files_bufs) (rq : request) : M files_bufs :=
  r ← read_request rq;
  match r with
  | NoData | ReadError => mret b
  | Body buf =>
      '(_, b) ← get_user_json_info buf b;
      user ← need (fb_user b);
      token ← need (fb_token b);
      verify_token user token;;
      get_user_files_count cfg user;;
      ret ← verify_token user token;
      (if ret =? 0 then get_user_filelist cfg user;; mret tt else printf (return_status "111"));;
      mret b
  end.

End Files.

(** ** Specification *)

(** The files of a user: each entry with the content stored for it. *)
Definition user_files (user : string) (T : tables) : list (list_row * file_row) :=
  filter (fun r => l_user r = user) (t_list T) ≫= fun r =>
  pair r <$> filter (fun f => f_md5 f = l_md5 r) (t_file T).

(** The object that describes a file. *)
Definition named (name : string) (item : cJSON) : cJSON :=
  let '(Item t s v n _ c) := item in Item t s v n (Some name) c.
Definition file_object (p : list_row * file_row) : cJSON :=
  let '(r, f) := p in
  Item cJSON_Object None 0 dzero None
    [named "user" (cJSON_CreateString (l_user r)); named "md5" (cJSON_CreateString (l_md5 r));
     named "time" (cJSON_CreateString (l_time r)); named "filename" (cJSON_CreateString (l_name r));
     named "share_status" (cJSON_CreateNumber (l_shared r)); named "pv" (cJSON_CreateNumber (l_pv r));
     named "url" (cJSON_CreateString (f_url f)); named "size" (cJSON_CreateNumber (f_size f));
     named "type" (cJSON_CreateString (f_type f))].
Definition files_document (objects : list cJSON) : cJSON :=
  Item cJSON_Object None 0 dzero None [Item cJSON_Array None 0 dzero (Some "files"%string) objects].

(** What is printed for a list of files. *)
Definition files_answer (ps : list (list_row * file_row)) : string :=
  if decide (ps = []) then return_status "015" else cJSON_Print (files_document (file_object <$> ps)).

(** Rows whose texts are C strings and whose numbers have at most 15 digits. *)
Definition row_ok (p : list_row * file_row) : Prop :=
  let '(r, f) := p in
  Forall text_ok [l_user r; l_md5 r; l_time r; l_name r; f_url f; f_type f] /\
  is_int (l_shared r) /\ Z.abs (l_pv r) < 10 ^ 15 /\ Z.abs (f_size f) < 10 ^ 15.
#[export] Instance row_ok_dec p : Decision (row_ok p).
Proof. destruct p. unfold row_ok, is_int, text_ok, nonul. apply _. Defined.

Definition row_fields (p : list_row * file_row) : list (option string) :=
  let '(r, f) := p in list_fields r ++ [field (f_url f); nfield (f_size f); field (f_type f)].

Lemma file_item_object p : row_ok p -> file_item (row_fields p) = Ok (file_object p).
Proof.
  destruct p as [r f]. intros (_ & Hs & Hp & Hf). cbn -[atoi atol dec cJSON_CreateNumber].
  unfold add_atoi, add_atol, nfield, atol, cJSON_AddNumberToObject.
  by rewrite atoi_dec, !strtol_dec by (done || lia).
Qed.

Lemma fill_array_objects {A} f (fields : A -> list (option string)) (object : A -> cJSON) ps c :
  Forall (fun p => f (fields p) = Ok (object p)) ps ->
  fill_array f (Item cJSON_Array None 0 dzero None c) (fields <$> ps) =
  Ok (Item cJSON_Array None 0 dzero None (c ++ (object <$> ps))).
Proof.
  intros Hp. revert c. induction Hp as [|p ps Hp _ IH]; intros c; cbn; [by rewrite app_nil_r|].
  rewrite Hp. cbn. rewrite IH. by rewrite <- app_assoc.
Qed.

(** The document of rows that become objects one by one. *)
Lemma run_print_rows `{Services} {A} t f (fields : A -> list (option string)) (object : A -> cJSON) ps
    (Q : Z * string -> world -> Prop) w :
  Forall (fun p => f (fields p) = Ok (object p)) ps ->
  (ps = [] -> Q (-1, ""%string) w) -> (ps <> [] -> Q (0, cJSON_Print (files_document (object <$> ps))) w) ->
  run t (print_rows f (QRows (fields <$> ps))) Q w.
Proof.
  intros Hp H0 H1. destruct ps as [|p ps]; [by apply run_ret, H0|]. unfold print_rows. cbn [fmap list_fmap].
  change (fields p :: (fields <$> ps)) with (fields <$> (p :: ps)).
  apply run_bind. unfold run at 1, lift, cJSON_CreateArray. rewrite (fill_array_objects f fields object) by done.
  by apply run_ret, H1.
Qed.

Lemma select_files user T : stmt_rows (SelFiles user) T = Some (row_fields <$> user_files user T).
Proof.
  cbn [stmt_rows]. f_equal. unfold user_files. induction (filter _ (t_list T)) as [|r L IH]; [done|].
  cbn -[joined row_fields]. rewrite fmap_app, <- IH. f_equal. unfold joined. by rewrite <- list_fmap_compose.
Qed.

(** Every entry is listed once. *)
Lemma user_files_length user T : consistent T -> length (user_files user T) = owned user (t_list T).
Proof.
  intros HT. unfold user_files, owned. set (L := filter _ (t_list T)).
  assert (forall r, r ∈ L -> r ∈ t_list T) as HL by (by intros r [_ ?]%list_elem_of_filter).
  clearbody L. induction L as [|r L IH]; [done|]. cbn. rewrite length_app, length_fmap, IH by (intros x ?; apply HL; by right).
  assert (r ∈ t_list T) as Hr by (apply HL; left). pose proof (con_stored T HT r Hr) as Hs.
  apply list_elem_of_fmap in Hs as (f & -> & Hf). by rewrite (filter_unique f_md5) by (done || by apply con_files).
Qed.

Lemma well_formed_named depth k item : well_formed depth item -> well_formed depth (named k item).
Proof. destruct 1; by constructor. Qed.
Lemma named_item k item : item_string (named k item) = Some k.
Proof. by destruct item. Qed.

Lemma well_formed_object depth p : (depth < CJSON_NESTING_LIMIT)%nat -> row_ok p -> well_formed depth (file_object p).
Proof.
  intros Hd. destruct p as [r f]. intros (Ht & Hs & Hp & Hf). rewrite !Forall_cons in Ht.
  destruct Ht as (? & ? & ? & ? & ? & ? & _). apply wf_object; [done|].
  assert (Z.abs (l_shared r) < 10 ^ 15) by (unfold is_int in Hs; lia).
  repeat apply Forall_cons_2; try constructor;
    try (apply well_formed_named; by (apply well_formed_number || apply wf_string));
    eexists; rewrite named_item; (split; [done|by_decide]).
Qed.

Lemma well_formed_document objects :
  Forall (fun o => well_formed 2 o /\ item_string o = None) objects -> well_formed 0 (files_document objects).
Proof.
  intros Hp. apply wf_object; [unfold CJSON_NESTING_LIMIT; lia|]. apply Forall_singleton. split.
  - apply wf_array; [unfold CJSON_NESTING_LIMIT; lia|done].
  - eexists. split; [done|]. by_decide.
Qed.

Lemma user_document_wf ps : Forall row_ok ps -> well_formed 0 (files_document (file_object <$> ps)).
Proof.
  intros Hp. apply well_formed_document, Forall_fmap. eapply Forall_impl; [exact Hp|]. intros p Hok.
  split; [apply well_formed_object; [unfold CJSON_NESTING_LIMIT; lia|done]|by destruct p].
Qed.

Section Theorems.
Context {SV : Services} {SQ : SqlServer}.

(** [get_user_filelist] on a serving database. *)
Lemma user_filelist_run cfg user w : quote_free user = true -> (String.length user <= 127)%nat ->
  serving (w_db w) -> mysql_accepts w (mysql_user cfg) (mysql_pwd cfg) (mysql_db cfg) = true ->
  Forall row_ok (user_files user (tabs w)) ->
  run true (get_user_filelist cfg user) (fun ret w' => exists ps, ps ≡ₚ user_files user (tabs w)
    /\ ret = (if decide (ps = []) then -1 else 0)
    /\ w_out w' = w_out w ++ [files_answer ps]
    /\ w' = set_out (w_out w') (set_db (w_db w') w) /\ serving (w_db w') /\ tabs w' = tabs w) w.
Proof.
  intros Hq Hu Hs Hc Hrows.
  unfold get_user_filelist. apply run_bind, run_msql_conn; [|congruence]. intros _. apply run_bind, run_bind.
  apply run_set_names; [by intros _|]. intros db0 Hu0 Hd0. apply run_bind, run_sprintf; [intros _; fits_stmt|].
  intros _. apply run_bind. destruct (mysql_query_cases true (SelFiles user) (set_db db0 (set_open_db (S (w_open_db w)) w)))
    as (db & r & E & [[[=] _]|(Hu1 & Hd1 & Hr)]); [safe_stmt|done|]. unfold run at 1. rewrite E.
  change (tabs (set_db db0 _)) with (db_tables db0) in Hr. rewrite Hd0, select_files in Hr.
  destruct r as [| |rows]; [done..|]. cbn in Hr. apply Permutation_map_inv in Hr as (ps & -> & Hp).
  assert (tabs (set_db db0 (set_open_db (S (w_open_db w)) w)) = tabs w) as E0 by exact Hd0.
  unfold files_answer. apply (run_print_rows true _ row_fields file_object).
  { rewrite <- Hp. eapply Forall_impl; [exact Hrows|]. apply file_item_object. }
  all: intros En; apply run_bind, run_printf, run_bind, run_mysql_close, run_ret; exists ps; (split; [by symmetry|]);
    destruct (decide (ps = [])); try done; (split; [done|]); (split; [done|]); (split; [by destruct w|]);
    (split; [by apply Hu1|]); change (db_tables db = tabs w); by rewrite Hd1.
Qed.

(** [get_user_files_count]: the number of the user's entries. *)
Lemma user_count_run cfg user w : quote_free user = true -> (String.length user <= 127)%nat ->
  serving (w_db w) -> mysql_accepts w (mysql_user cfg) (mysql_pwd cfg) (mysql_db cfg) = true ->
  consistent (tabs w) -> Z.of_nat (length (t_list (tabs w))) < 2 ^ 63 -> user <> SHARE_COUNT ->
  run true (get_user_files_count cfg user) (fun line w' => line = Z.of_nat (owned user (t_list (tabs w)))
    /\ w' = set_db (w_db w') w /\ serving (w_db w') /\ tabs w' = tabs w) w.
Proof.
  intros Hq Hu Hs Hc HT Hlen Hres.
  unfold get_user_files_count. apply run_bind, run_msql_conn; [|congruence]. intros _. cbn [negb].
  apply run_bind, run_set_names; [by intros _|]. intros db0 Hu0 Hd0.
  assert (tabs (set_db db0 (set_open_db (S (w_open_db w)) w)) = tabs w) as E0 by exact Hd0.
  apply run_bind. eapply run_sql_one; [safe_stmt|fits_stmt|done|done|done|..]; rewrite ?E0.
  - intros _. apply Forall_fmap, Forall_true. intros r. eexists _, _. split; [done|]. apply fits_dec. lia.
  - done.
  - intros db1 Hu1 Hd1 Hno%fmap_nil_inv. apply run_bind, run_mysql_close, run_ret. split.
    + assert (owned user (t_list (tabs w)) = 0%nat) as ->; [|done]. unfold owned. rewrite filter_empty; [done|].
      intros r Hr <-. pose proof (con_counted _ HT r Hr) as (c & Ec & Hc')%list_elem_of_fmap.
      exact (filter_nil_not_elem_of _ _ c Hno (eq_sym Ec) Hc').
    + split; [by destruct w|]. split; [by apply Hu1|done].
  - intros db1 f rest Hu1 Hd1 Hin. apply run_bind, run_mysql_close, run_ret.
    apply list_elem_of_fmap in Hin as (c & [= -> ->] & [Ec Hin]%list_elem_of_filter). split.
    + cbn [Z.eqb]. rewrite (con_owned _ HT c Hin) by congruence. rewrite Ec. unfold atol. apply strtol_dec.
      pose proof (length_filter (fun r => l_user r = user) (t_list (tabs w))). unfold owned. lia.
    + split; [by destruct w|]. split; [by apply Hu1|done].
  - intros db1 rest _ _ Hin. by apply list_elem_of_fmap in Hin as (c & [=] & _).
Qed.


End Theorems.
