(* ===== verification/ShareOps.v ===== *)
(** Shared files: their lists (src/src/cgi/cgi_sharefiles.c) and the operations
    on them (src/src/cgi/cgi_sharefilesop.c). *)

From Stdlib Require Import ZArith Lia Bool Ascii String.
From stdpp Require Import base tactics numbers list strings gmap.
From S2P Require Import Prelude CString CgiUtil Text Double CJson CJsonParse CJsonPrint World.
From S2P Require Import MysqlOp RedisOp Sql Kv CgiCommon Logic Catalogue FilesOp Files.

(** The object of one row of [get_share_filelist]. *)
Definition share_item (row : list (option string)) : outcome cJSON :=
  match row with
  | [r0; r1; r2; r3; r4; r5; r6; r7] =>
      let item := cJSON_CreateObject in
      let item := add_text item "user" r0 in
      let item := add_text item "md5" r1 in
      let item := add_text item "time" r2 in
      let item := add_text item "filename" r3 in
      let item := cJSON_AddNumberToObject item "share_status" 1 in
      let item := add_atol item "pv" r4 in
      let item := add_text item "url" r5 in
      let item := add_atol item "size" r6 in
      let item := add_text item "type" r7 in
      Ok item
  | _ => Undef OutOfBounds
  end.

Section ShareFiles.
Context `{Services}.

Definition get_share_files_count (cfg : settings) : M unit :=
  conn ← msql_conn (mysql_user cfg) (mysql_pwd cfg) (mysql_db cfg);
  line ← (if conn : bool then
            set_names;;
            '(ret2, tmp) ← sql_one (SelCount' SHARE_COUNT) (Some (512%nat, ""));
            mysql_close;;
            mret (if ret2 =? 0 then atol tmp else 0)
          else mret 0);
  printf (dec line).

(** [start] and [count]: [None] where the caller's variable stays
    uninitialised. *)
Definition share_range (buf : string) : option Z * option Z :=
  match cJSON_Parse buf with
  | None => (None, None)
  | Some root =>
      match cJSON_GetObjectItem root "start" with
      | None => (None, None)
      | Some child2 =>
          match cJSON_GetObjectItem root "count" with
          | None => (Some (item_valueint child2), None)
          | Some child3 => (Some (item_valueint child2), Some (item_valueint child3))
          end
      end
  end.

Definition get_share_filelist (cfg : settings) (start count : Z) : M Z :=
  conn ← msql_conn (mysql_user cfg) (mysql_pwd cfg) (mysql_db cfg);
  '(ret, out) ← (if conn : bool then
                   set_names;;
                   cmd ← sql_cmd (SelShareFiles start count);
                   r ← mysql_query cmd;
                   print_rows share_item r
                 else mret (-1, ""));
  (if ret =? 0 then printf out else printf (return_status "015"));;
  (if conn : bool then mysql_close else mret tt);;
  mret ret.

(** Rebuilding the ranking from the rows of the table: return value. *)
Fixpoint refill (rows : list (list (option string))) : M Z :=
  match rows with
  | [] => mret 0
  | row :: rows =>
      match row with
      | Some md5 :: Some filename :: Some pv :: _ =>
          fileid ← sprintf 1024 (md5 +:+ filename);
          rop_zset_add FILE_PUBLIC_ZSET (atoi pv) fileid;;
          rop_hash_set FILE_NAME_HASH fileid filename;;
          refill rows
      | _ :: _ :: _ :: _ => mret (-1)
      | _ => undef OutOfBounds
      end
  end.

Definition rebuild_ranking : M Z :=
  rop_del_key FILE_PUBLIC_ZSET;;
  rop_del_key FILE_NAME_HASH;;
  cmd ← sql_cmd SelShareRank;
  r ← mysql_query cmd;
  match r with
  | QError => mret (-1)
  | QDone => mret (-1)
  | QRows [] => mret (-1)
  | QRows rows => refill rows
  end.

(** The objects of the ranking; [None] stands for [ret = -1; goto END]. *)
Fixpoint ranking_items (values : list string) (array : cJSON) : M (option cJSON) :=
  match values with
  | [] => mret (Some array)
  | v :: values =>
      '(ret, filename) ← rop_hash_get 1024 FILE_NAME_HASH v "";
      if negb (ret =? 0) then mret None else
      score ← rop_zset_get_score FILE_PUBLIC_ZSET v;
      if score =? -1 then mret None else
      let item := cJSON_AddStringToObject cJSON_CreateObject "filename" filename in
      let item := cJSON_AddNumberToObject item "pv" score in
      ranking_items values (cJSON_AddItemToArray array item)
  end.

(** [get_ranking_filelist] once both connections are open: return value and
    document. A [calloc] of a negative number of elements fails. *)
Definition ranking_body (start count : Z) : M (Z * string) :=
  set_names;;
  '(ret2, tmp) ← sql_one (SelCount' SHARE_COUNT) (Some (512%nat, ""));
  if negb (ret2 =? 0) then mret (-1, "") else
  let sql_num := atoi tmp in
  redis_num ← rop_zset_zcard FILE_PUBLIC_ZSET;
  if redis_num =? -1 then mret (-1, "") else
  ret ← (if redis_num =? sql_num then mret 0 else rebuild_ranking);
  if negb (ret =? 0) then mret (-1, "") else
  if count <? 0 then mret (-1, "") else
  sum ← to_int (start + count);
  end_ ← to_int (sum - 1);
  '(ret, values, _) ← rop_zset_zrevrange (Z.to_nat count) FILE_PUBLIC_ZSET start end_;
  if negb (ret =? 0) then mret (ret, "") else
  o ← ranking_items values cJSON_CreateArray;
  match o with
  | None => mret (-1, "")
  | Some array => mret (0, cJSON_Print (cJSON_AddItemToObject cJSON_CreateObject "files" array))
  end.

Definition get_ranking_filelist (cfg : settings) (start count : Z) : M Z :=
  redis_conn ← rop_connectdb_nopwd (redis_ip cfg) (redis_port cfg);
  '(ret, out, conn) ←
    (if redis_conn : bool then
       conn ← msql_conn (mysql_user cfg) (mysql_pwd cfg) (mysql_db cfg);
       if conn : bool then '(ret, out) ← ranking_body start count; mret (ret, out, true)
       else mret (-1, "", false)
     else mret (-1, "", false));
  (if ret =? 0 then printf out else printf (return_status "015"));;
  (if redis_conn : bool then rop_disconnect else mret tt);;
  (if conn : bool then mysql_close else mret tt);;
  mret ret.

(** [query_parse_key_value(query, "cmd", cmd, NULL)] on [char cmd[20]]: the
    text of [cmd] after it, whose old text may be uninitialised. *)
Definition parse_cmd (query : option string) (old : option string) : M (option string) :=
  match query with
  | None => undef NullDeref
  | Some q =>
      let buf := match old with Some s => bytes_of s ++ replicate (20 - String.length s) 0
                              | None => replicate 20 0 end in
      '(ret, value, _) ← lift (query_parse_key_value (bytes_of q ++ [0]) (bytes_of "cmd") buf);
      if ret =? 0 then t ← lift (text value); mret (Some (text_of t)) else mret old
  end.

(** One turn of the loop of [main] of cgi_sharefiles.c: [cmd] before and after. *)
Definition sharefiles_main (cfg : settings) (cmd : option string) (query : option string)
    (rq : request) : M (option string) :=
  cmd ← parse_cmd query cmd;
  c ← need cmd;
  if String.eqb c "count" then
    printf ("Content-type: text/html" +:+ crlf +:+ crlf);;
    get_share_files_count cfg;; mret cmd
  else
    r ← read_request rq;
    match r with
    | NoData | ReadError => mret cmd
    | Body buf =>
        match share_range buf with
        | (Some start, Some count) =>
            (if String.eqb c "normal" then get_share_filelist cfg start count;; mret tt else
             if String.eqb c "pvdesc" then get_ranking_filelist cfg start count;; mret tt else
             mret tt);;
            mret cmd
        | _ => undef Uninit
        end
    end.

(** ** cgi_sharefilesop.c *)

Definition share_pv_body (md5 filename : string) : M Z :=
  fileid ← sprintf 1024 (md5 +:+ filename);
  set_names;;
  '(ret2, tmp) ← sql_one (SelSharePv md5 filename) (Some (512%nat, ""));
  if negb (ret2 =? 0) then mret (-1) else
  pv ← to_int (atoi tmp + 1);
  failed ← sql_do (UpdSharePv pv md5 filename);
  if failed : bool then mret (-1) else
  ret2 ← rop_zset_exit FILE_PUBLIC_ZSET fileid;
  if ret2 =? 1 then rop_zset_increment FILE_PUBLIC_ZSET fileid else
  if ret2 =? 0 then
    rop_zset_add FILE_PUBLIC_ZSET pv fileid;;
    rop_hash_set FILE_NAME_HASH fileid filename;;
    mret 0
  else mret (-1).

Definition share_pv_file (cfg : settings) (md5 filename : string) : M Z :=
  with_servers cfg (share_pv_body md5 filename)
    (fun ret => Some (if ret =? 0 then "016" else "017")).

Definition cancel_share_body (user md5 filename : string) : M Z :=
  set_names;;
  fileid ← sprintf 1024 (md5 +:+ filename);
  failed ← sql_do (UpdShared0 user md5 filename);
  if failed : bool then mret (-1) else
  '(ret2, tmp) ← sql_one (SelCount SHARE_COUNT) (Some (512%nat, ""));
  if negb (ret2 =? 0) then mret (-1) else
  let count := atoi tmp in
  failed ← (if count =? 1 then sql_do (DelCount SHARE_COUNT)
            else count ← to_int (count - 1); sql_do (UpdCount count SHARE_COUNT));
  if failed : bool then mret (-1) else
  failed ← sql_do (DelShare user md5 filename);
  if failed : bool then mret (-1) else
  ret ← rop_zset_zrem FILE_PUBLIC_ZSET fileid;
  if negb (ret =? 0) then mret ret else
  rop_hash_del FILE_NAME_HASH fileid.

Definition cancel_share_file (cfg : settings) (user md5 filename : string) : M Z :=
  with_servers cfg (cancel_share_body user md5 filename)
    (fun ret => Some (if ret =? 0 then "018" else "019")).

Definition save_file_body (user md5 filename : string) : M Z :=
  set_names;;
  '(ret2, _) ← sql_one (SelList user md5 filename) None;
  if ret2 =? 2 then mret (-2) else
  '(ret2, tmp) ← sql_one (SelFileCount md5) (Some (512%nat, ""));
  if negb (ret2 =? 0) then mret (-1) else
  add_entry (atoi tmp) user md5 filename tmp.

Definition save_file (cfg : settings) (user md5 filename : string) : M Z :=
  conn ← msql_conn (mysql_user cfg) (mysql_pwd cfg) (mysql_db cfg);
  ret ← (if conn : bool then save_file_body user md5 filename else mret (-1));
  (if ret =? 0 then printf (return_status "020") else
   if ret =? -1 then printf (return_status "022") else
   if ret =? -2 then printf (return_status "021") else mret tt);;
  (if conn : bool then mysql_close else mret tt);;
  mret ret.

(** User, digest and file name, with the buffers kept on an error. *)
Definition share_json_info (buf : string) (b : op_bufs) : M (Z * op_bufs) :=
  match cJSON_Parse buf with
  | None => mret (-1, b)
  | Some root =>
      o ← copy_item root "user" USER_NAME_LEN;
      match o with None => mret (-1, b) | Some user =>
      o ← copy_item root "md5" MD5_LEN;
      match o with None => mret (-1, OpBufs (Some user) None (ob_md5 b) (ob_filename b)) | Some md5 =>
      o ← copy_item root "filename" FILE_NAME_LEN;
      match o with
      | None => mret (-1, OpBufs (Some user) None (Some md5) (ob_filename b))
      | Some filename => mret (0, OpBufs (Some user) None (Some md5) (Some filename))
      end end end
  end.

(** One turn of the loop of [main] of cgi_sharefilesop.c; no token is checked. *)
Definition sharefilesop_main (cfg : settings) (cmd : option string) (b : op_bufs)
    (query : option string) (rq : request) : M (option string * op_bufs) :=
  cmd ← parse_cmd query cmd;
  c ← need cmd;
  r ← read_request rq;
  match r with
  | NoData | ReadError => mret (cmd, b)
  | Body buf =>
      '(_, b) ← share_json_info buf b;
      user ← need (ob_user b);
      md5 ← need (ob_md5 b);
      filename ← need (ob_filename b);
      (if String.eqb c "pv" then share_pv_file cfg md5 filename;; mret tt else
       if String.eqb c "cancel" then cancel_share_file cfg user md5 filename;; mret tt else
       if String.eqb c "save" then save_file cfg user md5 filename;; mret tt else mret tt);;
      mret (cmd, b)
  end.

End ShareFiles.

(** ** Specification *)

Section Spec.
Context {SV : Services} {SQ : SqlServer} {RD : RedisServer}.

(** The keys a withdrawn share leaves. *)
Definition unshare_keys (md5 filename : string) (z : gmap string Z) (h : gmap string string)
    (k : keyspace) : keyspace :=
  put_hash FILE_NAME_HASH (delete (md5 +:+ filename) h)
    (put_zset FILE_PUBLIC_ZSET (delete (md5 +:+ filename) z) k).

(** The counter of the shares, in consistent tables with a share. *)
Lemma share_counter T r0 : consistent T -> r0 ∈ t_share T ->
  exists c, c ∈ t_count T /\ c_user c = SHARE_COUNT /\ c_count c = Z.of_nat (length (t_share T))
    /\ filter (fun r => c_user r = SHARE_COUNT) (t_count T) = [c].
Proof.
  intros HT Hr. assert (SHARE_COUNT ∈ c_user <$> t_count T) as Hk.
  { apply con_share_counted; [done|]. intros E. rewrite E in Hr. by apply not_elem_of_nil in Hr. }
  apply list_elem_of_fmap in Hk as (c & E & Hc). exists c. symmetry in E. split; [done|]. split; [done|].
  split; [by apply (con_shared T HT)|]. rewrite <- E. apply filter_unique; [by apply con_counts | done].
Qed.

Lemma cancel_body_spec user md5 filename w z h r0 :
  args_ok user md5 filename (w_now w) -> up true w -> consistent (tabs w) ->
  Z.of_nat (length (t_share (tabs w))) < INT_MAX ->
  zset_at (kv w) FILE_PUBLIC_ZSET = Some z -> is_Some (z !! (md5 +:+ filename)) ->
  hash_at (kv w) FILE_NAME_HASH = Some h -> is_Some (h !! (md5 +:+ filename)) ->
  r0 ∈ t_share (tabs w) ->
  run true (cancel_share_body user md5 filename) (fun ret w' => frame w w' /\ up true w' /\ ret = 0 /\
    tabs w' = drop_share user md5 filename (tabs w) /\ kv w' = unshare_keys md5 filename z h (kv w)) w.
Proof.
  intros Ha [Hu Hr] HT Hlen Hz Hzm Hh Hhm Hin.
  destruct (share_counter _ r0 HT Hin) as (c & Hc & Ec & En & Ef). unfold cancel_share_body.
  apply run_bind, run_set_names; [done|]. intros db0 Hu0 Hd0.
  apply run_bind, run_sprintf; [intros _; apply fits_lt; rewrite length_append; destruct Ha; lia|]. intros _.
  apply run_bind. eapply run_sql_do; [safe_stmt|fits_stmt|done|done|]. intros db1 Hu1 Hd1.
  set (L := update (is_entry user md5 filename) (list_set_shared 0) (t_list (tabs w))).
  assert (tabs (set_db db1 (set_db db0 w)) = set_list L (tabs w)) as E1.
  { change (tabs (set_db db1 _)) with (db_tables db1). rewrite Hd1.
    change (tabs (set_db db0 _)) with (db_tables db0). by rewrite Hd0. }
  apply run_bind. eapply run_sql_one; [done|fits_stmt|done|done|done|..]; rewrite ?E1; cbn [t_count set_list]; rewrite ?Ef.
  - intros _. repeat constructor. eexists _, _. split; [done|]. apply fits_dec. lia.
  - done.
  - intros db2 _ _ [=].
  - intros db2 f rest Hu2 Hd2 Hrow. cbn in Hrow. apply list_elem_of_singleton in Hrow as [= -> ->].
    cbn [Z.eqb negb]. rewrite atoi_dec by (rewrite En; unfold is_int, INT_MAX in *; lia). apply run_bind.
    set (w2 := set_db db2 _). assert (tabs w2 = set_list L (tabs w)) as E2 by done.
    eapply run_mono; [apply (lower_count_spec true SHARE_COUNT c); rewrite ?E2; try done|].
    { by apply Nat.leb_le. } { exact (con_counts _ HT). }
    { rewrite En. unfold is_int, INT_MAX in *. lia. }
    intros failed w3 (Ew & Hu3 & [[=]|[-> E3]]). rewrite Ew in *. apply run_bind.
    eapply run_sql_do; [safe_stmt|fits_stmt|done|done|]. intros db4 Hu4 Hd4.
    apply run_bind. eapply run_zset_zrem; [exact Hz|done|]. intros r5 Hr5 Hk5.
    rewrite bool_decide_true by done. cbn [Z.eqb negb].
    eapply run_hash_del; [change (kv (set_redis r5 _)) with (keys r5); rewrite Hk5, hash_at_put_zset by done; exact Hh|done|].
    intros r6 Hr6 Hk6. rewrite bool_decide_true by done. split; [by destruct w|]. split; [done|]. split; [done|]. split.
    + change (db_tables db4 = drop_share user md5 filename (tabs w)). rewrite Hd4, E3, E2. done.
    + change (keys r6 = unshare_keys md5 filename z h (kv w)). rewrite Hk6.
      change (kv (set_redis r5 _)) with (keys r5). by rewrite Hk5.
  - intros db2 rest [=].
Qed.

(** [cancel_share_file] on serving servers. *)
Lemma cancel_run cfg user md5 filename w z h r0 :
  args_ok user md5 filename (w_now w) -> serving (w_db w) -> answering (w_redis w) ->
  redis_connect (w_redis w) (redis_ip cfg) (port_of (redis_port cfg)) = LinkOk ->
  mysql_accepts w (mysql_user cfg) (mysql_pwd cfg) (mysql_db cfg) = true ->
  consistent (tabs w) -> Z.of_nat (length (t_share (tabs w))) < INT_MAX ->
  zset_at (kv w) FILE_PUBLIC_ZSET = Some z -> is_Some (z !! (md5 +:+ filename)) ->
  hash_at (kv w) FILE_NAME_HASH = Some h -> is_Some (h !! (md5 +:+ filename)) ->
  r0 ∈ t_share (tabs w) -> is_shared_by user md5 filename r0 ->
  exists w', cancel_share_file cfg user md5 filename w = Ok (0, w') /\ kept w w'
    /\ tabs w' = drop_share user md5 filename (tabs w) /\ consistent (tabs w')
    /\ kv w' = unshare_keys md5 filename z h (kv w)
    /\ w_open_db w' = w_open_db w /\ w_open_redis w' = w_open_redis w
    /\ w_out w' = w_out w ++ [return_status "018"].
Proof.
  intros Ha Hs Hr Hl Hc HT Hlen Hz Hzm Hh Hhm Hin Hby.
  eassert (run true (cancel_share_file cfg user md5 filename) _ w) as HR.
  { apply (with_servers_spec _ _ _ (fun ret T k => ret = 0 /\
      T = drop_share user md5 filename (tabs w) /\ k = unshare_keys md5 filename z h (kv w))); [done..|].
    eapply run_mono; [apply (cancel_body_spec user md5 filename _ z h r0); try done; split; by intros _|].
    intros ret w' (Hf & Hup & Hret & Ht & Hk). done. }
  apply run_total in HR as (ret & w' & E & (-> & Ht & Hk) & Ho & Hor & Hkp & Hout). exists w'.
  split; [done|]. split; [done|]. split; [done|]. split; [|done]. rewrite Ht. destruct Hby as (<- & <- & <-).
  by apply consistent_drop_share.
Qed.

(** A withdrawn share leaves the public set and the names as they were. *)
Lemma keys_restored md5 filename z h k : z !! (md5 +:+ filename) = None -> h !! (md5 +:+ filename) = None ->
  let k1 := share_keys md5 filename z h k in
  let k2 := unshare_keys md5 filename (<[md5 +:+ filename := 0]> z) (<[md5 +:+ filename := filename]> h) k1 in
  zset_at k1 FILE_PUBLIC_ZSET = Some (<[md5 +:+ filename := 0]> z) /\
  hash_at k1 FILE_NAME_HASH = Some (<[md5 +:+ filename := filename]> h) /\
  zset_at k2 FILE_PUBLIC_ZSET = Some z /\ hash_at k2 FILE_NAME_HASH = Some h /\
  forall key, key <> FILE_PUBLIC_ZSET -> key <> FILE_NAME_HASH -> k2 !! key = k !! key.
Proof.
  intros Hz Hh k1 k2. unfold k2, unshare_keys, k1, share_keys.
  rewrite !hash_at_put, !zset_at_put_hash, !zset_at_put, !delete_insert_id by done.
  split; [done|]. split; [done|]. split; [done|]. split; [done|]. intros key H1 H2.
  by rewrite !put_hash_other, !put_zset_other, !put_hash_other, put_zset_other by done.
Qed.

(** The part of [save_file] that has a connection. *)
Lemma save_body_spec user md5 filename w :
  args_ok user md5 filename (w_now w) -> db_up true w -> consistent (tabs w) ->
  Z.of_nat (length (t_list (tabs w))) < INT_MAX -> user <> SHARE_COUNT ->
  run true (save_file_body user md5 filename) (fun ret w' => w' = set_db (w_db w') w /\ db_up true w' /\
   ((ret = -2 /\ tabs w' = tabs w /\ (user, md5, filename) ∈ entry <$> t_list (tabs w)) \/
    (ret = -1 /\ tabs w' = tabs w /\ (user, md5, filename) ∉ entry <$> t_list (tabs w)
     /\ md5 ∉ f_md5 <$> t_file (tabs w)) \/
    (ret = 0 /\ tabs w' = add_reference (new_entry user md5 filename (w_now w)) (tabs w)
     /\ (user, md5, filename) ∉ entry <$> t_list (tabs w) /\ md5 ∈ f_md5 <$> t_file (tabs w)))) w.
Proof.
  intros Ha Hu HT Hlen Hres. unfold save_file_body. apply run_bind, run_set_names; [done|]. intros db0 Hu0 Hd0.
  assert (tabs (set_db db0 w) = tabs w) as E0 by done. apply run_bind.
  eapply run_sql_exists; [safe_stmt|fits_stmt|done|done|done|done|..]; rewrite ?E0.
  - intros db1 Hu1 Hd1 Hnil%entry_rows. cbn [Z.eqb Pos.eqb].
    assert (tabs (set_db db1 (set_db db0 w)) = tabs w) as E1 by done. apply run_bind.
    eapply run_sql_one; [safe_stmt|fits_stmt|done|done|done|..]; rewrite ?E1.
    + intros _. apply Forall_fmap, Forall_true. intros r. eexists _, _. split; [done|]. apply fits_dec. lia.
    + done.
    + intros db2 Hu2 Hd2 Hno%fmap_nil_inv. apply run_ret. split; [done|]. split; [done|]. right. left. split; [done|].
      split; [done|]. split; [done|]. intros (f & -> & Hf)%list_elem_of_fmap.
      exact (filter_nil_not_elem_of _ _ f Hno eq_refl Hf).
    + intros db2 f rest Hu2 Hd2 Hin. apply list_elem_of_fmap in Hin as (fr & [= -> ->] & Hf).
      apply list_elem_of_filter in Hf as [Em Hf]. cbn [Z.eqb negb].
      rewrite (con_refs _ HT fr Hf), Em, atoi_dec by (by apply (is_int_count (t_list (tabs w))), refs_le).
      set (w2 := set_db db2 _). assert (tabs w2 = tabs w) as E2 by done.
      eapply run_mono; [apply (add_entry_spec true); rewrite ?E2; auto|].
      intros ret w' (Ew & Hup & [Hr|[=]]). split; [by rewrite Ew|]. split; [done|]. right. right. rewrite E2 in Hr.
      destruct Hr as [? ?]. split; [done|]. split; [done|]. split; [done|]. rewrite <- Em.
      by apply list_elem_of_fmap_2.
    + intros db2 rest _ _ Hin. apply list_elem_of_fmap in Hin as (fr & [=] & Hf).
  - intros db1 Hu1 Hd1 Hne. apply run_ret. split; [done|]. split; [done|]. left. split; [done|]. split; [done|].
    apply dec_stable. intros Hn. by apply Hne, entry_rows.
Qed.

End Spec.

Section Theorems.
Context {SV : Services} {SQ : SqlServer} {RD : RedisServer}.

(** C14: withdrawing a recorded share, on serving servers with consistent
    counters: [cancel_share_file] returns 0 and answers 018, unmarks the entry,
    removes the share, lowers the number of shares (the row goes with the last
    share), removes the file from the public set and the hash, keeps the
    counters consistent and closes both connections. *)
Theorem cancel_share_refines (cfg : settings) (user md5 filename : string) (w : world)
    (z : gmap string Z) (h : gmap string string) (r0 : share_row)
    (Ha : args_ok user md5 filename (w_now w))
    (Hs : serving (w_db w)) (Hr : answering (w_redis w))
    (Hl : redis_connect (w_redis w) (redis_ip cfg) (port_of (redis_port cfg)) = LinkOk)
    (Hc : mysql_accepts w (mysql_user cfg) (mysql_pwd cfg) (mysql_db cfg) = true)
    (HT : consistent (tabs w)) (Hlen : Z.of_nat (length (t_share (tabs w))) < INT_MAX)
    (Hz : zset_at (kv w) FILE_PUBLIC_ZSET = Some z) (Hzm : is_Some (z !! (md5 +:+ filename)))
    (Hh : hash_at (kv w) FILE_NAME_HASH = Some h) (Hhm : is_Some (h !! (md5 +:+ filename)))
    (Hin : r0 ∈ t_share (tabs w)) (Hby : is_shared_by user md5 filename r0) :
  exists w', cancel_share_file cfg user md5 filename w = Ok (0, w')
    /\ tabs w' = drop_share user md5 filename (tabs w) /\ consistent (tabs w')
    /\ kv w' = unshare_keys md5 filename z h (kv w)
    /\ w_open_db w' = w_open_db w /\ w_open_redis w' = w_open_redis w
    /\ w_out w' = w_out w ++ [return_status "018"].
Proof.
  destruct (cancel_run cfg user md5 filename w z h r0) as (w' & E & _ & H); try done. by exists w'.
Qed.

(** C15: sharing a file and withdrawing the share, on servers that keep serving:
    both succeed, and the tables, the public set, the names and every other key
    are what they were, provided the entry was not marked as shared and no
    counter row is left over from earlier shares. *)
Theorem share_cancel_roundtrip (cfg : settings) (user md5 filename : string) (w : world)
    (z : gmap string Z) (h : gmap string string)
    (Ha : args_ok user md5 filename (w_now w))
    (Hs : serving (w_db w)) (Hr : answering (w_redis w))
    (Hl : redis_connect (w_redis w) (redis_ip cfg) (port_of (redis_port cfg)) = LinkOk)
    (Hc : mysql_accepts w (mysql_user cfg) (mysql_pwd cfg) (mysql_db cfg) = true)
    (Hup : forall ret w1, share_file cfg user md5 filename w = Ok (ret, w1) ->
       serving (w_db w1) /\ answering (w_redis w1)
       /\ redis_connect (w_redis w1) (redis_ip cfg) (port_of (redis_port cfg)) = LinkOk
       /\ mysql_accepts w1 (mysql_user cfg) (mysql_pwd cfg) (mysql_db cfg) = true)
    (HT : consistent (tabs w)) (Hlen : Z.of_nat (length (t_share (tabs w))) + 1 < INT_MAX)
    (Hz : zset_at (kv w) FILE_PUBLIC_ZSET = Some z) (Hsc : same_scores z = true)
    (Hnew : z !! (md5 +:+ filename) = None)
    (Hh : hash_at (kv w) FILE_NAME_HASH = Some h) (Hhn : h !! (md5 +:+ filename) = None)
    (Hno : (md5, filename) ∉ share_key <$> t_share (tabs w))
    (Hun : forall r, r ∈ t_list (tabs w) -> is_entry user md5 filename r -> l_shared r = 0)
    (H0 : t_share (tabs w) = [] -> SHARE_COUNT ∉ c_user <$> t_count (tabs w)) :
  exists w1 w2, share_file cfg user md5 filename w = Ok (0, w1)
    /\ cancel_share_file cfg user md5 filename w1 = Ok (0, w2)
    /\ tabs w2 = tabs w
    /\ zset_at (kv w2) FILE_PUBLIC_ZSET = Some z /\ hash_at (kv w2) FILE_NAME_HASH = Some h
    /\ forall key, key <> FILE_PUBLIC_ZSET -> key <> FILE_NAME_HASH -> kv w2 !! key = kv w !! key.
Proof.
  destruct (share_run cfg user md5 filename w z h) as (w1 & E1 & Ht1 & HT1 & Hk1 & _ & _ & Hn1%kp_now & _); try done; [lia|].
  destruct (Hup _ _ E1) as (Hs1 & Hr1 & Hl1 & Hc1).
  destruct (keys_restored md5 filename z h (kv w) Hnew Hhn) as (Kz & Kh & Kz' & Kh' & Kother). rewrite <- Hk1 in *.
  destruct (cancel_run cfg user md5 filename w1
    (<[md5 +:+ filename := 0]> z) (<[md5 +:+ filename := filename]> h) (ShareRow user md5 (w_now w) filename 0))
    as (w2 & E2 & _ & Ht2 & _ & Hk2 & _); try done.
  - by rewrite Hn1.
  - rewrite Ht1. cbn. rewrite length_app. cbn. lia.
  - by rewrite lookup_insert_eq.
  - by rewrite lookup_insert_eq.
  - rewrite Ht1. cbn. apply elem_of_app. right. by left.
  - exists w1, w2. rewrite Ht2, Ht1, Hk2. split; [done|]. split; [done|]. split; [by apply drop_add_share|]. done.
Qed.

(** [save_file] on a serving database. *)
Lemma save_file_run (cfg : settings) (user md5 filename : string) (w : world)
    (Ha : args_ok user md5 filename (w_now w)) (Hs : serving (w_db w))
    (Hc : mysql_accepts w (mysql_user cfg) (mysql_pwd cfg) (mysql_db cfg) = true)
    (HT : consistent (tabs w)) (Hlen : Z.of_nat (length (t_list (tabs w))) < INT_MAX)
    (Hres : user <> SHARE_COUNT) :
  exists ret w', save_file cfg user md5 filename w = Ok (ret, w') /\ (answering (w_redis w) -> kept w w')
    /\ consistent (tabs w') /\ kv w' = kv w
    /\ w_open_db w' = w_open_db w /\ w_open_redis w' = w_open_redis w
    /\ ((ret = -2 /\ tabs w' = tabs w /\ (user, md5, filename) ∈ entry <$> t_list (tabs w)
          /\ w_out w' = w_out w ++ [return_status "021"]) \/
        (ret = -1 /\ tabs w' = tabs w /\ (user, md5, filename) ∉ entry <$> t_list (tabs w)
          /\ md5 ∉ f_md5 <$> t_file (tabs w) /\ w_out w' = w_out w ++ [return_status "022"]) \/
        (ret = 0 /\ tabs w' = add_reference (new_entry user md5 filename (w_now w)) (tabs w)
          /\ (user, md5, filename) ∉ entry <$> t_list (tabs w)
          /\ md5 ∈ f_md5 <$> t_file (tabs w) /\ w_out w' = w_out w ++ [return_status "020"])).
Proof.
  apply (run_total (save_file cfg user md5 filename)). unfold save_file. apply run_bind, run_msql_conn; [|congruence].
  intros _. apply run_bind.
  eapply run_mono; [apply save_body_spec; [done|by intros _|done..]|].
  intros ret w1 (Ew & Hup & Hr).
  change (tabs (set_open_db (S (w_open_db w)) w)) with (tabs w) in Hr. cbn [w_now set_open_db] in Hr.
  assert (answering (w_redis w) -> kept w (set_db (w_db w1) w)) as Hkp by (intros Hr'; by split; [..|apply Hup|]).
  assert (consistent (tabs w1)) as HT1.
  { destruct Hr as [(_ & -> & _)|[(_ & -> & _)|(_ & -> & ? & ?)]]; [done..|]. by apply consistent_add_reference. }
  rewrite Ew in *. destruct Hr as [(-> & Hr)|[(-> & Hr)|(-> & Hr)]]; apply run_bind, run_printf, run_bind, run_mysql_close, run_ret;
    (split; [intros Hr'; by destruct (Hkp Hr')|]); (split; [exact HT1|]); split; [done| |done| |done|]; (split; [done|]); (split; [done|]); naive_solver.
Qed.

(** on a serving database with consistent counters [save_file] returns,
    keeps the counters consistent, closes its connection and answers exactly:
    021 with nothing changed when the user already has the file, 022 with
    nothing changed when the digest is unknown, and 020 with one more reference
    otherwise. *)
Theorem save_file_refines (cfg : settings) (user md5 filename : string) (w : world)
    (Ha : args_ok user md5 filename (w_now w)) (Hs : serving (w_db w))
    (Hc : mysql_accepts w (mysql_user cfg) (mysql_pwd cfg) (mysql_db cfg) = true)
    (HT : consistent (tabs w)) (Hlen : Z.of_nat (length (t_list (tabs w))) < INT_MAX)
    (Hres : user <> SHARE_COUNT) :
  exists ret w', save_file cfg user md5 filename w = Ok (ret, w')
    /\ consistent (tabs w') /\ kv w' = kv w
    /\ w_open_db w' = w_open_db w /\ w_open_redis w' = w_open_redis w
    /\ ((ret = -2 /\ tabs w' = tabs w /\ (user, md5, filename) ∈ entry <$> t_list (tabs w)
          /\ w_out w' = w_out w ++ [return_status "021"]) \/
        (ret = -1 /\ tabs w' = tabs w /\ (user, md5, filename) ∉ entry <$> t_list (tabs w)
          /\ md5 ∉ f_md5 <$> t_file (tabs w) /\ w_out w' = w_out w ++ [return_status "022"]) \/
        (ret = 0 /\ tabs w' = add_reference (new_entry user md5 filename (w_now w)) (tabs w)
          /\ (user, md5, filename) ∉ entry <$> t_list (tabs w)
          /\ md5 ∈ f_md5 <$> t_file (tabs w) /\ w_out w' = w_out w ++ [return_status "020"])).
Proof.
  destruct (save_file_run cfg user md5 filename w) as (ret & w' & E & _ & H); try done. by exists ret, w'.
Qed.

End Theorems.
