(* ===== verification/Ranking.v ===== *)
(** The lists of shared files (src/src/cgi/cgi_sharefiles.c) and the downloads of
    shared files (src/src/cgi/cgi_sharefilesop.c): what the number of shares, a
    page of the shares and the ranking by downloads say, and how the ranking in
    Redis follows the table of the shares. *)

From Stdlib Require Import ZArith Lia Bool Ascii String.
From stdpp Require Import base tactics numbers list strings gmap sorting.
From S2P Require Import Prelude CString CgiUtil Text Double CJson CJsonParse CJsonPrint CJsonRoundtrip.
From S2P Require Import World MysqlOp RedisOp Sql Kv CgiCommon Logic Catalogue FilesOp Files ShareOps.

(** ** Pages of the shares *)

(** The shares, each with the content stored for it. *)
Definition shared_files (T : tables) : list (share_row * file_row) :=
  t_share T ≫= fun r => pair r <$> filter (fun f => f_md5 f = s_md5 r) (t_file T).

(** The object that describes a share. *)
Definition share_object (p : share_row * file_row) : cJSON :=
  let '(r, f) := p in
  Item cJSON_Object None 0 dzero None
    [named "user" (cJSON_CreateString (s_user r)); named "md5" (cJSON_CreateString (s_md5 r));
     named "time" (cJSON_CreateString (s_time r)); named "filename" (cJSON_CreateString (s_name r));
     named "share_status" (cJSON_CreateNumber 1); named "pv" (cJSON_CreateNumber (s_pv r));
     named "url" (cJSON_CreateString (f_url f)); named "size" (cJSON_CreateNumber (f_size f));
     named "type" (cJSON_CreateString (f_type f))].

(** Rows whose texts are C strings and whose numbers have at most 15 digits. *)
Definition share_row_ok (p : share_row * file_row) : Prop :=
  let '(r, f) := p in
  Forall text_ok [s_user r; s_md5 r; s_time r; s_name r; f_url f; f_type f] /\
  Z.abs (s_pv r) < 10 ^ 15 /\ Z.abs (f_size f) < 10 ^ 15.
#[export] Instance share_row_ok_dec p : Decision (share_row_ok p).
Proof. destruct p. unfold share_row_ok, text_ok, nonul. apply _. Defined.

Definition share_row_fields (p : share_row * file_row) : list (option string) :=
  let '(r, f) := p in share_fields r ++ [field (f_url f); nfield (f_size f); field (f_type f)].

Lemma share_item_object p : share_row_ok p -> share_item (share_row_fields p) = Ok (share_object p).
Proof.
  destruct p as [r f]. intros (_ & Hp & Hf). cbn -[atol dec cJSON_CreateNumber].
  unfold add_atol, nfield, atol, cJSON_AddNumberToObject. by rewrite !strtol_dec by lia.
Qed.

Lemma select_shares T : share_rows T = share_row_fields <$> shared_files T.
Proof.
  unfold share_rows, shared_files. induction (t_share T) as [|r L IH]; [done|].
  cbn -[share_joined share_row_fields]. rewrite fmap_app, <- IH. f_equal. unfold share_joined.
  by rewrite <- list_fmap_compose.
Qed.

Lemma share_object_wf p : share_row_ok p -> well_formed 2 (share_object p) /\ item_string (share_object p) = None.
Proof.
  destruct p as [r f]. intros (Ht & Hp & Hf). rewrite !Forall_cons in Ht.
  destruct Ht as (? & ? & ? & ? & ? & ? & _). split; [|done]. apply wf_object; [unfold CJSON_NESTING_LIMIT; lia|].
  repeat apply Forall_cons_2; try constructor;
    try (apply well_formed_named; by (apply well_formed_number || apply wf_string));
    eexists; rewrite named_item; (split; [done|by_decide]).
Qed.

(** The page of a list that starts at [start] and has [count] elements. *)
Definition page {A} (start count : Z) (l : list A) : list A := take (Z.to_nat count) (drop (Z.to_nat start) l).

Lemma page_fmap {A B} (f : A -> B) start count l : page start count (f <$> l) = f <$> page start count l.
Proof. unfold page. by rewrite <- fmap_drop, <- fmap_take. Qed.

Lemma page_incl {A} start count (l : list A) x : x ∈ page start count l -> x ∈ l.
Proof.
  unfold page. intros Hx.
  rewrite <- (take_drop (Z.to_nat start) l), elem_of_app. right.
  rewrite <- (take_drop (Z.to_nat count) (drop _ l)), elem_of_app. by left.
Qed.

Lemma page_nil {A} start count (l : list A) : 0 <= start -> 0 <= count ->
  page start count l = [] <-> count = 0 \/ Z.of_nat (length l) <= start.
Proof.
  intros Hs Hc. unfold page. split.
  - intros E%(f_equal length). rewrite length_take, length_drop in E. cbn in E. lia.
  - intros H. apply length_zero_iff_nil. rewrite length_take, length_drop. lia.
Qed.

Section Lists.
Context {SV : Services} {SQ : SqlServer} {PG : SqlPaging}.

(** A query for a page, on a serving database. *)
Lemma page_query start count w : serving (w_db w) -> is_int start -> is_int count -> 0 <= start -> 0 <= count ->
  exists db ps, mysql_query (render (SelShareFiles start count)) w =
      Ok (QRows (share_row_fields <$> page start count ps), set_db db w)
    /\ serving db /\ db_tables db = db_tables (w_db w) /\ ps ≡ₚ shared_files (db_tables (w_db w)).
Proof.
  intros Hs Hi Hj H0 H1. unfold mysql_query. pose proof (sql_page (w_db w) start count Hi Hj H0 H1) as Hp.
  pose proof (sql_page_serving (w_db w) start count Hs Hi Hj H0 H1) as Hv.
  destruct (mysql_exec (w_db w) _) as [db r]. destruct Hv as [Hne Hv], Hp as [Hd [->|(rows & Hr & ->)]]; [done|].
  rewrite select_shares in Hr. apply Permutation_map_inv in Hr as (ps & -> & Hp).
  exists db, ps. split; [|done]. by rewrite <- page_fmap.
Qed.

(** What is printed for a page of the shares. *)
Definition shares_answer (l : list (share_row * file_row)) : string :=
  if decide (l = []) then return_status "015" else cJSON_Print (files_document (share_object <$> l)).

(** [get_share_filelist] on a serving database. *)
Lemma share_filelist_run cfg start count w : is_int start -> is_int count -> 0 <= start -> 0 <= count ->
  serving (w_db w) -> mysql_accepts w (mysql_user cfg) (mysql_pwd cfg) (mysql_db cfg) = true ->
  Forall share_row_ok (shared_files (tabs w)) ->
  run true (get_share_filelist cfg start count) (fun ret w' => exists ps, ps ≡ₚ shared_files (tabs w)
    /\ ret = (if decide (page start count ps = []) then -1 else 0)
    /\ w_out w' = w_out w ++ [shares_answer (page start count ps)]
    /\ w' = set_out (w_out w') (set_db (w_db w') w) /\ serving (w_db w') /\ tabs w' = tabs w) w.
Proof.
  intros Hi Hj H0 H1 Hs Hc Hrows.
  unfold get_share_filelist. apply run_bind, run_msql_conn; [|congruence]. intros _. apply run_bind, run_bind.
  apply run_set_names; [by intros _|]. intros db0 Hu0 Hd0. apply run_bind, run_sprintf; [intros _; fits_stmt|].
  intros _. apply run_bind. destruct (page_query start count (set_db db0 (set_open_db (S (w_open_db w)) w)))
    as (db & ps & E & Hv & Hd & Hp); try done; [by apply Hu0|]. unfold run at 1. rewrite E.
  change (w_db (set_db db0 _)) with db0 in *. rewrite Hd0 in *. change (tabs (set_open_db _ w)) with (tabs w) in *.
  unfold shares_answer. apply (run_print_rows true _ share_row_fields share_object).
  { apply Forall_forall. intros p Hin%page_incl. apply share_item_object. rewrite Forall_forall in Hrows.
    apply Hrows. by rewrite <- Hp. }
  all: intros En; apply run_bind, run_printf, run_bind, run_mysql_close, run_ret; exists ps; (split; [done|]);
    destruct (decide (page start count ps = [])); try done;
    (split; [done|]); (split; [done|]); (split; [by destruct w|]); (split; [exact Hv|exact Hd]).
Qed.


End Lists.

Section Count.
Context {SV : Services} {SQ : SqlServer}.

(** [get_share_files_count] on a serving database with consistent counters: exactly
    the number of rows of the table is printed, 0 also when no share was ever
    counted. *)
Lemma share_count_run cfg w : serving (w_db w) -> consistent (tabs w) -> Z.of_nat (length (t_share (tabs w))) < 2 ^ 63 ->
  mysql_accepts w (mysql_user cfg) (mysql_pwd cfg) (mysql_db cfg) = true ->
  run true (get_share_files_count cfg) (fun _ w' =>
    w_out w' = w_out w ++ [dec (Z.of_nat (length (t_share (tabs w))))]
    /\ w' = set_out (w_out w') (set_db (w_db w') w) /\ serving (w_db w') /\ tabs w' = tabs w) w.
Proof.
  intros Hs HT Hlen Hc. unfold get_share_files_count. apply run_bind, run_msql_conn; [|congruence]. intros _.
  apply run_bind, run_bind, run_set_names; [by intros _|]. intros db0 Hu0 Hd0.
  assert (tabs (set_db db0 (set_open_db (S (w_open_db w)) w)) = tabs w) as E0 by exact Hd0.
  apply run_bind. eapply run_sql_one; [done|fits_stmt|done|done|done|..]; rewrite ?E0.
  - intros _. apply Forall_fmap, Forall_true. intros r. eexists _, _. split; [done|]. apply fits_dec. lia.
  - done.
  - intros db1 Hu1 Hd1 Hno%fmap_nil_inv. apply run_bind, run_mysql_close, run_ret, run_printf.
    assert (t_share (tabs w) = []) as ->.
    { apply dec_stable. intros Hne. apply (con_share_counted _ HT) in Hne.
      apply list_elem_of_fmap in Hne as (c & Ec & Hc'). exact (filter_nil_not_elem_of _ _ c Hno (eq_sym Ec) Hc'). }
    split; [done|]. split; [by destruct w|]. split; [by apply Hu1|exact Hd1].
  - intros db1 f rest Hu1 Hd1 Hin. apply run_bind, run_mysql_close, run_ret, run_printf.
    apply list_elem_of_fmap in Hin as (c & [= -> ->] & [Ec Hin]%list_elem_of_filter).
    rewrite (con_shared _ HT c Hin Ec). cbn [Z.eqb]. unfold atol. rewrite strtol_dec by lia.
    split; [done|]. split; [by destruct w|]. split; [by apply Hu1|exact Hd1].
  - intros db1 rest _ _ Hin. by apply list_elem_of_fmap in Hin as (c & [=] & _).
Qed.

End Count.

(** ** The ranking in Redis *)

(** The member of a share in the public set. *)
Definition share_id (r : share_row) : string := s_md5 r +:+ s_name r.

(** The public set and the names that belong to a table of shares. *)
Definition index {V} (f : share_row -> V) (L : list share_row) : gmap string V :=
  list_to_map ((fun r => (share_id r, f r)) <$> L).

(** The key space mirrors the table: every share is in the public set with its
    downloads as score, its name is in the hash, and nothing else is. *)
Record mirrored (T : tables) (k : keyspace) : Prop := {
  mi_ids : NoDup (share_id <$> t_share T);
  mi_scores : zset_at k FILE_PUBLIC_ZSET = Some (index s_pv (t_share T));
  mi_names : hash_at k FILE_NAME_HASH = Some (index s_name (t_share T))
}.

Section Index.
Context {V : Type} (f : share_row -> V).

Lemma index_keys L : ((fun r => (share_id r, f r)) <$> L).*1 = share_id <$> L.
Proof. by rewrite <- list_fmap_compose. Qed.

Lemma index_perm L L' : NoDup (share_id <$> L) -> L ≡ₚ L' -> index f L = index f L'.
Proof. intros Hn Hp. apply list_to_map_proper; [by rewrite index_keys|by rewrite Hp]. Qed.

Lemma index_lookup L r : NoDup (share_id <$> L) -> r ∈ L -> index f L !! share_id r = Some (f r).
Proof.
  intros Hn Hr. apply elem_of_list_to_map; [by rewrite index_keys|]. by apply (list_elem_of_fmap_2 (fun r => (share_id r, f r))).
Qed.

Lemma index_none L id : id ∉ share_id <$> L -> index f L !! id = None.
Proof. intros Hn. apply not_elem_of_list_to_map. by rewrite index_keys. Qed.

Lemma index_list L : NoDup (share_id <$> L) -> map_to_list (index f L) ≡ₚ (fun r => (share_id r, f r)) <$> L.
Proof. intros Hn. apply map_to_list_to_map. by rewrite index_keys. Qed.

Lemma index_size L : NoDup (share_id <$> L) -> size (index f L) = length L.
Proof.
  intros Hn. rewrite <- length_map_to_list, (Permutation_length (index_list L Hn)). apply length_fmap.
Qed.

(** Adding the shares one by one. *)
Lemma index_fill L m : NoDup (share_id <$> L) ->
  foldl (fun m r => <[share_id r := f r]> m) m L = index f L ∪ m.
Proof.
  revert m. induction L as [|r L IH]; intros m Hn; cbn; [by rewrite (left_id_L ∅ (∪))|].
  apply NoDup_cons in Hn as [Hr Hn]. rewrite IH by done.
  rewrite <- insert_union_r by (by apply index_none). by rewrite insert_union_l.
Qed.

End Index.

(** Digests of one length make the members unique. *)
Lemma append_inj s1 s2 t1 t2 : String.length s1 = String.length s2 -> s1 +:+ t1 = s2 +:+ t2 -> s1 = s2 /\ t1 = t2.
Proof.
  revert s2. induction s1 as [|c s1 IH]; intros [|c2 s2] Hl E; try done.
  injection E as -> E. destruct (IH s2) as [-> ->]; [by injection Hl|done|done].
Qed.

Lemma share_ids_unique n T : consistent T -> Forall (fun r => String.length (s_md5 r) = n) (t_share T) ->
  NoDup (share_id <$> t_share T).
Proof.
  intros HT Hn. pose proof (con_shares _ HT) as Hd. induction (t_share T) as [|r L IH]; [constructor|].
  apply Forall_cons in Hn as [Hr Hn]. apply NoDup_cons in Hd as [Hin Hd]. cbn. constructor; [|by apply IH].
  intros (x & E & Hx)%list_elem_of_fmap. apply Hin. rewrite Forall_forall in Hn.
  destruct (append_inj _ _ _ _ (eq_trans Hr (eq_sym (Hn x Hx))) E) as [E1 E2].
  unfold share_key. rewrite E1, E2. by apply (list_elem_of_fmap_2 share_key).
Qed.

(** What the ranking shows of a share. *)
Definition rank_object (r : share_row) : cJSON :=
  Item cJSON_Object None 0 dzero None
    [named "filename" (cJSON_CreateString (s_name r)); named "pv" (cJSON_CreateNumber (s_pv r))].

(** Shares the ranking can show: texts that fit its arrays, downloads in the range
    of [int]. *)
Definition rank_ok (r : share_row) : Prop :=
  text_ok (s_name r) /\ (String.length (share_id r) <= 1023)%nat /\ 0 <= s_pv r < INT_MAX.
#[export] Instance rank_ok_dec r : Decision (rank_ok r).
Proof. unfold rank_ok, text_ok, nonul. apply _. Defined.

Lemma rank_object_wf r : rank_ok r -> well_formed 2 (rank_object r) /\ item_string (rank_object r) = None.
Proof.
  intros (Ht & _ & Hp). split; [|done]. apply wf_object; [unfold CJSON_NESTING_LIMIT; lia|].
  assert (Z.abs (s_pv r) < 10 ^ 15) by (unfold INT_MAX in *; lia).
  repeat apply Forall_cons_2; try constructor;
    try (apply well_formed_named; by (apply well_formed_number || apply wf_string));
    eexists; rewrite named_item; (split; [done|by_decide]).
Qed.

Lemma name_length r : (String.length (s_name r) <= String.length (share_id r))%nat.
Proof. unfold share_id. rewrite length_append. lia. Qed.

Section Rank.
Context {SV : Services} {SQ : SqlServer} {RD : RedisServer} {RR : RedisRanking}.

(** A step that only talks to Redis: everything else stays. *)
Definition redis_only (w w' : world) : Prop := w' = set_redis (w_redis w') w /\ redis_up true w'.

Lemma redis_only_trans w1 w2 w3 : redis_only w1 w2 -> redis_only w2 w3 -> redis_only w1 w3.
Proof. intros [E1 _] [E2 H]. split; [|done]. rewrite E2, E1. by destruct w1. Qed.

(** The row of a share in the query of the ranking. *)
Definition rank_fields (r : share_row) : list (option string) := [field (s_md5 r); field (s_name r); nfield (s_pv r)].

(** Filling the set and the names from rows. *)
Lemma refill_spec L w z h : Forall rank_ok L ->
  zset_at (kv w) FILE_PUBLIC_ZSET = Some z -> hash_at (kv w) FILE_NAME_HASH = Some h -> redis_up true w ->
  run true (refill (rank_fields <$> L)) (fun ret w' => ret = 0 /\ redis_only w w' /\
    zset_at (kv w') FILE_PUBLIC_ZSET = Some (foldl (fun m r => <[share_id r := s_pv r]> m) z L) /\
    hash_at (kv w') FILE_NAME_HASH = Some (foldl (fun m r => <[share_id r := s_name r]> m) h L) /\
    forall key, key <> FILE_PUBLIC_ZSET -> key <> FILE_NAME_HASH -> kv w' !! key = kv w !! key) w.
Proof.
  intros Hok. revert w z h. induction Hok as [|r L (Ht & Hl & Hp) _ IH]; intros w z h Hz Hh Hu.
  { apply run_ret. split; [done|]. split; [by destruct w|done]. }
  cbn [fmap list_fmap refill rank_fields field nfield foldl]. fold (share_id r).
  apply run_bind, run_sprintf; [intros _; apply fits_lt; lia|]. intros _.
  rewrite atoi_dec by (unfold is_int, INT_MAX in *; lia).
  apply run_bind. eapply run_zset_add; [exact Hz|done|]. intros _ r1 Hr1 Hk1.
  apply run_bind. eapply run_hash_set; [change (kv (set_redis r1 w)) with (keys r1); rewrite Hk1, hash_at_put_zset by done; exact Hh|done|].
  intros _ r2 [[=]|Hk2] Hr2. change (kv (set_redis r1 w)) with (keys r1) in Hk2. rewrite Hk1 in Hk2.
  eapply run_mono; [apply (IH (set_redis r2 (set_redis r1 w)) (<[share_id r := s_pv r]> z) (<[share_id r := s_name r]> h))|].
  - change (kv _) with (keys r2). rewrite Hk2, zset_at_put_hash by done. apply zset_at_put.
  - change (kv _) with (keys r2). rewrite Hk2. apply hash_at_put.
  - done.
  - intros ret w' (-> & Ho & Hz' & Hh' & Hk'). split; [done|]. split; [by apply (redis_only_trans _ (set_redis r2 (set_redis r1 w)))|].
    split; [done|]. split; [done|]. intros key H1 H2. rewrite Hk' by done.
    change (kv (set_redis r2 _)) with (keys r2). by rewrite Hk2, put_hash_other, put_zset_other by done.
Qed.

(** The members at positions [from] to [from + count - 1]. *)
Lemma copy_members (l : list (string * Z)) : Forall (fun p => (String.length p.1 <= 1023)%nat) l -> forall room,
  (length l <= room)%nat -> copy_values ((fun p => RString p.1) <$> l) (length l) room = Ok (fst <$> l).
Proof.
  induction 1 as [|p l Hp _ IH]; intros room Hl; [done|]. destruct room as [|room]; [cbn in Hl; lia|].
  cbn -[VALUES_ID_SIZE String.substring Nat.sub]. rewrite substring_all by exact Hp. rewrite IH by (cbn in Hl; lia). done.
Qed.

Lemma run_zrevrange key z from count (Q : Z * list string * option Z -> world -> Prop) w :
  zset_at (kv w) key = Some z -> redis_up true w ->
  0 <= from -> 0 < count -> from + count <= INT_MAX ->
  (forall m, is_Some (z !! m) -> (String.length m <= 1023)%nat) ->
  (forall l n r, redis_up true (set_redis r w) -> keys r = kv w -> ranking z l ->
     Q (0, fst <$> page from count l, n) (set_redis r w)) ->
  run true (rop_zset_zrevrange (Z.to_nat count) key from (from + count - 1)) Q w.
Proof.
  intros Hz Hu Hf Hc Hi Hm HQ. unfold rop_zset_zrevrange, INT_MAX in *.
  apply run_bind, run_to_int; [unfold is_int; lia|]. intros _.
  apply run_bind, run_to_int; [unfold is_int; lia|]. intros _.
  apply run_bind. unfold run at 1, redisCommand.
  pose proof (redis_zrevrange (w_redis w) key from (from + count - 1) Hf ltac:(lia) ltac:(unfold is_int; lia)) as He.
  pose proof (redis_answering (w_redis w) "ZREVRANGE %s %d %d" [RS key; RI from; RI (from + count - 1)] (Hu eq_refl)) as Ha.
  destruct (redis_exec _ _ _) as [r o]. destruct Ha as [[x ->] Ha], He as [Hk [[=]|He]]. fold (kv w) in He, Hk.
  rewrite Hz in He. destruct He as (l & Hl & [= ->]). replace (from + count - 1 - from + 1) with count by lia.
  apply run_bind, run_ret. fold (page from count l). set (els := _ <$> page from count l).
  assert (length (page from count l) <= Z.to_nat count)%nat as Hlen by (unfold page; rewrite length_take; lia).
  assert (max_count_of (length els) count = Z.of_nat (length (page from count l))) as ->.
  { unfold max_count_of, els. rewrite length_fmap, Z.mod_small by lia. rewrite (proj2 (Z.ltb_ge _ _)) by lia. done. }
  rewrite Nat2Z.id. apply run_bind. unfold run at 1, lift, els. rewrite copy_members; [|..|done].
  - apply run_ret. exact (HQ l _ r (fun _ => Ha) Hk Hl).
  - apply Forall_forall. intros p Hin%page_incl. apply Hm. exists p.2. destruct Hl as [Hp _].
    rewrite Hp in Hin. destruct p. by apply elem_of_map_to_list in Hin.
Qed.

(** One object per member, with the name from the hash and the score. *)
Lemma ranking_items_spec L z h c w : Forall rank_ok L ->
  zset_at (kv w) FILE_PUBLIC_ZSET = Some z -> hash_at (kv w) FILE_NAME_HASH = Some h -> redis_up true w ->
  (forall r, r ∈ L -> z !! share_id r = Some (s_pv r) /\ h !! share_id r = Some (s_name r)) ->
  run true (ranking_items (share_id <$> L) (Item cJSON_Array None 0 dzero None c)) (fun o w' =>
    redis_only w w' /\ kv w' = kv w /\
    o = Some (Item cJSON_Array None 0 dzero None (c ++ (rank_object <$> L)))) w.
Proof.
  intros Hok. revert c w. induction Hok as [|r L (Ht & Hl & Hp) _ IH]; intros c w Hz Hh Hu Hin.
  { apply run_ret. split; [by destruct w|]. by rewrite app_nil_r. }
  destruct (Hin r ltac:(left)) as [Hzr Hhr]. pose proof (name_length r). cbn [fmap list_fmap ranking_items]. apply run_bind.
  eapply run_hash_get; [exact Hh|exact Hhr|lia|unfold VALUES_ID_SIZE; lia|done| |done].
  intros r1 Hr1 Hk1. cbn [Z.eqb negb]. apply run_bind.
  eapply run_zset_get_score; [change (kv (set_redis r1 w)) with (keys r1); rewrite Hk1; exact Hz|exact Hzr|unfold is_int, INT_MAX in *; lia|done|].
  intros r2 Hr2 Hk2. change (kv (set_redis r1 w)) with (keys r1) in Hk2. rewrite Hk1 in Hk2.
  rewrite (proj2 (Z.eqb_neq _ (-1))) by lia. cbv zeta.
  match goal with |- context [cJSON_AddItemToArray ?a ?i] =>
    change (cJSON_AddItemToArray a i) with (Item cJSON_Array None 0 dzero None (c ++ [rank_object r])) end.
  eapply run_mono; [apply (IH (c ++ [rank_object r]) (set_redis r2 (set_redis r1 w)))|].
  - change (kv _) with (keys r2). by rewrite Hk2.
  - change (kv _) with (keys r2). by rewrite Hk2.
  - done.
  - intros x Hx. apply Hin. by right.
  - intros o w' (Ho & Hk & ->). split; [by apply (redis_only_trans _ (set_redis r2 (set_redis r1 w)))|]. split.
    + rewrite Hk. exact Hk2.
    + cbn. by rewrite <- app_assoc.
Qed.

(** The keys that are not part of the ranking. *)
Definition other_keys (k k' : keyspace) : Prop :=
  forall key, key <> FILE_PUBLIC_ZSET -> key <> FILE_NAME_HASH -> k' !! key = k !! key.

(** A rebuilt ranking mirrors the table. *)
Lemma rebuild_spec w : up true w -> Forall rank_ok (t_share (tabs w)) -> NoDup (share_id <$> t_share (tabs w)) ->
  t_share (tabs w) <> [] ->
  run true rebuild_ranking (fun ret w' => ret = 0 /\ frame w w' /\ up true w' /\ tabs w' = tabs w /\
    mirrored (tabs w) (kv w') /\ other_keys (kv w) (kv w')) w.
Proof.
  intros [Hu Hr] Hok Hn Hne. unfold rebuild_ranking. apply run_bind, run_del_key; [done|]. intros _ r1 Hr1 Hk1.
  apply run_bind, run_del_key; [done|]. intros _ r2 Hr2 Hk2. change (kv (set_redis r1 w)) with (keys r1) in Hk2.
  rewrite Hk1 in Hk2. apply run_bind, run_sprintf; [intros _; fits_stmt|]. intros _. apply run_bind.
  set (w2 := set_redis r2 _). destruct (mysql_query_cases true SelShareRank w2)
    as (db & r & E & [[[=] _]|(Hu3 & Hd3 & Hrep)]); [done|done|]. unfold run at 1. rewrite E.
  change (tabs w2) with (tabs w) in *. cbn [stmt_rows reply_for] in Hrep. destruct r as [| |rows]; [done..|].
  change (rows ≡ₚ map rank_fields (t_share (tabs w))) in Hrep.
  apply Permutation_map_inv in Hrep as (L & -> & HL).
  destruct L as [|x L']; [by apply Permutation_nil_r in HL|]. cbn [map].
  change (rank_fields x :: map rank_fields L') with (rank_fields <$> (x :: L')). set (L := x :: L') in *.
  eapply run_mono; [apply (refill_spec L (set_db db w2) ∅ ∅)|].
  - by rewrite <- HL.
  - change (kv _) with (keys r2). rewrite Hk2. unfold zset_at. by rewrite lookup_delete_ne, lookup_delete_eq by done.
  - change (kv _) with (keys r2). rewrite Hk2. unfold hash_at. by rewrite lookup_delete_eq.
  - done.
  - intros ret w' (-> & [Ew Hr'] & Hz & Hh & Hk). assert (NoDup (share_id <$> L)) as HnL by (by rewrite <- HL).
    split; [done|]. split; [by rewrite Ew|]. split; [split; [rewrite Ew; exact Hu3|done]|].
    split; [rewrite Ew; exact Hd3|]. split.
    + rewrite (index_fill s_pv), (right_id_L ∅ (∪)) in Hz by done.
      rewrite (index_fill s_name), (right_id_L ∅ (∪)) in Hh by done. split; [done|..].
      * by rewrite Hz, (index_perm s_pv L (t_share (tabs w))) by done.
      * by rewrite Hh, (index_perm s_name L (t_share (tabs w))) by done.
    + intros key H1 H2. rewrite Hk by done. change (kv (set_db db w2)) with (keys r2).
      by rewrite Hk2, !lookup_delete_ne by done.
Qed.

(** The shares by falling downloads. *)
Definition by_pv (a b : share_row) : Prop := s_pv b <= s_pv a.

Lemma sorted_fmap_inv {A B} (g : A -> B) (R : relation B) l : Sorted R (g <$> l) -> Sorted (fun a b => R (g a) (g b)) l.
Proof.
  induction l as [|a l IH]; intros Hs; [constructor|]. inversion Hs as [|? ? Hl Hh]; subst.
  constructor; [by apply IH|]. destruct l as [|b l]; [constructor|]. inversion Hh; subst. by constructor.
Qed.

Lemma ranking_rows L l : NoDup (share_id <$> L) -> ranking (index s_pv L) l ->
  exists L', L' ≡ₚ L /\ Sorted by_pv L' /\ fst <$> l = share_id <$> L'.
Proof.
  intros Hn [Hp Hs]. rewrite (index_list s_pv L Hn) in Hp.
  apply Permutation_map_inv in Hp as (L' & -> & HL'). exists L'. split; [done|]. split.
  - exact (sorted_fmap_inv (fun r => (share_id r, s_pv r)) falling L' Hs).
  - change (map (fun r => (share_id r, s_pv r)) L') with ((fun r => (share_id r, s_pv r)) <$> L').
    by rewrite <- list_fmap_compose.
Qed.

(** The number of shares, as the programs read it. *)
Lemma run_share_number w (Q : Z * string -> world -> Prop) : up true w -> consistent (tabs w) ->
  t_share (tabs w) <> [] ->
  (forall db, db_up true (set_db db w) -> db_tables db = tabs w ->
     Q (0, dec (Z.of_nat (length (t_share (tabs w))))) (set_db db w)) ->
  run true (sql_one (SelCount' SHARE_COUNT) (Some (512%nat, ""%string))) Q w.
Proof.
  intros [Hu _] HT Hne HQ. eapply run_sql_one; [done|fits_stmt|done|done|done|..].
  - intros _. apply Forall_fmap, Forall_true. intros r. eexists _, _. split; [done|]. apply fits_dec. lia.
  - done.
  - intros db Hu' Hd Hno%fmap_nil_inv. apply (con_share_counted _ HT) in Hne.
    apply list_elem_of_fmap in Hne as (c & Ec & Hc). destruct (filter_nil_not_elem_of _ _ c Hno (eq_sym Ec) Hc).
  - intros db f rest Hu' Hd Hin. apply list_elem_of_fmap in Hin as (c & [= -> ->] & [Ec Hin]%list_elem_of_filter).
    rewrite (con_shared _ HT c Hin Ec). by apply HQ.
  - intros db rest _ _ Hin. by apply list_elem_of_fmap in Hin as (c & [=] & _).
Qed.

(** What the ranking needs of the tables and the keys: members that are unique,
    and a set that is trusted when it has as many members as there are shares. *)
Record rankable (T : tables) (k : keyspace) : Prop := {
  rk_rows : Forall rank_ok (t_share T);
  rk_ids : NoDup (share_id <$> t_share T);
  rk_some : t_share T <> [];
  rk_len : Z.of_nat (length (t_share T)) < INT_MAX;
  rk_zset : exists z, zset_at k FILE_PUBLIC_ZSET = Some z /\ Z.of_nat (size z) < 2 ^ 31 /\
    (size z = length (t_share T) -> mirrored T k)
}.

Lemma ranking_body_spec start count w : up true w -> consistent (tabs w) -> rankable (tabs w) (kv w) ->
  0 <= start -> 0 < count -> start + count <= INT_MAX ->
  run true (ranking_body start count) (fun x w' => frame w w' /\ up true w' /\ tabs w' = tabs w /\
    mirrored (tabs w) (kv w') /\ other_keys (kv w) (kv w') /\
    exists L, L ≡ₚ t_share (tabs w) /\ Sorted by_pv L /\
      x = (0, cJSON_Print (files_document (rank_object <$> page start count L)))) w.
Proof.
  intros [Hu Hr] HT [Hok Hn Hne Hlen (z & Hz & Hsz & Hsync)] H0 H1 H2. unfold ranking_body.
  apply run_bind, run_set_names; [done|]. intros db0 Hu0 Hd0. assert (tabs (set_db db0 w) = tabs w) as E0 by exact Hd0.
  apply run_bind, run_share_number; [done|by rewrite E0..|]. rewrite E0. intros db1 Hu1 Hd1. cbn [Z.eqb negb].
  rewrite atoi_dec by (unfold is_int, INT_MAX in *; lia). cbv zeta. apply run_bind.
  eapply run_zset_zcard; [exact Hz|done|done|]. intros r2 Hr2 Hk2. change (kv (set_db _ _)) with (kv w) in Hk2.
  rewrite (proj2 (Z.eqb_neq _ (-1))) by lia. set (w2 := set_redis r2 _). assert (tabs w2 = tabs w) as E2 by exact Hd1.
  assert (kv w2 = kv w) as K2 by exact Hk2.
  apply run_bind. apply (run_mono true _ (fun ret w' => ret = 0 /\ frame w w' /\ up true w' /\ tabs w' = tabs w /\
    mirrored (tabs w) (kv w') /\ other_keys (kv w) (kv w'))).
  { apply run_if.
    - intros E%Z.eqb_eq. apply run_ret. split; [done|]. split; [done|]. split; [done|]. rewrite K2. split; [done|].
      split; [apply Hsync; lia|done].
    - intros _. eapply run_mono; [apply rebuild_spec; by rewrite ?E2|]. rewrite E2, K2.
      intros ret w' (-> & [] & H). split; [done|]. split; [by split|done]. }
  intros ret w3 (-> & Hf3 & [Hu3 Hr3] & Ht3 & [_ Hz3 Hh3] & Hk3). cbn [Z.eqb negb].
  rewrite (proj2 (Z.ltb_ge _ _)) by lia. unfold INT_MAX in *.
  apply run_bind, run_to_int; [unfold is_int; lia|]. intros _.
  apply run_bind, run_to_int; [unfold is_int; lia|]. intros _. apply run_bind.
  eapply run_zrevrange; [exact Hz3|done|unfold INT_MAX; lia..| |].
  { intros m [s Hs]. apply elem_of_list_to_map in Hs; [|by rewrite index_keys].
    apply list_elem_of_fmap in Hs as (r & [= -> ->] & Hr'). rewrite Forall_forall in Hok. by apply Hok. }
  intros l num r4 Hr4 Hk4 Hl. cbn [Z.eqb negb]. destruct (ranking_rows _ l Hn Hl) as (L & HL & HsL & El).
  rewrite <- page_fmap, El, page_fmap. apply run_bind.
  assert (forall r, r ∈ page start count L -> r ∈ t_share (tabs w)) as Hin by (intros r Hx%page_incl; by rewrite <- HL).
  eapply run_mono; [apply (ranking_items_spec (page start count L) (index s_pv (t_share (tabs w))) (index s_name (t_share (tabs w))))|].
  - apply Forall_forall. intros r Hx%Hin. rewrite Forall_forall in Hok. by apply Hok.
  - change (kv _) with (keys r4). by rewrite Hk4.
  - change (kv _) with (keys r4). by rewrite Hk4.
  - done.
  - intros r Hx%Hin. by rewrite !index_lookup.
  - intros o w5 ([Ew Hr5] & Hk5 & ->). apply run_ret. change (kv (set_redis r4 w3)) with (keys r4) in Hk5. rewrite Hk4 in Hk5.
    rewrite Hk5. assert (tabs w5 = tabs w) as E5 by (rewrite Ew; exact Ht3).
    split; [rewrite Ew; by destruct Hf3|]. split; [split; [rewrite Ew; exact Hu3|done]|]. split; [done|].
    split; [by split|]. split; [done|]. by exists L.
Qed.

(** [get_ranking_filelist] on serving servers. *)
Lemma ranking_run cfg start count w : 0 <= start -> 0 < count -> start + count <= INT_MAX ->
  serving (w_db w) -> answering (w_redis w) ->
  redis_connect (w_redis w) (redis_ip cfg) (port_of (redis_port cfg)) = LinkOk ->
  mysql_accepts w (mysql_user cfg) (mysql_pwd cfg) (mysql_db cfg) = true ->
  consistent (tabs w) -> rankable (tabs w) (kv w) ->
  run true (get_ranking_filelist cfg start count) (fun ret w' => ret = 0 /\ exists L, L ≡ₚ t_share (tabs w)
    /\ Sorted by_pv L /\ w_out w' = w_out w ++ [cJSON_Print (files_document (rank_object <$> page start count L))]
    /\ kept w w' /\ tabs w' = tabs w /\ mirrored (tabs w') (kv w') /\ other_keys (kv w) (kv w')
    /\ w_open_db w' = w_open_db w /\ w_open_redis w' = w_open_redis w) w.
Proof.
  intros H0 H1 H2 Hs Hr Hl Hc HT Hrk.
  unfold get_ranking_filelist. apply run_bind, run_connect; [|congruence]. intros _.
  apply run_bind, run_bind, run_msql_conn; [|intros E;
    change (mysql_accepts w (mysql_user cfg) (mysql_pwd cfg) (mysql_db cfg) = false) in E; congruence].
  intros _. apply run_bind. eapply run_mono; [apply ranking_body_spec; try done; split; by intros _|].
  intros [ret out] w1 (Hf & [Hu1 Hr1] & Ht & Hm & Hk & L & HL & HS & [= -> ->]). apply run_ret.
  apply run_bind, run_printf, run_bind, run_disconnect, run_bind, run_mysql_close, run_ret. split; [done|]. exists L.
  split; [done|]. split; [done|]. split; [cbn; by rewrite (fr_out _ _ Hf)|].
  split; [split; [exact (fr_fs _ _ Hf)|exact (fr_now _ _ Hf)|by apply Hu1|by apply Hr1]|]. split; [exact Ht|].
  split; [change (mirrored (tabs w1) (kv w1)); by rewrite Ht|]. split; [exact Hk|].
  cbn. by rewrite (fr_open_db _ _ Hf), (fr_open_redis _ _ Hf).
Qed.


End Rank.
