(* ===== verification/Requests.v ===== *)
(** Requests: what the programs demand of a client before they touch the
    tables, and what survives in their buffers from one request to the next. *)

From Stdlib Require Import ZArith Lia Bool Ascii String.
From stdpp Require Import base tactics numbers list strings gmap.
From S2P Require Import Prelude CString Text Double CJson CJsonParse CJsonPrint World MysqlOp RedisOp.
From S2P Require Import Sql Kv CgiCommon Logic Catalogue Login FastUpload FilesOp Files.

Section Requests.
Context {SV : Services} {SQ : SqlServer} {RD : RedisServer}.

(** Everything but the output is as before. *)
Definition same_state (w w' : world) : Prop :=
  w_db w' = w_db w /\ w_redis w' = w_redis w /\ w_fs w' = w_fs w.

Lemma same_state_tabs w w' : same_state w w' -> tabs w' = tabs w.
Proof. unfold tabs. by intros (-> & _). Qed.
Lemma same_state_kv w w' : same_state w w' -> kv w' = kv w.
Proof. unfold kv. by intros (_ & -> & _). Qed.

(** The body a request brings, and a text field of a document. *)
Definition request_text (rq : request) : string :=
  String.substring 0 (Z.to_nat (match content_length rq with None => 0 | Some s => atoi s end)) (stdin rq).
Definition text_field (root : cJSON) (name : string) : option string :=
  cJSON_GetObjectItem root name ≫= item_valuestring.

(** Reading a request prints, and changes nothing else. *)
Lemma run_read_request rq (Q : body -> world -> Prop) w :
  (forall b w', same_state w w' -> (forall buf, b = Body buf -> buf = request_text rq) -> Q b w') ->
  run false (read_request rq) Q w.
Proof.
  intros HQ. unfold read_request. apply run_bind, run_printf. cbn zeta.
  destruct (match content_length rq with None => 0 | Some s => atoi s end <=? 0).
  { apply run_bind, run_printf, run_ret. by apply HQ. }
  destruct (_ =? 0)%nat; [apply run_ret; by apply HQ|].
  apply run_bind, run_sprintf; [done|]. intros _. apply run_ret. apply HQ; [done|]. intros buf E. by injection E as <-.
Qed.

Lemma run_copy_item root name cap (Q : option string -> world -> Prop) w :
  (forall o, (forall s, o = Some s -> text_field root name = Some s) -> Q o w) -> run false (copy_item root name cap) Q w.
Proof.
  intros HQ. unfold copy_item, text_field in *.
  destruct (cJSON_GetObjectItem root name) as [c|]; [|apply run_ret; by apply HQ].
  apply run_bind. unfold strcpy.
  change (Some c ≫= item_valuestring) with (item_valuestring c) in HQ.
  destruct (item_valuestring c); [|by apply run_undef].
  apply run_sprintf; [done|]. intros _. by apply run_ret, HQ.
Qed.

Lemma run_need o (Q : string -> world -> Prop) w :
  (forall s, o = Some s -> Q s w) -> run false (need o) Q w.
Proof. intros HQ. destruct o; [apply run_ret; by apply HQ | by apply run_undef]. Qed.

(** [verify_token] on servers that may fail at any step. *)
Lemma run_verify user token (Q : Z -> world -> Prop) w :
  (forall ret w', w_db w' = w_db w -> kv w' = kv w ->
     (ret = 0 -> kv w !! user = Some (VStr token)) -> Q ret w') ->
  run false (verify_token user token) Q w.
Proof.
  intros HQ. eapply run_mono; [by apply (verify_token_spec false)|].
  intros ret w' (_ & Hd & _ & Hk & _ & Hok & _). by apply HQ.
Qed.

(** The fields of an upload by digest come from the body. *)
Lemma run_get_md5_info buf (Q : option (string * string * string * string) -> world -> Prop) w :
  Q None w ->
  (forall root user token md5 filename, cJSON_Parse buf = Some root -> text_field root "user" = Some user ->
     text_field root "token" = Some token -> Q (Some (user, token, md5, filename)) w) ->
  run false (get_md5_info buf) Q w.
Proof.
  intros H0 HQ. unfold get_md5_info. destruct (cJSON_Parse buf) as [root|] eqn:E; [|by apply run_ret].
  apply run_bind, run_copy_item. intros [user|] Hu; [|by apply run_ret].
  apply run_bind, run_copy_item. intros [md5|] _; [|by apply run_ret].
  apply run_bind, run_copy_item. intros [filename|] _; [|by apply run_ret].
  apply run_bind, run_copy_item. intros [token|] Ht; [|by apply run_ret].
  apply run_ret. eapply HQ; eauto.
Qed.

Lemma run_any {A} (m : M A) w : run false m (fun _ _ => True) w.
Proof. unfold run. by destruct (m w) as [[]|]. Qed.

(** The body of a request names a user with the token Redis holds. *)
Definition authorised (rq : request) (w : world) : Prop :=
  exists root user token, cJSON_Parse (request_text rq) = Some root
    /\ text_field root "user" = Some user /\ text_field root "token" = Some token
    /\ kv w !! user = Some (VStr token).

(** no upload by digest without a token: whatever the servers do, one turn of
    the loop of cgi_md5 changes the tables only for a request whose body names a
    user together with the token that Redis holds for that user. *)
Theorem md5_main_authorised (cfg : settings) (rq : request) (w w' : world)
    (E : md5_main cfg rq w = Ok (tt, w')) :
  tabs w' = tabs w \/ authorised rq w.
Proof.
  apply (run_partial (md5_main cfg rq) (fun _ w' => tabs w' = tabs w \/ authorised rq w) w tt w'); [|exact E].
  unfold md5_main. apply run_bind, run_read_request. intros b w1 H1 Hb.
  destruct b as [| |buf]; [apply run_ret; left; by apply same_state_tabs..|]. rewrite (Hb buf eq_refl).
  apply run_bind, run_get_md5_info; [apply run_ret; left; by apply same_state_tabs|].
  intros root user token md5 filename Ep Eu Et. apply run_bind, run_verify. intros ret w2 Hd Hk Hok.
  destruct (Z.eqb_spec ret 0) as [->|_].
  - eapply run_mono; [apply run_any|]. intros _ w3 _. right. exists root, user, token.
    rewrite <- (same_state_kv w w1 H1). auto.
  - apply run_printf. left. rewrite <- (same_state_tabs w w1 H1). unfold tabs. cbn. by rewrite Hd.
Qed.

Lemma run_get_json_info buf b (Q : Z * op_bufs -> world -> Prop) w :
  (forall x, Q x w) -> run false (get_json_info buf b) Q w.
Proof.
  intros HQ. unfold get_json_info. destruct (cJSON_Parse buf) as [root|]; [|by apply run_ret].
  apply run_bind, run_copy_item. intros [user|] _; [|by apply run_ret].
  apply run_bind, run_copy_item. intros [md5|] _; [|by apply run_ret].
  apply run_bind, run_copy_item. intros [filename|] _; [|by apply run_ret].
  apply run_bind, run_copy_item. intros [token|] _; by apply run_ret.
Qed.

(** The buffers name a user and the token that Redis holds for that user. *)
Definition authorised_bufs (b : op_bufs) (w : world) : Prop :=
  exists user token, ob_user b = Some user /\ ob_token b = Some token /\ kv w !! user = Some (VStr token).
(** The buffers as a complete request leaves them. *)
Definition left_over (user token md5 filename : string) : op_bufs :=
  OpBufs (Some user) (Some token) (Some md5) (Some filename).

(** C22: no deletion without a token in the buffers: whatever the servers do, one
    turn of the loop of cgi_filesop changes tables or keys only when its buffers
    hold a user and the token that Redis has for that user. *)
Theorem filesop_main_authorised (cfg : settings) (b b' : op_bufs) (rq : request) (w w' : world)
    (E : filesop_main cfg b rq w = Ok (b', w')) :
  (tabs w' = tabs w /\ kv w' = kv w) \/
  authorised_bufs b' w.
Proof.
  apply (run_partial (filesop_main cfg b rq) (fun b' w' => (tabs w' = tabs w /\ kv w' = kv w) \/
    authorised_bufs b' w) w b' w'); [|exact E].
  unfold filesop_main. apply run_bind, run_read_request. intros r w1 H1 _.
  pose proof (same_state_tabs w w1 H1) as Et. pose proof (same_state_kv w w1 H1) as Ek.
  destruct r as [| |buf]; [apply run_ret; auto..|]. apply run_bind, run_get_json_info. intros [_ b1].
  apply run_bind, run_need. intros user Eu. apply run_bind, run_need. intros token Eo.
  apply run_bind, run_need. intros md5 _. apply run_bind, run_need. intros filename _.
  apply run_bind, run_verify. intros ret w2 Hd Hk Hok. rewrite Ek in *.
  destruct (Z.eqb_spec ret 0) as [->|_]; cbn [negb]; apply run_bind.
  - eapply run_mono; [apply run_any|]. intros _ w3 _. apply run_ret. right. exists user, token. auto.
  - apply run_printf, run_ret. left. rewrite <- Et, <- Hk. unfold tabs, kv. cbn. by rewrite Hd.
Qed.


End Requests.
