(* ===== verification/Process.v ===== *)
(** The programs as processes: each reads its settings once and then serves the
    requests that [FCGI_Accept] brings, in one process with the arrays of [main]
    (src/src/cgi). *)

From Stdlib Require Import ZArith Lia Bool Ascii String.
From stdpp Require Import base tactics numbers list strings gmap.
From S2P Require Import Prelude CString Md5 Des Text World MysqlOp RedisOp CgiCommon.
From S2P Require Import Login Register FastUpload FilesOp Upload Files ShareOps.

Section Process.
Context `{Services} {dm : DataModel}.

(** A program: what it does before its loop, and one turn of the loop. *)
Record program (R : Type) := Program {
  pg_state : Type;
  pg_start : M pg_state;
  pg_turn : pg_state -> R -> M pg_state }.
Arguments Program {R} {_} _ _.
Arguments pg_state {R} _.
Arguments pg_start {R} _.
Arguments pg_turn {R} _ _ _.

(** [FCGI_Accept]: the next request arrives, and it is [time]. *)
Definition accept (time : string) : M unit := fun w =>
  Ok (tt, World _ (w_db w) (w_redis w) (w_sys w) (w_fs w) time (w_out w) (w_open_db w) (w_open_redis w)).

(** The loop, until [FCGI_Accept] fails. *)
Fixpoint serve {R St} (turn : St -> R -> M St) (s : St) (arrivals : list (string * R)) : M St :=
  match arrivals with
  | [] => mret s
  | (time, rq) :: arrivals => accept time;; s ← turn s rq; serve turn s arrivals
  end.

Definition process {R} (p : program R) (arrivals : list (string * R)) : M unit :=
  s ← pg_start p; serve (pg_turn p) s arrivals;; mret tt.

(** [read_cfg] of the programs that leave the settings of Redis out: those arrays
    stay empty. *)
Definition read_mysql_cfg : M settings :=
  '(_, u) ← cfg_value 128 "mysql" "user";
  '(_, p) ← cfg_value 128 "mysql" "password";
  '(_, d) ← cfg_value 128 "mysql" "database";
  mret (Settings u p d "" "").

(** The array [cmd] of [main], and the other arrays. *)
Definition no_bufs : op_bufs := OpBufs None None None None.

Definition cgi_login : program (token_env * request) :=
  Program (mret tt) (fun _ '(env, rq) => login_main env rq).
Definition cgi_register : program request :=
  Program (mret tt) (fun _ rq => register_main rq).
Definition cgi_md5 : program request :=
  Program read_mysql_cfg (fun cfg rq => md5_main cfg rq;; mret cfg).
Definition cgi_upload : program (upload_env * request) :=
  Program read_mysql_cfg (fun cfg '(env, rq) => upload_main cfg env rq;; mret cfg).
Definition cgi_files : program request :=
  Program (cfg ← read_mysql_cfg; mret (cfg, FilesBufs None None))
    (fun '(cfg, b) rq => b ← files_main cfg b rq; mret (cfg, b)).
Definition cgi_filesop : program request :=
  Program (cfg ← read_cfg; mret (cfg, no_bufs))
    (fun '(cfg, b) rq => b ← filesop_main cfg b rq; mret (cfg, b)).
Definition cgi_sharefiles : program (option string * request) :=
  Program (cfg ← read_cfg; mret (cfg, None))
    (fun '(cfg, cmd) '(query, rq) => cmd ← sharefiles_main cfg cmd query rq; mret (cfg, cmd)).
Definition cgi_sharefilesop : program (option string * request) :=
  Program (cfg ← read_cfg; mret (cfg, None, no_bufs))
    (fun '(cfg, cmd, b) '(query, rq) =>
       '(cmd, b) ← sharefilesop_main cfg cmd b query rq; mret (cfg, cmd, b)).

End Process.

Arguments pg_state {_ R} _.
Arguments pg_start {_ R} _.
Arguments pg_turn {_ R} _ _ _.
