(* ===== verification/Session.v ===== *)
(** A session of a client: login, then an upload by digest with the token of the
    answer. The programs of cgi_login.c and cgi_md5.c are run one after the other
    on the bodies a client prints. *)

From Stdlib Require Import ZArith Lia Bool Ascii String.
From stdpp Require Import base tactics numbers list strings gmap.
From S2P Require Import Prelude CString Md5 Des Text Double CJson CJsonParse CJsonPrint CJsonRoundtrip.
From S2P Require Import World MysqlOp RedisOp Sql Kv CgiCommon Logic Catalogue Login FastUpload FilesOp ShareOps.

(** ** The client *)

(** An object of texts, and the request that brings it. *)
Definition text_object (fields : list (string * string)) : cJSON :=
  foldl (fun o '(k, v) => cJSON_AddStringToObject o k v) cJSON_CreateObject fields.
Definition post (fmt : bool) (doc : cJSON) : request :=
  let body := printed fmt doc in Request (Some (dec (Z.of_nat (String.length body)))) body.

Definition login_doc (user pwd : string) : cJSON := text_object [("user", user); ("pwd", pwd)]%string.
Definition md5_doc (user token md5 filename : string) : cJSON :=
  text_object [("user", user); ("token", token); ("md5", md5); ("fileName", filename)]%string.

Lemma text_object_wf fields : Forall (fun p => text_ok p.1 /\ text_ok p.2) fields ->
  well_formed 0 (text_object fields) /\ item_string (text_object fields) = None.
Proof.
  intros Hf. unfold text_object.
  assert (forall c, Forall (fun x => well_formed 1 x /\ exists s, item_string x = Some s /\ text_ok s) c ->
    exists c', Forall (fun x => well_formed 1 x /\ exists s, item_string x = Some s /\ text_ok s) c' /\
    foldl (fun o '(k, v) => cJSON_AddStringToObject o k v) (Item cJSON_Object None 0 dzero None c) fields
      = Item cJSON_Object None 0 dzero None c') as Hgen.
  { induction Hf as [|[k v] l [Hk Hv] Hl IH]; intros c Hc; [by exists c|]. cbn [foldl].
    apply (IH (c ++ [Item cJSON_String (Some v) 0 dzero (Some k) []])).
    apply Forall_app. split; [done|]. apply Forall_singleton. split; [by constructor|]. by exists k. }
  destruct (Hgen [] ltac:(constructor)) as (c' & Hc' & E). change cJSON_CreateObject with (Item cJSON_Object None 0 dzero None []).
  rewrite E. split; [|done]. apply wf_object; [unfold CJSON_NESTING_LIMIT; lia|done].
Qed.

(** What the printer makes of a document reaches the program. *)
Lemma printed_length fmt doc : well_formed 0 doc -> Z.of_nat (length (CJsonPrint.render fmt 0 doc)) + 2 <= INT_MAX ->
  String.length (printed fmt doc) = length (CJsonPrint.render fmt 0 doc).
Proof.
  intros Hw Hb. unfold printed. rewrite print_total by (done || by eapply well_formed_printable).
  rewrite <- length_bytes_of, bytes_of_text; [done|].
  eapply Forall_impl; [exact (render_bytes fmt doc 0 0 Hw)|]. unfold text_byte, is_byte. intros x ?. lia.
Qed.

(** The request fits the buffer of the programs. *)
Definition fits_request (fmt : bool) (doc : cJSON) : Prop := (length (CJsonPrint.render fmt 0 doc) < 4096)%nat.

Section Client.
Context {SV : Services}.
Variable t : bool.

Definition header : string := "Content-type: text/html" +:+ crlf +:+ crlf.

Lemma run_read_post fmt doc (Q : body -> world -> Prop) w : well_formed 0 doc -> fits_request fmt doc ->
  Q (Body (printed fmt doc)) (set_out (w_out w ++ [header]) w) -> run t (read_request (post fmt doc)) Q w.
Proof.
  intros Hw Hf HQ. unfold fits_request in Hf.
  assert (String.length (printed fmt doc) = length (CJsonPrint.render fmt 0 doc)) as El
    by (apply printed_length; [done|unfold INT_MAX; lia]).
  destruct (render_head fmt 0 0 doc Hw) as (c & r & Er & _).
  assert (0 < String.length (printed fmt doc))%nat as Hpos by (rewrite El, Er; cbn; lia).
  unfold read_request, post. cbn [content_length stdin]. apply run_bind, run_printf.
  rewrite atoi_dec by (unfold is_int; lia). rewrite (proj2 (Z.leb_gt _ 0)) by lia. cbv zeta.
  rewrite Nat2Z.id, substring_all, (proj2 (Nat.eqb_neq _ 0)) by lia.
  apply run_bind, run_sprintf; [intros _; apply fits_lt; lia|]. intros _. by apply run_ret.
Qed.

(** A text field of a document. *)
Lemma run_copy_text root name cap c s (Q : option string -> world -> Prop) w :
  cJSON_GetObjectItem root name = Some c -> item_valuestring c = Some s -> fits cap s = true ->
  Q (Some s) w -> run t (copy_item root name cap) Q w.
Proof.
  intros Hc Hs Hf HQ. unfold copy_item. rewrite Hc. apply run_bind. unfold strcpy. rewrite Hs.
  apply run_sprintf; [done|]. intros _. by apply run_ret.
Qed.

End Client.

(** ** A working installation *)

Section Session.
Context {SV : Services} {SQ : SqlServer} {RD : RedisServer} {dm : DataModel}.

(** The values the programs read from the configuration, with the size of the
    array that takes each. *)
Definition cfg_keys : list (nat * string * string) :=
  [(30, "redis", "ip"); (10, "redis", "port"); (256, "mysql", "user"); (256, "mysql", "password");
   (256, "mysql", "database"); (128, "mysql", "user"); (128, "mysql", "password");
   (128, "mysql", "database")]%nat%string.

(** Both servers serve and accept connections, and the configuration is complete. *)
Record working (w : world) : Prop := {
  wk_db : serving (w_db w);
  wk_redis : answering (w_redis w);
  wk_accept : forall db u p d, serving db -> mysql_init db && mysql_real_connect db u p d = true;
  wk_link : forall r ip port, answering r -> redis_connect r ip port = LinkOk;
  wk_cfg : Forall (fun '(cap, title, key) => exists v, cfg_value cap title key w = Ok ((0, v), w)) cfg_keys
}.

Lemma working_step w w' : working w -> w_fs w' = w_fs w -> serving (w_db w') -> answering (w_redis w') -> working w'.
Proof.
  intros [_ _ Ha Hl Hc] Hf Hd Hr. split; try done. eapply Forall_impl; [exact Hc|].
  intros [[cap title] key] [x Hx]. exists x. by apply (cfg_value_fs _ _ _ w).
Qed.

Lemma working_kept w w' : working w -> kept w w' -> working w'.
Proof. intros Hw [Hf _ Hd Hr]. by apply (working_step w). Qed.

Lemma working_cfg w cap title key : working w -> (cap, title, key) ∈ cfg_keys -> cfg_ready true w cap title key.
Proof.
  intros [_ _ _ _ Hc] Hin _. rewrite Forall_forall in Hc. destruct (Hc _ Hin) as [v Hv]. by exists (0, v).
Qed.

Lemma working_accepts w u p d : working w -> mysql_accepts w u p d = true.
Proof. intros Hw. apply (wk_accept _ Hw), Hw. Qed.

(** After a request the installation works, and no connection is left open. *)
Record settled (w w' : world) : Prop := {
  se_working : working w';
  se_now : w_now w' = w_now w;
  se_db : w_open_db w' = w_open_db w;
  se_redis : w_open_redis w' = w_open_redis w
}.

Ltac cfg_key := apply working_cfg; [done|unfold cfg_keys; set_solver].

(** The users' passwords fit their buffers, and names are unique. *)
Record users_ok (T : tables) : Prop := {
  uo_names : NoDup (u_name <$> t_user T);
  uo_pwds : forall r, r ∈ t_user T -> fits PWD_LEN (u_pwd r) = true
}.

(** A user name and a password that a login can bring. *)
Record login_ok (fmt : bool) (user pwd : string) : Prop := {
  lo_user : text_ok user; lo_quote : quote_free user = true; lo_user_len : (String.length user <= 400)%nat;
  lo_pwd : text_ok pwd; lo_pwd_len : (String.length pwd <= 511)%nat;
  lo_fits : fits_request fmt (login_doc user pwd)
}.

Lemma run_get_login_info fmt user pwd (Q : Z * string * string -> world -> Prop) w : login_ok fmt user pwd ->
  Q (0, user, pwd) w -> run true (get_login_info (printed fmt (login_doc user pwd)) "" "") Q w.
Proof.
  intros Hl HQ. unfold get_login_info.
  destruct (text_object_wf [("user", user); ("pwd", pwd)]%string) as [Hw Hn].
  { repeat apply Forall_cons_2; [..|constructor]; cbn; split; try apply Hl; by_decide. }
  rewrite parse_printed; [|exact Hw|exact Hn|pose proof (lo_fits _ _ _ Hl); unfold fits_request, INT_MAX in *; lia].
  apply run_bind. eapply run_copy_text; [reflexivity|reflexivity|apply fits_lt; destruct Hl; lia|].
  apply run_bind. eapply run_copy_text; [reflexivity|reflexivity|apply fits_lt; destruct Hl; lia|]. by apply run_ret.
Qed.

(** The answer to a login. *)
Definition login_answer (ok : bool) (token : string) : string :=
  cJSON_Print (if ok then login_status "000" token else login_status "001" "fail").

Lemma login_run env fmt user pwd w :
  working w -> length (md5_junk env) = 64%nat -> login_ok fmt user pwd -> users_ok (tabs w) ->
  run true (login_main env (post fmt (login_doc user pwd))) (fun _ w' =>
    settled w w' /\ tabs w' = tabs w /\
    ((~ credentials user pwd (tabs w) /\ kv w' = kv w /\ w_out w' = w_out w ++ [header; login_answer false ""]) \/
     (credentials user pwd (tabs w) /\ exists token, String.length token = 32%nat /\ text_ok token /\
        kv w' = <[user := VStr token]> (kv w) /\ w_out w' = w_out w ++ [header; login_answer true token]))) w.
Proof.
  intros Hw Hj Hl Hu. unfold login_main.
  destruct (text_object_wf [("user", user); ("pwd", pwd)]%string) as [Hwf _].
  { repeat apply Forall_cons_2; [..|constructor]; cbn; split; try apply Hl; by_decide. }
  apply run_bind, run_read_post; [exact Hwf|apply Hl|]. set (w1 := set_out _ w).
  assert (working w1) as Hw1 by (by apply (working_step w); [..|apply Hw|apply Hw]).
  apply run_bind, run_get_login_info; [exact Hl|]. apply run_bind.
  eapply run_mono; [apply (check_user_pwd_spec true); try apply Hl; try cfg_key|].
  { intros _. apply Hw1. }
  { intros _. apply Hu. }
  intros ret w2 (Hf2 & Ht2 & Hr2 & Hup2 & Hret & Hsound & Hcomp).
  assert (working w2) as Hw2.
  { apply (working_step w1); [done|apply Hf2|by apply Hup2|rewrite Hr2; apply Hw]. }
  specialize (Hcomp eq_refl (fun u p d => working_accepts w1 u p d Hw1)).
  destruct (Z.eqb_spec ret 0) as [->|Hne].
  - assert (credentials user pwd (tabs w)) as Hcr by (by apply Hsound). apply run_bind.
    eapply run_mono; [apply (set_token_spec true); try cfg_key; try done|].
    { pose proof (lo_user_len _ _ _ Hl). lia. }
    { intros _. apply Hw2. }
    { intros _. apply Hw2. }
    intros [r token] w3 (Hd3 & Hf3 & Hup3 & [(-> & Hlen & Hnn & Hk3)|[[=] _]]). cbn [Z.eqb].
    apply run_printf. split; [|split].
    + split.
      * apply (working_step w2); [done|apply Hf3|cbn; rewrite Hd3; apply Hw2|by apply Hup3].
      * cbn. by rewrite (fr_now _ _ Hf3), (fr_now _ _ Hf2).
      * cbn. by rewrite (fr_open_db _ _ Hf3), (fr_open_db _ _ Hf2).
      * cbn. by rewrite (fr_open_redis _ _ Hf3), (fr_open_redis _ _ Hf2).
    + change (tabs (set_out _ w3)) with (tabs w3). unfold tabs at 1. rewrite Hd3. exact Ht2.
    + right. split; [done|]. exists token. split; [done|]. split; [done|]. split.
      * change (kv (set_out _ w3)) with (kv w3). rewrite Hk3. unfold kv. by rewrite Hr2.
      * cbn. rewrite (fr_out _ _ Hf3), (fr_out _ _ Hf2). cbn. by rewrite <- app_assoc.
  - apply run_bind, run_ret. rewrite (proj2 (Z.eqb_neq ret 0) Hne). apply run_printf. split; [|split].
    + split; [by apply (working_step w2); [..|apply Hw2|apply Hw2]|apply Hf2..].
    + exact Ht2.
    + left. split; [|split].
      * intros Hcr. apply Hne, Hcomp; [apply Hu|done].
      * change (kv (set_out _ w2)) with (kv w2). unfold kv. by rewrite Hr2.
      * cbn. rewrite (fr_out _ _ Hf2). cbn. by rewrite <- app_assoc.
Qed.

(** What an upload by digest can bring. *)
Record upload_ok (fmt : bool) (user token md5 filename time : string) : Prop := {
  uk_args : args_ok user md5 filename time;
  uk_user : text_ok user; uk_token : text_ok token; uk_md5 : text_ok md5; uk_name : text_ok filename;
  uk_lens : (String.length user <= 127 /\ String.length token <= 255 /\ String.length md5 <= 255
             /\ String.length filename <= 127)%nat;
  uk_fits : fits_request fmt (md5_doc user token md5 filename);
  uk_reserved : user <> SHARE_COUNT
}.

Lemma md5_doc_wf fmt user token md5 filename time : upload_ok fmt user token md5 filename time ->
  well_formed 0 (md5_doc user token md5 filename) /\ item_string (md5_doc user token md5 filename) = None.
Proof.
  intros Hk. apply (text_object_wf [("user", user); ("token", token); ("md5", md5); ("fileName", filename)]%string).
  repeat apply Forall_cons_2; [..|constructor]; cbn; split; try apply Hk; by_decide.
Qed.

Lemma run_get_info fmt user token md5 filename time (Q : option (string * string * string * string) -> world -> Prop) w :
  upload_ok fmt user token md5 filename time -> Q (Some (user, token, md5, filename)) w ->
  run true (get_md5_info (printed fmt (md5_doc user token md5 filename))) Q w.
Proof.
  intros Hk HQ. unfold get_md5_info. destruct (md5_doc_wf _ _ _ _ _ _ Hk) as [Hw Hn].
  rewrite parse_printed; [|exact Hw|exact Hn|pose proof (uk_fits _ _ _ _ _ _ Hk); unfold fits_request, INT_MAX in *; lia].
  pose proof (uk_lens _ _ _ _ _ _ Hk).
  apply run_bind. eapply run_copy_text; [reflexivity|reflexivity|apply fits_lt; lia|].
  apply run_bind. eapply run_copy_text; [reflexivity|reflexivity|apply fits_lt; lia|].
  apply run_bind. eapply run_copy_text; [reflexivity|reflexivity|apply fits_lt; lia|].
  apply run_bind. eapply run_copy_text; [reflexivity|reflexivity|apply fits_lt; lia|]. by apply run_ret.
Qed.

(** The outcomes of an upload by digest. *)
Definition upload_outcome (user md5 filename time : string) (T T' : tables) (ret : Z) : Prop :=
  (ret = -3 /\ T' = T /\ md5 ∉ f_md5 <$> t_file T) \/
  (ret = -2 /\ T' = T /\ (user, md5, filename) ∈ entry <$> t_list T) \/
  (ret = 0 /\ T' = add_reference (new_entry user md5 filename time) T
   /\ md5 ∈ f_md5 <$> t_file T /\ (user, md5, filename) ∉ entry <$> t_list T).

(** The token stored for a user fits the array of [verify_token]. *)
Definition token_fits (user : string) (k : keyspace) : Prop :=
  forall s, k !! user = Some (VStr s) -> (String.length s <= 127)%nat.

(** The check of a token. *)
Lemma run_verify_token user tok (Q : Z -> world -> Prop) w : working w -> token_fits user (kv w) ->
  (forall w', frame w w' -> working w' -> w_db w' = w_db w -> kv w' = kv w ->
     (kv w !! user = Some (VStr tok) -> Q 0 w') /\ (kv w !! user <> Some (VStr tok) -> Q (-1) w')) ->
  run true (verify_token user tok) Q w.
Proof.
  intros Hw Hfit HQ. eapply run_mono; [apply (verify_token_spec true); try cfg_key|].
  { intros _. apply Hw. }
  { intros _. apply Hw. }
  { intros _ s Hs. apply fits_lt. specialize (Hfit s Hs). lia. }
  intros ret w' (Hf & Hd & _ & Hk & Hup & Hsound & Hcomp & Hret).
  assert (working w') as Hw' by (apply (working_step w); [done|apply Hf|rewrite Hd; apply Hw|by apply Hup]).
  destruct (HQ w' Hf Hw' Hd Hk) as [H0 H1]. destruct Hret as [-> | ->]; [by apply H0, Hsound|].
  apply H1. intros E. by specialize (Hcomp eq_refl E).
Qed.

Lemma md5_run cfg fmt user tok md5 filename w :
  working w -> upload_ok fmt user tok md5 filename (w_now w) -> token_fits user (kv w) ->
  consistent (tabs w) -> Z.of_nat (length (t_list (tabs w))) < INT_MAX ->
  run true (md5_main cfg (post fmt (md5_doc user tok md5 filename))) (fun _ w' =>
    settled w w' /\ consistent (tabs w') /\ kv w' = kv w /\
    ((kv w !! user = Some (VStr tok) /\ exists ret, upload_outcome user md5 filename (w_now w) (tabs w) (tabs w') ret
        /\ w_out w' = w_out w ++ [header; md5_reply ret]) \/
     (kv w !! user <> Some (VStr tok) /\ tabs w' = tabs w /\ w_out w' = w_out w ++ [header; return_status "111"]))) w.
Proof.
  intros Hw Hk Hfit HT Hlen. unfold md5_main. destruct (md5_doc_wf _ _ _ _ _ _ Hk) as [Hwf _].
  apply run_bind, run_read_post; [exact Hwf|apply Hk|]. set (w1 := set_out _ w).
  assert (working w1) as Hw1 by (by apply (working_step w); [..|apply Hw|apply Hw]).
  apply run_bind. eapply run_get_info; [exact Hk|]. apply run_bind, run_verify_token; [done|done|].
  intros w2 Hf2 Hw2 Hd2 Hk2. change (kv w1) with (kv w) in *.
  assert (tabs w2 = tabs w) as Et2 by (unfold tabs; by rewrite Hd2).
  assert (w_now w2 = w_now w) as En by (by rewrite (fr_now _ _ Hf2)). split; intros Htok; cbn [Z.eqb].
  - destruct (deal_md5_run cfg user md5 filename w2) as (r & w3 & E & Hkp & HT3 & Hkv & Hod & Hor & Ho & Hr);
      rewrite ?Et2, ?En; [apply Hk|apply Hw2|by apply working_accepts|done|done|apply Hk|].
    apply run_bind. unfold run at 1. rewrite E. apply run_ret. specialize (Hkp ltac:(apply Hw2)).
    split; [|split; [done|split; [by rewrite Hkv|]]].
    + split; [by apply (working_kept w2)|by rewrite (kp_now _ _ Hkp)|by rewrite Hod, (fr_open_db _ _ Hf2)|
        by rewrite Hor, (fr_open_redis _ _ Hf2)].
    + left. split; [done|]. exists r. rewrite Et2, En in Hr. split; [exact Hr|].
      rewrite Ho, (fr_out _ _ Hf2). cbn. by rewrite <- app_assoc.
  - apply run_printf. split; [|split; [|split; [exact Hk2|]]].
    + split; [by apply (working_step w2); [..|apply Hw2|apply Hw2]|apply Hf2..].
    + change (tabs (set_out _ w2)) with (tabs w2). by rewrite Et2.
    + right. split; [done|]. split; [exact Et2|]. cbn. rewrite (fr_out _ _ Hf2). cbn. by rewrite <- app_assoc.
Qed.

Lemma quoted_length s : (length (quoted (Some s)) <= 6 * String.length s + 2)%nat.
Proof.
  cbn [quoted length]. rewrite length_app, escape_bind_length, length_bytes_of. cbn [length].
  rewrite <- length_bytes_of. assert (escape_characters (bytes_of s) <= 5 * length (bytes_of s))%nat; [|lia].
  induction (bytes_of s) as [|c l IH]; [done|]. unfold escape_characters in *. cbn.
  assert (escape_count c <= 5)%nat by (unfold escape_count; repeat case_match; lia). lia.
Qed.

(** The token an answer to a login carries, as the client reads it. *)
Definition token_of (answer : string) : option string :=
  root ← cJSON_Parse answer; item ← cJSON_GetObjectItem root "token"; item_valuestring item.

Lemma token_of_answer token : text_ok token -> (String.length token <= 255)%nat ->
  token_of (login_answer true token) = Some token.
Proof.
  intros Ht Hl. unfold token_of, login_answer.
  destruct (text_object_wf [("code", "000"); ("token", token)]%string) as [Hw Hn].
  { repeat apply Forall_cons_2; [..|constructor]; cbn; split; try done; by_decide. }
  change (text_object [("code", "000"); ("token", token)]%string) with (login_status "000" token) in *.
  unfold cJSON_Print. rewrite parse_printed; [done|exact Hw|exact Hn|].
  assert (CJsonPrint.render true 0 (login_status "000" token) = 123 :: [10] ++ ([9] ++ quoted (Some "code"%string) ++
    58 :: [9] ++ quoted (Some "000"%string) ++ [44] ++ [10] ++ ([9] ++ quoted (Some "token"%string) ++ 58 :: [9] ++
    quoted (Some token) ++ [] ++ [10] ++ [])) ++ [] ++ [125]) as -> by reflexivity.
  pose proof (quoted_length token). pose proof (quoted_length "code"). pose proof (quoted_length "000").
  pose proof (quoted_length "token"). unfold INT_MAX. cbn [String.length] in *.
  repeat (rewrite !length_app || cbn [length]). lia.
Qed.

(** a session: on a working installation a registered user who logs in with the
    right password gets answer 000 with a token the client can read, and an
    upload by digest with that token does what the abstract operation says and
    answers it; with any other token it answers 111 and changes nothing. A login
    with wrong credentials answers 001 and stores no token. *)
Theorem session_correct (env : token_env) (cfg : settings) (fmt : bool)
    (user pwd tok md5 filename : string) (w : world)
    (Hw : working w) (Hj : length (md5_junk env) = 64%nat)
    (Hl : login_ok fmt user pwd) (Hu : users_ok (tabs w))
    (HT : consistent (tabs w)) (Hlen : Z.of_nat (length (t_list (tabs w))) < INT_MAX)
    (Hk : upload_ok fmt user tok md5 filename (w_now w)) :
  exists w1, login_main env (post fmt (login_doc user pwd)) w = Ok (tt, w1) /\ tabs w1 = tabs w /\
    ((~ credentials user pwd (tabs w) /\ kv w1 = kv w /\ w_out w1 = w_out w ++ [header; login_answer false ""]) \/
     (credentials user pwd (tabs w) /\ exists answer token w2, w_out w1 = w_out w ++ [header; answer]
      /\ token_of answer = Some token
      /\ md5_main cfg (post fmt (md5_doc user tok md5 filename)) w1 = Ok (tt, w2) /\ consistent (tabs w2)
      /\ if String.eqb tok token
         then exists ret, upload_outcome user md5 filename (w_now w) (tabs w) (tabs w2) ret
           /\ w_out w2 = w_out w1 ++ [header; md5_reply ret]
         else tabs w2 = tabs w /\ w_out w2 = w_out w1 ++ [header; return_status "111"])).
Proof.
  destruct (run_total _ _ _ (login_run env fmt user pwd w Hw Hj Hl Hu)) as ([] & w1 & E1 & [Hw1 En1 _ _] & Et1 & Hc).
  exists w1. split; [done|]. split; [done|]. destruct Hc as [Hc|(Hcr & token & Htl & Htk & Hk1 & Ho1)]; [by left|].
  right. split; [done|]. exists (login_answer true token), token.
  assert (kv w1 !! user = Some (VStr token)) as Hkv by (by rewrite Hk1, lookup_insert_eq).
  pose proof (md5_run cfg fmt user tok md5 filename w1 Hw1) as Hm. rewrite Et1, En1, Hkv in Hm.
  destruct (run_total _ _ _ (Hm Hk ltac:(intros s; rewrite Hkv; intros [= <-]; lia) HT Hlen))
    as ([] & w2 & E2 & _ & HT2 & _ & Hout).
  exists w2. split; [done|]. split; [apply token_of_answer; [done|lia]|]. split; [done|]. split; [done|].
  destruct (String.eqb_spec tok token) as [->|Hne], Hout as [[Ek H]|[Ek H]]; try done; congruence.
Qed.

(** ** The requests for shared files, which carry no token *)

Definition share_doc (user md5 filename : string) : cJSON :=
  text_object [("user", user); ("md5", md5); ("filename", filename)]%string.

(** What such a request can bring. *)
Record share_ok (fmt : bool) (user md5 filename time : string) : Prop := {
  so_args : args_ok user md5 filename time;
  so_user : text_ok user; so_md5 : text_ok md5; so_name : text_ok filename;
  so_lens : (String.length user <= 127 /\ String.length md5 <= 255 /\ String.length filename <= 127)%nat;
  so_fits : fits_request fmt (share_doc user md5 filename)
}.

Lemma share_doc_wf fmt user md5 filename time : share_ok fmt user md5 filename time ->
  well_formed 0 (share_doc user md5 filename) /\ item_string (share_doc user md5 filename) = None.
Proof.
  intros Hk. apply (text_object_wf [("user", user); ("md5", md5); ("filename", filename)]%string).
  repeat apply Forall_cons_2; [..|constructor]; cbn; split; try apply Hk; by_decide.
Qed.

Lemma run_share_info fmt user md5 filename time b (Q : Z * op_bufs -> world -> Prop) w :
  share_ok fmt user md5 filename time -> Q (0, OpBufs (Some user) None (Some md5) (Some filename)) w ->
  run true (share_json_info (printed fmt (share_doc user md5 filename)) b) Q w.
Proof.
  intros Hk HQ. unfold share_json_info. destruct (share_doc_wf _ _ _ _ _ Hk) as [Hw Hn].
  rewrite parse_printed; [|exact Hw|exact Hn|pose proof (so_fits _ _ _ _ _ Hk); unfold fits_request, INT_MAX in *; lia].
  pose proof (so_lens _ _ _ _ _ Hk).
  apply run_bind. eapply run_copy_text; [reflexivity|reflexivity|apply fits_lt; unfold USER_NAME_LEN; lia|].
  apply run_bind. eapply run_copy_text; [reflexivity|reflexivity|apply fits_lt; unfold MD5_LEN; lia|].
  apply run_bind. eapply run_copy_text; [reflexivity|reflexivity|apply fits_lt; unfold FILE_NAME_LEN; lia|].
  by apply run_ret.
Qed.

(** The commands, and what the array [cmd] can hold from an earlier request. *)
Definition commands : list string := ["pv"; "cancel"; "save"]%string.
Definition old_cmds : list (option string) := None :: (Some <$> commands).

Lemma run_cmd c old (Q : option string -> world -> Prop) w : c ∈ commands -> old ∈ old_cmds ->
  Q (Some c) w -> run true (parse_cmd (Some ("cmd=" +:+ c)) old) Q w.
Proof.
  intros Hc Ho HQ. unfold old_cmds, commands in *. cbn in Ho.
  repeat (apply elem_of_cons in Hc as [->|Hc];
    [repeat (apply elem_of_cons in Ho as [->|Ho]; [exact HQ|]); by apply not_elem_of_nil in Ho|]).
  by apply not_elem_of_nil in Hc.
Qed.

(** The operation a command names. *)
Definition share_command (cfg : settings) (c user md5 filename : string) : M Z :=
  if String.eqb c "pv" then share_pv_file cfg md5 filename else
  if String.eqb c "cancel" then cancel_share_file cfg user md5 filename else
  save_file cfg user md5 filename.

(** A turn of cgi_sharefilesop is the operation the command names. *)
Lemma run_share_request cfg old b c fmt user md5 filename (Q : world -> Prop) w :
  c ∈ commands -> old ∈ old_cmds -> share_ok fmt user md5 filename (w_now w) ->
  (let w1 := set_out (w_out w ++ [header]) w in run true (share_command cfg c user md5 filename) (fun _ => Q) w1) ->
  run true (sharefilesop_main cfg old b (Some ("cmd=" +:+ c)) (post fmt (share_doc user md5 filename)))
    (fun r w' => r.1 ∈ old_cmds /\ Q w') w.
Proof.
  intros Hc Ho Hk HQ. destruct (share_doc_wf _ _ _ _ _ Hk) as [Hwf _]. unfold sharefilesop_main.
  apply run_bind, run_cmd; [done..|]. apply run_bind, run_ret.
  apply run_bind, run_read_post; [exact Hwf|apply Hk|].
  apply run_bind. eapply run_share_info; [exact Hk|]. do 3 apply run_bind, run_ret.
  assert (Some c ∈ old_cmds) as Hin by (apply elem_of_cons; right; by apply list_elem_of_fmap_2).
  unfold commands in Hc. unfold share_command in HQ. apply run_bind.
  repeat (apply elem_of_cons in Hc as [->|Hc];
    [cbn [String.eqb Ascii.eqb Bool.eqb] in *; apply run_bind; eapply run_mono; [exact HQ|];
     intros ret w' Hw'; by do 2 apply run_ret|]).
  by apply not_elem_of_nil in Hc.
Qed.

(** Withdrawing a share. *)
Lemma cancel_request cfg old b fmt user md5 filename w z h r0 : old ∈ old_cmds -> working w ->
  share_ok fmt user md5 filename (w_now w) -> consistent (tabs w) -> Z.of_nat (length (t_share (tabs w))) < INT_MAX ->
  zset_at (kv w) FILE_PUBLIC_ZSET = Some z -> is_Some (z !! (md5 +:+ filename)) ->
  hash_at (kv w) FILE_NAME_HASH = Some h -> is_Some (h !! (md5 +:+ filename)) ->
  r0 ∈ t_share (tabs w) -> is_shared_by user md5 filename r0 ->
  run true (sharefilesop_main cfg old b (Some "cmd=cancel") (post fmt (share_doc user md5 filename))) (fun r w' =>
    r.1 ∈ old_cmds /\ settled w w' /\ consistent (tabs w') /\ tabs w' = drop_share user md5 filename (tabs w)
    /\ kv w' = unshare_keys md5 filename z h (kv w) /\ w_out w' = w_out w ++ [header; return_status "018"]) w.
Proof.
  intros Hold Hw Hk HT Hlen Hz Hzm Hh Hhm Hin Hby.
  apply (run_share_request cfg old b "cancel"); [unfold commands; set_solver|done|done|]. intros w1.
  assert (working w1) as Hw1 by (by apply (working_step w); [..|apply Hw|apply Hw]).
  unfold share_command. cbn [String.eqb Ascii.eqb Bool.eqb].
  destruct (cancel_run cfg user md5 filename w1 z h r0) as (w2 & E & Hkp & Ht & HT2 & Hkv & Hod & Hor & Ho);
    [apply Hk|apply Hw1|apply Hw1|apply (wk_link _ Hw1), Hw1|by apply working_accepts|done..|].
  unfold run. rewrite E. split; [split; [by apply (working_kept w1)|by rewrite (kp_now _ _ Hkp)|done|done]|].
  split; [done|]. split; [done|]. split; [done|]. rewrite Ho. cbn. by rewrite <- app_assoc.
Qed.

(** The outcomes of a copy. *)
Definition save_outcome (user md5 filename time : string) (T T' : tables) (answer : string) : Prop :=
  (answer = return_status "021" /\ T' = T /\ (user, md5, filename) ∈ entry <$> t_list T) \/
  (answer = return_status "022" /\ T' = T /\ (user, md5, filename) ∉ entry <$> t_list T /\ md5 ∉ f_md5 <$> t_file T) \/
  (answer = return_status "020" /\ T' = add_reference (new_entry user md5 filename time) T
   /\ (user, md5, filename) ∉ entry <$> t_list T /\ md5 ∈ f_md5 <$> t_file T).

(** Keeping a copy. *)
Lemma save_request cfg old b fmt user md5 filename w : old ∈ old_cmds -> working w ->
  share_ok fmt user md5 filename (w_now w) -> user <> SHARE_COUNT ->
  consistent (tabs w) -> Z.of_nat (length (t_list (tabs w))) < INT_MAX ->
  run true (sharefilesop_main cfg old b (Some "cmd=save") (post fmt (share_doc user md5 filename))) (fun r w' =>
    r.1 ∈ old_cmds /\ settled w w' /\ consistent (tabs w') /\ kv w' = kv w /\ exists answer,
      save_outcome user md5 filename (w_now w) (tabs w) (tabs w') answer /\ w_out w' = w_out w ++ [header; answer]) w.
Proof.
  intros Hold Hw Hk Hu HT Hlen.
  apply (run_share_request cfg old b "save"); [unfold commands; set_solver|done|done|]. intros w1.
  assert (working w1) as Hw1 by (by apply (working_step w); [..|apply Hw|apply Hw]).
  unfold share_command. cbn [String.eqb Ascii.eqb Bool.eqb].
  destruct (save_file_run cfg user md5 filename w1) as (ret & w2 & E & Hkp & HT2 & Hkv & Hod & Hor & Hc);
    [apply Hk|apply Hw1|by apply working_accepts|done..|]. specialize (Hkp ltac:(apply Hw1)).
  unfold run. rewrite E. split; [split; [by apply (working_kept w1)|by rewrite (kp_now _ _ Hkp)|done|done]|].
  split; [done|]. split; [done|]. unfold save_outcome. change (tabs w1) with (tabs w) in *.
  destruct Hc as [(_ & ? & ? & Ho)|[(_ & ? & ? & ? & Ho)|(_ & ? & ? & ? & Ho)]];
    eexists; (split; [|rewrite Ho; cbn; by rewrite <- app_assoc]); [left|right; left|right; right]; done.
Qed.

(** Anyone can withdraw a share: a request to cgi_sharefilesop that names the
    owner of a share and its file, and carries no token, withdraws it. *)
Theorem cancel_without_token (cfg : settings) (b : op_bufs) (fmt : bool)
    (user md5 filename : string) (w : world) (z : gmap string Z) (h : gmap string string) (r0 : share_row)
    (Hw : working w) (Hk : share_ok fmt user md5 filename (w_now w))
    (HT : consistent (tabs w)) (Hlen : Z.of_nat (length (t_share (tabs w))) < INT_MAX)
    (Hz : zset_at (kv w) FILE_PUBLIC_ZSET = Some z) (Hzm : is_Some (z !! (md5 +:+ filename)))
    (Hh : hash_at (kv w) FILE_NAME_HASH = Some h) (Hhm : is_Some (h !! (md5 +:+ filename)))
    (Hin : r0 ∈ t_share (tabs w)) (Hby : is_shared_by user md5 filename r0) :
  exists r w', sharefilesop_main cfg None b (Some "cmd=cancel") (post fmt (share_doc user md5 filename)) w = Ok (r, w')
    /\ tabs w' = drop_share user md5 filename (tabs w) /\ kv w' = unshare_keys md5 filename z h (kv w)
    /\ w_out w' = w_out w ++ [header; return_status "018"].
Proof.
  destruct (run_total _ _ _ (cancel_request cfg None b fmt user md5 filename w z h r0 ltac:(by left)
    Hw Hk HT Hlen Hz Hzm Hh Hhm Hin Hby)) as (r & w' & E & _ & _ & _ & H). by exists r, w'.
Qed.

End Session.
