(* ===== verification/System.v ===== *)
(** The installation as a transition system: the operations of the CGI programs
    on one set of servers, one after the other, against an abstract catalogue. *)

From Stdlib Require Import ZArith Lia Bool Ascii String.
From stdpp Require Import base tactics numbers list strings gmap.
From S2P Require Import Prelude CString CgiUtil Text Double CJson CJsonParse CJsonPrint World MysqlOp.
From S2P Require Import RedisOp Sql Kv CgiCommon Logic Catalogue FastUpload FilesOp Upload ShareOps.

(** The operations that change the catalogue. *)
Inductive operation :=
  | OpDigest (user md5 filename : string)
  | OpStore (user filename md5 : string) (size : Z) (fileid url : string) (junk : list Z)
  | OpDelete (user md5 filename : string)
  | OpShare (user md5 filename : string)
  | OpCancel (user md5 filename : string)
  | OpSave (user md5 filename : string).

(** ** The abstract catalogue *)

(** What an operation may do to the tables. *)
Inductive abstract_step : operation -> tables -> tables -> Prop :=
  | abs_digest u m n t T : m ∈ f_md5 <$> t_file T -> (u, m, n) ∉ entry <$> t_list T ->
      abstract_step (OpDigest u m n) T (add_reference (new_entry u m n t) T)
  | abs_digest_unknown u m n T : m ∉ f_md5 <$> t_file T -> abstract_step (OpDigest u m n) T T
  | abs_digest_owned u m n T : (u, m, n) ∈ entry <$> t_list T -> abstract_step (OpDigest u m n) T T
  | abs_store u n m size id url junk t T : m ∉ f_md5 <$> t_file T ->
      abstract_step (OpStore u n m size id url junk) T
        (add_content (stored_row n m size id url) (new_entry u m n t) T)
  | abs_delete u m n T : (u, m, n) ∈ entry <$> t_list T ->
      abstract_step (OpDelete u m n) T (drop_reference u m n T)
  | abs_share u m n t T : (m, n) ∉ share_key <$> t_share T ->
      abstract_step (OpShare u m n) T (add_share u m n t T)
  | abs_cancel u m n r T : r ∈ t_share T -> is_shared_by u m n r ->
      abstract_step (OpCancel u m n) T (drop_share u m n T)
  | abs_save u m n t T : m ∈ f_md5 <$> t_file T -> (u, m, n) ∉ entry <$> t_list T ->
      abstract_step (OpSave u m n) T (add_reference (new_entry u m n t) T)
  | abs_save_unknown u m n T : m ∉ f_md5 <$> t_file T -> abstract_step (OpSave u m n) T T
  | abs_save_owned u m n T : (u, m, n) ∈ entry <$> t_list T -> abstract_step (OpSave u m n) T T.

Inductive abstract_run : list operation -> tables -> tables -> Prop :=
  | abs_nil T : abstract_run [] T T
  | abs_cons op ops T T1 T2 : abstract_step op T T1 -> abstract_run ops T1 T2 ->
      abstract_run (op :: ops) T T2.

Section System.
Context {SV : Services} {SQ : SqlServer} {RD : RedisServer}.
Variable cfg : settings.

(** ** The programs *)

Definition perform (op : operation) : M Z :=
  match op with
  | OpDigest u m n => deal_md5 cfg u m n
  | OpStore u n m size id url junk => store_fileinfo_to_mysql cfg u n m size id url junk
  | OpDelete u m n => del_file cfg u m n
  | OpShare u m n => share_file cfg u m n
  | OpCancel u m n => cancel_share_file cfg u m n
  | OpSave u m n => save_file cfg u m n
  end.

(** Both servers accept connections and serve. *)
Record available (w : world) : Prop := {
  av_db : serving (w_db w);
  av_redis : answering (w_redis w);
  av_link : redis_connect (w_redis w) (redis_ip cfg) (port_of (redis_port cfg)) = LinkOk;
  av_mysql : mysql_accepts w (mysql_user cfg) (mysql_pwd cfg) (mysql_db cfg) = true
}.

(** The counters stay in the range of [int]. *)
Definition in_range (T : tables) : Prop :=
  Z.of_nat (length (t_list T)) < INT_MAX /\ Z.of_nat (length (t_share T)) < INT_MAX.

(** The requests considered: arguments that fit the statements, and for a
    deletion, a share and a withdrawal the situation the programs assume. *)
Definition allowed (op : operation) (w : world) : Prop :=
  match op with
  | OpDigest u m n | OpSave u m n => args_ok u m n (w_now w) /\ u <> SHARE_COUNT
  | OpStore u n m size id url junk =>
      store_ok u n m size id url w /\ length junk = SUFFIX_LEN /\ u <> SHARE_COUNT
      /\ m ∉ f_md5 <$> t_file (tabs w)
  | OpDelete u m n =>
      args_ok u m n (w_now w) /\ storage_ready w /\ unshared u m n w
      /\ (forall f, f ∈ t_file (tabs w) -> (String.length (f_id f) <= 511)%nat)
      /\ (u, m, n) ∈ entry <$> t_list (tabs w)
  | OpShare u m n =>
      args_ok u m n (w_now w) /\ (m, n) ∉ share_key <$> t_share (tabs w)
      /\ (exists z, zset_at (kv w) FILE_PUBLIC_ZSET = Some z /\ same_scores z = true
            /\ z !! (m +:+ n) = None)
      /\ is_Some (hash_at (kv w) FILE_NAME_HASH)
  | OpCancel u m n =>
      args_ok u m n (w_now w) /\ (exists r, r ∈ t_share (tabs w) /\ is_shared_by u m n r)
      /\ (exists z, zset_at (kv w) FILE_PUBLIC_ZSET = Some z /\ is_Some (z !! (m +:+ n)))
      /\ (exists h, hash_at (kv w) FILE_NAME_HASH = Some h /\ is_Some (h !! (m +:+ n)))
  end.

(** One operation, or anything that touches neither tables nor connections: time
    passes, a program reads, a token is stored. *)
Inductive step : world -> option operation -> world -> Prop :=
  | step_op op ret w w' : available w -> in_range (tabs w) -> allowed op w ->
      perform op w = Ok (ret, w') -> step w (Some op) w'
  | step_idle w w' : tabs w' = tabs w -> w_open_db w' = w_open_db w ->
      w_open_redis w' = w_open_redis w -> step w None w'.

Inductive steps : world -> list operation -> world -> Prop :=
  | steps_nil w : steps w [] w
  | steps_op w op w1 ops w2 : step w (Some op) w1 -> steps w1 ops w2 -> steps w (op :: ops) w2
  | steps_idle w w1 ops w2 : step w None w1 -> steps w1 ops w2 -> steps w ops w2.

(** ** Simulation *)

(** An allowed operation returns, keeps the counters consistent and does one
    abstract step. *)
Lemma perform_ok op w : available w -> in_range (tabs w) -> allowed op w -> consistent (tabs w) ->
  exists ret w', perform op w = Ok (ret, w') /\ consistent (tabs w')
    /\ abstract_step op (tabs w) (tabs w')
    /\ w_open_db w' = w_open_db w /\ w_open_redis w' = w_open_redis w.
Proof.
  intros [Hs Hr Hl Hc] [Hlen Hlen'] Hall HT. destruct op as [u m n|u n m size id url junk|u m n|u m n|u m n|u m n];
    cbn [allowed perform] in *.
  - destruct Hall as [Ha Hu].
    destruct (deal_md5_run cfg u m n w) as (ret & w' & E & _ & HT' & _ & Ho & Hor & _ & Hcase); try done.
    exists ret, w'. split; [done|]. split; [done|]. split; [|done].
    destruct Hcase as [(_ & -> & ?)|[(_ & -> & ?)|(_ & -> & ? & ?)]]; by constructor.
  - destruct Hall as (Hok & Hj & Hu & Hm).
    destruct (store_fileinfo_run cfg u n m size id url junk w) as (w' & E & _ & Ht & HT' & _ & _ & Ho & Hor); try done.
    exists 0, w'. split; [done|]. split; [done|]. split; [|done]. rewrite Ht. by constructor.
  - destruct Hall as (Ha & Hst & Hus & Hid & Hin).
    destruct (del_file_run cfg u m n w) as (w' & E & _ & Ht & HT' & _ & _ & Ho & Hor & _); try done.
    exists 0, w'. split; [done|]. split; [done|]. split; [|done]. rewrite Ht. by constructor.
  - destruct Hall as (Ha & Hno & (z & Hz & Hsc & Hn) & [h Hh]).
    destruct (share_run cfg u m n w z h) as (w' & E & Ht & HT' & _ & Ho & Hor & _); try done.
    exists 0, w'. split; [done|]. split; [done|]. split; [|done]. rewrite Ht. by constructor.
  - destruct Hall as (Ha & (r & Hin & Hby) & (z & Hz & Hzm) & (h & Hh & Hhm)).
    destruct (cancel_run cfg u m n w z h r) as (w' & E & _ & Ht & HT' & _ & Ho & Hor & _); try done.
    exists 0, w'. split; [done|]. split; [done|]. split; [|done]. rewrite Ht. by econstructor.
  - destruct Hall as [Ha Hu].
    destruct (save_file_run cfg u m n w) as (ret & w' & E & _ & HT' & _ & Ho & Hor & Hcase); try done.
    exists ret, w'. split; [done|]. split; [done|]. split; [|done].
    destruct Hcase as [(_ & -> & ? & _)|[(_ & -> & _ & ? & _)|(_ & -> & ? & ? & _)]]; by constructor.
Qed.

(** The steps of a history, one by one. *)
Lemma steps_sound w w' ops : consistent (tabs w) -> steps w ops w' ->
  consistent (tabs w') /\ abstract_run ops (tabs w) (tabs w')
  /\ w_open_db w' = w_open_db w /\ w_open_redis w' = w_open_redis w.
Proof.
  intros HT Hs. induction Hs as [w|w op w1 ops w2 Hs _ IH|w w1 ops w2 Hs _ IH].
  - split; [done|]. split; [constructor|done].
  - inversion Hs as [op' ret w0 w0' Hav Hin Hall E|]; subst.
    destruct (perform_ok op w Hav Hin Hall HT) as (ret' & w1' & E' & HT1 & Ha & Hd & Hr).
    rewrite E in E'. injection E' as <- <-. destruct (IH HT1) as (HT2 & Hrun & Hd2 & Hr2).
    split; [done|]. split; [by econstructor|]. split; congruence.
  - inversion Hs as [|w0 w0' Et Hd Hr]; subst. rewrite Et in IH.
    destruct (IH HT) as (HT2 & Hrun & Hd2 & Hr2). split; [done|]. split; [done|]. split; congruence.
Qed.

Lemma steps_snoc w ops w1 op ret w2 : steps w ops w1 -> available w1 -> in_range (tabs w1) ->
  allowed op w1 -> perform op w1 = Ok (ret, w2) -> steps w (ops ++ [op]) w2.
Proof.
  intros Hs Hav Hin Hall E. induction Hs as [w|w op' w1 ops w2' Hst _ IH|w w1 ops w2' Hst _ IH].
  - eapply steps_op; [by eapply step_op|constructor].
  - eapply steps_op; eauto.
  - eapply steps_idle; eauto.
Qed.

End System.

Section Theorems.
Context {SV : Services} {SQ : SqlServer} {RD : RedisServer}.


(** C7: no operation gets stuck: in every state a history reaches, an allowed
    operation on available servers returns. *)
Theorem history_progress (cfg : settings) (w w1 : world) (ops : list operation) (op : operation)
    (HT : consistent (tabs w)) (Hs : steps cfg w ops w1)
    (Hav : available cfg w1) (Hin : in_range (tabs w1)) (Hall : allowed op w1) :
  exists w2, steps cfg w (ops ++ [op]) w2.
Proof.
  destruct (steps_sound cfg w w1 ops HT Hs) as [HT1 _].
  destruct (perform_ok cfg op w1 Hav Hin Hall HT1) as (ret & w2 & E & _). exists w2.
  by eapply steps_snoc.
Qed.

End Theorems.
