(* ===== verification/Public.v ===== *)
(** The public files as a transition system: sharing, withdrawing, counting
    downloads and listing (src/src/cgi/cgi_filesop.c, cgi_sharefilesop.c and
    cgi_sharefiles.c) on one pair of servers, with the ranking in Redis as a mirror
    of the table of the shares. *)

From Stdlib Require Import ZArith Lia Bool Ascii String.
From stdpp Require Import base tactics numbers list strings gmap sorting.
From S2P Require Import Prelude CString CgiUtil Text Double CJson CJsonParse CJsonPrint CJsonRoundtrip.
From S2P Require Import World MysqlOp RedisOp Sql Kv CgiCommon Logic Catalogue FastUpload FilesOp Files.
From S2P Require Import Upload ShareOps Ranking System.

(** ** The mirror under the changes of the table *)

(** A download is counted. *)
Definition raise_pv (md5 filename : string) (v : Z) (T : tables) : tables :=
  set_share (update (is_shared md5 filename) (share_set_pv v) (t_share T)) T.

Lemma consistent_raise_pv m n v T : consistent T -> consistent (raise_pv m n v T).
Proof.
  intros []. split; try done; cbn [t_share raise_pv set_share t_count].
  - by rewrite update_keys.
  - intros c Hc Ec. unfold update. rewrite length_fmap. auto.
  - intros Hne. apply con_share_counted. intros E. rewrite E in Hne. done.
Qed.

(** The share with a given member, and the others. *)
Lemma pick_share (P : share_row -> Prop) `{forall r, Decision (P r)} L r0 : NoDup (share_id <$> L) -> r0 ∈ L -> P r0 ->
  (forall r, P r -> share_id r = share_id r0) ->
  L ≡ₚ r0 :: filter (fun r => ~ P r) L /\ share_id r0 ∉ share_id <$> filter (fun r => ~ P r) L.
Proof.
  intros Hn Hin H0 HP. assert (forall x, x ∈ L -> P x <-> share_id x = share_id r0) as Hiff.
  { intros x Hx. split; [apply HP|]. intros E.
    assert (x ∈ filter (fun y => share_id y = share_id r0) L) as Hf by (by apply list_elem_of_filter).
    rewrite (filter_unique share_id) in Hf by done. by apply list_elem_of_singleton in Hf as ->. }
  assert (L ≡ₚ r0 :: filter (fun r => ~ P r) L) as HL.
  { rewrite <- (filter_app_complement P L) at 1. rewrite (filter_ext_in P (fun x => share_id x = share_id r0) L Hiff).
    by rewrite (filter_unique share_id). }
  split; [done|]. rewrite HL in Hn. by apply NoDup_cons in Hn as [? _].
Qed.

Section Mirror.
Context {V : Type} (f : share_row -> V).

Lemma index_snoc L r : NoDup (share_id <$> (L ++ [r])) -> index f (L ++ [r]) = <[share_id r := f r]> (index f L).
Proof. intros Hn. apply (index_perm f _ (r :: L)); [done|]. by rewrite Permutation_app_comm. Qed.

Lemma index_drop L u m n r0 : NoDup (share_id <$> L) -> r0 ∈ L -> is_shared_by u m n r0 ->
  index f (filter (fun r => ~ is_shared_by u m n r) L) = delete (m +:+ n) (index f L).
Proof.
  intros Hn Hin H0. destruct (pick_share (is_shared_by u m n) L r0 Hn Hin H0) as [HL Hno].
  { unfold share_id. intros r (_ & -> & ->). by destruct H0 as (_ & <- & <-). }
  assert (m +:+ n = share_id r0) as -> by (by destruct H0 as (_ & <- & <-)).
  rewrite (index_perm f L _ Hn HL). cbn. by rewrite delete_insert_id by (by apply index_none).
Qed.

Lemma index_update L m n r0 g : NoDup (share_id <$> L) -> r0 ∈ L -> is_shared m n r0 ->
  (forall r, share_id (g r) = share_id r) ->
  index f (update (is_shared m n) g L) = <[m +:+ n := f (g r0)]> (index f L).
Proof.
  intros Hn Hin H0 Hg. destruct (pick_share (is_shared m n) L r0 Hn Hin H0) as [HL Hno].
  { unfold share_id. intros r (-> & ->). by destruct H0 as (<- & <-). }
  assert (m +:+ n = share_id r0) as -> by (by destruct H0 as (<- & <-)).
  rewrite (index_perm f L _ Hn HL).
  assert (update (is_shared m n) g L ≡ₚ g r0 :: filter (fun r => ~ is_shared m n r) L) as HU.
  { unfold update at 1. rewrite HL at 1. cbn. rewrite decide_True by done. constructor.
    rewrite <- (list_fmap_id (filter _ L)) at 2. apply reflexive_eq, list_fmap_ext. intros i x Hx%list_elem_of_lookup_2.
    apply list_elem_of_filter in Hx as [Hx _]. by rewrite decide_False. }
  assert (NoDup (share_id <$> update (is_shared m n) g L)) as HnU by (by rewrite update_keys).
  rewrite (index_perm f _ _ HnU HU). cbn. rewrite Hg. by rewrite insert_insert_eq.
Qed.

End Mirror.

Lemma mirrored_share u m n t T k : mirrored T k -> (m +:+ n) ∉ share_id <$> t_share T ->
  mirrored (add_share u m n t T) (share_keys m n (index s_pv (t_share T)) (index s_name (t_share T)) k).
Proof.
  intros [Hn Hz Hh] Hno. unfold share_keys.
  assert (NoDup (share_id <$> (t_share T ++ [ShareRow u m t n 0]))) as Hn'.
  { rewrite Permutation_app_comm. by constructor. }
  split; cbn [t_share add_share]; [done|..].
  - rewrite zset_at_put_hash, zset_at_put by done. by rewrite index_snoc.
  - rewrite hash_at_put. by rewrite index_snoc.
Qed.

Lemma mirrored_cancel u m n r0 T k : mirrored T k -> r0 ∈ t_share T -> is_shared_by u m n r0 ->
  mirrored (drop_share u m n T) (unshare_keys m n (index s_pv (t_share T)) (index s_name (t_share T)) k).
Proof.
  intros [Hn Hz Hh] Hin Hby. unfold unshare_keys. split; cbn [t_share drop_share].
  - by apply NoDup_filter_keys.
  - rewrite zset_at_put_hash, zset_at_put by done. by erewrite index_drop.
  - rewrite hash_at_put. by erewrite index_drop.
Qed.

Lemma mirrored_pv m n v r0 T k : mirrored T k -> r0 ∈ t_share T -> is_shared m n r0 ->
  mirrored (raise_pv m n v T) (put_zset FILE_PUBLIC_ZSET (<[m +:+ n := v]> (index s_pv (t_share T))) k).
Proof.
  intros [Hn Hz Hh] Hin Hsh. split; cbn [t_share raise_pv set_share].
  - by rewrite update_keys.
  - rewrite zset_at_put. by rewrite (index_update s_pv _ m n r0).
  - rewrite hash_at_put_zset by done. rewrite Hh, (index_update s_name _ m n r0) by done. f_equal. symmetry.
    apply insert_id. assert (m +:+ n = share_id r0) as -> by (by destruct Hsh as (<- & <-)). exact (index_lookup s_name _ r0 Hn Hin).
Qed.

Section Downloads.
Context {SV : Services} {SQ : SqlServer} {RD : RedisServer}.

Lemma dec_not_ok n : String.eqb (dec n) "OK" = false.
Proof.
  apply String.eqb_neq. unfold dec. destruct (Z.ltb_spec n 0) as [Hn|Hn]; [done|].
  destruct (digits_head 20 n "" ltac:(lia) Hn) as (d & s & Hd & ->). intros [= Ec _].
  pose proof (char_digit_char d Hd) as Hc. rewrite Ec in Hc. discriminate Hc.
Qed.

(** [rop_zset_increment] compares the new score with [OK]: it reports a failure
    whenever the command succeeds. *)
Lemma run_zset_increment t key member z (Q : Z -> world -> Prop) w :
  zset_at (kv w) key = Some z -> redis_up t w ->
  (forall r, redis_up t (set_redis r w) ->
     keys r = put_zset key (<[member := default 0 (z !! member) + 1]> z) (kv w) -> Q (-1) (set_redis r w)) ->
  run t (rop_zset_increment key member) Q w.
Proof.
  intros Hz Hu HQ. apply (run_redis_reply t (CZincrby key member) check_ok); [done..|].
  intros r Hr Ek. cbn [run_command fst snd] in *. rewrite Hz in *. cbn [fst snd] in *. unfold check_ok. cbn [reply_str].
  rewrite dec_not_ok. apply run_ret. by apply HQ.
Qed.

(** The keys after a download of a share that is in the set, or is not yet. *)
Definition pv_keys (md5 filename : string) (v : Z) (z : gmap string Z) (h : gmap string string)
    (k : keyspace) : keyspace :=
  match z !! (md5 +:+ filename) with
  | Some s => put_zset FILE_PUBLIC_ZSET (<[md5 +:+ filename := s + 1]> z) k
  | None => put_hash FILE_NAME_HASH (<[md5 +:+ filename := filename]> h)
              (put_zset FILE_PUBLIC_ZSET (<[md5 +:+ filename := v]> z) k)
  end.

Lemma share_pv_body_spec user md5 filename w z h r0 :
  args_ok user md5 filename (w_now w) -> up true w -> consistent (tabs w) ->
  zset_at (kv w) FILE_PUBLIC_ZSET = Some z -> same_scores z = true -> hash_at (kv w) FILE_NAME_HASH = Some h ->
  r0 ∈ t_share (tabs w) -> is_shared md5 filename r0 -> 0 <= s_pv r0 < INT_MAX ->
  run true (share_pv_body md5 filename) (fun ret w' => frame w w' /\ up true w' /\
    ret = (if decide (is_Some (z !! (md5 +:+ filename))) then -1 else 0) /\
    tabs w' = raise_pv md5 filename (s_pv r0 + 1) (tabs w) /\
    kv w' = pv_keys md5 filename (s_pv r0 + 1) z h (kv w)) w.
Proof.
  intros Ha [Hu Hr] HT Hz Hsc Hh Hin Hsh Hpv. unfold share_pv_body, INT_MAX in *.
  apply run_bind, run_sprintf; [intros _; apply fits_lt; rewrite length_append; destruct Ha; lia|]. intros _.
  apply run_bind, run_set_names; [done|]. intros db0 Hu0 Hd0. assert (tabs (set_db db0 w) = tabs w) as E0 by exact Hd0.
  apply run_bind. eapply run_sql_one; [safe_stmt|fits_stmt|done|done|done|..]; rewrite ?E0.
  { intros _. apply Forall_fmap, Forall_true. intros r. eexists _, _. split; [done|]. apply fits_dec. lia. }
  { done. }
  { intros db1 _ _ Hno%fmap_nil_inv. destruct (filter_nil_not_elem_of _ _ r0 Hno Hsh Hin). }
  2:{ intros db1 rest _ _ Hx. by apply list_elem_of_fmap in Hx as (r & [=] & _). }
  intros db1 f rest Hu1 Hd1 Hx. apply list_elem_of_fmap in Hx as (r & [= -> ->] & [Hshr Hx]%list_elem_of_filter).
  assert (r ∈ filter (fun y => share_key y = share_key r0) (t_share (tabs w))) as Hf.
  { apply list_elem_of_filter. split; [|done]. unfold share_key. by destruct Hshr as [-> ->], Hsh as [-> ->]. }
  rewrite (filter_unique share_key) in Hf by (done || by apply con_shares). apply list_elem_of_singleton in Hf as ->.
  cbn [Z.eqb negb]. rewrite atoi_dec by (unfold is_int; lia). apply run_bind, run_to_int; [unfold is_int; lia|]. intros Hi.
  apply run_bind. eapply run_sql_do; [safe_stmt|fits_stmt|done|done|]. intros db2 Hu2 Hd2.
  assert (db_tables db2 = raise_pv md5 filename (s_pv r0 + 1) (tabs w)) as E2.
  { rewrite Hd2. change (tabs (set_db db1 _)) with (db_tables db1). by rewrite Hd1. }
  apply run_bind. eapply run_zset_exit; [exact Hz|done|done|]. intros r3 Hr3 Hk3.
  change (kv (set_db _ _)) with (kv w) in Hk3. set (w3 := set_redis r3 _). assert (kv w3 = kv w) as K3 by exact Hk3.
  unfold pv_keys. destruct (z !! (md5 +:+ filename)) as [s|] eqn:Es.
  - change (b2z (bool_decide (is_Some (Some s)))) with 1. cbn [Z.eqb Pos.eqb].
    eapply run_zset_increment; [by rewrite K3|done|]. intros r4 Hr4 Hk4. rewrite Es, K3 in Hk4.
    split; [by destruct w|]. split; [done|]. split; [done|]. split; [exact E2|exact Hk4].
  - change (b2z (bool_decide (is_Some None))) with 0. cbn [Z.eqb]. apply run_bind.
    eapply run_zset_add; [by rewrite K3|done|]. intros _ r4 Hr4 Hk4. rewrite K3 in Hk4. apply run_bind.
    eapply run_hash_set; [change (kv (set_redis r4 w3)) with (keys r4); rewrite Hk4, hash_at_put_zset by done; exact Hh|done|].
    intros _ r5 [[=]|Hk5] Hr5. apply run_ret. change (kv (set_redis r4 w3)) with (keys r4) in Hk5. rewrite Hk4 in Hk5.
    split; [by destruct w|]. split; [done|]. split; [done|]. split; [exact E2|exact Hk5].
Qed.

(** [share_pv_file] on serving servers. *)
Lemma share_pv_run cfg md5 filename w z h r0 :
  args_ok "" md5 filename (w_now w) -> serving (w_db w) -> answering (w_redis w) ->
  redis_connect (w_redis w) (redis_ip cfg) (port_of (redis_port cfg)) = LinkOk ->
  mysql_accepts w (mysql_user cfg) (mysql_pwd cfg) (mysql_db cfg) = true ->
  consistent (tabs w) -> zset_at (kv w) FILE_PUBLIC_ZSET = Some z -> same_scores z = true ->
  hash_at (kv w) FILE_NAME_HASH = Some h ->
  r0 ∈ t_share (tabs w) -> is_shared md5 filename r0 -> 0 <= s_pv r0 < INT_MAX ->
  let ranked := bool_decide (is_Some (z !! (md5 +:+ filename))) in
  exists w', share_pv_file cfg md5 filename w = Ok (if ranked then -1 else 0, w') /\ kept w w'
    /\ tabs w' = raise_pv md5 filename (s_pv r0 + 1) (tabs w) /\ consistent (tabs w')
    /\ kv w' = pv_keys md5 filename (s_pv r0 + 1) z h (kv w)
    /\ w_open_db w' = w_open_db w /\ w_open_redis w' = w_open_redis w
    /\ w_out w' = w_out w ++ [return_status (if ranked then "017" else "016")].
Proof.
  intros Ha Hs Hr Hl Hc HT Hz Hsc Hh Hin Hsh Hpv ranked.
  eassert (run true (share_pv_file cfg md5 filename) _ w) as HR.
  { apply (with_servers_spec _ _ _ (fun ret T k => ret = (if ranked then -1 else 0) /\
      T = raise_pv md5 filename (s_pv r0 + 1) (tabs w) /\ k = pv_keys md5 filename (s_pv r0 + 1) z h (kv w))); [done..|].
    eapply run_mono; [apply (share_pv_body_spec "" md5 filename _ z h r0); try done; split; by intros _|].
    intros ret w' (Hf & Hup & -> & Ht & Hk). split; [done|]. split; [done|]. split; [|done].
    unfold ranked. by destruct (z !! (md5 +:+ filename)). }
  apply run_total in HR as (ret & w' & E & (-> & Ht & Hk) & Ho & Hor & Hkp & Hout). exists w'.
  split; [done|]. split; [done|]. split; [done|]. split; [rewrite Ht; by apply consistent_raise_pv|].
  split; [done|]. split; [done|]. split; [done|]. rewrite Hout. by destruct ranked.
Qed.


End Downloads.

(** ** The downloads of a user's own file *)

Section OwnDownloads.
Context {SV : Services} {SQ : SqlServer}.

(** [pv_file] on a serving database with consistent counters: the entry of the user
    has one download more, nothing else changes and the answer is 016; without an
    entry nothing changes and the answer is 017. *)
Theorem pv_file_correct (cfg : settings) (user md5 filename : string) (w : world)
    (Ha : args_ok user md5 filename (w_now w)) (Hs : serving (w_db w))
    (Hc : mysql_accepts w (mysql_user cfg) (mysql_pwd cfg) (mysql_db cfg) = true)
    (HT : consistent (tabs w))
    (Hpv : forall r, r ∈ t_list (tabs w) -> is_entry user md5 filename r -> 0 <= l_pv r < INT_MAX) :
  exists ret w', pv_file cfg user md5 filename w = Ok (ret, w') /\ w_open_db w' = w_open_db w /\
    ((ret = 0 /\ w_out w' = w_out w ++ [return_status "016"] /\ exists r, r ∈ t_list (tabs w)
        /\ is_entry user md5 filename r
        /\ tabs w' = set_list (update (is_entry user md5 filename) (list_set_pv (l_pv r + 1)) (t_list (tabs w))) (tabs w)) \/
     (ret = -1 /\ w_out w' = w_out w ++ [return_status "017"] /\ tabs w' = tabs w
        /\ (user, md5, filename) ∉ entry <$> t_list (tabs w))).
Proof.
  apply (run_total (pv_file cfg user md5 filename)). unfold pv_file, INT_MAX in *.
  apply run_bind, run_msql_conn; [|congruence]. intros _.
  apply run_bind, run_bind, run_set_names; [by intros _|]. intros db0 Hu0 Hd0.
  assert (tabs (set_db db0 (set_open_db (S (w_open_db w)) w)) = tabs w) as E0 by exact Hd0.
  apply run_bind. eapply run_sql_one; [safe_stmt|fits_stmt|done|done|done|..]; rewrite ?E0.
  - intros _. apply Forall_fmap, Forall_true. intros r. eexists _, _. split; [done|]. apply fits_dec. lia.
  - done.
  - intros db1 Hu1 Hd1 Hno%fmap_nil_inv. apply run_ret, run_bind, run_printf, run_bind, run_mysql_close, run_ret.
    split; [done|]. right. split; [done|]. split; [done|]. split; [exact Hd1|].
    intros (r & [= -> -> ->] & Hr)%list_elem_of_fmap. by apply (filter_nil_not_elem_of _ _ r Hno).
  - intros db1 f rest Hu1 Hd1 Hin. apply list_elem_of_fmap in Hin as (r & [= -> ->] & [He Hin]%list_elem_of_filter).
    pose proof (Hpv r Hin He). cbn [Z.eqb negb]. rewrite atoi_dec by (unfold is_int; lia).
    apply run_bind, run_to_int; [unfold is_int; lia|]. intros Hi.
    apply run_bind. eapply run_sql_do; [safe_stmt|fits_stmt|done|done|]. intros db2 Hu2 Hd2.
    apply run_ret, run_bind, run_printf, run_bind, run_mysql_close, run_ret. split; [done|]. left. split; [done|].
    split; [done|]. exists r. split; [done|]. split; [done|]. change (tabs _) with (db_tables db2) at 1. rewrite Hd2.
    change (tabs (set_db db1 _)) with (db_tables db1). by rewrite Hd1.
  - intros db1 rest _ _ Hin. by apply list_elem_of_fmap in Hin as (r & [=] & _).
Qed.

End OwnDownloads.

(** ** The transition system *)

Inductive public_op :=
  | PubShare (user md5 filename : string)
  | PubCancel (user md5 filename : string)
  | PubDownload (md5 filename : string)
  | PubRank (start count : Z).

(** What an operation does to the list of the shares. *)
Inductive public_abs : public_op -> list share_row -> list share_row -> Prop :=
  | pa_share u m n t L : (m, n) ∉ share_key <$> L ->
      public_abs (PubShare u m n) L (L ++ [ShareRow u m t n 0])
  | pa_cancel u m n r L : r ∈ L -> is_shared_by u m n r ->
      public_abs (PubCancel u m n) L (filter (fun r => ~ is_shared_by u m n r) L)
  | pa_download m n r L : r ∈ L -> is_shared m n r ->
      public_abs (PubDownload m n) L (update (is_shared m n) (share_set_pv (s_pv r + 1)) L)
  | pa_rank start count L : public_abs (PubRank start count) L L.

Inductive public_abs_run : list public_op -> list share_row -> list share_row -> Prop :=
  | par_nil L : public_abs_run [] L L
  | par_cons op ops L L1 L2 : public_abs op L L1 -> public_abs_run ops L1 L2 -> public_abs_run (op :: ops) L L2.

Section Public.
Context {SV : Services} {SQ : SqlServer} {RD : RedisServer} {RR : RedisRanking}.
Variable cfg : settings.

Definition public_perform (op : public_op) : M Z :=
  match op with
  | PubShare u m n => share_file cfg u m n
  | PubCancel u m n => cancel_share_file cfg u m n
  | PubDownload m n => share_pv_file cfg m n
  | PubRank start count => get_ranking_filelist cfg start count
  end.

(** The requests considered: arguments that fit, a new member for a share, a
    recorded share otherwise. Where the programs ask for a member by [ZLEXCOUNT]
    the downloads of all shares are equal, because Redis specifies it for no other
    set. *)
Definition public_ok (op : public_op) (w : world) : Prop :=
  let L := t_share (tabs w) in
  match op with
  | PubShare u m n => args_ok u m n (w_now w) /\ (m +:+ n) ∉ share_id <$> L /\ same_scores (index s_pv L) = true
  | PubCancel u m n => args_ok u m n (w_now w) /\ exists r, r ∈ L /\ is_shared_by u m n r
  | PubDownload m n => args_ok "" m n (w_now w) /\ same_scores (index s_pv L) = true /\
      exists r, r ∈ L /\ is_shared m n r /\ 0 <= s_pv r < INT_MAX
  | PubRank start count => 0 <= start /\ 0 < count /\ start + count <= INT_MAX /\ Forall rank_ok L /\ L <> []
  end.

(** One operation, or anything that leaves the shares, the two keys and the
    connections alone and the counters consistent. *)
Inductive public_steps : world -> list public_op -> world -> Prop :=
  | ps_nil w : public_steps w [] w
  | ps_op op ops ret w w1 w2 : available cfg w -> in_range (tabs w) -> public_ok op w ->
      public_perform op w = Ok (ret, w1) -> public_steps w1 ops w2 -> public_steps w (op :: ops) w2
  | ps_idle ops w w1 w2 : consistent (tabs w1) -> t_share (tabs w1) = t_share (tabs w) ->
      zset_at (kv w1) FILE_PUBLIC_ZSET = zset_at (kv w) FILE_PUBLIC_ZSET ->
      hash_at (kv w1) FILE_NAME_HASH = hash_at (kv w) FILE_NAME_HASH ->
      w_open_db w1 = w_open_db w -> w_open_redis w1 = w_open_redis w ->
      public_steps w1 ops w2 -> public_steps w ops w2.

Lemma mirrored_rankable w : mirrored (tabs w) (kv w) -> Forall rank_ok (t_share (tabs w)) ->
  t_share (tabs w) <> [] -> in_range (tabs w) -> rankable (tabs w) (kv w).
Proof.
  intros Hm Hok Hne [_ Hl]. destruct Hm as [Hn Hz Hh] eqn:E. split; try done. exists (index s_pv (t_share (tabs w))).
  split; [done|]. rewrite index_size by done. split; [unfold INT_MAX in *; lia|]. done.
Qed.

(** An allowed operation returns, keeps the mirror and does one abstract step. *)
Lemma public_perform_ok op w : available cfg w -> in_range (tabs w) -> public_ok op w ->
  consistent (tabs w) -> mirrored (tabs w) (kv w) ->
  exists ret w', public_perform op w = Ok (ret, w') /\ consistent (tabs w') /\ mirrored (tabs w') (kv w')
    /\ public_abs op (t_share (tabs w)) (t_share (tabs w'))
    /\ w_open_db w' = w_open_db w /\ w_open_redis w' = w_open_redis w.
Proof.
  intros [Hs Hr Hl Hc] Hrange Hok HT Hm. pose proof Hm as [Hn Hz Hh]. pose proof Hrange as [_ Hlen].
  destruct op as [u m n|u m n|m n|start count]; cbn [public_ok public_perform] in *.
  - destruct Hok as (Ha & Hno & Hsc). assert ((m, n) ∉ share_key <$> t_share (tabs w)) as Hkey.
    { intros (r & [= -> ->] & Hx)%list_elem_of_fmap. by apply Hno, (list_elem_of_fmap_2 share_id). }
    destruct (share_run cfg u m n w _ _ Ha Hs Hr Hl Hc HT Hlen Hz Hsc (index_none _ _ _ Hno) Hh Hkey)
      as (w' & E & Ht & HT' & Hk & Ho & Hor & _). exists 0, w'. split; [done|]. split; [done|]. rewrite Ht, Hk.
    split; [by apply mirrored_share|]. split; [by constructor|done].
  - destruct Hok as (Ha & r & Hin & Hby).
    assert (m +:+ n = share_id r) as Eid by (by destruct Hby as (_ & <- & <-)).
    destruct (cancel_run cfg u m n w (index s_pv (t_share (tabs w))) (index s_name (t_share (tabs w))) r)
      as (w' & E & _ & Ht & HT' & Hk & Ho & Hor & _); try done; [by rewrite Eid, index_lookup..|].
    exists 0, w'. split; [done|]. split; [done|]. rewrite Ht, Hk. split; [by eapply mirrored_cancel|].
    split; [by econstructor|done].
  - destruct Hok as (Ha & Hsc & r & Hin & Hsh & Hpv).
    assert (m +:+ n = share_id r) as Eid by (by destruct Hsh as (<- & <-)).
    destruct (share_pv_run cfg m n w _ _ r Ha Hs Hr Hl Hc HT Hz Hsc Hh Hin Hsh Hpv)
      as (w' & E & _ & Ht & HT' & Hk & Ho & Hor & _).
    eexists _, w'. split; [exact E|]. split; [done|]. rewrite Ht, Hk. unfold pv_keys.
    rewrite Eid, index_lookup, <- Eid by done. split; [by eapply mirrored_pv|]. split; [by constructor|done].
  - destruct Hok as (H0 & H1 & H2 & Hrows & Hne).
    destruct (run_total _ _ _ (ranking_run cfg start count w H0 H1 H2 Hs Hr Hl Hc HT
      (mirrored_rankable w Hm Hrows Hne Hrange))) as (ret & w' & E & -> & L & _ & _ & _ & _ & Ht & Hm' & _ & Ho & Hor).
    exists 0, w'. split; [done|]. split; [by rewrite Ht|]. split; [done|]. split; [rewrite Ht; constructor|done].
Qed.

Lemma public_steps_sound w ops w' : consistent (tabs w) -> mirrored (tabs w) (kv w) -> public_steps w ops w' ->
  consistent (tabs w') /\ mirrored (tabs w') (kv w') /\ public_abs_run ops (t_share (tabs w)) (t_share (tabs w'))
  /\ w_open_db w' = w_open_db w /\ w_open_redis w' = w_open_redis w.
Proof.
  intros HT Hm Hs. induction Hs as [w|op ops ret w w1 w2 Hav Hin Hok E _ IH|ops w w1 w2 HT1 Es Ez Eh Ed Er _ IH].
  - split; [done|]. split; [done|]. split; [constructor|done].
  - destruct (public_perform_ok op w Hav Hin Hok HT Hm) as (ret' & w1' & E' & HT1 & Hm1 & Ha & Hd & Hr).
    rewrite E in E'. injection E' as <- <-. destruct (IH HT1 Hm1) as (HT2 & Hm2 & Hrun & Hd2 & Hr2).
    split; [done|]. split; [done|]. split; [by econstructor|]. split; congruence.
  - assert (mirrored (tabs w1) (kv w1)) as Hm1 by (destruct Hm; split; rewrite ?Es, ?Ez, ?Eh; done).
    destruct (IH HT1 Hm1) as (HT2 & Hm2 & Hrun & Hd2 & Hr2). rewrite Es in Hrun. split; [done|].
    split; [done|]. split; [done|]. split; congruence.
Qed.


End Public.
