(* ===== verification/Lists.v ===== *)
(** The requests that list files, from the body a client prints to the answer it
    gets: one turn of the loop of cgi_files.c and of cgi_sharefiles.c, and of
    cgi_sharefilesop.c for a download. *)

From Stdlib Require Import ZArith Lia Bool Ascii String.
From stdpp Require Import base tactics numbers list strings gmap sorting.
From S2P Require Import Prelude CString CgiUtil Md5 Des Text Double CJson CJsonParse CJsonPrint CJsonRoundtrip.
From S2P Require Import World MysqlOp RedisOp Sql Kv CgiCommon Logic Catalogue.
From S2P Require Import Login FastUpload FilesOp Files ShareOps Ranking Session System Public.

(** ** Documents *)

Definition files_doc (user token : string) : cJSON := text_object [("user", user); ("token", token)]%string.
Definition range_doc (start count : Z) : cJSON :=
  cJSON_AddNumberToObject (cJSON_AddNumberToObject cJSON_CreateObject "start" start) "count" count.

Lemma range_doc_wf start count : is_int start -> is_int count ->
  well_formed 0 (range_doc start count) /\ item_string (range_doc start count) = None.
Proof.
  intros Hs Hc. split; [|done]. unfold is_int in *.
  change (range_doc start count) with (Item cJSON_Object None 0 dzero None
    [named "start" (cJSON_CreateNumber start); named "count" (cJSON_CreateNumber count)]).
  apply wf_object; [unfold CJSON_NESTING_LIMIT; lia|].
  repeat apply Forall_cons_2; try constructor; try (apply well_formed_named, well_formed_number; lia);
    eexists; rewrite named_item; (split; [done|by_decide]).
Qed.

(** The program reads the numbers of the client. *)
Lemma share_range_doc fmt start count : is_int start -> is_int count -> fits_request fmt (range_doc start count) ->
  share_range (printed fmt (range_doc start count)) = (Some start, Some count).
Proof.
  intros Hs Hc Hf. destruct (range_doc_wf start count Hs Hc) as [Hw Hn]. unfold share_range.
  rewrite parse_printed; [|exact Hw|exact Hn|unfold fits_request, INT_MAX in *; lia].
  unfold range_doc, cJSON_AddNumberToObject, cJSON_CreateNumber. unfold is_int in *.
  rewrite !saturate_int by lia. rewrite !Z.min_r, !Z.max_r by (unfold INT_MAX; lia). reflexivity.
Qed.

(** ** The requests *)

Section Lists.
Context {SV : Services} {SQ : SqlServer} {RD : RedisServer} {PG : SqlPaging} {RR : RedisRanking} {dm : DataModel}.

(** A step that only reads leaves a working installation. *)
Lemma settled_reads w w1 w2 : working w1 -> w_now w1 = w_now w -> w_open_db w1 = w_open_db w ->
  w_open_redis w1 = w_open_redis w -> reads w1 w2 -> settled w w2.
Proof. intros Hw Hn Hd Hr [Hk _ _ Hd' Hr']. split; [by apply (working_kept w1)|by rewrite (kp_now _ _ Hk)|congruence..]. Qed.

(** *** The files of a user *)

Record list_ok (fmt : bool) (user token : string) : Prop := {
  lk_quote : quote_free user = true; lk_user : text_ok user; lk_token : text_ok token;
  lk_lens : (String.length user <= 127 /\ String.length token <= 127)%nat;
  lk_reserved : user <> SHARE_COUNT;
  lk_fits : fits_request fmt (files_doc user token)
}.

Lemma files_doc_wf fmt user token : list_ok fmt user token ->
  well_formed 0 (files_doc user token) /\ item_string (files_doc user token) = None.
Proof.
  intros Hk. apply (text_object_wf [("user", user); ("token", token)]%string).
  repeat apply Forall_cons_2; [..|constructor]; cbn; split; try apply Hk; by_decide.
Qed.

Lemma run_user_info fmt user token b (Q : Z * files_bufs -> world -> Prop) w : list_ok fmt user token ->
  Q (0, FilesBufs (Some user) (Some token)) w ->
  run true (get_user_json_info (printed fmt (files_doc user token)) b) Q w.
Proof.
  intros Hk HQ. unfold get_user_json_info. destruct (files_doc_wf _ _ _ Hk) as [Hw Hn].
  rewrite parse_printed; [|exact Hw|exact Hn|pose proof (lk_fits _ _ _ Hk); unfold fits_request, INT_MAX in *; lia].
  pose proof (lk_lens _ _ _ Hk).
  apply run_bind. eapply run_copy_text; [reflexivity|reflexivity|apply fits_lt; unfold USER_NAME_LEN; lia|].
  apply run_bind. eapply run_copy_text; [reflexivity|reflexivity|apply fits_lt; unfold TOKEN_LEN; lia|].
  by apply run_ret.
Qed.

(** What a user with a token is shown. *)
Definition files_reply (user tok : string) (T : tables) (k : keyspace) (answer : string) : Prop :=
  (k !! user = Some (VStr tok) /\ exists ps, ps ≡ₚ user_files user T /\ answer = files_answer ps) \/
  (k !! user <> Some (VStr tok) /\ answer = return_status "111").

Lemma files_request cfg b fmt user tok w : working w -> list_ok fmt user tok -> token_fits user (kv w) ->
  consistent (tabs w) -> Z.of_nat (length (t_list (tabs w))) < 2 ^ 63 -> Forall row_ok (user_files user (tabs w)) ->
  run true (files_main cfg b (post fmt (files_doc user tok))) (fun _ w' =>
    settled w w' /\ tabs w' = tabs w /\ kv w' = kv w /\ exists answer,
      w_out w' = w_out w ++ [header; answer] /\ files_reply user tok (tabs w) (kv w) answer) w.
Proof.
  intros Hw Hk Hfit HT Hlen Hrows. unfold files_main. destruct (files_doc_wf _ _ _ Hk) as [Hwf _].
  apply run_bind, run_read_post; [exact Hwf|apply Hk|]. set (w1 := set_out _ w).
  assert (working w1) as Hw1 by (by apply (working_step w); [..|apply Hw|apply Hw]).
  apply run_bind. eapply run_user_info; [exact Hk|]. do 2 apply run_bind, run_ret.
  apply run_bind, run_verify_token; [done|done|]. intros w2 Hf2 Hw2 Hd2 Hk2. change (kv w1) with (kv w) in *.
  assert (tabs w2 = tabs w) as Et2 by (unfold tabs; by rewrite Hd2).
  enough (run true (get_user_files_count cfg user;; ret ← verify_token user tok;
    (if ret =? 0 then get_user_filelist cfg user;; mret tt else printf (return_status "111"));;
    mret (FilesBufs (Some user) (Some tok))) (fun _ w' => settled w w' /\ tabs w' = tabs w /\ kv w' = kv w /\ exists answer,
      w_out w' = w_out w ++ [header; answer] /\ files_reply user tok (tabs w) (kv w) answer) w2) as HR by done.
  apply run_bind. pose proof (lk_lens _ _ _ Hk) as [Hlu _].
  eapply run_mono; [apply user_count_run; [apply Hk|lia|apply Hw2|by apply working_accepts|by rewrite Et2..|apply Hk]|].
  intros _ w3 (_ & Ew3 & Hs3 & Et3).
  assert (working w3) as Hw3.
  { apply (working_step w2); [done|by rewrite Ew3|done|rewrite Ew3; apply Hw2]. }
  assert (kv w3 = kv w) as Ek3 by (rewrite <- Hk2; by rewrite Ew3). rewrite Et2 in Et3.
  assert (frame w1 w3) as Hf3 by (destruct Hf2; rewrite Ew3; by split).
  apply run_bind, run_verify_token; [done|by rewrite Ek3|]. intros w4 Hf4 Hw4 Hd4 Hk4. rewrite Ek3 in *.
  assert (tabs w4 = tabs w) as Et4 by (unfold tabs at 1; by rewrite Hd4).
  assert (frame w1 w4) as Hf by (etrans; [exact Hf3|exact Hf4]). clear Hf3 Hf4 Hf2.
  split; intros Htok; cbn [Z.eqb].
  - apply run_bind, run_bind. eapply run_mono; [apply user_filelist_run; [apply Hk|lia|apply Hw4|by apply working_accepts|by rewrite Et4]|].
    intros ret w5 (ps & Hp & _ & Ho & Ew5 & Hs5 & Et5). do 2 apply run_ret. rewrite Et4 in *.
    assert (reads w4 w5) as Hre by (apply reads_db; [done|apply Hw4|done|by rewrite Et5, Et4]).
    split; [apply (settled_reads w w4); [done|apply Hf..|done]|]. split; [done|].
    split; [by rewrite (re_kv _ _ Hre), Hk4|]. eexists. split; [|left; split; [done|by exists ps]].
    rewrite Ho, (fr_out _ _ Hf). cbn. by rewrite <- app_assoc.
  - apply run_bind, run_printf, run_ret. split; [|split; [exact Et4|split; [exact Hk4|]]].
    + split; [by apply (working_step w4); [..|apply Hw4|apply Hw4]|apply Hf..].
    + eexists. split; [|by right]. cbn. rewrite (fr_out _ _ Hf). cbn. by rewrite <- app_assoc.
Qed.

(** *** The shares *)

(** The commands of cgi_sharefiles, and what the array [cmd] can hold from an earlier
    request. *)
Definition list_commands : list string := ["count"; "normal"; "pvdesc"]%string.
Definition old_list_cmds : list (option string) := None :: (Some <$> list_commands).

Lemma run_list_cmd c old (Q : option string -> world -> Prop) w : c ∈ list_commands -> old ∈ old_list_cmds ->
  Q (Some c) w -> run true (parse_cmd (Some ("cmd=" +:+ c)) old) Q w.
Proof.
  intros Hc Ho HQ. unfold old_list_cmds, list_commands in *. cbn in Ho.
  repeat (apply elem_of_cons in Hc as [->|Hc];
    [repeat (apply elem_of_cons in Ho as [->|Ho]; [exact HQ|]); by apply not_elem_of_nil in Ho|]).
  by apply not_elem_of_nil in Hc.
Qed.

Lemma old_list_cmd c : c ∈ list_commands -> Some c ∈ old_list_cmds.
Proof. intros Hc. apply elem_of_cons. right. by apply list_elem_of_fmap_2. Qed.

Lemma count_request cfg old rq w : old ∈ old_list_cmds -> working w -> consistent (tabs w) ->
  Z.of_nat (length (t_share (tabs w))) < 2 ^ 63 ->
  run true (sharefiles_main cfg old (Some "cmd=count") rq) (fun cmd w' =>
    cmd ∈ old_list_cmds /\ settled w w' /\ tabs w' = tabs w /\ kv w' = kv w /\
    w_out w' = w_out w ++ [header; dec (Z.of_nat (length (t_share (tabs w))))]) w.
Proof.
  intros Hold Hw HT Hlen. unfold sharefiles_main.
  apply run_bind, (run_list_cmd "count"); [unfold list_commands; set_solver|done|]. apply run_bind, run_ret.
  cbn [String.eqb Ascii.eqb Bool.eqb]. apply run_bind, run_printf. fold header. set (w1 := set_out _ w).
  assert (working w1) as Hw1 by (by apply (working_step w); [..|apply Hw|apply Hw]).
  apply run_bind. eapply run_mono; [apply share_count_run; [apply Hw1|done|done|by apply working_accepts]|].
  intros [] w2 (Ho & Ew & Hs & Ht). apply run_ret. change (tabs w1) with (tabs w) in *.
  assert (reads w1 w2) as Hre by (apply reads_db; [done|apply Hw1|done|done]).
  split; [apply old_list_cmd; unfold list_commands; set_solver|].
  split; [by apply (settled_reads w w1)|]. split; [done|]. split; [apply Hre|]. rewrite Ho. cbn. by rewrite <- app_assoc.
Qed.

(** The range of a page that a client can ask for. *)
Record range_ok (fmt : bool) (start count : Z) : Prop := {
  ra_start : 0 <= start; ra_count : 0 < count; ra_end : start + count <= INT_MAX;
  ra_fits : fits_request fmt (range_doc start count)
}.

Lemma range_ints fmt start count : range_ok fmt start count -> is_int start /\ is_int count.
Proof. intros [H0 H1 H2 _]. unfold is_int, INT_MAX in *. lia. Qed.

(** The turn up to the list a command names. *)
Lemma run_range_request cfg old c fmt start count (Q : world -> Prop) w :
  c ∈ ["normal"; "pvdesc"]%string -> old ∈ old_list_cmds -> range_ok fmt start count ->
  (let w1 := set_out (w_out w ++ [header]) w in
   run true (if String.eqb c "normal" then get_share_filelist cfg start count else get_ranking_filelist cfg start count)
     (fun _ => Q) w1) ->
  run true (sharefiles_main cfg old (Some ("cmd=" +:+ c)) (post fmt (range_doc start count)))
    (fun cmd w' => cmd ∈ old_list_cmds /\ Q w') w.
Proof.
  intros Hc Hold Hra HQ. destruct (range_ints _ _ _ Hra) as [Hi Hj]. destruct (range_doc_wf _ _ Hi Hj) as [Hwf _].
  assert (c ∈ list_commands) as Hc' by (unfold list_commands; set_solver). unfold sharefiles_main.
  apply run_bind, run_list_cmd; [done|done|]. apply run_bind, run_ret.
  assert (String.eqb c "count" = false) as -> by (apply String.eqb_neq; set_solver).
  apply run_bind, run_read_post; [exact Hwf|apply Hra|]. rewrite share_range_doc by (done || apply Hra).
  apply old_list_cmd in Hc'. apply run_bind.
  repeat (apply elem_of_cons in Hc as [->|Hc];
    [cbn [String.eqb Ascii.eqb Bool.eqb] in *; apply run_bind; eapply run_mono; [exact HQ|];
     intros ret w' Hw'; by do 2 apply run_ret|]).
  by apply not_elem_of_nil in Hc.
Qed.

Lemma shares_request cfg old fmt start count w : old ∈ old_list_cmds -> working w -> range_ok fmt start count ->
  Forall share_row_ok (shared_files (tabs w)) ->
  run true (sharefiles_main cfg old (Some "cmd=normal") (post fmt (range_doc start count))) (fun cmd w' =>
    cmd ∈ old_list_cmds /\ settled w w' /\ tabs w' = tabs w /\ kv w' = kv w /\ exists ps, ps ≡ₚ shared_files (tabs w) /\
    w_out w' = w_out w ++ [header; shares_answer (page start count ps)]) w.
Proof.
  intros Hold Hw Hra Hrows. apply (run_range_request cfg old "normal"); [set_solver|done|done|]. intros w1.
  assert (working w1) as Hw1 by (by apply (working_step w); [..|apply Hw|apply Hw]).
  destruct (range_ints _ _ _ Hra) as [Hi Hj]. pose proof (ra_start _ _ _ Hra). pose proof (ra_count _ _ _ Hra).
  cbn [String.eqb Ascii.eqb Bool.eqb].
  eapply run_mono; [apply share_filelist_run; [done|done|done|lia|apply Hw1|by apply working_accepts|done]|].
  intros ret w2 (ps & Hp & _ & Ho & Ew & Hs & Ht). change (tabs w1) with (tabs w) in *.
  assert (reads w1 w2) as Hre by (apply reads_db; [done|apply Hw1|done|done]).
  split; [by apply (settled_reads w w1)|]. split; [done|]. split; [apply Hre|]. exists ps. split; [done|].
  rewrite Ho. cbn. by rewrite <- app_assoc.
Qed.

(** What the ranking shows. *)
Definition rank_answer (l : list share_row) : string := cJSON_Print (files_document (rank_object <$> l)).

Lemma ranking_request cfg old fmt start count w : old ∈ old_list_cmds -> working w -> range_ok fmt start count ->
  consistent (tabs w) -> rankable (tabs w) (kv w) ->
  run true (sharefiles_main cfg old (Some "cmd=pvdesc") (post fmt (range_doc start count))) (fun cmd w' =>
    cmd ∈ old_list_cmds /\ settled w w' /\ tabs w' = tabs w /\ mirrored (tabs w) (kv w') /\
    other_keys (kv w) (kv w') /\ exists L, L ≡ₚ t_share (tabs w) /\ Sorted by_pv L /\
    w_out w' = w_out w ++ [header; rank_answer (page start count L)]) w.
Proof.
  intros Hold Hw Hra HT Hrk. apply (run_range_request cfg old "pvdesc"); [set_solver|done|done|]. intros w1.
  assert (working w1) as Hw1 by (by apply (working_step w); [..|apply Hw|apply Hw]).
  cbn [String.eqb Ascii.eqb Bool.eqb].
  eapply run_mono; [apply ranking_run; [apply Hra..|apply Hw1|apply Hw1|apply (wk_link _ Hw1), Hw1|by apply working_accepts|done|done]|].
  intros ret w2 (_ & L & HL & HS & Ho & Hkp & Ht & Hm & Hk & Hd & Hr). rewrite Ht in Hm. change (tabs w1) with (tabs w) in *.
  split; [split; [by apply (working_kept w1)|apply Hkp|done|done]|]. split; [done|]. split; [done|].
  split; [exact Hk|]. exists L. split; [done|]. split; [done|]. rewrite Ho. cbn. by rewrite <- app_assoc.
Qed.

(** *** A download of a share *)

Lemma download_request cfg old b fmt user md5 filename w z h r0 : old ∈ old_cmds -> working w ->
  share_ok fmt user md5 filename (w_now w) -> consistent (tabs w) ->
  zset_at (kv w) FILE_PUBLIC_ZSET = Some z -> same_scores z = true -> hash_at (kv w) FILE_NAME_HASH = Some h ->
  r0 ∈ t_share (tabs w) -> is_shared md5 filename r0 -> 0 <= s_pv r0 < INT_MAX ->
  run true (sharefilesop_main cfg old b (Some "cmd=pv") (post fmt (share_doc user md5 filename))) (fun r w' =>
    r.1 ∈ old_cmds /\ settled w w' /\ consistent (tabs w') /\ tabs w' = raise_pv md5 filename (s_pv r0 + 1) (tabs w)
    /\ kv w' = pv_keys md5 filename (s_pv r0 + 1) z h (kv w)
    /\ w_out w' = w_out w ++ [header; return_status (if bool_decide (is_Some (z !! (md5 +:+ filename))) then "017" else "016")]) w.
Proof.
  intros Hold Hw Hk HT Hz Hsc Hh Hin Hsh Hpv.
  apply (run_share_request cfg old b "pv"); [unfold commands; set_solver|done|done|]. intros w1.
  assert (working w1) as Hw1 by (by apply (working_step w); [..|apply Hw|apply Hw]).
  assert (args_ok "" md5 filename (w_now w1)) as Ha by (destruct Hk as [[] _ _ _ _ _]; split; try done; cbn in *; lia).
  unfold share_command. cbn [String.eqb Ascii.eqb Bool.eqb].
  destruct (share_pv_run cfg md5 filename w1 z h r0) as (w2 & E & Hkp & Ht & HT2 & Hkv & Hod & Hor & Ho);
    [done|apply Hw1|apply Hw1|apply (wk_link _ Hw1), Hw1|by apply working_accepts|done..|].
  unfold run. rewrite E. split; [split; [by apply (working_kept w1)|by rewrite (kp_now _ _ Hkp)|done|done]|].
  split; [done|]. split; [done|]. split; [done|]. rewrite Ho. cbn. by rewrite <- app_assoc.
Qed.

End Lists.
