(* ===== verification/UploadMain.v ===== *)
(** The whole of an upload (src/src/cgi/cgi_upload.c): from the body of a request
    to the stored file, its record and the answer. *)

From Stdlib Require Import ZArith Lia Bool Ascii String.
From stdpp Require Import base tactics numbers list strings gmap.
From S2P Require Import Prelude CString CgiUtil Text Double CJson CJsonParse CJsonPrint CJsonRoundtrip World.
From S2P Require Import MysqlOp RedisOp Sql Kv CgiCommon Logic Catalogue Login Upload Session.

(** ** Searching and trimming what a tool printed *)

Lemma bytes_of_append s s' : bytes_of (s +:+ s') = bytes_of s ++ bytes_of s'.
Proof.
  induction s as [|c s IH]; [done|].
  change (bytes_of (String c s +:+ s')) with (Z.of_N (N_of_ascii c) :: bytes_of (s +:+ s')). by rewrite IH.
Qed.

Lemma scan_found pat pre rest pos : nonul pre ->
  (forall j, (j < length pre)%nat -> starts_with pat (drop j (pre ++ pat ++ rest)) = false) -> pat <> [] ->
  scan (pre ++ pat ++ rest) pat pos = Ok (Some (pos + length pre)%nat).
Proof.
  intros Hn. revert pos. induction Hn as [|c pre Hc _ IH]; intros pos Hj Hp.
  - destruct pat as [|a pat]; [done|]. cbn [app scan length].
    rewrite (proj2 (starts_with_spec _ _)) by (exists rest; done). by rewrite Nat.add_0_r.
  - cbn [app scan length]. pose proof (Hj 0%nat ltac:(cbn; lia)) as H0. cbn [drop app] in H0. rewrite H0.
    rewrite (proj2 (Z.eqb_neq c 0) Hc), IH; [do 2 f_equal; lia| |done].
    intros j Hlt. exact (Hj (S j) ltac:(cbn; lia)).
Qed.

Lemma drop_space_head c s : isspace c = false -> drop_space (c :: s) = c :: s.
Proof. intros E. cbn. by rewrite E. Qed.

Lemma trim_line s : s <> [] -> Forall (fun c => isspace c = false) s -> trim (s ++ [10]) = s.
Proof.
  intros Hne Hs. unfold trim. destruct s as [|c s]; [done|].
  cbn [app]. rewrite drop_space_head by (by apply Forall_cons in Hs as [? _]).
  change (c :: s ++ [10]) with ((c :: s) ++ [10]). rewrite rev_app_distr. cbn [rev app drop_space isspace].
  change (isspace 10) with true. cbv iota.
  destruct (rev s ++ [c]) as [|x l] eqn:E; [by destruct (rev s)|].
  assert (isspace x = false) as Hx.
  { rewrite Forall_forall in Hs. apply Hs. apply list_elem_of_In, in_rev. cbn. rewrite E. by left. }
  rewrite drop_space_head by done. rewrite <- E. by rewrite rev_app_distr, rev_involutive.
Qed.

(** ** The request *)

(** A form as a browser sends it. *)
Record form := Form {
  fm_boundary : list Z; fm_hdr1 : list Z; fm_hdr2 : list Z; fm_hdr3 : list Z;
  fm_user : list Z; fm_filename : list Z; fm_md5 : list Z; fm_size : list Z;
  fm_data : list Z; fm_tail : list Z }.

Definition form_info (f : form) : list Z := info_line (fm_user f) (fm_filename f) (fm_md5 f) (fm_size f).
Definition form_body (f : form) : list Z :=
  multipart (fm_boundary f) (fm_hdr1 f) (form_info f) (fm_hdr2 f) (fm_hdr3 f) (fm_data f) (fm_tail f).
Definition form_request (f : form) : request :=
  Request (Some (dec (Z.of_nat (length (form_body f))))) (text_of (form_body f)).

(** Lines that end where they should, fields without bars that fit their arrays,
    and data in which the boundary does not occur. *)
Record form_ok (f : form) : Prop := {
  fo_lines : Forall plain [fm_boundary f; fm_hdr1 f; fm_hdr2 f; fm_hdr3 f; form_info f];
  fo_boundary : fm_boundary f <> [];
  fo_tokens : Forall token [fm_user f; fm_filename f; fm_md5 f; fm_size f];
  fo_lens : (length (fm_user f) < USER_NAME_LEN /\ length (fm_filename f) < FILE_NAME_LEN
             /\ length (fm_md5 f) < MD5_LEN /\ length (fm_size f) < 128)%nat;
  fo_texts : (length (fm_boundary f) < TEMP_BUF_MAX_LEN /\ length (fm_hdr1 f) < TEMP_BUF_MAX_LEN
              /\ length (form_info f) < TEMP_BUF_MAX_LEN)%nat;
  fo_data : strstr (fm_data f ++ CRLF ++ fm_boundary f ++ fm_tail f) (fm_boundary f)
            = Some (length (fm_data f) + 2)%nat;
  fo_bytes : Forall is_byte (form_body f);
  fo_size : Z.of_nat (length (form_body f)) < 2 ^ 63
}.

Lemma parse_form f : form_ok f -> parse_body (form_body f) =
  Ok (Some (UploadInfo (fm_user f) (fm_filename f) (fm_md5 f) (fm_size f) (fm_data f))).
Proof.
  intros [Hl Hb Ht (? & ? & ? & ?) (? & ? & ?) Hd _ _].
  repeat (apply Forall_cons in Hl as [? Hl]). repeat (apply Forall_cons in Ht as [? Ht]).
  by apply parse_multipart.
Qed.

Lemma form_positive f : form_ok f -> (0 < length (form_body f))%nat.
Proof. intros H. destruct f as [[|c b] ? ? ? ? ? ? ? ? ?]; [by destruct (fo_boundary _ H)|]. cbn. lia. Qed.

Section Upload.
Context {SV : Services} {SQ : SqlServer} {RD : RedisServer}.

(** Receiving a form: the data is in the file of the name the client sent. *)
Lemma run_recv_save f junk (Q : Z * string * string * string -> world -> Prop) w : form_ok f ->
  Q (0, text_of (fm_user f), text_of (fm_filename f), text_of (fm_md5 f))
    (set_fs (<[text_of (fm_filename f) := text_of (fm_data f)]> (w_fs w)) w) ->
  run true (recv_save_file true true (Z.of_nat (length (form_body f))) (bytes_of (stdin (form_request f))) junk) Q w.
Proof.
  intros Hf HQ. pose proof (form_positive f Hf). unfold recv_save_file. cbn [negb form_request stdin].
  rewrite bytes_of_text by apply Hf. rewrite Nat2Z.id, (take_ge (form_body f)) by lia.
  rewrite (proj2 (Nat.eqb_neq _ 0)) by lia. rewrite take_app_length.
  apply run_bind, run_lift; rewrite parse_form by done; [eauto|]. intros ? [= <-]. cbn [up_user up_filename up_md5 up_data].
  apply run_bind. unfold run at 1, write_file. by apply run_ret.
Qed.

(** ** The storage *)

(** The tools of FastDFS as they are documented: [fdfs_upload_file] prints the
    identifier of the stored file on a line, [fdfs_file_info] prints lines of
    which one gives the address of the storage server. *)
Record tools_ok (filename fileid host : string) : Prop := {
  to_spawn : forall s, spawn_ok s = true;
  to_upload : forall s conf, (run_tool s ["fdfs_upload_file"; conf; filename]%string).2 = fileid +:+ newline;
  to_info : exists pre post,
    (forall s conf, (run_tool s ["fdfs_file_info"; conf; fileid]%string).2
                    = pre +:+ SOURCE_IP +:+ host +:+ newline +:+ post) /\
    nonul (bytes_of pre) /\
    strstr (bytes_of (pre +:+ SOURCE_IP +:+ host +:+ newline +:+ post)) (bytes_of SOURCE_IP)
      = Some (String.length pre) /\
    (String.length (pre +:+ SOURCE_IP +:+ host +:+ newline +:+ post) < TEMP_BUF_MAX_LEN)%nat;
  to_fileid : Forall (fun c => isspace c = false /\ c <> 0) (bytes_of fileid);
  to_fileid_len : (0 < String.length fileid < TEMP_BUF_MAX_LEN - 1)%nat;
  to_host : Forall (fun c => c <> 10 /\ c <> 0) (bytes_of host);
  to_host_len : (String.length host < HOST_NAME_LEN)%nat
}.

(** What a [read] leaves in a zeroed array. *)
Lemma read_into out : (String.length out < TEMP_BUF_MAX_LEN)%nat ->
  memcpy (replicate TEMP_BUF_MAX_LEN 0) 0 (take TEMP_BUF_MAX_LEN (bytes_of out)) =
  Ok (bytes_of out ++ 0 :: replicate (TEMP_BUF_MAX_LEN - 1 - String.length out) 0).
Proof.
  intros Hl. rewrite take_ge by (rewrite length_bytes_of; lia).
  rewrite memcpy_0 by (rewrite length_replicate, length_bytes_of; lia).
  rewrite drop_replicate, length_bytes_of. do 2 f_equal.
  by replace (TEMP_BUF_MAX_LEN - String.length out)%nat with (S (TEMP_BUF_MAX_LEN - 1 - String.length out)) by lia.
Qed.

Lemma run_pipe argv (Q : option string -> world -> Prop) w : (forall s, spawn_ok s = true) ->
  (forall s, Q (Some (run_tool (w_sys w) argv).2) (set_sys s w)) -> run true (pipe_from argv) Q w.
Proof.
  intros Hs HQ. unfold run, pipe_from. rewrite Hs. cbn [negb].
  specialize (HQ (run_tool (w_sys w) argv).1). by destruct (run_tool (w_sys w) argv) as [s out].
Qed.

Lemma run_lift_ok {A} (m : outcome A) a (Q : A -> world -> Prop) w : m = Ok a -> Q a w -> run true (lift m) Q w.
Proof. intros E HQ. apply run_lift; rewrite E; [eauto|]. by intros ? [= <-]. Qed.

(** Storing the file: the identifier, as the tool printed it. *)
Lemma run_to_storage filename fileid host (Q : Z * string -> world -> Prop) w :
  tools_ok filename fileid host -> cfg_ready true w 256 "dfs_path" "client" ->
  (forall s, Q (0, fileid) (set_sys s w)) -> run true (upload_to_dstorage filename) Q w.
Proof.
  intros [Hsp Hup _ Hid Hlen _ _] Hc HQ. unfold upload_to_dstorage.
  apply run_bind, run_cfg_value; [lia|done|]. intros [r conf] _ _.
  apply run_bind, run_pipe; [done|]. intros s. rewrite Hup.
  assert (bytes_of (fileid +:+ newline) = bytes_of fileid ++ [10]) as Eb by apply bytes_of_append.
  assert (bytes_of fileid <> []) as Hne.
  { intros E. apply (f_equal length) in E. rewrite length_bytes_of in E. cbn in E. lia. }
  assert (nonul (bytes_of fileid)) as Hnn by (eapply Forall_impl; [exact Hid|]; by intros x [_ ?]).
  assert (trim (bytes_of fileid ++ [10]) = bytes_of fileid) as Et.
  { apply trim_line; [done|]. eapply Forall_impl; [exact Hid|]. by intros x [? _]. }
  assert (nonul (bytes_of fileid ++ [10])) as Hnn' by (apply Forall_app_2; [done|by repeat constructor]).
  apply run_bind. eapply run_lift_ok; [apply read_into; rewrite length_append; cbn [String.length newline]; lia|].
  apply run_bind. eapply run_lift_ok; [rewrite Eb; apply trim_space_correct; [exact Hnn'|by destruct (bytes_of fileid)]|].
  rewrite Et. apply run_bind. eapply run_lift_ok; [by apply text_app|]. apply run_ret.
  rewrite (proj2 (Nat.eqb_neq _ 0)) by (rewrite length_bytes_of; lia). rewrite text_of_bytes. apply HQ.
Qed.

(** The first occurrence of a text in an array, behind which there are only zeros. *)
Lemma strstr_in pre pat rest buf pos : nonul pre -> pat <> [] ->
  strstr (pre ++ pat ++ rest) pat = Some (length pre) -> drop pos buf = pre ++ pat ++ rest ->
  strstr_unchecked buf pos pat = Ok (pos + length pre)%nat.
Proof.
  intros Hn Hp Hs Hd. unfold strstr_unchecked, strstr_at. rewrite Hd.
  apply strstr_spec in Hs as (_ & _ & Hj). by rewrite scan_found.
Qed.

Lemma strstr_extend s pat rest k : strstr s pat = Some k -> strstr (s ++ rest) pat = Some k.
Proof.
  revert k. induction s as [|c s IH]; intros k; cbn [strstr app].
  - destruct (starts_with pat []) eqn:E; [|done]. intros [= <-].
    apply starts_with_spec in E as [r E]. destruct pat; [|done]. by destruct rest.
  - destruct (starts_with pat (c :: s)) eqn:E.
    + apply starts_with_spec in E as [r E]. change (c :: s ++ rest) with ((c :: s) ++ rest).
      rewrite E, <- app_assoc. by rewrite (proj2 (starts_with_spec _ _)) by eauto.
    + destruct (strstr s pat) as [j|] eqn:Ej; [|done]. intros [= <-].
      assert (starts_with pat (c :: s ++ rest) = false) as ->; [|by rewrite (IH j)].
      apply strstr_spec in Ej as ([r Hr] & Hj & _). apply not_true_is_false. intros [r' E']%starts_with_spec.
      apply not_true_iff_false in E. apply E, starts_with_spec.
      assert (length pat <= length (c :: s))%nat as Hl.
      { apply (f_equal length) in Hr. rewrite length_drop, length_app in Hr. cbn. lia. }
      exists (drop (length pat) (c :: s)). rewrite <- (take_drop (length pat) (c :: s)) at 1. f_equal.
      apply (f_equal (take (length pat))) in E'. rewrite take_app_length in E'.
      change (c :: s ++ rest) with ((c :: s) ++ rest) in E'. rewrite take_app_le in E' by lia. done.
Qed.

(** The URL: the address the tool printed, the configured port, the identifier. *)
Definition file_url (host port fileid : string) : string :=
  "http://" +:+ host +:+ ":" +:+ port +:+ "/" +:+ fileid.

Lemma run_make_url filename fileid host port (Q : Z * string -> world -> Prop) w :
  tools_ok filename fileid host -> cfg_ready true w 256 "dfs_path" "client" ->
  (forall s, cfg_value 20 "storage_web_server" "port" (set_sys s w) = Ok ((0, port), set_sys s w)) ->
  fits FILE_URL_LEN (file_url host port fileid) = true ->
  (forall s, Q (0, file_url host port fileid) (set_sys s w)) -> run true (make_file_url fileid) Q w.
Proof.
  intros [Hsp _ (pre & post & Hinfo & Hpre & Hfirst & Hlen) _ _ Hh Hhl] Hc Hport Hfit HQ. unfold make_file_url.
  apply run_bind, run_cfg_value; [lia|done|]. intros [r conf] _ _.
  apply run_bind, run_pipe; [done|]. intros s. rewrite Hinfo. set (out := pre +:+ _) in *.
  set (zeros := 0 :: replicate (TEMP_BUF_MAX_LEN - 1 - String.length out) 0).
  assert (bytes_of out ++ zeros = bytes_of pre ++ bytes_of SOURCE_IP ++ bytes_of host ++ [10] ++ bytes_of post ++ zeros) as Eb.
  { unfold out. rewrite !bytes_of_append, <- !app_assoc. done. }
  apply run_bind. eapply run_lift_ok; [by apply read_into|]. fold zeros. apply run_bind.
  eapply run_lift_ok.
  { apply (strstr_in (bytes_of pre) _ (bytes_of host ++ [10] ++ bytes_of post ++ zeros)); [done|done| |exact Eb].
    rewrite <- Eb, length_bytes_of. by apply strstr_extend. }
  rewrite length_bytes_of. cbn [Nat.add].
  assert (drop (String.length pre + String.length SOURCE_IP) (bytes_of out ++ zeros) =
    bytes_of host ++ [10] ++ bytes_of post ++ zeros) as Ed.
  { rewrite Eb, <- (length_bytes_of pre), <- (length_bytes_of SOURCE_IP), drop_app_add, drop_app_length. done. }
  apply run_bind. eapply run_lift_ok.
  { apply (strstr_in (bytes_of host) [10] (bytes_of post ++ zeros)); [|done| |exact Ed].
    - eapply Forall_impl; [exact Hh|]. by intros x [_ ?].
    - apply strstr_spec. split; [|split; [rewrite length_app; lia|]].
      + exists (bytes_of post ++ zeros). by rewrite drop_app_length.
      + intros j Hj. apply not_true_is_false. intros [r' E]%starts_with_spec.
        rewrite drop_app_le in E by lia. destruct (drop j (bytes_of host)) as [|x l] eqn:Ej.
        { apply (f_equal length) in Ej. rewrite length_drop in Ej. cbn in Ej. lia. }
        injection E as Ex _. rewrite Forall_forall in Hh. destruct (Hh x) as [Hne _]; [|done].
        apply list_elem_of_lookup. exists j. rewrite <- (Nat.add_0_r j), <- lookup_drop, Ej. done. }
  apply run_bind. eapply run_lift_ok.
  { apply slice_ok; [|rewrite length_bytes_of; exact Hhl].
    rewrite Ed. replace (_ + length (bytes_of host) - _)%nat with (length (bytes_of host)) by lia.
    by rewrite take_app_length. }
  apply run_bind. unfold run at 1. rewrite Hport. rewrite text_of_bytes.
  apply run_bind, run_sprintf; [done|]. intros _. apply run_ret. apply HQ.
Qed.

(** ** The whole request *)

Lemma cfg_other_file cap title key w x path content : path <> CFG_PATH -> cfg_value cap title key w = Ok (x, w) ->
  forall w', w_fs w' = <[path := content]> (w_fs w) \/ w_fs w' = delete path (w_fs w) \/
             w_fs w' = delete path (<[path := content]> (w_fs w)) -> cfg_value cap title key w' = Ok (x, w').
Proof.
  intros Hne. rewrite cfg_value_eq. intros E w' Hfs. rewrite cfg_value_eq.
  assert (cfg_source (w_fs w') title key = cfg_source (w_fs w) title key) as ->.
  { unfold cfg_source. f_equal. by destruct Hfs as [-> | [-> | ->]]; rewrite ?lookup_delete_ne, ?lookup_insert_ne. }
  destruct (cfg_source _ _ _) as [[v|]|]; [|done|by injection E as <-].
  destruct (fits cap v); [|done]. by injection E as <-.
Qed.

(** An upload, with what it leaves of the rest of the installation. *)
Lemma upload_main_run (cfg : settings) (env : upload_env) (f : form) (fileid host port : string) (w : world) :
  let user := text_of (fm_user f) in let filename := text_of (fm_filename f) in let md5 := text_of (fm_md5 f) in
  let url := file_url host port fileid in
  form_ok f -> ue_malloc_ok env = true -> ue_open_ok env = true -> length (ue_suffix env) = SUFFIX_LEN ->
  filename <> CFG_PATH -> tools_ok filename fileid host ->
  (exists conf, cfg_value 256 "dfs_path" "client" w = Ok (conf, w)) ->
  cfg_value 20 "storage_web_server" "port" w = Ok ((0, port), w) ->
  fits FILE_URL_LEN url = true -> store_ok user filename md5 (ue_size env) fileid url w ->
  serving (w_db w) -> mysql_accepts w (mysql_user cfg) (mysql_pwd cfg) (mysql_db cfg) = true ->
  consistent (tabs w) -> Z.of_nat (length (t_list (tabs w))) < INT_MAX -> user <> SHARE_COUNT ->
  md5 ∉ f_md5 <$> t_file (tabs w) ->
  run true (upload_main cfg env (form_request f)) (fun _ w' =>
    (tabs w' = add_content (stored_row filename md5 (ue_size env) fileid url)
                   (new_entry user md5 filename (w_now w)) (tabs w)
    /\ consistent (tabs w') /\ kv w' = kv w /\ w_fs w' = delete filename (w_fs w)
    /\ w_out w' = w_out w ++ [header; return_status "008"]
    /\ w_open_db w' = w_open_db w /\ w_open_redis w' = w_open_redis w)
    /\ w_now w' = w_now w /\ w_redis w' = w_redis w /\ serving (w_db w')) w.
Proof.
  intros user filename md5 url Hf Hm Ho Hsuf Hne Ht [conf Hconf] Hport Hfit Hst Hs Hc HT Hlen Hu Hnew.
  unfold upload_main.
  apply run_bind, run_printf. cbn [form_request content_length]. pose proof (form_positive f Hf).
  rewrite strtol_dec by (pose proof (fo_size _ Hf); lia). rewrite (proj2 (Z.leb_gt _ 0)) by lia.
  unfold upload_file. rewrite Hm, Ho.
  apply run_bind, run_bind, run_recv_save; [done|]. cbn [Z.ltb Z.compare].
  set (w1 := set_fs _ _). fold user filename md5. apply run_bind, (run_to_storage filename fileid host); [done| |].
  { intros _. exists conf. apply (cfg_other_file _ _ _ w _ filename (text_of (fm_data f))); auto. }
  intros s1. cbn [Z.ltb Z.compare]. apply run_bind. unfold run at 1, unlink. set (w2 := set_fs _ _).
  assert (w_fs w2 = delete filename (w_fs w)) as Efs by (cbn; by rewrite delete_insert_eq).
  apply run_bind, (run_make_url filename fileid host port); [done| | |done|].
  { intros _. exists conf. apply (cfg_other_file _ _ _ w _ filename (text_of (fm_data f))); auto. }
  { intros s. apply (cfg_other_file _ _ _ w _ filename (text_of (fm_data f))); auto. }
  intros s2. cbn [Z.ltb Z.compare]. fold url. set (w3 := set_sys s2 w2).
  destruct (store_fileinfo_run cfg user filename md5 (ue_size env) fileid url (ue_suffix env) w3)
    as (w4 & E & (Hfs4 & Hn4 & Hr4 & Hs4) & Ht4 & HT4 & Hk4 & Ho4 & Hod & Hor); [by destruct Hst|done..|].
  apply run_bind. unfold run at 1. rewrite E. apply run_ret. cbn [Z.ltb Z.compare Z.eqb]. apply run_printf.
  split; [|done]. split; [exact Ht4|]. split; [exact HT4|]. split; [exact Hk4|].
  split; [cbn; by rewrite Hfs4|]. split; [|done]. cbn. rewrite Ho4. cbn. by rewrite <- app_assoc.
Qed.


(** The name the client sends is used as a path, and no token is asked for: a form
    whose file has the name of the configuration replaces the configuration. *)
Theorem upload_replaces_configuration (f : form) (junk : list Z) (w : world)
    (Hf : form_ok f) (Hn : fm_filename f = bytes_of CFG_PATH) :
  exists w', recv_save_file true true (Z.of_nat (length (form_body f))) (bytes_of (stdin (form_request f))) junk w =
      Ok ((0, text_of (fm_user f), CFG_PATH, text_of (fm_md5 f)), w')
    /\ w_fs w' !! CFG_PATH = Some (text_of (fm_data f)).
Proof.
  apply run_det. apply run_recv_save; [done|]. rewrite Hn, text_of_bytes. split; [done|]. cbn. by rewrite lookup_insert_eq.
Qed.

End Upload.
