(* ===== verification/Site.v ===== *)
(** The site: the processes of Process.v on one installation, serving requests in
    any order, from the bodies that clients print to the answers they get, as a
    refinement of an abstract site. *)

From Stdlib Require Import ZArith Lia Bool Ascii String.
From stdpp Require Import base tactics numbers list strings gmap sorting.
From S2P Require Import Prelude CString Md5 Des Text Double CJson CJsonParse CJsonPrint CJsonRoundtrip.
From S2P Require Import World MysqlOp RedisOp Sql Kv CgiCommon Logic Catalogue.
From S2P Require Import Login Register FastUpload FilesOp Upload Files ShareOps Ranking Process Session System.
From S2P Require Import Public Lists UploadMain.

(** ** Requests *)

(** What clients ask for. *)
Inductive call :=
  | CallRegister (user nick pwd tel email : string)
  | CallLogin (env : token_env) (user pwd : string)
  | CallUpload (user token md5 filename : string)
  | CallStore (env : upload_env) (f : form)
  | CallDelete (user token md5 filename : string)
  | CallCancel (user md5 filename : string)
  | CallSave (user md5 filename : string)
  | CallDownload (user md5 filename : string)
  | CallFiles (user token : string)
  | CallCount
  | CallShares (start count : Z)
  | CallRanking (start count : Z).

Definition reg_doc (user nick pwd tel email : string) : cJSON :=
  text_object [("userName", user); ("nickName", nick); ("firstPwd", pwd); ("phone", tel); ("email", email)]%string.
Definition del_doc (user token md5 filename : string) : cJSON :=
  text_object [("user", user); ("token", token); ("md5", md5); ("filename", filename)]%string.

Section Requests.
Context {SV : Services} {SQ : SqlServer} {RD : RedisServer} {dm : DataModel}.

Ltac doc_wf doc H := unfold doc; apply text_object_wf; repeat apply Forall_cons_2; [..|constructor];
  cbn; split; try apply H; by_decide.

(** *** Registration *)

Record register_ok (fmt : bool) (user nick pwd tel email time : string) : Prop := {
  ro_reg : reg_ok user nick pwd tel email time;
  ro_user : text_ok user; ro_nick : text_ok nick; ro_pwd : text_ok pwd; ro_tel : text_ok tel; ro_email : text_ok email;
  ro_lens : (String.length user <= 127 /\ String.length nick <= 127 /\ String.length pwd <= 127
             /\ String.length tel <= 127 /\ String.length email <= 127)%nat;
  ro_fits : fits_request fmt (reg_doc user nick pwd tel email)
}.

Lemma copy_item_text root name cap c s w : cJSON_GetObjectItem root name = Some c ->
  item_valuestring c = Some s -> (String.length s < cap)%nat -> copy_item root name cap w = Ok (Some s, w).
Proof.
  intros Hc Hs Hl. unfold copy_item, strcpy. rewrite Hc, Hs. unfold mbind, M_bind, sprintf. by rewrite fits_lt.
Qed.

Lemma reg_doc_wf fmt user nick pwd tel email time : register_ok fmt user nick pwd tel email time ->
  well_formed 0 (reg_doc user nick pwd tel email) /\ item_string (reg_doc user nick pwd tel email) = None.
Proof. intros Hk. doc_wf reg_doc Hk. Qed.

Lemma reg_info fmt user nick pwd tel email time w : register_ok fmt user nick pwd tel email time ->
  get_reg_info (printed fmt (reg_doc user nick pwd tel email)) w = Ok (Some (user, nick, pwd, tel, email), w).
Proof.
  intros Hk. destruct (reg_doc_wf _ _ _ _ _ _ _ Hk) as [Hw Hn]. unfold get_reg_info.
  rewrite parse_printed; [|exact Hw|exact Hn|destruct Hk; unfold fits_request, INT_MAX in *; lia].
  pose proof (ro_lens _ _ _ _ _ _ _ Hk) as (? & ? & ? & ? & ?). unfold mbind, M_bind.
  repeat (erewrite copy_item_text; [|reflexivity|reflexivity|lia]). done.
Qed.

Lemma working_mysql_info w : working w -> exists u p d, get_mysql_info w = Ok ((0, (u, p, d)), w).
Proof.
  intros Hw. pose proof (wk_cfg _ Hw) as Hc. rewrite Forall_forall in Hc.
  destruct (Hc (256%nat, "mysql", "user")%string ltac:(unfold cfg_keys; set_solver)) as [u Hu].
  destruct (Hc (256%nat, "mysql", "password")%string ltac:(unfold cfg_keys; set_solver)) as [p Hp].
  destruct (Hc (256%nat, "mysql", "database")%string ltac:(unfold cfg_keys; set_solver)) as [d Hd].
  exists u, p, d. unfold get_mysql_info, mbind, M_bind. rewrite Hu. cbn [Z.eqb]. rewrite Hp. cbn [Z.eqb]. by rewrite Hd.
Qed.

Lemma register_run fmt user nick pwd tel email w :
  working w -> register_ok fmt user nick pwd tel email (w_now w) -> users_ok (tabs w) ->
  run true (register_main (post fmt (reg_doc user nick pwd tel email))) (fun _ w' =>
    settled w w' /\ kv w' = kv w /\ users_ok (tabs w') /\
    ((user ∈ u_name <$> t_user (tabs w) /\ tabs w' = tabs w /\ w_out w' = w_out w ++ [header; return_status "003"]) \/
     (user ∉ u_name <$> t_user (tabs w) /\
      tabs w' = set_user (t_user (tabs w) ++ [UserRow user nick pwd tel (w_now w) email]) (tabs w) /\
      w_out w' = w_out w ++ [header; return_status "002"]))) w.
Proof.
  intros Hw Hk Hu. unfold register_main. destruct (reg_doc_wf _ _ _ _ _ _ _ Hk) as [Hwf _].
  apply run_bind, run_read_post; [exact Hwf|apply Hk|]. set (w1 := set_out _ w).
  assert (working w1) as Hw1 by (by apply (working_step w); [..|apply Hw|apply Hw]).
  destruct (working_mysql_info w1 Hw1) as (mu & mp & md & Ei).
  destruct (user_register_run (printed fmt (reg_doc user nick pwd tel email)) user nick pwd tel email w1)
    as (ret & w2 & E & Hkp & Hor & Hkv & Ho & Hod & Hnd & Hc).
  { by apply (reg_info fmt _ _ _ _ _ (w_now w)). }
  { apply Hk. }
  { exists mu, mp, md. split; [done|by apply working_accepts]. }
  { apply Hw1. }
  { apply Hu. }
  specialize (Hkp ltac:(apply Hw1)). apply run_bind. unfold run at 1. rewrite E.
  assert (forall o, settled w (set_out o w2)) as Hse.
  { intros o. split; [|apply Hkp|exact Hod|exact Hor].
    by apply (working_step w1); [..|apply Hkp|apply Hkp|apply Hkp]. }
  change (tabs w1) with (tabs w) in *. change (w_now w1) with (w_now w) in *.
  destruct Hc as [(-> & Hin & Et)|(-> & Hno & Et)]; cbn [Z.eqb Pos.eqb]; apply run_printf.
  - split; [apply Hse|]. split; [exact Hkv|]. change (tabs (set_out _ w2)) with (tabs w2). rewrite Et.
    split; [done|]. left. split; [done|]. split; [done|]. cbn. rewrite Ho. cbn. by rewrite <- app_assoc.
  - split; [apply Hse|]. split; [exact Hkv|]. change (tabs (set_out _ w2)) with (tabs w2). split.
    + split; [exact Hnd|]. rewrite Et. cbn. intros r [Hr|Hr]%elem_of_app; [by apply (uo_pwds _ Hu)|].
      apply list_elem_of_singleton in Hr as ->. apply fits_lt. cbn. pose proof (ro_lens _ _ _ _ _ _ _ Hk).
      unfold PWD_LEN. lia.
    + right. split; [done|]. split; [done|]. cbn. rewrite Ho. cbn. by rewrite <- app_assoc.
Qed.

(** *** Deletion *)

Record delete_ok (fmt : bool) (user token md5 filename time : string) : Prop := {
  do_args : args_ok user md5 filename time;
  do_user : text_ok user; do_token : text_ok token; do_md5 : text_ok md5; do_name : text_ok filename;
  do_lens : (String.length user <= 127 /\ String.length token <= 127 /\ String.length md5 <= 255
             /\ String.length filename <= 127)%nat;
  do_fits : fits_request fmt (del_doc user token md5 filename)
}.

Lemma del_doc_wf fmt user token md5 filename time : delete_ok fmt user token md5 filename time ->
  well_formed 0 (del_doc user token md5 filename) /\ item_string (del_doc user token md5 filename) = None.
Proof. intros Hk. doc_wf del_doc Hk. Qed.

Lemma run_del_info fmt user token md5 filename time b (Q : Z * op_bufs -> world -> Prop) w :
  delete_ok fmt user token md5 filename time ->
  Q (0, OpBufs (Some user) (Some token) (Some md5) (Some filename)) w ->
  run true (get_json_info (printed fmt (del_doc user token md5 filename)) b) Q w.
Proof.
  intros Hk HQ. unfold get_json_info. destruct (del_doc_wf _ _ _ _ _ _ Hk) as [Hw Hn].
  rewrite parse_printed; [|exact Hw|exact Hn|destruct Hk; unfold fits_request, INT_MAX in *; lia].
  pose proof (do_lens _ _ _ _ _ _ Hk).
  apply run_bind. eapply run_copy_text; [reflexivity|reflexivity|apply fits_lt; unfold USER_NAME_LEN; lia|].
  apply run_bind. eapply run_copy_text; [reflexivity|reflexivity|apply fits_lt; unfold MD5_LEN; lia|].
  apply run_bind. eapply run_copy_text; [reflexivity|reflexivity|apply fits_lt; unfold FILE_NAME_LEN; lia|].
  apply run_bind. eapply run_copy_text; [reflexivity|reflexivity|apply fits_lt; unfold TOKEN_LEN; lia|].
  by apply run_ret.
Qed.

(** What the programs assume of a deletion: the user has the entry and does not
    share it. *)
Record deletable (user md5 filename : string) (w : world) : Prop := {
  dl_storage : storage_ready w;
  dl_ids : forall f, f ∈ t_file (tabs w) -> (String.length (f_id f) <= 511)%nat;
  dl_unshared : unshared user md5 filename w;
  dl_owned : (user, md5, filename) ∈ entry <$> t_list (tabs w)
}.

(** The turn behind the check of the token. *)
Lemma deletion_run cfg user md5 filename w1 w2 (b : op_bufs) (Q : op_bufs -> world -> Prop) :
  args_ok user md5 filename (w_now w1) -> working w2 -> frame w1 w2 -> w_db w2 = w_db w1 -> kv w2 = kv w1 ->
  consistent (tabs w1) -> Z.of_nat (length (t_list (tabs w1))) < INT_MAX -> deletable user md5 filename w1 ->
  (forall w3, settled w1 w3 -> consistent (tabs w3) -> tabs w3 = drop_reference user md5 filename (tabs w1) ->
     kv w3 = kv w1 -> w_out w3 = w_out w1 ++ [return_status "013"] -> Q b w3) ->
  run true (del_file cfg user md5 filename;; mret b) Q w2.
Proof.
  intros Ha Hw Hf Hd Hk HT Hlen [[[x Hx] Hsys] Hid [Hz Hrows] Hin] HQ.
  assert (tabs w2 = tabs w1) as Et by (unfold tabs; by rewrite Hd).
  destruct (del_file_run cfg user md5 filename w2) as (w3 & E & Hkp & Ht & HT3 & _ & Hkv & Hod & Hor & Ho);
    rewrite ?Et; try done.
  - by rewrite (fr_now _ _ Hf).
  - apply Hw.
  - apply Hw.
  - apply (wk_link _ Hw), Hw.
  - by apply working_accepts.
  - split; [|done]. exists x. apply (cfg_value_fs _ _ _ w1); [apply Hf|done].
  - split; [by rewrite Hk|by rewrite Et].
  - apply run_bind. unfold run at 1. rewrite E. apply run_ret. apply HQ.
    + split; [by apply (working_kept w2)|by rewrite (kp_now _ _ Hkp), (fr_now _ _ Hf)|
        by rewrite Hod, (fr_open_db _ _ Hf)|by rewrite Hor, (fr_open_redis _ _ Hf)].
    + done.
    + by rewrite Ht, Et.
    + by rewrite Hkv.
    + by rewrite Ho, (fr_out _ _ Hf).
Qed.

Lemma delete_run cfg b fmt user tok md5 filename w :
  working w -> delete_ok fmt user tok md5 filename (w_now w) -> token_fits user (kv w) ->
  consistent (tabs w) -> Z.of_nat (length (t_list (tabs w))) < INT_MAX ->
  (kv w !! user = Some (VStr tok) -> deletable user md5 filename w) ->
  run true (filesop_main cfg b (post fmt (del_doc user tok md5 filename))) (fun _ w' =>
    settled w w' /\ consistent (tabs w') /\ kv w' = kv w /\
    ((kv w !! user = Some (VStr tok) /\ tabs w' = drop_reference user md5 filename (tabs w)
        /\ w_out w' = w_out w ++ [header; return_status "013"]) \/
     (kv w !! user <> Some (VStr tok) /\ tabs w' = tabs w /\ w_out w' = w_out w ++ [header; return_status "111"]))) w.
Proof.
  intros Hw Hk Hfit HT Hlen Hdel. unfold filesop_main. destruct (del_doc_wf _ _ _ _ _ _ Hk) as [Hwf _].
  apply run_bind, run_read_post; [exact Hwf|apply Hk|]. set (w1 := set_out _ w).
  assert (working w1) as Hw1 by (by apply (working_step w); [..|apply Hw|apply Hw]).
  apply run_bind. eapply run_del_info; [exact Hk|]. do 4 apply run_bind, run_ret.
  apply run_bind, run_verify_token; [done|done|]. intros w2 Hf2 Hw2 Hd2 Hk2. change (kv w1) with (kv w) in *.
  split; intros Htok; cbn [Z.eqb negb].
  - specialize (Hdel Htok). apply (deletion_run cfg user md5 filename w1); try done; [apply Hk| |].
    + destruct Hdel as [[[x Hx] Hsys] Hid [Hz Hrows] Hin]. split; try done.
      split; [|done]. exists x. by apply (cfg_value_fs _ _ _ w).
    + intros w3 [Hw3 En Eo Er] HT3 Et3 Hk3 Ho3. split; [by split|]. split; [done|]. split; [done|]. left.
      split; [done|]. split; [done|]. rewrite Ho3. cbn. by rewrite <- app_assoc.
  - apply run_bind, run_printf, run_ret. assert (tabs w2 = tabs w) as Et by (unfold tabs; by rewrite Hd2).
    change (tabs (set_out _ w2)) with (tabs w2). rewrite Et. split; [|split; [done|split; [exact Hk2|]]].
    + split; [by apply (working_step w2); [..|apply Hw2|apply Hw2]|apply Hf2..].
    + right. split; [done|]. split; [done|]. cbn. rewrite (fr_out _ _ Hf2). cbn. by rewrite <- app_assoc.
Qed.

(** *** Upload of a file *)

(** What the programs assume of an upload: a form that is well formed, tools that
    answer as documented, and content that is new. *)
Record storable (env : upload_env) (f : form) (fileid host port : string) (w : world) : Prop := {
  st_form : form_ok f;
  st_malloc : ue_malloc_ok env = true;
  st_open : ue_open_ok env = true;
  st_suffix : length (ue_suffix env) = SUFFIX_LEN;
  st_name : text_of (fm_filename f) <> CFG_PATH;
  st_tools : tools_ok (text_of (fm_filename f)) fileid host;
  st_client : exists conf, cfg_value 256 "dfs_path" "client" w = Ok (conf, w);
  st_port : cfg_value 20 "storage_web_server" "port" w = Ok ((0, port), w);
  st_url : fits FILE_URL_LEN (file_url host port fileid) = true;
  st_row : store_ok (text_of (fm_user f)) (text_of (fm_filename f)) (text_of (fm_md5 f)) (ue_size env)
             fileid (file_url host port fileid) w;
  st_len : Z.of_nat (length (t_list (tabs w))) < INT_MAX;
  st_user : text_of (fm_user f) <> SHARE_COUNT;
  st_new : text_of (fm_md5 f) ∉ f_md5 <$> t_file (tabs w)
}.

(** The tables with the content and its entry. *)
Definition store_form (env : upload_env) (f : form) (fileid url time : string) (T : tables) : tables :=
  add_content (stored_row (text_of (fm_filename f)) (text_of (fm_md5 f)) (ue_size env) fileid url)
    (new_entry (text_of (fm_user f)) (text_of (fm_md5 f)) (text_of (fm_filename f)) time) T.

(** Removing another file leaves the configuration. *)
Lemma working_files w w' path : working w -> path <> CFG_PATH -> w_fs w' = delete path (w_fs w) ->
  serving (w_db w') -> answering (w_redis w') -> working w'.
Proof.
  intros [_ _ Ha Hl Hc] Hp Hf Hd Hr. split; try done. eapply Forall_impl; [exact Hc|].
  intros [[cap title] key] [x Hx]. exists x. apply (cfg_other_file _ _ _ w _ path ""%string Hp Hx). auto.
Qed.

Lemma store_request cfg env f fileid host port w : working w -> storable env f fileid host port w -> consistent (tabs w) ->
  run true (upload_main cfg env (form_request f)) (fun _ w' =>
    settled w w' /\ consistent (tabs w') /\ kv w' = kv w /\
    tabs w' = store_form env f fileid (file_url host port fileid) (w_now w) (tabs w) /\
    w_out w' = w_out w ++ [header; return_status "008"]) w.
Proof.
  intros Hw Hst HT. pose proof (wk_db _ Hw). pose proof (wk_redis _ Hw).
  eapply run_mono; [apply (upload_main_run cfg env f fileid host port); try apply Hst; try done; by apply working_accepts|].
  intros [] w' ((Ht & HT' & Hk & Hfs & Ho & Hd & Hr) & Hn & Hrd & Hs). split; [|done].
  split; [|done..]. apply (working_files w _ (text_of (fm_filename f))); [done|apply Hst|done|done|by rewrite Hrd].
Qed.

End Requests.

(** ** The processes and the site *)

Section Site.
Context {SV : Services} {SQ : SqlServer} {RD : RedisServer} {PG : SqlPaging} {RR : RedisRanking} {dm : DataModel}.
Variable fmt : bool.

(** What the processes keep between requests; those of cgi_login and cgi_register
    keep nothing. *)
Record procs := Procs {
  at_md5 : pg_state cgi_md5;
  at_filesop : pg_state cgi_filesop;
  at_sharefilesop : pg_state cgi_sharefilesop;
  at_files : pg_state cgi_files;
  at_sharefiles : pg_state cgi_sharefiles;
  at_upload : pg_state cgi_upload }.
Definition set_md5_state x p := Procs x (at_filesop p) (at_sharefilesop p) (at_files p) (at_sharefiles p) (at_upload p).
Definition set_filesop_state x p := Procs (at_md5 p) x (at_sharefilesop p) (at_files p) (at_sharefiles p) (at_upload p).
Definition set_sharefilesop_state x p := Procs (at_md5 p) (at_filesop p) x (at_files p) (at_sharefiles p) (at_upload p).
Definition set_files_state x p := Procs (at_md5 p) (at_filesop p) (at_sharefilesop p) x (at_sharefiles p) (at_upload p).
Definition set_sharefiles_state x p := Procs (at_md5 p) (at_filesop p) (at_sharefilesop p) (at_files p) x (at_upload p).

Definition start : M procs :=
  m ← pg_start cgi_md5; f ← pg_start cgi_filesop; s ← pg_start cgi_sharefilesop;
  l ← pg_start cgi_files; h ← pg_start cgi_sharefiles; u ← pg_start cgi_upload;
  mret (Procs m f s l h u).

(** A request is handled by its process. *)
Definition handle (c : call) (p : procs) : M procs :=
  match c with
  | CallRegister user nick pwd tel email =>
      pg_turn cgi_register tt (post fmt (reg_doc user nick pwd tel email));; mret p
  | CallLogin env user pwd =>
      pg_turn cgi_login tt (env, post fmt (login_doc user pwd));; mret p
  | CallUpload user token md5 filename =>
      s ← pg_turn cgi_md5 (at_md5 p) (post fmt (md5_doc user token md5 filename));
      mret (set_md5_state s p)
  | CallStore env f =>
      s ← pg_turn cgi_upload (at_upload p) (env, form_request f);
      mret (Procs (at_md5 p) (at_filesop p) (at_sharefilesop p) (at_files p) (at_sharefiles p) s)
  | CallDelete user token md5 filename =>
      s ← pg_turn cgi_filesop (at_filesop p) (post fmt (del_doc user token md5 filename));
      mret (set_filesop_state s p)
  | CallCancel user md5 filename =>
      s ← pg_turn cgi_sharefilesop (at_sharefilesop p) (Some "cmd=cancel"%string, post fmt (share_doc user md5 filename));
      mret (set_sharefilesop_state s p)
  | CallSave user md5 filename =>
      s ← pg_turn cgi_sharefilesop (at_sharefilesop p) (Some "cmd=save"%string, post fmt (share_doc user md5 filename));
      mret (set_sharefilesop_state s p)
  | CallDownload user md5 filename =>
      s ← pg_turn cgi_sharefilesop (at_sharefilesop p) (Some "cmd=pv"%string, post fmt (share_doc user md5 filename));
      mret (set_sharefilesop_state s p)
  | CallFiles user token =>
      s ← pg_turn cgi_files (at_files p) (post fmt (files_doc user token)); mret (set_files_state s p)
  | CallCount =>
      s ← pg_turn cgi_sharefiles (at_sharefiles p) (Some "cmd=count"%string, Request None ""%string);
      mret (set_sharefiles_state s p)
  | CallShares start count =>
      s ← pg_turn cgi_sharefiles (at_sharefiles p) (Some "cmd=normal"%string, post fmt (range_doc start count));
      mret (set_sharefiles_state s p)
  | CallRanking start count =>
      s ← pg_turn cgi_sharefiles (at_sharefiles p) (Some "cmd=pvdesc"%string, post fmt (range_doc start count));
      mret (set_sharefiles_state s p)
  end.

(** The requests considered: texts that fit, counters in the range of [int], and
    for an upload, a deletion, a withdrawal, a download and a ranking the situation the
    programs assume. *)
Definition admissible (c : call) (w : world) : Prop :=
  match c with
  | CallRegister user nick pwd tel email => register_ok fmt user nick pwd tel email (w_now w)
  | CallLogin env user pwd => login_ok fmt user pwd /\ length (md5_junk env) = 64%nat
  | CallUpload user token md5 filename =>
      upload_ok fmt user token md5 filename (w_now w) /\ Z.of_nat (length (t_list (tabs w))) < INT_MAX
  | CallStore env f => exists fileid host port, storable env f fileid host port w
  | CallDelete user token md5 filename =>
      delete_ok fmt user token md5 filename (w_now w) /\ Z.of_nat (length (t_list (tabs w))) < INT_MAX
      /\ (kv w !! user = Some (VStr token) -> deletable user md5 filename w)
  | CallCancel user md5 filename =>
      share_ok fmt user md5 filename (w_now w) /\ Z.of_nat (length (t_share (tabs w))) < INT_MAX
      /\ (exists z, zset_at (kv w) FILE_PUBLIC_ZSET = Some z /\ is_Some (z !! (md5 +:+ filename)))
      /\ (exists h, hash_at (kv w) FILE_NAME_HASH = Some h /\ is_Some (h !! (md5 +:+ filename)))
      /\ (exists r, r ∈ t_share (tabs w) /\ is_shared_by user md5 filename r)
  | CallSave user md5 filename =>
      share_ok fmt user md5 filename (w_now w) /\ user <> SHARE_COUNT
      /\ Z.of_nat (length (t_list (tabs w))) < INT_MAX
  | CallDownload user md5 filename =>
      share_ok fmt user md5 filename (w_now w)
      /\ (exists z, zset_at (kv w) FILE_PUBLIC_ZSET = Some z /\ same_scores z = true)
      /\ is_Some (hash_at (kv w) FILE_NAME_HASH)
      /\ (exists r, r ∈ t_share (tabs w) /\ is_shared md5 filename r /\ 0 <= s_pv r < INT_MAX)
  | CallFiles user token =>
      list_ok fmt user token /\ Z.of_nat (length (t_list (tabs w))) < 2 ^ 63
      /\ Forall row_ok (user_files user (tabs w))
  | CallCount => Z.of_nat (length (t_share (tabs w))) < 2 ^ 63
  | CallShares start count => range_ok fmt start count /\ Forall share_row_ok (shared_files (tabs w))
  | CallRanking start count => range_ok fmt start count /\ rankable (tabs w) (kv w)
  end.

(** *** The abstract site: tables, keys and an answer *)

Inductive served (time : string) : call -> tables -> keyspace -> string -> tables -> keyspace -> Prop :=
  | sv_name_taken u n p t e T k : u ∈ u_name <$> t_user T ->
      served time (CallRegister u n p t e) T k (return_status "003") T k
  | sv_registered u n p t e T k : u ∉ u_name <$> t_user T ->
      served time (CallRegister u n p t e) T k (return_status "002")
        (set_user (t_user T ++ [UserRow u n p t time e]) T) k
  | sv_login env u p token T k : credentials u p T -> String.length token = 32%nat ->
      served time (CallLogin env u p) T k (login_answer true token) T (<[u := VStr token]> k)
  | sv_no_login env u p T k : ~ credentials u p T ->
      served time (CallLogin env u p) T k (login_answer false "") T k
  | sv_upload u tok m n ret T T' k : k !! u = Some (VStr tok) -> upload_outcome u m n time T T' ret ->
      served time (CallUpload u tok m n) T k (md5_reply ret) T' k
  | sv_no_upload u tok m n T k : k !! u <> Some (VStr tok) ->
      served time (CallUpload u tok m n) T k (return_status "111") T k
  | sv_store env f fileid url T k : text_of (fm_md5 f) ∉ f_md5 <$> t_file T ->
      served time (CallStore env f) T k (return_status "008") (store_form env f fileid url time T) k
  | sv_delete u tok m n T k : k !! u = Some (VStr tok) -> (u, m, n) ∈ entry <$> t_list T ->
      served time (CallDelete u tok m n) T k (return_status "013") (drop_reference u m n T) k
  | sv_no_delete u tok m n T k : k !! u <> Some (VStr tok) ->
      served time (CallDelete u tok m n) T k (return_status "111") T k
  | sv_cancel u m n z h r T k : r ∈ t_share T -> is_shared_by u m n r ->
      zset_at k FILE_PUBLIC_ZSET = Some z -> hash_at k FILE_NAME_HASH = Some h ->
      served time (CallCancel u m n) T k (return_status "018") (drop_share u m n T) (unshare_keys m n z h k)
  | sv_save u m n answer T T' k : save_outcome u m n time T T' answer ->
      served time (CallSave u m n) T k answer T' k
  | sv_download u m n z h r T k : zset_at k FILE_PUBLIC_ZSET = Some z -> hash_at k FILE_NAME_HASH = Some h ->
      r ∈ t_share T -> is_shared m n r ->
      served time (CallDownload u m n) T k
        (return_status (if bool_decide (is_Some (z !! (m +:+ n))) then "017" else "016"))
        (raise_pv m n (s_pv r + 1) T) (pv_keys m n (s_pv r + 1) z h k)
  | sv_files u tok answer T k : files_reply u tok T k answer -> served time (CallFiles u tok) T k answer T k
  | sv_count T k : served time CallCount T k (dec (Z.of_nat (length (t_share T)))) T k
  | sv_shares start count ps T k : ps ≡ₚ shared_files T ->
      served time (CallShares start count) T k (shares_answer (page start count ps)) T k
  | sv_ranking start count L T k k' : L ≡ₚ t_share T -> Sorted by_pv L -> mirrored T k' -> other_keys k k' ->
      served time (CallRanking start count) T k (rank_answer (page start count L)) T k'.

Inductive served_all : list (string * call) -> tables -> keyspace -> list string -> tables -> keyspace -> Prop :=
  | sa_nil T k : served_all [] T k [] T k
  | sa_cons time c cs T k a T1 k1 l T2 k2 : served time c T k a T1 k1 -> served_all cs T1 k1 l T2 k2 ->
      served_all ((time, c) :: cs) T k (a :: l) T2 k2.

Lemma served_all_snoc cs T k l T1 k1 time c a T2 k2 : served_all cs T k l T1 k1 ->
  served time c T1 k1 a T2 k2 -> served_all (cs ++ [(time, c)]) T k (l ++ [a]) T2 k2.
Proof. induction 1; intros Hs; cbn; econstructor; eauto. constructor. Qed.

(** A login leaves the tables. *)
Lemma served_login time env u p T k l T' k' : served_all [(time, CallLogin env u p)] T k l T' k' -> T' = T.
Proof.
  intros Hs. inversion Hs as [|? ? ? ? ? ? ? ? ? ? ? H1 H2]; subst. inversion H2; subst. clear -H1.
  remember (CallLogin env u p) as c eqn:E. destruct H1; (reflexivity || discriminate E).
Qed.

(** *** Runs of the site *)

(** The world when a request arrives. *)
Definition at_time (time : string) (w : world) : world :=
  World _ (w_db w) (w_redis w) (w_sys w) (w_fs w) time (w_out w) (w_open_db w) (w_open_redis w).

(** Requests that arrive one after the other, each admissible when it arrives. *)
Inductive visits : procs -> world -> list (string * call) -> procs -> world -> Prop :=
  | visits_nil p w : visits p w [] p w
  | visits_cons time c cs p w p1 w1 p2 w2 : admissible c (at_time time w) ->
      (accept time;; handle c p) w = Ok (p1, w1) -> visits p1 w1 cs p2 w2 ->
      visits p w ((time, c) :: cs) p2 w2.

Lemma visits_snoc p w cs p1 w1 time c p2 w2 : visits p w cs p1 w1 -> admissible c (at_time time w1) ->
  (accept time;; handle c p1) w1 = Ok (p2, w2) -> visits p w (cs ++ [(time, c)]) p2 w2.
Proof. induction 1; intros Ha E; cbn; econstructor; eauto. constructor. Qed.

(** *** The invariant *)

Record sound (p : procs) (w : world) : Prop := {
  sd_working : working w;
  sd_consistent : consistent (tabs w);
  sd_users : users_ok (tabs w);
  sd_tokens : forall u, token_fits u (kv w);
  sd_cmd : (at_sharefilesop p).1.2 ∈ old_cmds;
  sd_list_cmd : (at_sharefiles p).2 ∈ old_list_cmds
}.

Lemma users_same T T' : t_user T' = t_user T -> users_ok T -> users_ok T'.
Proof. intros E [Hn Hp]. split; by rewrite E. Qed.

Lemma consistent_set_user u T : consistent T -> consistent (set_user u T).
Proof. intros []. by split. Qed.

Lemma token_fits_insert u user token k : (String.length token <= 127)%nat -> token_fits u k ->
  token_fits u (<[user := VStr token]> k).
Proof.
  intros Hl Hf s. destruct (decide (u = user)) as [->|Hne]; [rewrite lookup_insert_eq; by intros [= <-]|].
  rewrite lookup_insert_ne by done. apply Hf.
Qed.

Lemma token_fits_zset u key z k : token_fits u k -> token_fits u (put_zset key z k).
Proof.
  intros Hf s. unfold put_zset. destruct (decide (u = key)) as [->|Hne].
  - destruct (decide _); [by rewrite lookup_delete_eq|by rewrite lookup_insert_eq].
  - destruct (decide _); [rewrite lookup_delete_ne by done|rewrite lookup_insert_ne by done]; apply Hf.
Qed.
Lemma token_fits_hash u key h k : token_fits u k -> token_fits u (put_hash key h k).
Proof.
  intros Hf s. unfold put_hash. destruct (decide (u = key)) as [->|Hne].
  - destruct (decide _); [by rewrite lookup_delete_eq|by rewrite lookup_insert_eq].
  - destruct (decide _); [rewrite lookup_delete_ne by done|rewrite lookup_insert_ne by done]; apply Hf.
Qed.

Lemma token_fits_pv u m n v z h k : token_fits u k -> token_fits u (pv_keys m n v z h k).
Proof. intros Hf. unfold pv_keys. case_match; [|apply token_fits_hash]; by apply token_fits_zset. Qed.

Lemma token_fits_mirrored u T k k' : mirrored T k' -> other_keys k k' -> token_fits u k -> token_fits u k'.
Proof.
  intros [_ Hz Hh] Ho Hf s E. destruct (decide (u = FILE_PUBLIC_ZSET)) as [->|H1]; [unfold zset_at in Hz; by rewrite E in Hz|].
  destruct (decide (u = FILE_NAME_HASH)) as [->|H2]; [unfold hash_at in Hh; by rewrite E in Hh|].
  rewrite Ho in E by done. by apply Hf.
Qed.

Lemma upload_users u m n time T T' ret : upload_outcome u m n time T T' ret -> t_user T' = t_user T.
Proof. by intros [(_ & -> & _)|[(_ & -> & _)|(_ & -> & _)]]. Qed.
Lemma save_users u m n time T T' a : save_outcome u m n time T T' a -> t_user T' = t_user T.
Proof. by intros [(_ & -> & _)|[(_ & -> & _)|(_ & -> & _)]]. Qed.

(** One request: the invariant is kept, no connection stays open, and the answer
    is that of the abstract site. *)
Definition handled (c : call) (w : world) (p' : procs) (w' : world) : Prop :=
  sound p' w' /\ w_open_db w' = w_open_db w /\ w_open_redis w' = w_open_redis w /\
  exists answer, w_out w' = w_out w ++ [header; answer] /\
    served (w_now w) c (tabs w) (kv w) answer (tabs w') (kv w').

Lemma handled_intro c w p' w' : settled w w' -> consistent (tabs w') -> users_ok (tabs w') ->
  (forall u, token_fits u (kv w')) -> (at_sharefilesop p').1.2 ∈ old_cmds -> (at_sharefiles p').2 ∈ old_list_cmds ->
  (exists answer, w_out w' = w_out w ++ [header; answer] /\
    served (w_now w) c (tabs w) (kv w) answer (tabs w') (kv w')) -> handled c w p' w'.
Proof. intros [Hw _ Hd Hr] HT Hu Hf Hc Hl Hs. by split. Qed.

(** One request of each kind. *)
Definition serves (c : call) : Prop :=
  forall p w, sound p w -> admissible c w -> run true (handle c p) (handled c w) w.

Lemma handle_register u n pw t e : serves (CallRegister u n pw t e).
Proof.
  intros p w [Hw HT Hu Hf Hc Hlc] Ha. cbn [handle admissible] in *. apply run_bind.
  eapply run_mono; [by apply register_run|]. intros [] w' (Hse & Hk & Hu' & Hcase). apply run_ret.
  apply handled_intro; try done; rewrite ?Hk; try done.
  + destruct Hcase as [(_ & -> & _)|(_ & -> & _)]; [done|by apply consistent_set_user].
  + destruct Hcase as [(Hn & -> & Ho)|(Hn & -> & Ho)]; (eexists; split; [exact Ho|]);
      [exact (sv_name_taken _ u n pw t e _ _ Hn)|exact (sv_registered _ u n pw t e _ _ Hn)].
Qed.

Lemma handle_login env u pw : serves (CallLogin env u pw).
Proof.
  intros p w [Hw HT Hu Hf Hc Hlc] Ha. cbn [handle admissible] in *. apply run_bind.
  destruct Ha as [Hl Hj]. eapply run_mono; [by apply login_run|]. intros [] w' (Hse & Et & Hcase). apply run_ret.
  apply handled_intro; rewrite ?Et; try done.
  + destruct Hcase as [(_ & -> & _)|(_ & token & Hlen & _ & -> & _)]; [done|].
    intros x. apply token_fits_insert; [lia|done].
  + destruct Hcase as [(Hn & -> & Ho)|(Hn & token & Hlen & _ & -> & Ho)]; (eexists; split; [exact Ho|]);
      [exact (sv_no_login _ env u pw _ _ Hn)|exact (sv_login _ env u pw token _ _ Hn Hlen)].
Qed.

Lemma handle_upload u tok m n : serves (CallUpload u tok m n).
Proof.
  intros p w [Hw HT Hu Hf Hc Hlc] Ha. cbn [handle admissible] in *. apply run_bind.
  destruct Ha as [Ha Hlen]. apply run_bind. eapply run_mono; [by apply md5_run|].
  intros [] w' (Hse & HT' & Hk & Hcase). do 2 apply run_ret. apply handled_intro; rewrite ?Hk; try done.
  + destruct Hcase as [(_ & ret & Ho & _)|(_ & -> & _)]; [|done].
    eapply users_same; [by eapply upload_users|done].
  + destruct Hcase as [(Hn & ret & Hr & Ho)|(Hn & -> & Ho)]; (eexists; split; [exact Ho|]);
      [exact (sv_upload _ u tok m n ret _ _ _ Hn Hr)|exact (sv_no_upload _ u tok m n _ _ Hn)].
Qed.

Lemma handle_store env f : serves (CallStore env f).
Proof.
  intros p w [Hw HT Hu Hf Hc Hlc] Ha. cbn [handle admissible] in *. apply run_bind.
  destruct Ha as (fileid & host & port & Ha). apply run_bind. eapply run_mono; [by apply (store_request _ _ _ fileid host port)|].
  intros [] w' (Hse & HT' & Hk & Et & Ho). do 2 apply run_ret.
  apply handled_intro; rewrite ?Hk; try done; [apply (users_same (tabs w)); [by rewrite Et|done]|].
  eexists. split; [exact Ho|]. rewrite Et. exact (sv_store _ env f fileid _ _ _ (st_new _ _ _ _ _ _ Ha)).
Qed.

Lemma handle_delete u tok m n : serves (CallDelete u tok m n).
Proof.
  intros p w [Hw HT Hu Hf Hc Hlc] Ha. cbn [handle admissible] in *. apply run_bind.
  destruct Ha as (Ha & Hlen & Hdel). destruct (at_filesop p) as [cfg b]. apply run_bind.
  eapply run_mono; [by apply delete_run|].
  intros b' w' (Hse & HT' & Hk & Hcase). do 2 apply run_ret. apply handled_intro; rewrite ?Hk; try done.
  + eapply users_same; [|exact Hu]. by destruct Hcase as [(_ & -> & _)|(_ & -> & _)].
  + destruct Hcase as [(Hn & -> & Ho)|(Hn & -> & Ho)]; (eexists; split; [exact Ho|]);
      [exact (sv_delete _ u tok m n _ _ Hn (dl_owned _ _ _ _ (Hdel Hn)))|exact (sv_no_delete _ u tok m n _ _ Hn)].
Qed.

Lemma handle_cancel u m n : serves (CallCancel u m n).
Proof.
  intros p w [Hw HT Hu Hf Hc Hlc] Ha. cbn [handle admissible] in *. apply run_bind.
  destruct Ha as (Ha & Hlen & (z & Hz & Hzm) & (h & Hh & Hhm) & (r & Hin & Hby)).
  destruct (at_sharefilesop p) as [[cfg cmd] b]. apply run_bind. eapply run_mono; [by eapply cancel_request|].
  intros [cmd' b'] w' (Hc' & Hse & HT' & Et & Hk & Ho). do 2 apply run_ret.
  apply handled_intro; rewrite ?Hk; try done; [apply (users_same (tabs w)); [by rewrite Et|done]|intros x; by apply token_fits_hash, token_fits_zset|].
  eexists. split; [exact Ho|]. rewrite Et. exact (sv_cancel _ u m n z h r _ _ Hin Hby Hz Hh).
Qed.

Lemma handle_save u m n : serves (CallSave u m n).
Proof.
  intros p w [Hw HT Hu Hf Hc Hlc] Ha. cbn [handle admissible] in *. apply run_bind.
  destruct Ha as (Ha & Hne & Hlen). destruct (at_sharefilesop p) as [[cfg cmd] b]. apply run_bind.
  eapply run_mono; [by apply save_request|].
  intros [cmd' b'] w' (Hc' & Hse & HT' & Hk & answer & Hs & Ho). do 2 apply run_ret.
  apply handled_intro; rewrite ?Hk; try done; [eapply users_same; [by eapply save_users|done]|].
  exists answer. split; [exact Ho|]. exact (sv_save _ u m n answer _ _ _ Hs).
Qed.

Lemma handle_download u m n : serves (CallDownload u m n).
Proof.
  intros p w [Hw HT Hu Hf Hc Hlc] Ha. cbn [handle admissible] in *. apply run_bind.
  destruct Ha as (Ha & (z & Hz & Hsc) & (h & Hh) & (r & Hin & Hsh & Hpv)).
  destruct (at_sharefilesop p) as [[cfg cmd] b]. apply run_bind. eapply run_mono; [by eapply download_request|].
  intros [cmd' b'] w' (Hc' & Hse & HT' & Et & Hk & Ho). do 2 apply run_ret.
  apply handled_intro; rewrite ?Hk; try done; [apply (users_same (tabs w)); [by rewrite Et|done]|intros x; by apply token_fits_pv|].
  eexists. split; [exact Ho|]. rewrite Et. exact (sv_download _ u m n z h r _ _ Hz Hh Hin Hsh).
Qed.

Lemma handle_files u tok : serves (CallFiles u tok).
Proof.
  intros p w [Hw HT Hu Hf Hc Hlc] Ha. cbn [handle admissible] in *. apply run_bind.
  destruct Ha as (Ha & Hlen & Hrows). destruct (at_files p) as [cfg b]. apply run_bind.
  eapply run_mono; [by apply files_request|]. intros b' w' (Hse & Et & Hk & answer & Ho & Hr). do 2 apply run_ret.
  apply handled_intro; rewrite ?Hk, ?Et; try done. exists answer. split; [exact Ho|]. exact (sv_files _ u tok answer _ _ Hr).
Qed.

Lemma handle_count : serves (CallCount).
Proof.
  intros p w [Hw HT Hu Hf Hc Hlc] Ha. cbn [handle admissible] in *. apply run_bind.
  destruct (at_sharefiles p) as [cfg cmd]. apply run_bind. eapply run_mono; [by apply count_request|].
  intros cmd' w' (Hc' & Hse & Et & Hk & Ho). do 2 apply run_ret. apply handled_intro; rewrite ?Hk, ?Et; try done.
  eexists. split; [exact Ho|]. constructor.
Qed.

Lemma handle_shares start count : serves (CallShares start count).
Proof.
  intros p w [Hw HT Hu Hf Hc Hlc] Ha. cbn [handle admissible] in *. apply run_bind.
  destruct Ha as [Ha Hrows]. destruct (at_sharefiles p) as [cfg cmd]. apply run_bind.
  eapply run_mono; [by apply shares_request|]. intros cmd' w' (Hc' & Hse & Et & Hk & ps & Hp & Ho). do 2 apply run_ret.
  apply handled_intro; rewrite ?Hk, ?Et; try done. eexists. split; [exact Ho|]. exact (sv_shares _ start count ps _ _ Hp).
Qed.

Lemma handle_ranking start count : serves (CallRanking start count).
Proof.
  intros p w [Hw HT Hu Hf Hc Hlc] Ha. cbn [handle admissible] in *. apply run_bind.
  destruct Ha as [Ha Hrk]. destruct (at_sharefiles p) as [cfg cmd]. apply run_bind.
  eapply run_mono; [by apply ranking_request|]. intros cmd' w' (Hc' & Hse & Et & Hm & Hk & L & HL & HS & Ho).
  do 2 apply run_ret. apply handled_intro; rewrite ?Et; try done.
  + intros x. by apply (token_fits_mirrored x (tabs w) (kv w)).
  + eexists. split; [exact Ho|]. exact (sv_ranking _ start count L _ _ _ HL HS Hm Hk).
Qed.

Lemma handle_ok c : serves c.
Proof.
  destruct c; auto using handle_register, handle_login, handle_upload, handle_store, handle_delete, handle_cancel,
    handle_save, handle_download, handle_files, handle_count, handle_shares, handle_ranking.
Qed.

(** The world when a request arrives is as good as before. *)
Lemma sound_at_time p w time : sound p w -> sound p (at_time time w).
Proof.
  intros [Hw HT Hu Hf Hc Hlc]. split; try done. by apply (working_step w); [..|apply Hw|apply Hw].
Qed.

Lemma handled_at time c p w : sound p w -> admissible c (at_time time w) ->
  exists p1 w1, (accept time;; handle c p) w = Ok (p1, w1) /\ handled c (at_time time w) p1 w1.
Proof.
  intros Hs Ha. destruct (run_total _ _ _ (handle_ok c p _ (sound_at_time p w time Hs) Ha)) as (p1 & w1 & E & H).
  by exists p1, w1.
Qed.

(** What the clients have been sent. *)
Definition transcript (answers : list string) : list string := answers ≫= fun a => [header; a].

Lemma visits_sound p w cs p' w' : sound p w -> visits p w cs p' w' ->
  sound p' w' /\ w_open_db w' = w_open_db w /\ w_open_redis w' = w_open_redis w /\
  exists answers, w_out w' = w_out w ++ transcript answers /\
    served_all cs (tabs w) (kv w) answers (tabs w') (kv w').
Proof.
  intros Hs Hv. induction Hv as [p w|time c cs p w p1 w1 p2 w2 Ha E _ IH].
  - split; [done|]. split; [done|]. split; [done|]. exists []. split; [by rewrite app_nil_r|constructor].
  - destruct (handled_at time c p w Hs Ha) as (p1' & w1' & E' & Hs1 & Hd & Hr & answer & Ho & Hsv).
    rewrite E in E'. injection E' as <- <-.
    destruct (IH Hs1) as (Hs2 & Hd2 & Hr2 & answers & Ho2 & Hall).
    split; [done|]. split; [by rewrite Hd2, Hd|]. split; [by rewrite Hr2, Hr|]. exists (answer :: answers). split.
    + rewrite Ho2, Ho. cbn. by rewrite <- app_assoc.
    + econstructor; [exact Hsv|exact Hall].
Qed.

(** A complete configuration is read, and the first requests find empty arrays. *)
Lemma start_ok w : working w -> exists p, start w = Ok (p, w)
  /\ (at_sharefilesop p).1.2 = None /\ (at_sharefiles p).2 = None.
Proof.
  intros Hw. assert (forall cap title key, (cap, title, key) ∈ cfg_keys ->
    exists v, cfg_value cap title key w = Ok ((0, v), w)) as Hc.
  { intros cap title key Hin. pose proof (wk_cfg _ Hw) as Hc. rewrite Forall_forall in Hc. exact (Hc _ Hin). }
  destruct (Hc 128%nat "mysql" "user" ltac:(unfold cfg_keys; set_solver))%string as [u Hu].
  destruct (Hc 128%nat "mysql" "password" ltac:(unfold cfg_keys; set_solver))%string as [p Hp].
  destruct (Hc 128%nat "mysql" "database" ltac:(unfold cfg_keys; set_solver))%string as [d Hd].
  destruct (Hc 30%nat "redis" "ip" ltac:(unfold cfg_keys; set_solver))%string as [i Hi].
  destruct (Hc 10%nat "redis" "port" ltac:(unfold cfg_keys; set_solver))%string as [q Hq].
  exists (Procs (Settings u p d "" "") (Settings u p d i q, no_bufs) (Settings u p d i q, None, no_bufs)
    (Settings u p d "" "", FilesBufs None None) (Settings u p d i q, None) (Settings u p d "" "")).
  split; [|done]. unfold start. cbn [pg_start cgi_md5 cgi_filesop cgi_sharefilesop cgi_files cgi_sharefiles cgi_upload].
  unfold read_mysql_cfg, read_cfg, mbind, M_bind.
  repeat (first [rewrite Hu|rewrite Hp|rewrite Hd|rewrite Hi|rewrite Hq]; cbv beta iota delta [mret M_ret]). done.
Qed.

(** The requests to one program are a run of the loop of its process. *)
Lemma visits_one {R A} (P : program R) (get : procs -> pg_state P) (call_of : A -> call) (req_of : A -> R)
    (l : list (string * A)) p w p' w' :
  (forall a p w p1 w1, handle (call_of a) p w = Ok (p1, w1) -> pg_turn P (get p) (req_of a) w = Ok (get p1, w1)) ->
  visits p w (prod_map id call_of <$> l) p' w' ->
  serve (pg_turn P) (get p) (prod_map id req_of <$> l) w = Ok (get p', w').
Proof.
  intros Hh. revert p w. induction l as [|[time a] l IH]; intros p w Hv.
  { by inversion Hv; subst. }
  inversion Hv as [|time' c cs p0 w0 p1 w1 p2 w2 _ E Hv']; subst. cbn [serve fmap list_fmap prod_map id fst snd].
  unfold mbind, M_bind in *. destruct (accept time w) as [[[] w0]|]; [|done].
  rewrite (Hh a p w0 p1 w1 E). by apply IH.
Qed.

Lemma visits_md5 (l : list (string * (string * string * string * string))) p w p' w' :
  visits p w (prod_map id (fun '(u, tok, m, n) => CallUpload u tok m n) <$> l) p' w' ->
  serve (pg_turn cgi_md5) (at_md5 p) (prod_map id (fun '(u, tok, m, n) => post fmt (md5_doc u tok m n)) <$> l) w
    = Ok (at_md5 p', w').
Proof.
  apply (visits_one cgi_md5 at_md5). intros [[[u tok] m] n] p0 w0 p1 w1. unfold handle, mbind, M_bind.
  destruct (pg_turn cgi_md5 _ _ w0) as [[s1 w2]|]; [|done]. by intros [= <- <-].
Qed.

Lemma visits_filesop (l : list (string * (string * string * string * string))) p w p' w' :
  visits p w (prod_map id (fun '(u, tok, m, n) => CallDelete u tok m n) <$> l) p' w' ->
  serve (pg_turn cgi_filesop) (at_filesop p) (prod_map id (fun '(u, tok, m, n) => post fmt (del_doc u tok m n)) <$> l) w
    = Ok (at_filesop p', w').
Proof.
  apply (visits_one cgi_filesop at_filesop). intros [[[u tok] m] n] p0 w0 p1 w1. unfold handle, mbind, M_bind.
  destruct (pg_turn cgi_filesop _ _ w0) as [[s1 w2]|]; [|done]. by intros [= <- <-].
Qed.


End Site.
