(* ===== verification/Server.v ===== *)
(** Concrete servers that satisfy the contracts: a database that parses the text
    of a statement and executes it on tables, and a key-value store. They show
    that the contracts can be met and run the programs on concrete inputs. *)

From Stdlib Require Import ZArith Lia Bool Ascii String.
From stdpp Require Import base tactics numbers list strings gmap sorting.
From S2P Require Import Prelude Text Double CJson CJsonParse CJsonPrint World Sql Kv.

(** ** Reading a formatted text back *)

Definition is_quote (c : ascii) : bool := Ascii.eqb c "'" || Ascii.eqb c "034".
Definition is_numeral (c : ascii) : bool :=
  match char_digit c with Some _ => true | None => Ascii.eqb c "-" end.

(** The longest prefix without a character of [stop], and the rest. *)
Fixpoint break (stop : ascii -> bool) (s : string) : string * string :=
  match s with
  | EmptyString => (EmptyString, EmptyString)
  | String c s' => if stop c then (EmptyString, s)
                   else let '(a, r) := break stop s' in (String c a, r)
  end.

(** One conversion: the argument read and the text behind it. *)
Definition read_arg (k : ascii) (s : string) : rarg * string :=
  if Ascii.eqb k "s" then let '(a, r) := break is_quote s in (RS a, r)
  else let '(a, r) := break (fun c => negb (is_numeral c)) s in (RI (strtol a), r).

Fixpoint scan_fmt (fmt s : string) : option (list rarg) :=
  match fmt with
  | EmptyString => match s with EmptyString => Some [] | _ => None end
  | String c f =>
      if Ascii.eqb c "%" then
        match f with
        | String k f' =>
            let '(a, r) := read_arg k s in
            if Ascii.eqb k "l"
            then match f' with String _ f'' => cons a <$> scan_fmt f'' r | EmptyString => None end
            else cons a <$> scan_fmt f' r
        | EmptyString => None
        end
      else match s with
           | String c' s' => if Ascii.eqb c c' then scan_fmt f s' else None
           | EmptyString => None
           end
  end.

(** A format that determines its arguments: a quote behind every %s, and
    something that is no numeral behind every number. *)
Definition head_ok (stop : ascii -> bool) (f : string) (or_end : bool) : bool :=
  match f with String c _ => stop c && negb (Ascii.eqb c "%") | EmptyString => or_end end.
Fixpoint fmt_ok (fmt : string) (args : list rarg) : bool :=
  match fmt with
  | EmptyString => match args with [] => true | _ => false end
  | String c f =>
      if Ascii.eqb c "%" then
        match f, args with
        | String k f', a :: args' =>
            match a with
            | RS _ => Ascii.eqb k "s" && head_ok is_quote f' false && fmt_ok f' args'
            | RI _ => if Ascii.eqb k "l"
                      then match f' with
                           | String _ f'' =>
                               head_ok (fun c => negb (is_numeral c)) f'' true && fmt_ok f'' args'
                           | EmptyString => false
                           end
                      else Ascii.eqb k "d" &&
                           head_ok (fun c => negb (is_numeral c)) f' true && fmt_ok f' args'
            end
        | _, _ => false
        end
      else fmt_ok f args
  end.

(** The kinds of statements: a format and the statement its arguments make. *)
Definition kinds : list (string * (list rarg -> option stmt)) :=
  let k (s : stmt) mk := (stmt_fmt s, mk) in
  let r0 := UserRow "" "" "" "" "" "" in
  [ k SetNames (fun l => match l with [] => Some SetNames | _ => None end);
    k (SelPassword "") (fun l => match l with [RS a] => Some (SelPassword a) | _ => None end);
    k (SelUser "") (fun l => match l with [RS a] => Some (SelUser a) | _ => None end);
    k (InsUser r0) (fun l => match l with
      [RS a; RS b; RS c; RS d; RS e; RS f] => Some (InsUser (UserRow a b c d e f)) | _ => None end);
    k (SelFileCount "") (fun l => match l with [RS a] => Some (SelFileCount a) | _ => None end);
    k (SelFileId "") (fun l => match l with [RS a] => Some (SelFileId a) | _ => None end);
    k (UpdFileCount 0 "") (fun l => match l with [RI n; RS a] => Some (UpdFileCount n a) | _ => None end);
    k (UpdFileCount' 0 "") (fun l => match l with [RI n; RS a] => Some (UpdFileCount' n a) | _ => None end);
    k (DelFile "") (fun l => match l with [RS a] => Some (DelFile a) | _ => None end);
    k (InsFile (FileRow "" "" "" 0 "" 0)) (fun l => match l with
      [RS a; RS b; RS c; RI d; RS e; RI f] => Some (InsFile (FileRow a b c d e f)) | _ => None end);
    k (SelList "" "" "") (fun l => match l with [RS a; RS b; RS c] => Some (SelList a b c) | _ => None end);
    k (SelShared "" "" "") (fun l => match l with [RS a; RS b; RS c] => Some (SelShared a b c) | _ => None end);
    k (SelPv "" "" "") (fun l => match l with [RS a; RS b; RS c] => Some (SelPv a b c) | _ => None end);
    k (InsList (ListRow "" "" "" "" 0 0)) (fun l => match l with
      [RS a; RS b; RS c; RS d; RI e; RI f] => Some (InsList (ListRow a b c d e f)) | _ => None end);
    k (UpdShared1 "" "" "") (fun l => match l with [RS a; RS b; RS c] => Some (UpdShared1 a b c) | _ => None end);
    k (UpdShared0 "" "" "") (fun l => match l with [RS a; RS b; RS c] => Some (UpdShared0 a b c) | _ => None end);
    k (UpdPv 0 "" "" "") (fun l => match l with [RI n; RS a; RS b; RS c] => Some (UpdPv n a b c) | _ => None end);
    k (DelList "" "" "") (fun l => match l with [RS a; RS b; RS c] => Some (DelList a b c) | _ => None end);
    k (SelCount "") (fun l => match l with [RS a] => Some (SelCount a) | _ => None end);
    k (SelCount' "") (fun l => match l with [RS a] => Some (SelCount' a) | _ => None end);
    k (InsCount "" 0) (fun l => match l with [RS a; RI n] => Some (InsCount a n) | _ => None end);
    k (InsCount' "" 0) (fun l => match l with [RS a; RI n] => Some (InsCount' a n) | _ => None end);
    k (UpdCount 0 "") (fun l => match l with [RI n; RS a] => Some (UpdCount n a) | _ => None end);
    k (DelCount "") (fun l => match l with [RS a] => Some (DelCount a) | _ => None end);
    k (SelShare "" "") (fun l => match l with [RS a; RS b] => Some (SelShare a b) | _ => None end);
    k (SelSharePv "" "") (fun l => match l with [RS a; RS b] => Some (SelSharePv a b) | _ => None end);
    k (InsShare (ShareRow "" "" "" "" 0)) (fun l => match l with
      [RS a; RS b; RS c; RS d; RI n] => Some (InsShare (ShareRow a b c d n)) | _ => None end);
    k (UpdSharePv 0 "" "") (fun l => match l with [RI n; RS a; RS b] => Some (UpdSharePv n a b) | _ => None end);
    k (DelShare "" "" "") (fun l => match l with [RS a; RS b; RS c] => Some (DelShare a b c) | _ => None end);
    k (SelFiles "") (fun l => match l with [RS a] => Some (SelFiles a) | _ => None end);
    k SelShareRank (fun l => match l with [] => Some SelShareRank | _ => None end);
    k (SelShareFiles 0 0) (fun l => match l with [RI s; RI c] => Some (SelShareFiles s c) | _ => None end) ].

Fixpoint parse_with (ks : list (string * (list rarg -> option stmt))) (s : string) : option stmt :=
  match ks with
  | [] => None
  | (f, mk) :: ks =>
      match scan_fmt f s with
      | Some args => mk args
      | None => parse_with ks s
      end
  end.
Definition parse_stmt (s : string) : option stmt := parse_with kinds s.

(** ** The parser reads statements back *)

Lemma break_app stop a r : forallb (fun c => negb (stop c)) (list_ascii_of_string a) = true ->
  match r with String c _ => stop c = true | EmptyString => True end ->
  break stop (a +:+ r) = (a, r).
Proof.
  intros Ha Hr. induction a as [|c a IH].
  - change ("" +:+ r) with r. destruct r as [|c r]; [done|]. cbn. by rewrite Hr.
  - change (String c a +:+ r) with (String c (a +:+ r)). cbn [list_ascii_of_string forallb] in Ha.
    apply andb_true_iff in Ha as [Hc Ha]. apply negb_true_iff in Hc.
    cbn [break]. by rewrite Hc, (IH Ha).
Qed.

Lemma quote_free_break s : quote_free s = true ->
  forallb (fun c => negb (is_quote c)) (list_ascii_of_string s) = true.
Proof.
  unfold quote_free. rewrite !forallb_forall. intros Hs c Hc. specialize (Hs c Hc).
  unfold is_quote. rewrite !negb_orb in *. by apply andb_true_iff in Hs as [? _].
Qed.

Lemma digits_numeral fuel n acc : 0 <= n ->
  forallb is_numeral (list_ascii_of_string acc) = true ->
  forallb is_numeral (list_ascii_of_string (digits fuel n acc)) = true.
Proof.
  revert n acc. induction fuel as [|fuel IH]; intros n acc Hn Ha; [done|]. cbn [digits].
  destruct (Z.ltb_spec n 10).
  - cbn. unfold is_numeral at 1. rewrite char_digit_char by lia. done.
  - apply IH; [apply Z.div_pos; lia|]. cbn. unfold is_numeral at 1.
    pose proof (Z.mod_pos_bound n 10). by rewrite char_digit_char by lia.
Qed.

Lemma dec_numeral n : forallb is_numeral (list_ascii_of_string (dec n)) = true.
Proof.
  unfold dec. destruct (Z.ltb_spec n 0); [|by apply digits_numeral].
  change (forallb is_numeral (list_ascii_of_string (digits 20 (- n) "")) = true).
  apply digits_numeral; [lia|done].
Qed.

Lemma read_arg_num r n : num_ok n = true ->
  match r with String c _ => negb (is_numeral c) = true | EmptyString => True end ->
  (let '(a, r) := break (fun c => negb (is_numeral c)) (dec n +:+ r) in (RI (strtol a), r)) = (RI n, r).
Proof.
  intros Hn Hr. rewrite break_app; [|..|done].
  - f_equal. f_equal. apply strtol_dec. unfold num_ok in Hn. apply andb_true_iff in Hn as [H1 H2].
    apply Z.ltb_lt in H1, H2. done.
  - pose proof (dec_numeral n) as Hd. rewrite forallb_forall in *. intros c Hc. cbn.
    by rewrite negb_involutive, Hd.
Qed.

(** The head of a formatted text is the head of the format when that is a
    literal. *)
Lemma cformat_head stop f args or_end : head_ok stop f or_end = true ->
  match cformat f args with String c _ => stop c = true | EmptyString => True end.
Proof.
  destruct f as [|c f]; [done|]. cbn [head_ok cformat].
  destruct (Ascii.eqb c "%"); [by rewrite andb_false_r|]. by rewrite andb_true_r.
Qed.

Lemma scan_cformat fmt args : fmt_ok fmt args = true -> forallb arg_safe args = true ->
  scan_fmt fmt (cformat fmt args) = Some args.
Proof.
  remember (String.length fmt) as n eqn:En. revert fmt args En.
  induction n as [n IH] using lt_wf_ind. intros [|c f] args -> Hok Hs; cbn [fmt_ok] in Hok.
  { by destruct args. }
  cbn [cformat scan_fmt]. destruct (Ascii.eqb c "%").
  - destruct f as [|k f']; [done|]. destruct args as [|a args]; [done|].
    cbn [forallb] in Hs. apply andb_true_iff in Hs as [Ha Hs]. destruct a as [s|m].
    + apply andb_true_iff in Hok as [Hok1 Hok]. apply andb_true_iff in Hok1 as [Hk Hh].
      apply Ascii.eqb_eq in Hk as ->. cbn [Ascii.eqb Bool.eqb arg_text]. unfold read_arg. cbn [Ascii.eqb Bool.eqb].
      rewrite break_app by (first [by apply quote_free_break | by eapply cformat_head]).
      rewrite (IH (String.length f')); [done|cbn; lia|done..].
    + unfold read_arg. destruct (Ascii.eqb_spec k "l") as [->|Hk].
      * destruct f' as [|k' f'']; [done|]. apply andb_true_iff in Hok as [Hh Hok].
        cbn [Ascii.eqb Bool.eqb arg_text]. rewrite (read_arg_num _ m) by (first [done | by eapply cformat_head]).
        rewrite (IH (String.length f'')); [done|cbn; lia|done..].
      * apply andb_true_iff in Hok as [Hok1 Hok]. apply andb_true_iff in Hok1 as [Hd Hh].
        apply Ascii.eqb_eq in Hd as ->. cbn [Ascii.eqb Bool.eqb arg_text].
        rewrite (read_arg_num _ m) by (first [done | by eapply cformat_head]).
        rewrite (IH (String.length f')); [done|cbn; lia|done..].
  - rewrite Ascii.eqb_refl. apply IH with (m := String.length f); [cbn; lia|done..].
Qed.

Lemma parse_skip f mk ks s : scan_fmt f s = None -> parse_with ((f, mk) :: ks) s = parse_with ks s.
Proof. cbn. by intros ->. Qed.
Lemma parse_hit f mk ks args : fmt_ok f args = true -> forallb arg_safe args = true ->
  parse_with ((f, mk) :: ks) (cformat f args) = mk args.
Proof. intros H1 H2. cbn [parse_with]. by rewrite scan_cformat. Qed.

Lemma parse_render st : stmt_safe st = true -> parse_stmt (render st) = Some st.
Proof.
  intros Hs. unfold parse_stmt, kinds, render.
  destruct st; try discriminate Hs; cbn [stmt_safe] in Hs;
    repeat (rewrite parse_skip by reflexivity);
    rewrite parse_hit by (done || reflexivity); try reflexivity.
  all: by destruct r.
Qed.

Lemma parse_page start count : num_ok start = true -> num_ok count = true ->
  parse_stmt (render (SelShareFiles start count)) = Some (SelShareFiles start count).
Proof.
  intros Hs Hc. unfold parse_stmt, kinds, render.
  repeat (rewrite parse_skip by reflexivity). rewrite parse_hit; [done|done|]. cbn. by rewrite Hs, Hc.
Qed.

(** ** The servers *)

Definition reply_of (st : stmt) (T : tables) : sql_reply :=
  match st with
  | SelShareFiles start count => QRows (take (Z.to_nat count) (drop (Z.to_nat start) (share_rows T)))
  | _ => match stmt_rows st T with Some rows => QRows rows | None => QDone end
  end.

Definition local_mysql (T : tables) (q : string) : tables * sql_reply :=
  match parse_stmt q with
  | Some st => (stmt_effect st T, reply_of st T)
  | None => (T, QError)
  end.

Definition command_of (fmt : string) (args : list rarg) : option command :=
  let eqf (c : command) := String.eqb fmt (command_fmt c) in
  match args with
  | [RS k] =>
      if eqf (CGet "") then Some (CGet k) else if eqf (CExists "") then Some (CExists k) else
      if eqf (CDel "") then Some (CDel k) else if eqf (CZcard "") then Some (CZcard k) else None
  | [RS k; RS v] =>
      if eqf (CSet "" "") then Some (CSet k v) else if eqf (CZrem "" "") then Some (CZrem k v) else
      if eqf (CZscore "" "") then Some (CZscore k v) else
      if eqf (CZincrby "" "") then Some (CZincrby k v) else
      if eqf (CHget "" "") then Some (CHget k v) else if eqf (CHdel "" "") then Some (CHdel k v) else None
  | [RS k; RI n; RS v] =>
      if eqf (CSetex "" 0 "") then Some (CSetex k n v) else
      if eqf (CZadd "" 0 "") then Some (CZadd k n v) else None
  | [RS k; RS a; RS b] =>
      if eqf (CZlexcount "" "") then Some (CZlexcount k a) else
      if eqf (CHset "" "" "") then Some (CHset k a b) else None
  | _ => None
  end.

(** The positions of [ZREVRANGE], which count from the end when negative. *)
Definition position (n : nat) (i : Z) : nat := Z.to_nat (if i <? 0 then Z.of_nat n + i else i).
Definition revrange (k : keyspace) (key : string) (from to : Z) : redisReply :=
  match zset_at k key with
  | None => wrong_type
  | Some z =>
      let l := merge_sort falling (map_to_list z) in
      let i := position (length l) from in
      RArray ((fun p => RString p.1) <$> take (S (position (length l) to) - i) (drop i l))
  end.

Definition local_redis (k : keyspace) (fmt : string) (args : list rarg) : keyspace * option redisReply :=
  match args with
  | [RS key; RI from; RI to] =>
      (k, Some (if String.eqb fmt "ZREVRANGE %s %d %d" then revrange k key from to
                else RErrorReply "ERR unknown command"))
  | _ =>
  match command_of fmt args with
  | Some c => let '(k', r) := run_command c k in (k', Some r)
  | None => (k, Some (RErrorReply "ERR unknown command"))
  end end.

(** Both servers in one process, with a storage that logs its commands and
    answers the tools with [tool]. *)
Definition local_services (tool : list string -> string) : Services := {|
  Db := tables;
  Rd := keyspace;
  Sys := list string;
  mysql_init := fun _ => true;
  mysql_real_connect := fun _ _ _ _ => true;
  mysql_exec := local_mysql;
  redis_connect := fun _ _ _ => LinkOk;
  redis_exec := local_redis;
  redis_append := fun k _ _ => (k, 0);
  redis_get_reply := fun k => (k, 0);
  system_run := fun s cmd => (s ++ [cmd], 0);
  spawn_ok := fun _ => true;
  run_tool := fun s argv => (s, tool argv)
|}.

#[export, refine] Instance local_sql tool : @SqlServer (local_services tool) := {
  db_tables := fun T => T;
  serving := fun _ => True
}.
Proof.
  - intros db st Hs. cbn. unfold local_mysql. rewrite parse_render by done. right. split; [done|].
    destruct st; try discriminate Hs; unfold reply_of, reply_for; by destruct (stmt_rows _ db).
  - intros db st _ Hs. cbn. unfold local_mysql. rewrite parse_render by done. split; [|done].
    destruct st; try discriminate Hs; unfold reply_of; by destruct (stmt_rows _ db).
Defined.

#[export, refine] Instance local_paging tool : @SqlPaging _ (local_sql tool) := {}.
Proof.
  - intros db start count Hs Hc _ _. cbn [mysql_exec local_services]. unfold local_mysql.
    rewrite parse_page by (by apply num_ok_int). split; [done|]. right. by exists (share_rows db).
  - intros db start count _ Hs Hc _ _. cbn [mysql_exec local_services]. unfold local_mysql.
    by rewrite parse_page by (by apply num_ok_int).
Defined.

#[export, refine] Instance local_kv tool : @RedisServer (local_services tool) := {
  keys := fun k => k;
  answering := fun _ => True
}.
Proof.
  - intros k c _. cbn. assert (local_redis k (command_fmt c) (command_args c) =
      let '(k', r) := run_command c k in (k', Some r)) as -> by (by destruct c).
    destruct (run_command c k). by left.
  - intros k fmt args _. cbn. unfold local_redis. repeat case_match; by simplify_eq.
Defined.

#[export, refine] Instance local_ranking tool : @RedisRanking _ (local_kv tool) := {}.
Proof.
  intros k key from to Hf Ht _. cbn. split; [done|]. right. unfold revrange.
  destruct (zset_at k key) as [z|]; [|done]. exists (merge_sort falling (map_to_list z)). split.
  - split; [apply merge_sort_Permutation|]. apply Sorted_merge_sort. intros p q. unfold falling. lia.
  - unfold position. destruct (Z.ltb_spec from 0), (Z.ltb_spec to 0); try lia.
    do 4 f_equal. lia.
Defined.
