(* ===== verification/Witnesses.v ===== *)
(** Concrete runs: the theorems about the CGI programs applied on the servers of
    Server.v, which discharge every hypothesis. *)

From Stdlib Require Import ZArith Lia Bool Ascii String.
From stdpp Require Import base tactics numbers list strings gmap sets.
From S2P Require Import Prelude Base64 Md5 Des CString CgiUtil Text Double CJson CJsonParse.
From S2P Require Import CJsonPrint CJsonRoundtrip World MysqlOp RedisOp Sql Kv CgiCommon Logic.
From S2P Require Import MakeLog Catalogue Login Register FastUpload FilesOp Upload Files.
From S2P Require Import ShareOps Race Interleave Requests Process Session Site UploadMain System Server.

(** ** The installation *)

(** A JSON text written with single quotes. *)
Definition json (s : string) : string := text_of ((fun c => if c =? 39 then 34 else c) <$> bytes_of s).

(** conf/cfg.json, and the body of a registration. *)
Definition cfg_text : string := json
  "{ 'redis': {'ip': '127.0.0.1', 'port': '6379'},
     'mysql': {'user': 'root', 'password': 'secret', 'database': 'cloud'},
     'dfs_path': {'client': '/etc/fdfs/client.conf'},
     'storage_web_server': {'port': '80'} }".
Definition reg_text : string := json
  "{'userName':'carol', 'nickName':'C', 'firstPwd':'pw3', 'phone':'555', 'email':'c@d.e'}".

(** The tools of the storage. *)
Definition demo_tool (argv : list string) : string :=
  match argv with
  | "fdfs_upload_file" :: _ => "group1/M00/3.txt" +:+ newline
  | "fdfs_file_info" :: _ => "source storage id: 0" +:+ newline +:+ "source ip address: 10.0.0.1" +:+ newline
                             +:+ "file size: 4" +:+ newline
  | _ => ""
  end%string.

#[local] Instance demo : Services := local_services demo_tool.

Definition demo_tables : tables := Tables
  [UserRow "alice" "A" "pw1" "1" "t0" "a@d.e"; UserRow "bob" "B" "pw2" "2" "t0" "b@d.e"]
  [FileRow "m1" "group1/M00/1.txt" "http://h:80/1" 7 "txt" 2; FileRow "m2" "group1/M00/2.png" "http://h:80/2" 9 "png" 1]
  [ListRow "alice" "m1" "t1" "a.txt" 0 0; ListRow "bob" "m1" "t2" "b.txt" 0 0; ListRow "bob" "m2" "t3" "c.png" 0 0]
  [CountRow "alice" 1; CountRow "bob" 2] [].

Definition demo_kv : keyspace := {["alice" := VStr "token"]}.

Definition w0 : world :=
  World demo demo_tables demo_kv [] {[CFG_PATH := cfg_text]} "2020-08-08 12:00:00" [] 0 0.

Definition demo_cfg : settings := Settings "root" "secret" "cloud" "127.0.0.1" "6379".

Lemma demo_consistent : consistent (tabs w0).
Proof. by_decide. Qed.

Lemma demo_args u m n : quote_free u = true -> quote_free m = true -> quote_free n = true ->
  (String.length u + String.length m + String.length n <= 200)%nat ->
  args_ok u m n (w_now w0).
Proof. intros. split; [done..|]. cbn. lia. Qed.

(** Reading the configuration. *)
Lemma demo_cfg_value cap a b v : cfg_source (w_fs w0) a b = Some (Some v) -> fits cap v = true ->
  cfg_value cap a b w0 = Ok ((0, v), w0).
Proof. intros E1 E2. rewrite cfg_value_eq, E1, E2. done. Qed.

(** ** Digest upload *)

(** bob's "m2" for alice: a third reference. *)
Lemma deal_md5_refines_witness :
  exists ret w', deal_md5 demo_cfg "alice" "m2" "x.png" w0 = Ok (ret, w')
    /\ consistent (tabs w') /\ kv w' = kv w0
    /\ w_open_db w' = w_open_db w0 /\ w_open_redis w' = w_open_redis w0
    /\ w_out w' = w_out w0 ++ [md5_reply ret]
    /\ ((ret = -3 /\ tabs w' = tabs w0 /\ "m2" ∉ f_md5 <$> t_file (tabs w0)) \/
        (ret = -2 /\ tabs w' = tabs w0 /\ ("alice", "m2", "x.png") ∈ entry <$> t_list (tabs w0)) \/
        (ret = 0 /\ tabs w' = add_reference (new_entry "alice" "m2" "x.png" (w_now w0)) (tabs w0)
         /\ "m2" ∈ f_md5 <$> t_file (tabs w0) /\ ("alice", "m2", "x.png") ∉ entry <$> t_list (tabs w0)))%string.
Proof.
  apply (deal_md5_refines demo_cfg "alice" "m2" "x.png" w0).
  - by apply demo_args; [..|cbn; lia].
  - done.
  - reflexivity.
  - exact demo_consistent.
  - vm_compute. reflexivity.
  - by_decide.
Defined.

(** A digest with a quote: the statement is malformed and refused. *)
Lemma deal_md5_error_is_success_witness :
  exists w', deal_md5 demo_cfg "alice" "a'b" "x.png" w0 = Ok (0, w') /\ w_db w' = demo_tables
    /\ w_out w' = w_out w0 ++ [return_status "005"].
Proof.
  apply (deal_md5_error_is_success demo_cfg "alice" "a'b" "x.png" w0 demo_tables demo_tables QDone).
  - reflexivity.
  - vm_compute. reflexivity.
  - vm_compute. reflexivity.
  - cbn. lia.
Defined.

(** ** Deletion *)

Lemma demo_storage : storage_ready w0.
Proof. split; [exists (0, "/etc/fdfs/client.conf"); apply demo_cfg_value; reflexivity | done]. Qed.

Lemma demo_unshared u m n : unshared u m n w0.
Proof.
  split; [exists ∅; done|]. cbn. intros r Hr _.
  by repeat (apply elem_of_cons in Hr as [->|Hr]; [done|]); apply elem_of_nil in Hr.
Qed.

Lemma demo_ids f : f ∈ t_file (tabs w0) -> (String.length (f_id f) <= 511)%nat.
Proof.
  cbn. intros Hr. repeat (apply elem_of_cons in Hr as [->|Hr]; [cbn; lia|]). by apply elem_of_nil in Hr.
Qed.

Lemma del_file_refines_witness :
  exists w', del_file demo_cfg "bob" "m2" "c.png" w0 = Ok (0, w')
    /\ tabs w' = drop_reference "bob" "m2" "c.png" (tabs w0) /\ consistent (tabs w')
    /\ ("bob", "m2", "c.png")%string ∉ entry <$> t_list (tabs w')
    /\ kv w' = kv w0 /\ w_open_db w' = w_open_db w0 /\ w_open_redis w' = w_open_redis w0
    /\ w_out w' = w_out w0 ++ [return_status "013"].
Proof.
  apply (del_file_refines demo_cfg "bob" "m2" "c.png" w0).
  - by apply demo_args; [..|cbn; lia].
  - done.
  - done.
  - reflexivity.
  - reflexivity.
  - exact demo_storage.
  - exact demo_consistent.
  - vm_compute. reflexivity.
  - exact demo_ids.
  - exact (demo_unshared _ _ _).
  - by_decide.
Defined.

(** alice "deletes" bob's content. *)
Lemma del_file_not_owned_witness :
  exists w', del_file demo_cfg "alice" "m2" "c.png" w0 = Ok (0, w')
    /\ t_list (tabs w') = t_list (tabs w0) /\ ~ consistent (tabs w')
    /\ w_out w' = w_out w0 ++ [return_status "013"].
Proof.
  apply (del_file_not_owned demo_cfg "alice" "m2" "c.png" w0).
  - by apply demo_args; [..|cbn; lia].
  - done.
  - done.
  - reflexivity.
  - reflexivity.
  - exact demo_storage.
  - exact demo_consistent.
  - vm_compute. reflexivity.
  - exact demo_ids.
  - exact (demo_unshared _ _ _).
  - exists (ListRow "alice" "m1" "t1" "a.txt" 0 0). split; [left|done].
  - by_decide.
  - by_decide.
Defined.

(** ** Login and registration *)

#[local] Existing Instance LP64.

Definition demo_env : token_env :=
  TokenEnv (1804289383, 846930886, 1681692777, 1714636915) (MkStack [] (fun _ => [])) (replicate 64 0) true.


Lemma verify_token_sound_witness :
  kv w0 !! "alice" = Some (VStr "token") /\ kv w0 = kv w0 /\ w_open_redis w0 = w_open_redis w0.
Proof. apply (verify_token_sound "alice" "token" w0 w0). reflexivity. Defined.



(** ** Upload *)

(** A form with a four byte file. *)
Definition demo_boundary : list Z := bytes_of "--X1".
Definition demo_body : list Z :=
  multipart demo_boundary (bytes_of "h1") (info_line (bytes_of "alice") (bytes_of "d.txt") (bytes_of "m3") (bytes_of "4"))
    (bytes_of "h2") (bytes_of "h3") [0; 13; 10; 255] (bytes_of "--").


Definition demo_form (filename : string) : form :=
  Form demo_boundary (bytes_of "h1") (bytes_of "h2") (bytes_of "h3") (bytes_of "alice") (bytes_of filename)
    (bytes_of "m3") (bytes_of "4") [0; 13; 10; 255] (bytes_of "--").
Definition demo_upload_env : upload_env := UploadEnv true true [] 4 (replicate 8 0).

Lemma demo_form_ok filename : filename ∈ ["d.txt"; CFG_PATH]%string -> form_ok (demo_form filename).
Proof.
  intros Hin. repeat (apply elem_of_cons in Hin as [->|Hin];
    [split; try by_decide; try (cbn; unfold USER_NAME_LEN, FILE_NAME_LEN, MD5_LEN, TEMP_BUF_MAX_LEN; lia)|]).
  by apply not_elem_of_nil in Hin.
Qed.

Lemma demo_tools : tools_ok "d.txt" "group1/M00/3.txt" "10.0.0.1".
Proof.
  split; try done; try by_decide; try (cbn; unfold TEMP_BUF_MAX_LEN, HOST_NAME_LEN; lia).
  exists ("source storage id: 0" +:+ newline)%string, ("file size: 4" +:+ newline)%string.
  split; [done|]. split; [by_decide|]. split; [reflexivity|]. apply Nat.ltb_lt. vm_compute. reflexivity.
Qed.

Lemma demo_store u m : quote_free u = true -> quote_free m = true ->
  (String.length u + String.length m <= 100)%nat ->
  store_ok u "d.txt" m 4 "group1/M00/3.txt" "http://h:80/3" w0.
Proof.
  intros Hu Hm Hl. split; try done.
  - apply demo_args; try done. change (String.length "d.txt") with 5%nat. lia.
  - change (String.length "group1/M00/3.txt") with 16%nat. change (String.length "http://h:80/3") with 13%nat. lia.
  - by_decide.
  - by_decide.
Qed.

Lemma store_fileinfo_refines_witness :
  exists w', store_fileinfo_to_mysql demo_cfg "alice" "d.txt" "m3" 4 "group1/M00/3.txt" "http://h:80/3"
               (replicate 8 0) w0 = Ok (0, w')
    /\ tabs w' = add_content (stored_row "d.txt" "m3" 4 "group1/M00/3.txt" "http://h:80/3")
                   (new_entry "alice" "m3" "d.txt" (w_now w0)) (tabs w0)
    /\ consistent (tabs w') /\ kv w' = kv w0 /\ w_out w' = w_out w0
    /\ w_open_db w' = w_open_db w0 /\ w_open_redis w' = w_open_redis w0.
Proof.
  apply (store_fileinfo_refines demo_cfg "alice" "d.txt" "m3" 4 "group1/M00/3.txt" "http://h:80/3" (replicate 8 0) w0).
  - by apply demo_store; [..|cbn; lia].
  - reflexivity.
  - done.
  - reflexivity.
  - exact demo_consistent.
  - vm_compute. reflexivity.
  - by_decide.
  - by_decide.
Defined.

Lemma store_fileinfo_duplicate_witness :
  exists w', store_fileinfo_to_mysql demo_cfg "alice" "d.txt" "m2" 4 "group1/M00/3.txt" "http://h:80/3"
               (replicate 8 0) w0 = Ok (0, w') /\ ~ consistent (tabs w').
Proof.
  apply (store_fileinfo_duplicate demo_cfg "alice" "d.txt" "m2" 4 "group1/M00/3.txt" "http://h:80/3" (replicate 8 0) w0).
  - by apply demo_store; [..|cbn; lia].
  - reflexivity.
  - done.
  - reflexivity.
  - exact demo_consistent.
  - vm_compute. reflexivity.
  - by_decide.
  - by_decide.
Defined.

(** ** Logging *)

Definition demo_fs : log_fs := LogFs {[ [] ]} ∅.
Definition demo_tm : tm := Tm 120 7 8 12 0 0.

Lemma dumpmsg_appends_witness :
  exists fs', dumpmsg_to_file demo_fs demo_tm "cgi" "upload" "f.c" 7 "hello" = Ok (0, fs')
    /\ dirs fs' = dirs demo_fs ∪ list_to_set (dir_chain "cgi" demo_tm)
    /\ files fs' = <[path_of (log_path "cgi" "upload" demo_tm) :=
         default ""%string (files demo_fs !! path_of (log_path "cgi" "upload" demo_tm))
           +:+ log_line demo_tm "f.c" 7 "hello"]> (files demo_fs).
Proof.
  apply (dumpmsg_appends demo_fs demo_tm "cgi" "upload" "f.c" "hello" 7).
  - by_decide.
  - by_decide.
  - vm_compute. split; congruence.
  - vm_compute. split; congruence.
  - vm_compute. split; congruence.
  - cbn. lia.
  - reflexivity.
  - split; [by_decide | | done]. cbn. intros p ->%elem_of_singleton. by_decide.
  - by_decide.
Defined.

Definition long_mesg : string := string_of_list_ascii (replicate 4096 "x"%char).

Lemma dumpmsg_overflow_witness :
  dumpmsg_to_file demo_fs demo_tm "cgi" "upload" "f.c" 7 long_mesg = Undef OutOfBounds.
Proof. apply dumpmsg_overflow. apply Nat.leb_le. vm_compute. reflexivity. Defined.

(** ** Shares *)

Lemma share_file_refines_witness :
  exists w', share_file demo_cfg "bob" "m2" "c.png" w0 = Ok (0, w')
    /\ tabs w' = add_share "bob" "m2" "c.png" (w_now w0) (tabs w0) /\ consistent (tabs w')
    /\ kv w' = share_keys "m2" "c.png" ∅ ∅ (kv w0)
    /\ w_open_db w' = w_open_db w0 /\ w_open_redis w' = w_open_redis w0
    /\ w_out w' = w_out w0 ++ [return_status "010"].
Proof.
  apply (share_file_refines demo_cfg "bob" "m2" "c.png" w0 ∅ ∅); try done.
  - by apply demo_args; [..|cbn; lia].
  - exact demo_consistent.
  - by_decide.
Defined.

Lemma share_cancel_roundtrip_witness :
  exists w1 w2, share_file demo_cfg "bob" "m2" "c.png" w0 = Ok (0, w1)
    /\ cancel_share_file demo_cfg "bob" "m2" "c.png" w1 = Ok (0, w2)
    /\ tabs w2 = tabs w0
    /\ zset_at (kv w2) FILE_PUBLIC_ZSET = Some ∅ /\ hash_at (kv w2) FILE_NAME_HASH = Some ∅
    /\ forall key, key <> FILE_PUBLIC_ZSET -> key <> FILE_NAME_HASH -> kv w2 !! key = kv w0 !! key.
Proof.
  apply (share_cancel_roundtrip demo_cfg "bob" "m2" "c.png" w0 ∅ ∅); try done.
  - by apply demo_args; [..|cbn; lia].
  - exact demo_consistent.
  - by_decide.
  - cbn. intros r Hr _. by repeat (apply elem_of_cons in Hr as [->|Hr]; [done|]); apply elem_of_nil in Hr.
  - intros _. by_decide.
Defined.

(** bob's "c.png" is public. *)
Definition shared_world : world :=
  World demo (add_share "bob" "m2" "c.png" "t4" demo_tables) (share_keys "m2" "c.png" ∅ ∅ demo_kv) []
    (w_fs w0) (w_now w0) [] 0 0.

Lemma cancel_share_refines_witness :
  exists w', cancel_share_file demo_cfg "bob" "m2" "c.png" shared_world = Ok (0, w')
    /\ tabs w' = drop_share "bob" "m2" "c.png" (tabs shared_world) /\ consistent (tabs w')
    /\ kv w' = unshare_keys "m2" "c.png" {["m2c.png"%string := 0]} {["m2c.png"%string := "c.png"%string]} (kv shared_world)
    /\ w_open_db w' = w_open_db shared_world /\ w_open_redis w' = w_open_redis shared_world
    /\ w_out w' = w_out shared_world ++ [return_status "018"].
Proof.
  apply (cancel_share_refines demo_cfg "bob" "m2" "c.png" shared_world _ _ (ShareRow "bob" "m2" "t4" "c.png" 0));
    try done.
  - by apply demo_args; [..|cbn; lia].
  - by_decide.
  - by_decide.
Defined.

(** alice keeps a copy of bob's file. *)
Lemma save_file_refines_witness :
  exists ret w', save_file demo_cfg "alice" "m2" "c.png" shared_world = Ok (ret, w')
    /\ consistent (tabs w') /\ kv w' = kv shared_world
    /\ w_open_db w' = w_open_db shared_world /\ w_open_redis w' = w_open_redis shared_world
    /\ ((ret = -2 /\ tabs w' = tabs shared_world /\ ("alice", "m2", "c.png")%string ∈ entry <$> t_list (tabs shared_world)
          /\ w_out w' = w_out shared_world ++ [return_status "021"]) \/
        (ret = -1 /\ tabs w' = tabs shared_world /\ ("alice", "m2", "c.png")%string ∉ entry <$> t_list (tabs shared_world)
          /\ "m2"%string ∉ f_md5 <$> t_file (tabs shared_world) /\ w_out w' = w_out shared_world ++ [return_status "022"]) \/
        (ret = 0 /\ tabs w' = add_reference (new_entry "alice" "m2" "c.png" (w_now shared_world)) (tabs shared_world)
          /\ ("alice", "m2", "c.png")%string ∉ entry <$> t_list (tabs shared_world)
          /\ "m2"%string ∈ f_md5 <$> t_file (tabs shared_world) /\ w_out w' = w_out shared_world ++ [return_status "020"])).
Proof.
  apply (save_file_refines demo_cfg "alice" "m2" "c.png" shared_world); try done.
  - by apply demo_args; [..|cbn; lia].
  - by_decide.
Defined.

(** ** Listing *)


(** ** Requests *)

(** The worlds after a printed header. *)
Definition header : string := "Content-type: text/html" +:+ crlf +:+ crlf.
Definition printed (l : list string) : world := set_out l w0.

(** A guessed token is turned away. *)
Definition guess_text : string := json
  "{'user':'alice', 'md5':'m2', 'fileName':'x.png', 'filename':'x.png', 'token':'guess'}".
Definition guess_request : request := Request (Some (dec (Z.of_nat (String.length guess_text)))) guess_text.

Lemma md5_main_authorised_witness :
  tabs (printed [header; return_status "111"]) = tabs w0 \/ authorised guess_request w0.
Proof.
  apply (md5_main_authorised demo_cfg guess_request w0). reflexivity.
Defined.

Definition guess_bufs : op_bufs := OpBufs (Some "alice") (Some "guess") (Some "m2") (Some "x.png")%string.

Lemma filesop_main_authorised_witness :
  (tabs (printed [header; return_status "111"]) = tabs w0 /\ kv (printed [header; return_status "111"]) = kv w0) \/
  authorised_bufs guess_bufs w0.
Proof.
  apply (filesop_main_authorised demo_cfg (OpBufs None None None None) guess_bufs guess_request w0).
  reflexivity.
Defined.


(** ** Histories *)

(** alice adds bob's picture by its digest. *)
Definition digest_world : world :=
  World demo (add_reference (new_entry "alice" "m2" "x.png" (w_now w0)) demo_tables) demo_kv []
    (w_fs w0) (w_now w0) [return_status "005"] 0 0.

Lemma demo_digest : steps demo_cfg w0 [OpDigest "alice" "m2" "x.png"] digest_world.
Proof.
  eapply (steps_op _ _ _ digest_world); [|apply steps_nil]. apply (step_op _ _ 0); [by split|by vm_compute| |].
  - split; [by apply demo_args; [..|cbn; lia]|by_decide].
  - reflexivity.
Qed.


(** and deletes it again. *)
Lemma history_progress_witness :
  exists w2, steps demo_cfg w0 ([OpDigest "alice" "m2" "x.png"] ++ [OpDelete "alice" "m2" "x.png"]) w2.
Proof.
  apply (history_progress demo_cfg w0 digest_world); [exact demo_consistent|exact demo_digest|by split|by vm_compute|].
  split; [by apply demo_args; [..|cbn; lia]|].
  split; [split; [exists (0, "/etc/fdfs/client.conf"%string); apply (cfg_value_fs _ _ _ w0); [done|];
                  apply demo_cfg_value; reflexivity | done]|].
  split; [split; [by exists ∅|]|split].
  - cbn. intros r Hr _. by repeat (apply elem_of_cons in Hr as [->|Hr]; [done|]); apply elem_of_nil in Hr.
  - apply Forall_forall. by_decide.
  - by_decide.
Defined.

(** alice and a new user add bob's picture at the same time. *)
Lemma fast_upload_race_witness :
  exists w', upload_race "alice" "x.png" "dave" "y.png" "m2" w0 = Ok ((0, 0), w')
    /\ refs "m2" (t_list (tabs w')) = S (S (refs "m2" (t_list (tabs w0))))
    /\ (forall f, f ∈ t_file (tabs w') -> f_md5 f = "m2"%string -> f_count f = Z.of_nat (refs "m2" (t_list (tabs w0))) + 1)
    /\ ~ consistent (tabs w').
Proof.
  apply (fast_upload_race "alice" "x.png" "dave" "y.png" "m2" w0).
  - by apply demo_args; [..|cbn; lia].
  - by apply demo_args; [..|cbn; lia].
  - done.
  - exact demo_consistent.
  - vm_compute. reflexivity.
  - by_decide.
  - by_decide.
  - by_decide.
  - by_decide.
  - by_decide.
Defined.

(** bob deletes his picture while alice adds it. *)
Lemma upload_delete_loses_witness :
  exists w', upload_delete_race "alice" "x.png" "m2" "bob" "c.png" w0 = Ok ((0, 0), w')
    /\ ("alice", "m2", "x.png")%string ∈ entry <$> t_list (tabs w') /\ "m2"%string ∉ f_md5 <$> t_file (tabs w')
    /\ ~ consistent (tabs w').
Proof.
  apply (upload_delete_loses "alice" "x.png" "m2" "bob" "c.png" w0).
  - by apply demo_args; [..|cbn; lia].
  - by apply demo_args; [..|cbn; lia].
  - done.
  - done.
  - split; [|done]. eexists. apply demo_cfg_value; vm_compute; reflexivity.
  - exact demo_consistent.
  - vm_compute. reflexivity.
  - intros f Hf. vm_compute in Hf. repeat (apply elem_of_cons in Hf as [->|Hf]; [cbn; lia|]).
    by apply not_elem_of_nil in Hf.
  - split.
    + eexists ∅. vm_compute. done.
    + intros r Hr (_ & _ & _). vm_compute in Hr. repeat (apply elem_of_cons in Hr as [->|Hr]; [done|]).
      by apply not_elem_of_nil in Hr.
  - by_decide.
  - by_decide.
  - reflexivity.
  - by_decide.
Defined.

(** Three uploads, two of them of the same picture, statement by statement in turn. *)
Definition demo_reqs : list req :=
  [Req "alice" "m2" "x.png"; Req "dave" "m2" "y.png"; Req "erin" "m1" "z.txt"].
Definition demo_start : config := start_of demo_reqs (w_db w0) "2020-08-08 12:00:00".
Definition demo_schedule : list nat := mjoin (replicate 8 [0; 1; 2])%nat.
Definition demo_end : config := default demo_start (play demo_schedule demo_start).

Lemma demo_runs : runs 24 demo_start demo_end.
Proof.
  apply (play_runs demo_schedule demo_start 0 demo_start); [constructor|]. unfold demo_end.
  assert (bool_decide (is_Some (play demo_schedule demo_start)) = true) as Hs by (vm_compute; reflexivity).
  apply bool_decide_eq_true in Hs as [c ->]. done.
Qed.

Lemma demo_reqs_ok : Forall req_ok demo_reqs.
Proof. repeat constructor; try reflexivity; try (cbn; lia); by_decide. Qed.

Lemma uploads_interleave_witness :
  (finished demo_end \/ exists c', pstep demo_end c') /\ (forall u, Stuck u ∉ c_procs demo_end) /\
  (forall r, r ∈ t_list (db_tables (c_db demo_end)) -> l_md5 r ∈ f_md5 <$> t_file (db_tables (c_db demo_end))).
Proof.
  pose proof (uploads_interleave (w_db w0) "2020-08-08 12:00:00" demo_reqs 24 demo_end) as Hall.
  assert (24 <= 8 * length demo_reqs /\ (finished demo_end \/ exists c', pstep demo_end c') /\
    (forall u, Stuck u ∉ c_procs demo_end) /\
    (forall r, r ∈ t_list (db_tables (c_db demo_end)) -> l_md5 r ∈ f_md5 <$> t_file (db_tables (c_db demo_end))))%nat as (_ & ? & ? & ?).
  { destruct Hall as (? & ? & ? & ? & _); [done|exact demo_consistent|reflexivity|vm_compute; reflexivity|
      exact demo_reqs_ok|exact demo_runs|done]. }
  done.
Defined.

(** The picture has three entries and is counted twice. *)
Lemma uploads_interleave_end_witness :
  c_procs demo_end = [Return 0; Return 0; Return 0] /\
  (refs "m2" (t_list (db_tables (c_db demo_end))) = 3)%nat /\
  (forall f, f ∈ t_file (db_tables (c_db demo_end)) ->
     f_count f <= Z.of_nat (refs (f_md5 f) (t_list (db_tables (c_db demo_end))))).
Proof.
  split; [vm_compute; reflexivity|]. split; [vm_compute; reflexivity|].
  destruct (uploads_interleave_end (w_db w0) "2020-08-08 12:00:00" demo_reqs 24 demo_end)
    as (_ & Hc & _); [done|exact demo_consistent|reflexivity|vm_compute; reflexivity|exact demo_reqs_ok|
      exact demo_runs|by apply all_return|].
  intros f Hf. apply (Hc f Hf).
Defined.

Lemma demo_working : working w0.
Proof.
  split; try done. unfold cfg_keys. repeat apply Forall_cons_2; [..|constructor];
    eexists; apply demo_cfg_value; vm_compute; reflexivity.
Qed.

Lemma demo_login_ok : login_ok true "alice" "pw1".
Proof.
  split; [by_decide|reflexivity|cbn; lia|by_decide|cbn; lia|].
  unfold fits_request. apply Nat.ltb_lt. vm_compute. reflexivity.
Qed.

Lemma demo_users_ok : users_ok (tabs w0).
Proof.
  split; [by_decide|]. intros r Hr. vm_compute in Hr. repeat (apply elem_of_cons in Hr as [->|Hr]; [reflexivity|]).
  by apply not_elem_of_nil in Hr.
Qed.

Lemma demo_upload_ok : upload_ok true "alice" "guess" "m2" "x.png" (w_now w0).
Proof.
  split; [by apply demo_args; [..|cbn; lia]|by_decide|by_decide|by_decide|by_decide|cbn; lia| |by_decide].
  unfold fits_request. apply Nat.ltb_lt. vm_compute. reflexivity.
Qed.

Lemma demo_tokens u s : kv w0 !! u = Some (VStr s) -> (String.length s <= 127)%nat.
Proof.
  change (kv w0) with demo_kv. unfold demo_kv. intros [_ [= <-]]%lookup_singleton_Some. cbn. lia.
Qed.

(** alice logs in and adds bob's picture with a guessed token. *)
Lemma session_correct_witness :
  exists w1, login_main demo_env (post true (login_doc "alice" "pw1")) w0 = Ok (tt, w1) /\ tabs w1 = tabs w0 /\
    exists answer token w2, w_out w1 = w_out w0 ++ [header; answer] /\ token_of answer = Some token
      /\ md5_main demo_cfg (post true (md5_doc "alice" "guess" "m2" "x.png")) w1 = Ok (tt, w2)
      /\ consistent (tabs w2).
Proof.
  destruct (session_correct demo_env demo_cfg true "alice" "pw1" "guess" "m2" "x.png" w0) as (w1 & E & Et & Hc).
  - exact demo_working.
  - reflexivity.
  - exact demo_login_ok.
  - exact demo_users_ok.
  - exact demo_consistent.
  - vm_compute. reflexivity.
  - exact demo_upload_ok.
  - exists w1. split; [exact E|]. split; [exact Et|].
    destruct Hc as [[Hn _]|(_ & answer & token & w2 & Ho & Ht & E2 & HT2 & _)].
    + destruct Hn. clear E Et. split; [by_decide|]. exists (UserRow "alice" "A" "pw1" "1" "t0" "a@d.e"). split; [left|done].
    + exists answer, token, w2. exact (conj Ho (conj Ht (conj E2 HT2))).
Defined.

(** A stranger withdraws bob's share of "c.png". *)
Lemma cancel_without_token_witness :
  exists r w', sharefilesop_main demo_cfg None (OpBufs None None None None) (Some "cmd=cancel"%string)
      (post true (share_doc "bob" "m2" "c.png")) shared_world = Ok (r, w')
    /\ tabs w' = drop_share "bob" "m2" "c.png" (tabs shared_world).
Proof.
  destruct (cancel_without_token demo_cfg (OpBufs None None None None) true "bob" "m2" "c.png" shared_world
    {["m2c.png"%string := 0]} {["m2c.png"%string := "c.png"%string]} (ShareRow "bob" "m2" "t4" "c.png" 0))
    as (r & w' & E & Ht & _).
  - apply (working_step w0); [exact demo_working|reflexivity..].
  - split; [by apply demo_args; [..|cbn; lia]|by_decide|by_decide|by_decide|cbn; lia|].
    unfold fits_request. apply Nat.ltb_lt. vm_compute. reflexivity.
  - by_decide.
  - vm_compute. reflexivity.
  - reflexivity.
  - eexists. reflexivity.
  - reflexivity.
  - eexists. reflexivity.
  - by_decide.
  - split; [reflexivity|split; reflexivity].
  - exists r, w'. exact (conj E Ht).
Defined.



(** A form whose file is the configuration. *)
Lemma upload_replaces_configuration_witness :
  exists w', recv_save_file true true (Z.of_nat (length (form_body (demo_form CFG_PATH))))
      (bytes_of (stdin (form_request (demo_form CFG_PATH)))) [] w0 =
      Ok ((0, "alice"%string, CFG_PATH, "m3"%string), w')
    /\ w_fs w' !! CFG_PATH = Some (text_of [0; 13; 10; 255]).
Proof.
  apply (upload_replaces_configuration (demo_form CFG_PATH) [] w0); [apply demo_form_ok; right; by left|reflexivity].
Defined.
