(* ===== verification/PublicWitnesses.v ===== *)
(** Concrete runs of the lists of shared files, on the servers of Server.v. *)

From Stdlib Require Import ZArith Lia Bool Ascii String.
From stdpp Require Import base tactics numbers list strings gmap sorting.
From S2P Require Import Prelude CString CgiUtil Text Double CJson CJsonParse CJsonPrint CJsonRoundtrip.
From S2P Require Import World MysqlOp RedisOp Sql Kv CgiCommon Logic Catalogue FilesOp Files ShareOps.
From S2P Require Import Ranking System Public Server Witnesses.

#[local] Existing Instance demo.

(** Two shares of bob, downloaded 3 and 8 times; Redis has lost the ranking. *)
Definition row_b : share_row := ShareRow "bob" "m1" "t5" "b.txt" 3.
Definition row_c : share_row := ShareRow "bob" "m2" "t4" "c.png" 8.
Definition two_shares : tables := Tables (t_user demo_tables) (t_file demo_tables)
  [ListRow "alice" "m1" "t1" "a.txt" 0 0; ListRow "bob" "m1" "t2" "b.txt" 1 0; ListRow "bob" "m2" "t3" "c.png" 1 0]
  [CountRow "alice" 1; CountRow "bob" 2; CountRow SHARE_COUNT 2] [row_b; row_c].
Definition shares_world (k : keyspace) : world := World demo two_shares k [] (w_fs w0) (w_now w0) [] 0 0.

Lemma two_shares_rankable : rankable two_shares demo_kv.
Proof.
  split; [by_decide|by_decide|done|by_decide|]. exists ∅. split; [done|]. split; [by_decide|]. done.
Qed.




(** bob's share is downloaded, and the ranking is listed. *)
Definition demo_public : list public_op := [PubDownload "m2" "c.png"; PubRank 0 10]%string.
Definition downloaded (out : list string) : world :=
  World demo (raise_pv "m2" "c.png" 1 (tabs shared_world))
    (put_zset FILE_PUBLIC_ZSET {["m2c.png"%string := 1]} (kv shared_world)) [] (w_fs w0) (w_now w0) out 0 0.
Definition ranked_out : list string :=
  [return_status "017"; cJSON_Print (files_document [rank_object (ShareRow "bob" "m2" "t4" "c.png" 1)])].

Lemma demo_public_steps : public_steps demo_cfg shared_world demo_public (downloaded ranked_out).
Proof.
  apply (ps_op demo_cfg _ _ (-1) _ (downloaded [return_status "017"])); [by split|by vm_compute| |reflexivity|].
  { split; [by apply demo_args; [..|cbn; lia]|]. split; [reflexivity|].
    exists (ShareRow "bob" "m2" "t4" "c.png" 0). split; [by_decide|]. split; [split; reflexivity|by_decide]. }
  apply (ps_op demo_cfg _ _ 0 _ (downloaded ranked_out)); [by split|by vm_compute| |reflexivity|].
  { split; [by_decide|]. split; [by_decide|]. split; [by_decide|]. split; [by_decide|done]. }
  apply ps_nil.
Qed.


(** The set is only compared with the table by its size: a ranking with an old
    number of downloads is shown as it is. *)
Definition stale_keys : keyspace :=
  {[FILE_PUBLIC_ZSET := VZset (<["m1b.txt" := 9]> {["m2c.png" := 8]});
    FILE_NAME_HASH := VHash (<["m1b.txt" := "b.txt"]> {["m2c.png" := "c.png"]})]}%string.

Definition stale_answer : string := cJSON_Print (files_document [rank_object (ShareRow "bob" "m1" "t5" "b.txt" 9)]).

Theorem ranking_stale :
  get_ranking_filelist demo_cfg 0 1 (shares_world stale_keys) = Ok (0, set_out [stale_answer] (shares_world stale_keys))
  /\ row_b ∈ t_share (tabs (shares_world stale_keys)) /\ s_pv row_b = 3.
Proof. split; [reflexivity|]. split; [left|reflexivity]. Qed.
